(* ===== verification/_CoqProject ===== *)
-Q . S2P
Prelude.v
PyFloat.v
PyValue.v
PyTime.v
IsoTime.v
Regex.v
Sha256.v
Contracts.v
ContractsRun.v
ContractsOps.v
Redaction.v
Json.v
Security.v
Bearer.v
BearerProps.v
AgUi.v
McpModels.v
Runtime.v
Runtimes.v
RuntimeProps.v
Correlate.v
Catalog.v
Tables.v
Repository.v
RepositorySpecs.v
RepositoryStore.v
RepositoryProps.v
MemoryEngine.v
Executor.v
ExecutorProps.v
GatewayServer.v
GatewayServerProps.v
RepositoryEvents.v
RepositoryTheorems.v
RepositoryClients.v
Observability.v
RunState.v
GraphTools.v
Graph.v
GraphSteps.v
GraphFakes.v
GraphLemmas.v
GraphFlow.v
GraphGate.v
GraphBudget.v
GraphEvents.v
GraphFindings.v
GraphOutcome.v
GraphExact.v
GraphGuards.v
GraphWorld.v
ObservabilityLemmas.v
ObservabilityProps.v
ObservabilityTasks.v
ApiStore.v
Engines.v
Api.v
ApiLemmas.v
ApiProps.v
ApiCancel.v
ApiExact.v
Telemetry.v
Tracing.v
Instrument.v
InstrumentProps.v
ApiEvents.v
ApiServer.v
ApiServerProps.v
Worker.v
FileSystem.v
SkillPack.v
SkillPackProps.v
