(* ===== verification/Prelude.v ===== *)
(** * Verification of the Agent Operations Workbench: root of the development

    The workbench investigates incidents with an agent under human control.  A
    request becomes a _run_: a graph of steps classifies it, plans, reads
    telemetry through a tool gateway, delegates to a specialist, derives
    findings, proposes actions, evaluates them against a policy, waits for a
    human approval and executes what was approved.  Everything is recorded in a
    relational store, which the UI replays.  This library models the Python of
    [apps/], [packages/] and [skills/] and proves what makes those parts correct.

    ** The parts and how they interact

    - The _API_ ([apps/api/]) takes the requests of users, checks their scopes and
      tenants, starts, cancels and resumes runs, records decisions on approvals
      and streams events.
    - The _orchestrator graph_ ([apps/orchestrator/graph.py], [state.py],
      [policies.py]) is a state machine over a run state.  It calls a tool
      gateway, a specialist, a model, a policy and a store through injected
      clients, spends budgets, and opens a circuit breaker per dependency.  The
      _runtime_ ([runtime.py]) routes model calls, retries them and accounts for
      them; the _worker_ ([apps/worker/]) runs queued jobs through the graph.
    - The _tool gateway_ ([apps/mcp_server/]) authorizes, validates, executes and
      audits a tool call, and replays writes under an idempotency key; its server
      puts it behind HTTP and the MCP SDK.
    - The _specialist_ ([apps/a2a_agents/observability/]) correlates evidence in
      tasks that other agents deliver.
    - The _repository_ ([packages/persistence/]) keeps runs, events, approvals,
      invocations, findings, tasks and audit records per tenant, and redacts
      what it stores.
    - The _contracts_ ([packages/contracts/]) are the validated records the other
      parts exchange; _security_ ([packages/security/]) decides identities,
      scopes, tenants, tool allowlists and limits; the _UI adapter_
      ([packages/protocols/ag_ui.py]) decides which events are shown;
      _telemetry_ ([packages/telemetry/]) wraps bodies in spans and counts.
    - Two _scripts_ ([packages/contracts/export_schemas.py],
      [skills/_generator.py]) generate files from contracts and catalog.

    ** Files, in the order of their dependencies

    Python itself:
    - [Prelude]: results and exceptions, the state-and-error monad [M], its
      weakest preconditions [wp] and the frame relation [steps], shared tactics.
    - [PyFloat], [PyValue], [PyTime], [IsoTime], [Regex], [Sha256], [Json]:
      binary64 floats, dynamic values with strings and dicts, instants and their
      texts, a matcher for [re] proved equivalent to a declarative semantics, the
      hash, and [json.loads] proved to read what [json.dumps] writes.
    - [FileSystem]: a tree of texts, for the scripts.
    Data:
    - [Contracts], [ContractsRun], [ContractsOps]: the class [Contract] of
      pydantic models and its instances, one module per model.
    Security and the UI:
    - [Redaction]: the repository's hook (module [Redact]) and the gateway's
      ([McpRedact]).
    - [Security]: modules [Identity], [Authz], [Allowlist], [Limits] and the
      gateway's [AuthContext].  [Bearer], [BearerProps]: tokens, key sets and the
      identity of a request, and what a token proves.
    - [AgUi]: the mapping and filtering of events.
    Gateway and catalog:
    - [McpModels]: the input model of every tool.  [Catalog]: tool metadata and
      the policy evaluators.
    - [Executor], [ExecutorProps]: [execute_tool] and the tool handlers over the
      repository, and their guarantees.  [GatewayServer], [GatewayServerProps]:
      middleware, tool functions, routes and prompts around it.
    The runtime and the specialist:
    - [Runtime], [Runtimes], [RuntimeProps]: routing, ledger, retries, structured
      outputs, the fake and the provider runtime.
    - [Correlate], [Observability], [ObservabilityLemmas], [ObservabilityProps],
      [ObservabilityTasks]: the correlation, the task service with the points
      where a request is suspended, and what they guarantee.
    Persistence:
    - [Tables]: rows, constraints and the class [Engine] of databases with its
      laws; [Repository]: every method of [SqlAlchemyRepository], in the order
      of the source's reads, checks, writes and conversions.
    - [RepositorySpecs], [RepositoryStore], [RepositoryProps],
      [RepositoryEvents], [RepositoryTheorems], [RepositoryClients]: one
      specification per method, the abstract store they refine, its invariants,
      the guarantees, and what a client of one tenant keeps; [MemoryEngine]: an
      engine on which they are evaluated.
    Orchestration:
    - [RunState], [GraphTools]: run state, budgets, circuit breaker, the tool
      registry and the gate of tool calls.
    - [Graph], [GraphSteps]: the methods of [OrchestratorGraph] over the class
      [Deps] of injected clients, every [_do_*] step, [run] and
      [resume_after_approval]; [GraphFakes]: the default clients as an instance.
    - [GraphLemmas], [GraphFlow], [GraphGate], [GraphBudget], [GraphEvents],
      [GraphFindings], [GraphOutcome], [GraphExact], [GraphGuards],
      [GraphWorld]: what they guarantee.
    Processes:
    - [ApiStore], [Api]: the caches and the graph's store over the repository,
      every route and the background task.  [Engines]: the database of a process
      and its singleton.  [ApiServer]: the process, with its middleware, routes,
      exception handlers and waiting tasks.
    - [ApiLemmas], [ApiProps], [ApiCancel], [ApiExact], [ApiEvents]: what histories
      of requests keep, what a cancellation prevents, what a decision brings about,
      and streams of events.
      [ApiServerProps]: what holds of the process, whoever sends requests.
    - [Worker]: the in-memory queue and its properties.
    Telemetry and scripts:
    - [Telemetry], [Tracing], [Instrument], [InstrumentProps]: conventions and
      metrics, spans as combinators, instrumented bodies, and their properties.
    - [SkillPack], [SkillPackProps]: schema export and skill-pack generation.

    Definitions keep the source's names, without a leading underscore.  A
    Python object is a record, a module-level table an association list, a
    method a computation in [M] over the state it reads and writes; exceptions
    are values of [exn] and propagate as in Python, the [finally] and rollback
    of a transaction included.

    ** What the theorems show

    - _Human control_ ([ApiServerProps], [ApiProps], [ApiCancel], [ApiExact],
      [GraphGate], [GraphExact], [GraphOutcome]): over every history of requests
      the API makes no write call but those of proposed actions with a stored
      approval, and that approval, unless the database held it at the start or
      another process wrote it, goes back to a request with a verified token;
      before the
      approval gate a run only reads; a resumption executes nothing but approved
      actions, each at most once, and all of them when it ends completed; a
      decision reaches the run that waits for it; every call is of a registered
      tool, with validated arguments and not destructive; once a cached run is
      cancelled, no later request makes the graph call anything for it.
    - _Who may do what_ ([BearerProps], [ApiServerProps], [ApiProps],
      [GatewayServerProps], [ExecutorProps], [ObservabilityTasks], [Security]):
      in oidc mode identities come from verified tokens, and no endpoint but the
      probes is reached and no tool of the gateway runs without one; routes ask
      for their scopes; tenants are isolated in the API, the gateway, the
      specialist and the repository; a tool call has the scopes, and one that
      executes something an approval, but for the flag that the gate and the input
      model read differently ([gate_misses]).
    - _Bounded work_ ([GraphGate], [GraphBudget], [GraphGuards], [RuntimeProps]): a
      run always ends, and one that is new, or stands at the gate with proposals,
      is left with a settled status if it returns; its calls stay within its
      budgets; retries are bounded; the circuit breaker counts consecutive
      failures.
    - _Evidence_ ([GraphFindings], [ObservabilityProps]): the specialist's
      correlation is sound and its output checked, findings are well formed, and
      nothing is proposed without them.
    - _The record_ ([GraphEvents], [RepositoryTheorems], [ApiEvents],
      [ExecutorProps]): events are numbered and streams resume without loss; the
      repository refines an abstract store for every engine that obeys the laws,
      with ownership, append-only logs, final decisions, dense numbering, replay
      and idempotent creation; calls of catalogued tools are audited, and keyed
      writes are replayed after any calls that came between.
    - _Redaction_ ([Redaction], [RepositoryTheorems], [InstrumentProps]): what the
      hooks let through, and that stored payloads are their outputs.
    - _The rest_: exactly the safe events are shown ([AgUi]); tasks run once and
      keep their results ([ObservabilityTasks]); jobs are served in order
      ([Worker]); prompts are filled at once ([GatewayServerProps]);
      instrumentation is transparent and counters account for every call
      ([InstrumentProps]); generated files agree with their sources
      ([SkillPackProps]).
    - _Where the code does other than it says_: the theorems named
      [lost_race_is_not_retried], [stored_approval_never_expires],
      [outage_fails_reads], [ticket_executes_unapproved],
      [audit_decision_is_masked] and [anonymous_requests_fail], and the examples
      beside the properties, prove behaviour that comments or callers do not
      expect.

    ** Parameters and what is assumed of them

    - [Deps W] (the graph's clients) has no laws: the graph's theorems hold for
      whatever the clients return or raise.
    - [Engine W] is SQLAlchemy and the database: [EngineLaws] states that a flush
      either writes rows that satisfy the declared constraints or raises, that a
      commit publishes what was flushed and raises after a failed flush, and
      that a rollback discards.  [QuietEngine] adds that nothing fails without
      reason, and only the liveness theorems use it.  Transactions are serial; a
      race with another writer is a flush that fails.
    - [Pydantic] is how pydantic coerces integers, flags and instants; [Provider]
      is [asyncio] and LiteLLM.  The environment, the clocks, [urlopen], PyJWT,
      an injected verifier, the outcome of a timeout and the trace identifier
      are arguments.
    - [MetricsSdk] and [TracingSdk] are OpenTelemetry.  Their operations may
      raise; [well_behaved] asks that none touches the application and that
      entering and leaving a span and reading the clock do not raise, and
      [refused_entry_skips_the_body] shows that the former is needed.
    - The JSON Schemas of the contracts are pydantic's; [generated_files_agree]
      asks that they are JSON.
    - Requests of a process run one after the other, except where a specialist's
      task is suspended, and a background task or a job between two of them: a
      cancellation that arrives while the graph works on the run, and that
      would reach it through the shared state object, is not modelled; header names
      are lower-case.  [writes_trace_to_tokens] asks that the identity provider
      names tenants without surrounding blanks.

    ** Bounds and fuel

    The driver's loop takes fuel; [run_fuel] is 14 and [run_terminates] proves
    that it never runs out and that more changes nothing.  Substitution
    and hashing recurse on one more than the length of their input, which
    [sub_from_fuel] and [blocks_fuel] show to be enough, and [json.loads] on
    twice that, enough to read back whatever [json.dumps] writes
    ([loads_dumps]); [PyFloat.repr] searches at most 17 digits and 400 places
    of the decimal point, which is what binary64 needs.  Integers of Python are
    [Z]; floats are binary64 to the bit; strings are Latin-1 code points, and
    UTF-8 bytes where files are generated.

    ** What is not modelled

    FastAPI's matching of paths and parsing of requests, the wiring of FastMCP
    and of the telemetry middleware; migrations and column widths; the setters
    that inject a verifier or a repository (an argument here); aliasing between the live run state and its saved copies;
    characters beyond Latin-1 outside generated files; the TypeScript UI,
    deployment and tests.  Texts of pydantic's errors name the field only. *)

From stdpp Require Import base list strings gmap.
From Stdlib Require Import ZArith Lia.

(** ** Python results

    A Python call either returns a value or raises.  The exception classes are
    those the orchestrator, its clients and the persistence layer name; the
    gateway's carry an error code and an HTTP status, 0 where they have none ([CodedError]), and any
    other [Exception] subclass is [OtherError].  The runtime's model errors say whether they may be
    retried ([ModelError]). *)

Inductive exn : Type :=
  | TimeoutError (msg : string)
  | ConnectionError (msg : string)
  | RuntimeError (msg : string)
  | ValueError (msg : string)
  | TypeError (msg : string)
  | KeyError (msg : string)
  | AttributeError (msg : string)
  | AssertionError (msg : string)
  | OverflowError (msg : string)
  | ValidationError (msg : string)
  | BudgetExceededError (msg budget : string)
  | RunCancelledError (msg : string)
  | CircuitOpenError (msg : string)
  | CodedError (cls code msg : string) (status : Z)
  | ModelError (cls msg : string) (retryable : bool)
  | OtherError (cls msg : string).

(** [str(exc)] *)
Definition exn_str (e : exn) : string :=
  match e with
  | TimeoutError m | ConnectionError m | RuntimeError m | ValueError m | TypeError m
  | KeyError m | AttributeError m | AssertionError m | OverflowError m | ValidationError m
  | BudgetExceededError m _ | RunCancelledError m | CircuitOpenError m
  | CodedError _ _ m _ | ModelError _ m _ | OtherError _ m => m
  end.

(** [exc.__class__.__name__] *)
Definition exn_class (e : exn) : string :=
  match e with
  | TimeoutError _ => "TimeoutError"
  | ConnectionError _ => "ConnectionError"
  | RuntimeError _ => "RuntimeError"
  | ValueError _ => "ValueError"
  | TypeError _ => "TypeError"
  | KeyError _ => "KeyError"
  | AttributeError _ => "AttributeError"
  | AssertionError _ => "AssertionError"
  | OverflowError _ => "OverflowError"
  | ValidationError _ => "ValidationError"
  | BudgetExceededError _ _ => "BudgetExceededError"
  | RunCancelledError _ => "RunCancelledError"
  | CircuitOpenError _ => "CircuitOpenError"
  | CodedError c _ _ _ | ModelError c _ _ | OtherError c _ => c
  end.

(** [except (TypeError, ValueError)]: pydantic's [ValidationError] is a
    [ValueError] subclass. *)
Definition is_type_or_value_error (e : exn) : bool :=
  match e with TypeError _ | ValueError _ | ValidationError _ => true | _ => false end.

(** [except (TimeoutError, ConnectionError)] *)
Definition is_timeout_or_connection (e : exn) : bool :=
  match e with TimeoutError _ | ConnectionError _ => true | _ => false end.

Inductive result (A : Type) : Type :=
  | Ok (a : A)
  | Exn (e : exn).
Arguments Ok {A} a.
Arguments Exn {A} e.

Definition is_ok {A} (r : result A) : bool := match r with Ok _ => true | Exn _ => false end.

Declare Scope py_scope.
Delimit Scope py_scope with py.

(** ** The result monad (pure code that may raise) *)

Definition rbind {A B} (r : result A) (f : A -> result B) : result B :=
  match r with Ok a => f a | Exn e => Exn e end.

Notation "'let?' x ':=' c 'in' k" := (rbind c (fun x => k))
  (at level 10, x name, c at level 200, k at level 200) : py_scope.
Notation "'guard?' c 'else' e ;; k" := (if (c : bool) then k else Exn e)
  (at level 10, c at level 99, e at level 99, k at level 200) : py_scope.

(** [[f(x) for x in l]] *)
Fixpoint map_result {A B} (f : A -> result B) (l : list A) : result (list B) :=
  match l with
  | [] => Ok []
  | x :: l' => rbind (f x) (fun y => rbind (map_result f l') (fun ys => Ok (y :: ys)))
  end.

Lemma map_result_forall2 {A B} (f : A -> result B) l ys :
  map_result f l = Ok ys -> Forall2 (fun x y => f x = Ok y) l ys.
Proof.
  revert ys. induction l as [|x l IH]; intros ys; simpl; [by intros [= <-]|].
  unfold rbind. destruct (f x) eqn:E; [|done]. destruct (map_result f l); [|done].
  intros [= <-]. constructor; auto.
Qed.

(** ** The state-and-exception monad

    [M S A]: code that mutates a state [S] and returns a value or raises.  A
    mutation made before a [raise] persists, as it does in Python. *)

Definition M (S A : Type) : Type := S -> S * result A.

Section Monad.
Context {S : Type}.

Definition ret {A} (a : A) : M S A := fun s => (s, Ok a).
Definition raise {A} (e : exn) : M S A := fun s => (s, Exn e).
Definition bind {A B} (m : M S A) (f : A -> M S B) : M S B :=
  fun s => match m s with (s', Ok a) => f a s' | (s', Exn e) => (s', Exn e) end.
(** [try: m except: h] *)
Definition try_catch {A} (m : M S A) (h : exn -> M S A) : M S A :=
  fun s => match m s with (s', Ok a) => (s', Ok a) | (s', Exn e) => h e s' end.
(** [try: m finally: f] *)
Definition try_finally {A} (m : M S A) (f : M S unit) : M S A :=
  fun s => let '(s1, r) := m s in
           match f s1 with (s2, Ok _) => (s2, r) | (s2, Exn e) => (s2, Exn e) end.
Definition gets {A} (f : S -> A) : M S A := fun s => (s, Ok (f s)).
Definition modify (f : S -> S) : M S unit := fun s => (f s, Ok tt).
Definition lift_result {A} (r : result A) : M S A := fun s => (s, r).

(** [for x in l: body(x)] *)
Fixpoint for_each {A} (l : list A) (body : A -> M S unit) : M S unit :=
  match l with
  | [] => ret tt
  | x :: l' => bind (body x) (fun _ => for_each l' body)
  end.

(** Weakest precondition with a normal and an exceptional postcondition. *)
Definition wp {A} (m : M S A) (Q : A -> S -> Prop) (E : exn -> S -> Prop) (s : S) : Prop :=
  match m s with (s', Ok a) => Q a s' | (s', Exn e) => E e s' end.

(** [m] relates its initial to its final state by [R], however it ends. *)
Definition steps {A} (R : S -> S -> Prop) (m : M S A) : Prop := forall s, R s (m s).1.
End Monad.

Notation "'let*' x ':=' c 'in' k" := (bind c (fun x => k))
  (at level 10, x name, c at level 200, k at level 200) : py_scope.
Notation "c ';;*' k" := (bind c (fun _ => k))
  (at level 199, k at level 200, right associativity) : py_scope.

Lemma bind_gets {S A B} (f : S -> A) (k : A -> M S B) s : bind (gets f) k s = k (f s) s.
Proof. done. Qed.

Lemma for_each_app {S A} (l k : list A) (b : A -> M S unit) s :
  for_each (l ++ k) b s = bind (for_each l b) (fun _ => for_each k b) s.
Proof.
  revert s. induction l as [|x l IH]; intros s; [done|]. simpl. unfold bind in *.
  destruct (b x s) as [s' [[]|e]]; [apply IH|done].
Qed.
Lemma for_each_map {S A B} (g : A -> B) (l : list A) (b : B -> M S unit) s :
  for_each (map g l) b s = for_each l (fun x => b (g x)) s.
Proof.
  revert s. induction l as [|x l IH]; intros s; [done|]. simpl. unfold bind.
  destruct (b (g x) s) as [s' [[]|e]]; [apply IH|done].
Qed.

(** *** Laws of the weakest precondition *)

Section WpLaws.
Context {S : Type}.
Implicit Types (s : S).

Lemma wp_ret {A} (a : A) Q E s : wp (ret a) Q E s <-> Q a s.
Proof. done. Qed.

Lemma wp_raise {A} e (Q : A -> S -> Prop) E s : wp (raise e) Q E s <-> E e s.
Proof. done. Qed.

Lemma wp_bind {A B} (m : M S A) (f : A -> M S B) Q E s :
  wp (bind m f) Q E s <-> wp m (fun a => wp (f a) Q E) E s.
Proof. unfold wp, bind. by destruct (m s) as [? []]. Qed.

Lemma wp_try {A} (m : M S A) h Q E s :
  wp (try_catch m h) Q E s <-> wp m Q (fun e => wp (h e) Q E) s.
Proof. unfold wp, try_catch. by destruct (m s) as [? []]. Qed.

Lemma wp_gets {A} (f : S -> A) Q E s : wp (gets f) Q E s <-> Q (f s) s.
Proof. done. Qed.

Lemma wp_modify (f : S -> S) Q E s : wp (modify f) Q E s <-> Q tt (f s).
Proof. done. Qed.

Lemma wp_lift {A} (r : result A) Q E s :
  wp (lift_result r) Q E s <-> match r with Ok a => Q a s | Exn e => E e s end.
Proof. by destruct r. Qed.

Lemma wp_mono {A} (m : M S A) (Q Q' : A -> S -> Prop) (E E' : exn -> S -> Prop) s :
  wp m Q E s ->
  (forall a s', Q a s' -> Q' a s') -> (forall e s', E e s' -> E' e s') ->
  wp m Q' E' s.
Proof. unfold wp. destruct (m s) as [? []]; auto. Qed.

Lemma wp_for_each {A} (l : list A) body (I : S -> Prop) E s :
  I s -> (forall x s', x ∈ l -> I s' -> wp (body x) (fun _ => I) E s') ->
  wp (for_each l body) (fun _ => I) E s.
Proof.
  revert s. induction l as [|x l IH]; intros s HI Hb; simpl; [done|].
  rewrite wp_bind. eapply wp_mono; [apply Hb; [set_solver|done]| |done].
  intros [] s' HI'. apply IH; [done|]. intros y s'' Hy. apply Hb. set_solver.
Qed.
End WpLaws.

(** *** Laws of step relations *)

Section StepLaws.
Context {S : Type} (R : S -> S -> Prop) `{!PreOrder R}.

Lemma steps_ret {A} (a : A) : steps R (ret a).
Proof. intros s. simpl. reflexivity. Qed.
Lemma steps_raise {A} e : steps R (raise (A:=A) e).
Proof. intros s. simpl. reflexivity. Qed.
Lemma steps_gets {A} (f : S -> A) : steps R (gets f).
Proof. intros s. simpl. reflexivity. Qed.
Lemma steps_lift {A} (r : result A) : steps R (lift_result r).
Proof. intros s. simpl. reflexivity. Qed.
Lemma steps_modify (f : S -> S) : (forall s, R s (f s)) -> steps R (modify f).
Proof. intros H s. apply H. Qed.
Lemma steps_bind {A B} (m : M S A) (f : A -> M S B) :
  steps R m -> (forall a, steps R (f a)) -> steps R (bind m f).
Proof.
  intros Hm Hf s. specialize (Hm s). unfold bind.
  destruct (m s) as [s' [a|e]]; simpl in *; [|done].
  etransitivity; [done|apply Hf].
Qed.
(** The same at one state, whose outcome the continuation may use. *)
Lemma steps_bind_at {A B} (m : M S A) (f : A -> M S B) s :
  R s (m s).1 -> (forall a s', m s = (s', Ok a) -> R s' (f a s').1) -> R s (bind m f s).1.
Proof.
  intros Hm Hf. unfold bind. destruct (m s) as [s' [a|e]]; simpl in *; [|done].
  etransitivity; [done|by apply Hf].
Qed.
Lemma steps_try {A} (m : M S A) h :
  steps R m -> (forall e, steps R (h e)) -> steps R (try_catch m h).
Proof.
  intros Hm Hf s. specialize (Hm s). unfold try_catch.
  destruct (m s) as [s' [a|e]]; simpl in *; [done|].
  etransitivity; [done|apply Hf].
Qed.
Lemma steps_for_each {A} (l : list A) body :
  (forall x, x ∈ l -> steps R (body x)) -> steps R (for_each l body).
Proof.
  induction l as [|x l IH]; intros H; simpl; [apply steps_ret|].
  apply steps_bind; [apply H; set_solver|]. intros _. apply IH. set_solver.
Qed.
(** The continuation of a check runs only when the check passes. *)
Lemma steps_bind_lift {A B} (r : result A) (f : A -> M S B) :
  (forall a, r = Ok a -> steps R (f a)) -> steps R (bind (lift_result r) f).
Proof.
  intros H s. unfold bind, lift_result. destruct r; [by apply H|simpl; reflexivity].
Qed.
Lemma steps_bind_require {B} (b : bool) e (k : unit -> M S B) :
  (b = true -> steps R (k tt)) -> steps R (bind (if b then ret tt else raise e) k).
Proof. intros H s. destruct b; [by apply H|simpl; reflexivity]. Qed.
Lemma steps_bind_refuse {B} (b : bool) e (k : unit -> M S B) :
  (b = false -> steps R (k tt)) -> steps R (bind (if b then raise e else ret tt) k).
Proof. intros H s. destruct b; [simpl; reflexivity|by apply H]. Qed.
Lemma steps_if {A} (b : bool) (m1 m2 : M S A) :
  (b = true -> steps R m1) -> (b = false -> steps R m2) -> steps R (if b then m1 else m2).
Proof. destruct b; auto. Qed.
End StepLaws.

Create HintDb steps discriminated.
#[export] Hint Resolve steps_ret steps_raise steps_gets steps_lift : steps.
