(* ===== verification/PyFloat.v ===== *)
(** * Python floats

    A Python [float] is an IEEE 754 binary64 number.  It is modelled bit for bit
    by the Standard Library's executable [spec_float] at precision 53 and
    exponent bound 1024, so that budget comparisons, the clamping of
    confidences and [round(x, n)] behave as in CPython, NaN and signed zeros
    included.  The file also holds the correctly rounded conversions the
    orchestrator relies on: integer ratios, [round], [repr] and [float(str)]. *)

From stdpp Require Import base list strings pretty.
From Stdlib Require Import ZArith Lia SpecFloat Ascii.
From S2P Require Import Prelude.

Abbreviation float := spec_float.

Module PyFloat.
Definition prec : Z := 53.
Definition emax : Z := 1024.

Definition add : float -> float -> float := SFadd prec emax.
Definition sub : float -> float -> float := SFsub prec emax.
Definition mul : float -> float -> float := SFmul prec emax.
Definition div : float -> float -> float := SFdiv prec emax.
Definition opp : float -> float := SFopp.
Definition abs : float -> float := SFabs.

(** [a < b], [a <= b], [a == b] *)
Definition ltb : float -> float -> bool := SFltb.
Definition leb : float -> float -> bool := SFleb.
Definition eqb : float -> float -> bool := SFeqb.
Definition is_nan (x : float) : bool := match x with S754_nan => true | _ => false end.
Definition is_finite (x : float) : bool :=
  match x with S754_nan | S754_infinity _ => false | _ => true end.

(** [min(a, b)] and [max(a, b)]: the first argument wins unless the second
    is strictly better, so a NaN in second position is never chosen. *)
Definition min (a b : float) : float := if ltb b a then b else a.
Definition max (a b : float) : float := if ltb a b then b else a.

(** The correctly rounded quotient of two integers ([n / d] on ints). *)
Definition ratio (n : Z) (d : positive) : float :=
  match n with
  | Z0 => S754_zero false
  | Zpos p =>
      let '(q, e, l) := SFdiv_core_binary prec emax (Zpos p) 0 (Zpos d) 0 in
      binary_round_aux prec emax false q e l
  | Zneg p =>
      let '(q, e, l) := SFdiv_core_binary prec emax (Zpos p) 0 (Zpos d) 0 in
      binary_round_aux prec emax true q e l
  end.

(** The conversion of an integer ([infinity] where CPython overflows). *)
Definition of_Z (z : Z) : float := binary_normalize prec emax z 0 false.

Definition pow10 (n : nat) : positive := Nat.iter n (Pos.mul 10) 1%positive.

(** Integer division of [a >= 0] by [b > 0], rounded half to even. *)
Definition div_half_even (a b : Z) : Z :=
  let q := (a / b)%Z in
  let r := (a mod b)%Z in
  match (2 * r ?= b)%Z with
  | Lt => q
  | Gt => (q + 1)%Z
  | Eq => if Z.even q then q else (q + 1)%Z
  end.

(** [round_half_even (m * 2^e * 10^n)], for a positive mantissa. *)
Definition scaled (m : positive) (e : Z) (n : nat) : Z :=
  let a := (Zpos m * Zpos (pow10 n))%Z in
  if (0 <=? e)%Z then (a * 2 ^ e)%Z else div_half_even a (2 ^ (- e)).

(** [round(x, n)]: the exact value is rounded half to even at [n] decimals
    and the decimal is converted back, correctly rounded. *)
Definition round (x : float) (n : nat) : float :=
  match x with
  | S754_finite s m e =>
      let r := ratio (scaled m e n) (pow10 n) in
      if s then opp r else r
  | _ => x
  end.

(** [int(x)] truncates toward zero; NaN and infinities raise. *)
Definition to_int (x : float) : result Z :=
  match x with
  | S754_zero _ => Ok 0%Z
  | S754_finite s m e =>
      let z := if (0 <=? e)%Z then (Zpos m * 2 ^ e)%Z else (Zpos m / 2 ^ (- e))%Z in
      Ok (if s then (- z)%Z else z)
  | S754_infinity _ => Exn (OverflowError "cannot convert float infinity to integer")
  | S754_nan => Exn (ValueError "cannot convert float NaN to integer")
  end.

(** [sum(l)] over floats: CPython 3.12 sums with Neumaier compensation. *)
Fixpoint sum_go (acc c : float) (l : list float) : float :=
  match l with
  | [] => if negb (eqb c (S754_zero false)) && is_finite c then add acc c else acc
  | x :: l' =>
      let t := add acc x in
      let c' := if leb (abs x) (abs acc)
                then add c (add (sub acc t) x)
                else add c (add (sub x t) acc) in
      sum_go t c' l'
  end.
Definition sum (l : list float) : float :=
  match l with
  | [] => S754_zero false
  | x :: l' => sum_go (add (S754_zero false) x) (S754_zero false) l'
  end.

(** ** [repr(x)]: the shortest decimal that reads back as [x] *)

(** The decimal point position [k]: [10^(k-1) <= m * 2^e < 10^k]. *)
Fixpoint up_to (fuel : nat) (num den : Z) (k : Z) : Z :=
  match fuel with
  | O => k
  | S f => if (den <=? num)%Z then up_to f num (den * 10) (k + 1) else k
  end.
Fixpoint down_to (fuel : nat) (num den : Z) (k : Z) : Z :=
  match fuel with
  | O => k
  | S f => if (num * 10 <? den)%Z then down_to f (num * 10) den (k - 1) else k
  end.
Definition decpt (m : positive) (e : Z) : Z :=
  let num := (Zpos m * 2 ^ (Z.max 0 e))%Z in
  let den := (2 ^ (Z.max 0 (- e)))%Z in
  if (den <=? num)%Z then up_to 400 num den 0 else down_to 400 num den 0.

(** [m * 2^e] to [n] significant digits. *)
Definition digits_at (m : positive) (e k : Z) (n : nat) : Z :=
  let sh := (Z.of_nat n - k)%Z in
  let num := (Zpos m * 2 ^ (Z.max 0 e) * 10 ^ (Z.max 0 sh))%Z in
  let den := (2 ^ (Z.max 0 (- e)) * 10 ^ (Z.max 0 (- sh)))%Z in
  div_half_even num den.

(** [D * 10^x], correctly rounded. *)
Definition of_decimal (D x : Z) : float :=
  if (0 <=? x)%Z then of_Z (D * 10 ^ x)
  else match (10 ^ (- x))%Z with Zpos d => ratio D d | _ => S754_nan end.

Fixpoint shortest (fuel n : nat) (m : positive) (e k : Z) : Z * Z :=
  let D := digits_at m e k n in
  match fuel with
  | O => (D, Z.of_nat n)
  | S f =>
      if eqb (of_decimal D (k - Z.of_nat n)) (S754_finite false m e)
      then (D, Z.of_nat n) else shortest f (S n) m e k
  end.

Fixpoint strip_zeros (fuel : nat) (D : Z) : Z :=
  match fuel with
  | O => D
  | S f => if (D mod 10 =? 0)%Z && negb (D =? 0)%Z then strip_zeros f (D / 10) else D
  end.

Definition zeros (n : nat) : string := String.string_of_list_ascii (replicate n "0"%char).

Definition format_exp (x : Z) : string :=
  let s := pretty (Z.abs x) in
  (if (x <? 0)%Z then "e-" else "e+")
    +:+ (if (String.length s <? 2)%nat then "0" +:+ s else s).

Definition repr_pos (m : positive) (e : Z) : string :=
  let k0 := decpt m e in
  let '(D0, n) := shortest 17 1 m e k0 in
  (* rounding up to a power of ten moves the point *)
  let k := if (10 ^ n <=? D0)%Z then (k0 + 1)%Z else k0 in
  let ds := pretty (strip_zeros 20 D0) in
  let nd := Z.of_nat (String.length ds) in
  if (-4 <? k)%Z && (k <=? 16)%Z then
    if (k <=? 0)%Z then "0." +:+ zeros (Z.to_nat (- k)) +:+ ds
    else if (nd <=? k)%Z then ds +:+ zeros (Z.to_nat (k - nd)) +:+ ".0"
    else String.substring 0 (Z.to_nat k) ds +:+ "."
         +:+ String.substring (Z.to_nat k) (String.length ds - Z.to_nat k) ds
  else
    String.substring 0 1 ds
      +:+ (if (1 <? nd)%Z then "." +:+ String.substring 1 (String.length ds - 1) ds else "")
      +:+ format_exp (k - 1).

Definition repr (x : float) : string :=
  match x with
  | S754_nan => "nan"
  | S754_infinity false => "inf"
  | S754_infinity true => "-inf"
  | S754_zero false => "0.0"
  | S754_zero true => "-0.0"
  | S754_finite s m e => (if s then "-" else "") +:+ repr_pos m e
  end.

(** ** Order lemmas *)

Lemma ltb_leb x y : ltb x y = true -> leb x y = true.
Proof. unfold ltb, leb, SFltb, SFleb. by destruct (SFcompare x y) as [[]|]. Qed.

Lemma min_le_l a b : leb a a = true -> leb (min a b) a = true.
Proof.
  intros Ha. unfold min. destruct (ltb b a) eqn:H; [|done]. by apply ltb_leb.
Qed.

Lemma compare_nan x y :
  is_nan x = false -> is_nan y = false -> exists c, SFcompare x y = Some c.
Proof. destruct x, y; simpl; intros; try done; eauto. Qed.

Lemma compare_antisym x y :
  SFcompare y x = match SFcompare x y with Some c => Some (CompOpp c) | None => None end.
Proof.
  destruct x as [[]|[]| |[] m e], y as [[]|[]| |[] m' e']; simpl; try done;
    rewrite (Z.compare_antisym e e'); destruct (Z.compare e e'); simpl; try done;
    do 2 f_equal; change (Pos.compare_cont Eq m' m) with (Pos.compare m' m);
    change (Pos.compare_cont Eq m m') with (Pos.compare m m');
    by rewrite (Pos.compare_antisym m m').
Qed.

(** On numbers that are not NaN, [not (x < y)] is [y <= x]. *)
Lemma ltb_false_leb x y :
  is_nan x = false -> is_nan y = false -> ltb x y = false -> leb y x = true.
Proof.
  intros Hx Hy. unfold ltb, leb, SFltb, SFleb. rewrite (compare_antisym x y).
  destruct (compare_nan x y Hx Hy) as [c ->]. by destruct c.
Qed.

(** The order of the numbers is that of a lexicographic key, so it is transitive. *)
Definition key (x : float) : Z * Z * Z :=
  match x with
  | S754_infinity true => (-2, 0, 0)
  | S754_finite true m e => (-1, - e, Zneg m)
  | S754_zero _ | S754_nan => (0, 0, 0)
  | S754_finite false m e => (1, e, Zpos m)
  | S754_infinity false => (2, 0, 0)
  end%Z.
Definition key_le (a b : Z * Z * Z) : Prop :=
  let '(a1, a2, a3) := a in
  let '(b1, b2, b3) := b in
  (a1 < b1 \/ (a1 = b1 /\ (a2 < b2 \/ (a2 = b2 /\ a3 <= b3))))%Z.
Lemma leb_key x y :
  leb x y = true <-> is_nan x = false /\ is_nan y = false /\ key_le (key x) (key y).
Proof.
  unfold leb, SFleb, key_le.
  destruct x as [[]|[]| |[] m e], y as [[]|[]| |[] m' e']; simpl;
    try (split; [intros; try done; repeat split; lia|intros (? & ? & ?); try done; lia]).
  - change (Pos.compare_cont Eq m m') with (Pos.compare m m').
    destruct (Z.compare_spec e e'), (Pos.compare_spec m m'); simpl;
      (split; [intros; try done; repeat split; lia|intros (? & ? & ?); try done; lia]).
  - change (Pos.compare_cont Eq m m') with (Pos.compare m m').
    destruct (Z.compare_spec e e'), (Pos.compare_spec m m'); simpl;
      (split; [intros; try done; repeat split; lia|intros (? & ? & ?); try done; lia]).
Qed.
Lemma leb_trans x y z : leb x y = true -> leb y z = true -> leb x z = true.
Proof.
  rewrite !leb_key. intros (Hx & _ & Hxy) (_ & Hz & Hyz). split; [done|]. split; [done|].
  destruct (key x) as [[? ?] ?], (key y) as [[? ?] ?], (key z) as [[? ?] ?]. unfold key_le in *. lia.
Qed.

(** [max(0.0, min(1.0, x))] lies in [0.0, 1.0] for every [x], NaN included. *)
Definition zero : float := S754_zero false.
Definition one : float := of_Z 1.

Lemma clamp_range x :
  leb zero (max zero (min one x)) = true /\ leb (max zero (min one x)) one = true.
Proof.
  assert (Hm : leb (min one x) one = true) by (by apply min_le_l).
  unfold max. destruct (ltb zero (min one x)) eqn:H.
  - by split; [apply ltb_leb|].
  - by split.
Qed.

Lemma leb_not_nan_l x y : leb x y = true -> is_nan x = false.
Proof. by destruct x. Qed.
Lemma leb_not_nan_r x y : leb x y = true -> is_nan y = false.
Proof. by destruct x as [| | |], y as [| | |]. Qed.
End PyFloat.

Example round_cost : PyFloat.round (PyFloat.add (PyFloat.ratio 5 100) (PyFloat.ratio 5 100)) 4
                     = PyFloat.ratio 1 10.
Proof. vm_compute. reflexivity. Qed.
Example repr_tenth : PyFloat.repr (PyFloat.ratio 1 10) = "0.1".
Proof. vm_compute. reflexivity. Qed.
Example repr_sum : PyFloat.repr (PyFloat.add (PyFloat.ratio 1 10) (PyFloat.ratio 2 10))
                   = "0.30000000000000004".
Proof. vm_compute. reflexivity. Qed.
Example repr_more :
  map PyFloat.repr [PyFloat.of_Z 600; PyFloat.of_decimal 1 22; PyFloat.of_decimal 15 (-8);
                    PyFloat.of_decimal 123456 (-3); PyFloat.of_decimal 1 16; PyFloat.of_decimal 1 (-4)]
  = ["600.0"; "1e+22"; "1.5e-07"; "123.456"; "1e+16"; "0.0001"].
Proof. vm_compute. reflexivity. Qed.
Example sum_tenths : PyFloat.eqb (PyFloat.sum (replicate 10 (PyFloat.ratio 1 10))) (PyFloat.of_Z 1) = true.
Proof. vm_compute. reflexivity. Qed.
