(* ===== verification/PyValue.v ===== *)
(** * Python values, strings and dictionaries

    The JSON-like values that flow through the orchestrator as [dict[str, Any]]
    and [Any], with the built-in operations the source applies to them:
    [str], [repr], [float], [list], truth, [dict.get], [json.dumps], and the
    string methods.  A [str] is a sequence of Latin-1 code points (0 to 255),
    one character each; a [dict] is an association list in insertion order,
    with string keys. *)

From stdpp Require Import base list strings pretty.
From Stdlib Require Import ZArith Lia Ascii SpecFloat.
From S2P Require Import Prelude.
From S2P Require Import PyFloat.

Inductive pyval : Type :=
  | VNone
  | VBool (b : bool)
  | VInt (z : Z)
  | VFloat (f : float)
  | VStr (s : string)
  | VList (l : list pyval)
  | VDict (d : list (string * pyval))
  | VObj (text : string).  (** any other object, known by its [str()] *)

Abbreviation dict := (list (string * pyval)).

(** Induction through the nested lists. *)
Section PyvalInd.
Variable P : pyval -> Prop.
Hypothesis HNone : P VNone.
Hypothesis HBool : forall b, P (VBool b).
Hypothesis HInt : forall z, P (VInt z).
Hypothesis HFloat : forall f, P (VFloat f).
Hypothesis HStr : forall s, P (VStr s).
Hypothesis HList : forall l, Forall P l -> P (VList l).
Hypothesis HDict : forall d, Forall (fun kv => P kv.2) d -> P (VDict d).
Hypothesis HObj : forall t, P (VObj t).

Fixpoint pyval_induction (v : pyval) : P v :=
  match v with
  | VNone => HNone
  | VBool b => HBool b
  | VInt z => HInt z
  | VFloat f => HFloat f
  | VStr s => HStr s
  | VList l => HList l ((fix go l : Forall P l :=
      match l with
      | [] => List.Forall_nil P
      | x :: l' => List.Forall_cons P x l' (pyval_induction x) (go l')
      end) l)
  | VDict d => HDict d ((fix go d : Forall (fun kv => P kv.2) d :=
      match d with
      | [] => List.Forall_nil _
      | kv :: d' => List.Forall_cons _ kv d' (pyval_induction kv.2) (go d')
      end) d)
  | VObj t => HObj t
  end.
End PyvalInd.

(** ** Strings *)

Module PyStr.
Definition code (c : ascii) : nat := nat_of_ascii c.
Definition chars : string -> list ascii := String.list_ascii_of_string.
Definition of_chars : list ascii -> string := String.string_of_list_ascii.

(** [str.isspace] on one character *)
Definition is_space (c : ascii) : bool :=
  let n := code c in
  ((9 <=? n) && (n <=? 13)) || ((28 <=? n) && (n <=? 32)) || (n =? 133) || (n =? 160).
Definition is_digit (c : ascii) : bool := (48 <=? code c) && (code c <=? 57).
Definition is_lower (c : ascii) : bool := (97 <=? code c) && (code c <=? 122).
Definition is_upper (c : ascii) : bool := (65 <=? code c) && (code c <=? 90).

Definition lower_char (c : ascii) : ascii :=
  let n := code c in
  if is_upper c || ((192 <=? n) && (n <=? 222) && negb (n =? 215))
  then ascii_of_nat (n + 32) else c.

(** [s.lower()] *)
Definition lower (s : string) : string := of_chars (map lower_char (chars s)).

Fixpoint drop_while (p : ascii -> bool) (l : list ascii) : list ascii :=
  match l with
  | [] => []
  | c :: l' => if p c then drop_while p l' else l
  end.
Definition lstrip_l (l : list ascii) : list ascii := drop_while is_space l.
(** [s.strip()] *)
Definition strip (s : string) : string :=
  of_chars (reverse (lstrip_l (reverse (lstrip_l (chars s))))).

(** [s[:n]] *)
Definition slice (n : nat) (s : string) : string := String.substring 0 n s.
(** [s[-n:]] *)
Definition slice_last (n : nat) (s : string) : string :=
  let k := String.length s in if k <=? n then s else String.substring (k - n) n s.

(** [s.startswith(p)] *)
Definition startswith (p s : string) : bool := String.prefix p s.
(** [s.endswith(p)] *)
Definition endswith (p s : string) : bool :=
  String.prefix (of_chars (reverse (chars p))) (of_chars (reverse (chars s))).
(** [p in s] *)
Fixpoint contains (p s : string) : bool :=
  String.prefix p s || match s with EmptyString => false | String _ s' => contains p s' end.

(** [s.replace(c, d)] for one-character arguments *)
Definition replace_char (c d : ascii) (s : string) : string :=
  of_chars (map (fun x => if Ascii.eqb x c then d else x) (chars s)).

(** [s.replace(old, new)] for a nonempty [old]: the occurrences from the left
    that do not overlap; [skip] counts what is left of the last one. *)
Fixpoint starts (p l : list ascii) : bool :=
  match p, l with
  | [], _ => true
  | _, [] => false
  | a :: p', b :: l' => Ascii.eqb a b && starts p' l'
  end.
Fixpoint replace_go (old new : list ascii) (skip : nat) (l : list ascii) : list ascii :=
  match l with
  | [] => []
  | c :: l' =>
      match skip with
      | S k => replace_go old new k l'
      | O => if starts old l then new ++ replace_go old new (pred (length old)) l'
             else c :: replace_go old new 0 l'
      end
  end.
Definition replace (old new s : string) : string :=
  of_chars (replace_go (chars old) (chars new) 0 (chars s)).

(** [sep.join(l)] *)
Fixpoint join (sep : string) (l : list string) : string :=
  match l with
  | [] => ""
  | [x] => x
  | x :: l' => x +:+ sep +:+ join sep l'
  end.

(** [s.split(c)] for a one-character separator *)
Fixpoint split_go (c : ascii) (acc l : list ascii) : list string :=
  match l with
  | [] => [of_chars (reverse acc)]
  | x :: l' => if Ascii.eqb x c then of_chars (reverse acc) :: split_go c [] l'
               else split_go c (x :: acc) l'
  end.
Definition split (c : ascii) (s : string) : list string := split_go c [] (chars s).

(** [s.split()]: the maximal runs without white space *)
Fixpoint words_go (acc l : list ascii) : list string :=
  let done := match acc with [] => [] | _ => [of_chars (reverse acc)] end in
  match l with
  | [] => done
  | x :: l' => if is_space x then done ++ words_go [] l' else words_go (x :: acc) l'
  end.
Definition words (s : string) : list string := words_go [] (chars s).

(** *** [repr(s)] and JSON strings *)
Definition hex_digit (n : nat) : ascii :=
  match n with
  | 0 => "0" | 1 => "1" | 2 => "2" | 3 => "3" | 4 => "4" | 5 => "5" | 6 => "6" | 7 => "7"
  | 8 => "8" | 9 => "9" | 10 => "a" | 11 => "b" | 12 => "c" | 13 => "d" | 14 => "e" | _ => "f"
  end%char.
Definition hex2 (n : nat) : string :=
  String (hex_digit (n / 16)) (String (hex_digit (n mod 16)) "").

Definition quote_char : ascii := "'"%char.
Definition dquote_char : ascii := ascii_of_nat 34.
Definition backslash : ascii := ascii_of_nat 92.

Definition printable (n : nat) : bool :=
  ((32 <=? n) && (n <=? 126)) || ((161 <=? n) && negb (n =? 173)).

Definition repr_char (q c : ascii) : string :=
  let n := code c in
  if Ascii.eqb c q || Ascii.eqb c backslash then String backslash (String c "")
  else if n =? 9 then String backslash "t"
  else if n =? 10 then String backslash "n"
  else if n =? 13 then String backslash "r"
  else if printable n then String c ""
  else String backslash ("x" +:+ hex2 n).

Definition has_char (c : ascii) (s : string) : bool := existsb (Ascii.eqb c) (chars s).

Definition concat (l : list string) : string := fold_right (fun a b => a +:+ b) "" l.

Definition repr (s : string) : string :=
  let q := if has_char quote_char s && negb (has_char dquote_char s)
           then dquote_char else quote_char in
  String q (concat (map (repr_char q) (chars s))) +:+ String q "".

Definition json_char (c : ascii) : string :=
  let n := code c in
  if Ascii.eqb c dquote_char || Ascii.eqb c backslash then String backslash (String c "")
  else if n =? 8 then String backslash "b"
  else if n =? 9 then String backslash "t"
  else if n =? 10 then String backslash "n"
  else if n =? 12 then String backslash "f"
  else if n =? 13 then String backslash "r"
  else if (32 <=? n) && (n <=? 126) then String c ""
  else String backslash ("u00" +:+ hex2 n).
Definition json (s : string) : string :=
  String dquote_char (concat (map json_char (chars s))) +:+ String dquote_char "".

(** *** [float(s)] *)
Fixpoint take_digits (l : list ascii) : list ascii * list ascii :=
  match l with
  | c :: l' => if is_digit c then let '(d, r) := take_digits l' in (c :: d, r) else ([], l)
  | [] => ([], [])
  end.
Definition digits_value (l : list ascii) : Z :=
  fold_left (fun acc c => acc * 10 + (Z.of_nat (code c) - 48))%Z l 0%Z.

(** Underscores are allowed between two digits only. *)
Fixpoint drop_underscores (prev : bool) (l : list ascii) : option (list ascii) :=
  match l with
  | [] => Some []
  | c :: l' =>
      if Ascii.eqb c "_"%char then
        match l' with
        | c' :: _ => if prev && is_digit c' then drop_underscores false l' else None
        | [] => None
        end
      else match drop_underscores (is_digit c) l' with
           | Some r => Some (c :: r)
           | None => None
           end
  end.

Definition parse_sign (l : list ascii) : bool * list ascii :=
  match l with
  | c :: l' => if Ascii.eqb c "-"%char then (true, l')
               else if Ascii.eqb c "+"%char then (false, l') else (false, l)
  | [] => (false, [])
  end.

Definition parse_exponent (l : list ascii) : option Z :=
  match l with
  | [] => Some 0%Z
  | c :: l' =>
      if Ascii.eqb (lower_char c) "e"%char then
        let '(neg, l1) := parse_sign l' in
        match take_digits l1 with
        | ([], _) => None
        | (ds, []) => Some (if neg then (- digits_value ds)%Z else digits_value ds)
        | (_, _ :: _) => None
        end
      else None
  end.

Definition parse_decimal (l : list ascii) : option float :=
  let '(ip, r) := take_digits l in
  let '(fp, r') := match r with
                   | c :: r1 => if Ascii.eqb c "."%char then take_digits r1 else ([], r)
                   | [] => ([], [])
                   end in
  match ip ++ fp with
  | [] => None
  | ds => match parse_exponent r' with
          | Some x => Some (PyFloat.of_decimal (digits_value ds) (x - Z.of_nat (length fp)))
          | None => None
          end
  end.

Definition parse_float (s : string) : option float :=
  match drop_underscores false (chars (strip s)) with
  | None => None
  | Some l =>
      let '(neg, body) := parse_sign l in
      let low := lower (of_chars body) in
      let v := if String.eqb low "inf" || String.eqb low "infinity" then Some (S754_infinity false)
               else if String.eqb low "nan" then Some S754_nan
               else parse_decimal body in
      match v with
      | Some f => Some (if neg then PyFloat.opp f else f)
      | None => None
      end
  end.
Lemma chars_app s t : chars (s +:+ t) = chars s ++ chars t.
Proof. induction s as [|c s IH]; simpl; [done|]. by rewrite IH. Qed.
Lemma chars_of_chars l : chars (of_chars l) = l.
Proof. apply String.list_ascii_of_string_of_list_ascii. Qed.
Lemma slice_length n s : (String.length (slice n s) <= n)%nat.
Proof.
  unfold slice. revert s. induction n as [|n IH]; intros [|c s]; simpl; try lia. specialize (IH s). lia.
Qed.
End PyStr.

(** ** Dictionaries *)

Section Dict.
Context {A : Type}.
Implicit Types (d : list (string * A)).

(** [d.get(k)] *)
Fixpoint dget (k : string) d : option A :=
  match d with
  | [] => None
  | (k', v) :: d' => if String.eqb k k' then Some v else dget k d'
  end.
(** [d[k] = v] keeps the position of an existing key. *)
Fixpoint dset (k : string) (v : A) d : list (string * A) :=
  match d with
  | [] => [(k, v)]
  | (k', v') :: d' => if String.eqb k k' then (k, v) :: d' else (k', v') :: dset k v d'
  end.
(** [{**d, **e}] *)
Definition dupdate d (e : list (string * A)) : list (string * A) :=
  fold_left (fun acc kv => dset kv.1 kv.2 acc) e d.
(** [k in d] *)
Definition dmem (k : string) d : bool := match dget k d with Some _ => true | None => false end.
Definition dkeys d : list string := map fst d.

Lemma dget_dset_eq k v d : dget k (dset k v d) = Some v.
Proof.
  induction d as [|[k' v'] d IH]; simpl; [by rewrite String.eqb_refl|].
  destruct (String.eqb k k') eqn:E; simpl; [by rewrite String.eqb_refl|by rewrite E].
Qed.
Lemma dget_dset_ne k k' v d : k <> k' -> dget k' (dset k v d) = dget k' d.
Proof.
  intros Hne. induction d as [|[k0 v0] d IH]; simpl.
  - by destruct (String.eqb_spec k' k); [subst|].
  - destruct (String.eqb_spec k k0) as [->|]; simpl; [|by rewrite IH].
    by destruct (String.eqb_spec k' k0); [subst|].
Qed.
Lemma dset_length k v d : length d <= length (dset k v d).
Proof.
  induction d as [|[k' v'] d IH]; simpl; [lia|]. destruct (String.eqb k k'); simpl; lia.
Qed.
Lemma dset_fresh k v d : k ∉ dkeys d -> dset k v d = d ++ [(k, v)].
Proof.
  induction d as [|[k' v'] d IH]; simpl; intros Hk; [done|]. apply not_elem_of_cons in Hk as [Hne Hk].
  destruct (String.eqb_spec k k') as [->|]; [done|]. by rewrite IH.
Qed.
End Dict.

(** ** Values *)

(** [bool(v)] *)
Definition truthy (v : pyval) : bool :=
  match v with
  | VNone => false
  | VBool b => b
  | VInt z => negb (z =? 0)%Z
  | VFloat f => negb (PyFloat.eqb f (S754_zero false))
  | VStr s => negb (String.eqb s "")
  | VList l => match l with [] => false | _ => true end
  | VDict d => match d with [] => false | _ => true end
  | VObj _ => true
  end.

(** [a or b or ... or ""] *)
Fixpoint first_truthy (l : list pyval) : pyval :=
  match l with
  | [] => VStr ""
  | v :: l' => if truthy v then v else first_truthy l'
  end.

(** [x or y] on optional values from [dict.get] *)
Definition get_or (k : string) (default : pyval) (d : dict) : pyval :=
  match dget k d with Some v => v | None => default end.

(** [type(v).__name__] *)
Definition type_name (v : pyval) : string :=
  match v with
  | VNone => "NoneType" | VBool _ => "bool" | VInt _ => "int" | VFloat _ => "float"
  | VStr _ => "str" | VList _ => "list" | VDict _ => "dict" | VObj _ => "object"
  end.

Definition bool_repr (b : bool) : string := if b then "True" else "False".

(** [repr(v)] *)
Fixpoint py_repr (v : pyval) : string :=
  match v with
  | VNone => "None"
  | VBool b => bool_repr b
  | VInt z => pretty z
  | VFloat f => PyFloat.repr f
  | VStr s => PyStr.repr s
  | VList l => "[" +:+ PyStr.join ", " (map py_repr l) +:+ "]"
  | VDict d => "{" +:+ PyStr.join ", " (map (fun kv => PyStr.repr kv.1 +:+ ": " +:+ py_repr kv.2) d) +:+ "}"
  | VObj t => t
  end.

(** [str(v)] *)
Definition py_str (v : pyval) : string := match v with VStr s => s | _ => py_repr v end.

(** [str(d.get(k, default))] *)
Definition get_str (k default : string) (d : dict) : string := py_str (get_or k (VStr default) d).

(** [json.dumps(v, default=str)] *)
Definition json_float (f : float) : string :=
  match f with
  | S754_nan => "NaN"
  | S754_infinity false => "Infinity"
  | S754_infinity true => "-Infinity"
  | _ => PyFloat.repr f
  end.
Fixpoint json_dumps (v : pyval) : string :=
  match v with
  | VNone => "null"
  | VBool b => if b then "true" else "false"
  | VInt z => pretty z
  | VFloat f => json_float f
  | VStr s => PyStr.json s
  | VList l => "[" +:+ PyStr.join ", " (map json_dumps l) +:+ "]"
  | VDict d => "{" +:+ PyStr.join ", " (map (fun kv => PyStr.json kv.1 +:+ ": " +:+ json_dumps kv.2) d) +:+ "}"
  | VObj t => PyStr.json t
  end.
(** [len(json.dumps(v, default=str))] *)
Definition json_size (v : pyval) : nat := String.length (json_dumps v).

(** [json.loads(json.dumps(v, default=str))]: what JSON can carry comes back
    unchanged, any other object comes back as its text. *)
Fixpoint json_roundtrip (v : pyval) : pyval :=
  match v with
  | VList l => VList (map json_roundtrip l)
  | VDict d => VDict (map (fun kv => (kv.1, json_roundtrip kv.2)) d)
  | VObj t => VStr t
  | _ => v
  end.

(** [float(v)] *)
Definition py_float (v : pyval) : result float :=
  match v with
  | VFloat f => Ok f
  | VInt z => let f := PyFloat.of_Z z in
              if PyFloat.is_finite f then Ok f
              else Exn (OverflowError "int too large to convert to float")
  | VBool b => Ok (PyFloat.of_Z (if b then 1 else 0))
  | VStr s => match PyStr.parse_float s with
              | Some f => Ok f
              | None => Exn (ValueError ("could not convert string to float: " +:+ PyStr.repr s))
              end
  | VNone | VList _ | VDict _ | VObj _ =>
      Exn (TypeError ("float() argument must be a string or a real number, not '"
                      +:+ type_name v +:+ "'"))
  end.

(** [int(v)] *)
Definition parse_int (s : string) : result Z :=
  let bad := Exn (ValueError ("invalid literal for int() with base 10: " +:+ PyStr.repr s)) in
  let '(neg, body) := PyStr.parse_sign (PyStr.chars (PyStr.strip s)) in
  match PyStr.drop_underscores false body with
  | Some (c :: l) =>
      match PyStr.take_digits (c :: l) with
      | (ds, []) =>
          if (4300 <? Z.of_nat (length ds))%Z
          then Exn (ValueError ("Exceeds the limit (4300 digits) for integer string conversion: value has "
                    +:+ pretty (Z.of_nat (length ds))
                    +:+ " digits; use sys.set_int_max_str_digits() to increase the limit"))
          else Ok (if neg : bool then (- PyStr.digits_value ds)%Z else PyStr.digits_value ds)
      | _ => bad
      end
  | _ => bad
  end.

Definition py_int (v : pyval) : result Z :=
  match v with
  | VInt z => Ok z
  | VBool b => Ok (if b then 1 else 0)%Z
  | VFloat f => PyFloat.to_int f
  | VStr s => parse_int s
  | VNone | VList _ | VDict _ | VObj _ =>
      Exn (TypeError ("int() argument must be a string, a bytes-like object or a real number, not '"
                      +:+ type_name v +:+ "'"))
  end.

(** [list(v)] *)
Definition py_list (v : pyval) : result (list pyval) :=
  match v with
  | VList l => Ok l
  | VStr s => Ok (map (fun c => VStr (String c "")) (PyStr.chars s))
  | VDict d => Ok (map (fun kv => VStr kv.1) d)
  | _ => Exn (TypeError ("'" +:+ type_name v +:+ "' object is not iterable"))
  end.

(** [v.get(k)] raises on anything but a dict. *)
Definition as_dict (v : pyval) : result dict :=
  match v with
  | VDict d => Ok d
  | _ => Exn (AttributeError ("'" +:+ type_name v +:+ "' object has no attribute 'get'"))
  end.

Definition is_str (v : option pyval) (s : string) : bool :=
  match v with Some (VStr t) => String.eqb t s | _ => false end.

Definition opt_str (o : option string) : pyval := match o with Some s => VStr s | None => VNone end.

(** [sorted(d.items(), key=lambda kv: kv[0])] *)
Fixpoint insert_item {A} (kv : string * A) (l : list (string * A)) : list (string * A) :=
  match l with
  | [] => [kv]
  | x :: l' => if String.leb x.1 kv.1 then x :: insert_item kv l' else kv :: l
  end.
Definition sorted_items {A} (d : list (string * A)) : list (string * A) :=
  fold_left (fun acc kv => insert_item kv acc) d [].

(** [repr] of a list of (key, value) pairs *)
Definition repr_items (l : dict) : string :=
  "[" +:+ PyStr.join ", "
    (map (fun kv => "(" +:+ PyStr.repr kv.1 +:+ ", " +:+ py_repr kv.2 +:+ ")") l) +:+ "]".

Lemma json_roundtrip_idem v : json_roundtrip (json_roundtrip v) = json_roundtrip v.
Proof.
  induction v as [ | | | | |l IH|d IH| ] using pyval_induction; simpl; try done; f_equal.
  - induction IH as [|x l Hx _ IH]; simpl; [done|]. by rewrite Hx, IH.
  - induction IH as [|[k x] d Hx _ IH]; simpl in *; [done|]. by rewrite Hx, IH.
Qed.

Example py_str_dict :
  py_str (VDict [("a", VStr "x'y"); ("b", VList [VInt (-3); VBool true; VNone])])
  = "{'a': " +:+ String (ascii_of_nat 34) "x'y" +:+ String (ascii_of_nat 34) ", 'b': [-3, True, None]}".
Proof. vm_compute. reflexivity. Qed.
Example float_of_strings :
  map PyStr.parse_float [" 0.5 "; "1_0e-1"; ".5."; "nan"; "-1"] =
  [Some (PyFloat.ratio 1 2); Some (PyFloat.of_Z 1); None; Some S754_nan; Some (PyFloat.of_Z (-1))].
Proof. vm_compute. reflexivity. Qed.
Example sorted_example : sorted_items [("b", 1); ("a", 2); ("c", 3)] = [("a", 2); ("b", 1); ("c", 3)].
Proof. vm_compute. reflexivity. Qed.
Example int_examples :
  map py_int [VStr " 1_000 "; VStr "-7"; VStr "1.0"; VBool true; VNone] =
  [Ok 1000%Z; Ok (-7)%Z; Exn (ValueError "invalid literal for int() with base 10: '1.0'"); Ok 1%Z;
   Exn (TypeError "int() argument must be a string, a bytes-like object or a real number, not 'NoneType'")].
Proof. by vm_compute. Qed.

