(* ===== verification/PyTime.v ===== *)
(** * Instants

    An aware UTC [datetime] is a number of microseconds since the epoch.  The
    file models the conversions the source applies to it: [total_seconds],
    [timestamp], [fromtimestamp] and [isoformat]. *)

From stdpp Require Import base list strings pretty.
From Stdlib Require Import ZArith Lia Ascii SpecFloat.
From S2P Require Import Prelude.
From S2P Require Import PyFloat.
From S2P Require Import PyValue.

Local Open Scope Z_scope.
Local Open Scope py_scope.

Module PyTime.
(** Microseconds since 1970-01-01T00:00:00Z. *)
Abbreviation time := Z.

(** [(a - b).total_seconds()], and [t.timestamp()] for [b = 0] *)
Definition total_seconds (us : Z) : float := PyFloat.ratio us 1000000.
Definition timestamp (t : time) : float := total_seconds t.

(** The nearest integer, half to even. *)
Definition nearest (x : float) : Z :=
  match x with
  | S754_finite s m e => let z := PyFloat.scaled m e 0 in if s then - z else z
  | _ => 0
  end.

(** [datetime.fromtimestamp(x, tz=UTC)]: the fraction is scaled in floating
    point and rounded half to even to a microsecond. *)
Definition fromtimestamp (x : float) : result time :=
  let? secs := PyFloat.to_int x in
  let frac := PyFloat.sub x (PyFloat.of_Z secs) in
  Ok (secs * 1000000 + nearest (PyFloat.mul frac (PyFloat.of_Z 1000000))).

Definition us_per_day : Z := 86400000000.

(** The proleptic Gregorian date of a day number (day 0 is 1970-01-01), over
    400-year eras that start on a first of March. *)
Definition year_of_era (doe : Z) : Z := (doe - doe / 1460 + doe / 36524 - doe / 146096) / 365.
Definition civil_of_day (day : Z) : Z * Z * Z :=
  let z := day + 719468 in
  let era := z / 146097 in
  let doe := z mod 146097 in
  let yoe := year_of_era doe in
  let doy := doe - (365 * yoe + yoe / 4 - yoe / 100) in
  let mp := (5 * doy + 2) / 153 in
  let d := doy - (153 * mp + 2) / 5 + 1 in
  let m := if mp <? 10 then mp + 3 else mp - 9 in
  (yoe + era * 400 + (if m <=? 2 then 1 else 0), m, d).

(** A number on [n] decimal digits. *)
Fixpoint pad_digits (n : nat) (x : Z) : string :=
  match n with
  | O => ""
  | S n' => pad_digits n' (x / 10)
            +:+ String (ascii_of_nat (Z.to_nat (x mod 10) + 48)) ""
  end.

(** The date and time of day of [isoformat], without the offset. *)
Definition naive_text (t : time) : string :=
  let day := t / us_per_day in
  let us := t mod us_per_day in
  let '(y, m, d) := civil_of_day day in
  let secs := us / 1000000 in
  pad_digits 4 y +:+ "-" +:+ pad_digits 2 m +:+ "-" +:+ pad_digits 2 d +:+ "T"
    +:+ pad_digits 2 (secs / 3600) +:+ ":" +:+ pad_digits 2 (secs / 60 mod 60) +:+ ":"
    +:+ pad_digits 2 (secs mod 60)
    +:+ (if us mod 1000000 =? 0 then "" else "." +:+ pad_digits 6 (us mod 1000000)).

(** [t.isoformat()] *)
Definition isoformat (t : time) : string := naive_text t +:+ "+00:00".

(** A datetime of another zone: an instant and the offset of its local time, in
    seconds. *)
Record aware := mkAware { instant : time; offset : Z }.
Definition local_time (a : aware) : time := instant a + offset a * 1000000.
Definition offset_text (s : Z) : string :=
  (if s <? 0 then "-" else "+") +:+ pad_digits 2 (Z.abs s / 3600) +:+ ":"
    +:+ pad_digits 2 (Z.abs s / 60 mod 60)
    +:+ (if Z.abs s mod 60 =? 0 then "" else ":" +:+ pad_digits 2 (Z.abs s mod 60)).
(** [t.isoformat()] *)
Definition isoformat_aware (a : aware) : string := naive_text (local_time a) +:+ offset_text (offset a).
End PyTime.

Example isoformat_epoch : PyTime.isoformat 0 = "1970-01-01T00:00:00+00:00".
Proof. vm_compute. reflexivity. Qed.
Example isoformat_sample : PyTime.isoformat 1789128000000000 = "2026-09-11T12:00:00+00:00".
Proof. vm_compute. reflexivity. Qed.
Example isoformat_leap : PyTime.isoformat 951782400000001 = "2000-02-29T00:00:00.000001+00:00".
Proof. vm_compute. reflexivity. Qed.
Example isoformat_zone :
  PyTime.isoformat_aware (PyTime.mkAware 1789128000000000 (-12600)) = "2026-09-11T08:30:00-03:30".
Proof. vm_compute. reflexivity. Qed.
