(* ===== verification/IsoTime.v ===== *)
(** * Reading instants back

    [datetime.fromisoformat] on the extended calendar form, which is what
    [isoformat] writes and all the code passes to it; the other forms of
    ISO 8601 (basic, week dates), which no code writes, are refused here.  It is
    proved to be the inverse of [isoformat] on every datetime. *)

From stdpp Require Import base list strings.
From Stdlib Require Import ZArith Lia Ascii.
From S2P Require Import Prelude.
From S2P Require Import PyFloat.
From S2P Require Import PyValue.
From S2P Require Import PyTime.

Local Open Scope Z_scope.
Local Open Scope py_scope.

Module IsoTime.

(** Exactly [n] decimal digits *)
Fixpoint digits_n (n : nat) (acc : Z) (l : list ascii) : option (Z * list ascii) :=
  match n with
  | O => Some (acc, l)
  | S n' => match l with
            | c :: l' => if PyStr.is_digit c then digits_n n' (10 * acc + (Z.of_nat (PyStr.code c) - 48)) l' else None
            | [] => None
            end
  end.
Definition digits (n : nat) (l : list ascii) : option (Z * list ascii) := digits_n n 0 l.

Definition char (c : ascii) (l : list ascii) : option (list ascii) :=
  match l with d :: l' => if Ascii.eqb c d then Some l' else None | [] => None end.

(** The day number of a date of the proleptic Gregorian calendar *)
Definition day_of_civil (y m d : Z) : Z :=
  let y := if m <=? 2 then y - 1 else y in
  let era := y / 400 in
  let yoe := y mod 400 in
  let doy := (153 * (if 2 <? m then m - 3 else m + 9) + 2) / 5 + d - 1 in
  let doe := yoe * 365 + yoe / 4 - yoe / 100 + doy in
  era * 146097 + doe - 719468.
(** A date that exists is the date of its day. *)
Definition real_date (y m d : Z) : bool :=
  (1 <=? y) && (1 <=? m) && (m <=? 12) && (1 <=? d)
  && (let '(y', m', d') := PyTime.civil_of_day (day_of_civil y m d) in (y' =? y) && (m' =? m) && (d' =? d)).

Definition date (l : list ascii) : option (Z * list ascii) :=
  '(y, l) ← digits 4 l; l ← char "-" l; '(m, l) ← digits 2 l; l ← char "-" l; '(d, l) ← digits 2 l;
  if real_date y m d then Some (day_of_civil y m d, l) else None.

(** [HH[:MM[:SS]]], in seconds, and whether the seconds were given *)
Definition below (hi : Z) (p : Z * list ascii) : option (Z * list ascii) := if p.1 <? hi then Some p else None.
Definition clock (l : list ascii) : option (Z * bool * list ascii) :=
  '(h, l) ← digits 2 l ≫= below 24;
  match char ":" l with
  | None => Some (h * 3600, false, l)
  | Some l =>
      '(m, l) ← digits 2 l ≫= below 60;
      match char ":" l with
      | None => Some (h * 3600 + m * 60, false, l)
      | Some l => '(s, l) ← digits 2 l ≫= below 60; Some (h * 3600 + m * 60 + s, true, l)
      end
  end.
(** One to six digits of a fraction in microseconds; further ones are dropped. *)
Fixpoint micros (n : nat) (acc : Z) (l : list ascii) : Z * list ascii :=
  match n with
  | O => (acc, PyStr.drop_while PyStr.is_digit l)
  | S n' => match l with
            | c :: l' => if PyStr.is_digit c then micros n' (10 * acc + (Z.of_nat (PyStr.code c) - 48)) l'
                         else (acc * 10 ^ Z.of_nat n, l)
            | [] => (acc * 10 ^ Z.of_nat n, l)
            end
  end.
Definition fraction (l : list ascii) : option (Z * list ascii) :=
  match l with
  | p :: c :: l' => if Ascii.eqb p "." || Ascii.eqb p "," then
                      if PyStr.is_digit c then Some (micros 6 0 (c :: l')) else None
                    else Some (0, l)
  | [p] => if Ascii.eqb p "." || Ascii.eqb p "," then None else Some (0, l)
  | [] => Some (0, l)
  end.
(** The offset in seconds; a naive time counts as UTC ([dt.replace(tzinfo=UTC)]). *)
Definition zone (l : list ascii) : option Z :=
  match l with
  | [] => Some 0
  | [c] => if Ascii.eqb c "Z" then Some 0 else None
  | c :: l' =>
      if Ascii.eqb c "+" || Ascii.eqb c "-" then
        match clock l' with
        | Some (s, _, []) => Some (if Ascii.eqb c "-" then - s else s)
        | _ => None
        end
      else None
  end.

Definition fromisoformat (s : string) : option PyTime.aware :=
  '(day, l) ← date (PyStr.chars s);
  match l with
  | [] => Some (PyTime.mkAware (day * PyTime.us_per_day) 0)
  | _ :: l =>
      '(secs, full, l) ← clock l;
      '(us, l) ← (if full : bool then fraction l else Some (0, l));
      off ← zone l;
      Some (PyTime.mkAware (day * PyTime.us_per_day + secs * 1000000 + us - off * 1000000) off)
  end.
End IsoTime.

Example fromisoformat_sample :
  IsoTime.fromisoformat "2026-09-11T12:00:00+00:00" = Some (PyTime.mkAware 1789128000000000 0).
Proof. vm_compute. reflexivity. Qed.
Example fromisoformat_zone :
  IsoTime.fromisoformat "2026-09-11T08:30:00.5-03:30" = Some (PyTime.mkAware 1789128000500000 (-12600)).
Proof. vm_compute. reflexivity. Qed.
Example fromisoformat_bad : IsoTime.fromisoformat "2026-02-29" = None.
Proof. vm_compute. reflexivity. Qed.

(** ** The inverse of [isoformat] *)

Module IsoTimeLemmas.
Import IsoTime.

(** The year of a day of an era, and the day of that year. *)
Lemma year_bounds doe :
  0 <= doe < 146097 ->
  let yoe := PyTime.year_of_era doe in
  0 <= yoe < 400 /\ 0 <= doe - (365 * yoe + yoe / 4 - yoe / 100) <= 365.
Proof. intros Hd. unfold PyTime.year_of_era. cbv zeta. Z.div_mod_to_equations. lia. Qed.
(** The month and day of a day of a year that starts in March. *)
Lemma month_bounds doy :
  0 <= doy <= 365 ->
  let mp := (5 * doy + 2) / 153 in
  let d := doy - (153 * mp + 2) / 5 + 1 in
  let m := if mp <? 10 then mp + 3 else mp - 9 in
  1 <= m <= 12 /\ 1 <= d <= 31 /\ (if 2 <? m then m - 3 else m + 9) = mp.
Proof.
  intros Hd mp d m. assert (0 <= mp <= 11) by (subst mp; Z.div_mod_to_equations; lia).
  split; [subst m; destruct (Z.ltb_spec mp 10); lia|]. split; [subst d mp; Z.div_mod_to_equations; lia|].
  subst m. destruct (Z.ltb_spec mp 10) as [E|E]; [destruct (Z.ltb_spec 2 (mp + 3))|destruct (Z.ltb_spec 2 (mp - 9))]; lia.
Qed.

(** A day number is that of its date. *)
Lemma day_of_date n y m d :
  PyTime.civil_of_day n = (y, m, d) -> day_of_civil y m d = n /\ 1 <= m <= 12 /\ 1 <= d <= 31.
Proof.
  unfold PyTime.civil_of_day. set (z := n + 719468). set (era := z / 146097). set (doe := z mod 146097).
  assert (0 <= doe < 146097) as Hdoe by (subst doe; apply Z.mod_pos_bound; lia).
  pose proof (year_bounds doe Hdoe) as [Hy Hdoy]. set (yoe := PyTime.year_of_era doe) in *.
  set (doy := doe - (365 * yoe + yoe / 4 - yoe / 100)) in *.
  pose proof (month_bounds doy Hdoy) as (Hm & Hd & Hmp). cbv zeta in *. intros [= <- <- <-].
  split; [|done]. unfold day_of_civil. rewrite Hmp. set (m := if _ <? 10 then _ else _) in *.
  assert (z = era * 146097 + doe) as Hz by (subst era doe; pose proof (Z_div_mod_eq_full z 146097); lia).
  set (y := if m <=? 2 then _ else _). assert (y = yoe + era * 400) as -> by (subst y; destruct (m <=? 2); lia).
  rewrite Z.div_add, Z.mod_add by lia. rewrite (Z.div_small yoe 400), (Z.mod_small yoe 400) by lia. lia.
Qed.

Lemma year_range n y m d :
  PyTime.civil_of_day n = (y, m, d) -> -719162 <= n <= 2932896 -> 1 <= y <= 9999.
Proof.
  unfold PyTime.civil_of_day. set (z := n + 719468). set (era := z / 146097). set (doe := z mod 146097).
  intros [= <- <- <-] Hn. assert (306 <= z <= 3652364) as Hz by (subst z; lia).
  assert (0 <= doe < 146097) as Hdoe by (subst doe; apply Z.mod_pos_bound; lia).
  pose proof (year_bounds doe Hdoe) as [Hy Hdoy]. set (yoe := PyTime.year_of_era doe) in *. cbv zeta in *.
  set (doy := doe - (365 * yoe + yoe / 4 - yoe / 100)) in *.
  assert (z = era * 146097 + doe) by (subst era doe; pose proof (Z_div_mod_eq_full z 146097); lia).
  set (mp := (5 * doy + 2) / 153). set (m := if mp <? 10 then _ else _).
  assert (m <= 2 <-> 306 <= doy) as Hm
    by (subst m mp; destruct (Z.ltb_spec ((5 * doy + 2) / 153) 10); Z.div_mod_to_equations; lia).
  assert (0 <= era <= 24) by lia.
  assert (era = 0 -> yoe = 0 -> 306 <= doy) by (intros E0 E; unfold doy; rewrite E; change (365 * 0 + 0 / 4 - 0 / 100) with 0; lia).
  assert (era = 24 -> yoe = 399 -> doy < 306) by (intros E0 E; unfold doy; rewrite E; change (365 * 399 + 399 / 4 - 399 / 100) with 145731; lia).
  destruct (Z.leb_spec m 2); lia.
Qed.

(** *** Digits *)

Lemma digits_n_snoc n : forall acc l,
  digits_n (S n) acc l = '(v, l) ← digits_n n acc l; digits_n 1 v l.
Proof.
  induction n as [|n IH]; intros acc l; [done|]. change (digits_n (S (S n)) acc l) with
    (match l with c :: l' => if PyStr.is_digit c then digits_n (S n) (10 * acc + (Z.of_nat (PyStr.code c) - 48)) l' else None
     | [] => None end).
  destruct l as [|c l]; [done|]. simpl (digits_n (S n) acc (c :: l)). destruct (PyStr.is_digit c); [|done]. apply IH.
Qed.
Lemma digit_char x :
  0 <= x < 10 -> let c := ascii_of_nat (Z.to_nat x + 48) in PyStr.is_digit c = true /\ Z.of_nat (PyStr.code c) - 48 = x.
Proof.
  intros Hx. assert (x = 0 \/ x = 1 \/ x = 2 \/ x = 3 \/ x = 4 \/ x = 5 \/ x = 6 \/ x = 7 \/ x = 8 \/ x = 9) as H by lia.
  repeat destruct H as [->|H]; [done..|]. by subst.
Qed.

Lemma digits_pad n : forall x acc l,
  digits_n n acc (PyStr.chars (PyTime.pad_digits n x) ++ l) = Some (acc * 10 ^ Z.of_nat n + x mod 10 ^ Z.of_nat n, l).
Proof.
  induction n as [|n IH]; intros x acc l.
  - simpl. rewrite Z.mod_1_r. do 2 f_equal. lia.
  - rewrite digits_n_snoc. cbn [PyTime.pad_digits]. rewrite PyStr.chars_app, <- app_assoc, IH. simpl.
    pose proof (Z.mod_pos_bound x 10 ltac:(lia)) as Hx. destruct (digit_char (x mod 10) Hx) as [-> ->].
    do 2 f_equal. replace (Z.of_nat (S n)) with (Z.succ (Z.of_nat n)) by lia. rewrite Z.pow_succ_r by lia.
    rewrite (Z.rem_mul_r x 10) by lia. lia.
Qed.
Lemma digits_of n x l : 0 <= x < 10 ^ Z.of_nat n -> digits n (PyStr.chars (PyTime.pad_digits n x) ++ l) = Some (x, l).
Proof. intros Hx. unfold digits. rewrite digits_pad. by rewrite Z.mod_small by lia. Qed.

Ltac pad_ok := rewrite digits_of by (simpl; lia).

Lemma date_pad day y m d l :
  PyTime.civil_of_day day = (y, m, d) -> -719162 <= day <= 2932896 ->
  date (PyStr.chars (PyTime.pad_digits 4 y) ++ "-"%char :: PyStr.chars (PyTime.pad_digits 2 m)
          ++ "-"%char :: PyStr.chars (PyTime.pad_digits 2 d) ++ l) = Some (day, l).
Proof.
  intros Hc Hday. pose proof (year_range _ _ _ _ Hc Hday) as Hy. destruct (day_of_date _ _ _ _ Hc) as (Hd & Hm & Hdd).
  unfold date. rewrite digits_of by (change (10 ^ Z.of_nat 4) with 10000; lia). cbn [mbind option_bind char Ascii.eqb Bool.eqb].
  rewrite digits_of by (change (10 ^ Z.of_nat 2) with 100; lia). cbn [mbind option_bind char Ascii.eqb Bool.eqb].
  rewrite digits_of by (change (10 ^ Z.of_nat 2) with 100; lia). cbn [mbind option_bind].
  assert (real_date y m d = true) as ->; [|by rewrite Hd].
  unfold real_date. rewrite Hd, Hc, !Z.eqb_refl. repeat (apply andb_true_iff; split); try done; apply Z.leb_le; lia.
Qed.

(** Hours, minutes and seconds of a time of day *)
Lemma clock_pad s l :
  0 <= s < 86400 ->
  clock (PyStr.chars (PyTime.pad_digits 2 (s / 3600)) ++ ":"%char :: PyStr.chars (PyTime.pad_digits 2 (s / 60 mod 60))
           ++ ":"%char :: PyStr.chars (PyTime.pad_digits 2 (s mod 60)) ++ l) = Some (s, true, l).
Proof.
  intros Hs. assert (0 <= s / 3600 < 24) by (Z.div_mod_to_equations; lia).
  pose proof (Z.mod_pos_bound (s / 60) 60 ltac:(lia)). pose proof (Z.mod_pos_bound s 60 ltac:(lia)).
  unfold clock, below. rewrite digits_of by (change (10 ^ Z.of_nat 2) with 100; lia). cbn [mbind option_bind fst].
  rewrite (proj2 (Z.ltb_lt _ _)) by lia. cbn [mbind option_bind char Ascii.eqb Bool.eqb].
  rewrite digits_of by (change (10 ^ Z.of_nat 2) with 100; lia). cbn [mbind option_bind fst].
  rewrite (proj2 (Z.ltb_lt _ _)) by lia. cbn [mbind option_bind char Ascii.eqb Bool.eqb].
  rewrite digits_of by (change (10 ^ Z.of_nat 2) with 100; lia). cbn [mbind option_bind fst].
  rewrite (proj2 (Z.ltb_lt _ _)) by lia. cbn [mbind option_bind]. do 3 f_equal. Z.div_mod_to_equations. lia.
Qed.
Lemma clock_minutes s :
  0 <= s < 86400 -> s mod 60 = 0 ->
  clock (PyStr.chars (PyTime.pad_digits 2 (s / 3600)) ++ ":"%char :: PyStr.chars (PyTime.pad_digits 2 (s / 60 mod 60)) ++ [])
  = Some (s, false, []).
Proof.
  intros Hs Hm. assert (0 <= s / 3600 < 24) by (Z.div_mod_to_equations; lia).
  pose proof (Z.mod_pos_bound (s / 60) 60 ltac:(lia)).
  unfold clock, below. rewrite digits_of by (change (10 ^ Z.of_nat 2) with 100; lia). cbn [mbind option_bind fst].
  rewrite (proj2 (Z.ltb_lt _ _)) by lia. cbn [mbind option_bind char Ascii.eqb Bool.eqb].
  rewrite digits_of by (change (10 ^ Z.of_nat 2) with 100; lia). cbn [mbind option_bind fst].
  rewrite (proj2 (Z.ltb_lt _ _)) by lia. cbn [mbind option_bind char]. do 3 f_equal. Z.div_mod_to_equations. lia.
Qed.

(** A fraction stops at a sign. *)
Definition sign_first (l : list ascii) : Prop := match l with c :: _ => c = "+"%char \/ c = "-"%char | [] => False end.
Lemma micros_pad n : forall x acc l,
  sign_first l -> micros n acc (PyStr.chars (PyTime.pad_digits n x) ++ l)
                  = (acc * 10 ^ Z.of_nat n + x mod 10 ^ Z.of_nat n, l).
Proof.
  assert (forall n acc l r, digits_n n acc l = Some r -> sign_first r.2 -> micros n acc l = r) as Hm.
  { clear n. induction n as [|n IH]; intros acc l r Hd Hs; simpl in *.
    - injection Hd as <-. simpl in *. destruct l as [|c l]; [done|]. by destruct Hs as [->| ->].
    - destruct l as [|c l]; [done|]. destruct (PyStr.is_digit c); [|done]. by apply IH. }
  intros x acc l Hl. by apply Hm; [apply digits_pad|].
Qed.
Lemma fraction_pad us l :
  0 <= us < 1000000 -> sign_first l ->
  fraction (PyStr.chars (if us =? 0 then "" else "." +:+ PyTime.pad_digits 6 us) ++ l) = Some (us, l).
Proof.
  intros Hu Hl. destruct (Z.eqb_spec us 0) as [->|Hne].
  - destruct l as [|c [|d l]]; [done|by destruct Hl as [->| ->]|]. simpl. by destruct Hl as [->| ->].
  - rewrite PyStr.chars_app. cbn [PyStr.chars String.list_ascii_of_string app]. unfold fraction.
    pose proof (micros_pad 6 us 0 l Hl) as Hm.
    destruct (PyStr.chars (PyTime.pad_digits 6 us) ++ l) as [|c l'] eqn:E.
    { apply (f_equal length) in E. rewrite length_app in E. destruct l; [done|]. simpl in E. lia. }
    cbn [Ascii.eqb Bool.eqb orb]. pose proof (digits_of 6 us l ltac:(change (10 ^ Z.of_nat 6) with 1000000; lia)) as Hd.
    rewrite E in Hd. unfold digits in Hd. simpl in Hd. destruct (PyStr.is_digit c) eqn:Ec; [|done].
    rewrite Hm. do 2 f_equal. change (10 ^ Z.of_nat 6) with 1000000. rewrite Z.mod_small by lia. lia.
Qed.
Lemma zone_text off : -86400 < off < 86400 -> zone (PyStr.chars (PyTime.offset_text off)) = Some off.
Proof.
  intros Ho. unfold PyTime.offset_text. set (s := Z.abs off). assert (0 <= s < 86400) by lia.
  rewrite !PyStr.chars_app. change (PyStr.chars ":") with [":"%char].
  assert (forall c : ascii, c = "+"%char \/ c = "-"%char ->
    zone (c :: PyStr.chars (PyTime.pad_digits 2 (s / 3600)) ++ [":"%char] ++ PyStr.chars (PyTime.pad_digits 2 (s / 60 mod 60))
            ++ PyStr.chars (if s mod 60 =? 0 then "" else ":" +:+ PyTime.pad_digits 2 (s mod 60)))
    = Some (if Ascii.eqb c "-" then - s else s)) as Hz.
  { intros c Hc. unfold zone. destruct (_ ++ _) as [|d l] eqn:E.
    { apply (f_equal length) in E. rewrite !length_app in E. simpl in E. lia. }
    rewrite <- E. clear E. assert (Ascii.eqb c "+" || Ascii.eqb c "-" = true) as -> by (by destruct Hc as [->| ->]).
    destruct (Z.eqb_spec (s mod 60) 0) as [Hm|Hm].
    - cbn [app]. change (PyStr.chars "") with (@nil ascii). by rewrite clock_minutes.
    - rewrite PyStr.chars_app. change (PyStr.chars ":") with [":"%char]. cbn [app].
      rewrite <- (app_nil_r (PyStr.chars (PyTime.pad_digits 2 (s mod 60)))). by rewrite clock_pad. }
  destruct (Z.ltb_spec off 0).
  - change (PyStr.chars "-") with ["-"%char]. cbn [app]. rewrite Hz by auto. simpl. f_equal. lia.
  - change (PyStr.chars "+") with ["+"%char]. cbn [app]. rewrite Hz by auto. simpl. f_equal. lia.
Qed.

Lemma offset_signed off : sign_first (PyStr.chars (PyTime.offset_text off)).
Proof. unfold PyTime.offset_text. destruct (off <? 0); simpl; auto. Qed.

(** Every datetime is read back as it was written. *)
Lemma fromisoformat_isoformat a :
  -62135596800000000 <= PyTime.local_time a < 253402300800000000 -> -86400 < PyTime.offset a < 86400 ->
  fromisoformat (PyTime.isoformat_aware a) = Some a.
Proof.
  intros Ht Ho. unfold PyTime.isoformat_aware, PyTime.naive_text. set (t := PyTime.local_time a) in *.
  set (day := t / PyTime.us_per_day). set (us := t mod PyTime.us_per_day).
  assert (0 <= us < 86400000000) as Hus by (apply Z.mod_pos_bound; unfold PyTime.us_per_day; lia).
  assert (t = day * 86400000000 + us) as Htd
    by (subst day us; unfold PyTime.us_per_day; pose proof (Z_div_mod_eq_full t 86400000000); lia).
  destruct (PyTime.civil_of_day day) as [[y m] d] eqn:Hc. cbv zeta.
  pose proof (Z.mod_pos_bound us 1000000 ltac:(lia)) as Hf.
  assert (0 <= us / 1000000 < 86400) as Hsecs by (Z.div_mod_to_equations; lia).
  pose proof (offset_signed (PyTime.offset a)) as Hsign.
  unfold fromisoformat. rewrite !PyStr.chars_app. change (PyStr.chars "-") with ["-"%char].
  change (PyStr.chars ":") with [":"%char]. change (PyStr.chars "T") with ["T"%char].
  rewrite <- !app_assoc. cbn [app]. rewrite (date_pad day) by (done || lia). cbn [mbind option_bind].
  rewrite clock_pad by done. cbn [mbind option_bind]. rewrite fraction_pad by done. cbn [mbind option_bind].
  rewrite zone_text by done. cbn [mbind option_bind]. destruct a as [at_ off]. unfold t, PyTime.local_time in Htd.
  simpl in Htd |- *. do 2 f_equal. unfold PyTime.us_per_day. pose proof (Z_div_mod_eq_full us 1000000). lia.
Qed.
Lemma fromisoformat_utc t :
  -62135596800000000 <= t < 253402300800000000 ->
  fromisoformat (PyTime.isoformat t) = Some (PyTime.mkAware t 0).
Proof.
  intros Ht. pose proof (fromisoformat_isoformat (PyTime.mkAware t 0)) as H.
  unfold PyTime.isoformat_aware, PyTime.local_time in H. simpl in H. rewrite Z.add_0_r in H. apply H; lia.
Qed.
End IsoTimeLemmas.
