(* ===== verification/Regex.v ===== *)
(** * Regular expressions

    A backtracking matcher with the leftmost, first-alternative, greedy
    semantics of Python's [re] on the constructs the source uses, a declarative
    relation it is proved equivalent to, and [search], [match] and [sub]. *)

From stdpp Require Import base list strings.
From Stdlib Require Import Lia Ascii.
From S2P Require Import Prelude.
From S2P Require Import PyFloat.
From S2P Require Import PyValue.

Inductive re : Type :=
  | REps
  | RClass (p : ascii -> bool)
  | RSeq (r1 r2 : re)
  | RAlt (r1 r2 : re)
  | RRep (greedy : bool) (r : re)
  | RAssert (f : option ascii -> list ascii -> bool).

(** [r*] and, lazily, [r*?] *)
Abbreviation RStar r := (RRep true r).
Abbreviation RLazy r := (RRep false r).

(** A position of the subject: the character before it and the text after. *)
Definition pos : Type := option ascii * list ascii.

Module Regex.
Section Loop.
Variable body : (pos -> option pos) -> pos -> option pos.
Variable k : pos -> option pos.
(** One more round while the body consumes something, else [k]; a lazy loop
    tries [k] first. *)
Fixpoint star_loop (greedy : bool) (n : nat) (p : pos) : option pos :=
  match n with
  | O => k p
  | S n' =>
      let more :=
        body (fun p' => if length p'.2 <? length p.2 then star_loop greedy n' p' else None) in
      if greedy then match more p with Some q => Some q | None => k p end
      else match k p with Some q => Some q | None => more p end
  end.
End Loop.

Fixpoint rmatch (r : re) (k : pos -> option pos) (p : pos) : option pos :=
  match r with
  | REps => k p
  | RClass c => match p.2 with
                | x :: s => if c x then k (Some x, s) else None
                | [] => None
                end
  | RSeq r1 r2 => rmatch r1 (rmatch r2 k) p
  | RAlt r1 r2 => match rmatch r1 k p with Some q => Some q | None => rmatch r2 k p end
  | RRep g r => star_loop (rmatch r) k g (length p.2) p
  | RAssert f => if f p.1 p.2 then k p else None
  end.

(** ** Declarative matching *)
Inductive matches : re -> pos -> pos -> Prop :=
  | m_eps p : matches REps p p
  | m_class c x pr s : c x = true -> matches (RClass c) (pr, x :: s) (Some x, s)
  | m_seq r1 r2 p q t : matches r1 p q -> matches r2 q t -> matches (RSeq r1 r2) p t
  | m_alt_l r1 r2 p q : matches r1 p q -> matches (RAlt r1 r2) p q
  | m_alt_r r1 r2 p q : matches r2 p q -> matches (RAlt r1 r2) p q
  | m_star_nil g r p : matches (RRep g r) p p
  | m_star_cons g r p q t : matches r p q -> matches (RRep g r) q t -> matches (RRep g r) p t
  | m_assert f p : f p.1 p.2 = true -> matches (RAssert f) p p.

Lemma matches_length r p q : matches r p q -> length q.2 <= length p.2.
Proof. induction 1; simpl in *; lia. Qed.

(** A match that consumes nothing ends where it starts. *)
Lemma matches_same r p q : matches r p q -> length p.2 <= length q.2 -> p = q.
Proof.
  induction 1 as [ |c x pr s Hc|r1 r2 p q t H1 IH1 H2 IH2| | | |g r p q t H1 IH1 H2 IH2| ];
    intros Hl; simpl in *; try done; try lia; eauto.
  - pose proof (matches_length _ _ _ H1). pose proof (matches_length _ _ _ H2).
    rewrite IH1 by lia. apply IH2. lia.
  - pose proof (matches_length _ _ _ H1). pose proof (matches_length _ _ _ H2).
    rewrite IH1 by lia. apply IH2. lia.
Qed.

Definition succeeds (k : pos -> option pos) (p : pos) : Prop := is_Some (k p).

Definition loop_spec (r : re) : Prop :=
  forall k p, succeeds (rmatch r k) p <-> exists q, matches r p q /\ succeeds k q.

Lemma star_loop_sound r k g n p :
  loop_spec r -> succeeds (star_loop (rmatch r) k g n) p ->
  exists q, matches (RRep g r) p q /\ succeeds k q.
Proof.
  intros Hr. revert p. induction n as [|n IH]; intros p Hs; simpl in Hs.
  { exists p. split; [constructor|done]. }
  unfold succeeds in Hs. simpl in Hs.
  set (k' := fun p' : pos => if length p'.2 <? length p.2
                       then star_loop (rmatch r) k g n p' else None) in *.
  assert (succeeds k p \/ succeeds (rmatch r k') p) as [Hk|Hm].
  { unfold succeeds. destruct (k p) as [x|]; [left; by eexists|].
    destruct (rmatch r k' p) as [x|]; [right; by eexists|].
    by destruct g; destruct Hs. }
  { exists p. split; [constructor|done]. }
  apply Hr in Hm as (q1 & Hm & Hk). unfold succeeds, k' in Hk.
  destruct (length q1.2 <? length p.2); [|by destruct Hk].
  destruct (IH q1 Hk) as (t & Ht & Hkt). exists t. split; [by econstructor|done].
Qed.

Lemma star_loop_complete r k g n p q :
  loop_spec r -> matches (RRep g r) p q -> succeeds k q -> length p.2 <= n ->
  succeeds (star_loop (rmatch r) k g n) p.
Proof.
  intros Hr Hm. revert n. remember (RRep g r) as r0 eqn:Er0.
  induction Hm as [ | | | | |g' r' p|g' r' p q t H1 _ H2 IH| ]; simplify_eq; intros n Hk Hl.
  - destruct n; simpl; [done|]. unfold succeeds. simpl.
    destruct Hk as [x Hx]. destruct g; rewrite Hx; [|by eexists].
    destruct (rmatch r _ p); by eexists.
  - pose proof (matches_length _ _ _ H1) as Hle.
    destruct (decide (length q.2 < length p.2)) as [Hlt|Hge].
    + destruct n as [|n]; [lia|]. unfold succeeds. simpl.
      match goal with |- context [rmatch r ?K p] => assert (succeeds (rmatch r K) p) as [x Hx] end.
      { apply Hr. exists q. split; [done|]. unfold succeeds.
        assert ((length q.2 <? length p.2) = true) as -> by (by apply Nat.ltb_lt).
        apply IH; [done|done|lia]. }
      rewrite Hx. destruct g; [by eexists|]. destruct (k p); by eexists.
    + assert (p = q) as -> by (apply (matches_same r); [done|lia]). by apply IH.
Qed.

Theorem rmatch_spec r : loop_spec r.
Proof.
  induction r as [ |c|r1 IH1 r2 IH2|r1 IH1 r2 IH2|g r IH|f]; intros k p.
  - split; [intros H; exists p; split; [constructor|done]|by intros (q & Hm & Hk); inversion Hm; subst].
  - destruct p as [pr [|x s]]; unfold succeeds; simpl.
    { split; [by intros [? [=]]|intros (q & Hm & _); inversion Hm]. }
    destruct (c x) eqn:E; split.
    + intros H. exists (Some x, s). split; [by constructor|done].
    + intros (q & Hm & Hk). by inversion Hm; subst.
    + by intros [? [=]].
    + intros (q & Hm & Hk). inversion Hm; subst. congruence.
  - simpl. rewrite (IH1 (rmatch r2 k) p). split.
    + intros (q & Hm & Hk). apply IH2 in Hk as (t & Ht & Hkt).
      exists t. split; [by econstructor|done].
    + intros (t & Hm & Hk). inversion Hm; subst. exists q. split; [done|]. apply IH2. eauto.
  - unfold succeeds in *. simpl. specialize (IH1 k p). specialize (IH2 k p). unfold succeeds in *.
    destruct (rmatch r1 k p) as [q|]; split.
    + intros _. destruct (proj1 IH1 (ex_intro _ q eq_refl)) as (t & ? & ?).
      exists t. split; [by apply m_alt_l|done].
    + by eexists.
    + intros H. apply IH2 in H as (t & ? & ?). exists t. split; [by apply m_alt_r|done].
    + intros (t & Hm & Hk). inversion Hm; subst; [|apply IH2; eauto].
      destruct (proj2 IH1) as [? [=]]; eauto.
  - simpl. split; [by apply star_loop_sound|].
    intros (q & Hm & Hk). by eapply star_loop_complete.
  - unfold succeeds. simpl. destruct (f p.1 p.2) eqn:E; split.
    + intros H. exists p. split; [by constructor|done].
    + intros (q & Hm & Hk). by inversion Hm; subst.
    + by intros [? [=]].
    + intros (q & Hm & Hk). inversion Hm; subst. congruence.
Qed.

(** ** [re.search], [re.match], [re.fullmatch], [re.sub] *)
Definition at_pos (r : re) (p : pos) : option pos := rmatch r Some p.

Fixpoint search_from (r : re) (pr : option ascii) (s : list ascii) : bool :=
  match at_pos r (pr, s) with
  | Some _ => true
  | None => match s with [] => false | c :: s' => search_from r (Some c) s' end
  end.
(** [bool(rx.search(s))] *)
Definition search (r : re) (s : string) : bool := search_from r None (PyStr.chars s).

Definition is_end (p : pos) : option pos := match p.2 with [] => Some p | _ => None end.
(** [bool(rx.fullmatch(s))] *)
Definition fullmatch (r : re) (s : string) : bool :=
  match rmatch r is_end (None, PyStr.chars s) with Some _ => true | None => false end.
(** [bool(rx.match(s))] *)
Definition match_start (r : re) (s : string) : bool :=
  match at_pos r (None, PyStr.chars s) with Some _ => true | None => false end.

Fixpoint sub_from (fuel : nat) (r : re) (repl : list ascii) (pr : option ascii)
    (s : list ascii) : list ascii :=
  match fuel with
  | O => s
  | S f =>
      match s with
      | [] => []
      | c :: s' =>
          match at_pos r (pr, s) with
          | Some (pr', t) =>
              if length t <? length s then repl ++ sub_from f r repl pr' t
              else c :: sub_from f r repl (Some c) s'
          | None => c :: sub_from f r repl (Some c) s'
          end
      end
  end.
(** [rx.sub(repl, s)], for expressions that do not match the empty string *)
Definition sub (r : re) (repl s : string) : string :=
  PyStr.of_chars (sub_from (S (String.length s)) r (PyStr.chars repl) None (PyStr.chars s)).

(** More fuel than characters changes nothing. *)
Lemma sub_from_fuel r repl n m pr s :
  length s < n -> length s < m -> sub_from n r repl pr s = sub_from m r repl pr s.
Proof.
  revert m pr s; induction n as [|n IH]; intros m pr s Hn Hm; [lia|].
  destruct m as [|m]; [lia|]. destruct s as [|c s']; simpl in *; [done|].
  assert (c :: sub_from n r repl (Some c) s' = c :: sub_from m r repl (Some c) s') as Hc
    by (f_equal; apply IH; lia).
  destruct (at_pos r (pr, c :: s')) as [[pr' u]|]; [|exact Hc].
  destruct (Nat.ltb_spec (length u) (S (length s'))); [|exact Hc]. f_equal. apply IH; lia.
Qed.

(** ** Building blocks *)
Definition chr (c : ascii) : re := RClass (Ascii.eqb c).
(** A literal under [re.IGNORECASE], written in lower case. *)
Definition ichr (c : ascii) : re := RClass (fun x => Ascii.eqb c (PyStr.lower_char x)).
Definition any : re := RClass (fun c => negb (Ascii.eqb c (ascii_of_nat 10))).
Fixpoint lits (l : list ascii) (f : ascii -> re) : re :=
  match l with [] => REps | [c] => f c | c :: l' => RSeq (f c) (lits l' f) end.
Definition lit (s : string) : re := lits (PyStr.chars s) chr.
Definition ilit (s : string) : re := lits (PyStr.chars s) ichr.
Definition plus (r : re) : re := RSeq r (RStar r).
Definition opt (r : re) : re := RAlt r REps.
Definition space : re := RClass PyStr.is_space.
Definition nonspace : re := RClass (fun c => negb (PyStr.is_space c)).
(** [r{n}] and [r{n,}] *)
Fixpoint rep (n : nat) (r : re) : re :=
  match n with 0 => REps | 1 => r | S n' => RSeq r (rep n' r) end.
Definition at_least (n : nat) (r : re) : re := RSeq (rep n r) (RStar r).
Fixpoint seqs (l : list re) : re :=
  match l with [] => REps | [r] => r | r :: l' => RSeq r (seqs l') end.
Definition digit : re := RClass PyStr.is_digit.
(** A character of [\w], over Latin-1. *)
Definition is_word (c : ascii) : bool :=
  let n := PyStr.code c in
  PyStr.is_digit c || PyStr.is_lower c || PyStr.is_upper c || (n =? 95)
  || (n =? 170) || (n =? 178) || (n =? 179) || (n =? 181) || (n =? 185) || (n =? 186)
  || (n =? 188) || (n =? 189) || (n =? 190)
  || ((192 <=? n) && negb (n =? 215) && negb (n =? 247)).
(** [\b] *)
Definition word_boundary : re := RAssert (fun pr s =>
  xorb (match pr with Some c => is_word c | None => false end)
       (match s with c :: _ => is_word c | [] => false end)).
Fixpoint alts (l : list re) : re :=
  match l with [] => RClass (fun _ => false) | [r] => r | r :: l' => RAlt r (alts l') end.
(** [^] and [$]: the latter also matches before a final newline. *)
Definition bol : re := RAssert (fun pr _ => match pr with None => true | _ => false end).
Definition eol : re := RAssert (fun _ s => match s with
  | [] => true | [c] => Ascii.eqb c (ascii_of_nat 10) | _ => false end).

Lemma search_from_spec r pr s :
  search_from r pr s = true <->
  exists pre post pr' q, s = pre ++ post /\ pr' = (match last pre with Some c => Some c | None => pr end)
    /\ matches r (pr', post) q.
Proof.
  assert (Hat : forall p, is_Some (at_pos r p) <-> exists q, matches r p q).
  { intros p. etransitivity; [apply (rmatch_spec r Some p)|].
    split; [intros (q & ? & ?); eauto|intros (q & ?); exists q; split; [done|by eexists]]. }
  revert pr. induction s as [|c s IH]; intros pr; simpl.
  - destruct (at_pos r (pr, [])) as [q|] eqn:E.
    + split; [intros _|done]. destruct (proj1 (Hat (pr, []))) as [q' ?]; [by eexists|].
      exists [], [], pr, q'. done.
    + split; [done|]. intros (pre & post & pr' & q & Hs & -> & Hm).
      symmetry in Hs. apply app_eq_nil in Hs as [-> ->]. simpl in Hm.
      destruct (proj2 (Hat (pr, []))) as [? ?]; [eauto|congruence].
  - destruct (at_pos r (pr, c :: s)) as [q|] eqn:E.
    + split; [intros _|done]. destruct (proj1 (Hat (pr, c :: s))) as [q' ?]; [by eexists|].
      exists [], (c :: s), pr, q'. done.
    + rewrite IH. split.
      * intros (pre & post & pr' & q & -> & -> & Hm). eexists (c :: pre), post, _, q.
        split_and!; [done|done|]. rewrite last_cons. by destruct (last pre).
      * intros (pre & post & pr' & q & Hs & -> & Hm). destruct pre as [|c' pre]; simpl in *.
        { subst post. destruct (proj2 (Hat (pr, c :: s))) as [? ?]; [eauto|congruence]. }
        simplify_eq. eexists pre, post, _, q. split_and!; [done|done|].
        rewrite last_cons in Hm. by destruct (last pre).
Qed.

(** *** Expressions without assertions ignore the character before *)
Fixpoint context_free (r : re) : bool :=
  match r with
  | REps | RClass _ => true
  | RSeq a b | RAlt a b => context_free a && context_free b
  | RRep _ a => context_free a
  | RAssert _ => false
  end.

Lemma matches_context r p q pr :
  context_free r = true -> matches r p q -> exists pr', matches r (pr, p.2) (pr', q.2).
Proof.
  intros Hc Hm. revert pr. induction Hm; intros pr0; simpl in Hc;
    try (apply andb_prop in Hc as [Hc1 Hc2]).
  - exists pr0. constructor.
  - exists (Some x). by constructor.
  - destruct (IHHm1 Hc1 pr0) as [pr1 H1]. destruct (IHHm2 Hc2 pr1) as [pr2 H2].
    exists pr2. by econstructor.
  - destruct (IHHm Hc1 pr0) as [pr1 H1]. exists pr1. by apply m_alt_l.
  - destruct (IHHm Hc2 pr0) as [pr1 H1]. exists pr1. by apply m_alt_r.
  - exists pr0. constructor.
  - destruct (IHHm1 Hc pr0) as [pr1 H1]. destruct (IHHm2 Hc pr1) as [pr2 H2].
    exists pr2. by econstructor.
  - done.
Qed.

Lemma search_from_true r pr s :
  search_from r pr s = true <->
  (exists q, matches r (pr, s) q) \/
  (exists c s', s = c :: s' /\ search_from r (Some c) s' = true).
Proof.
  assert (Hat : is_Some (at_pos r (pr, s)) <-> exists q, matches r (pr, s) q).
  { etransitivity; [apply (rmatch_spec r Some (pr, s))|].
    split; [intros (q & ? & ?); eauto|intros (q & ?); exists q; split; [done|by eexists]]. }
  split.
  - destruct s as [|c s]; simpl; (destruct (at_pos _ _) eqn:E; [left; apply Hat; by eexists|]);
      [done|]. right. by exists c, s.
  - intros [Hq|(c & s' & -> & Hs)]; [apply Hat in Hq as [x Hx]; destruct s; simpl; by rewrite Hx|].
    simpl. by destruct (at_pos _ _).
Qed.

Lemma search_from_context r pr pr' s :
  context_free r = true -> search_from r pr s = true -> search_from r pr' s = true.
Proof.
  intros Hc Hs. apply search_from_true in Hs as [[q Hq]|(c & s' & -> & Hs)];
    apply search_from_true; [left|right; eauto].
  destruct (matches_context r (pr, s) q pr' Hc Hq) as [pr2 H2]. by eexists.
Qed.

(** A literal alternative found anywhere in the text is found by [search]. *)
Lemma matches_lits l f pr post :
  l <> [] -> (forall c pr s, matches (f c) (pr, c :: s) (Some c, s)) ->
  exists q, matches (lits l f) (pr, l ++ post) q.
Proof.
  intros Hne Hf. revert pr. induction l as [|c l IH]; intros pr; [done|].
  destruct l as [|c' l]; [by exists (Some c, post); apply Hf|].
  destruct (IH ltac:(done) (Some c)) as [q Hq]. exists q. simpl app.
  econstructor; [apply Hf|done].
Qed.
End Regex.

Lemma prefix_app p s : String.prefix p s = true -> exists t, s = p +:+ t.
Proof.
  revert s. induction p as [|c p IH]; intros s; simpl; [by exists s|].
  destruct s as [|c' s]; simpl; [done|]. destruct (ascii_dec c c') as [->|]; [|done].
  intros (t & ->)%IH. by exists t.
Qed.

Lemma contains_split p s :
  PyStr.contains p s = true -> exists a b, s = a +:+ p +:+ b.
Proof.
  induction s as [|c s IH]; cbn [PyStr.contains]; rewrite orb_true_iff; intros [H|H]; try done.
  - apply prefix_app in H as [t Ht]. exists "", t. exact Ht.
  - apply prefix_app in H as [t Ht]. exists "", t. exact Ht.
  - apply IH in H as (a & b & ->). by exists (String c a), b.
Qed.


Lemma search_literal_alt r s lit_s :
  lit_s <> [] ->
  (forall pr post, exists q, Regex.matches r (pr, lit_s ++ post) q) ->
  PyStr.contains (PyStr.of_chars lit_s) s = true -> Regex.search r s = true.
Proof.
  intros Hne Hm Hc. apply contains_split in Hc as (a & b & ->).
  apply Regex.search_from_spec. rewrite !PyStr.chars_app.
  unfold PyStr.of_chars, PyStr.chars at 2. rewrite String.list_ascii_of_string_of_list_ascii.
  destruct (Hm (match last (PyStr.chars a) with Some c => Some c | None => None end)
               (PyStr.chars b)) as [q Hq].
  by eexists (PyStr.chars a), (lit_s ++ PyStr.chars b), _, q.
Qed.
