(* ===== verification/Sha256.v ===== *)
(** * SHA-256

    The hash the source takes from [hashlib] to derive idempotency keys and
    payload hashes, executable on strings, so that action identifiers can be
    computed.  The round constants are derived from their definition (fractional
    parts of the square and cube roots of the first primes). *)

From stdpp Require Import base list strings.
From Stdlib Require Import ZArith Lia Ascii.
From S2P Require Import Prelude.
From S2P Require Import PyFloat.
From S2P Require Import PyValue.

Local Open Scope Z_scope.

Module Sha256.
Definition w32 (x : Z) : Z := Z.land x (2 ^ 32 - 1).
Definition add32 (x y : Z) : Z := w32 (x + y).
Definition rotr (n x : Z) : Z := Z.lor (Z.shiftr x n) (w32 (Z.shiftl x (32 - n))).
Definition not32 (x : Z) : Z := Z.lxor x (2 ^ 32 - 1).

Definition is_prime (n : Z) : bool :=
  forallb (fun d => negb (n mod (Z.of_nat d + 2) =? 0)) (seq 0 (Z.to_nat (n - 2))).
Definition primes (count : nat) : list Z :=
  take count (List.filter is_prime (map (fun i => Z.of_nat i + 2) (seq 0 400))).

(** The integer cube root, by bisection. *)
Fixpoint cbrt_go (fuel : nat) (lo hi n : Z) : Z :=
  match fuel with
  | O => lo
  | S f =>
      let mid := (lo + hi) / 2 in
      if mid * mid * mid <=? n then cbrt_go f mid hi n else cbrt_go f lo mid n
  end.
Definition K : list Z := Eval vm_compute in
  map (fun p => w32 (cbrt_go 60 0 (2 ^ 40) (p * 2 ^ 96))) (primes 64).
Definition H0 : list Z := Eval vm_compute in
  map (fun p => w32 (Z.sqrt (p * 2 ^ 64))) (primes 8).

Definition be_bytes (n : nat) (x : Z) : list Z :=
  map (fun i => Z.land (Z.shiftr x (8 * Z.of_nat (n - 1 - i))) 255) (seq 0 n).

Definition pad (msg : list Z) : list Z :=
  let l := Z.of_nat (length msg) in
  msg ++ [128] ++ replicate (Z.to_nat ((55 - l) mod 64)) 0 ++ be_bytes 8 (8 * l).

Fixpoint words (l : list Z) : list Z :=
  match l with
  | a :: b :: c :: d :: l' => (((a * 256 + b) * 256 + c) * 256 + d) :: words l'
  | _ => []
  end.

Definition s0 x := Z.lxor (Z.lxor (rotr 7 x) (rotr 18 x)) (Z.shiftr x 3).
Definition s1 x := Z.lxor (Z.lxor (rotr 17 x) (rotr 19 x)) (Z.shiftr x 10).
Definition S0 x := Z.lxor (Z.lxor (rotr 2 x) (rotr 13 x)) (rotr 22 x).
Definition S1 x := Z.lxor (Z.lxor (rotr 6 x) (rotr 11 x)) (rotr 25 x).
Definition Ch x y z := Z.lxor (Z.land x y) (Z.land (not32 x) z).
Definition Maj x y z := Z.lxor (Z.lxor (Z.land x y) (Z.land x z)) (Z.land y z).

(** The message schedule, kept in reverse. *)
Fixpoint schedule (n : nat) (rev : list Z) : list Z :=
  match n with
  | O => rev
  | S n' =>
      let nthz i := List.nth i rev 0 in
      schedule n' (w32 (s1 (nthz 1%nat) + nthz 6%nat + s0 (nthz 14%nat) + nthz 15%nat) :: rev)
  end.

Definition round (st : list Z) (kw : Z * Z) : list Z :=
  match st with
  | [a; b; c; d; e; f; g; h] =>
      let t1 := w32 (h + S1 e + Ch e f g + kw.1 + kw.2) in
      let t2 := w32 (S0 a + Maj a b c) in
      [add32 t1 t2; a; b; c; add32 d t1; e; f; g]
  | _ => st
  end.

Definition compress (st : list Z) (block : list Z) : list Z :=
  let w := reverse (schedule 48 (reverse block)) in
  zip_with add32 st (fold_left round (zip K w) st).

Fixpoint blocks (fuel : nat) (st : list Z) (ws : list Z) : list Z :=
  match fuel with
  | O => st
  | S f => match ws with
           | [] => st
           | _ => blocks f (compress st (take 16 ws)) (drop 16 ws)
           end
  end.

(** More fuel than words changes nothing. *)
Lemma blocks_fuel n m st ws :
  (length ws < n)%nat -> (length ws < m)%nat -> blocks n st ws = blocks m st ws.
Proof.
  revert m st ws; induction n as [|n IH]; intros m st ws Hn Hm; [lia|].
  destruct m as [|m]; [lia|]. destruct ws as [|w ws]; [done|].
  cbn [blocks]. apply IH; rewrite length_drop; simpl in *; lia.
Qed.

Definition digest (msg : list Z) : list Z :=
  let ws := words (pad msg) in
  concat (map (be_bytes 4) (blocks (S (length ws)) H0 ws)).

(** [s.encode()]: UTF-8 of a Latin-1 text *)
Definition utf8_char (c : ascii) : list Z :=
  let n := Z.of_nat (nat_of_ascii c) in
  if n <? 128 then [n] else [192 + n / 64; 128 + n mod 64].
Definition utf8 (s : string) : list Z := flat_map utf8_char (PyStr.chars s).

(** [hashlib.sha256(s.encode()).hexdigest()] *)
Definition hexdigest (s : string) : string :=
  PyStr.concat (map (fun b => PyStr.hex2 (Z.to_nat b)) (digest (utf8 s))).
End Sha256.

Example sha256_abc :
  Sha256.hexdigest "abc" = "ba7816bf8f01cfea414140de5dae2223b00361a396177a9cb410ff61f20015ad".
Proof. vm_compute. reflexivity. Qed.
Example sha256_long :
  Sha256.hexdigest "abcdbcdecdefdefgefghfghighijhijkijkljklmklmnlmnomnopnopq"
  = "248d6a61d20638b8e5c026930c3e6039a33ce45964ff2167f6ecedd419db06c1".
Proof. vm_compute. reflexivity. Qed.
