(* ===== verification/Contracts.v ===== *)
(** * Contracts: what a pydantic model promises

    Every contract class of [packages/contracts] is a pydantic model with
    [extra="forbid"] and, for most, [str_strip_whitespace=True].  Constructing
    one strips its strings, checks each field's constraints and then runs the
    model validators.  The class [Contract] is that protocol: [strip], the
    field checks [fields] (name, verdict) and the cross-field [rule];
    [validate] is the constructor.  Error texts name the field or the rule, no
    more. *)

From stdpp Require Import base list strings sets.
From Stdlib Require Import ZArith Lia Ascii.
From S2P Require Import Prelude.
From S2P Require Import PyFloat.
From S2P Require Import PyValue.
From S2P Require Import PyTime.

Local Open Scope py_scope.

(** ** Field types *)

Module Field.
(** Rust's [char::is_whitespace], which is what pydantic strips. *)
Definition is_white (c : ascii) : bool :=
  let n := PyStr.code c in
  ((9 <=? n) && (n <=? 13)) || (n =? 32) || (n =? 133) || (n =? 160).
Definition trim_l (l : list ascii) : list ascii :=
  reverse (PyStr.drop_while is_white (reverse (PyStr.drop_while is_white l))).
Definition trim (s : string) : string := PyStr.of_chars (trim_l (PyStr.chars s)).

(** [dict[str, Any]]: the keys are strings of the model, so they are stripped
    too; of two keys that become equal the last one wins. *)
Definition strip_keys (d : dict) : dict :=
  fold_left (fun acc kv => dset (trim kv.1) kv.2 acc) d [].

Definition length_in (lo hi : Z) (s : string) : bool :=
  ((lo <=? Z.of_nat (String.length s)) && (Z.of_nat (String.length s) <=? hi))%Z.
Definition opt {A} (p : A -> bool) (o : option A) : bool :=
  match o with Some a => p a | None => true end.

Definition is_alnum (c : ascii) : bool :=
  PyStr.is_digit c || PyStr.is_lower c || PyStr.is_upper c.
Definition is_one_of (l : string) (c : ascii) : bool := existsb (Ascii.eqb c) (PyStr.chars l).

(** [^[A-Za-z0-9._-]+$]; the length bound comes with every use. *)
Definition ident_char (c : ascii) : bool := is_alnum c || is_one_of "._-" c.
Definition ident (s : string) : bool :=
  length_in 1 128 s && forallb ident_char (PyStr.chars s).

(** [^[a-z0-9_]+\.[a-z0-9_]+$] *)
Definition name_char (c : ascii) : bool :=
  PyStr.is_digit c || PyStr.is_lower c || Ascii.eqb c "_"%char.
Definition name_part (s : string) : bool :=
  negb (String.eqb s "") && forallb name_char (PyStr.chars s).
Definition tool_name (s : string) : bool :=
  length_in 1 128 s &&
  match PyStr.split "."%char s with [a; b] => name_part a && name_part b | _ => false end.

(** [^\d+(\.\d+)*$] with [n] numbers *)
Definition digits (s : string) : bool :=
  negb (String.eqb s "") && forallb PyStr.is_digit (PyStr.chars s).
Definition version (n : nat) (s : string) : bool :=
  length_in 1 32 s &&
  (length (PyStr.split "."%char s) =? n) && forallb digits (PyStr.split "."%char s).

(** *** Stripping is idempotent *)

Lemma drop_while_app p (l : list ascii) : exists k, l = k ++ PyStr.drop_while p l.
Proof.
  induction l as [|c l [k IH]]; simpl; [by exists []|].
  destruct (p c); [exists (c :: k); simpl; by f_equal|by exists []].
Qed.
Lemma drop_while_head p (l : list ascii) :
  match PyStr.drop_while p l with [] => True | c :: _ => p c = false end.
Proof. induction l as [|c l IH]; simpl; [done|]. destruct (p c) eqn:E; [done|by simpl]. Qed.
Lemma drop_while_stop p (l : list ascii) :
  match l with [] => True | c :: _ => p c = false end -> PyStr.drop_while p l = l.
Proof. destruct l as [|c l]; simpl; [done|]. by intros ->. Qed.

Lemma trim_l_idem l : trim_l (trim_l l) = trim_l l.
Proof.
  unfold trim_l. set (x := PyStr.drop_while is_white l).
  set (y := PyStr.drop_while is_white (reverse x)).
  assert (PyStr.drop_while is_white (reverse y) = reverse y) as ->.
  { apply drop_while_stop. destruct (drop_while_app is_white (reverse x)) as [k Hk].
    fold y in Hk. assert (x = reverse y ++ reverse k) as Hx
      by (by rewrite <- (reverse_involutive x), Hk, reverse_app).
    pose proof (drop_while_head is_white l) as Hh. fold x in Hh. rewrite Hx in Hh.
    by destruct (reverse y). }
  rewrite reverse_involutive. f_equal. apply drop_while_stop.
  apply (drop_while_head is_white (reverse x)).
Qed.

Lemma trim_idem s : trim (trim s) = trim s.
Proof.
  unfold trim, PyStr.of_chars, PyStr.chars.
  by rewrite String.list_ascii_of_string_of_list_ascii, trim_l_idem.
Qed.

Lemma opt_trim_idem (o : option string) : fmap trim (fmap trim o) = fmap trim o.
Proof. destruct o; simpl; [by rewrite trim_idem|done]. Qed.

Lemma map_trim_idem l : map trim (map trim l) = map trim l.
Proof. induction l; simpl; [done|]. by rewrite trim_idem, IHl. Qed.

(** Keys of a dictionary are pairwise distinct. *)
Definition keys_ok (d : dict) : Prop :=
  NoDup (dkeys d) /\ Forall (fun k => trim k = k) (dkeys d).

Lemma dset_keys k (v : pyval) d :
  dkeys (dset k v d) = if dmem k d then dkeys d else dkeys d ++ [k].
Proof.
  unfold dmem. induction d as [|[k' v'] d IH]; simpl; [done|].
  destruct (String.eqb_spec k k') as [->|]; simpl; [done|].
  rewrite IH. by destruct (dget k d).
Qed.
Lemma dget_none k (d : dict) : dget k d = None <-> k ∉ dkeys d.
Proof.
  induction d as [|[k' v'] d IH]; simpl; [set_solver|].
  destruct (String.eqb_spec k k') as [->|]; [set_solver|]. set_solver.
Qed.

Lemma dset_keys_ok k v d : keys_ok d -> trim k = k -> keys_ok (dset k v d).
Proof.
  intros [Hn Hf] Hk. unfold keys_ok. rewrite dset_keys. unfold dmem.
  destruct (dget k d) eqn:E; [done|]. apply dget_none in E. split.
  - apply NoDup_app. split; [done|]. split; [set_solver|]. apply NoDup_singleton.
  - apply Forall_app. split; [done|]. by constructor.
Qed.

Lemma strip_keys_ok d : keys_ok (strip_keys d).
Proof.
  unfold strip_keys. assert (keys_ok []) as H by (split; constructor).
  revert H. generalize (@nil (string * pyval)). induction d as [|[k v] d IH]; intros acc H; simpl; [done|].
  apply IH. apply dset_keys_ok; [done|]. apply trim_idem.
Qed.

Lemma strip_keys_id d : keys_ok d -> strip_keys d = d.
Proof.
  intros H. unfold strip_keys.
  enough (forall acc, keys_ok (acc ++ d) ->
    fold_left (fun acc kv => dset (trim kv.1) kv.2 acc) d acc = acc ++ d) as E by (by apply E).
  clear H. induction d as [|[k v] d IH]; intros acc H; simpl; [by rewrite app_nil_r|].
  destruct H as [Hn Hf]. unfold dkeys in *. rewrite map_app in *. simpl in *.
  apply NoDup_app in Hn as (Hn1 & Hn2 & Hn3). apply Forall_app in Hf as [Hf1 Hf2].
  assert (trim k = k) as -> by (by inversion Hf2).
  rewrite dset_fresh by (intros Hin; apply (Hn2 k Hin); left).
  rewrite IH; [by rewrite <- app_assoc|].
  rewrite <- app_assoc. simpl. unfold keys_ok, dkeys. rewrite map_app. simpl. split.
  - by apply NoDup_app.
  - by apply Forall_app.
Qed.

Lemma strip_keys_idem d : strip_keys (strip_keys d) = strip_keys d.
Proof. apply strip_keys_id, strip_keys_ok. Qed.

(** A string made of identifier characters survives stripping. *)
Lemma trim_no_white s :
  forallb (fun c => negb (is_white c)) (PyStr.chars s) = true -> trim s = s.
Proof.
  intros H. unfold trim, trim_l. set (l := PyStr.chars s) in *.
  assert (forall m, (forall c, c ∈ m -> c ∈ l) -> PyStr.drop_while is_white m = m) as Hd.
  { intros m Hm. apply drop_while_stop. destruct m as [|c m]; [done|].
    assert (Hc := proj1 (forallb_forall _ _) H c). rewrite negb_true_iff in Hc.
    apply Hc, list_elem_of_In, Hm. left. }
  rewrite (Hd l) by done. rewrite (Hd (reverse l)) by (intros c; by rewrite elem_of_reverse).
  rewrite reverse_involutive. apply String.string_of_list_ascii_of_string.
Qed.
End Field.

(** ** The construction protocol *)

Class Contract (T : Type) := {
  strip : T -> T;
  fields : T -> list (string * bool);
  rule : T -> option string;
  strip_idem : forall x, strip (strip x) = strip x;
}.

#[global] Arguments strip : simpl never.

Fixpoint first_bad (l : list (string * bool)) : option string :=
  match l with
  | [] => None
  | (name, ok) :: l' => if ok : bool then first_bad l' else Some name
  end.

Definition validate {T} `{Contract T} (x : T) : result T :=
  let y := strip x in
  match first_bad (fields y) with
  | Some name => Exn (ValidationError name)
  | None => match rule y with
            | Some msg => Exn (ValidationError msg)
            | None => Ok y
            end
  end.

Lemma first_bad_none l : first_bad l = None <-> Forall (fun p => p.2 = true) l.
Proof.
  induction l as [|[n b] l IH]; simpl; [by split|].
  destruct b; rewrite Forall_cons; simpl; naive_solver.
Qed.

Lemma validate_ok {T} `{Contract T} (x y : T) :
  validate x = Ok y <-> y = strip x /\ Forall (fun p => p.2 = true) (fields y) /\ rule y = None.
Proof.
  unfold validate. rewrite <- first_bad_none.
  destruct (first_bad _) eqn:E; [naive_solver congruence|].
  destruct (rule _) eqn:E'; naive_solver congruence.
Qed.

Lemma validate_error {T} `{Contract T} (x : T) e :
  validate x = Exn e -> exists msg, e = ValidationError msg.
Proof. unfold validate. destruct (first_bad _); [|destruct (rule _)]; naive_solver. Qed.

(** A nested model is stripped and checked as part of its parent. *)
Definition valid {T} `{Contract T} (x : T) : bool := is_ok (validate x).

Lemma map_strip_idem {T} `{Contract T} (l : list T) : map strip (map strip l) = map strip l.
Proof. induction l as [|x l IH]; simpl; [done|]. by rewrite strip_idem, IH. Qed.
Lemma opt_strip_idem {T} `{Contract T} (o : option T) : fmap strip (fmap strip o) = fmap strip o.
Proof. destruct o; simpl; [by rewrite strip_idem|done]. Qed.

(** [model_dump(mode="json")] of an [Any] field keeps JSON values and raises on
    anything else. *)
Fixpoint serializable (v : pyval) : bool :=
  match v with
  | VObj _ => false
  | VList l => forallb serializable l
  | VDict d => forallb (fun kv => serializable kv.2) d
  | _ => true
  end.
Definition dump_dict (d : dict) : result pyval :=
  if serializable (VDict d) then Ok (VDict d)
  else Exn (ValueError "Unable to serialize unknown type").

Lemma serializable_roundtrip v : serializable (json_roundtrip v) = true.
Proof.
  induction v as [ | | | | |l IH|d IH| ] using pyval_induction; simpl; try done.
  - induction IH; simpl; [done|]. by apply andb_true_iff.
  - induction IH as [|[k x]]; simpl in *; [done|]. by apply andb_true_iff.
Qed.

(** Datetimes in JSON mode: [isoformat] with a [Z] suffix. *)
Definition json_time (t : PyTime.time) : string :=
  PyStr.slice (String.length (PyTime.isoformat t) - 6) (PyTime.isoformat t) +:+ "Z".

Example json_time_sample : json_time 1789128000000000 = "2026-09-11T12:00:00Z".
Proof. vm_compute. reflexivity. Qed.
Example trim_sample : Field.trim "  a b " = "a b".
Proof. vm_compute. reflexivity. Qed.
