(* ===== verification/ContractsRun.v ===== *)
(** * Run lifecycle contracts

    [packages/contracts/run.py] and [packages/contracts/errors.py]: the
    enumerations, the models as records, and their construction rules as
    instances of [Contract]. *)

From stdpp Require Import base list strings sets.
From Stdlib Require Import ZArith Lia Ascii.
From S2P Require Import Prelude.
From S2P Require Import PyFloat.
From S2P Require Import PyValue.
From S2P Require Import PyTime.
From S2P Require Import Contracts.

Local Open Scope py_scope.

(** A [StrEnum] is looked up by its value. *)
Definition parse_enum {A} (value : A -> string) (all : list A) (s : string) : option A :=
  find (fun x => String.eqb (value x) s) all.

(** Canonical run lifecycle. *)
Module RunStatus.
Inductive t : Type :=
  | CREATED | RUNNING | WAITING_FOR_APPROVAL | COMPLETED | FAILED | CANCELLED.
#[global] Instance t_eq_dec : EqDecision t.
Proof. solve_decision. Defined.
Definition value (x : t) : string :=
  match x with
  | CREATED => "created"
  | RUNNING => "running"
  | WAITING_FOR_APPROVAL => "waiting_for_approval"
  | COMPLETED => "completed"
  | FAILED => "failed"
  | CANCELLED => "cancelled"
  end.
Definition all : list t := [CREATED; RUNNING; WAITING_FOR_APPROVAL; COMPLETED; FAILED; CANCELLED].
Definition parse (s : string) : option t := parse_enum value all s.
Lemma RunStatus_parse_value x : parse (value x) = Some x.
Proof. by destruct x. Qed.
End RunStatus.

(** Severity of a finding. *)
Module SeverityLevel.
Inductive t : Type :=
  | LOW | MEDIUM | HIGH | CRITICAL.
#[global] Instance t_eq_dec : EqDecision t.
Proof. solve_decision. Defined.
Definition value (x : t) : string :=
  match x with
  | LOW => "low"
  | MEDIUM => "medium"
  | HIGH => "high"
  | CRITICAL => "critical"
  end.
Definition all : list t := [LOW; MEDIUM; HIGH; CRITICAL].
Definition parse (s : string) : option t := parse_enum value all s.
Lemma SeverityLevel_parse_value x : parse (value x) = Some x.
Proof. by destruct x. Qed.
End SeverityLevel.

(** Risk of a proposed action. *)
Module RiskLevel.
Inductive t : Type :=
  | LOW | MEDIUM | HIGH | CRITICAL.
#[global] Instance t_eq_dec : EqDecision t.
Proof. solve_decision. Defined.
Definition value (x : t) : string :=
  match x with
  | LOW => "low"
  | MEDIUM => "medium"
  | HIGH => "high"
  | CRITICAL => "critical"
  end.
Definition all : list t := [LOW; MEDIUM; HIGH; CRITICAL].
Definition parse (s : string) : option t := parse_enum value all s.
Lemma RiskLevel_parse_value x : parse (value x) = Some x.
Proof. by destruct x. Qed.
End RiskLevel.

(** Kind of an evidence reference. *)
Module EvidenceKind.
Inductive t : Type :=
  | METRIC | LOG | TRACE | DOC | RUNBOOK | AGENT.
#[global] Instance t_eq_dec : EqDecision t.
Proof. solve_decision. Defined.
Definition value (x : t) : string :=
  match x with
  | METRIC => "metric"
  | LOG => "log"
  | TRACE => "trace"
  | DOC => "doc"
  | RUNBOOK => "runbook"
  | AGENT => "agent"
  end.
Definition all : list t := [METRIC; LOG; TRACE; DOC; RUNBOOK; AGENT].
Definition parse (s : string) : option t := parse_enum value all s.
Lemma EvidenceKind_parse_value x : parse (value x) = Some x.
Proof. by destruct x. Qed.
End EvidenceKind.

(** Codes of the shared error envelope. *)
Module ErrorCode.
Inductive t : Type :=
  | VALIDATION_ERROR | AUTH_ERROR | FORBIDDEN | NOT_FOUND | CONFLICT | RATE_LIMITED | TIMEOUT | MODEL_ERROR | TOOL_ERROR | A2A_ERROR | POLICY_DENIED | APPROVAL_REQUIRED | APPROVAL_EXPIRED | BUDGET_EXCEEDED | CANCELLED | INTERNAL_ERROR | UNAVAILABLE.
#[global] Instance t_eq_dec : EqDecision t.
Proof. solve_decision. Defined.
Definition value (x : t) : string :=
  match x with
  | VALIDATION_ERROR => "validation_error"
  | AUTH_ERROR => "auth_error"
  | FORBIDDEN => "forbidden"
  | NOT_FOUND => "not_found"
  | CONFLICT => "conflict"
  | RATE_LIMITED => "rate_limited"
  | TIMEOUT => "timeout"
  | MODEL_ERROR => "model_error"
  | TOOL_ERROR => "tool_error"
  | A2A_ERROR => "a2a_error"
  | POLICY_DENIED => "policy_denied"
  | APPROVAL_REQUIRED => "approval_required"
  | APPROVAL_EXPIRED => "approval_expired"
  | BUDGET_EXCEEDED => "budget_exceeded"
  | CANCELLED => "cancelled"
  | INTERNAL_ERROR => "internal_error"
  | UNAVAILABLE => "unavailable"
  end.
Definition all : list t := [VALIDATION_ERROR; AUTH_ERROR; FORBIDDEN; NOT_FOUND; CONFLICT; RATE_LIMITED; TIMEOUT; MODEL_ERROR; TOOL_ERROR; A2A_ERROR; POLICY_DENIED; APPROVAL_REQUIRED; APPROVAL_EXPIRED; BUDGET_EXCEEDED; CANCELLED; INTERNAL_ERROR; UNAVAILABLE].
Definition parse (s : string) : option t := parse_enum value all s.
Lemma ErrorCode_parse_value x : parse (value x) = Some x.
Proof. by destruct x. Qed.
End ErrorCode.


(** Checks the optional run, tenant, trace and correlation fields share. *)
Definition opt_ref (o : option string) : bool := Field.opt (Field.length_in 1 128) o.
Definition opt_trace (o : option string) : bool := Field.opt (Field.length_in 0 128) o.

(** Stripping a record is idempotent because stripping each field is. *)
Lemma opt_keys_idem (o : option dict) :
  fmap Field.strip_keys (fmap Field.strip_keys o) = fmap Field.strip_keys o.
Proof. destruct o; simpl; [by rewrite Field.strip_keys_idem|done]. Qed.
Tactic Notation "strip_fields" reference(f) :=
  intros []; unfold f; simpl;
  rewrite ?map_strip_idem, ?opt_strip_idem, ?Field.trim_idem, ?Field.opt_trim_idem, ?Field.map_trim_idem, ?Field.strip_keys_idem,
    ?opt_keys_idem; reflexivity.

Module EvidenceReference.
Record t := mk {
  ref_id : string; kind : EvidenceKind.t; uri : string; excerpt_hash : option string;
  span_ref : option string; run_id : option string; tenant_id : option string }.
Definition allowed : list string :=
  ["resource://"; "telemetry://"; "trace://"; "https://"; "a2a://"].
(** [_uri_scheme] *)
Definition uri_scheme (v : string) : bool := existsb (fun p => PyStr.startswith p v) allowed.
Definition strip_all (x : t) : t :=
  mk (Field.trim (ref_id x)) (kind x) (Field.trim (uri x)) (Field.trim <$> excerpt_hash x)
     (Field.trim <$> span_ref x) (Field.trim <$> run_id x) (Field.trim <$> tenant_id x).
Definition checks (x : t) : list (string * bool) :=
  [("ref_id", Field.ident (ref_id x));
   ("uri", Field.length_in 1 2048 (uri x) && uri_scheme (uri x));
   ("excerpt_hash", Field.opt (Field.length_in 1 256) (excerpt_hash x));
   ("span_ref", Field.opt (Field.length_in 0 256) (span_ref x));
   ("run_id", opt_ref (run_id x)); ("tenant_id", opt_ref (tenant_id x))].
#[global, refine] Instance contract : Contract t :=
  {| strip := strip_all; fields := checks; rule _ := None |}.
Proof. strip_fields strip_all. Defined.
End EvidenceReference.

Module Finding.
Record t := mk {
  finding_id : string; run_id : option string; tenant_id : option string; title : string;
  summary : string; evidence_refs : list string; confidence : float;
  severity : option SeverityLevel.t; trace_id : option string; correlation_id : option string }.
(** [_non_empty_refs] *)
Definition non_empty_refs (v : list string) : bool := forallb (Field.length_in 1 128) v.
Definition strip_all (x : t) : t :=
  mk (Field.trim (finding_id x)) (Field.trim <$> run_id x) (Field.trim <$> tenant_id x)
     (Field.trim (title x)) (Field.trim (summary x)) (map Field.trim (evidence_refs x))
     (confidence x) (severity x) (Field.trim <$> trace_id x) (Field.trim <$> correlation_id x).
Definition checks (x : t) : list (string * bool) :=
  [("finding_id", Field.ident (finding_id x));
   ("run_id", opt_ref (run_id x)); ("tenant_id", opt_ref (tenant_id x));
   ("title", Field.length_in 1 256 (title x)); ("summary", Field.length_in 1 4000 (summary x));
   ("evidence_refs", (length (evidence_refs x) <=? 64) && non_empty_refs (evidence_refs x));
   ("confidence", PyFloat.leb PyFloat.zero (confidence x) && PyFloat.leb (confidence x) PyFloat.one);
   ("trace_id", opt_trace (trace_id x)); ("correlation_id", opt_trace (correlation_id x))].
#[global, refine] Instance contract : Contract t :=
  {| strip := strip_all; fields := checks; rule _ := None |}.
Proof. strip_fields strip_all. Defined.
End Finding.

(** [a <= x <= b] on an integer field *)
Definition int_in (a b x : Z) : bool := ((a <=? x) && (x <=? b))%Z.
(** [0.0 <= x <= 1000.0] *)
Definition cost_ok (x : float) : bool :=
  PyFloat.leb PyFloat.zero x && PyFloat.leb x (PyFloat.of_Z 1000).

Module AgentRequest.
Record t := mk {
  run_id : string; tenant_id : string; user_id : string; objective : string; context : dict;
  max_tool_calls : Z; max_model_calls : Z; max_cost_usd : float;
  idempotency_key : option string; trace_id : option string; correlation_id : option string }.
(** [_cap_context] *)
Definition cap_context (v : dict) : bool :=
  (length v <=? 64) && (Z.of_nat (json_size (VDict v)) <=? 65536)%Z.
Definition strip_all (x : t) : t :=
  mk (Field.trim (run_id x)) (Field.trim (tenant_id x)) (Field.trim (user_id x))
     (Field.trim (objective x)) (Field.strip_keys (context x)) (max_tool_calls x)
     (max_model_calls x) (max_cost_usd x) (Field.trim <$> idempotency_key x)
     (Field.trim <$> trace_id x) (Field.trim <$> correlation_id x).
Definition checks (x : t) : list (string * bool) :=
  [("run_id", Field.ident (run_id x)); ("tenant_id", Field.ident (tenant_id x));
   ("user_id", Field.length_in 1 256 (user_id x));
   ("objective", Field.length_in 1 8192 (objective x));
   ("context", cap_context (context x));
   ("max_tool_calls", int_in 1 100 (max_tool_calls x));
   ("max_model_calls", int_in 1 50 (max_model_calls x));
   ("max_cost_usd", cost_ok (max_cost_usd x));
   ("idempotency_key", opt_ref (idempotency_key x));
   ("trace_id", opt_trace (trace_id x)); ("correlation_id", opt_trace (correlation_id x))].
#[global, refine] Instance contract : Contract t :=
  {| strip := strip_all; fields := checks; rule _ := None |}.
Proof. strip_fields strip_all. Defined.
End AgentRequest.

(** [RunBudget] has no string to strip. *)
Module RunBudget.
Record t := mk {
  max_tool_calls : Z; max_model_calls : Z; max_cost_usd : float;
  consumed_tool_calls : Z; consumed_model_calls : Z; consumed_cost_usd : float }.
Definition checks (x : t) : list (string * bool) :=
  [("max_tool_calls", int_in 1 100 (max_tool_calls x));
   ("max_model_calls", int_in 1 50 (max_model_calls x));
   ("max_cost_usd", cost_ok (max_cost_usd x));
   ("consumed_tool_calls", (0 <=? consumed_tool_calls x)%Z);
   ("consumed_model_calls", (0 <=? consumed_model_calls x)%Z);
   ("consumed_cost_usd", PyFloat.leb PyFloat.zero (consumed_cost_usd x))].
#[global, refine] Instance contract : Contract t :=
  {| strip x := x; fields := checks; rule _ := None |}.
Proof. done. Defined.
End RunBudget.

Module Run.
Record t := mk {
  run_id : string; tenant_id : string; created_by : string; objective : string;
  status : RunStatus.t; current_state : string; budget : RunBudget.t;
  created_at : PyTime.time; updated_at : PyTime.time; completed_at : option PyTime.time;
  trace_id : option string; correlation_id : option string }.
Definition strip_all (x : t) : t :=
  mk (Field.trim (run_id x)) (Field.trim (tenant_id x)) (Field.trim (created_by x))
     (Field.trim (objective x)) (status x) (Field.trim (current_state x)) (budget x)
     (created_at x) (updated_at x) (completed_at x)
     (Field.trim <$> trace_id x) (Field.trim <$> correlation_id x).
Definition checks (x : t) : list (string * bool) :=
  [("run_id", Field.ident (run_id x)); ("tenant_id", Field.ident (tenant_id x));
   ("created_by", Field.length_in 1 256 (created_by x));
   ("objective", Field.length_in 1 8192 (objective x));
   ("current_state", Field.length_in 1 128 (current_state x));
   ("budget", valid (budget x));
   ("trace_id", opt_trace (trace_id x)); ("correlation_id", opt_trace (correlation_id x))].
#[global, refine] Instance contract : Contract t :=
  {| strip := strip_all; fields := checks; rule _ := None |}.
Proof. strip_fields strip_all. Defined.
End Run.

Module ProposedAction.
Record t := mk {
  action_id : string; run_id : option string; tenant_id : option string; tool_name : string;
  reason : string; input : dict; risk : RiskLevel.t; requires_approval : bool;
  rollback : option string; dry_run : bool; idempotency_key : string;
  trace_id : option string; correlation_id : option string }.
(** [_cap_input] *)
Definition cap_input (v : dict) : bool :=
  (length v <=? 50) && (Z.of_nat (json_size (VDict v)) <=? 32768)%Z.
Definition is_high (r : RiskLevel.t) : bool :=
  match r with RiskLevel.HIGH | RiskLevel.CRITICAL => true | _ => false end.
(** [_high_risk_needs_approval] *)
Definition high_risk_needs_approval (r : RiskLevel.t) (v : bool) : bool := negb (is_high r) || v.
Definition strip_all (x : t) : t :=
  mk (Field.trim (action_id x)) (Field.trim <$> run_id x) (Field.trim <$> tenant_id x)
     (Field.trim (tool_name x)) (Field.trim (reason x)) (Field.strip_keys (input x)) (risk x)
     (requires_approval x) (Field.trim <$> rollback x) (dry_run x)
     (Field.trim (idempotency_key x)) (Field.trim <$> trace_id x)
     (Field.trim <$> correlation_id x).
Definition checks (x : t) : list (string * bool) :=
  [("action_id", Field.ident (action_id x));
   ("run_id", opt_ref (run_id x)); ("tenant_id", opt_ref (tenant_id x));
   ("tool_name", Field.tool_name (tool_name x));
   ("reason", Field.length_in 1 2000 (reason x)); ("input", cap_input (input x));
   ("requires_approval", high_risk_needs_approval (risk x) (requires_approval x));
   ("rollback", Field.opt (Field.length_in 0 2000) (rollback x));
   ("idempotency_key", Field.length_in 1 128 (idempotency_key x));
   ("trace_id", opt_trace (trace_id x)); ("correlation_id", opt_trace (correlation_id x))].
#[global, refine] Instance contract : Contract t :=
  {| strip := strip_all; fields := checks; rule _ := None |}.
Proof. strip_fields strip_all. Defined.
(** [model_dump(mode="json")] *)
Definition dump (x : t) : result dict :=
  let? inp := dump_dict (input x) in
  Ok [("schema_version", VStr "1.0"); ("action_id", VStr (action_id x));
      ("run_id", opt_str (run_id x)); ("tenant_id", opt_str (tenant_id x));
      ("tool_name", VStr (tool_name x)); ("reason", VStr (reason x)); ("input", inp);
      ("risk", VStr (RiskLevel.value (risk x)));
      ("requires_approval", VBool (requires_approval x)); ("rollback", opt_str (rollback x));
      ("dry_run", VBool (dry_run x)); ("idempotency_key", VStr (idempotency_key x));
      ("trace_id", opt_str (trace_id x)); ("correlation_id", opt_str (correlation_id x))].
End ProposedAction.

Module AgentResult.
Record t := mk {
  run_id : option string; tenant_id : option string; answer : string;
  findings : list Finding.t; proposed_actions : list ProposedAction.t;
  unresolved_questions : list string; trace_id : option string; correlation_id : option string }.
(** [_cap_questions] *)
Definition cap_questions (v : list string) : bool := forallb (Field.length_in 1 1000) v.
Definition strip_all (x : t) : t :=
  mk (Field.trim <$> run_id x) (Field.trim <$> tenant_id x) (Field.trim (answer x))
     (map strip (findings x)) (map strip (proposed_actions x)) (map Field.trim (unresolved_questions x))
     (Field.trim <$> trace_id x) (Field.trim <$> correlation_id x).
Definition checks (x : t) : list (string * bool) :=
  [("run_id", opt_ref (run_id x)); ("tenant_id", opt_ref (tenant_id x));
   ("answer", Field.length_in 1 16000 (answer x)); 
   ("findings", (length (findings x) <=? 64) && forallb valid (findings x));
   ("proposed_actions",
     (length (proposed_actions x) <=? 16) && forallb valid (proposed_actions x));
   ("unresolved_questions",
     (length (unresolved_questions x) <=? 32) && cap_questions (unresolved_questions x));
   ("trace_id", opt_trace (trace_id x)); ("correlation_id", opt_trace (correlation_id x))].
#[global, refine] Instance contract : Contract t :=
  {| strip := strip_all; fields := checks; rule _ := None |}.
Proof. strip_fields strip_all. Defined.
End AgentResult.

Module ErrorEnvelope.
Record t := mk {
  code : ErrorCode.t; message : string; run_id : option string; tenant_id : option string;
  retryable : bool; details : option dict; trace_id : option string;
  correlation_id : option string }.
Definition markers : list string :=
  ["bearer "; "api_key"; "apikey"; "client_secret"; "-----begin"].
(** [_no_secret_markers] *)
Definition no_secret_markers (v : string) : bool :=
  negb (existsb (fun m => PyStr.contains m (PyStr.lower v)) markers).
(** [_cap_details] *)
Definition cap_details (v : dict) : bool :=
  (length v <=? 16) && (Z.of_nat (json_size (VDict v)) <=? 8192)%Z.
Definition strip_all (x : t) : t :=
  mk (code x) (Field.trim (message x)) (Field.trim <$> run_id x) (Field.trim <$> tenant_id x)
     (retryable x) (Field.strip_keys <$> details x) (Field.trim <$> trace_id x)
     (Field.trim <$> correlation_id x).
Definition checks (x : t) : list (string * bool) :=
  [("message", Field.length_in 1 2000 (message x) && no_secret_markers (message x));
   ("run_id", opt_ref (run_id x)); ("tenant_id", opt_ref (tenant_id x));
   ("details", Field.opt cap_details (details x));
   ("trace_id", opt_trace (trace_id x)); ("correlation_id", opt_trace (correlation_id x))].
#[global, refine] Instance contract : Contract t :=
  {| strip := strip_all; fields := checks; rule _ := None |}.
Proof. strip_fields strip_all. Defined.
End ErrorEnvelope.
