(* ===== verification/ContractsOps.v ===== *)
(** * Event, approval, tool and delegation contracts

    [packages/contracts/events.py], [approvals.py], [tools.py] and [a2a.py]. *)

From stdpp Require Import base list strings sets.
From Stdlib Require Import ZArith Lia Ascii.
From S2P Require Import Prelude.
From S2P Require Import PyFloat.
From S2P Require Import PyValue.
From S2P Require Import PyTime.
From S2P Require Import Contracts.
From S2P Require Import ContractsRun.

Local Open Scope py_scope.

(** Canonical event types. *)
Module EventType.
Inductive t : Type :=
  | RUN_STARTED | MESSAGE_DELTA | TOOL_STARTED | TOOL_COMPLETED | AGENT_DELEGATED | FINDING_CREATED | APPROVAL_REQUIRED | APPROVAL_RECEIVED | RUN_COMPLETED | RUN_FAILED | RUN_CANCELLED.
#[global] Instance t_eq_dec : EqDecision t.
Proof. solve_decision. Defined.
Definition value (x : t) : string :=
  match x with
  | RUN_STARTED => "run.started"
  | MESSAGE_DELTA => "message.delta"
  | TOOL_STARTED => "tool.started"
  | TOOL_COMPLETED => "tool.completed"
  | AGENT_DELEGATED => "agent.delegated"
  | FINDING_CREATED => "finding.created"
  | APPROVAL_REQUIRED => "approval.required"
  | APPROVAL_RECEIVED => "approval.received"
  | RUN_COMPLETED => "run.completed"
  | RUN_FAILED => "run.failed"
  | RUN_CANCELLED => "run.cancelled"
  end.
Definition all : list t := [RUN_STARTED; MESSAGE_DELTA; TOOL_STARTED; TOOL_COMPLETED; AGENT_DELEGATED; FINDING_CREATED; APPROVAL_REQUIRED; APPROVAL_RECEIVED; RUN_COMPLETED; RUN_FAILED; RUN_CANCELLED].
Definition parse (s : string) : option t := parse_enum value all s.
Lemma EventType_parse_value x : parse (value x) = Some x.
Proof. by destruct x. Qed.
End EventType.

(** Decision of an approval row. *)
Module ApprovalDecision.
Inductive t : Type :=
  | PENDING | APPROVED | REJECTED | EXPIRED.
#[global] Instance t_eq_dec : EqDecision t.
Proof. solve_decision. Defined.
Definition value (x : t) : string :=
  match x with
  | PENDING => "pending"
  | APPROVED => "approved"
  | REJECTED => "rejected"
  | EXPIRED => "expired"
  end.
Definition all : list t := [PENDING; APPROVED; REJECTED; EXPIRED].
Definition parse (s : string) : option t := parse_enum value all s.
Lemma ApprovalDecision_parse_value x : parse (value x) = Some x.
Proof. by destruct x. Qed.
End ApprovalDecision.

(** Category of a tool. *)
Module ToolCategory.
Inductive t : Type :=
  | READ | ANALYSIS | WRITE | DESTRUCTIVE.
#[global] Instance t_eq_dec : EqDecision t.
Proof. solve_decision. Defined.
Definition value (x : t) : string :=
  match x with
  | READ => "read"
  | ANALYSIS => "analysis"
  | WRITE => "write"
  | DESTRUCTIVE => "destructive"
  end.
Definition all : list t := [READ; ANALYSIS; WRITE; DESTRUCTIVE].
Definition parse (s : string) : option t := parse_enum value all s.
Lemma ToolCategory_parse_value x : parse (value x) = Some x.
Proof. by destruct x. Qed.
End ToolCategory.

(** Declared side effect of a tool. *)
Module SideEffect.
Inductive t : Type :=
  | NONE | EXTERNAL_WRITE | DESTRUCTIVE.
#[global] Instance t_eq_dec : EqDecision t.
Proof. solve_decision. Defined.
Definition value (x : t) : string :=
  match x with
  | NONE => "none"
  | EXTERNAL_WRITE => "external_write"
  | DESTRUCTIVE => "destructive"
  end.
Definition all : list t := [NONE; EXTERNAL_WRITE; DESTRUCTIVE].
Definition parse (s : string) : option t := parse_enum value all s.
Lemma SideEffect_parse_value x : parse (value x) = Some x.
Proof. by destruct x. Qed.
End SideEffect.

(** Status of a tool invocation row. *)
Module ToolInvocationStatus.
Inductive t : Type :=
  | PENDING | RUNNING | SUCCEEDED | FAILED | DENIED | TIMEOUT | CANCELLED.
#[global] Instance t_eq_dec : EqDecision t.
Proof. solve_decision. Defined.
Definition value (x : t) : string :=
  match x with
  | PENDING => "pending"
  | RUNNING => "running"
  | SUCCEEDED => "succeeded"
  | FAILED => "failed"
  | DENIED => "denied"
  | TIMEOUT => "timeout"
  | CANCELLED => "cancelled"
  end.
Definition all : list t := [PENDING; RUNNING; SUCCEEDED; FAILED; DENIED; TIMEOUT; CANCELLED].
Definition parse (s : string) : option t := parse_enum value all s.
Lemma ToolInvocationStatus_parse_value x : parse (value x) = Some x.
Proof. by destruct x. Qed.
End ToolInvocationStatus.

(** Authorization recorded for an invocation. *)
Module AuthorizationDecision.
Inductive t : Type :=
  | ALLOWED | DENIED | REQUIRES_APPROVAL.
#[global] Instance t_eq_dec : EqDecision t.
Proof. solve_decision. Defined.
Definition value (x : t) : string :=
  match x with
  | ALLOWED => "allowed"
  | DENIED => "denied"
  | REQUIRES_APPROVAL => "requires_approval"
  end.
Definition all : list t := [ALLOWED; DENIED; REQUIRES_APPROVAL].
Definition parse (s : string) : option t := parse_enum value all s.
Lemma AuthorizationDecision_parse_value x : parse (value x) = Some x.
Proof. by destruct x. Qed.
End AuthorizationDecision.

(** Status of a delegated task. *)
Module A2ATaskStatus.
Inductive t : Type :=
  | PENDING | WORKING | COMPLETED | FAILED | TIMEOUT | CANCELLED | REJECTED.
#[global] Instance t_eq_dec : EqDecision t.
Proof. solve_decision. Defined.
Definition value (x : t) : string :=
  match x with
  | PENDING => "pending"
  | WORKING => "working"
  | COMPLETED => "completed"
  | FAILED => "failed"
  | TIMEOUT => "timeout"
  | CANCELLED => "cancelled"
  | REJECTED => "rejected"
  end.
Definition all : list t := [PENDING; WORKING; COMPLETED; FAILED; TIMEOUT; CANCELLED; REJECTED].
Definition parse (s : string) : option t := parse_enum value all s.
Lemma A2ATaskStatus_parse_value x : parse (value x) = Some x.
Proof. by destruct x. Qed.
End A2ATaskStatus.


Module AgentEvent.
Record t := mk {
  event_id : string; run_id : string; tenant_id : string; sequence : Z; type : EventType.t;
  timestamp : PyTime.time; data : dict; trace_id : option string;
  correlation_id : option string; sensitive : bool; safe_for_ui : bool }.
Definition strip_all (x : t) : t :=
  mk (Field.trim (event_id x)) (Field.trim (run_id x)) (Field.trim (tenant_id x)) (sequence x)
     (type x) (timestamp x) (Field.strip_keys (data x)) (Field.trim <$> trace_id x)
     (Field.trim <$> correlation_id x) (sensitive x) (safe_for_ui x).
Definition checks (x : t) : list (string * bool) :=
  [("event_id", Field.ident (event_id x)); ("run_id", Field.ident (run_id x));
   ("tenant_id", Field.ident (tenant_id x)); ("sequence", int_in 0 1000000 (sequence x));
   ("trace_id", opt_trace (trace_id x)); ("correlation_id", opt_trace (correlation_id x))].
(** [_sensitive_never_ui_safe] *)
Definition sensitive_never_ui_safe (x : t) : option string :=
  if sensitive x && safe_for_ui x
  then Some "sensitive events must not be marked safe_for_ui" else None.
#[global, refine] Instance contract : Contract t :=
  {| strip := strip_all; fields := checks; rule := sensitive_never_ui_safe |}.
Proof. strip_fields strip_all. Defined.
(** [model_dump(mode="json")] *)
Definition dump (x : t) : result dict :=
  let? data := dump_dict (data x) in
  Ok [("schema_version", VStr "1.0"); ("event_id", VStr (event_id x));
      ("run_id", VStr (run_id x)); ("tenant_id", VStr (tenant_id x));
      ("sequence", VInt (sequence x)); ("type", VStr (EventType.value (type x)));
      ("timestamp", VStr (json_time (timestamp x))); ("data", data);
      ("trace_id", opt_str (trace_id x)); ("correlation_id", opt_str (correlation_id x));
      ("sensitive", VBool (sensitive x)); ("safe_for_ui", VBool (safe_for_ui x))].
End AgentEvent.

Module Approval.
Record t := mk {
  approval_id : string; run_id : string; tenant_id : string; action_id : string;
  requested_by : string; approver : option string; decision : ApprovalDecision.t;
  reason : option string; requested_at : PyTime.time; decided_at : option PyTime.time;
  expires_at : option PyTime.time; trace_id : option string; correlation_id : option string }.
Definition strip_all (x : t) : t :=
  mk (Field.trim (approval_id x)) (Field.trim (run_id x)) (Field.trim (tenant_id x))
     (Field.trim (action_id x)) (Field.trim (requested_by x)) (Field.trim <$> approver x)
     (decision x) (Field.trim <$> reason x) (requested_at x) (decided_at x) (expires_at x)
     (Field.trim <$> trace_id x) (Field.trim <$> correlation_id x).
Definition checks (x : t) : list (string * bool) :=
  [("approval_id", Field.ident (approval_id x)); ("run_id", Field.ident (run_id x));
   ("tenant_id", Field.ident (tenant_id x)); ("action_id", Field.ident (action_id x));
   ("requested_by", Field.length_in 1 256 (requested_by x));
   ("approver", Field.opt (Field.length_in 1 256) (approver x));
   ("reason", Field.opt (Field.length_in 0 2000) (reason x));
   ("trace_id", opt_trace (trace_id x)); ("correlation_id", opt_trace (correlation_id x))].
Definition terminal (d : ApprovalDecision.t) : bool :=
  match d with ApprovalDecision.PENDING => false | _ => true end.
Definition needs_approver (d : ApprovalDecision.t) : bool :=
  match d with ApprovalDecision.APPROVED | ApprovalDecision.REJECTED => true | _ => false end.
Definition before (a : option PyTime.time) (b : PyTime.time) : bool :=
  match a with Some t => (t <? b)%Z | None => false end.
(** [_decision_consistency] *)
Definition decision_consistency (x : t) : option string :=
  let late := if before (expires_at x) (requested_at x)
              then Some "expires_at must be >= requested_at" else None in
  if terminal (decision x) then
    match decided_at x with
    | None => Some "terminal approvals require decided_at"
    | Some d =>
        if needs_approver (decision x) &&
           negb (match approver x with Some a => negb (String.eqb a "") | None => false end)
        then Some "approved/rejected decisions require approver"
        else if (d <? requested_at x)%Z then Some "decided_at must be >= requested_at"
        else late
    end
  else match decided_at x with
       | Some _ => Some "pending approvals must not have decided_at"
       | None => late
       end.
#[global, refine] Instance contract : Contract t :=
  {| strip := strip_all; fields := checks; rule := decision_consistency |}.
Proof. strip_fields strip_all. Defined.
End Approval.

Module ApprovalDecisionRequest.
(** [decision] is the literal approved or rejected. *)
Record t := mk {
  decision : string; reason : option string; approver : string;
  idempotency_key : option string }.
Definition strip_all (x : t) : t :=
  mk (decision x) (Field.trim <$> reason x) (Field.trim (approver x))
     (Field.trim <$> idempotency_key x).
Definition checks (x : t) : list (string * bool) :=
  [("decision", String.eqb (decision x) "approved" || String.eqb (decision x) "rejected");
   ("reason", Field.opt (Field.length_in 0 2000) (reason x));
   ("approver", Field.length_in 1 256 (approver x));
   ("idempotency_key", opt_ref (idempotency_key x))].
#[global, refine] Instance contract : Contract t :=
  {| strip := strip_all; fields := checks; rule _ := None |}.
Proof. strip_fields strip_all. Defined.
End ApprovalDecisionRequest.

Module PolicyDecision.
Record t := mk {
  rule_version : string; allowed : bool; requires_approval : bool; reason : string;
  required_scopes : list string; max_impact : option RiskLevel.t; tenant_id : option string;
  run_id : option string; trace_id : option string; correlation_id : option string }.
Definition strip_all (x : t) : t :=
  mk (Field.trim (rule_version x)) (allowed x) (requires_approval x) (Field.trim (reason x))
     (map Field.trim (required_scopes x)) (max_impact x) (Field.trim <$> tenant_id x)
     (Field.trim <$> run_id x) (Field.trim <$> trace_id x) (Field.trim <$> correlation_id x).
Definition checks (x : t) : list (string * bool) :=
  [("rule_version", Field.version 2 (rule_version x));
   ("reason", Field.length_in 1 2000 (reason x));
   ("required_scopes", length (required_scopes x) <=? 16);
   ("tenant_id", opt_ref (tenant_id x)); ("run_id", opt_ref (run_id x));
   ("trace_id", opt_trace (trace_id x)); ("correlation_id", opt_trace (correlation_id x))].
(** [_deny_is_terminal] *)
Definition deny_is_terminal (x : t) : option string :=
  if negb (allowed x) && requires_approval x
  then Some "denied decisions must not require approval (deny is terminal)" else None.
#[global, refine] Instance contract : Contract t :=
  {| strip := strip_all; fields := checks; rule := deny_is_terminal |}.
Proof. strip_fields strip_all. Defined.
(** [model_dump(mode="json")] *)
Definition dump (x : t) : dict :=
  [("schema_version", VStr "1.0"); ("rule_version", VStr (rule_version x));
   ("allowed", VBool (allowed x)); ("requires_approval", VBool (requires_approval x));
   ("reason", VStr (reason x)); ("required_scopes", VList (map VStr (required_scopes x)));
   ("max_impact", opt_str (RiskLevel.value <$> max_impact x));
   ("tenant_id", opt_str (tenant_id x)); ("run_id", opt_str (run_id x));
   ("trace_id", opt_str (trace_id x)); ("correlation_id", opt_str (correlation_id x))].
End PolicyDecision.

Module ToolMetadata.
Record t := mk {
  name : string; description : string; category : ToolCategory.t; side_effect : SideEffect.t;
  idempotent : bool; timeout_seconds : Z; required_scopes : list string;
  approval_required : bool; supports_dry_run : bool; owner : string; version : string }.
Definition strip_all (x : t) : t :=
  mk (Field.trim (name x)) (Field.trim (description x)) (category x) (side_effect x)
     (idempotent x) (timeout_seconds x) (map Field.trim (required_scopes x))
     (approval_required x) (supports_dry_run x) (Field.trim (owner x)) (Field.trim (version x)).
Definition checks (x : t) : list (string * bool) :=
  [("name", Field.tool_name (name x)); ("description", Field.length_in 1 2000 (description x));
   ("timeout_seconds", int_in 1 600 (timeout_seconds x));
   ("required_scopes", length (required_scopes x) <=? 16);
   ("owner", Field.length_in 1 128 (owner x)); ("version", Field.version 3 (version x))].
Definition is_write (c : ToolCategory.t) : bool :=
  match c with ToolCategory.WRITE | ToolCategory.DESTRUCTIVE => true | _ => false end.
(** [_category_policy] *)
Definition category_policy (x : t) : option string :=
  if is_write (category x) && negb (approval_required x)
  then Some "write/destructive tools must require approval"
  else if bool_decide (category x = ToolCategory.READ)
            && negb (bool_decide (side_effect x = SideEffect.NONE))
  then Some "read tools must have side_effect=none"
  else if bool_decide (side_effect x = SideEffect.DESTRUCTIVE)
            && negb (bool_decide (category x = ToolCategory.DESTRUCTIVE))
  then Some "destructive side_effect requires category=destructive"
  else if bool_decide (side_effect x = SideEffect.EXTERNAL_WRITE)
            && negb (is_write (category x) || bool_decide (category x = ToolCategory.ANALYSIS))
  then Some "external_write side_effect requires write/destructive/analysis category"
  else None.
#[global, refine] Instance contract : Contract t :=
  {| strip := strip_all; fields := checks; rule := category_policy |}.
Proof. strip_fields strip_all. Defined.
(** [model_dump(mode="json")] *)
Definition dump (x : t) : dict :=
  [("schema_version", VStr "1.0"); ("name", VStr (name x)); ("description", VStr (description x));
   ("category", VStr (ToolCategory.value (category x)));
   ("side_effect", VStr (SideEffect.value (side_effect x))); ("idempotent", VBool (idempotent x));
   ("timeout_seconds", VInt (timeout_seconds x));
   ("required_scopes", VList (map VStr (required_scopes x)));
   ("approval_required", VBool (approval_required x));
   ("supports_dry_run", VBool (supports_dry_run x)); ("owner", VStr (owner x));
   ("version", VStr (version x))].
End ToolMetadata.

Module ToolInvocation.
Record t := mk {
  invocation_id : string; run_id : string; tenant_id : string; tool_name : string;
  tool_version : string; input_hash : string; redacted_input : dict;
  output_hash : option string; status : ToolInvocationStatus.t;
  authorization_decision : option AuthorizationDecision.t; idempotency_key : option string;
  dry_run : bool; started_at : PyTime.time; completed_at : option PyTime.time;
  trace_id : option string; correlation_id : option string; error : option dict }.
Definition strip_all (x : t) : t :=
  mk (Field.trim (invocation_id x)) (Field.trim (run_id x)) (Field.trim (tenant_id x))
     (Field.trim (tool_name x)) (Field.trim (tool_version x)) (Field.trim (input_hash x))
     (Field.strip_keys (redacted_input x)) (Field.trim <$> output_hash x) (status x)
     (authorization_decision x) (Field.trim <$> idempotency_key x) (dry_run x) (started_at x)
     (completed_at x) (Field.trim <$> trace_id x) (Field.trim <$> correlation_id x)
     (Field.strip_keys <$> error x).
Definition checks (x : t) : list (string * bool) :=
  [("invocation_id", Field.ident (invocation_id x)); ("run_id", Field.ident (run_id x));
   ("tenant_id", Field.ident (tenant_id x)); ("tool_name", Field.tool_name (tool_name x));
   ("tool_version", Field.version 3 (tool_version x));
   ("input_hash", Field.length_in 1 256 (input_hash x));
   ("output_hash", Field.opt (Field.length_in 1 256) (output_hash x));
   ("idempotency_key", opt_ref (idempotency_key x));
   ("trace_id", opt_trace (trace_id x)); ("correlation_id", opt_trace (correlation_id x))].
Definition is_terminal (s : ToolInvocationStatus.t) : bool :=
  match s with
  | ToolInvocationStatus.SUCCEEDED | ToolInvocationStatus.FAILED
  | ToolInvocationStatus.TIMEOUT | ToolInvocationStatus.CANCELLED => true
  | _ => false
  end.
(** [_completed_after_started] *)
Definition completed_after_started (x : t) : option string :=
  match completed_at x with
  | Some c => if (c <? started_at x)%Z then Some "completed_at must be >= started_at" else None
  | None => if is_terminal (status x) then Some "terminal invocations require completed_at"
            else None
  end.
#[global, refine] Instance contract : Contract t :=
  {| strip := strip_all; fields := checks; rule := completed_after_started |}.
Proof. strip_fields strip_all. Defined.
(** [model_dump(mode="json")] *)
Definition dump (x : t) : result dict :=
  let? redacted := dump_dict (redacted_input x) in
  let? failure := match error x with Some d => dump_dict d | None => Ok VNone end in
  Ok [("schema_version", VStr "1.0"); ("invocation_id", VStr (invocation_id x));
      ("run_id", VStr (run_id x)); ("tenant_id", VStr (tenant_id x));
      ("tool_name", VStr (tool_name x)); ("tool_version", VStr (tool_version x));
      ("input_hash", VStr (input_hash x)); ("redacted_input", redacted);
      ("output_hash", opt_str (output_hash x));
      ("status", VStr (ToolInvocationStatus.value (status x)));
      ("authorization_decision", opt_str (AuthorizationDecision.value <$> authorization_decision x));
      ("idempotency_key", opt_str (idempotency_key x)); ("dry_run", VBool (dry_run x));
      ("started_at", VStr (json_time (started_at x)));
      ("completed_at", opt_str (json_time <$> completed_at x));
      ("trace_id", opt_str (trace_id x)); ("correlation_id", opt_str (correlation_id x));
      ("error", failure)].
End ToolInvocation.

(** ** Delegation *)

Module A2ATaskRequest.
(** [callback_url] is the text of a parsed [AnyHttpUrl]. *)
Record t := mk {
  task_id : string; run_id : option string; tenant_id : string; skill_id : string;
  agent_name : string; objective : string; inputs : dict; callback_url : option string;
  deadline : PyTime.time; requester : string; trace_id : option string;
  correlation_id : option string }.
Definition strip_all (x : t) : t :=
  mk (Field.trim (task_id x)) (Field.trim <$> run_id x) (Field.trim (tenant_id x))
     (Field.trim (skill_id x)) (Field.trim (agent_name x)) (Field.trim (objective x))
     (Field.strip_keys (inputs x)) (callback_url x) (deadline x) (Field.trim (requester x))
     (Field.trim <$> trace_id x) (Field.trim <$> correlation_id x).
Definition checks (x : t) : list (string * bool) :=
  [("task_id", Field.ident (task_id x)); ("run_id", opt_ref (run_id x));
   ("tenant_id", Field.ident (tenant_id x)); ("skill_id", Field.ident (skill_id x));
   ("agent_name", Field.length_in 1 128 (agent_name x));
   ("objective", Field.length_in 1 8192 (objective x));
   ("requester", Field.length_in 1 256 (requester x));
   ("trace_id", opt_trace (trace_id x)); ("correlation_id", opt_trace (correlation_id x))].
#[global, refine] Instance contract : Contract t :=
  {| strip := strip_all; fields := checks; rule _ := None |}.
Proof. strip_fields strip_all. Defined.
End A2ATaskRequest.

Module A2ATaskError.
Record t := mk { code : string; message : string; retryable : bool }.
Definition strip_all (x : t) : t :=
  mk (Field.trim (code x)) (Field.trim (message x)) (retryable x).
Definition checks (x : t) : list (string * bool) :=
  [("code", Field.length_in 1 128 (code x)); ("message", Field.length_in 1 2000 (message x))].
#[global, refine] Instance contract : Contract t :=
  {| strip := strip_all; fields := checks; rule _ := None |}.
Proof. strip_fields strip_all. Defined.
End A2ATaskError.

Module A2ATaskResult.
Record t := mk {
  task_id : string; run_id : option string; tenant_id : option string;
  status : A2ATaskStatus.t; output : option dict; artifacts : list dict;
  error : option A2ATaskError.t; trace_id : option string; correlation_id : option string }.
Definition strip_all (x : t) : t :=
  mk (Field.trim (task_id x)) (Field.trim <$> run_id x) (Field.trim <$> tenant_id x) (status x)
     (Field.strip_keys <$> output x) (map Field.strip_keys (artifacts x)) (strip <$> error x)
     (Field.trim <$> trace_id x) (Field.trim <$> correlation_id x).
Definition checks (x : t) : list (string * bool) :=
  [("task_id", Field.ident (task_id x)); ("run_id", opt_ref (run_id x));
   ("tenant_id", opt_ref (tenant_id x)); ("artifacts", length (artifacts x) <=? 32);
   ("error", Field.opt valid (error x));
   ("trace_id", opt_trace (trace_id x)); ("correlation_id", opt_trace (correlation_id x))].
Definition has_error (x : t) : bool := match error x with Some _ => true | None => false end.
(** [_status_payload_consistency] *)
Definition status_payload_consistency (x : t) : option string :=
  match status x with
  | A2ATaskStatus.COMPLETED =>
      if has_error x then Some "completed results must not carry error" else None
  | A2ATaskStatus.FAILED | A2ATaskStatus.TIMEOUT =>
      if has_error x then None else Some "failed/timeout results must carry error"
  | _ => None
  end.
Lemma map_keys_idem l : map Field.strip_keys (map Field.strip_keys l) = map Field.strip_keys l.
Proof. induction l; simpl; [done|]. by rewrite Field.strip_keys_idem, IHl. Qed.
#[global, refine] Instance contract : Contract t :=
  {| strip := strip_all; fields := checks; rule := status_payload_consistency |}.
Proof.
  intros []. unfold strip_all. simpl.
  by rewrite !Field.opt_trim_idem, Field.trim_idem, opt_keys_idem, map_keys_idem, opt_strip_idem.
Defined.
End A2ATaskResult.

Module AgentSkill.
Record t := mk {
  id : string; name : string; description : string; input_modes : list string;
  output_modes : list string }.
Definition default_modes : list string := ["application/json"].
Definition strip_all (x : t) : t :=
  mk (Field.trim (id x)) (Field.trim (name x)) (Field.trim (description x))
     (map Field.trim (input_modes x)) (map Field.trim (output_modes x)).
Definition checks (x : t) : list (string * bool) :=
  [("id", Field.ident (id x)); ("name", Field.length_in 1 256 (name x));
   ("description", Field.length_in 1 2000 (description x));
   ("input_modes", length (input_modes x) <=? 8);
   ("output_modes", length (output_modes x) <=? 8)].
#[global, refine] Instance contract : Contract t :=
  {| strip := strip_all; fields := checks; rule _ := None |}.
Proof. strip_fields strip_all. Defined.
End AgentSkill.

Module AgentCard.
(** [url] is the text of a parsed [AnyHttpUrl]; [schemes] is the list of
    [AgentAuthentication], whose model strips nothing. *)
Record t := mk {
  name : string; description : string; url : string; version : string;
  skills : list AgentSkill.t; schemes : list string }.
(** [^[a-z0-9-]+$] *)
Definition card_name (s : string) : bool :=
  Field.length_in 1 128 s &&
  forallb (fun c => PyStr.is_digit c || PyStr.is_lower c || Ascii.eqb c "-"%char) (PyStr.chars s).
Definition strip_all (x : t) : t :=
  mk (Field.trim (name x)) (Field.trim (description x)) (url x) (Field.trim (version x))
     (map strip (skills x)) (schemes x).
(** a non-empty list of at most [n] items *)
Definition count_in {A} (n : nat) (l : list A) : bool := (1 <=? length l) && (length l <=? n).
Definition checks (x : t) : list (string * bool) :=
  [("name", card_name (name x)); ("description", Field.length_in 1 2000 (description x));
   ("version", Field.version 3 (version x));
   ("skills", count_in 32 (skills x) && forallb valid (skills x));
   ("authentication", count_in 8 (schemes x))].
#[global, refine] Instance contract : Contract t :=
  {| strip := strip_all; fields := checks; rule _ := None |}.
Proof. strip_fields strip_all. Defined.
End AgentCard.
