(* ===== verification/Redaction.v ===== *)
(** * Redaction and hashing

    Module [Redact] models the redaction hook of
    [packages/persistence/repositories.py], which works on dotted key paths;
    Module [McpRedact] models [apps/mcp_server/redact.py] and its facade
    [packages/security/redaction.py], which work on key names and rewrite
    matches inside free text.  Both hash a canonical JSON text. *)

From stdpp Require Import base list strings pretty.
From Stdlib Require Import ZArith Lia Ascii.
From S2P Require Import Prelude.
From S2P Require Import PyFloat.
From S2P Require Import PyValue.
From S2P Require Import Regex.
From S2P Require Import Sha256.

(** [json.dumps(v, sort_keys=True, separators=(",", ":"), default=str)] *)
Fixpoint json_canonical (v : pyval) : string :=
  match v with
  | VList l => "[" +:+ PyStr.join "," (map json_canonical l) +:+ "]"
  | VDict d =>
      "{" +:+ PyStr.join ","
        (map (fun kv => PyStr.json kv.1 +:+ ":" +:+ kv.2)
             (sorted_items (map (fun kv => (kv.1, json_canonical kv.2)) d))) +:+ "}"
  | _ => json_dumps v
  end.

Module Redact.
Import Regex.

Definition REDACTED : string := "***REDACTED***".

Definition one_of (l : string) (c : ascii) : bool := existsb (Ascii.eqb c) (PyStr.chars l).
Definition alnum (c : ascii) : bool := PyStr.is_digit c || PyStr.is_lower c || PyStr.is_upper c.
(** [[_-]?] *)
Definition sep : re := opt (RClass (one_of "_-")).
(** The alternatives of [_SENSITIVE_KEY_RE], under [re.IGNORECASE]. *)
Definition SENSITIVE_KEY_RE : re :=
  alts [
    ilit "password"; ilit "passwd"; ilit "secret"; ilit "token";
    RSeq (ilit "api") (RSeq sep (ilit "key"));
    RSeq (ilit "access") (RSeq sep (ilit "key"));
    RSeq (ilit "private") (RSeq sep (ilit "key"));
    RSeq (ilit "client") (RSeq sep (ilit "secret"));
    ilit "auth"; ilit "authorization"; ilit "bearer"; ilit "cookie"; ilit "sessionid";
    RSeq (ilit "connection") (RSeq sep (ilit "string"));
    ilit "dsn"; RSeq (ilit "credit") (RSeq sep (ilit "card")); ilit "ssn"].

(** Bearer tokens, PEM blocks and two provider token shapes. *)
Definition SECRET_VALUE_RES : list re :=
  [ seqs [ilit "bearer"; plus space; plus (RClass (fun c => alnum c || one_of "-._~+/" c));
          RStar (chr "="%char)];
    seqs [lit "-----BEGIN "; RStar (RClass (fun c => PyStr.is_upper c || one_of " " c));
          lit "PRIVATE KEY-----"];
    seqs [word_boundary; lit "sk-"; at_least 8 (RClass alnum); word_boundary];
    seqs [word_boundary; lit "xox"; RClass (one_of "baprs"); lit "-";
          at_least 8 (RClass (fun c => alnum c || one_of "-" c)); word_boundary] ].

(** [[A-Za-z0-9\-_+/=]{64,}] *)
Definition OPAQUE_RE : re := at_least 64 (RClass (fun c => alnum c || one_of "-_+/=" c)).

Definition sensitive_key (path : string) : bool := search SENSITIVE_KEY_RE path.
Definition secret_value (s : string) : bool := existsb (fun rx => search rx s) SECRET_VALUE_RES.
Definition opaque_blob (s : string) : bool :=
  (64 <? String.length s) && fullmatch OPAQUE_RE (PyStr.strip s).

(** [f"{key_path}.{k}" if key_path else str(k)] *)
Definition child (key_path k : string) : string :=
  if String.eqb key_path "" then k else key_path +:+ "." +:+ k.

Definition redact_str (key_path s : string) : string :=
  if negb (String.eqb key_path "") && sensitive_key key_path then REDACTED
  else if secret_value s then REDACTED
  else if opaque_blob s then REDACTED
  else s.

Fixpoint redact_value (key_path : string) (value : pyval) : pyval :=
  match value with
  | VDict d => VDict (map (fun kv => (kv.1, redact_value (child key_path kv.1) kv.2)) d)
  | VList l => VList (map (redact_value key_path) l)
  | VStr s => VStr (redact_str key_path s)
  | _ => value
  end.

Definition default_redact (obj : pyval) : pyval :=
  match obj with
  | VDict d => VDict (map (fun kv => (kv.1, redact_value kv.1 kv.2)) d)
  | VList l => VList (map (redact_value "") l)
  | _ => redact_value "" obj
  end.

Definition hash_payload (payload : pyval) : string :=
  "sha256:" +:+ Sha256.hexdigest (json_canonical payload).

(** The inner [walk] of [_contains_bare_secret_marker]. *)
Fixpoint walk (o : pyval) (path : string) : bool :=
  match o with
  | VDict d => existsb (fun kv => walk kv.2 (path +:+ "." +:+ kv.1)) d
  | VList l => existsb (fun v => walk v path) l
  | VStr s => negb (String.eqb path "") && sensitive_key path && negb (String.eqb s REDACTED)
  | _ => false
  end.
Definition contains_bare_secret_marker (obj : pyval) : bool := walk obj "".
End Redact.

Example redact_sample :
  Redact.default_redact (VDict [("a", VDict [("apiKey", VStr "x"); ("n", VInt 3)]);
    ("note", VStr "use Bearer abc.def"); ("k", VStr "key sk-abcdefgh1.")])
  = VDict [("a", VDict [("apiKey", VStr Redact.REDACTED); ("n", VInt 3)]);
    ("note", VStr Redact.REDACTED); ("k", VStr Redact.REDACTED)].
Proof. vm_compute. reflexivity. Qed.
Example hash_sample :
  json_canonical (VDict [("b", VInt 1); ("a", VList [VNone; VStr "x"])]) =
  "{" +:+ PyStr.json "a" +:+ ":[null," +:+ PyStr.json "x" +:+ "]," +:+ PyStr.json "b" +:+ ":1}".
Proof. vm_compute. reflexivity. Qed.

(** ** The MCP gateway's redaction *)

Module McpRedact.
Import Regex.

Definition SENSITIVE_KEYS : list string :=
  ["password"; "passwd"; "secret"; "client_secret"; "api_key"; "apikey"; "token";
   "access_token"; "refresh_token"; "id_token"; "authorization"; "bearer"; "cookie";
   "set-cookie"; "private_key"; "connection_string"; "ssn"; "social_security";
   "social_security_number"; "credit_card"; "creditcard"; "card_number"; "cc_number"; "cc";
   "email"; "email_address"; "phone"; "phone_number"; "mobile"].

Definition REDACTED : string := "[REDACTED]".
Definition OUTPUT_MAX_BYTES : Z := 65536.

Definition digits (n : nat) : re := rep n digit.
Definition BEARER_RE : re :=
  seqs [ilit "bearer"; plus space;
        plus (RClass (fun c => Redact.alnum c || Redact.one_of "._-~+/=" c))].
Definition pem_name : re := plus (RClass (fun c => PyStr.is_upper c || Redact.one_of " " c)).
Definition PEM_RE : re :=
  seqs [lit "-----BEGIN "; pem_name; lit "-----"; RLazy (RClass (fun _ => true));
        lit "-----END "; pem_name; lit "-----"].
Definition SSN_RE : re :=
  seqs [word_boundary; digits 3; lit "-"; digits 2; lit "-"; digits 4; word_boundary].
Definition CC_RE : re :=
  let gap := opt (RClass (Redact.one_of " -")) in
  seqs [word_boundary; digits 4; gap; digits 4; gap; digits 4; gap; digits 4; word_boundary].
Definition letter (c : ascii) : bool := PyStr.is_lower c || PyStr.is_upper c.
Definition EMAIL_RE : re :=
  seqs [plus (RClass (fun c => Redact.alnum c || Redact.one_of "._%+-" c)); lit "@";
        plus (RClass (fun c => Redact.alnum c || Redact.one_of ".-" c)); lit ".";
        at_least 2 (RClass letter)].
Definition PHONE_RE : re :=
  let gap := opt (RClass (fun c => Redact.one_of "-." c || PyStr.is_space c)) in
  seqs [word_boundary; opt (seqs [opt (lit "+"); lit "1"; gap]);
        opt (seqs [opt (lit "("); digits 3; opt (lit ")"); gap]);
        digits 3; gap; digits 4; word_boundary].
(** The combined pattern. *)
Definition PII_RE : re := alts [SSN_RE; CC_RE; EMAIL_RE; PHONE_RE].

Definition redact_string (value : string) : string :=
  let value := sub BEARER_RE ("Bearer " +:+ REDACTED) value in
  let value := sub PEM_RE REDACTED value in
  let value := sub SSN_RE REDACTED value in
  let value := sub CC_RE REDACTED value in
  let value := sub EMAIL_RE REDACTED value in
  sub PHONE_RE REDACTED value.

Definition sensitive (k : string) : bool :=
  existsb (String.eqb (PyStr.lower k)) SENSITIVE_KEYS.

Fixpoint redact (obj : pyval) : pyval :=
  match obj with
  | VDict d =>
      VDict (map (fun kv => (kv.1, if sensitive kv.1 then VStr REDACTED else redact kv.2)) d)
  | VList l => VList (map redact l)
  | VStr s => VStr (redact_string s)
  | _ => obj
  end.

(** [redact] of a dictionary *)
Definition redact_dict (d : dict) : dict :=
  match redact (VDict d) with VDict d' => d' | _ => [] end.

Definition sha256_hex (payload : pyval) : string := Sha256.hexdigest (json_canonical payload).

Definition output_too_large (payload : pyval) (limit_bytes : Z) : bool :=
  (limit_bytes <? Z.of_nat (json_size payload))%Z.

Definition redact_for_audit (payload : pyval) (limit_bytes : Z) : pyval :=
  let redacted := redact payload in
  if output_too_large redacted limit_bytes then
    VDict [("redacted", VBool true); ("output_hash", VStr (sha256_hex redacted));
           ("hint", VStr ("output_too_large: truncated to hash reference (limit "
                          +:+ pretty limit_bytes +:+ "B)"))]
  else redacted.

(** [packages/security/redaction.py] *)
Definition safe_for_ui (payload : dict) : pyval :=
  if truthy (get_or "sensitive" VNone payload) && negb (truthy (get_or "safe_for_ui" VNone payload))
  then VDict [("redacted", VBool true);
              ("output_hash", VStr (sha256_hex (redact (VDict payload))));
              ("hint", VStr "sensitive payload withheld (safe_for_ui=false)")]
  else redact (VDict payload).
End McpRedact.

Example mcp_redact_sample :
  map McpRedact.redact_string
    ["bearer a.b= x"; "ssn 123-45-6789."; "4111 1111-11111111"; "to a.b@c.io now"; "call 415-555-1234!";
     "-----BEGIN A-----k-----END A-----k-----END A-----"]
  = ["Bearer [REDACTED] x"; "ssn [REDACTED]."; "[REDACTED]"; "to [REDACTED] now";
     "call [REDACTED]!"; "[REDACTED]k-----END A-----"].
Proof. vm_compute. reflexivity. Qed.

(** ** What the repository's hook guarantees *)

(** [string_at p q s v]: [v], itself at path [p], holds the string [s] at
    path [q]. *)
Inductive string_at : string -> string -> string -> pyval -> Prop :=
  | at_str p s : string_at p p s (VStr s)
  | at_list p q s l v : v ∈ l -> string_at p q s v -> string_at p q s (VList l)
  | at_dict p q s d k v :
      (k, v) ∈ d -> string_at (Redact.child p k) q s v -> string_at p q s (VDict d).

Module RedactLemmas.
Import Redact.

Lemma default_redact_value v : default_redact v = redact_value "" v.
Proof. by destruct v. Qed.

Lemma redacted_leaf v p q s :
  string_at p q s (redact_value p v) <-> exists s0, string_at p q s0 v /\ s = redact_str q s0.
Proof.
  revert p. induction v as [ | | | |s1|l IH|d IH| ] using pyval_induction; intros p;
    try (by split; [inversion 1|intros (? & H & _); inversion H]); simpl.
  - split; [inversion 1; subst; exists s1; split; [constructor|done]|].
    intros (s0 & H & ->). inversion H; subst. constructor.
  - rewrite Forall_forall in IH. split.
    + inversion 1 as [|? ? ? ? v Hin Hv|]; subst. apply list_elem_of_fmap in Hin as (v0 & -> & Hin).
      apply IH in Hv as (s0 & H0 & ->); [|done]. exists s0. split; [by econstructor|done].
    + intros (s0 & H & ->). inversion H as [|? ? ? ? v Hin Hv|]; subst.
      econstructor; [by apply list_elem_of_fmap_2|]. apply IH; eauto.
  - rewrite Forall_forall in IH. split.
    + inversion 1 as [| |? ? ? ? k v Hin Hv]; subst.
      apply list_elem_of_fmap in Hin as ([k0 v0] & [= -> ->] & Hin). simpl in Hv.
      apply (IH (k0, v0) Hin) in Hv as (s0 & H0 & ->). exists s0. split; [by econstructor|done].
    + intros (s0 & H & ->). inversion H as [| |? ? ? ? k v Hin Hv]; subst.
      eapply (at_dict _ _ _ _ k (redact_value (child p k) v)).
      { apply list_elem_of_fmap. by exists (k, v). }
      apply (IH (k, v) Hin). eauto.
Qed.

Lemma REDACTED_plain : secret_value REDACTED = false /\ opaque_blob REDACTED = false.
Proof. by vm_compute. Qed.

Lemma redact_str_idem q s : redact_str q (redact_str q s) = redact_str q s.
Proof.
  unfold redact_str at 2 3. destruct (_ && _) eqn:E.
  { unfold redact_str. by rewrite E. }
  destruct (secret_value s) eqn:E1; [|destruct (opaque_blob s) eqn:E2];
    unfold redact_str; rewrite E; rewrite ?(proj1 REDACTED_plain), ?(proj2 REDACTED_plain);
    [done|done|by rewrite E1, E2].
Qed.

Lemma redact_value_idem v p : redact_value p (redact_value p v) = redact_value p v.
Proof.
  revert p. induction v as [ | | | |s|l IH|d IH| ] using pyval_induction; intros p; simpl; try done.
  - by rewrite redact_str_idem.
  - f_equal. induction IH as [|v l Hv _ IH]; simpl; [done|]. by rewrite Hv, IH.
  - f_equal. induction IH as [|[k v] d Hv _ IH]; simpl in *; [done|]. by rewrite Hv, IH.
Qed.

(** Leading dots change no verdict of the key expression. *)
Lemma sensitive_dot s : sensitive_key ("." +:+ s) = sensitive_key s.
Proof.
  assert (Hc : Regex.context_free SENSITIVE_KEY_RE = true) by (by vm_compute).
  assert (sensitive_key ("." +:+ s)
          = Regex.search_from SENSITIVE_KEY_RE (Some "."%char) (PyStr.chars s)) as -> by done.
  apply eq_bool_prop_intro. split; intros H; apply Is_true_true in H; apply Is_true_true;
    by eapply Regex.search_from_context.
Qed.

Inductive dotted : string -> string -> Prop :=
  | dotted_same p : dotted p p
  | dotted_dot w p : dotted w p -> dotted ("." +:+ w) p.

Lemma dotted_sensitive w p : dotted w p -> sensitive_key w = sensitive_key p.
Proof. induction 1; [done|]. by rewrite sensitive_dot. Qed.

Lemma dotted_app w p t : dotted w p -> dotted (w +:+ t) (p +:+ t).
Proof.
  induction 1 as [|w p H IH]; [constructor|]. simpl. exact (dotted_dot _ _ IH).
Qed.

Lemma dotted_child w p k : dotted w p -> dotted (w +:+ "." +:+ k) (child p k).
Proof.
  intros H. unfold child. destruct (String.eqb_spec p "") as [->|]; [|by apply dotted_app].
  apply (dotted_app _ _ ("." +:+ k)) in H. remember ("" +:+ "." +:+ k) as t eqn:Et.
  induction H; [subst; apply (dotted_dot k); constructor|by apply dotted_dot; apply IHdotted].
Qed.

Lemma walk_redacted v p w : dotted w p -> walk (redact_value p v) w = false.
Proof.
  revert p w. induction v as [ | | | |s|l IH|d IH| ] using pyval_induction; intros p w Hd;
    simpl; try done.
  - rewrite (dotted_sensitive _ _ Hd). unfold redact_str.
    destruct (sensitive_key p) eqn:E; [|by rewrite andb_false_r].
    destruct (String.eqb_spec p "") as [->|]; [by vm_compute in E|]. by rewrite andb_false_r.
  - induction IH as [|v l Hv _ IH]; simpl; [done|]. by rewrite Hv, IH.
  - induction IH as [|[k v] d Hv _ IH]; simpl in *; [done|].
    rewrite IH, orb_false_r. by apply Hv, dotted_child.
Qed.
End RedactLemmas.

(** C34. Whatever payload the default hook is given, each string it stores is
    the mask, or the caller's own string at the same key path, on a path that
    is not sensitive and with a text that is neither secret-shaped nor a long
    opaque blob; and redacting again changes nothing. *)
Theorem default_redact_masks v :
  (forall q s, string_at "" q s (Redact.default_redact v) ->
     s = Redact.REDACTED \/
     (string_at "" q s v /\ Redact.sensitive_key q = false
      /\ Redact.secret_value s = false /\ Redact.opaque_blob s = false))
  /\ Redact.default_redact (Redact.default_redact v) = Redact.default_redact v.
Proof.
  rewrite !RedactLemmas.default_redact_value. split; [|apply RedactLemmas.redact_value_idem].
  intros q s H. apply RedactLemmas.redacted_leaf in H as (s0 & H0 & ->). unfold Redact.redact_str.
  destruct (Redact.sensitive_key q) eqn:E.
  { destruct (String.eqb_spec q "") as [->|]; [by vm_compute in E|]. by left. }
  rewrite andb_false_r. destruct (Redact.secret_value s0) eqn:E1; [by left|].
  destruct (Redact.opaque_blob s0) eqn:E2; [by left|]. by right.
Qed.

(** The guard that [record_tool_invocation] runs after redaction never
    fires with the default hook: no value under a sensitive key survives. *)
Theorem default_redact_passes_guard v :
  Redact.contains_bare_secret_marker (Redact.default_redact v) = false.
Proof.
  rewrite RedactLemmas.default_redact_value. apply RedactLemmas.walk_redacted. constructor.
Qed.
