(* ===== verification/Json.v ===== *)
(** * Reading JSON

    [json.loads], which the source applies to token parts, key sets and model
    answers: a recursive-descent reader with the grammar of Python's decoder
    (literals, [NaN] and [Infinity], its number syntax, escapes, duplicate keys
    keeping the last value).  A reader takes characters and answers a value and
    what is left.  Characters beyond Latin-1 are outside the model of [str], so
    an escape above [00ff] is refused.  Reading what [json_dumps] writes gives
    the value back. *)

From stdpp Require Import base list strings pretty.
From Stdlib Require Import ZArith NArith Lia Ascii SpecFloat.
From S2P Require Import Prelude.
From S2P Require Import PyFloat.
From S2P Require Import PyValue.
From S2P Require Import Regex.

Local Open Scope py_scope.

Module Json.
Definition is_ws (c : ascii) : bool := existsb (Nat.eqb (PyStr.code c)) [32; 9; 10; 13].
Definition skip_ws (l : list ascii) : list ascii := PyStr.drop_while is_ws l.

Definition hex_value (c : ascii) : option nat :=
  let n := PyStr.code c in
  if PyStr.is_digit c then Some (n - 48)
  else if (97 <=? n) && (n <=? 102) then Some (n - 87)
  else if (65 <=? n) && (n <=? 70) then Some (n - 55)
  else None.

(** The character of [\uXXXX]. *)
Definition read_hex4 (l : list ascii) : option (ascii * list ascii) :=
  match l with
  | a :: b :: c :: d :: r =>
      match hex_value a, hex_value b, hex_value c, hex_value d with
      | Some 0, Some 0, Some x, Some y => Some (ascii_of_nat (16 * x + y), r)
      | _, _, _, _ => None
      end
  | _ => None
  end.

Definition escape (c : ascii) : option ascii :=
  match String.index 0 (String c "") (String PyStr.dquote_char (String PyStr.backslash "/bfnrt")) with
  | Some i => nth_error (map ascii_of_nat [34; 92; 47; 8; 12; 10; 13; 9]) i
  | None => None
  end.

(** The rest of a string after its opening quote. *)
Fixpoint read_string (n : nat) (l : list ascii) : option (list ascii * list ascii) :=
  match n with
  | O => None
  | S n' =>
      match l with
      | [] => None
      | c :: r =>
          let put x rest := match read_string n' rest with
                            | Some (s, rest') => Some (x :: s, rest')
                            | None => None
                            end in
          if Ascii.eqb c PyStr.dquote_char then Some ([], r)
          else if Ascii.eqb c PyStr.backslash then
            match r with
            | e :: r' =>
                if Ascii.eqb e "u"%char then
                  match read_hex4 r' with Some (x, rest) => put x rest | None => None end
                else match escape e with Some x => put x r' | None => None end
            | [] => None
            end
          else if PyStr.code c <? 32 then None
          else put c r
      end
  end.

(** An optional sign, an integer part without leading zeros, a fraction, an
    exponent. *)
Definition read_int (l : list ascii) : option (list ascii * list ascii) :=
  match PyStr.take_digits l with
  | ([], _) => None
  | (c :: ds, r) => if Ascii.eqb c "0"%char then Some ([c], ds ++ r) else Some (c :: ds, r)
  end.
Definition read_frac (l : list ascii) : list ascii * list ascii :=
  match l with
  | c :: r => if Ascii.eqb c "."%char then
                match PyStr.take_digits r with
                | ([], _) => ([], l)
                | (ds, r') => (c :: ds, r')
                end
              else ([], l)
  | [] => ([], l)
  end.
Definition read_exp (l : list ascii) : list ascii * list ascii :=
  match l with
  | c :: r =>
      if Ascii.eqb (PyStr.lower_char c) "e"%char then
        let '(sign, r1) := match r with
                           | s :: r' => if Ascii.eqb s "-"%char || Ascii.eqb s "+"%char
                                        then ([s], r') else ([], r)
                           | [] => ([], r)
                           end in
        match PyStr.take_digits r1 with
        | ([], _) => ([], l)
        | (ds, r2) => (c :: sign ++ ds, r2)
        end
      else ([], l)
  | [] => ([], l)
  end.
Definition read_number (l : list ascii) : option (pyval * list ascii) :=
  let '(sign, body) := match l with
                       | c :: r => if Ascii.eqb c "-"%char then ([c], r) else ([], l)
                       | [] => ([], l)
                       end in
  match read_int body with
  | None => None
  | Some (ip, r) =>
      let '(fp, r1) := read_frac r in
      let '(ep, r2) := read_exp r1 in
      match fp ++ ep with
      | [] => if (4300 <? Z.of_nat (length ip))%Z then None
              else let z := PyStr.digits_value ip in
                   Some (VInt (match sign with [] => z | _ => (- z)%Z end), r2)
      | _ => match PyStr.parse_float (PyStr.of_chars (sign ++ ip ++ fp ++ ep)) with
             | Some f => Some (VFloat f, r2)
             | None => None
             end
      end
  end.

(** [l] after the literal [s] *)
Fixpoint after (s l : list ascii) : option (list ascii) :=
  match s, l with
  | [], _ => Some l
  | c :: s', d :: l' => if Ascii.eqb c d then after s' l' else None
  | _ :: _, [] => None
  end.
Definition literals : list (string * pyval) :=
  [("null", VNone); ("true", VBool true); ("false", VBool false); ("NaN", VFloat S754_nan);
   ("Infinity", VFloat (S754_infinity false)); ("-Infinity", VFloat (S754_infinity true))].
Fixpoint read_literal (ls : list (string * pyval)) (l : list ascii) : option (pyval * list ascii) :=
  match ls with
  | [] => None
  | (s, v) :: ls' => match after (PyStr.chars s) l with
                     | Some r => Some (v, r)
                     | None => read_literal ls' l
                     end
  end.

Definition colon : ascii := ":"%char.
Definition comma : ascii := ","%char.

(** One value; the members of an object after a comma or its brace; the
    elements of an array. *)
Fixpoint value (n : nat) (l : list ascii) {struct n} : option (pyval * list ascii) :=
  match n with
  | O => None
  | S n' =>
      match l with
      | [] => None
      | c :: r =>
          if Ascii.eqb c PyStr.dquote_char then
            match read_string (S (length r)) r with
            | Some (s, rest) => Some (VStr (PyStr.of_chars s), rest)
            | None => None
            end
          else if Ascii.eqb c "{"%char then
            match skip_ws r with
            | d :: rest => if Ascii.eqb d "}"%char then Some (VDict [], rest)
                           else members n' [] (d :: rest)
            | [] => None
            end
          else if Ascii.eqb c "["%char then
            match skip_ws r with
            | d :: rest => if Ascii.eqb d "]"%char then Some (VList [], rest)
                           else elements n' [] (d :: rest)
            | [] => None
            end
          else match read_literal literals l with
               | Some x => Some x
               | None => read_number l
               end
      end
  end
with members (n : nat) (acc : dict) (l : list ascii) {struct n} : option (pyval * list ascii) :=
  match n with
  | O => None
  | S n' =>
      match l with
      | c :: r =>
          if Ascii.eqb c PyStr.dquote_char then
            match read_string (S (length r)) r with
            | Some (k, r1) =>
                match skip_ws r1 with
                | d :: r2 =>
                    if Ascii.eqb d colon then
                      match value n' (skip_ws r2) with
                      | Some (v, r3) =>
                          let acc := dset (PyStr.of_chars k) v acc in
                          match skip_ws r3 with
                          | e :: r4 => if Ascii.eqb e "}"%char then Some (VDict acc, r4)
                                       else if Ascii.eqb e comma then members n' acc (skip_ws r4)
                                       else None
                          | [] => None
                          end
                      | None => None
                      end
                    else None
                | [] => None
                end
            | None => None
            end
          else None
      | [] => None
      end
  end
with elements (n : nat) (acc : list pyval) (l : list ascii) {struct n} : option (pyval * list ascii) :=
  match n with
  | O => None
  | S n' =>
      match value n' l with
      | Some (v, r) =>
          match skip_ws r with
          | e :: r1 => if Ascii.eqb e "]"%char then Some (VList (acc ++ [v]), r1)
                       else if Ascii.eqb e comma then elements n' (acc ++ [v]) (skip_ws r1)
                       else None
          | [] => None
          end
      | None => None
      end
  end.

(** Two units of fuel per character are enough: every two calls consume one. *)
Definition fuel (l : list ascii) : nat := S (2 * length l).

(** [json.loads(s)]; [JSONDecodeError] is a [ValueError]. *)
Definition loads (s : string) : result pyval :=
  let l := skip_ws (PyStr.chars s) in
  match value (fuel l) l with
  | Some (v, rest) => match skip_ws rest with
                      | [] => Ok v
                      | _ => Exn (ValueError "Extra data")
                      end
  | None => Exn (ValueError "Expecting value")
  end.
End Json.

(** [int(s, 16)] of hexadecimal digits *)
Definition hex_int (s : string) : Z :=
  fold_left (fun acc c => acc * 16 + Z.of_nat (default 0%nat (Json.hex_value c)))%Z (PyStr.chars s) 0%Z.

Example loads_examples :
  map Json.loads
    ["{} "; " [1, -2.5e1, null]"; "01"; "[1,]"; "nul"; "-Infinity";
     PyStr.replace_char "'"%char PyStr.dquote_char "{'a' : 'x\u00e9\n', 'b': {'c': []}, 'a': true}"]
  = [Ok (VDict []); Ok (VList [VInt 1; VFloat (PyFloat.of_Z (-25)); VNone]);
     Exn (ValueError "Extra data"); Exn (ValueError "Expecting value");
     Exn (ValueError "Expecting value"); Ok (VFloat (S754_infinity true));
     Ok (VDict [("a", VBool true); ("b", VDict [("c", VList [])])])].
Proof. vm_compute. reflexivity. Qed.

(** ** Reading what was written *)

#[global] Arguments Json.read_string : simpl never.

Module JsonLemmas.
Import Json.

(** What JSON carries unchanged: no floats and no foreign objects, distinct
    keys, integers within the digit limit. *)
Fixpoint jsonable (v : pyval) : bool :=
  match v with
  | VNone | VBool _ | VStr _ => true
  | VInt z => (Z.of_nat (String.length (pretty z)) <=? 4300)%Z
  | VFloat _ | VObj _ => false
  | VList l => forallb jsonable l
  | VDict d => bool_decide (NoDup (map fst d)) && forallb (fun kv => jsonable kv.2) d
  end.

(** What may follow a value inside a text. *)
Definition stops (l : list ascii) : Prop :=
  match l with [] => True | c :: _ => c = comma \/ c = "]"%char \/ c = "}"%char end.

(** *** Strings *)

Lemma read_string_char n c rest :
  read_string (S n) (PyStr.chars (PyStr.json_char c) ++ rest)
  = match read_string n rest with Some (s, r) => Some (c :: s, r) | None => None end.
Proof. destruct c as [[] [] [] [] [] [] [] []]; reflexivity. Qed.

Lemma chars_concat_map (f : ascii -> string) cs :
  PyStr.chars (PyStr.concat (map f cs)) = flat_map (fun c => PyStr.chars (f c)) cs.
Proof. induction cs as [|c cs IH]; [done|]. simpl. by rewrite PyStr.chars_app, IH. Qed.

Lemma read_string_json cs n rest :
  length cs < n ->
  read_string n (flat_map (fun c => PyStr.chars (PyStr.json_char c)) cs ++ PyStr.dquote_char :: rest)
  = Some (cs, rest).
Proof.
  revert n; induction cs as [|c cs IH]; intros [|n] Hn; simpl in Hn; try lia; [done|].
  cbn [flat_map]. rewrite <- app_assoc, read_string_char, IH by lia. done.
Qed.

Lemma flat_map_length (cs : list ascii) :
  length cs <= length (flat_map (fun c => PyStr.chars (PyStr.json_char c)) cs).
Proof.
  induction cs as [|c cs IH]; simpl; [lia|]. rewrite length_app.
  assert (1 <= length (PyStr.chars (PyStr.json_char c)))
    by (destruct c as [[] [] [] [] [] [] [] []]; simpl; lia). lia.
Qed.

Lemma chars_json s :
  PyStr.chars (PyStr.json s)
  = PyStr.dquote_char :: flat_map (fun c => PyStr.chars (PyStr.json_char c)) (PyStr.chars s)
      ++ [PyStr.dquote_char].
Proof.
  unfold PyStr.json. change (PyStr.chars (String ?c ?t)) with (c :: PyStr.chars t).
  simpl. f_equal. by rewrite PyStr.chars_app, chars_concat_map.
Qed.

Lemma of_chars_chars s : PyStr.of_chars (PyStr.chars s) = s.
Proof. apply String.string_of_list_ascii_of_string. Qed.

(** A quoted string followed by [rest], read as [value] and [members] do. *)
Lemma read_quoted s rest :
  exists r, PyStr.chars (PyStr.json s) ++ rest = PyStr.dquote_char :: r
    /\ read_string (S (length r)) r = Some (PyStr.chars s, rest).
Proof.
  rewrite chars_json.
  exists (flat_map (fun c => PyStr.chars (PyStr.json_char c)) (PyStr.chars s)
          ++ PyStr.dquote_char :: rest).
  split; [cbn [app]; by rewrite <- app_assoc|].
  apply read_string_json. rewrite !length_app. pose proof (flat_map_length (PyStr.chars s)). simpl. lia.
Qed.

(** *** Integers *)

Lemma digits_value_app ds d :
  PyStr.digits_value (ds ++ [d]) = (PyStr.digits_value ds * 10 + (Z.of_nat (PyStr.code d) - 48))%Z.
Proof. unfold PyStr.digits_value. by rewrite fold_left_app. Qed.

Lemma pretty_char (n : N) :
  (n < 10)%N ->
  PyStr.is_digit (pretty_N_char n) = true /\ (Z.of_nat (PyStr.code (pretty_N_char n)) - 48 = Z.of_N n)%Z
  /\ (pretty_N_char n = "0"%char -> n = 0%N).
Proof.
  intros Hn. destruct n as [|p]; [done|].
  by do 4 (destruct p as [p|p|]; [| |by repeat split]); lia.
Qed.

(** The digits [pretty] puts in front of an accumulator. *)
Definition digits_of (x : N) (ds : list ascii) : Prop :=
  Forall (fun c => PyStr.is_digit c = true) ds /\ PyStr.digits_value ds = Z.of_N x
  /\ (x <> 0%N -> exists c r, ds = c :: r /\ c <> "0"%char).

Lemma pretty_go_digits x : forall s, exists ds,
  PyStr.chars (pretty_N_go x s) = ds ++ PyStr.chars s /\ digits_of x ds.
Proof.
  induction (N.lt_wf_0 x) as [x _ IH]; intros s.
  destruct (decide (x = 0)%N) as [->|Hx].
  { exists []. rewrite pretty_N_go_0. unfold digits_of. split_and!; [done|by constructor|done|done]. }
  destruct (pretty_char (x `mod` 10)%N ltac:(apply N.mod_lt; lia)) as (Hd & Hv & Hz).
  rewrite pretty_N_go_step by lia.
  destruct (IH (x `div` 10)%N ltac:(apply N.div_lt; lia)
              (String (pretty_N_char (x `mod` 10)) s)) as (ds & Hc & Hf & Hval & Hh).
  exists (ds ++ [pretty_N_char (x `mod` 10)]). rewrite Hc. unfold digits_of. split_and!.
  - by rewrite <- app_assoc.
  - apply Forall_app. by repeat constructor.
  - rewrite digits_value_app, Hval, Hv. pose proof (N.div_mod x 10 ltac:(lia)). lia.
  - intros _. destruct (decide (x `div` 10 = 0)%N) as [Hq|Hq].
    + rewrite Hq in Hval, Hh. destruct ds as [|c r].
      * exists (pretty_N_char (x `mod` 10)), []. split; [done|]. intros E%Hz.
        pose proof (N.div_mod x 10 ltac:(lia)). lia.
      * rewrite Hq, pretty_N_go_0 in Hc.
        apply (f_equal length) in Hc. rewrite length_app in Hc. simpl in Hc. lia.
    + destruct (Hh Hq) as (c & r & -> & Hne). by exists c, (r ++ [pretty_N_char (x `mod` 10)]).
Qed.

Lemma take_digits_app ds rest :
  Forall (fun c => PyStr.is_digit c = true) ds ->
  match rest with [] => True | c :: _ => PyStr.is_digit c = false end ->
  PyStr.take_digits (ds ++ rest) = (ds, rest).
Proof.
  induction 1 as [|c ds Hc _ IH]; intros Hr; simpl.
  - destruct rest as [|c rest]; [done|]. simpl. by rewrite Hr.
  - by rewrite Hc, IH.
Qed.

Lemma stops_plain rest :
  stops rest -> match rest with [] => True | c :: _ => PyStr.is_digit c = false end
    /\ read_frac rest = ([], rest) /\ read_exp rest = ([], rest).
Proof. by destruct rest as [|c rest]; [|intros [->|[->| ->]]]. Qed.

Lemma read_int_digits x ds rest :
  digits_of x ds -> (ds <> []) -> (x = 0%N -> ds = ["0"%char]) -> stops rest ->
  read_int (ds ++ rest) = Some (ds, rest).
Proof.
  intros (Hf & _ & Hh) Hne Hz (Hr & _)%stops_plain. unfold read_int.
  rewrite take_digits_app by done. destruct ds as [|c ds]; [done|].
  destruct (Ascii.eqb_spec c "0"%char) as [->|]; [|done].
  destruct (decide (x = 0)%N) as [->|Hx]; [by injection Hz as -> |].
  destruct (Hh Hx) as (c & r & [= <- _] & ?). done.
Qed.

Lemma read_unsigned (x : N) rest :
  stops rest -> exists ds, PyStr.chars (pretty x) = ds /\ (exists c r, ds = c :: r /\ PyStr.is_digit c = true)
    /\ read_int (ds ++ rest) = Some (ds, rest) /\ PyStr.digits_value ds = Z.of_N x.
Proof.
  intros Hr. unfold pretty, pretty_N. destruct (decide (x = 0)%N) as [->|Hx].
  - exists ["0"%char]. split_and!; [done|by exists "0"%char, []| |done].
    apply (read_int_digits 0); [|done|done|done]. unfold digits_of. split_and!; [by repeat constructor|done|done].
  - destruct (pretty_go_digits x "") as (ds & -> & Hd). rewrite app_nil_r. exists ds.
    pose proof Hd as (Hf & Hv & Hh). destruct (Hh Hx) as (c & r & -> & Hc).
    split_and!; [done| |by apply (read_int_digits x)|done].
    exists c, r. split; [done|]. by apply Forall_cons in Hf as [? _].
Qed.

Definition numeric_head (l : list ascii) : Prop :=
  match l with
  | c :: d :: _ => PyStr.is_digit c = true \/ (c = "-"%char /\ PyStr.is_digit d = true)
  | [c] => PyStr.is_digit c = true
  | [] => False
  end.
Lemma numeric_digit c r : PyStr.is_digit c = true -> numeric_head (c :: r).
Proof. destruct r; simpl; tauto. Qed.

Lemma read_number_int z rest :
  stops rest -> (Z.of_nat (String.length (pretty z)) <= 4300)%Z ->
  read_number (PyStr.chars (pretty z) ++ rest) = Some (VInt z, rest)
  /\ numeric_head (PyStr.chars (pretty z)).
Proof.
  intros Hr Hl. pose proof (stops_plain rest Hr) as (_ & Hf & He).
  assert (forall s, length (PyStr.chars s) = String.length s) as Hlen
    by (induction s; simpl; congruence).
  destruct z as [|p|p].
  - split; [|done]. unfold read_number. simpl.
    assert (read_int ("0"%char :: rest) = Some (["0"%char], rest)) as ->.
    { apply (read_int_digits 0 ["0"%char]); [|done..].
      unfold digits_of. split_and!; [by repeat constructor|done|done]. }
    by rewrite Hf, He.
  - change (pretty (Z.pos p)) with (pretty (N.pos p)) in *.
    destruct (read_unsigned (N.pos p) rest Hr) as (ds & Hds & (c & r & Hc & Hd) & Hi & Hv).
    rewrite <- Hlen, Hds in Hl. apply Z.ltb_ge in Hl.
    rewrite Hds. split; [|rewrite Hc; by apply numeric_digit]. unfold read_number. rewrite Hc in *. simpl (_ ++ _) in *.
    cbv beta iota zeta. destruct (Ascii.eqb_spec c "-"%char) as [->|]; [by vm_compute in Hd|].
    rewrite Hi. cbv beta iota zeta. by rewrite Hf, He; simpl (_ ++ _); rewrite Hl, Hv.
  - change (pretty (Z.neg p)) with ("-" +:+ pretty (N.pos p)) in *. rewrite PyStr.chars_app.
    destruct (read_unsigned (N.pos p) rest Hr) as (ds & Hds & (c & r & Hc & Hd) & Hi & Hv).
    split; [|rewrite Hds, Hc; by right].
    assert (Z.of_nat (length ds) <= 4300)%Z as Hb%Z.ltb_ge by (rewrite <- Hlen, PyStr.chars_app, length_app, Hds in Hl; simpl in Hl; lia).
    unfold read_number. simpl (_ ++ _). cbv beta iota zeta. rewrite Ascii.eqb_refl, Hds, Hi.
    cbv beta iota zeta. by rewrite Hf, He; simpl ([] ++ _); rewrite Hb, Hv.
Qed.

(** *** Values *)

Lemma digit_ne c x : PyStr.is_digit c = true -> PyStr.is_digit x = false -> Ascii.eqb c x = false.
Proof. intros Hc Hx. destruct (Ascii.eqb_spec c x); [congruence|done]. Qed.
Lemma digit_ne' c x : PyStr.is_digit c = true -> PyStr.is_digit x = false -> Ascii.eqb x c = false.
Proof. rewrite Ascii.eqb_sym. apply digit_ne. Qed.

Lemma value_number n l rest :
  numeric_head l -> value (S n) (l ++ rest) = read_number (l ++ rest).
Proof.
  intros Hh. assert (exists c r, l = c :: r /\ (PyStr.is_digit c = true \/
    (c = "-"%char /\ exists d r', r = d :: r' /\ PyStr.is_digit d = true))) as (c & r & -> & Hc).
  { destruct l as [|c [|d r]]; [done|by exists c, []; split; [|left]|]. exists c, (d :: r).
    split; [done|]. destruct Hh as [?|[? ?]]; [by left|right]. eauto. }
  simpl (_ ++ _). destruct Hc as [Hc|(-> & d & r' & -> & Hd)].
  - cbn [value]. rewrite !(digit_ne c) by done. unfold literals. cbn [read_literal after PyStr.chars String.list_ascii_of_string].
    by rewrite !(digit_ne' c) by done.
  - simpl (_ ++ _). assert (read_literal literals ("-"%char :: d :: r' ++ rest) = None) as Hl.
    { unfold literals. cbn [read_literal after PyStr.chars String.list_ascii_of_string].
      by rewrite (digit_ne' d "I"%char) by done. }
    transitivity (match read_literal literals ("-"%char :: d :: r' ++ rest) with
                  | Some x => Some x | None => read_number ("-"%char :: d :: r' ++ rest) end);
      [reflexivity|by rewrite Hl].
Qed.

(** What [value] and [elements] may look at first. *)
Definition opens (l : list ascii) : Prop :=
  match l with c :: _ => is_ws c = false /\ c <> "]"%char | [] => False end.
Lemma skip_opens l : opens l -> skip_ws l = l.
Proof. destruct l as [|c l]; [done|]. intros [Hc _]. unfold skip_ws. simpl. by rewrite Hc. Qed.
Lemma opens_app l rest : opens l -> opens (l ++ rest).
Proof. by destruct l. Qed.

Lemma digit_opens c : PyStr.is_digit c = true -> is_ws c = false /\ c <> "]"%char.
Proof. by destruct c as [[] [] [] [] [] [] [] []]. Qed.

Lemma dumps_opens v : jsonable v = true -> opens (PyStr.chars (json_dumps v)).
Proof.
  destruct v as [|b|z|f|s|l|d|t]; simpl; intros Hj; try done.
  - by destruct b.
  - apply Z.leb_le in Hj. destruct (read_number_int z [] I Hj) as [_ Hh].
    destruct (PyStr.chars (pretty z)) as [|c [|e r]]; [done|by apply digit_opens|].
    destruct Hh as [?|[-> _]]; [by apply digit_opens|done].
Qed.

Definition reads (v : pyval) : Prop := forall n rest,
  2 * length (PyStr.chars (json_dumps v)) < n -> stops rest ->
  value n (PyStr.chars (json_dumps v) ++ rest) = Some (v, rest).

(** The text of the elements of an array, without its brackets. *)
Definition items (l : list pyval) : list ascii := PyStr.chars (PyStr.join ", " (map json_dumps l)).
Lemma items_cons v w l :
  items (v :: w :: l) = PyStr.chars (json_dumps v) ++ comma :: " "%char :: items (w :: l).
Proof. unfold items. simpl. by rewrite !PyStr.chars_app. Qed.

Lemma read_items l acc n rest :
  l <> [] -> forallb jsonable l = true -> Forall reads l -> 2 * S (length (items l)) <= n ->
  elements n acc (items l ++ "]"%char :: rest) = Some (VList (acc ++ l), rest).
Proof.
  intros Hl Hj Hr. revert acc n Hl Hj. induction Hr as [|v l Hv _ IH]; intros acc n Hl Hj Hn; [done|].
  destruct n as [|n]; [lia|]. apply andb_true_iff in Hj as [Hj Hjl]. destruct l as [|w l].
  - cbn [elements]. change (items [v]) with (PyStr.chars (json_dumps v)) in *.
    rewrite Hv by (try lia; by right; left). done.
  - cbn [elements]. rewrite items_cons in *. rewrite length_app in Hn. simpl in Hn.
    rewrite <- app_assoc. rewrite Hv by (try lia; by left). simpl (_ ++ _).
    rewrite skip_opens by done. change (Ascii.eqb comma "]"%char) with false.
    change (Ascii.eqb comma comma) with true. cbv iota.
    assert (opens (items (w :: l))) as Ho.
    { apply andb_true_iff in Hjl as [Hw _]. apply dumps_opens in Hw. destruct l; [done|].
      rewrite items_cons. by apply opens_app. }
    change (skip_ws (" "%char :: ?l)) with (skip_ws l).
    rewrite skip_opens by (by apply opens_app). rewrite IH by (done || lia).
    by rewrite <- app_assoc.
Qed.

(** The text of the members of an object, without its braces. *)
Definition fields (d : dict) : list ascii :=
  PyStr.chars (PyStr.join ", " (map (fun kv => PyStr.json kv.1 +:+ ": " +:+ json_dumps kv.2) d)).
Definition field (kv : string * pyval) (rest : list ascii) : list ascii :=
  PyStr.chars (PyStr.json kv.1) ++ colon :: " "%char :: PyStr.chars (json_dumps kv.2) ++ rest.
Lemma fields_one kv : fields [kv] = field kv [].
Proof. unfold fields, field. simpl. by rewrite !PyStr.chars_app, app_nil_r. Qed.
Lemma fields_cons kv kw d : fields (kv :: kw :: d) = field kv (comma :: " "%char :: fields (kw :: d)).
Proof. unfold fields, field. simpl. by rewrite !PyStr.chars_app; simpl; rewrite <- !app_assoc. Qed.
Lemma field_app kv l rest : field kv l ++ rest = field kv (l ++ rest).
Proof. unfold field. rewrite <- app_assoc. simpl. by rewrite <- app_assoc. Qed.
Lemma field_length kv l :
  length (PyStr.chars (json_dumps kv.2)) + length l + 2 <= length (field kv l).
Proof. unfold field. rewrite length_app. simpl. rewrite length_app. lia. Qed.


(** One member, and what [members] does next. *)
Lemma read_member n acc kv rest :
  jsonable kv.2 = true -> reads kv.2 -> stops rest -> 2 * length (PyStr.chars (json_dumps kv.2)) < n ->
  members (S n) acc (field kv rest)
  = match skip_ws rest with
    | e :: r4 => if Ascii.eqb e "}"%char then Some (VDict (dset kv.1 kv.2 acc), r4)
                 else if Ascii.eqb e comma then members n (dset kv.1 kv.2 acc) (skip_ws r4)
                 else None
    | [] => None
    end.
Proof.
  intros Hj Hr Hs Hn. unfold field.
  destruct (read_quoted kv.1 (colon :: " "%char :: PyStr.chars (json_dumps kv.2) ++ rest)) as (r & -> & Hq).
  cbn [members]. rewrite Ascii.eqb_refl, Hq. change (skip_ws (colon :: ?l)) with (colon :: l).
  cbv beta iota. rewrite Ascii.eqb_refl. change (skip_ws (" "%char :: ?l)) with (skip_ws l).
  rewrite skip_opens by (by apply opens_app, dumps_opens). by rewrite Hr, of_chars_chars.
Qed.

Lemma field_opens kv l : exists r, field kv l = PyStr.dquote_char :: r.
Proof. unfold field. destruct (read_quoted kv.1 (colon :: " "%char :: PyStr.chars (json_dumps kv.2) ++ l)) as (r & -> & _). eauto. Qed.
Lemma fields_opens kv d : exists r, fields (kv :: d) = PyStr.dquote_char :: r.
Proof. destruct d; [rewrite fields_one|rewrite fields_cons]; apply field_opens. Qed.

Lemma read_fields d acc n rest :
  d <> [] -> forallb (fun kv => jsonable kv.2) d = true -> Forall (fun kv => reads kv.2) d ->
  NoDup (map fst (acc ++ d)) -> 2 * S (length (fields d)) <= n ->
  members n acc (fields d ++ "}"%char :: rest) = Some (VDict (acc ++ d), rest).
Proof.
  intros Hd Hj Hr. revert acc n Hd Hj. induction Hr as [|kv d Hv _ IH]; intros acc n Hd Hj Hnd Hn; [done|].
  destruct n as [|n]; [lia|]. apply andb_true_iff in Hj as [Hj Hjd].
  assert (dset kv.1 kv.2 acc = acc ++ [kv]) as Hset.
  { destruct kv as [k v]. apply dset_fresh. rewrite map_app in Hnd. apply NoDup_app in Hnd as (_ & Hx & _).
    intros Hin. apply (Hx k Hin). by left. }
  destruct d as [|kw d].
  - rewrite fields_one in *. pose proof (field_length kv []). rewrite field_app.
    rewrite read_member by (done || lia || by right; right). simpl. by rewrite Hset.
  - rewrite fields_cons in *. pose proof (field_length kv (comma :: " "%char :: fields (kw :: d))) as Hf.
    cbn [length] in Hf. rewrite field_app. rewrite read_member by (done || lia || by left).
    change (skip_ws ((comma :: " "%char :: fields (kw :: d)) ++ "}"%char :: rest))
      with (comma :: " "%char :: fields (kw :: d) ++ "}"%char :: rest).
    change (Ascii.eqb comma "}"%char) with false. change (Ascii.eqb comma comma) with true. cbv iota.
    change (skip_ws (" "%char :: ?l)) with (skip_ws l). destruct (fields_opens kw d) as (r & Hopen).
    assert (skip_ws (fields (kw :: d) ++ "}"%char :: rest) = fields (kw :: d) ++ "}"%char :: rest) as ->
      by (by rewrite Hopen).
    rewrite Hset, IH; [by rewrite <- app_assoc|done|done|by rewrite <- app_assoc|lia].
Qed.

Lemma value_dumps v : jsonable v = true -> reads v.
Proof.
  induction v as [ |b|z|f|s|l IH|d IH|t] using pyval_induction; intros Hj [|n] rest Hn Hr; try lia; try done.
  - by destruct b.
  - apply Z.leb_le in Hj. destruct (read_number_int z rest Hr Hj) as [Hv Hh].
    simpl json_dumps in *. by rewrite value_number, Hv.
  - simpl json_dumps in *. destruct (read_quoted s rest) as (r & -> & Hq).
    cbn [value]. by rewrite Ascii.eqb_refl, Hq, of_chars_chars.
  - simpl in Hj, Hn. fold (items l) in Hn. simpl json_dumps. rewrite !PyStr.chars_app in *.
    rewrite !length_app in Hn. simpl in Hn. rewrite <- !app_assoc. cbn [PyStr.chars String.list_ascii_of_string app].
    destruct l as [|v l]; [done|].
    assert (Forall reads (v :: l)) as Hrs.
    { clear -IH Hj. induction IH as [|x xs Hx _ IHx]; constructor; apply andb_true_iff in Hj as [? ?]; auto. }
    assert (opens (items (v :: l))) as Ho.
    { apply andb_true_iff in Hj as [Hv _]. apply dumps_opens in Hv. destruct l; [done|].
      rewrite items_cons. by apply opens_app. }
    pose proof (read_items (v :: l) [] n rest ltac:(done) Hj Hrs) as Hi.
    change (PyStr.chars (PyStr.join ", " (map json_dumps (v :: l)))) with (items (v :: l)) in *.
    cbn [value]. change (Ascii.eqb "["%char PyStr.dquote_char) with false.
    change (Ascii.eqb "["%char "{"%char) with false. rewrite Ascii.eqb_refl. cbv iota.
    rewrite skip_opens by (by apply opens_app).
    transitivity (elements n [] (items (v :: l) ++ "]"%char :: rest)); [|apply Hi; lia].
    destruct (items (v :: l)) as [|c r]; [done|]. destruct Ho as [_ Ho]. simpl.
    by destruct (Ascii.eqb_spec c "]"%char).
  - simpl in Hj, Hn. fold (fields d) in Hn. simpl json_dumps. apply andb_true_iff in Hj as [Hnd%bool_decide_eq_true Hj].
    rewrite !PyStr.chars_app in *. rewrite !length_app in Hn. simpl in Hn. rewrite <- !app_assoc.
    cbn [PyStr.chars String.list_ascii_of_string app]. destruct d as [|kv d]; [done|].
    assert (Forall (fun kv => reads kv.2) (kv :: d)) as Hrs.
    { clear -IH Hj. induction IH as [|x xs Hx _ IHx]; constructor; apply andb_true_iff in Hj as [? ?]; auto. }
    pose proof (read_fields (kv :: d) [] n rest ltac:(done) Hj Hrs Hnd) as Hi.
    match goal with |- context [PyStr.chars (PyStr.join ", " ?x)] =>
      change (PyStr.chars (PyStr.join ", " x)) with (fields (kv :: d)) in * end.
    cbn [value]. change (Ascii.eqb "{"%char PyStr.dquote_char) with false. rewrite Ascii.eqb_refl. cbv iota.
    transitivity (members n [] (fields (kv :: d) ++ "}"%char :: rest)); [|apply Hi; lia].
    by destruct (fields_opens kv d) as (r & ->).
Qed.
End JsonLemmas.

(** Reading back what was written. *)
Lemma loads_dumps v : JsonLemmas.jsonable v = true -> Json.loads (json_dumps v) = Ok v.
Proof.
  intros Hj. unfold Json.loads. rewrite JsonLemmas.skip_opens by (by apply JsonLemmas.dumps_opens).
  pose proof (JsonLemmas.value_dumps v Hj (Json.fuel (PyStr.chars (json_dumps v))) []) as Hv.
  rewrite app_nil_r in Hv. rewrite Hv; [done|unfold Json.fuel; lia|done].
Qed.
