(* ===== verification/Security.v ===== *)
(** * Authorization, allowlists, limits

    [packages/security]: the identity a request carries ([identity.py]), scope
    and tenant checks ([authz.py]), tool allowlists ([allowlist.py]) and input,
    timeout and rate limits ([limits.py]); and the gateway's own context and
    checks ([apps/mcp_server/security.py]).  Sets of names are lists. *)

From stdpp Require Import base list strings pretty sets.
From Stdlib Require Import ZArith Lia Ascii SpecFloat.
From S2P Require Import Prelude.
From S2P Require Import PyFloat.
From S2P Require Import PyValue.
From S2P Require Import Regex.
From S2P Require Import Sha256.
From S2P Require Import Contracts.

Local Open Scope py_scope.

(** [x in l] for strings *)
Definition mem (x : string) (l : list string) : bool := existsb (String.eqb x) l.

Lemma mem_true x l : mem x l = true <-> x ∈ l.
Proof.
  unfold mem. rewrite existsb_exists, list_elem_of_In. split.
  - by intros (y & Hy & ->%String.eqb_eq).
  - intros Hx. exists x. by rewrite String.eqb_refl.
Qed.
Lemma mem_false x l : mem x l = false <-> x ∉ l.
Proof. rewrite <- mem_true. by destruct (mem x l). Qed.

Module Identity.
Record t := mk {
  user_id : string; tenant_id : string; scopes : list string; mode : string;
  expires_at : option float }.
Definition has_scope (x : t) (scope : string) : bool := mem "*" (scopes x) || mem scope (scopes x).

(** [local_dev_identity], with the environment variables it reads *)
Section LocalDev.
Variable getenv : string -> option string.
Definition local_dev_identity : result t :=
  let env := default "local" (getenv "APP_ENV") in
  guard? mem env ["local"; "test"]
    else CodedError "IdentityError" "unauthorized" "mock identity forbidden outside local/test" 500 ;;
  guard? String.eqb (default "mock" (getenv "AUTH_MODE")) "mock"
    else CodedError "IdentityError" "unauthorized" "mock identity requires AUTH_MODE=mock" 500 ;;
  Ok (mk (default "analyst-local" (getenv "MOCK_USER_ID"))
         (default "tenant-local" (getenv "MOCK_TENANT_ID"))
         ["case.read"; "case.write"; "case.approve"; "tools.read"] "mock" None).
End LocalDev.
End Identity.

Module Authz.
Definition forbidden (msg : string) : exn := CodedError "AuthorizationError" "forbidden" msg 403.
Definition NotFoundForIsolation : exn :=
  CodedError "NotFoundForIsolation" "not_found" "not found" 404.

(** The missing scopes, empty when one scope is the wildcard. *)
Definition missing_scopes (scopes required : list string) : list string :=
  if mem "*" scopes then [] else List.filter (fun s => negb (mem s scopes)) required.

Definition require_scopes (identity : Identity.t) (required : list string) : result unit :=
  match missing_scopes (Identity.scopes identity) required with
  | [] => Ok tt
  | missing => Exn (forbidden ("missing required scope(s): " +:+ PyStr.join "," missing))
  end.

(** [pattern[:-2]] *)
Definition drop_last2 (s : string) : string := PyStr.slice (String.length s - 2) s.

Definition matches (pattern scope : string) : bool :=
  if String.eqb pattern "*" then true
  else if PyStr.endswith ".*" pattern then
    String.eqb scope (drop_last2 pattern) || PyStr.startswith (drop_last2 pattern +:+ ".") scope
  else String.eqb pattern scope.

Definition has_any_scope (identity : Identity.t) (candidates : list string) : bool :=
  existsb (fun pat => existsb (matches pat) candidates) (Identity.scopes identity).

Definition require_any_scope (identity : Identity.t) (candidates : list string) : result unit :=
  if has_any_scope identity candidates then Ok tt
  else Exn (forbidden "insufficient scope for this action").

Definition check_tenant_access (identity : Identity.t) (resource_tenant_id : option string)
    : result unit :=
  match resource_tenant_id with
  | None => Ok tt
  | Some t => if String.eqb t (Identity.tenant_id identity) then Ok tt
              else Exn NotFoundForIsolation
  end.

(** The owner may read without further scopes. *)
Definition owner_read (identity : Identity.t) (required : list string)
    (owner_user_id : option string) (allow_owner_read : bool) : bool :=
  allow_owner_read
  && (match owner_user_id with Some o => String.eqb o (Identity.user_id identity) | None => false end)
  && forallb (fun s => mem s ["case.read"; "tools.read"]) required.

Definition check_resource_access (identity : Identity.t) (resource_tenant_id : option string)
    (required_scopes : list string) (owner_user_id : option string) (allow_owner_read : bool)
    : result unit :=
  let? _ := check_tenant_access identity resource_tenant_id in
  match required_scopes with
  | [] => Ok tt
  | _ => if owner_read identity required_scopes owner_user_id allow_owner_read then Ok tt
         else require_scopes identity required_scopes
  end.
End Authz.

Module Allowlist.
Definition TOOL_NAME_RE : re :=
  let part := Regex.plus (RClass Field.name_char) in
  RSeq part (RSeq (Regex.chr "."%char) (RSeq part Regex.eol)).

Definition DEFAULT_ALLOWLIST : list string :=
  ["telemetry.query_metrics"; "telemetry.query_logs"; "service.get_health"; "knowledge.search";
   "knowledge.get_runbook"; "remediation.simulate"].

Definition ALLOWLIST_BY_ROLE : list (string * list string) :=
  [("analyst", DEFAULT_ALLOWLIST);
   ("operator", DEFAULT_ALLOWLIST ++ ["deployment.rollback"]);
   ("senior-operator", DEFAULT_ALLOWLIST ++ ["deployment.rollback"; "database.failover"]);
   ("agent", DEFAULT_ALLOWLIST)].

Definition ALL_TOOLS : list string :=
  DEFAULT_ALLOWLIST ++ ["deployment.rollback"; "database.failover"].

Definition SCOPE_TOOL_GRANTS : list (string * list string) :=
  [("tools.write.deployment.rollback", ["deployment.rollback"]);
   ("tools.write.*", ["deployment.rollback"]);
   ("*", ALL_TOOLS)].

Definition AllowlistError (code msg : string) : exn := CodedError "AllowlistError" code msg 0.

Definition is_operator (scopes : list string) : bool :=
  existsb (PyStr.startswith "tools.write.") scopes || mem "*" scopes.

Definition roles_for (identity : Identity.t) : list string :=
  let scopes := Identity.scopes identity in
  ["analyst"]
  ++ (if mem "senior-operator" scopes then ["senior-operator"] else [])
  ++ (if is_operator scopes then ["operator"] else [])
  ++ (if mem (Identity.mode identity) ["service"; "agent"] then ["agent"] else []).

Definition grants (table : list (string * list string)) (k : string) : list string :=
  default [] (dget k table).

(** The tools a wildcard scope names by prefix. *)
Definition wildcard_tools (scope : string) : list string :=
  if PyStr.endswith ".*" scope
  then List.filter (PyStr.startswith (Authz.drop_last2 scope +:+ ".")) ALL_TOOLS
  else [].

Definition allowed_tools_for (identity : Identity.t) : list string :=
  flat_map (grants ALLOWLIST_BY_ROLE) (roles_for identity)
  ++ flat_map (fun scope => grants SCOPE_TOOL_GRANTS scope ++ wildcard_tools scope)
       (Identity.scopes identity).

Definition is_tool_allowed (tool_name : string) (identity : Identity.t) : bool :=
  Regex.match_start TOOL_NAME_RE tool_name && mem tool_name (allowed_tools_for identity).

Definition validate_tool_call (tool_name : string) (identity : Identity.t) : result string :=
  guard? Regex.match_start TOOL_NAME_RE tool_name
    else AllowlistError "validation_error" ("invalid tool name: " +:+ PyStr.repr tool_name) ;;
  guard? is_tool_allowed tool_name identity
    else AllowlistError "tool_not_allowed"
      ("tool " +:+ tool_name +:+ " not on allowlist for roles "
       +:+ py_repr (VList (map VStr
             (map fst (sorted_items (map (fun r => (r, tt)) (roles_for identity))))))) ;;
  Ok tool_name.
End Allowlist.

Module Limits.
Local Open Scope Z_scope.
Definition OBJECTIVE_MAX_BYTES : Z := 8 * 1024.
Definition CONTEXT_MAX_BYTES : Z := 64 * 1024.
Definition CONTEXT_MAX_KEYS : Z := 64.
Definition ACTION_INPUT_MAX_KEYS : Z := 50.
Definition ACTION_INPUT_MAX_BYTES : Z := 32 * 1024.

Definition TOOL_TIMEOUTS : list (string * Z) :=
  [("telemetry.query_metrics", 30); ("telemetry.query_logs", 30); ("service.get_health", 15);
   ("knowledge.search", 15); ("knowledge.get_runbook", 15); ("remediation.simulate", 60);
   ("deployment.rollback", 60); ("database.failover", 60)].
Definition DEFAULT_TOOL_TIMEOUT : Z := 30.

Definition LimitExceededError (msg : string) : exn :=
  CodedError "LimitExceededError" "validation_error" msg 0.

Definition size (obj : pyval) : Z := Z.of_nat (json_size obj).

Definition check_objective (objective : string) : result string :=
  guard? Z.of_nat (length (Sha256.utf8 objective)) <=? OBJECTIVE_MAX_BYTES
    else LimitExceededError "objective must be <= 8KB" ;;
  guard? negb (String.eqb (PyStr.strip objective) "")
    else LimitExceededError "objective must be non-empty" ;;
  Ok objective.

Definition check_context (context : dict) : result dict :=
  guard? Z.of_nat (length context) <=? CONTEXT_MAX_KEYS
    else LimitExceededError "context must have <= 64 keys" ;;
  guard? size (VDict context) <=? CONTEXT_MAX_BYTES
    else LimitExceededError "context must be <= 64KB serialized" ;;
  Ok context.

Definition check_action_input (action_input : dict) : result dict :=
  guard? Z.of_nat (length action_input) <=? ACTION_INPUT_MAX_KEYS
    else LimitExceededError "action input must have <= 50 keys" ;;
  guard? size (VDict action_input) <=? ACTION_INPUT_MAX_BYTES
    else LimitExceededError "action input must be <= 32KB serialized" ;;
  Ok action_input.

Record TimeoutConfig := mkTimeouts {
  tool_timeouts : list (string * Z); default_seconds : Z; client_slack_seconds : Z }.
Definition default_timeouts : TimeoutConfig := mkTimeouts TOOL_TIMEOUTS DEFAULT_TOOL_TIMEOUT 5.
Definition for_tool (c : TimeoutConfig) (tool_name : string) : Z :=
  default (default_seconds c) (dget tool_name (tool_timeouts c)).
Definition client_timeout (c : TimeoutConfig) (tool_name : string) : Z :=
  for_tool c tool_name + client_slack_seconds c.

(** A bucket holds tokens and the time of its last update. *)
Record RateLimiter := mkLimiter {
  capacity : Z; refill_per_sec : float; buckets : list (string * (float * float)) }.
Definition new_limiter : RateLimiter := mkLimiter 60 (PyFloat.of_Z 1) [].

Definition refilled (l : RateLimiter) (key : string) (now : float) : float :=
  let '(tokens, updated) := default (PyFloat.of_Z (capacity l), now) (dget key (buckets l)) in
  PyFloat.min (PyFloat.of_Z (capacity l))
    (PyFloat.add tokens (PyFloat.mul (PyFloat.sub now updated) (refill_per_sec l))).

Definition set_bucket (l : RateLimiter) (key : string) (b : float * float) : RateLimiter :=
  mkLimiter (capacity l) (refill_per_sec l) (dset key b (buckets l)).

Definition allow (key : string) (now : float) : M RateLimiter bool := fun l =>
  let tokens := refilled l key now in
  if PyFloat.ltb tokens (PyFloat.of_Z 1) then (set_bucket l key (tokens, now), Ok false)
  else (set_bucket l key (PyFloat.sub tokens (PyFloat.of_Z 1), now), Ok true).

Definition check (key : string) (now : float) : M RateLimiter unit :=
  let* ok := allow key now in
  if ok : bool then ret tt
  else raise (CodedError "RateLimitError" "rate_limited" ("rate limit exceeded for " +:+ key) 0).
End Limits.

(** ** The gateway's context *)

Module AuthContext.
Record t := mk { tenant_id : string; scopes : list string; user_id : string; approved : bool }.
Definition ForbiddenError (msg : string) : exn := CodedError "ForbiddenError" "forbidden" msg 0.
Definition is_forbidden (e : exn) : bool := String.eqb (exn_class e) "ForbiddenError".

Definition require_scope (auth : t) (required : list string) : result unit :=
  match Authz.missing_scopes (scopes auth) required with
  | [] => Ok tt
  | missing => Exn (ForbiddenError ("missing required scope(s): " +:+ PyStr.join "," missing))
  end.

Definition from_identity (identity : Identity.t) (approved : bool) : t :=
  mk (Identity.tenant_id identity) (Identity.scopes identity)
     (if String.eqb (Identity.user_id identity) "" then "analyst_1"
      else Identity.user_id identity) approved.

(** [requested] is whatever the arguments hold under [tenant_id]. *)
Definition check_tenant (auth : t) (requested : pyval) : result string :=
  guard? negb (truthy requested) || is_str (Some requested) (tenant_id auth)
    else ForbiddenError "tenant mismatch" ;;
  Ok (tenant_id auth).
End AuthContext.

(** ** What the checks decide *)

Module SecurityLemmas.
Lemma missing_none scopes required :
  Authz.missing_scopes scopes required = [] <-> "*" ∈ scopes \/ forall s, s ∈ required -> s ∈ scopes.
Proof.
  unfold Authz.missing_scopes. destruct (mem "*" scopes) eqn:E.
  { apply mem_true in E. naive_solver. }
  apply mem_false in E. split.
  - intros Hf. right. intros s Hs. apply mem_true. destruct (mem s scopes) eqn:Es; [done|].
    assert (s ∈ List.filter (fun s => negb (mem s scopes)) required) as Hin
      by (apply list_elem_of_In, filter_In; rewrite Es; split; [by apply list_elem_of_In|done]).
    rewrite Hf in Hin. by apply not_elem_of_nil in Hin.
  - intros [?|Hall]; [done|]. destruct (List.filter _ required) as [|s l] eqn:Ef; [done|].
    assert (In s (List.filter (fun s => negb (mem s scopes)) required)) as Hin
      by (rewrite Ef; by left).
    apply filter_In in Hin as [Hin Hs]. apply list_elem_of_In in Hin.
    apply Hall, mem_true in Hin. by rewrite Hin in Hs.
Qed.

Lemma require_scopes_ok id required :
  Authz.require_scopes id required = Ok tt <->
  "*" ∈ Identity.scopes id \/ forall s, s ∈ required -> s ∈ Identity.scopes id.
Proof.
  unfold Authz.require_scopes. rewrite <- missing_none.
  by destruct (Authz.missing_scopes _ _).
Qed.

Lemma require_scope_ok auth required :
  AuthContext.require_scope auth required = Ok tt <->
  "*" ∈ AuthContext.scopes auth \/ forall s, s ∈ required -> s ∈ AuthContext.scopes auth.
Proof.
  unfold AuthContext.require_scope. rewrite <- missing_none.
  by destruct (Authz.missing_scopes _ _).
Qed.

(** Membership in the tools a set of scopes grants. *)
Lemma granted_by_scope tool scopes :
  mem tool (flat_map (fun s => Allowlist.grants Allowlist.SCOPE_TOOL_GRANTS s
                               ++ Allowlist.wildcard_tools s) scopes) = true <->
  exists s, s ∈ scopes /\ (mem tool (Allowlist.grants Allowlist.SCOPE_TOOL_GRANTS s) = true
                          \/ mem tool (Allowlist.wildcard_tools s) = true).
Proof.
  rewrite mem_true, list_elem_of_In, in_flat_map.
  setoid_rewrite <- list_elem_of_In. setoid_rewrite elem_of_app. by setoid_rewrite mem_true.
Qed.

Lemma mem_app x l k : mem x (l ++ k) = mem x l || mem x k.
Proof. apply existsb_app. Qed.

(** The tools of the roles of a principal, by the scopes that give the roles. *)
Lemma role_tools tool id :
  mem tool (flat_map (Allowlist.grants Allowlist.ALLOWLIST_BY_ROLE) (Allowlist.roles_for id))
  = mem tool Allowlist.DEFAULT_ALLOWLIST
    || (mem "senior-operator" (Identity.scopes id)
        && mem tool ["deployment.rollback"; "database.failover"])
    || (Allowlist.is_operator (Identity.scopes id) && mem tool ["deployment.rollback"]).
Proof.
  unfold Allowlist.roles_for. rewrite !flat_map_app, !mem_app.
  destruct (mem "senior-operator" _), (Allowlist.is_operator _), (mem (Identity.mode id) _);
    cbn [flat_map app Allowlist.grants Allowlist.ALLOWLIST_BY_ROLE dget String.eqb default];
    cbv [default dget Allowlist.ALLOWLIST_BY_ROLE String.eqb Ascii.eqb Bool.eqb];
    cbn -[Allowlist.DEFAULT_ALLOWLIST mem]; rewrite ?mem_app, ?app_nil_r;
    destruct (mem tool Allowlist.DEFAULT_ALLOWLIST); simpl; rewrite ?orb_false_r, ?orb_true_r;
    try done; by destruct (String.eqb tool _).
Qed.

Lemma grants_scope tool s :
  mem tool (Allowlist.grants Allowlist.SCOPE_TOOL_GRANTS s) = true <->
  (s = "*" /\ tool ∈ Allowlist.ALL_TOOLS)
  \/ ((s = "tools.write.deployment.rollback" \/ s = "tools.write.*")
      /\ tool = "deployment.rollback").
Proof.
  unfold Allowlist.grants, Allowlist.SCOPE_TOOL_GRANTS. cbn [dget].
  assert (Hone : mem tool ["deployment.rollback"] = true <-> tool = "deployment.rollback")
    by (by rewrite mem_true, list_elem_of_singleton).
  destruct (String.eqb_spec s "tools.write.deployment.rollback") as [->|H1].
  { cbn [default]. rewrite Hone. naive_solver. }
  destruct (String.eqb_spec s "tools.write.*") as [->|H2].
  { cbn [default]. rewrite Hone. naive_solver. }
  destruct (String.eqb_spec s "*") as [->|H3].
  { cbn [default id]. rewrite mem_true. naive_solver. }
  cbn. naive_solver.
Qed.

Lemma wildcard_in_all tool s :
  mem tool (Allowlist.wildcard_tools s) = true -> tool ∈ Allowlist.ALL_TOOLS.
Proof.
  rewrite mem_true. unfold Allowlist.wildcard_tools.
  destruct (PyStr.endswith _ _); [|by intros ?%not_elem_of_nil].
  rewrite !list_elem_of_In. by intros [? _]%filter_In.
Qed.

Lemma is_operator_spec scopes :
  Allowlist.is_operator scopes = true <->
  "*" ∈ scopes \/ exists s, s ∈ scopes /\ PyStr.startswith "tools.write." s = true.
Proof.
  unfold Allowlist.is_operator. rewrite orb_true_iff, mem_true, existsb_exists.
  setoid_rewrite list_elem_of_In. naive_solver.
Qed.

Lemma names_match tool :
  tool ∈ Allowlist.ALL_TOOLS -> Regex.match_start Allowlist.TOOL_NAME_RE tool = true.
Proof.
  intros Ht. enough (forallb (Regex.match_start Allowlist.TOOL_NAME_RE) Allowlist.ALL_TOOLS = true)
    as Hall by (rewrite forallb_forall in Hall; by apply Hall, list_elem_of_In).
  by vm_compute.
Qed.

Lemma all_tools tool :
  tool ∈ Allowlist.ALL_TOOLS <->
  tool ∈ Allowlist.DEFAULT_ALLOWLIST \/ tool = "deployment.rollback" \/ tool = "database.failover".
Proof. unfold Allowlist.ALL_TOOLS. rewrite elem_of_app, !elem_of_cons. set_solver. Qed.
End SecurityLemmas.

(** Resource access is decided by the tenant first: another tenant's
    resource is reported missing whatever the scopes, and within the tenant
    access needs the wildcard or every required scope, except for an owner's
    reads. *)
Theorem resource_access_spec id resource required owner owner_reads :
  let foreign := exists t, resource = Some t /\ t <> Identity.tenant_id id in
  let scoped := required = [] \/ Authz.owner_read id required owner owner_reads = true
                \/ "*" ∈ Identity.scopes id
                \/ (forall s, s ∈ required -> s ∈ Identity.scopes id) in
  match Authz.check_resource_access id resource required owner owner_reads with
  | Ok _ => ~ foreign /\ scoped
  | Exn e => (foreign /\ e = Authz.NotFoundForIsolation)
             \/ (~ foreign /\ ~ scoped /\ exists m, e = Authz.forbidden m)
  end.
Proof.
  intros foreign scoped. unfold Authz.check_resource_access, Authz.check_tenant_access.
  assert (Hcase : (foreign /\ exists t, resource = Some t /\ String.eqb t (Identity.tenant_id id) = false)
    \/ (~ foreign /\ (resource = None \/ exists t, resource = Some t
                      /\ String.eqb t (Identity.tenant_id id) = true))).
  { unfold foreign. destruct resource as [t|]; [|right; split; [naive_solver|by left]].
    destruct (String.eqb_spec t (Identity.tenant_id id)) as [->|Hne].
    - right. split; [naive_solver|right]. exists (Identity.tenant_id id). by rewrite String.eqb_refl.
    - left. split; [eauto|]. exists t. split; [done|]. by apply String.eqb_neq. }
  destruct Hcase as [(Hf & t & -> & ->)|[Hf Hok]]; [by left|].
  assert ((match resource with None => Ok tt | Some t =>
             if String.eqb t (Identity.tenant_id id) then Ok tt
             else Exn Authz.NotFoundForIsolation end) = Ok tt) as ->
    by (by destruct Hok as [->|(t & -> & ->)]).
  simpl. destruct (decide (required = [])) as [->|Hne]; [split; [done|by left]|].
  assert (forall X Y : result unit, match required with [] => X | _ => Y end = Y) as ->
    by (intros X Y; by destruct required).
  destruct (Authz.owner_read _ _ _ _) eqn:Eo; [split; [done|by right; left]|].
  destruct (Authz.require_scopes id required) as [[]|e] eqn:Es.
  - apply SecurityLemmas.require_scopes_ok in Es. split; [done|]. right. right. exact Es.
  - right. split; [done|]. split.
    + unfold scoped. intros [?|[?|Hs]]; [congruence|congruence|].
      by rewrite (proj2 (SecurityLemmas.require_scopes_ok id required) Hs) in Es.
    + unfold Authz.require_scopes in Es. destruct (Authz.missing_scopes _ _); simplify_eq.
      by eexists.
Qed.

(** The tool allowlist: read and analysis tools are allowed to everyone,
    the rollback exactly to the wildcard scope, to [senior-operator], to any
    scope that starts with [tools.write.] and to a matching prefix wildcard,
    the failover exactly to the wildcard, [senior-operator] and a matching
    prefix wildcard, and no other tool to anyone. *)
Theorem allowlist_spec id tool :
  let scopes := Identity.scopes id in
  let by_prefix := exists s, s ∈ scopes /\ mem tool (Allowlist.wildcard_tools s) = true in
  Allowlist.is_tool_allowed tool id = true <->
    tool ∈ Allowlist.DEFAULT_ALLOWLIST
    \/ (tool = "deployment.rollback"
        /\ ("*" ∈ scopes \/ "senior-operator" ∈ scopes \/ by_prefix
            \/ exists s, s ∈ scopes /\ PyStr.startswith "tools.write." s = true))
    \/ (tool = "database.failover"
        /\ ("*" ∈ scopes \/ "senior-operator" ∈ scopes \/ by_prefix)).
Proof.
  intros scopes by_prefix.
  unfold Allowlist.is_tool_allowed, Allowlist.allowed_tools_for.
  rewrite andb_true_iff, SecurityLemmas.mem_app, orb_true_iff, SecurityLemmas.granted_by_scope,
    SecurityLemmas.role_tools, !orb_true_iff, !andb_true_iff, SecurityLemmas.is_operator_spec,
    !mem_true.
  fold scopes. setoid_rewrite SecurityLemmas.grants_scope.
  assert (Hwrite : forall s, s = "tools.write.deployment.rollback" \/ s = "tools.write.*" ->
            PyStr.startswith "tools.write." s = true) by (by intros s [->| ->]).
  split.
  - intros [_ [[[?|[? [->|[->|?%not_elem_of_nil]%elem_of_cons]%elem_of_cons]]|[Ho ->%list_elem_of_singleton]]
               |(s & Hs & [[[-> Ht]|[Hw ->]]|Hp])]]; try done.
    + by left.
    + right. left. naive_solver.
    + right. right. naive_solver.
    + right. left. naive_solver.
    + apply SecurityLemmas.all_tools in Ht. naive_solver.
    + right. left. naive_solver.
    + pose proof (SecurityLemmas.wildcard_in_all _ _ Hp) as Ht%SecurityLemmas.all_tools.
      assert by_prefix by (by exists s). naive_solver.
  - intros Ha. assert (tool ∈ Allowlist.ALL_TOOLS) as Ht
      by (apply SecurityLemmas.all_tools; naive_solver).
    split; [by apply SecurityLemmas.names_match|].
    destruct Ha as [?|[[-> [?|[?|[(s & ? & ?)|(s & ? & ?)]]]]|[-> [?|[?|(s & ? & ?)]]]]].
    all: try (by left; left; left). 
    all: try (right; eexists; split; [eassumption|by left; left]).
    all: try (right; eexists; split; [eassumption|by right]).
    all: left; try (left; right; split; [done|set_solver]).
    right. split; [right; eauto|set_solver].
Qed.

(** ** The rate limiter *)

Module LimiterLemmas.
Import Limits.

Lemma sub_self x : PyFloat.is_finite x = true -> PyFloat.sub x x = S754_zero false.
Proof.
  destruct x as [s| | |s m e]; simpl; try done; intros _; [by destruct s|].
  unfold PyFloat.sub, SFsub. by rewrite Z.sub_diag.
Qed.

(** What a bucket of [j] whole tokens does when no time has passed. *)
Definition whole (j : nat) : Prop :=
  let f := PyFloat.of_Z (Z.of_nat j) in
  PyFloat.min (PyFloat.of_Z 60) (PyFloat.add f (PyFloat.mul (S754_zero false) (PyFloat.of_Z 1))) = f
  /\ PyFloat.ltb f (PyFloat.of_Z 1) = (j =? 0)
  /\ (0 < j -> PyFloat.sub f (PyFloat.of_Z 1) = PyFloat.of_Z (Z.of_nat (j - 1))).

Lemma whole_tokens j : j <= 60 -> whole j.
Proof.
  intros Hj. enough (Forall whole (seq 0 61)) as Hf.
  { rewrite Forall_forall in Hf. apply Hf, elem_of_seq. lia. }
  unfold whole. repeat constructor; (intros _; vm_compute; reflexivity) || (vm_compute; reflexivity)
    || (intros; lia).
Qed.

(** [n] calls at one instant. *)
Fixpoint calls (n : nat) (key : string) (now : float) (l : RateLimiter) : list bool :=
  match n with
  | O => []
  | S n' => let '(l', r) := allow key now l in
            match r with Ok b => b :: calls n' key now l' | Exn _ => [] end
  end.

Definition holds_tokens (key : string) (now : float) (j : nat) (l : RateLimiter) : Prop :=
  capacity l = 60%Z /\ refill_per_sec l = PyFloat.of_Z 1 /\
  default (PyFloat.of_Z (capacity l), now) (dget key (buckets l))
  = (PyFloat.of_Z (Z.of_nat j), now).

Lemma allow_step key now j l :
  PyFloat.is_finite now = true -> j <= 60 -> holds_tokens key now j l ->
  exists l', allow key now l = (l', Ok (negb (j =? 0))) /\ holds_tokens key now (j - 1) l'
             /\ forall k, k <> key -> dget k (buckets l') = dget k (buckets l).
Proof.
  intros Hn Hj (Hc & Hr & Hb). destruct (whole_tokens j Hj) as (Hm & Hl & Hs).
  assert (refilled l key now = PyFloat.of_Z (Z.of_nat j)) as Hf.
  { unfold refilled. rewrite Hb, Hc, Hr, sub_self by done. exact Hm. }
  unfold allow. rewrite Hf, Hl.
  destruct (Nat.eqb_spec j 0) as [->|Hj0]; cbn [negb];
    (eexists; split; [reflexivity|]); split; try (intros k Hk; by apply dget_dset_ne);
    (split; [exact Hc|]); (split; [exact Hr|]); unfold set_bucket; cbn [capacity buckets];
    rewrite dget_dset_eq; unfold default; cbn [from_option id]; [done|].
  rewrite Hs by lia. done.
Qed.

Lemma calls_spec n key now j l :
  PyFloat.is_finite now = true -> j <= 60 -> holds_tokens key now j l ->
  calls n key now l = replicate (Nat.min n j) true ++ replicate (n - j) false.
Proof.
  intros Hn. revert j l. induction n as [|n IH]; intros j l Hj Hh; [done|].
  destruct (allow_step key now j l Hn Hj Hh) as (l' & Ha & Hh' & _). simpl. rewrite Ha.
  rewrite (IH (j - 1) l') by (done || lia). destruct j as [|j]; simpl.
  - f_equal. by rewrite Nat.min_0_r, Nat.sub_0_r.
  - by rewrite Nat.sub_0_r.
Qed.
End LimiterLemmas.

(** A fresh default limiter lets exactly sixty calls under one key pass at
    one instant and refuses the rest, and a call under one key leaves the
    buckets of the others as they are. *)
Theorem rate_limiter_burst n key now :
  PyFloat.is_finite now = true ->
  LimiterLemmas.calls n key now Limits.new_limiter
  = replicate (Nat.min n 60) true ++ replicate (n - 60) false
  /\ forall l k, k <> key ->
       dget k (Limits.buckets (Limits.allow key now l).1) = dget k (Limits.buckets l).
Proof.
  intros Hn. split; [by apply LimiterLemmas.calls_spec|].
  intros l k Hk. unfold Limits.allow, Limits.set_bucket.
  destruct (PyFloat.ltb _ _); simpl; by apply dget_dset_ne.
Qed.
Lemma rate_limiter_burst_witness :
  LimiterLemmas.calls 61 "acme" (PyFloat.of_Z 7) Limits.new_limiter = replicate 60 true ++ [false].
Proof. exact (proj1 (rate_limiter_burst 61 "acme" (PyFloat.of_Z 7) eq_refl)). Defined.
