(* ===== verification/Bearer.v ===== *)
(** * Bearer tokens and request identities

    The rest of [packages/security/identity.py]: the token parts ([base64] and
    JSON), the key set and signature policy, the claims, the identity of a
    request and the middleware; and [from_headers] of
    [apps/mcp_server/security.py].  What is outside the repository is a
    parameter: the environment, the clock, the retrieval of the key set, PyJWT
    and an injected verifier.  The state is the cached key set. *)

From stdpp Require Import base list strings pretty.
From Stdlib Require Import ZArith Lia Ascii SpecFloat.
From S2P Require Import Prelude.
From S2P Require Import PyFloat.
From S2P Require Import PyValue.
From S2P Require Import Regex.
From S2P Require Import Sha256.
From S2P Require Import Json.
From S2P Require Import Security.

Local Open Scope py_scope.

(** ** [base64.urlsafe_b64decode] and UTF-8 *)

Module Base64.
Local Open Scope Z_scope.
Definition sextet (c : ascii) : option Z :=
  let n := Z.of_nat (PyStr.code c) in
  if PyStr.is_upper c then Some (n - 65)
  else if PyStr.is_lower c then Some (n - 71)
  else if PyStr.is_digit c then Some (n + 4)
  else if (n =? 43) || (n =? 45) then Some 62
  else if (n =? 47) || (n =? 95) then Some 63
  else None.

(** [binascii.a2b_base64], not strict: characters outside the alphabet are
    skipped, and enough padding ends the input.  [quad] characters of the
    current group have been read, [left] holds the bits not written yet. *)
Fixpoint a2b (quad : nat) (left : Z) (pads : nat) (l : list ascii) : option (list Z) :=
  match l with
  | [] => if (quad =? 0)%nat then Some [] else None
  | c :: r =>
      if Ascii.eqb c "="%char then
        if (2 <=? quad)%nat then
          if (4 <=? quad + S pads)%nat then Some [] else a2b quad left (S pads) r
        else a2b quad left pads r
      else match sextet c with
           | None => a2b quad left pads r
           | Some v =>
               match quad with
               | 0%nat => a2b 1 v 0 r
               | 1%nat => cons ((left * 4 + v / 16) mod 256) <$> a2b 2 (v mod 16) 0 r
               | 2%nat => cons ((left * 16 + v / 4) mod 256) <$> a2b 3 (v mod 4) 0 r
               | _ => cons ((left * 64 + v) mod 256) <$> a2b 0 0 0 r
               end
           end
  end.

(** [part + "=" * (-len(part) % 4)] *)
Definition pad (part : string) : list ascii :=
  PyStr.chars part ++ replicate (Z.to_nat ((- Z.of_nat (String.length part)) mod 4)) "="%char.

(** [bytes.decode("utf-8")]; texts beyond Latin-1 are outside the model. *)
Fixpoint utf8_decode (l : list Z) : option (list ascii) :=
  match l with
  | [] => Some []
  | b :: r =>
      if b <? 128 then cons (ascii_of_nat (Z.to_nat b)) <$> utf8_decode r
      else match r with
           | c :: r' =>
               if (194 <=? b) && (b <=? 195) && (128 <=? c) && (c <=? 191)
               then cons (ascii_of_nat (Z.to_nat ((b - 192) * 64 + (c - 128)))) <$> utf8_decode r'
               else None
           | [] => None
           end
  end.

(** [urlsafe_b64decode(padded.encode()).decode("utf-8")] *)
Definition decode_text (part : string) : result string :=
  match a2b 0 0 0 (pad part) with
  | None => Exn (OtherError "binascii.Error" "Incorrect padding")
  | Some bytes => match utf8_decode bytes with
                  | None => Exn (ValueError "'utf-8' codec can't decode")
                  | Some s => Ok (PyStr.of_chars s)
                  end
  end.
End Base64.

Module Bearer.
Definition IdentityError (msg : string) : exn := CodedError "IdentityError" "unauthorized" msg 401.
Definition token_expired : exn := CodedError "IdentityError" "token_expired" "token expired" 401.
Definition is_identity_error (e : exn) : bool := String.eqb (exn_class e) "IdentityError".

(** [try: m except Exception: raise to] *)
Definition wrap {A} (m : result A) (to : exn) : result A := match m with Ok a => Ok a | Exn _ => Exn to end.
(** The same where an [IdentityError] passes. *)
Definition wrap_other {A} (m : result A) (to : exn -> exn) : result A :=
  match m with Ok a => Ok a | Exn e => Exn (if is_identity_error e then e else to e) end.

Definition b64_json (part : string) : result pyval :=
  let? text := Base64.decode_text part in Json.loads text.

Section Environment.
Variable getenv : string -> option string.
(** [time.time()] *)
Variable now : float.
(** The body of the document at a URL *)
Variable urlopen : string -> result (list Z).
(** [set_jwt_verifier] *)
Variable injected : option (string -> dict -> result unit).
(** [PyJWK(key).key] and [jwt.decode], when the library is installed: key,
    token, audience, issuer. *)
Variable pyjwt : option (dict -> string -> option string -> option string -> result unit).

(** [os.getenv(k, d).strip()] *)
Definition env (k d : string) : string := PyStr.strip (default d (getenv k)).
Definition auth_mode : string := PyStr.lower (env "AUTH_MODE" "mock").
Definition nonempty (s : string) : option string := if String.eqb s "" then None else Some s.

(** *** Configuration *)

Definition missing_settings : list string :=
  List.filter (fun name => String.eqb (env name "") "") ["OIDC_ISSUER_URL"; "OIDC_AUDIENCE"].
Definition validate_auth_config : result unit :=
  guard? mem auth_mode ["mock"; "oidc"]
    else RuntimeError ("unknown AUTH_MODE=" +:+ PyStr.repr auth_mode +:+ "; expected 'mock' or 'oidc'") ;;
  if String.eqb auth_mode "oidc" then
    match missing_settings with
    | [] => Ok tt
    | missing => Exn (RuntimeError
        ("AUTH_MODE=oidc requires non-empty " +:+ PyStr.join ", " missing
         +:+ " (fail-closed; set OIDC_ISSUER_URL/OIDC_AUDIENCE or use AUTH_MODE=mock in local/test only)"))
    end
  else Ok tt.

(** *** Signature policy *)

Definition parse_header (token : string) : result dict :=
  match PyStr.split "."%char token with
  | [p0; _; _] =>
      match b64_json p0 with
      | Ok (VDict header) => Ok header
      | _ => Exn (IdentityError "malformed bearer token header")
      end
  | _ => Exn (IdentityError "malformed bearer token")
  end.

Definition fetch_jwks (url : string) : result pyval :=
  let? bytes := urlopen url in
  match Base64.utf8_decode bytes with
  | Some s => Json.loads (PyStr.of_chars s)
  | None => Exn (ValueError "'utf-8' codec can't decode")
  end.

Definition load_jwks : M (option dict) (option dict) :=
  let inline := env "OIDC_JWKS_JSON" "" in
  if negb (String.eqb inline "") then
    lift_result (match Json.loads inline with
                 | Ok (VDict doc) => Ok (Some doc)
                 | _ => Exn (IdentityError "invalid OIDC_JWKS_JSON")
                 end)
  else
    let url := (let u := env "OIDC_JWKS_URL" "" in
                if String.eqb u "" then env "OIDC_JWKS_URI" "" else u) in
    if String.eqb url "" then ret None
    else
      let* cached := gets id in
      match cached with
      | Some doc => ret (Some doc)
      | None =>
          let* doc := lift_result (wrap_other (fetch_jwks url)
                                     (fun _ => IdentityError "unable to fetch OIDC JWKS")) in
          match doc with
          | VDict doc => modify (fun _ => Some doc) ;;* ret (Some doc)
          | _ => raise (IdentityError "invalid OIDC JWKS document")
          end
      end.

(** [str(d.get(k) or "")] *)
Definition claim (k : string) (d : dict) : string := py_str (first_truthy [get_or k VNone d]).

(** The first key that is a dict with the wanted identifier, any when none is. *)
Fixpoint find_key (kid : string) (keys : list pyval) : option dict :=
  match keys with
  | [] => None
  | VDict k :: rest => if String.eqb kid "" || String.eqb (claim "kid" k) kid then Some k
                       else find_key kid rest
  | _ :: rest => find_key kid rest
  end.

Definition default_verify_signature (token : string) (jwks : dict) : result unit :=
  match injected with
  | Some verify => verify token jwks
  | None =>
      let? header := parse_header token in
      match get_or "keys" VNone jwks with
      | VList (k :: ks) =>
          match find_key (claim "kid" header) (k :: ks) with
          | None => Exn (IdentityError "token kid not found in OIDC JWKS")
          | Some key_doc =>
              match pyjwt with
              | None => Exn (IdentityError
                  "JWKS verification requires PyJWT/cryptography (or inject set_jwt_verifier); failing closed")
              | Some decode =>
                  wrap_other (decode key_doc token (nonempty (env "OIDC_AUDIENCE" ""))
                                (nonempty (env "OIDC_ISSUER_URL" "")))
                    (fun e => IdentityError ("token signature verification failed: " +:+ exn_str e))
              end
          end
      | _ => Exn (IdentityError "OIDC JWKS has no keys")
      end
  end.

Definition enforce_signature (token : string) : M (option dict) unit :=
  let* header := lift_result (parse_header token) in
  let alg := claim "alg" header in
  if String.eqb (PyStr.lower alg) "none" || String.eqb alg ""
  then raise (IdentityError "token signature missing (alg=none rejected)")
  else
    let* jwks := load_jwks in
    match jwks with
    | Some doc => lift_result (default_verify_signature token doc)
    | None =>
        if String.eqb auth_mode "oidc"
        then raise (IdentityError "token signature cannot be verified (no OIDC_JWKS_URL/OIDC_JWKS_JSON); failing closed in AUTH_MODE=oidc")
        else ret tt
    end.

(** *** Claims *)

Definition user_of (payload : dict) : string :=
  py_str (first_truthy (map (fun k => get_or k VNone payload) ["sub"; "upn"; "email"])).
Definition tenant_of (payload : dict) : string :=
  py_str (first_truthy (map (fun k => get_or k VNone payload) ["tid"; "tenant_id"; "tenant"])).
Definition scopes_of (payload : dict) : list string :=
  let scopes := match get_or "scope" (get_or "scp" (VStr "") payload) payload with
                | VList l => map py_str l
                | raw => PyStr.words (py_str raw)
                end in
  match scopes with [] => ["case.read"] | _ => scopes end.
Definition audiences (aud : pyval) : list string :=
  map py_str (match aud with VList l => l | _ => [aud] end).

(** [float(str(exp))], once [exp] is given and not past. *)
Definition check_expiry (payload : dict) : result (option float) :=
  match get_or "exp" VNone payload with
  | VNone => Ok None
  | exp => match PyStr.parse_float (py_str exp) with
           | None => Exn (IdentityError "invalid exp claim")
           | Some t => if PyFloat.ltb t now then Exn token_expired else Ok (Some t)
           end
  end.

(** Issuer and audience in [AUTH_MODE=oidc] *)
Definition check_oidc (payload : dict) (exp : option float) : result unit :=
  let iss := env "OIDC_ISSUER_URL" "" in
  let aud := env "OIDC_AUDIENCE" "" in
  guard? negb (String.eqb iss "") && negb (String.eqb aud "")
    else IdentityError "OIDC not configured (OIDC_ISSUER_URL/OIDC_AUDIENCE required)" ;;
  guard? String.eqb (claim "iss" payload) iss else IdentityError "unexpected token issuer" ;;
  guard? mem aud (audiences (get_or "aud" VNone payload))
    else IdentityError "unexpected token audience" ;;
  match exp with None => Exn (IdentityError "token missing exp claim") | Some _ => Ok tt end.

(** In the other mode: only what the token and the environment both name. *)
Definition check_mock (payload : dict) : result unit :=
  let iss := env "OIDC_ISSUER_URL" "" in
  let aud := env "OIDC_AUDIENCE" "" in
  let token_iss := get_or "iss" VNone payload in
  let token_aud := get_or "aud" VNone payload in
  guard? String.eqb iss "" || negb (truthy token_iss) || String.eqb (py_str token_iss) iss
    else IdentityError "unexpected token issuer" ;;
  guard? String.eqb aud "" || negb (truthy token_aud) || mem aud (audiences token_aud)
    else IdentityError "unexpected token audience" ;;
  Ok tt.

Definition identity_of (payload : dict) : result Identity.t :=
  let sub := user_of payload in
  let tenant := tenant_of payload in
  guard? negb (String.eqb sub "") else IdentityError "token missing sub claim" ;;
  guard? negb (String.eqb tenant "") else IdentityError "token missing tenant claim (tid)" ;;
  let? exp := check_expiry payload in
  let? _ := (if String.eqb auth_mode "oidc" then check_oidc payload exp else check_mock payload) in
  Ok (Identity.mk sub tenant (scopes_of payload) "oidc" exp).

Definition parse_bearer_identity (token : string) : M (option dict) Identity.t :=
  enforce_signature token ;;*
  lift_result
    match PyStr.split "."%char token with
    | [_; p1; _] =>
        let? payload := wrap (b64_json p1) (IdentityError "malformed bearer token payload") in
        let? payload := as_dict payload in
        identity_of payload
    | _ => Exn (IdentityError "malformed bearer token")
    end.

(** *** The identity of a request *)

(** [local:<user>:<tenant>[:scopes]] over the local identity *)
Definition relabel (ident : Identity.t) (token : string) : Identity.t :=
  let keep s old := if String.eqb s "" then old else s in
  match PyStr.split ":"%char token with
  | _ :: user :: tenant :: rest =>
      let scopes := match rest with
                    | s :: _ => if String.eqb s "" then Identity.scopes ident
                                else List.filter (fun x => negb (String.eqb x "")) (PyStr.split ","%char s)
                    | [] => Identity.scopes ident
                    end in
      Identity.mk (keep user (Identity.user_id ident)) (keep tenant (Identity.tenant_id ident)) scopes
        (Identity.mode ident) (Identity.expires_at ident)
  | _ => ident
  end.

(** [authz] is the [authorization] header, empty when absent. *)
Definition resolve_identity (authz : string) : M (option dict) Identity.t :=
  if negb (String.eqb authz "") then
    if negb (PyStr.startswith "Bearer " authz) then raise (IdentityError "malformed Authorization header")
    else
      let token := PyStr.strip (String.substring 7 (String.length authz - 7) authz) in
      if PyStr.startswith "local:" token then
        let* ident := lift_result (Identity.local_dev_identity getenv) in ret (relabel ident token)
      else parse_bearer_identity token
  else if String.eqb (default "mock" (getenv "AUTH_MODE")) "mock"
  then lift_result (Identity.local_dev_identity getenv)
  else raise (IdentityError "missing bearer token").

(** [OIDCAuthMiddleware.dispatch]: the request passes, with or without an
    identity, or is answered with a status and a body. *)
Inductive verdict : Type :=
  | Open
  | Attached (identity : Identity.t)
  | Refused (status : Z) (body : dict).

Definition OPEN_PREFIXES : list string :=
  ["/health"; "/ready"; "/docs"; "/openapi.json"; "/v1/openapi.json"].
Definition dispatch (path authz : string) : M (option dict) verdict :=
  if String.eqb path "/" || existsb (fun p => PyStr.startswith p path) OPEN_PREFIXES then ret Open
  else
    try_catch (let* ident := resolve_identity authz in ret (Attached ident))
      (fun e => match e with
                | CodedError _ code msg status =>
                    if is_identity_error e
                    then ret (Refused status [("code", VStr code); ("message", VStr msg);
                                              ("retryable", VBool false)])
                    else raise e
                | _ => raise e
                end).
End Environment.
End Bearer.

(** ** The gateway's context from HTTP headers *)

Module GatewayHeaders.
Section Environment.
Variable getenv : string -> option string.
Variable now : float.
Variable urlopen : string -> result (list Z).
Variable injected : option (string -> dict -> result unit).
Variable pyjwt : option (dict -> string -> option string -> option string -> result unit).

Definition AuthError (msg : string) : exn := CodedError "AuthError" "auth_error" msg 0.

Definition norm (headers : list (string * string)) : list (string * string) :=
  fold_left (fun h kv => dset (PyStr.lower kv.1) kv.2 h) headers [].
Definition mock_mode : bool :=
  String.eqb (default "mock" (getenv "AUTH_MODE")) "mock"
  && mem (default "local" (getenv "APP_ENV")) ["local"; "test"].

(** A header value that is encoded as UTF-8 and read back as Latin-1. *)
Definition reencoded (v : string) : string :=
  PyStr.of_chars (map (fun b => ascii_of_nat (Z.to_nat b)) (Sha256.utf8 v)).

Definition tenant_claim (h : list (string * string)) : string :=
  PyStr.strip (default "" (dget "x-tenant-id" h)).

(** [{s.strip() for s in raw.split(",") if s.strip()}], in order *)
Definition comma_list (raw : string) : list string :=
  List.filter (fun s => negb (String.eqb s "")) (map PyStr.strip (PyStr.split ","%char raw)).

Definition from_headers (headers : list (string * string)) (identity : option Identity.t)
    : M (option dict) AuthContext.t :=
  let h := norm headers in
  let authz := default "" (dget "authorization" h) in
  let claimed := tenant_claim h in
  if negb (String.eqb authz "") && negb (PyStr.startswith "Bearer " authz)
  then raise (AuthError "malformed Authorization header")
  else
    match identity with
    | Some ident =>
        let tenant := PyStr.strip (Identity.tenant_id ident) in
        if String.eqb tenant "" then raise (AuthError "gateway identity missing tenant")
        else if negb (String.eqb claimed "") && negb (String.eqb claimed tenant)
        then raise (AuthContext.ForbiddenError "tenant mismatch")
        else ret (AuthContext.mk tenant (Identity.scopes ident)
                    (if String.eqb (Identity.user_id ident) "" then "analyst_1"
                     else Identity.user_id ident) false)
    | None =>
        if PyStr.startswith "Bearer " authz then
          let* ident :=
            try_catch (Bearer.resolve_identity getenv now urlopen injected pyjwt (reencoded authz))
              (fun e => if Bearer.is_identity_error e then raise (AuthError (exn_str e)) else raise e) in
          if negb (String.eqb claimed "") && negb (String.eqb claimed (Identity.tenant_id ident))
          then raise (AuthContext.ForbiddenError "tenant mismatch")
          else ret (AuthContext.mk (Identity.tenant_id ident) (Identity.scopes ident)
                      (Identity.user_id ident) false)
        else if mock_mode then
          let* ident := lift_result (Identity.local_dev_identity getenv) in
          if String.eqb claimed "" then raise (AuthError "missing X-Tenant-ID")
          else
            let raw_scopes := PyStr.strip (default "" (dget "x-scopes" h)) in
            let scopes := if String.eqb raw_scopes "" then Identity.scopes ident
                          else comma_list raw_scopes in
            let user := (let u := PyStr.strip (default "" (dget "x-user-id" h)) in
                         if String.eqb u "" then Identity.user_id ident else u) in
            ret (AuthContext.mk claimed scopes user false)
        else raise (AuthError "missing bearer token")
    end.
End Environment.
End GatewayHeaders.
