(* ===== verification/BearerProps.v ===== *)
(** * What a bearer token proves

    In [AUTH_MODE=oidc] a request carries an identity exactly when its token is
    verified and its claims hold; and the identity read from a token is the one
    its claims were written for, for every token encoded as RFC 7515 says. *)

From stdpp Require Import base list strings pretty sets.
From Stdlib Require Import ZArith Lia Ascii SpecFloat.
From S2P Require Import Prelude.
From S2P Require Import PyFloat.
From S2P Require Import PyValue.
From S2P Require Import Regex.
From S2P Require Import Sha256.
From S2P Require Import Json.
From S2P Require Import Security.
From S2P Require Import Bearer.

Local Open Scope py_scope.

(** ** The encoding of a token *)

Module Jwt.
Local Open Scope Z_scope.
Definition alphabet : list ascii :=
  PyStr.chars "ABCDEFGHIJKLMNOPQRSTUVWXYZabcdefghijklmnopqrstuvwxyz0123456789-_".
Definition b64char (v : Z) : ascii := nth (Z.to_nat v) alphabet "A"%char.

(** base64url without padding *)
Fixpoint encode (l : list Z) : list ascii :=
  match l with
  | a :: b :: c :: r =>
      b64char (a / 4) :: b64char (a mod 4 * 16 + b / 16) :: b64char (b mod 16 * 4 + c / 64)
        :: b64char (c mod 64) :: encode r
  | [a; b] => [b64char (a / 4); b64char (a mod 4 * 16 + b / 16); b64char (b mod 16 * 4)]
  | [a] => [b64char (a / 4); b64char (a mod 4 * 16)]
  | [] => []
  end.
Definition part (d : dict) : string :=
  PyStr.of_chars (encode (Sha256.utf8 (json_dumps (VDict d)))).
Definition token (header payload : dict) (signature : string) : string :=
  part header +:+ "." +:+ part payload +:+ "." +:+ signature.

Definition byte (b : Z) : Prop := 0 <= b < 256.

Lemma sextet_char v : 0 <= v < 64 ->
  Base64.sextet (b64char v) = Some v /\ Ascii.eqb (b64char v) "="%char = false
  /\ Ascii.eqb (b64char v) "."%char = false.
Proof.
  intros Hv. assert (forallb (fun n => let v := Z.of_nat n in
    bool_decide (Base64.sextet (b64char v) = Some v) && negb (Ascii.eqb (b64char v) "="%char)
    && negb (Ascii.eqb (b64char v) "."%char)) (seq 0 64) = true) as Hall by (vm_compute; reflexivity).
  rewrite forallb_forall in Hall. specialize (Hall (Z.to_nat v)). cbv zeta in Hall.
  rewrite Z2Nat.id in Hall by lia. specialize (Hall ltac:(apply in_seq; lia)).
  apply andb_true_iff in Hall as [[Hs%bool_decide_eq_true He%negb_true_iff]%andb_true_iff Hd%negb_true_iff].
  by split_and!.
Qed.

(** One character of a group *)
Lemma a2b_char quad left pads v r : 0 <= v < 64 ->
  Base64.a2b quad left pads (b64char v :: r)
  = match quad with
    | 0%nat => Base64.a2b 1 v 0 r
    | 1%nat => cons ((left * 4 + v / 16) mod 256) <$> Base64.a2b 2 (v mod 16) 0 r
    | 2%nat => cons ((left * 16 + v / 4) mod 256) <$> Base64.a2b 3 (v mod 4) 0 r
    | _ => cons ((left * 64 + v) mod 256) <$> Base64.a2b 0 0 0 r
    end.
Proof. intros Hv. destruct (sextet_char v Hv) as (Hs & He & _). cbn [Base64.a2b]. by rewrite He, Hs. Qed.

(** Groups of three bytes, by induction three at a time *)
Lemma triples_ind (P : list Z -> Prop) :
  P [] -> (forall a, P [a]) -> (forall a b, P [a; b]) ->
  (forall a b c r, P r -> P (a :: b :: c :: r)) -> forall l, P l.
Proof.
  intros H0 H1 H2 H3 l.
  enough (P l /\ (forall a, P (a :: l)) /\ (forall a b, P (a :: b :: l))) as [? _] by done.
  induction l as [|x l (IH0 & IH1 & IH2)]; split_and!; auto.
Qed.

Lemma group_bits a b c : byte a -> byte b -> byte c ->
  (a / 4 * 4 + (a mod 4 * 16 + b / 16) / 16) mod 256 = a
  /\ ((a mod 4 * 16 + b / 16) mod 16 * 16 + (b mod 16 * 4 + c / 64) / 4) mod 256 = b
  /\ ((b mod 16 * 4 + c / 64) mod 4 * 64 + c mod 64) mod 256 = c
  /\ 0 <= a / 4 < 64 /\ 0 <= a mod 4 * 16 + b / 16 < 64
  /\ 0 <= b mod 16 * 4 + c / 64 < 64 /\ 0 <= c mod 64 < 64.
Proof. unfold byte. intros. Z.to_euclidean_division_equations. lia. Qed.

Lemma pad_chars l : Z.to_nat ((- Z.of_nat (length (encode l))) mod 4)
  = match (length l mod 3)%nat with 0%nat => 0%nat | 1%nat => 2%nat | _ => 1%nat end.
Proof.
  induction l as [|a|a b|a b c r IH] using triples_ind; try reflexivity.
  cbn [encode length]. change (S (S (S (length r)))) with (3 + length r)%nat.
  replace ((3 + length r) mod 3)%nat with (length r mod 3)%nat
    by (rewrite (Nat.add_comm 3); symmetry; apply (Nat.Div0.mod_add (length r) 1 3)).
  rewrite <- IH. f_equal. rewrite !Nat2Z.inj_succ.
  replace (- _) with (- Z.of_nat (length (encode r)) + (-1) * 4) by lia. by rewrite Z.mod_add.
Qed.

Lemma decode_encode l :
  Forall byte l ->
  Base64.a2b 0 0 0 (encode l ++ replicate (Z.to_nat ((- Z.of_nat (length (encode l))) mod 4)) "="%char)
  = Some l.
Proof.
  intros Hl. rewrite pad_chars. induction l as [|a|a b|a b c r IH] using triples_ind.
  - done.
  - apply Forall_cons in Hl as [Ha _]. assert (byte 0) as H0 by (unfold byte; lia).
    destruct (group_bits a 0 0) as (E1 & _ & _ & B1 & B2 & _); try done. simpl (encode _ ++ _).
    rewrite Z.add_0_r in *. rewrite !a2b_char by done. simpl. by rewrite E1.
  - apply Forall_cons in Hl as [Ha [Hb _]%Forall_cons]. assert (byte 0) as H0 by (unfold byte; lia).
    destruct (group_bits a b 0) as (E1 & E2 & _ & B1 & B2 & B3 & _); try done. simpl (encode _ ++ _).
    rewrite Z.add_0_r in *. rewrite !a2b_char by done. simpl. by rewrite E1, E2.
  - apply Forall_cons in Hl as [Ha [Hb [Hc Hr]%Forall_cons]%Forall_cons].
    destruct (group_bits a b c) as (E1 & E2 & E3 & B1 & B2 & B3 & B4); try done.
    cbn [encode app]. rewrite !a2b_char by done. rewrite E1, E2, E3.
    change (length (a :: b :: c :: r)) with (3 + length r)%nat.
    replace ((3 + length r) mod 3)%nat with (length r mod 3)%nat
      by (rewrite (Nat.add_comm 3); symmetry; apply (Nat.Div0.mod_add (length r) 1 3)).
    by rewrite IH.
Qed.

Lemma utf8_bytes s : Forall byte (Sha256.utf8 s).
Proof.
  unfold Sha256.utf8. induction (PyStr.chars s) as [|c l IH]; simpl; [constructor|].
  apply Forall_app. split; [|done]. unfold Sha256.utf8_char, byte. pose proof (nat_ascii_bounded c).
  destruct (Z.ltb_spec (Z.of_nat (nat_of_ascii c)) 128); repeat constructor; try lia;
    Z.to_euclidean_division_equations; lia.
Qed.

Lemma utf8_decode_utf8 s : Base64.utf8_decode (Sha256.utf8 s) = Some (PyStr.chars s).
Proof.
  unfold Sha256.utf8. induction (PyStr.chars s) as [|c l IH]; [done|]. cbn [flat_map].
  assert (forall r, Base64.utf8_decode (Sha256.utf8_char c ++ r) = cons c <$> Base64.utf8_decode r) as ->
    by (destruct c as [[] [] [] [] [] [] [] []]; reflexivity).
  by rewrite IH.
Qed.

Lemma length_of_chars l : String.length (PyStr.of_chars l) = length l.
Proof. induction l; simpl; congruence. Qed.

(** A part decodes to the dict it was encoded from. *)
Lemma b64_json_part d : JsonLemmas.jsonable (VDict d) = true -> Bearer.b64_json (part d) = Ok (VDict d).
Proof.
  intros Hj. unfold Bearer.b64_json, Base64.decode_text, Base64.pad, part.
  rewrite PyStr.chars_of_chars, length_of_chars, decode_encode by apply utf8_bytes.
  rewrite utf8_decode_utf8, JsonLemmas.of_chars_chars. cbn [rbind]. by apply loads_dumps.
Qed.

(** *** The three parts *)

Definition dotless (l : list ascii) : Prop := Forall (fun c => Ascii.eqb c "."%char = false) l.

Lemma encode_dotless l : Forall byte l -> dotless (encode l).
Proof.
  induction l as [|a|a b|a b c r IH] using triples_ind; intros Hl; [constructor|..];
    repeat match goal with H : Forall _ (_ :: _) |- _ => apply Forall_cons in H as [? H] end;
    assert (byte 0) by (unfold byte; lia).
  - destruct (group_bits a 0 0) as (_ & _ & _ & B1 & B2 & _); try done. rewrite Z.add_0_r in *.
    repeat constructor; by apply sextet_char.
  - destruct (group_bits a b 0) as (_ & _ & _ & B1 & B2 & B3 & _); try done. rewrite Z.add_0_r in *.
    repeat constructor; by apply sextet_char.
  - destruct (group_bits a b c) as (_ & _ & _ & B1 & B2 & B3 & B4); try done.
    cbn [encode]. repeat (constructor; [by apply sextet_char|]). by apply IH.
Qed.

Lemma split_dot acc l r :
  dotless l -> PyStr.split_go "."%char acc (l ++ "."%char :: r)
  = PyStr.of_chars (reverse acc ++ l) :: PyStr.split_go "."%char [] r.
Proof.
  intros Hl. revert acc. induction Hl as [|c l Hc _ IH]; intros acc; cbn [app PyStr.split_go].
  - by rewrite Ascii.eqb_refl, app_nil_r.
  - by rewrite Hc, IH, reverse_cons, <- app_assoc.
Qed.
Lemma split_last acc l :
  dotless l -> PyStr.split_go "."%char acc l = [PyStr.of_chars (reverse acc ++ l)].
Proof.
  intros Hl. revert acc. induction Hl as [|c l Hc _ IH]; intros acc; cbn [PyStr.split_go].
  - by rewrite app_nil_r.
  - by rewrite Hc, IH, reverse_cons, <- app_assoc.
Qed.

Lemma split_token header payload signature :
  dotless (PyStr.chars signature) ->
  PyStr.split "."%char (token header payload signature) = [part header; part payload; signature].
Proof.
  intros Hs. unfold PyStr.split, token. rewrite !PyStr.chars_app.
  change (PyStr.chars ".") with ["."%char]. cbn [app].
  rewrite (split_dot [] (PyStr.chars (part header)))
    by (unfold part; rewrite PyStr.chars_of_chars; apply encode_dotless, utf8_bytes).
  rewrite (split_dot [] (PyStr.chars (part payload)))
    by (unfold part; rewrite PyStr.chars_of_chars; apply encode_dotless, utf8_bytes).
  rewrite split_last by done. simpl. by rewrite !JsonLemmas.of_chars_chars.
Qed.
End Jwt.

(** ** Who a request is *)

Section Claims.
Context (getenv : string -> option string) (now : float).

Abbreviation env := (Bearer.env getenv).

(** The claims of a token: what names the identity, and what binds it to this
    service and to the present. *)
Record claims_hold (payload : dict) (id : Identity.t) : Prop := {
  ch_user : Identity.user_id id = Bearer.user_of payload /\ Identity.user_id id <> "";
  ch_tenant : Identity.tenant_id id = Bearer.tenant_of payload /\ Identity.tenant_id id <> "";
  ch_scopes : Identity.scopes id = Bearer.scopes_of payload;
  ch_mode : Identity.mode id = "oidc";
  ch_issuer : Bearer.claim "iss" payload = env "OIDC_ISSUER_URL" "" /\ env "OIDC_ISSUER_URL" "" <> "";
  ch_audience : env "OIDC_AUDIENCE" "" ∈ Bearer.audiences (get_or "aud" VNone payload)
                /\ env "OIDC_AUDIENCE" "" <> "";
  ch_expiry : exists t, get_or "exp" VNone payload <> VNone
    /\ PyStr.parse_float (py_str (get_or "exp" VNone payload)) = Some t
    /\ PyFloat.ltb t now = false /\ Identity.expires_at id = Some t }.

Lemma check_expiry_some payload t :
  Bearer.check_expiry now payload = Ok (Some t) <->
  get_or "exp" VNone payload <> VNone
  /\ PyStr.parse_float (py_str (get_or "exp" VNone payload)) = Some t /\ PyFloat.ltb t now = false.
Proof.
  unfold Bearer.check_expiry. destruct (get_or "exp" VNone payload); try (split; [done|by intros [? _]]);
    (destruct (PyStr.parse_float _) as [u|]; [|naive_solver];
     destruct (PyFloat.ltb u now) eqn:E; naive_solver congruence).
Qed.

Lemma check_oidc_ok payload exp :
  Bearer.check_oidc getenv payload exp = Ok tt <->
  (Bearer.claim "iss" payload = env "OIDC_ISSUER_URL" "" /\ env "OIDC_ISSUER_URL" "" <> "")
  /\ (env "OIDC_AUDIENCE" "" ∈ Bearer.audiences (get_or "aud" VNone payload)
      /\ env "OIDC_AUDIENCE" "" <> "") /\ is_Some exp.
Proof.
  unfold Bearer.check_oidc. rewrite <- mem_true.
  destruct (String.eqb_spec (env "OIDC_ISSUER_URL" "") ""), (String.eqb_spec (env "OIDC_AUDIENCE" "") "");
    simpl; try naive_solver.
  destruct (String.eqb_spec (Bearer.claim "iss" payload) (env "OIDC_ISSUER_URL" "")); simpl; [|naive_solver].
  destruct (mem _ _); simpl; [|naive_solver]. destruct exp; [naive_solver|].
  split; [done|]. by intros (_ & _ & [? ?]).
Qed.

Lemma identity_of_oidc payload id :
  Bearer.auth_mode getenv = "oidc" ->
  Bearer.identity_of getenv now payload = Ok id <-> claims_hold payload id.
Proof.
  intros Hm. unfold Bearer.identity_of. rewrite Hm. cbn [String.eqb Ascii.eqb Bool.eqb]. split.
  - destruct (String.eqb_spec (Bearer.user_of payload) ""); [done|].
    destruct (String.eqb_spec (Bearer.tenant_of payload) ""); [done|]. cbn [negb].
    destruct (Bearer.check_expiry now payload) as [exp|] eqn:He; [|done]. cbn [rbind].
    destruct (Bearer.check_oidc getenv payload exp) as [[]|] eqn:Ho; [|done]. intros [= <-].
    apply check_oidc_ok in Ho as (Hi & Ha & [t ->]). apply check_expiry_some in He.
    constructor; simpl; [done..|]. exists t. tauto.
  - intros [[Hu Hu'] [Ht Ht'] Hs Hmode Hi Ha (t & Hx & Hp & Hlt & Hexp)].
    rewrite <- Hu, <- Ht. destruct (String.eqb_spec (Identity.user_id id) ""); [done|].
    destruct (String.eqb_spec (Identity.tenant_id id) ""); [done|]. cbn [negb].
    rewrite (proj2 (check_expiry_some payload t)) by done. cbn [rbind].
    rewrite (proj2 (check_oidc_ok payload (Some t))) by done. cbn [rbind].
    destruct id; simpl in *; congruence.
Qed.

End Claims.

Section Requests.
Context (getenv : string -> option string) (now : float) (urlopen : string -> result (list Z))
  (injected : option (string -> dict -> result unit))
  (pyjwt : option (dict -> string -> option string -> option string -> result unit)).

Abbreviation load_jwks := (Bearer.load_jwks getenv urlopen).

(** The signature of [token] was verified under the key set in force. *)
Definition verified (token : string) (c : option dict) : Prop :=
  exists header doc, Bearer.parse_header token = Ok header
    /\ Bearer.claim "alg" header <> "" /\ PyStr.lower (Bearer.claim "alg" header) <> "none"
    /\ (load_jwks c).2 = Ok (Some doc)
    /\ Bearer.default_verify_signature getenv injected pyjwt token doc = Ok tt.

Lemma enforce_oidc token c :
  Bearer.auth_mode getenv = "oidc" ->
  (Bearer.enforce_signature getenv urlopen injected pyjwt token c).2 = Ok tt <-> verified token c.
Proof.
  intros Hm. unfold Bearer.enforce_signature, verified, lift_result, bind. rewrite Hm.
  destruct (Bearer.parse_header token) as [header|]; [|naive_solver].
  destruct (String.eqb_spec (PyStr.lower (Bearer.claim "alg" header)) "none"); [naive_solver|].
  destruct (String.eqb_spec (Bearer.claim "alg" header) ""); [naive_solver|]. cbn [orb].
  destruct (load_jwks c) as [c' [[doc|]|]] eqn:El; simpl; [|naive_solver..].
  split; [intros Hv; by exists header, doc|]. intros (? & ? & [= <-] & _ & _ & [= <-] & Hv). exact Hv.
Qed.
End Requests.

(** The token an [Authorization] header carries. *)
Definition bearer_of (authz : string) : string :=
  PyStr.strip (String.substring 7 (String.length authz - 7) authz).
Definition open_path (path : string) : bool :=
  String.eqb path "/" || existsb (fun p => PyStr.startswith p path) Bearer.OPEN_PREFIXES.

(** A token with a dict for its payload. *)
Definition payload_of (token : string) (payload : dict) : Prop :=
  exists p0 p1 p2, PyStr.split "."%char token = [p0; p1; p2] /\ Bearer.b64_json p1 = Ok (VDict payload).

Section Resolution.
Context (getenv : string -> option string) (now : float) (urlopen : string -> result (list Z))
  (injected : option (string -> dict -> result unit))
  (pyjwt : option (dict -> string -> option string -> option string -> result unit)).

Abbreviation parse := (Bearer.parse_bearer_identity getenv now urlopen injected pyjwt).
Abbreviation resolve := (Bearer.resolve_identity getenv now urlopen injected pyjwt).
Abbreviation dispatch := (Bearer.dispatch getenv now urlopen injected pyjwt).
Abbreviation verified := (verified getenv urlopen injected pyjwt).

(** After the signature policy, a token is the identity its payload names. *)
Lemma parse_after token c :
  (parse token c).2 =
  match (Bearer.enforce_signature getenv urlopen injected pyjwt token c).2 with
  | Exn e => Exn e
  | Ok _ =>
      match PyStr.split "."%char token with
      | [_; p1; _] =>
          let? payload := Bearer.wrap (Bearer.b64_json p1)
                            (Bearer.IdentityError "malformed bearer token payload") in
          let? payload := as_dict payload in Bearer.identity_of getenv now payload
      | _ => Exn (Bearer.IdentityError "malformed bearer token")
      end
  end.
Proof.
  unfold Bearer.parse_bearer_identity, bind, lift_result.
  by destruct (Bearer.enforce_signature _ _ _ _ _ _) as [c' [[]|e]].
Qed.

Lemma parse_oidc token c id :
  Bearer.auth_mode getenv = "oidc" ->
  (parse token c).2 = Ok id <->
  verified token c /\ exists payload, payload_of token payload /\ claims_hold getenv now payload id.
Proof.
  intros Hm. rewrite parse_after, <- (enforce_oidc getenv urlopen injected pyjwt token c Hm).
  destruct (Bearer.enforce_signature _ _ _ _ _ _).2 as [[]|e]; [|naive_solver].
  setoid_rewrite <- (fun p i => identity_of_oidc getenv now p i Hm). unfold payload_of. split.
  - intros H. split; [done|]. destruct (PyStr.split _ _) as [|p0 [|p1 [|p2 [|]]]]; try done.
    destruct (Bearer.b64_json p1) as [v|] eqn:Eb; [|done]. simpl in H.
    destruct v as [| | | | | |d|]; try done. exists d. split; [|done]. by exists p0, p1, p2.
  - intros (_ & d & (p0 & p1 & p2 & -> & ->) & H). exact H.
Qed.

Lemma local_dev_needs_mock m :
  getenv "AUTH_MODE" = Some m -> PyStr.lower (PyStr.strip m) = "oidc" ->
  String.eqb (default "mock" (getenv "AUTH_MODE")) "mock" = false.
Proof. intros -> Hm. simpl. destruct (String.eqb_spec m "mock") as [->|]; done. Qed.

Lemma resolve_oidc m authz c id :
  getenv "AUTH_MODE" = Some m -> PyStr.lower (PyStr.strip m) = "oidc" ->
  (resolve authz c).2 = Ok id <->
  authz <> "" /\ PyStr.startswith "Bearer " authz = true
  /\ PyStr.startswith "local:" (bearer_of authz) = false /\ (parse (bearer_of authz) c).2 = Ok id.
Proof.
  intros Hget Hm. pose proof (local_dev_needs_mock m Hget Hm) as Hlocal.
  unfold Bearer.resolve_identity. fold (bearer_of authz). rewrite Hlocal.
  destruct (String.eqb_spec authz ""); [naive_solver|]. cbn [negb].
  destruct (PyStr.startswith "Bearer " authz); [|naive_solver]. cbn [negb].
  destruct (PyStr.startswith "local:" (bearer_of authz)); [|naive_solver].
  split; [|naive_solver]. unfold Identity.local_dev_identity, bind, lift_result. rewrite Hlocal.
  by destruct (mem _ _).
Qed.

Lemma dispatch_attached path authz c id :
  (dispatch path authz c).2 = Ok (Bearer.Attached id) <->
  open_path path = false /\ (resolve authz c).2 = Ok id.
Proof.
  unfold Bearer.dispatch. fold (open_path path). destruct (open_path path); [naive_solver|].
  unfold try_catch, bind, ret. destruct (resolve authz c) as [c' [i|e]]; simpl; [naive_solver|].
  split; [|naive_solver]. destruct e; simpl; try done. by case_match.
Qed.

(** C8. In [AUTH_MODE=oidc] a request is given an identity exactly when its path
    is not an open one and it carries a bearer token whose signature is verified
    under the key set in force, with an algorithm other than [none], the
    configured issuer and audience, and an expiry that is not past; user, tenant
    and scopes are then those of the claims. *)
Theorem oidc_requests_are_verified m path authz c id :
  getenv "AUTH_MODE" = Some m -> PyStr.lower (PyStr.strip m) = "oidc" ->
  (dispatch path authz c).2 = Ok (Bearer.Attached id) <->
  open_path path = false /\ authz <> "" /\ PyStr.startswith "Bearer " authz = true
  /\ PyStr.startswith "local:" (bearer_of authz) = false
  /\ verified (bearer_of authz) c
  /\ exists payload, payload_of (bearer_of authz) payload /\ claims_hold getenv now payload id.
Proof.
  intros Hget Hm. rewrite dispatch_attached, (resolve_oidc m) by done.
  rewrite parse_oidc; [done|]. unfold Bearer.auth_mode, Bearer.env. by rewrite Hget.
Qed.

(** C21. A token encoded from a header and claims is read back: its header is the
    header, and, once the signature policy passes, its identity is the one the
    claims name.  Where no key set is configured and the mode is not [oidc] the
    policy passes for every signature and in every [APP_ENV]. *)
Theorem bearer_token_roundtrip header payload signature c :
  JsonLemmas.jsonable (VDict header) = true -> JsonLemmas.jsonable (VDict payload) = true ->
  Jwt.dotless (PyStr.chars signature) ->
  let token := Jwt.token header payload signature in
  Bearer.parse_header token = Ok header
  /\ (forall u, (Bearer.enforce_signature getenv urlopen injected pyjwt token c).2 = Ok u ->
      (parse token c).2 = Bearer.identity_of getenv now payload)
  /\ (Bearer.auth_mode getenv <> "oidc" ->
      (forall k, k ∈ ["OIDC_JWKS_JSON"; "OIDC_JWKS_URL"; "OIDC_JWKS_URI"] -> Bearer.env getenv k "" = "") ->
      Bearer.claim "alg" header <> "" -> PyStr.lower (Bearer.claim "alg" header) <> "none" ->
      parse token c = (c, Bearer.identity_of getenv now payload)).
Proof.
  intros Hh Hp Hs token.
  assert (Bearer.parse_header token = Ok header) as Hhead.
  { unfold Bearer.parse_header, token. by rewrite Jwt.split_token, Jwt.b64_json_part. }
  assert (forall u, (Bearer.enforce_signature getenv urlopen injected pyjwt token c).2 = Ok u ->
      (parse token c).2 = Bearer.identity_of getenv now payload) as Hparse.
  { intros u Hu. rewrite parse_after, Hu. unfold token. by rewrite Jwt.split_token, Jwt.b64_json_part. }
  split; [done|]. split; [done|]. intros Hm Hk Ha Hn.
  assert (Bearer.enforce_signature getenv urlopen injected pyjwt token c = (c, Ok tt)) as He.
  { unfold Bearer.enforce_signature, bind, lift_result. rewrite Hhead.
    destruct (String.eqb_spec (PyStr.lower (Bearer.claim "alg" header)) "none"); [done|].
    destruct (String.eqb_spec (Bearer.claim "alg" header) ""); [done|]. cbn [orb].
    unfold Bearer.load_jwks. rewrite !Hk by set_solver. cbn [String.eqb negb]. unfold ret.
    by destruct (String.eqb_spec (Bearer.auth_mode getenv) "oidc"). }
  specialize (Hparse tt ltac:(by rewrite He)). rewrite <- Hparse.
  unfold Bearer.parse_bearer_identity, bind, lift_result. rewrite He. done.
Qed.
End Resolution.

(** ** Witnesses *)

Module BearerDemo.
Definition oidc (k : string) : option string :=
  dget k [("AUTH_MODE", " OIDC"); ("OIDC_ISSUER_URL", "https://idp"); ("OIDC_AUDIENCE", "workbench");
          ("OIDC_JWKS_URL", "https://idp/keys")].
(** A production environment that does not set [AUTH_MODE]. *)
Definition production (k : string) : option string := dget k [("APP_ENV", "production")].
Definition header : dict := [("alg", VStr "RS256"); ("kid", VStr "k1")].
Definition payload : dict :=
  [("sub", VStr "mallory"); ("tid", VStr "acme"); ("scope", VStr "case.read *"); ("exp", VInt 1800000000);
   ("iss", VStr "https://idp"); ("aud", VList [VStr "workbench"])].
Definition token : string := Jwt.token header payload "c2ln".
Definition keys (url : string) : result (list Z) :=
  Ok (Sha256.utf8 (json_dumps (VDict [("keys", VList [VDict [("kid", VStr "k1")]])]))).
(** A verifier that knows the one signature. *)
Definition verifier (key : dict) (t : string) (aud iss : option string) : result unit :=
  if PyStr.endswith ".c2ln" t then Ok tt else Exn (ValueError "bad signature").
Definition now : float := PyFloat.of_Z 1700000000.
Definition identity : Identity.t :=
  Identity.mk "mallory" "acme" ["case.read"; "*"] "oidc" (Some (PyFloat.of_Z 1800000000)).
End BearerDemo.

Lemma oidc_requests_are_verified_witness :
  let authz := "Bearer " +:+ BearerDemo.token in
  verified BearerDemo.oidc BearerDemo.keys None (Some BearerDemo.verifier) (bearer_of authz) None
  /\ exists payload, payload_of (bearer_of authz) payload
     /\ claims_hold BearerDemo.oidc BearerDemo.now payload BearerDemo.identity.
Proof.
  exact (proj2 (proj2 (proj2 (proj2 (proj1 (oidc_requests_are_verified BearerDemo.oidc BearerDemo.now
    BearerDemo.keys None (Some BearerDemo.verifier) " OIDC" "/v1/runs" ("Bearer " +:+ BearerDemo.token)
    None BearerDemo.identity eq_refl eq_refl) ltac:(vm_compute; reflexivity)))))).
Defined.

Lemma bearer_token_roundtrip_witness :
  Bearer.parse_bearer_identity BearerDemo.production BearerDemo.now BearerDemo.keys None None
    BearerDemo.token None = (None, Ok BearerDemo.identity).
Proof.
  assert (Bearer.identity_of BearerDemo.production BearerDemo.now BearerDemo.payload
          = Ok BearerDemo.identity) as <- by (vm_compute; reflexivity).
  apply (bearer_token_roundtrip BearerDemo.production BearerDemo.now BearerDemo.keys None None
           BearerDemo.header BearerDemo.payload "c2ln" None); try (vm_compute; reflexivity).
  - repeat constructor.
  - done.
  - intros k Hk. repeat (apply elem_of_cons in Hk as [->|Hk]; [reflexivity|]). by apply elem_of_nil in Hk.
  - done.
  - done.
Defined.

(** ** The gateway's context

    A context read from headers is never approved; outside the local mode its
    tenant and scopes are those of the identity, however the headers claim. *)

Lemma from_headers_spec getenv now urlopen injected pyjwt headers identity (c : option dict) :
  wp (GatewayHeaders.from_headers getenv now urlopen injected pyjwt headers identity)
     (fun a _ => AuthContext.approved a = false
        /\ (GatewayHeaders.mock_mode getenv = true \/ exists ident,
              AuthContext.tenant_id a = match identity with
                                        | Some _ => PyStr.strip (Identity.tenant_id ident)
                                        | None => Identity.tenant_id ident
                                        end
              /\ AuthContext.scopes a = Identity.scopes ident
              /\ (identity = Some ident \/ exists authz,
                    (Bearer.resolve_identity getenv now urlopen injected pyjwt authz c).2 = Ok ident)))
     (fun _ _ => True) c.
Proof.
  unfold GatewayHeaders.from_headers. case_match; [by rewrite wp_raise|]. destruct identity as [ident|].
  - repeat (case_match; [by rewrite wp_raise|]). rewrite wp_ret. split; [done|]. right.
    exists ident. split; [done|]. split; [done|]. by left.
  - destruct (PyStr.startswith _ _).
    + rewrite wp_bind, wp_try. unfold wp.
      destruct (Bearer.resolve_identity _ _ _ _ _ _ c) as [c' [ident|e]] eqn:Er;
        [|by destruct (Bearer.is_identity_error e)].
      match goal with |- context [if ?b then _ else _] => destruct b end; [done|]. split; [done|]. right. exists ident.
      split; [done|]. split; [done|]. right. eexists. by rewrite Er.
    + destruct (GatewayHeaders.mock_mode getenv); [|by rewrite wp_raise].
      rewrite wp_bind, wp_lift. destruct (Identity.local_dev_identity getenv); [|done].
      case_match; [by rewrite wp_raise|]. rewrite wp_ret. split; [done|by left].
Qed.
