(* ===== verification/AgUi.v ===== *)
(** * Events at the UI boundary

    [packages/protocols/ag_ui.py]: which canonical events are shown, what each becomes, and
    the order of a batch.  An event is an [AgentEvent] or a plain dict.  The theorem says that
    a batch shows exactly the safe events, each mapped once, stably ordered by sequence, and
    that canonical events whose findings are dicts are always mapped. *)

From stdpp Require Import base list strings pretty.
From Stdlib Require Import ZArith Lia Ascii Sorted.
From S2P Require Import Prelude.
From S2P Require Import PyFloat.
From S2P Require Import PyValue.
From S2P Require Import PyTime.
From S2P Require Import Contracts.
From S2P Require Import ContractsOps.
From S2P Require Import Security.

Local Open Scope py_scope.

(** A stable sort by an integer key *)
Section Stable.
Context {A : Type} (key : A -> Z).

Fixpoint insert_by (x : A) (sorted : list A) : list A :=
  match sorted with
  | y :: rest => if (key x <=? key y)%Z then x :: sorted else y :: insert_by x rest
  | [] => [x]
  end.
Definition sort_by (l : list A) : list A := fold_right insert_by [] l.

Lemma insert_perm x l : insert_by x l ≡ₚ x :: l.
Proof. induction l as [|y l IH]; simpl; [done|]. case_match; [done|]. rewrite IH. apply Permutation_swap. Qed.
Lemma sort_perm l : sort_by l ≡ₚ l.
Proof. induction l; simpl; [done|]. by rewrite insert_perm, IHl. Qed.

Lemma insert_sorted x l :
  StronglySorted Z.le (map key l) -> StronglySorted Z.le (map key (insert_by x l)).
Proof.
  induction l as [|y l IH]; simpl; intros Hs; [repeat constructor|].
  apply StronglySorted_inv in Hs as [Hs Hy]. destruct (Z.leb_spec (key x) (key y)); simpl.
  - constructor; [by constructor|]. constructor; [done|].
    apply (Forall_impl _ _ _ Hy). intros z Hz. lia.
  - constructor; [by apply IH|]. change (Forall (Z.le (key y)) (map key (insert_by x l))).
    rewrite insert_perm. simpl. constructor; [lia|done].
Qed.
Lemma sort_sorted l : StronglySorted Z.le (map key (sort_by l)).
Proof. induction l; simpl; [constructor|]. by apply insert_sorted. Qed.

(** Elements with equal keys keep their order. *)
Lemma insert_stable k x l :
  List.filter (fun y => key y =? k)%Z (insert_by x l) = List.filter (fun y => key y =? k)%Z (x :: l).
Proof.
  induction l as [|y l IH]; simpl; [done|]. destruct (Z.leb_spec (key x) (key y)); simpl; [done|].
  rewrite IH. simpl. repeat case_match; simpl; try done; lia.
Qed.
Lemma sort_stable k l :
  List.filter (fun y => key y =? k)%Z (sort_by l) = List.filter (fun y => key y =? k)%Z l.
Proof. induction l as [|x l IH]; [done|]. cbn [sort_by fold_right]. rewrite insert_stable. simpl. by rewrite <- IH. Qed.
End Stable.

Module AgUi.
(** [AgentEvent | dict] *)
Inductive event : Type :=
  | Typed (x : AgentEvent.t)
  | Raw (d : dict).

Definition AG_UI_TYPE_BY_CANONICAL : list (string * string) :=
  [(EventType.value EventType.RUN_STARTED, "RUN_STARTED");
   (EventType.value EventType.MESSAGE_DELTA, "TEXT_MESSAGE_CONTENT");
   (EventType.value EventType.TOOL_STARTED, "TOOL_CALL_START");
   (EventType.value EventType.TOOL_COMPLETED, "TOOL_CALL_FINISH");
   (EventType.value EventType.AGENT_DELEGATED, "ACTIVITY");
   (EventType.value EventType.FINDING_CREATED, "STATE_SNAPSHOT");
   (EventType.value EventType.APPROVAL_REQUIRED, "FRONTEND_INTERACTION");
   (EventType.value EventType.APPROVAL_RECEIVED, "STATE_UPDATE");
   (EventType.value EventType.RUN_COMPLETED, "RUN_FINISHED");
   (EventType.value EventType.RUN_FAILED, "RUN_ERROR");
   (EventType.value EventType.RUN_CANCELLED, "RUN_CANCELLED")].

Definition TERMINAL_AG_UI : list string := ["RUN_FINISHED"; "RUN_ERROR"; "RUN_CANCELLED"].

Definition event_dict (e : event) : result dict :=
  match e with Typed x => AgentEvent.dump x | Raw d => Ok d end.

Definition is_true (v : pyval) : bool := match v with VBool b => b | _ => false end.
Definition renderable (d : dict) : bool :=
  if is_true (get_or "sensitive" VNone d) then false else is_true (get_or "safe_for_ui" VNone d).
Definition is_renderable (e : event) : result bool :=
  let? d := event_dict e in Ok (renderable d).

(** [{k: d.get(k) for k in ...}] *)
Definition pick (ks : list string) (d : dict) : dict := map (fun k => (k, get_or k VNone d)) ks.

(** The [data] of the mapped event *)
Definition render_data (ag_type canonical : string) (run_id : pyval) (data : dict) : result dict :=
  if String.eqb ag_type "RUN_STARTED" then Ok (dupdate [("run_id", run_id)] data)
  else if String.eqb ag_type "TEXT_MESSAGE_CONTENT" then
    Ok [("delta", first_truthy (map (fun k => get_or k VNone data)
           ["delta"; "text"; "clarification_question"; "more_info"; "policy_denial"]));
        ("raw", VDict data)]
  else if mem ag_type ["TOOL_CALL_START"; "TOOL_CALL_FINISH"] then
    Ok (pick ["tool_name"; "status"; "action_id"; "latency_s"; "error"] data
        ++ [("args", get_or "args" (VDict []) data)])
  else if String.eqb ag_type "ACTIVITY" then
    Ok (pick ["agent"; "skill_id"; "task_id"] data
        ++ [("status", get_or "status" (VStr "delegated") data)])
  else if String.eqb ag_type "STATE_SNAPSHOT" then
    let? finding := as_dict (get_or "finding" (VDict data) data) in
    Ok ([("kind", VStr "finding")] ++ pick ["title"; "summary"; "confidence"; "severity"] finding
        ++ [("evidence_refs", get_or "evidence_refs" (VList []) finding);
            ("finding_id", get_or "finding_id" VNone finding)])
  else if String.eqb ag_type "FRONTEND_INTERACTION" then
    Ok [("kind", VStr "approval"); ("actions", get_or "actions" (VList []) data);
        ("approvals", get_or "approvals" (VList []) data)]
  else if String.eqb ag_type "STATE_UPDATE" then Ok (pick ["decision"; "approver"; "approval_id"] data)
  else if mem ag_type TERMINAL_AG_UI then Ok data
  else Ok [("canonical_type", VStr canonical); ("payload", VDict data)].

Definition to_ag_ui (e : event) : result (option dict) :=
  let? d := event_dict e in
  if negb (renderable d) then Ok None
  else
    let canonical := get_str "type" "" d in
    let ag_type := default "UNKNOWN" (dget canonical AG_UI_TYPE_BY_CANONICAL) in
    let base := [("type", VStr ag_type); ("sequence", get_or "sequence" (VInt 0) d)]
                ++ pick ["event_id"; "run_id"; "timestamp"; "trace_id"] d in
    let data := match get_or "data" VNone d with VDict x => x | _ => [] end in
    let? rendered := render_data ag_type canonical (get_or "run_id" VNone d) data in
    Ok (Some (base ++ [("data", VDict rendered)])).

Definition sequence_key (m : dict) : result Z := py_int (get_or "sequence" (VInt 0) m).

Fixpoint mapped (events : list event) : result (list dict) :=
  match events with
  | [] => Ok []
  | e :: rest =>
      let? m := to_ag_ui e in
      let? out := mapped rest in
      Ok (match m with Some m => m :: out | None => out end)
  end.

(** The sort keys are computed before the list is reordered. *)
Fixpoint keyed (l : list dict) : result (list (Z * dict)) :=
  match l with
  | [] => Ok []
  | m :: rest => let? k := sequence_key m in let? out := keyed rest in Ok ((k, m) :: out)
  end.

Definition batch_to_ag_ui (events : list event) : result (list dict) :=
  let? out := mapped events in
  let? pairs := keyed out in
  Ok (map snd (sort_by fst pairs)).

Definition is_terminal_ag_ui (m : dict) : bool := mem (get_str "type" "" m) TERMINAL_AG_UI.
End AgUi.

(** ** What a batch shows *)

Module AgUiLemmas.
Import AgUi.

Definition shown (e : event) : bool := match event_dict e with Ok d => renderable d | Exn _ => false end.
Definition has_key (k : Z) (m : dict) : bool :=
  match sequence_key m with Ok i => (i =? k)%Z | Exn _ => false end.
Definition before (a b : dict) : Prop :=
  exists i j, sequence_key a = Ok i /\ sequence_key b = Ok j /\ (i <= j)%Z.

Lemma to_ag_ui_some e : forall m, to_ag_ui e = Ok (Some m) -> shown e = true.
Proof.
  unfold to_ag_ui, shown. intros m. destruct (event_dict e) as [d|]; simpl; [|done].
  destruct (renderable d); [done|]. done.
Qed.
Lemma to_ag_ui_none e : to_ag_ui e = Ok None -> shown e = false.
Proof.
  unfold to_ag_ui, shown. destruct (event_dict e) as [d|]; simpl; [|done].
  destruct (renderable d); simpl; [|done]. by destruct (render_data _ _ _ _).
Qed.

Lemma mapped_shown events ms :
  mapped events = Ok ms ->
  Forall2 (fun e m => to_ag_ui e = Ok (Some m)) (List.filter shown events) ms.
Proof.
  revert ms; induction events as [|e events IH]; simpl; intros ms Hm; [by injection Hm as <-|].
  destruct (to_ag_ui e) as [o|] eqn:He; simpl in Hm; [|done].
  destruct (mapped events) as [out|]; simpl in Hm; [|done]. injection Hm as <-.
  destruct o as [m|].
  - rewrite (to_ag_ui_some _ _ He). constructor; [done|by apply IH].
  - rewrite (to_ag_ui_none _ He). by apply IH.
Qed.

Lemma keyed_spec ms pairs :
  keyed ms = Ok pairs ->
  map snd pairs = ms /\ Forall (fun km => sequence_key km.2 = Ok km.1) pairs.
Proof.
  revert pairs; induction ms as [|m ms IH]; simpl; intros pairs Hk; [by injection Hk as <-|].
  destruct (sequence_key m) as [k|] eqn:Hm; simpl in Hk; [|done].
  destruct (keyed ms) as [out|]; simpl in Hk; [|done]. injection Hk as <-.
  destruct (IH out) as [<- Hf]; [done|]. split; [done|]. by constructor.
Qed.

Lemma sorted_before pairs :
  Forall (fun km => sequence_key km.2 = Ok km.1) pairs ->
  StronglySorted Z.le (map fst pairs) -> StronglySorted before (map snd pairs).
Proof.
  induction 1 as [|[k m] pairs Hm Hf IH]; simpl; intros Hs; [constructor|].
  apply StronglySorted_inv in Hs as [Hs Hk]. constructor; [by apply IH|].
  apply Forall_map. rewrite Forall_map in Hk. clear IH Hs.
  induction Hf as [|[k' m'] pairs Hm' Hf IH]; constructor; apply Forall_cons in Hk as [Hk Hks].
  - by exists k, k'.
  - by apply IH.
Qed.

Lemma filter_key k (pairs : list (Z * dict)) :
  Forall (fun km => sequence_key km.2 = Ok km.1) pairs ->
  List.filter (has_key k) (map snd pairs)
  = map snd (List.filter (fun km => km.1 =? k)%Z pairs).
Proof.
  induction 1 as [|[k' m] pairs Hm Hf IH]; simpl in *; [done|].
  unfold has_key at 1. rewrite Hm, IH. by destruct (k' =? k)%Z.
Qed.

Lemma batch_shows events out :
  batch_to_ag_ui events = Ok out ->
  exists ms, Forall2 (fun e m => to_ag_ui e = Ok (Some m)) (List.filter shown events) ms
    /\ out ≡ₚ ms /\ StronglySorted before out
    /\ forall k, List.filter (has_key k) out = List.filter (has_key k) ms.
Proof.
  unfold batch_to_ag_ui. destruct (mapped events) as [ms|] eqn:Hm; simpl; [|done].
  destruct (keyed ms) as [pairs|] eqn:Hk; simpl; [|done]. intros [= <-].
  apply keyed_spec in Hk as [<- Hf]. exists (map snd pairs).
  assert (Hf' : Forall (fun km => sequence_key km.2 = Ok km.1) (sort_by fst pairs)).
  { by rewrite (sort_perm fst pairs). }
  split; [by apply mapped_shown|]. split; [by rewrite (sort_perm fst pairs)|].
  split; [apply sorted_before; [done|apply sort_sorted]|].
  intros k. rewrite !filter_key by done. by rewrite (sort_stable fst k pairs).
Qed.

(** *** Canonical events *)

Definition visible (x : AgentEvent.t) : bool :=
  AgentEvent.safe_for_ui x && negb (AgentEvent.sensitive x).
Definition is_terminal (t : EventType.t) : bool :=
  bool_decide (t ∈ [EventType.RUN_COMPLETED; EventType.RUN_FAILED; EventType.RUN_CANCELLED]).
(** Serialisable data, with a dict for a finding *)
Definition mappable (x : AgentEvent.t) : bool :=
  serializable (VDict (AgentEvent.data x))
  && (negb (bool_decide (AgentEvent.type x = EventType.FINDING_CREATED))
      || is_ok (as_dict (get_or "finding" (VDict (AgentEvent.data x)) (AgentEvent.data x)))).

(** The sequence, event and terminal status an AG-UI event shows *)
Definition summary (m : dict) : pyval * pyval * bool :=
  (get_or "sequence" VNone m, get_or "event_id" VNone m, is_terminal_ag_ui m).
Definition summary_of (x : AgentEvent.t) : pyval * pyval * bool :=
  (VInt (AgentEvent.sequence x), VStr (AgentEvent.event_id x), is_terminal (AgentEvent.type x)).

Definition renders (x : AgentEvent.t) (m : dict) : Prop :=
  summary m = summary_of x /\ sequence_key m = Ok (AgentEvent.sequence x).

(** The image of an event whose type is known by [Ht] *)
Ltac shows_as Ht :=
  eexists; split; [reflexivity|]; eexists; split; [reflexivity|]; split; [|reflexivity];
  unfold summary, summary_of; rewrite Ht; reflexivity.

Lemma to_ag_ui_typed x :
  mappable x = true ->
  exists o, to_ag_ui (Typed x) = Ok o
    /\ if visible x then exists m, o = Some m /\ renders x m else o = None.
Proof.
  intros [Hs Hf]%andb_true_iff. unfold to_ag_ui, event_dict, AgentEvent.dump, dump_dict. rewrite Hs.
  cbn [rbind]. unfold renderable, visible. simpl (get_or _ _ _). cbn [is_true].
  destruct (AgentEvent.sensitive x), (AgentEvent.safe_for_ui x); simpl; eauto.
  unfold get_or. simpl. unfold get_str, get_or. simpl.
  destruct (AgentEvent.type x) eqn:Ht; simpl; try (shows_as Ht).
  unfold render_data. cbn -[get_or as_dict]. cbn -[get_or as_dict] in Hf.
  destruct (as_dict _); [shows_as Ht|done].
Qed.

Lemma typed_batch xs :
  forallb mappable xs = true ->
  exists ms, mapped (map Typed xs) = Ok ms /\ Forall2 renders (List.filter visible xs) ms.
Proof.
  induction xs as [|x xs IH]; simpl; [by exists []|]. intros [Hx Hxs]%andb_true_iff.
  destruct (to_ag_ui_typed x Hx) as (o & -> & Ho). destruct (IH Hxs) as (ms & -> & Hms).
  simpl. destruct (visible x); [destruct Ho as (m & -> & Hm)|subst o];
    (eexists; split; [done|]); [by constructor|done].
Qed.

Lemma keyed_renders xs ms :
  Forall2 renders xs ms -> keyed ms = Ok (combine (map AgentEvent.sequence xs) ms).
Proof. induction 1 as [|x m xs ms [_ Hm] _ IH]; simpl; [done|]. by rewrite Hm, IH. Qed.

Lemma insert_renders x m xs (ms : list (Z * dict)) :
  renders x m ->
  Forall2 (fun x km => renders x km.2 /\ km.1 = AgentEvent.sequence x) xs ms ->
  Forall2 (fun x km => renders x km.2 /\ km.1 = AgentEvent.sequence x)
    (insert_by AgentEvent.sequence x xs) (insert_by fst (AgentEvent.sequence x, m) ms).
Proof.
  intros Hx. induction 1 as [|y [k n] xs ms [Hy Hk] Hf IH]; simpl in *; [by apply Forall2_cons|].
  subst k. case_match; repeat (apply Forall2_cons; split); try done.
Qed.
Lemma sort_renders xs ms :
  Forall2 renders xs ms ->
  Forall2 (fun x km => renders x km.2 /\ km.1 = AgentEvent.sequence x)
    (sort_by AgentEvent.sequence xs) (sort_by fst (combine (map AgentEvent.sequence xs) ms)).
Proof. induction 1; [constructor|]. cbn [map combine sort_by fold_right]. by apply insert_renders. Qed.
End AgUiLemmas.

Import AgUi AgUiLemmas.

(** C35. A batch shows an event exactly when it is marked safe for the UI and not sensitive: what
    it returns are the images of these events, ordered by sequence, those with equal sequences
    in their original order.  For canonical events with serialisable data whose findings are
    dicts the batch is always mapped; the result carries the sequence and identifier of each
    visible event in order, and an image is terminal exactly for the completed, failed and
    cancelled event types. *)
Theorem batch_shows_safe_events :
  (forall events out, batch_to_ag_ui events = Ok out ->
    exists ms, Forall2 (fun e m => to_ag_ui e = Ok (Some m)) (List.filter shown events) ms
      /\ out ≡ₚ ms /\ StronglySorted before out
      /\ forall k, List.filter (has_key k) out = List.filter (has_key k) ms)
  /\ (forall xs, forallb mappable xs = true ->
    exists out, batch_to_ag_ui (map Typed xs) = Ok out
      /\ map summary out = map summary_of (sort_by AgentEvent.sequence (List.filter visible xs))).
Proof.
  split; [apply batch_shows|]. intros xs Hxs. destruct (typed_batch xs Hxs) as (ms & Hm & Hf).
  unfold batch_to_ag_ui. rewrite Hm. simpl. rewrite (keyed_renders _ _ Hf). simpl.
  eexists; split; [done|]. pose proof (sort_renders _ _ Hf) as Hs.
  induction Hs as [|x km xs' ms' [[Hx _] _] _ IH]; simpl; [done|]. by rewrite Hx, IH.
Qed.

Module AgUiDemo.
Definition event (id : string) (n : Z) (t : EventType.t) (d : dict) (sensitive safe : bool) : AgentEvent.t :=
  AgentEvent.mk id "r1" "t1" n t 0%Z d None None sensitive safe.
Definition events : list AgentEvent.t :=
  [event "e3" 3 EventType.RUN_COMPLETED [] false true;
   event "e2" 2 EventType.MESSAGE_DELTA [("delta", VStr "y")] false false;
   event "e1" 1 EventType.FINDING_CREATED [("finding", VDict [("title", VStr "t")])] false true].
End AgUiDemo.

Lemma batch_shows_safe_events_witness :
  exists out, batch_to_ag_ui (map Typed AgUiDemo.events) = Ok out
    /\ map summary out = [(VInt 1, VStr "e1", false); (VInt 3, VStr "e3", true)].
Proof. exact (proj2 batch_shows_safe_events AgUiDemo.events eq_refl). Defined.

(** A finding that is not a dict raises. *)
Example finding_text_raises :
  batch_to_ag_ui [Typed (AgUiDemo.event "e1" 1 EventType.FINDING_CREATED
                    [("finding", VStr "text")] false true)]
  = Exn (AttributeError "'str' object has no attribute 'get'").
Proof. reflexivity. Qed.
