(* ===== verification/McpModels.v ===== *)
(** * Tool input models

    [apps/mcp_server/models.py]: the strict input model of every tool as a
    table of fields, and the construction of one from raw arguments: unknown
    keys are refused, strings are stripped and bounded, absent fields take
    their defaults.  How pydantic reads a number, a flag or an instant is the
    class [Pydantic]. *)

From stdpp Require Import base list strings.
From Stdlib Require Import ZArith Lia Ascii.
From S2P Require Import Prelude.
From S2P Require Import PyFloat.
From S2P Require Import PyValue.
From S2P Require Import PyTime.
From S2P Require Import Contracts.
From S2P Require Import Security.

Local Open Scope py_scope.

(** Pydantic's lax conversions.  [as_time] gives the JSON text of an aware
    datetime, [as_aware] the datetime itself, whose local time Python keeps
    within the years 1 to 9999 and whose offset is less than a day. *)
Definition datetime_range (a : PyTime.aware) : Prop :=
  (-62135596800000000 <= PyTime.local_time a < 253402300800000000
   /\ -86400 < PyTime.offset a < 86400)%Z.
Class Pydantic := {
  as_int : pyval -> option Z;
  as_bool : pyval -> option bool;
  as_time : pyval -> option string;
  as_float : pyval -> option float;
  as_aware : pyval -> option PyTime.aware;
  as_int_int : forall z, as_int (VInt z) = Some z;
  as_bool_bool : forall b, as_bool (VBool b) = Some b;
  as_float_float : forall f, as_float (VFloat f) = Some f;
  as_aware_range : forall v t, as_aware v = Some t -> datetime_range t;
}.

Module McpModels.
Inductive ftype : Type :=
  | FStr (lo hi : Z)
  | FIdent
  | FInt (lo hi : Z)
  | FBool
  | FTime
  | FLiteral (l : list string)
  | FDict.
(** [required] fields have no default; [nullable] ones accept [None]. *)
Record field := mkField { fname : string; ftyp : ftype; nullable : bool; fdefault : option pyval }.

Definition req (name : string) (t : ftype) : field := mkField name t false None.
Definition opt (name : string) (t : ftype) : field := mkField name t true (Some VNone).
Definition dflt (name : string) (t : ftype) (v : pyval) : field := mkField name t false (Some v).

Definition TENANT : field := opt "tenant_id" FIdent.
Definition SERVICE : field := req "service" (FStr 1 128).
Definition KEY : field := opt "idempotency_key" (FStr 1 128).

Definition QueryMetricsInput : list field :=
  [TENANT; SERVICE; req "metric" (FStr 1 128); req "start_time" FTime; req "end_time" FTime;
   dflt "aggregation" (FLiteral ["average"; "p95"; "p99"; "max"; "min"; "sum"; "count"])
     (VStr "average")].
Definition QueryLogsInput : list field :=
  [TENANT; SERVICE; req "query" (FStr 1 2000); opt "start_time" FTime; opt "end_time" FTime;
   dflt "limit" (FInt 1 1000) (VInt 100)].
Definition GetHealthInput : list field := [TENANT; SERVICE].
Definition SearchInput : list field :=
  [TENANT; req "query" (FStr 1 500); dflt "top_k" (FInt 1 20) (VInt 5)].
Definition GetRunbookInput : list field := [TENANT; req "runbook_id" FIdent].
Definition SimulateInput : list field :=
  [TENANT; req "action" (FStr 1 500); dflt "parameters" FDict (VDict []);
   opt "target_service" (FStr 1 128); KEY].
Definition RollbackInput : list field :=
  [TENANT; req "deployment" (FStr 1 128); opt "target_release" (FStr 1 128);
   opt "reason" (FStr 1 1000); dflt "dry_run" FBool (VBool true); KEY].
Definition GetTraceInput : list field := [TENANT; SERVICE; opt "trace_id" (FStr 1 128)].
Definition GetCurrentReleaseInput : list field := [TENANT; SERVICE].
Definition TicketCreateInput : list field :=
  [TENANT; req "title" (FStr 1 500); dflt "severity" (FStr 1 32) (VStr "medium");
   opt "description" (FStr 1 4000); opt "service" (FStr 1 128);
   dflt "dry_run" FBool (VBool false); KEY].

Definition INPUT_MODELS : list (string * list field) :=
  [("telemetry.query_metrics", QueryMetricsInput); ("telemetry.query_logs", QueryLogsInput);
   ("telemetry.get_trace", GetTraceInput); ("service.get_health", GetHealthInput);
   ("knowledge.search", SearchInput); ("knowledge.get_runbook", GetRunbookInput);
   ("deployment.get_current_release", GetCurrentReleaseInput);
   ("remediation.simulate", SimulateInput); ("deployment.rollback", RollbackInput);
   ("ticket.create", TicketCreateInput)].

Section Parse.
Context `{Pydantic}.

Definition checked (ok : bool) (v : pyval) : option pyval := if ok then Some v else None.

Definition parse_value (t : ftype) (v : pyval) : option pyval :=
  match t with
  | FStr lo hi => match v with
                  | VStr s => checked (Field.length_in lo hi (Field.trim s)) (VStr (Field.trim s))
                  | _ => None
                  end
  | FIdent => match v with
              | VStr s => checked (Field.ident (Field.trim s)) (VStr (Field.trim s))
              | _ => None
              end
  | FInt lo hi => match as_int v with
                  | Some z => checked ((lo <=? z) && (z <=? hi))%Z (VInt z)
                  | None => None
                  end
  | FBool => VBool <$> as_bool v
  | FTime => VStr <$> as_time v
  | FLiteral l => match v with VStr s => checked (mem s l) v | _ => None end
  | FDict => match v with VDict d => Some (VDict (Field.strip_keys d)) | _ => None end
  end.

Definition parse_field (f : field) (raw : dict) : result pyval :=
  match dget (fname f) raw with
  | Some VNone => if nullable f then Ok VNone else Exn (ValidationError (fname f))
  | Some v => match parse_value (ftyp f) v with
              | Some w => Ok w
              | None => Exn (ValidationError (fname f))
              end
  | None => match fdefault f with
            | Some d => Ok d
            | None => Exn (ValidationError (fname f))
            end
  end.

Fixpoint parse_fields (fs : list field) (raw : dict) : result dict :=
  match fs with
  | [] => Ok []
  | f :: fs' =>
      let? v := parse_field f raw in
      let? rest := parse_fields fs' raw in
      Ok ((fname f, v) :: rest)
  end.

(** The model constructor, on the raw arguments as keywords. *)
Definition construct (fs : list field) (raw : dict) : result dict :=
  let? d := parse_fields fs raw in
  match List.filter (fun k => negb (mem k (map fname fs))) (dkeys raw) with
  | [] => Ok d
  | k :: _ => Exn (ValidationError k)
  end.

(** [parsed.model_dump(mode="json")] *)
Definition model_dump (d : dict) : result dict :=
  if serializable (VDict d) then Ok d else Exn (ValueError "Unable to serialize unknown type").

(** The value of a field of the constructed model. *)
Lemma parse_fields_get fs raw d f :
  NoDup (map fname fs) -> parse_fields fs raw = Ok d -> f ∈ fs ->
  exists v, parse_field f raw = Ok v /\ dget (fname f) d = Some v.
Proof.
  revert d. induction fs as [|g fs IH]; intros d Hn Hp Hf; [by apply not_elem_of_nil in Hf|].
  simpl in Hn, Hp. apply NoDup_cons in Hn as [Hni Hn].
  destruct (parse_field g raw) as [v|] eqn:Eg; [|done]. simpl in Hp.
  destruct (parse_fields fs raw) as [rest|] eqn:Er; [|done]. simpl in Hp. injection Hp as <-.
  apply elem_of_cons in Hf as [->|Hf].
  { exists v. split; [done|]. simpl. by rewrite String.eqb_refl. }
  destruct (IH rest Hn eq_refl Hf) as (u & ? & Hu). exists u. split; [done|]. simpl.
  destruct (String.eqb_spec (fname f) (fname g)) as [E|]; [|done].
  exfalso. apply Hni. rewrite <- E. by apply list_elem_of_fmap_2.
Qed.

Lemma construct_parsed fs raw d : construct fs raw = Ok d -> parse_fields fs raw = Ok d.
Proof.
  unfold construct, rbind. destruct (parse_fields fs raw); [|done].
  destruct (List.filter _ _); [done|]. done.
Qed.
End Parse.

(** A minimal reading: only the values of the right type, and whole seconds for
    instants. *)
Definition strict : Pydantic.
Proof.
  refine {|
    as_int v := match v with VInt z => Some z | _ => None end;
    as_bool v := match v with VBool b => Some b | _ => None end;
    as_time v := match v with VStr s => Some s | _ => None end;
    as_float v := match v with VFloat f => Some f | _ => None end;
    as_aware v := match v with
                    | VInt s => if (Z.abs s <=? 20000000000)%Z then Some (PyTime.mkAware (s * 1000000) 0) else None
                    | _ => None
                    end;
  |}; try done.
  intros v t. destruct v as [| |s| | | | |]; try done. destruct (Z.leb_spec (Z.abs s) 20000000000); [|done].
  intros [= <-]. unfold datetime_range, PyTime.local_time. simpl. lia.
Defined.
End McpModels.
