(* ===== verification/Runtime.v ===== *)
(** * The agent runtime

    [apps/orchestrator/runtime.py]: model routing, the budget ledger, structured
    outputs, timeouts and bounded retries, and the two runtimes.  The clock,
    [asyncio] and LiteLLM are the class [Provider]; a runtime's state is its
    ledger over that world, with a log of the attempts and pauses of retries,
    which the code does not read.

    [asyncio.CancelledError] is not an [Exception]: the handlers below name it. *)

From stdpp Require Import base list strings pretty.
From Stdlib Require Import ZArith Lia Ascii SpecFloat.
From S2P Require Import Prelude.
From S2P Require Import PyFloat.
From S2P Require Import PyValue.
From S2P Require Import Json.
From S2P Require Import Sha256.
From S2P Require Import Contracts.
From S2P Require Import ContractsRun.
From S2P Require Import Security.
From S2P Require Import McpModels.

Local Open Scope py_scope.

Class Provider (W : Type) := {
  monotonic : W -> W * float;
  sleep : float -> M W unit;
  (** [asyncio.wait_for(coro, timeout)] *)
  wait_for : forall A : Type, float -> M W A -> M W A;
  (** [cancellation.is_set()] *)
  is_set : W -> bool;
  (** [litellm.acompletion(model, messages, max_tokens)], with JSON asked for or
      not; [None] when the library is not installed *)
  acompletion : option (string -> list (string * string) -> Z -> bool -> M W pyval);
}.
Arguments wait_for {W _ A}.

Module Runtime.

(** ** Errors *)
Definition ModelTimeoutError : exn := ModelError "ModelTimeoutError" "model call timed out" true.
Definition ModelValidationError (msg : string) : exn := ModelError "ModelValidationError" msg false.
(** The budget is the code of the error. *)
Definition BudgetExceeded (msg budget : string) : exn := CodedError "BudgetExceeded" budget msg 0.
Definition CancelledError (msg : string) : exn := OtherError "CancelledError" msg.
Definition is_cancelled (e : exn) : bool := String.eqb (exn_class e) "CancelledError".

(** ** Routing *)
Inductive ModelTask : Type := FAST | REASONING | SUMMARY.
Definition task_value (t : ModelTask) : string :=
  match t with FAST => "fast" | REASONING => "reasoning" | SUMMARY => "summary" end.
Definition parse_task (s : string) : result ModelTask :=
  if String.eqb s "fast" then Ok FAST
  else if String.eqb s "reasoning" then Ok REASONING
  else if String.eqb s "summary" then Ok SUMMARY
  else Exn (ValueError (PyStr.repr s +:+ " is not a valid ModelTask")).

Record ModelRouter := mkRouter { fast_model : string; reasoning_model : string; summary_model : string }.
Definition default_router : ModelRouter := mkRouter "gpt-4o-mini" "gpt-4o" "gpt-4o-mini".
(** [task] is the text of a task or any other string. *)
Definition route (r : ModelRouter) (task : string) : result string :=
  let? t := parse_task task in
  Ok (match t with FAST => fast_model r | SUMMARY => summary_model r | REASONING => reasoning_model r end).
Definition router_from_env (getenv : string -> option string) : ModelRouter :=
  mkRouter (default "gpt-4o-mini" (getenv "FAST_MODEL"))
           (default "gpt-4o" (getenv "REASONING_MODEL"))
           (default "gpt-4o-mini" (getenv "SUMMARY_MODEL")).

(** ** Budgets *)
Record BudgetLimits := mkLimits {
  max_model_calls : Z; max_tool_calls : Z; max_input_tokens : Z; max_output_tokens : Z;
  max_cost_usd : float; max_duration_s : float; max_delegation_depth : Z }.
Definition default_limits : BudgetLimits :=
  mkLimits 10 20 60000 20000 (PyFloat.of_Z 2) (PyFloat.of_Z 600) 3.

Record BudgetSnapshot := mkSnapshot {
  model_calls : Z; tool_calls : Z; input_tokens : Z; output_tokens : Z; cost_usd : float;
  elapsed_s : float; delegation_depth : Z }.
Definition no_usage : BudgetSnapshot := mkSnapshot 0 0 0 0 PyFloat.zero PyFloat.zero 0.

Record BudgetTracker := mkTracker { limits : BudgetLimits; snap : BudgetSnapshot; start : float }.

(** The state of a runtime: the world, its ledger, and the log of retries. *)
Inductive ev : Type := Attempt | Pause (s : float).
Record RT (W : Type) := mkRT { world : W; tracker : BudgetTracker; log : list ev }.
Arguments mkRT {W} _ _ _.
Arguments world {W} _.
Arguments tracker {W} _.
Arguments log {W} _.

(** [_check] *)
Definition over (lim : BudgetLimits) (s : BudgetSnapshot) : option exn :=
  if (max_model_calls lim <? model_calls s)%Z
  then Some (BudgetExceeded ("model calls exceeded (" +:+ pretty (max_model_calls lim) +:+ ")") "max_model_calls")
  else if (max_tool_calls lim <? tool_calls s)%Z
  then Some (BudgetExceeded ("tool calls exceeded (" +:+ pretty (max_tool_calls lim) +:+ ")") "max_tool_calls")
  else if (max_input_tokens lim <? input_tokens s)%Z
  then Some (BudgetExceeded "input token budget exceeded" "max_input_tokens")
  else if (max_output_tokens lim <? output_tokens s)%Z
  then Some (BudgetExceeded "output token budget exceeded" "max_output_tokens")
  else if PyFloat.ltb (max_cost_usd lim) (cost_usd s)
  then Some (BudgetExceeded ("cost exceeded ($" +:+ PyFloat.repr (max_cost_usd lim) +:+ ")") "max_cost_usd")
  else if PyFloat.ltb (max_duration_s lim) (elapsed_s s)
  then Some (BudgetExceeded "run duration exceeded" "max_duration_s")
  else if (max_delegation_depth lim <? delegation_depth s)%Z
  then Some (BudgetExceeded "delegation depth exceeded" "max_delegation_depth")
  else None.

Definition bump_model (i o : Z) (cost : float) (s : BudgetSnapshot) : BudgetSnapshot :=
  mkSnapshot (model_calls s + 1) (tool_calls s) (input_tokens s + Z.max 0 i) (output_tokens s + Z.max 0 o)
    (PyFloat.add (cost_usd s) (PyFloat.max PyFloat.zero cost)) (elapsed_s s) (delegation_depth s).
Definition bump_tool (count : Z) (s : BudgetSnapshot) : BudgetSnapshot :=
  mkSnapshot (model_calls s) (tool_calls s + count) (input_tokens s) (output_tokens s) (cost_usd s)
    (elapsed_s s) (delegation_depth s).
Definition bump_delegation (depth : Z) (s : BudgetSnapshot) : BudgetSnapshot :=
  mkSnapshot (model_calls s) (tool_calls s) (input_tokens s) (output_tokens s) (cost_usd s)
    (elapsed_s s) (delegation_depth s + depth).

Section World.
Context {W : Type} `{Provider W}.

Definition on_world {A} (m : M W A) : M (RT W) A := fun x =>
  let '(w, r) := m (world x) in (mkRT w (tracker x) (log x), r).
Definition time : M (RT W) float :=
  on_world (fun w => let '(w', t) := monotonic w in (w', Ok t)).
Definition note (e : ev) : M (RT W) unit :=
  modify (fun x => mkRT (world x) (tracker x) (log x ++ [e])).
Definition set_snap (f : BudgetSnapshot -> BudgetSnapshot) : M (RT W) unit :=
  modify (fun x => mkRT (world x) (mkTracker (limits (tracker x)) (f (snap (tracker x))) (start (tracker x)))
                     (log x)).

Definition snapshot : M (RT W) BudgetSnapshot :=
  let* now := time in
  let* t := gets tracker in
  let s := snap t in
  ret (mkSnapshot (model_calls s) (tool_calls s) (input_tokens s) (output_tokens s) (cost_usd s)
         (PyFloat.sub now (start t)) (delegation_depth s)).
Definition check_snapshot (s : BudgetSnapshot) : M (RT W) unit :=
  let* t := gets tracker in
  match over (limits t) s with Some e => raise e | None => ret tt end.
Definition check : M (RT W) unit := let* s := snapshot in check_snapshot s.
(** The end of each [record_] method *)
Definition checked_snapshot : M (RT W) BudgetSnapshot :=
  let* s := snapshot in check_snapshot s ;;* ret s.

Definition record_model (i o : Z) (cost : float) : M (RT W) BudgetSnapshot :=
  set_snap (bump_model i o cost) ;;* checked_snapshot.
Definition record_tool (count : Z) : M (RT W) BudgetSnapshot :=
  set_snap (bump_tool count) ;;* checked_snapshot.
Definition record_delegation (depth : Z) : M (RT W) BudgetSnapshot :=
  set_snap (bump_delegation depth) ;;* checked_snapshot.

(** [BudgetTracker(limits)], started at [now] *)
Definition new_tracker (lim : BudgetLimits) (now : float) : BudgetTracker := mkTracker lim no_usage now.
End World.

Definition from_budget_dict (budget overrides : dict) (now : float) : result BudgetTracker :=
  let? mc := py_int (get_or "max_model_calls" (VInt 10) budget) in
  let? tc := py_int (get_or "max_tool_calls" (VInt 20) budget) in
  let? cost := py_float (get_or "max_cost_usd" (VFloat (PyFloat.of_Z 2)) budget) in
  let? it := py_int (get_or "max_input_tokens" (VInt 60000) overrides) in
  let? ot := py_int (get_or "max_output_tokens" (VInt 20000) overrides) in
  let? dur := py_float (get_or "max_duration_s" (VFloat (PyFloat.of_Z 600)) overrides) in
  let? depth := py_int (get_or "max_delegation_depth" (VInt 3) overrides) in
  let? cm := py_int (get_or "consumed_model_calls" (VInt 0) budget) in
  let? ct := py_int (get_or "consumed_tool_calls" (VInt 0) budget) in
  let? cc := py_float (get_or "consumed_cost_usd" (VFloat PyFloat.zero) budget) in
  Ok (mkTracker (mkLimits mc tc it ot cost dur depth) (mkSnapshot cm ct 0 0 cc PyFloat.zero 0) now).

(** ** Retries and cancellation *)
Definition NO_RETRY_TOOL_CATEGORIES : list string := ["write"; "destructive"].
Definition retry_allowed_for_tool (category : string) : bool := negb (mem category NO_RETRY_TOOL_CATEGORIES).

Definition RETRYABLE_NAMES : list string :=
  ["RateLimitError"; "APIConnectionError"; "InternalServerError"; "ServiceUnavailableError"; "Timeout";
   "ConnectError"; "ReadTimeout"].
Definition is_retryable (e : exn) : bool :=
  if mem (exn_class e) ["BudgetExceeded"; "ModelValidationError"; "CancelledError"] then false
  else match e with
       | ModelError _ _ retryable => retryable
       | _ => mem (exn_class e) RETRYABLE_NAMES || is_timeout_or_connection e
       end.

(** [min(base * 2**attempt, cap)] *)
Definition backoff (base cap : float) (attempt : Z) : result float :=
  let? p := py_float (VInt (2 ^ attempt)) in
  Ok (PyFloat.min (PyFloat.mul base p) cap).

Section Retry.
Context {W : Type} `{Provider W}.

(** [cancellation] says whether an event was passed. *)
Definition check_cancelled (cancellation : bool) : M (RT W) unit :=
  let* x := gets world in
  if cancellation && is_set x then raise (CancelledError "run cancelled") else ret tt.

Definition run_with_timeout {A} (coro : M W A) (timeout_s : float) : M (RT W) A :=
  try_catch (on_world (wait_for timeout_s coro))
    (fun e => match e with TimeoutError _ => raise ModelTimeoutError | _ => raise e end).

Section Loop.
Context {A : Type}.
Variable fn : M W A.
Variables (max_retries : Z) (timeout_s : float) (is_write cancellation : bool) (base cap : float).

(** The loop over [range(max_retries + 1)] with [n] rounds left; [last] is the
    last exception. *)
Fixpoint attempts (n : nat) (attempt : Z) (last : option exn) : M (RT W) A :=
  match n with
  | O => match last with Some e => raise e | None => raise (AssertionError "") end
  | S n' =>
      check_cancelled cancellation ;;*
      try_catch (note Attempt ;;* run_with_timeout fn timeout_s)
        (fun e =>
           if is_cancelled e then raise e
           else if is_write || negb (is_retryable e) || (attempt =? max_retries)%Z then raise e
           else
             let* pause := lift_result (backoff base cap attempt) in
             note (Pause pause) ;;*
             on_world (sleep pause) ;;*
             attempts n' (attempt + 1)%Z (Some e))
  end.
End Loop.

Definition call_with_retry {A} (fn : M W A) (max_retries : Z) (timeout_s : float)
    (is_write cancellation : bool) (base cap : float) : M (RT W) A :=
  let max_retries := if is_write then 0%Z else max_retries in
  attempts fn max_retries timeout_s is_write cancellation base cap (Z.to_nat (max_retries + 1)) 0 None.
End Retry.
End Runtime.
