(* ===== verification/Runtimes.v ===== *)
(** * The fake and the provider runtime

    The structured outputs of [apps/orchestrator/runtime.py] and its two
    implementations of [AgentRuntime].  [AgentResult] is built by the contract;
    how pydantic reads one from a provider's JSON is a parameter. *)

From stdpp Require Import base list strings pretty.
From Stdlib Require Import ZArith Lia Ascii SpecFloat.
From S2P Require Import Prelude.
From S2P Require Import PyFloat.
From S2P Require Import PyValue.
From S2P Require Import Json.
From S2P Require Import Sha256.
From S2P Require Import Contracts.
From S2P Require Import ContractsRun.
From S2P Require Import Security.
From S2P Require Import McpModels.
From S2P Require Import Runtime.

Local Open Scope py_scope.

(** ** Structured outputs *)

Module Classification.
Record t := mk { category : string; confidence : float; reasoning : string }.
Definition checks (x : t) : list (string * bool) :=
  [("category", Field.length_in 1 128 (category x));
   ("confidence", PyFloat.leb PyFloat.zero (confidence x) && PyFloat.leb (confidence x) PyFloat.one);
   ("reasoning", Field.length_in 0 2000 (reasoning x))].
#[global, refine] Instance contract : Contract t := {| strip x := x; fields := checks; rule _ := None |}.
Proof. done. Defined.
End Classification.

Module Plan.
Record t := mk { steps : list string; risks : list string }.
Definition checks (x : t) : list (string * bool) :=
  [("steps", (length (steps x) <=? 16)%nat); ("risks", (length (risks x) <=? 16)%nat)].
#[global, refine] Instance contract : Contract t := {| strip x := x; fields := checks; rule _ := None |}.
Proof. done. Defined.
End Plan.

Module Structured.
(** [extra="forbid"] *)
Definition only (ks : list string) (d : dict) : result unit :=
  match List.filter (fun k => negb (mem k ks)) (dkeys d) with
  | [] => Ok tt
  | k :: _ => Exn (ValidationError k)
  end.
Definition str_field (k : string) (missing : option string) (d : dict) : result string :=
  match dget k d, missing with
  | Some (VStr s), _ | None, Some s => Ok s
  | _, _ => Exn (ValidationError k)
  end.
Definition all_strs (l : list pyval) : option (list string) :=
  mapM (fun v => match v with VStr s => Some s | _ => None end) l.
Definition strs_field (k : string) (d : dict) : result (list string) :=
  match dget k d with
  | None => Ok []
  | Some (VList l) => match all_strs l with Some ss => Ok ss | None => Exn (ValidationError k) end
  | Some _ => Exn (ValidationError k)
  end.

Definition model_dict (v : pyval) : result dict :=
  match v with VDict d => Ok d | _ => Exn (ValidationError "input should be a valid dictionary") end.

Definition classification `{Pydantic} (v : pyval) : result Classification.t :=
  let? d := model_dict v in
  let? category := str_field "category" None d in
  let? confidence := match as_float <$> dget "confidence" d with
                     | Some (Some f) => Ok f
                     | _ => Exn (ValidationError "confidence")
                     end in
  let? reasoning := str_field "reasoning" (Some "") d in
  let? _ := only ["category"; "confidence"; "reasoning"] d in
  validate (Classification.mk category confidence reasoning).

Definition plan (v : pyval) : result Plan.t :=
  let? d := model_dict v in
  let? steps := strs_field "steps" d in
  let? risks := strs_field "risks" d in
  let? _ := only ["steps"; "risks"] d in
  validate (Plan.mk steps risks).

(** [validate_structured]: the model's verdict on the data. *)
Definition validate_structured {T} (r : result T) : result T :=
  match r with
  | Exn (ValidationError msg) =>
      Exn (Runtime.ModelValidationError ("structured validation failed: " +:+ msg))
  | _ => r
  end.
End Structured.

(** ** FakeRuntime *)

Module FakeRuntime.
Import Runtime.

Definition deterministic_seed (parts : list string) : string := Sha256.hexdigest (PyStr.join "|" parts).

Definition mentions (words : list string) (low : string) : bool :=
  existsb (fun k => PyStr.contains k low) words.

(** What the objective is classified as. *)
Definition category_of (objective : string) : string * float :=
  let low := PyStr.lower objective in
  if mentions ["error"; "latency"; "outage"; "incident"; "alert"] low
  then ("incident", PyFloat.ratio 9 10)
  else if mentions ["deploy"; "release"; "rollback"; "change"] low
  then ("change-risk", PyFloat.ratio 85 100)
  else if mentions ["cost"; "spend"; "billing"] low then ("cost", PyFloat.ratio 7 10)
  else ("general", PyFloat.ratio 6 10).
Definition classification_data (objective : string) : dict :=
  let '(cat, conf) := category_of objective in
  [("category", VStr cat); ("confidence", VFloat conf);
   ("reasoning", VStr ("fake classification (seed="
      +:+ PyStr.slice 8 (deterministic_seed [objective]) +:+ ")"))].

Definition base_steps : list string :=
  ["retrieve context (services, runbooks)"; "read-only diagnostics (metrics/logs/traces)";
   "delegate to specialist (observability) if needed"; "correlate evidence and draft findings"].
Definition plan_data (objective : string) : dict :=
  let seed := deterministic_seed [objective] in
  let steps := if Z.even (hex_int (PyStr.slice 2 seed))
               then base_steps ++ ["prepare change-review with rollback"] else base_steps in
  [("steps", VList (map VStr steps));
   ("risks", VList [VStr "incomplete telemetry"; VStr "conflicting evidence"])].

Definition synthesis (objective : string) (findings : list Finding.t) (run_id tenant_id : option string)
    : result AgentResult.t :=
  Structured.validate_structured
    (validate (AgentResult.mk run_id tenant_id ("Fake synthesis for: " +:+ PyStr.slice 200 objective)
                 findings [] [] None None)).

(** The metering of a call on [text]. *)
Definition tokens (text : string) : Z := Z.max 1 (Z.of_nat (String.length text) / 4).

Section World.
Context {W : Type} `{Provider W} `{Pydantic}.
Variable latency_s : float.

Definition tick (text : string) (cancellation : bool) : M (RT W) unit :=
  check_cancelled cancellation ;;*
  (if PyFloat.eqb latency_s PyFloat.zero then ret tt else on_world (sleep latency_s)) ;;*
  check_cancelled cancellation ;;*
  let toks := tokens text in
  record_model toks (toks / 2 + 1) (PyFloat.mul (PyFloat.of_Z toks) (PyFloat.of_decimal 1 (-6))) ;;*
  check.

Definition classify (objective : string) (cancellation : bool) : M (RT W) Classification.t :=
  tick objective cancellation ;;*
  lift_result (Structured.validate_structured (Structured.classification (VDict (classification_data objective)))).
Definition plan (objective : string) (cancellation : bool) : M (RT W) Plan.t :=
  tick objective cancellation ;;*
  lift_result (Structured.validate_structured (Structured.plan (VDict (plan_data objective)))).
Definition synthesize (objective : string) (findings : list Finding.t) (run_id tenant_id : option string)
    (cancellation : bool) : M (RT W) AgentResult.t :=
  tick objective cancellation ;;*
  lift_result (synthesis objective findings run_id tenant_id).
Definition summarize (text : string) (cancellation : bool) : M (RT W) string :=
  tick text cancellation ;;* ret (PyStr.slice 500 text).
End World.
End FakeRuntime.

(** ** ProviderRuntime *)

Module ProviderRuntime.
Import Runtime.

Record t := mk {
  router : ModelRouter; max_retries : Z; timeout_s : float;
  cost_per_1k_input : float; cost_per_1k_output : float }.
Definition defaults (getenv : string -> option string) : t :=
  mk (router_from_env getenv) 2 (PyFloat.of_Z 30) (PyFloat.ratio 1 1000) (PyFloat.ratio 2 1000).

(** [v[k]] and [v[0]] *)
Definition at_key (k : string) (v : pyval) : result pyval :=
  match v with
  | VDict d => match dget k d with Some x => Ok x | None => Exn (KeyError (PyStr.repr k)) end
  | VList _ => Exn (TypeError "list indices must be integers or slices, not str")
  | VStr _ => Exn (TypeError "string indices must be integers, not 'str'")
  | _ => Exn (TypeError ("'" +:+ type_name v +:+ "' object is not subscriptable"))
  end.
Definition at_zero (v : pyval) : result pyval :=
  match v with
  | VList (x :: _) => Ok x
  | VList [] => Exn (OtherError "IndexError" "list index out of range")
  | VStr (String c _) => Ok (VStr (String c ""))
  | VStr "" => Exn (OtherError "IndexError" "string index out of range")
  | VDict _ => Exn (KeyError "0")
  | _ => Exn (TypeError ("'" +:+ type_name v +:+ "' object is not subscriptable"))
  end.
(** [except (KeyError, IndexError, TypeError)] *)
Definition is_lookup_error (e : exn) : bool := mem (exn_class e) ["KeyError"; "IndexError"; "TypeError"].

(** The content, or the empty text, and the usage of a completion. *)
Definition payload (raw : pyval) : result (pyval * pyval) :=
  let read :=
    (let? choices := at_key "choices" raw in
     let? first := at_zero choices in
     let? message := at_key "message" first in
     let? content := at_key "content" message in
     let? d := as_dict raw in
     Ok (first_truthy [content],
         let u := get_or "usage" VNone d in if truthy u then u else VDict [])) in
  match read with
  | Exn e => Exn (if is_lookup_error e
                  then ModelValidationError ("unexpected provider payload: " +:+ exn_str e) else e)
  | Ok x => Ok x
  end.

(** [n / 1000] *)
Definition thousandths (n : Z) : result float :=
  let f := PyFloat.ratio n 1000 in
  if PyFloat.is_finite f then Ok f
  else Exn (OverflowError "integer division result too large for a float").

(** [dict(v)] *)
Fixpoint dict_of_pairs (l : list pyval) : result dict :=
  match l with
  | [] => Ok []
  | VList [VStr k; v] :: rest => let? d := dict_of_pairs rest in Ok (dupdate [(k, v)] d)
  | VStr (String a (String b "")) :: rest =>
      let? d := dict_of_pairs rest in Ok (dupdate [(String a "", VStr (String b ""))] d)
  | _ => Exn (TypeError "cannot convert dictionary update sequence element to a sequence")
  end.
Definition to_dict (v : pyval) : result dict :=
  match v with
  | VDict d => Ok d
  | VList l => dict_of_pairs l
  | _ => Exn (TypeError ("'" +:+ type_name v +:+ "' object is not iterable"))
  end.
Definition structured_payload (choice : pyval) : result pyval :=
  match (match choice with
         | VStr s => Json.loads s
         | v => let? d := to_dict v in Ok (VDict d)
         end) with
  | Ok v => Ok v
  | Exn e => Exn (ModelValidationError ("provider did not return JSON: " +:+ exn_str e))
  end.

Record ModelRequest := mkRequest {
  messages : list (string * string); task : ModelTask; max_tokens : Z; request_timeout_s : float }.
Record ModelResponse (T : Type) := mkResponse {
  text : string; structured : option T; model : string; in_tokens : Z; out_tokens : Z;
  response_cost : float; latency_ms : Z }.
Arguments mkResponse {T} _ _ _ _ _ _ _.
Arguments text {T} _.
Arguments structured {T} _.

Section World.
Context {W : Type} `{Provider W} `{Pydantic}.
Variable rt : t.

(** [_call] *)
Definition call (model : string) (r : ModelRequest) (json : bool) : M W pyval :=
  match acompletion with
  | None => raise (ModelError "ModelError"
                     "litellm is not installed; set LLM_MODE=fake or install litellm" false)
  | Some f => f model (messages r) (max_tokens r) json
  end.

(** [response] is the model of the structured answer, when one is asked for. *)
Definition complete {T} (r : ModelRequest) (response : option (pyval -> result T)) (cancellation : bool)
    : M (RT W) (ModelResponse T) :=
  check_cancelled cancellation ;;*
  check ;;*
  let* model := lift_result (route (router rt) (task_value (task r))) in
  let* started := time in
  let timeout := (if PyFloat.eqb (request_timeout_s r) PyFloat.zero then timeout_s rt
                  else request_timeout_s r) in
  let* raw := call_with_retry (call model r (match response with Some _ => true | None => false end))
                (max_retries rt) timeout false cancellation (PyFloat.ratio 2 10) (PyFloat.of_Z 4) in
  check_cancelled cancellation ;;*
  let* ended := time in
  let* latency := lift_result
    (PyFloat.to_int (PyFloat.mul (PyFloat.sub ended started) (PyFloat.of_Z 1000))) in
  let* p := lift_result (payload raw) in
  let '(choice, usage) := p in
  let guess := VInt (Z.max 1 (Z.of_nat (String.length (py_str choice)) / 4)) in
  let* u := lift_result (as_dict usage) in
  let* i := lift_result (py_int (get_or "prompt_tokens" guess u)) in
  let* o := lift_result (py_int (get_or "completion_tokens" guess u)) in
  let* fi := lift_result (thousandths i) in
  let* fo := lift_result (thousandths o) in
  let cost := PyFloat.add (PyFloat.mul fi (cost_per_1k_input rt)) (PyFloat.mul fo (cost_per_1k_output rt)) in
  record_model i o cost ;;*
  let* s := lift_result
    (match response with
     | None => Ok None
     | Some parse => let? v := structured_payload choice in
                     let? x := Structured.validate_structured (parse v) in Ok (Some x)
     end) in
  ret (mkResponse (py_str choice) s model i o cost latency).

Definition prompt (system user : string) (task : ModelTask) : ModelRequest :=
  mkRequest [("system", system); ("user", user)] task 1024 (PyFloat.of_Z 30).
(** [assert isinstance(resp.structured, ...)] *)
Definition structured_of {T} (r : ModelResponse T) : result T :=
  match structured r with Some x => Ok x | None => Exn (AssertionError "") end.

Definition classify (objective : string) (cancellation : bool) : M (RT W) Classification.t :=
  let* resp := complete
    (prompt "Classify the operations objective. Reply with JSON {category, confidence, reasoning} only."
       (PyStr.slice 4000 objective) FAST) (Some Structured.classification) cancellation in
  lift_result (structured_of resp).
Definition plan (objective : string) (cancellation : bool) : M (RT W) Plan.t :=
  let* resp := complete
    (prompt "Plan a bounded investigation. Reply with JSON {steps[], risks[]} only."
       (PyStr.slice 4000 objective) REASONING) (Some Structured.plan) cancellation in
  lift_result (structured_of resp).

Definition newline : string := String (ascii_of_nat 10) "".
(** How pydantic reads an [AgentResult] from JSON *)
Variable agent_result : pyval -> result AgentResult.t.
Definition synthesize (objective : string) (findings : list Finding.t) (cancellation : bool)
    : M (RT W) AgentResult.t :=
  let evidence := PyStr.slice 4000 (PyStr.join newline
    (map (fun f => "- " +:+ Finding.title f +:+ ": " +:+ Finding.summary f) findings)) in
  let* resp := complete
    (prompt "Synthesize a structured incident review. Reply with JSON {answer, findings[], proposed_actions[], unresolved_questions[]} only."
       ("Objective: " +:+ PyStr.slice 2000 objective +:+ newline +:+ "Evidence:" +:+ newline +:+ evidence)
       REASONING) (Some agent_result) cancellation in
  lift_result (structured_of resp).
Definition summarize (txt : string) (cancellation : bool) : M (RT W) string :=
  let* resp := complete (T:=unit) (prompt "Summarize concisely." (PyStr.slice 8000 txt) SUMMARY) None cancellation in
  ret (PyStr.slice 2000 (text resp)).
End World.

(** [runtime_from_env]: whether the fake runtime is chosen. *)
Definition fake_from_env (getenv : string -> option string) : bool :=
  String.eqb (PyStr.lower (default "fake" (getenv "LLM_MODE"))) "fake".
End ProviderRuntime.
