(* ===== verification/RuntimeProps.v ===== *)
(** * What the runtime guarantees

    Retries are bounded, paused by the schedule and never made for writes; the
    ledger accounts for what was recorded and refuses what exceeds a limit; the
    fake runtime's outputs are valid functions of its input. *)

From stdpp Require Import base list strings pretty.
From Stdlib Require Import ZArith Lia Ascii SpecFloat.
From S2P Require Import Prelude.
From S2P Require Import PyFloat.
From S2P Require Import PyValue.
From S2P Require Import Json.
From S2P Require Import Sha256.
From S2P Require Import Contracts.
From S2P Require Import Security.
From S2P Require Import McpModels.
From S2P Require Import Runtime.
From S2P Require Import Runtimes.
Import Runtime.

Local Open Scope py_scope.

(** ** Retries *)

Module RetryLemmas.
(** The log of rounds that failed and paused. *)
Definition rounds (pauses : list float) : list ev := flat_map (fun p => [Attempt; Pause p]) pauses.
Definition is_attempt (e : ev) : bool := match e with Attempt => true | Pause _ => false end.
Definition count_attempts (l : list ev) : nat := length (List.filter is_attempt l).

Lemma count_rounds pauses tail :
  count_attempts (rounds pauses ++ tail) = length pauses + count_attempts tail.
Proof.
  unfold count_attempts. induction pauses as [|p pauses IH]; [done|].
  change (rounds (p :: pauses)) with (Attempt :: Pause p :: rounds pauses). simpl. by rewrite IH.
Qed.

Lemma ltb_irrefl (x : float) : PyFloat.ltb x x = false.
Proof.
  unfold PyFloat.ltb, SFltb, SFcompare. destruct x as [[]|[]| |[] m e]; try done; rewrite Z.compare_refl.
  - by rewrite Pcompare_refl.
  - by rewrite Pcompare_refl.
Qed.

Section Retry.
Context {W A : Type} `{Provider W} (fn : M W A).
Context (limit : Z) (timeout_s : float) (is_write cancellation : bool) (base cap : float).

(** Why no attempt follows the one numbered [k] that raised [e]. *)
Definition gave_up (k : Z) (e : exn) : Prop :=
  is_cancelled e = true \/ is_write = true \/ is_retryable e = false \/ k = limit.

(** How a call ends: with the value of its last attempt; with the error of its
    last attempt, numbered [k], after which none follows (or whose pause
    overflows); or during the wait before an attempt, cancelled. *)
Definition ended (k : Z) (pauses : list float) (tail : list ev) (r : result A) : Prop :=
  match r with
  | Ok a => tail = [Attempt] /\ exists w, (wait_for timeout_s fn w).2 = Ok a
  | Exn e =>
      (tail = [Attempt] /\ exists x e0, (run_with_timeout fn timeout_s x).2 = Exn e0
         /\ ((e = e0 /\ gave_up k e0) \/ backoff base cap k = Exn e))
      \/ (tail = [] /\ ((cancellation = true /\ e = CancelledError "run cancelled")
                        \/ exists p w, last pauses = Some p /\ (sleep p w).2 = Exn e))
  end.

Lemma run_with_timeout_spec (x : RT W) :
  let '(x', r) := run_with_timeout fn timeout_s x in
  log x' = log x /\ tracker x' = tracker x
  /\ match r with Ok a => exists w, (wait_for timeout_s fn w).2 = Ok a | Exn _ => True end.
Proof.
  unfold run_with_timeout, try_catch, on_world. destruct (wait_for timeout_s fn (world x)) as [w [a|e]] eqn:E.
  - split_and!; [done..|]. exists (world x). by rewrite E.
  - by destruct e.
Qed.

(** What [attempts] does from attempt [k], with [n] rounds left. *)
Definition spec (n : nat) (k : Z) (x x' : RT W) (r : result A) : Prop :=
  exists pauses tail, log x' = log x ++ rounds pauses ++ tail
    /\ (length pauses < n)%nat /\ tracker x' = tracker x
    /\ (forall i p, pauses !! i = Some p -> backoff base cap (k + Z.of_nat i) = Ok p)
    /\ ended (k + Z.of_nat (length pauses)) pauses tail r.

Lemma spec_stop n k x x' r tail :
  log x' = log x ++ tail -> tracker x' = tracker x -> ended k [] tail r -> spec (S n) k x x' r.
Proof.
  intros Hl Ht He. exists [], tail. simpl. rewrite Z.add_0_r. split; [done|]. split; [lia|].
  split; [done|]. split; [|done]. intros i p Hp. by rewrite lookup_nil in Hp.
Qed.

Lemma spec_pause n k x x1 x' r p :
  log x1 = log x ++ [Attempt; Pause p] -> tracker x1 = tracker x -> backoff base cap k = Ok p ->
  spec n (k + 1) x1 x' r -> spec (S n) k x x' r.
Proof.
  intros Hl Ht Hb (pauses & tail & Hlog & Hlen & Htr & Hp & Hend). exists (p :: pauses), tail.
  split; [rewrite Hlog, Hl; change (rounds (p :: pauses)) with ([Attempt; Pause p] ++ rounds pauses);
          by rewrite <- !app_assoc|].
  split; [simpl; lia|]. split; [by rewrite Htr|]. split.
  - intros [|i] q; simpl; [intros [= <-]; by rewrite Z.add_0_r|]. intros Hq%Hp. rewrite <- Hq. f_equal. lia.
  - replace (k + Z.of_nat (length (p :: pauses)))%Z
      with (k + 1 + Z.of_nat (length pauses))%Z by (simpl; lia).
    unfold ended in *. destruct r as [a|o]; [done|].
    destruct Hend as [?|[-> [?|(q & w' & Hq & Hs)]]]; [by left|by right; split; [|left]|].
    right. split; [done|]. right. exists q, w'. split; [|done]. by destruct pauses.
Qed.

Lemma attempts_spec n : forall attempt last x,
  (0 < n)%nat -> (attempt + Z.of_nat n = limit + 1)%Z ->
  let '(x', r) := attempts fn limit timeout_s is_write cancellation base cap n attempt last x in
  spec n attempt x x' r.
Proof.
  induction n as [|n IH]; intros attempt last x Hn Ha; [lia|]. cbn [attempts].
  unfold bind at 1. unfold check_cancelled, bind at 1, gets. cbv beta iota.
  destruct (cancellation && is_set (world x)) eqn:Ec.
  { apply andb_true_iff in Ec as [Ec _]. apply (spec_stop n attempt x x _ []); [by rewrite app_nil_r|done|].
    right. split; [done|]. by left. }
  unfold ret at 1. unfold try_catch. unfold bind at 1. unfold note at 1, modify.
  cbv beta iota. set (x1 := mkRT _ _ _). pose proof (run_with_timeout_spec x1) as Hrun.
  destruct (run_with_timeout fn timeout_s x1) as [x2 [a|e]] eqn:Er; destruct Hrun as (Hl & Ht & Hv).
  { by apply (spec_stop n attempt x x2 _ [Attempt]). }
  assert (forall e', (e' = e /\ gave_up attempt e) \/ backoff base cap attempt = Exn e' ->
            spec (S n) attempt x x2 (Exn e')) as Hraise.
  { intros e' He'. apply (spec_stop n attempt x x2 _ [Attempt]); [done..|]. left. split; [done|].
    exists x1, e. by rewrite Er. }
  destruct (is_cancelled e) eqn:E1; [apply Hraise; left; split; [done|by left]|].
  destruct (is_write || negb (is_retryable e) || (attempt =? limit)%Z) eqn:E2.
  { apply Hraise. left. split; [done|]. right.
    apply orb_true_iff in E2 as [[?|?%negb_true_iff]%orb_true_iff|?%Z.eqb_eq]; tauto. }
  apply orb_false_iff in E2 as [_ E2%Z.eqb_neq]. unfold bind at 1, lift_result.
  destruct (backoff base cap attempt) as [p|o] eqn:Eb; [|apply Hraise; by right].
  unfold bind at 1, note, modify. unfold bind at 1, on_world. cbn [world log tracker].
  assert (forall w : W, log (mkRT w (tracker x2) (log x2 ++ [Pause p])) = log x ++ [Attempt; Pause p]) as Hlog
    by (intros w; cbn [log]; rewrite Hl; subst x1; cbn [log]; by rewrite <- app_assoc).
  destruct (sleep p (world x2)) as [w [[]|o]] eqn:Es.
  - specialize (IH (attempt + 1)%Z (Some e) (mkRT w (tracker x2) (log x2 ++ [Pause p])) ltac:(lia) ltac:(lia)).
    destruct (attempts _ _ _ _ _ _ _ n _ _ _) as [x4 r].
    by apply (spec_pause n attempt x (mkRT w (tracker x2) (log x2 ++ [Pause p])) _ _ p).
  - exists [p], []. rewrite Hlog, app_nil_r. split; [done|]. split; [simpl; lia|]. split; [done|]. split.
    + intros [|i] q; simpl; [intros [= <-]; by rewrite Z.add_0_r|by rewrite lookup_nil].
    + right. split; [done|]. right. exists p, (world x2). by rewrite Es.
Qed.
End Retry.

Lemma pause_capped base cap k p : backoff base cap k = Ok p -> PyFloat.ltb cap p = false.
Proof.
  unfold backoff. destruct (py_float _) as [f|]; simpl; [|done]. intros [= <-]. unfold PyFloat.min.
  destruct (PyFloat.ltb cap (PyFloat.mul base f)) eqn:E; [apply ltb_irrefl|done].
Qed.
End RetryLemmas.

Import RetryLemmas.

(** C22. A call with retries makes at least no and at most [max_retries + 1]
    attempts, one only when it is a write; between attempts it pauses for the
    scheduled time, never longer than the cap; it returns the value of its last
    attempt, raises the error of its last attempt when that may not be retried
    or was the last allowed, or ends in cancellation while waiting.  The ledger
    is left as it is. *)
Theorem retries_are_bounded {W A} `{Provider W} (fn : M W A) (max_retries : Z) (timeout_s : float)
    (is_write cancellation : bool) (base cap : float) (x : RT W) :
  (0 <= max_retries)%Z ->
  let limit := if is_write then 0%Z else max_retries in
  let '(x', r) := call_with_retry fn max_retries timeout_s is_write cancellation base cap x in
  tracker x' = tracker x /\
  exists pauses tail, log x' = log x ++ rounds pauses ++ tail
    /\ (Z.of_nat (count_attempts (rounds pauses ++ tail)) <= limit + 1)%Z
    /\ (forall i p, pauses !! i = Some p ->
          backoff base cap (Z.of_nat i) = Ok p /\ PyFloat.ltb cap p = false)
    /\ ended fn limit timeout_s is_write cancellation base cap (Z.of_nat (length pauses)) pauses tail r.
Proof.
  intros Hmax limit. unfold call_with_retry. fold limit.
  assert (0 <= limit)%Z as Hlim by (subst limit; destruct is_write; lia).
  pose proof (attempts_spec fn limit timeout_s is_write cancellation base cap (Z.to_nat (limit + 1)) 0 None x
    ltac:(lia) ltac:(lia)) as Hs.
  destruct (attempts _ _ _ _ _ _ _ _ _ _ x) as [x' r].
  destruct Hs as (pauses & tail & Hlog & Hlen & Ht & Hp & Hend). split; [done|].
  exists pauses, tail. split_and!; [done| | |done].
  - rewrite count_rounds. assert (count_attempts tail <= 1)%nat; [|lia].
    destruct r; simpl in Hend; naive_solver.
  - intros i p Hi%Hp. split; [done|]. by eapply pause_capped.
Qed.

(** ** The ledger *)

Module Ledger.
Inductive op : Type :=
  | Model (i o : Z) (cost : float)
  | Tool (count : Z)
  | Delegation (depth : Z).
Definition bump (e : op) : BudgetSnapshot -> BudgetSnapshot :=
  match e with
  | Model i o c => bump_model i o c
  | Tool n => bump_tool n
  | Delegation d => bump_delegation d
  end.

Section World.
Context {W : Type} `{Provider W}.

Definition record (e : op) : M (RT W) BudgetSnapshot :=
  match e with
  | Model i o c => record_model i o c
  | Tool n => record_tool n
  | Delegation d => record_delegation d
  end.
(** Records in sequence, until one raises. *)
Fixpoint records (l : list op) : M (RT W) unit :=
  match l with [] => ret tt | e :: l' => record e ;;* records l' end.

(** The snapshot at a time. *)
Definition at_time (now : float) (t : BudgetTracker) : BudgetSnapshot :=
  let s := snap t in
  mkSnapshot (model_calls s) (tool_calls s) (input_tokens s) (output_tokens s) (cost_usd s)
    (PyFloat.sub now (start t)) (delegation_depth s).

Lemma record_spec e x :
  let '(x', r) := record e x in
  tracker x' = mkTracker (limits (tracker x)) (bump e (snap (tracker x))) (start (tracker x))
  /\ exists now, let s := at_time now (tracker x') in
     r = match over (limits (tracker x)) s with Some err => Exn err | None => Ok s end.
Proof.
  assert (forall f, let '(x', r) := (set_snap f ;;* checked_snapshot) x in
    tracker x' = mkTracker (limits (tracker x)) (f (snap (tracker x))) (start (tracker x))
    /\ exists now, r = match over (limits (tracker x)) (at_time now (tracker x')) with
                       | Some err => Exn err | None => Ok (at_time now (tracker x')) end) as Hf.
  { intros f. unfold set_snap, checked_snapshot, snapshot, time, check_snapshot, on_world, bind, modify, gets.
    cbn [world tracker log]. destruct (monotonic (world x)) as [w now]. cbn.
    set (s := mkSnapshot _ _ _ _ _ _ _). destruct (over (limits (tracker x)) s) eqn:E; simpl;
      (split; [done|]; exists now; unfold at_time; cbn; fold s; by rewrite E). }
  destruct e; apply Hf.
Qed.
End World.

Fixpoint total (f : op -> Z) (l : list op) : Z := match l with [] => 0 | e :: l' => f e + total f l' end%Z.
Definition models (e : op) : Z := match e with Model _ _ _ => 1 | _ => 0 end.
Definition tools (e : op) : Z := match e with Tool n => n | _ => 0 end.
Definition inputs (e : op) : Z := match e with Model i _ _ => Z.max 0 i | _ => 0 end.
Definition outputs (e : op) : Z := match e with Model _ o _ => Z.max 0 o | _ => 0 end.
Definition depths (e : op) : Z := match e with Delegation d => d | _ => 0 end.

(** The costs that a list of records adds, one float addition after the other;
    a negative one counts as nothing. *)
Definition spend (c : float) (e : op) : float :=
  match e with Model _ _ cost => PyFloat.add c (PyFloat.max PyFloat.zero cost) | _ => c end.
Definition spent (l : list op) (c : float) : float := fold_left spend l c.

(** The counters of [s'] are those of [s] plus what [l] recorded. *)
Definition accounts (l : list op) (s s' : BudgetSnapshot) : Prop :=
  (model_calls s' = model_calls s + total models l /\ tool_calls s' = tool_calls s + total tools l
   /\ input_tokens s' = input_tokens s + total inputs l
   /\ output_tokens s' = output_tokens s + total outputs l
   /\ delegation_depth s' = delegation_depth s + total depths l)%Z
  /\ cost_usd s' = spent l (cost_usd s).

Lemma accounts_bump e l s s' : accounts l (bump e s) s' -> accounts (e :: l) s s'.
Proof. unfold accounts, spent. intros [Hz ->]. destruct e; simpl in *; (split; [lia|done]). Qed.

Definition within (lim : BudgetLimits) (s : BudgetSnapshot) : Prop :=
  (model_calls s <= max_model_calls lim /\ tool_calls s <= max_tool_calls lim
   /\ input_tokens s <= max_input_tokens lim /\ output_tokens s <= max_output_tokens lim
   /\ delegation_depth s <= max_delegation_depth lim)%Z /\ PyFloat.ltb (max_cost_usd lim) (cost_usd s) = false.

Lemma over_none lim s :
  over lim s = None <-> within lim s /\ PyFloat.ltb (max_duration_s lim) (elapsed_s s) = false.
Proof.
  unfold over, within. split.
  - repeat (case_match; [done|]). rewrite !Z.ltb_ge in *. intros _. tauto.
  - intros [[(? & ? & ? & ? & ?) Hc] Hd]. rewrite Hc, Hd.
    repeat match goal with |- context [(?a <? ?b)%Z] => rewrite (proj2 (Z.ltb_ge a b)) by lia end. done.
Qed.

Lemma over_some lim s e : over lim s = Some e -> exists msg b, e = BudgetExceeded msg b.
Proof. unfold over. intros Ho. repeat (case_match; [simplify_eq; eauto|]). done. Qed.
End Ledger.

Import Ledger.

(** C24. The ledger adds up: whatever sequence of records is made, until one
    raises, each counter is its initial value plus what was recorded (calls,
    tools, tokens and depths as integers, the cost by one float addition per
    model call), the limits and the start are kept, and after a return every counter is within
    its limit.  A record that raises does so with [BudgetExceeded], after it was
    counted, and because some counter, the cost or the duration is over; it is
    the last. *)
Theorem ledger_accounts {W} `{Provider W} (l : list op) (x : RT W) :
  l <> [] ->
  let '(x', r) := records l x in
  limits (tracker x') = limits (tracker x) /\ start (tracker x') = start (tracker x)
  /\ exists made rest, l = made ++ rest /\ accounts made (snap (tracker x)) (snap (tracker x'))
    /\ match r with
       | Ok _ => rest = [] /\ within (limits (tracker x)) (snap (tracker x'))
       | Exn e => exists msg budget now, e = BudgetExceeded msg budget
                  /\ ~ (within (limits (tracker x)) (snap (tracker x'))
                        /\ PyFloat.ltb (max_duration_s (limits (tracker x)))
                             (PyFloat.sub now (start (tracker x))) = false)
       end.
Proof.
  revert x. induction l as [|e l IH]; intros x Hl; [done|]. cbn [records]. unfold bind.
  pose proof (record_spec e x) as Hrec. destruct (record e x) as [x1 r1]. destruct Hrec as (Ht & now & Hr).
  assert (accounts [e] (snap (tracker x)) (snap (tracker x1))) as Hone.
  { apply accounts_bump. rewrite Ht. unfold accounts. simpl. split; [lia|done]. }
  assert (limits (tracker x1) = limits (tracker x) /\ start (tracker x1) = start (tracker x)) as [Hlim Hst]
    by (by rewrite Ht).
  cbv zeta in Hr. rewrite <- Hlim in Hr. destruct (over _ _) as [err|] eqn:Eo; subst r1.
  - split_and!; [done..|]. exists [e], l. split_and!; [done..|].
    destruct (over_some _ _ _ Eo) as (msg & b & ->). exists msg, b, now. split; [done|]. rewrite <- Hlim, <- Hst.
    intros Hw. by rewrite (proj2 (over_none (limits (tracker x1)) (at_time now (tracker x1))) Hw) in Eo.
  - apply over_none in Eo as [Hw _]. destruct l as [|e' l].
    { cbn [records ret]. split_and!; [done..|]. exists [e], []. split_and!; [done..|]. by rewrite <- Hlim. }
    specialize (IH x1 ltac:(done)). destruct (records (e' :: l) x1) as [x2 r2].
    destruct IH as (Hl2 & Hs2 & made & rest & -> & Hacc & Hend).
    split; [congruence|]. split; [congruence|]. exists (e :: made), rest. split; [done|].
    rewrite <- Hlim, <- Hst. split; [|done]. apply accounts_bump. by rewrite Ht in Hacc.
Qed.

(** ** The fake runtime *)

Module FakeSpec.
Import FakeRuntime.

Definition classified (objective : string) : Classification.t :=
  let '(cat, conf) := category_of objective in
  Classification.mk cat conf
    ("fake classification (seed=" +:+ PyStr.slice 8 (deterministic_seed [objective]) +:+ ")").
Definition planned (objective : string) : Plan.t :=
  Plan.mk (if Z.even (hex_int (PyStr.slice 2 (deterministic_seed [objective])))
           then base_steps ++ ["prepare change-review with rollback"] else base_steps)
    ["incomplete telemetry"; "conflicting evidence"].


Lemma app_length s t : String.length (s +:+ t) = (String.length s + String.length t)%nat.
Proof. induction s as [|c s IH]; [done|]. simpl. by rewrite IH. Qed.

Lemma classified_valid o : validate (classified o) = Ok (classified o).
Proof.
  assert (forall cat conf, Field.length_in 1 128 cat && PyFloat.leb PyFloat.zero conf && PyFloat.leb conf PyFloat.one = true ->
    let r := "fake classification (seed=" +:+ PyStr.slice 8 (deterministic_seed [o]) +:+ ")" in
    validate (Classification.mk cat conf r) = Ok (Classification.mk cat conf r)) as Hv.
  { intros cat conf Hc r. unfold validate. change (strip ?x) with x. cbn [rule Classification.contract fields].
    unfold Classification.checks. cbn [Classification.category Classification.confidence Classification.reasoning].
    rewrite <- andb_assoc in Hc. apply andb_true_iff in Hc as [Hcat Hconf].
    assert (Field.length_in 0 2000 r = true) as Hr; [|cbn [first_bad]; by rewrite Hcat, Hconf, Hr].
    subst r. pose proof (PyStr.slice_length 8 (deterministic_seed [o])) as Hs. unfold Field.length_in.
    rewrite !app_length. change (String.length "fake classification (seed=") with 26%nat.
    change (String.length ")") with 1%nat. apply andb_true_iff. split; apply Z.leb_le; lia. }
  unfold classified, category_of. cbv zeta. repeat case_match; simplify_eq; by apply Hv.
Qed.

Lemma classify_data `{Pydantic} o :
  Structured.validate_structured (Structured.classification (VDict (classification_data o))) = Ok (classified o).
Proof.
  pose proof (classified_valid o) as Hv. unfold classification_data, classified in *.
  destruct (category_of o) as [cat conf]. unfold Structured.classification, Structured.model_dict,
    Structured.str_field. cbn -[validate PyStr.slice deterministic_seed String.append].
  rewrite as_float_float. cbn -[validate PyStr.slice deterministic_seed String.append]. by rewrite Hv.
Qed.

Lemma plan_dict o : Structured.validate_structured (Structured.plan (VDict (plan_data o))) = Ok (planned o).
Proof. unfold plan_data, planned. by destruct (Z.even _). Qed.

Section Tick.
Context {W : Type} `{Provider W} (latency : float) (text : string) (cancellation : bool).

(** The ledger after a call on the text. *)
Definition metered (t : BudgetTracker) : BudgetTracker :=
  mkTracker (limits t)
    (bump_model (tokens text) (tokens text / 2 + 1)
       (PyFloat.mul (PyFloat.of_Z (tokens text)) (PyFloat.of_decimal 1 (-6))) (snap t)) (start t).

Lemma check_spec (x : RT W) :
  let '(x', r) := check x in
  tracker x' = tracker x /\ log x' = log x
  /\ match r with
     | Ok _ => within (limits (tracker x)) (snap (tracker x))
     | Exn e => exists msg b, e = BudgetExceeded msg b
     end.
Proof.
  unfold check, snapshot, time, check_snapshot, on_world, bind, gets. cbn [world tracker log].
  destruct (monotonic (world x)) as [w now]. cbn [world tracker log ret].
  destruct (over _ _) as [e|] eqn:Eo; (split; [done|]; split; [done|]).
  - by eapply over_some.
  - apply over_none in Eo as [Hw _]. exact Hw.
Qed.

Definition tick_ends (x x' : RT W) (r : result unit) : Prop :=
  log x' = log x /\
  match r with
  | Ok _ => tracker x' = metered (tracker x) /\ within (limits (tracker x')) (snap (tracker x'))
  | Exn e =>
      (tracker x' = tracker x
       /\ ((cancellation = true /\ e = CancelledError "run cancelled") \/ exists w, (sleep latency w).2 = Exn e))
      \/ (tracker x' = metered (tracker x) /\ exists msg b, e = BudgetExceeded msg b)
  end.

Lemma metering_spec (x : RT W) :
  let '(x', r) := (record_model (tokens text) (tokens text / 2 + 1)
      (PyFloat.mul (PyFloat.of_Z (tokens text)) (PyFloat.of_decimal 1 (-6))) ;;* check) x in
  log x' = log x -> tick_ends x x' r.
Proof.
  unfold bind. pose proof (record_spec (Model (tokens text) (tokens text / 2 + 1)
      (PyFloat.mul (PyFloat.of_Z (tokens text)) (PyFloat.of_decimal 1 (-6)))) x) as Hr.
  cbn [record] in Hr. destruct (record_model _ _ _ x) as [x1 r1]. destruct Hr as [Ht [now Hr]]. cbv zeta in Hr.
  change (tracker x1 = metered (tracker x)) in Ht.
  destruct (over _ _) as [e|] eqn:Eo; subst r1.
  - intros Hl. split; [done|]. right. split; [done|]. by eapply over_some.
  - pose proof (check_spec x1) as Hc. destruct (check x1) as [x2 r2]. destruct Hc as (Ht2 & Hl2 & Hc).
    intros Hl. split; [done|]. rewrite Ht2, <- Ht. destruct r2; [done|]. by right.
Qed.

(** Metering does not touch the log of retries. *)
Definition same_log (x x' : RT W) : Prop := log x' = log x.
#[local] Instance same_log_order : PreOrder same_log.
Proof. split; unfold same_log; [done|congruence]. Qed.
Lemma metering_log :
  steps same_log (record_model (tokens text) (tokens text / 2 + 1)
    (PyFloat.mul (PyFloat.of_Z (tokens text)) (PyFloat.of_decimal 1 (-6))) ;;* check).
Proof using W latency H.
  assert (steps same_log snapshot) as Hs.
  { apply (steps_bind same_log).
    - intros x. unfold time, on_world, same_log. by destruct (monotonic (world x)).
    - intros now. apply (steps_bind same_log); [apply (steps_gets same_log)|].
      intros t. apply (steps_ret same_log). }
  assert (forall s, steps same_log (check_snapshot s)) as Hc.
  { intros s. apply (steps_bind same_log); [apply (steps_gets same_log)|]. intros t. destruct (over _ _);
      [apply (steps_raise same_log)|apply (steps_ret same_log)]. }
  apply (steps_bind same_log); [|intros _; by apply (steps_bind same_log)].
  apply (steps_bind same_log); [by apply (steps_modify same_log)|]. intros _.
  apply (steps_bind same_log); [done|]. intros s.
  apply (steps_bind same_log); [done|]. intros _. apply (steps_ret same_log).
Qed.

Lemma check_cancelled_spec (x : RT W) :
  check_cancelled cancellation x = (x, Ok tt)
  \/ (cancellation = true /\ check_cancelled cancellation x = (x, Exn (CancelledError "run cancelled"))).
Proof.
  unfold check_cancelled, bind, gets. destruct cancellation; simpl; [|by left]. destruct (is_set _); auto.
Qed.

Lemma tick_spec (x : RT W) : let '(x', r) := tick latency text cancellation x in tick_ends x x' r.
Proof.
  unfold tick. unfold bind at 1.
  destruct (check_cancelled_spec x) as [->|[Hc ->]]; [|split; [done|]; left; eauto].
  unfold bind at 1. set (pause := if PyFloat.eqb latency PyFloat.zero then _ else _).
  assert (exists w r, pause x = (mkRT w (tracker x) (log x), r)
            /\ forall e, r = Exn e -> exists w', (sleep latency w').2 = Exn e) as (w & r & -> & Hr).
  { subst pause. destruct (PyFloat.eqb latency _).
    - exists (world x), (Ok tt). by destruct x.
    - unfold on_world. destruct (sleep latency (world x)) as [w r] eqn:Es. exists w, r. split; [done|].
      intros e ->. exists (world x). by rewrite Es. }
  destruct r as [[]|e]; [|split; [done|]; left; eauto].
  set (x1 := mkRT _ _ _). unfold bind at 1.
  destruct (check_cancelled_spec x1) as [->|[Hc ->]]; [|split; [done|]; left; eauto].
  cbv zeta. pose proof (metering_spec x1) as Hm. pose proof (metering_log x1) as Hl.
  destruct ((_ ;;* check) x1) as [x2 r2]. by apply Hm.
Qed.
End Tick.
End FakeSpec.

Import FakeSpec.

(** The fake runtime is a pure function of its input: every operation first
    meters the call, and then returns the same structured value for the same
    text whatever the world, the ledger or the clock are; that value always
    passes its contract.  The metering either succeeds, with exactly one model
    call and the text's tokens added to the ledger and every counter within its
    limit, or ends in cancellation (only when an event was passed) or in the
    pause's error, with nothing recorded, or in [BudgetExceeded]. *)
Theorem fake_runtime_is_deterministic {W} `{Provider W} `{Pydantic} (latency : float) (text : string)
    (cancellation : bool) (x : RT W) :
  let '(x', r) := FakeRuntime.tick latency text cancellation x in
  let returns {A} (a : A) := (x', match r with Ok _ => Ok a | Exn e => Exn e end) in
  FakeRuntime.classify latency text cancellation x = returns (classified text)
  /\ FakeRuntime.plan latency text cancellation x = returns (planned text)
  /\ FakeRuntime.summarize latency text cancellation x = returns (PyStr.slice 500 text)
  /\ validate (classified text) = Ok (classified text) /\ validate (planned text) = Ok (planned text)
  /\ tick_ends latency text cancellation x x' r.
Proof.
  pose proof (tick_spec latency text cancellation x) as Ht.
  unfold FakeRuntime.classify, FakeRuntime.plan, FakeRuntime.summarize, bind.
  rewrite classify_data, plan_dict.
  destruct (FakeRuntime.tick latency text cancellation x) as [x' [[]|e]]; cbv zeta;
    (split; [done|]; split; [done|]; split; [done|]; split; [apply classified_valid|];
     split; [|exact Ht]; unfold planned; by destruct (Z.even _)).
Qed.

(** ** Witnesses *)

(** A world that is the script of a provider: each call takes the next outcome;
    pauses and the clock do nothing. *)
Module Script.
Definition provider : Provider (list (result Z)) :=
  {| monotonic w := (w, PyFloat.zero); sleep _ := ret tt; wait_for A _ m := m; is_set _ := false;
     acompletion := None |}.
Definition next : M (list (result Z)) Z := fun w =>
  match w with r :: w' => (w', r) | [] => (w, Exn (OtherError "EOFError" "")) end.
Definition start (w : list (result Z)) : RT (list (result Z)) :=
  mkRT w (new_tracker (mkLimits 2 2 1000 1000 PyFloat.one PyFloat.one 1) PyFloat.zero) [].
Definition throttled : result Z := Exn (OtherError "RateLimitError" "").
Definition half : float := PyFloat.ratio 1 2.
End Script.

Lemma retries_are_bounded_witness :
  (0 <= 2)%Z
  /\ let x := Script.start [Script.throttled; Script.throttled; Ok 7%Z] in
     let '(x', r) := call_with_retry (H:=Script.provider) Script.next 2 PyFloat.one false false Script.half
                       PyFloat.one x in
     r = Ok 7%Z /\ log x' = [Attempt; Pause Script.half; Attempt; Pause PyFloat.one; Attempt]
     /\ tracker x' = tracker x.
Proof.
  split; [done|]. intros x.
  pose proof (retries_are_bounded (H:=Script.provider) Script.next 2 PyFloat.one false false Script.half
                PyFloat.one x ltac:(done)) as Hb.
  destruct (call_with_retry _ _ _ _ _ _ _ x) as [x' r] eqn:E. destruct Hb as [Ht _].
  subst x. vm_compute in E. injection E as <- <-. by repeat split.
Defined.

(** The second model call is within the limit of two, the third is not. *)
Lemma ledger_accounts_witness :
  let call := Model 10 5 (PyFloat.ratio 1 4) in
  let x := Script.start [] in
  let l := [call; Tool 1; call; call; Tool 1] in
  l <> [] /\ exists x' msg, records (H:=Script.provider) l x = (x', Exn (BudgetExceeded msg "max_model_calls"))
    /\ snap (tracker x') = mkSnapshot 3 1 30 15 (PyFloat.ratio 3 4) PyFloat.zero 0
    /\ limits (tracker x') = limits (tracker x).
Proof.
  intros call x l. split; [done|].
  pose proof (ledger_accounts (H:=Script.provider) l x ltac:(done)) as Hl.
  destruct (records l x) as [x' r] eqn:E. destruct Hl as [Hl _]. subst l x.
  vm_compute in E. injection E as <- <-. eexists _, _. split; [reflexivity|]. split; [reflexivity|exact Hl].
Defined.
