(* ===== verification/Correlate.v ===== *)
(** * The observability specialist: correlation

    [apps/a2a_agents/observability/agent.py], the part without state: the
    versioned inputs and outputs of the skill, the agent card, and the
    deterministic correlation. *)

From stdpp Require Import base list strings pretty.
From Stdlib Require Import ZArith Lia Ascii SpecFloat.
From S2P Require Import Prelude.
From S2P Require Import PyFloat.
From S2P Require Import PyValue.
From S2P Require Import PyTime.
From S2P Require Import Regex.
From S2P Require Import Sha256.
From S2P Require Import Contracts.
From S2P Require Import ContractsRun.
From S2P Require Import ContractsOps.
From S2P Require Import Json.
From S2P Require Import Security.
From S2P Require Import McpModels.
From S2P Require Import Runtimes.

Local Open Scope py_scope.

(** ** Inputs and outputs *)

Module TimeWindow.
Record t := mk { start : PyTime.aware; end_ : PyTime.aware }.
Definition span (x : t) : Z := PyTime.instant (end_ x) - PyTime.instant (start x).
(** [_ordered] *)
Definition ordered (x : t) : option string :=
  if (PyTime.instant (end_ x) <=? PyTime.instant (start x))%Z
  then Some "window.end must be > window.start"
  else if PyFloat.ltb (PyFloat.of_Z (30 * 24 * 3600)) (PyTime.total_seconds (span x))
  then Some "window must be <= 30 days" else None.
#[global, refine] Instance contract : Contract t := {| strip x := x; fields _ := []; rule := ordered |}.
Proof. done. Defined.
End TimeWindow.

Module CorrelateInput.
Record t := mk {
  service : string; window : TimeWindow.t; metrics_refs : list string; logs_refs : list string;
  deploy_state : option string; trace_id : option string; correlation_id : option string;
  run_id : option string; tenant_id : option string }.
Definition strip_all (x : t) : t :=
  mk (Field.trim (service x)) (strip (window x)) (map Field.trim (metrics_refs x))
     (map Field.trim (logs_refs x)) (Field.trim <$> deploy_state x) (Field.trim <$> trace_id x)
     (Field.trim <$> correlation_id x) (Field.trim <$> run_id x) (Field.trim <$> tenant_id x).
(** [_ref_caps] *)
Definition ref_caps (v : list string) : bool := forallb (Field.length_in 1 2048) v.
(** [_service_name]: the value is stripped, so that no final newline remains. *)
Definition checks (x : t) : list (string * bool) :=
  [("service", Field.ident (service x)); ("window", valid (window x));
   ("metrics_refs", (length (metrics_refs x) <=? 64)%nat && ref_caps (metrics_refs x));
   ("logs_refs", (length (logs_refs x) <=? 64)%nat && ref_caps (logs_refs x));
   ("deploy_state", Field.opt (Field.length_in 0 8000) (deploy_state x));
   ("trace_id", opt_trace (trace_id x)); ("correlation_id", opt_trace (correlation_id x));
   ("run_id", opt_trace (run_id x)); ("tenant_id", opt_trace (tenant_id x))].
#[global, refine] Instance contract : Contract t :=
  {| strip := strip_all; fields := checks; rule _ := None |}.
Proof. strip_fields strip_all. Defined.
End CorrelateInput.

Module CorrelateFinding.
Record t := mk { title : string; summary : string; evidence_refs : list string; confidence : float }.
Definition strip_all (x : t) : t :=
  mk (Field.trim (title x)) (Field.trim (summary x)) (map Field.trim (evidence_refs x)) (confidence x).
Definition checks (x : t) : list (string * bool) :=
  [("title", Field.length_in 1 256 (title x)); ("summary", Field.length_in 1 4000 (summary x));
   ("evidence_refs", AgentCard.count_in 64 (evidence_refs x));
   ("confidence", PyFloat.leb PyFloat.zero (confidence x) && PyFloat.leb (confidence x) PyFloat.one)].
#[global, refine] Instance contract : Contract t :=
  {| strip := strip_all; fields := checks; rule _ := None |}.
Proof. strip_fields strip_all. Defined.
Definition dump (x : t) : pyval :=
  VDict [("title", VStr (title x)); ("summary", VStr (summary x));
         ("evidence_refs", VList (map VStr (evidence_refs x))); ("confidence", VFloat (confidence x))].
End CorrelateFinding.

Module CorrelateOutput.
Record t := mk {
  findings : list CorrelateFinding.t; probable_cause : option string;
  unresolved_questions : list string; trace_id : option string; correlation_id : option string }.
(** [_cap_questions] *)
Definition cap_questions (v : list string) : bool := forallb (Field.length_in 1 1000) v.
Definition strip_all (x : t) : t :=
  mk (map strip (findings x)) (Field.trim <$> probable_cause x) (map Field.trim (unresolved_questions x))
     (Field.trim <$> trace_id x) (Field.trim <$> correlation_id x).
Definition checks (x : t) : list (string * bool) :=
  [("findings", (length (findings x) <=? 32)%nat && forallb valid (findings x));
   ("probable_cause", Field.opt (Field.length_in 0 2000) (probable_cause x));
   ("unresolved_questions",
     (length (unresolved_questions x) <=? 32)%nat && cap_questions (unresolved_questions x));
   ("trace_id", opt_trace (trace_id x)); ("correlation_id", opt_trace (correlation_id x))].
#[global, refine] Instance contract : Contract t :=
  {| strip := strip_all; fields := checks; rule _ := None |}.
Proof. strip_fields strip_all. Defined.
(** [model_dump(mode="json")] *)
Definition dump (x : t) : dict :=
  [("schema_version", VStr "1.0"); ("findings", VList (map CorrelateFinding.dump (findings x)));
   ("probable_cause", opt_str (probable_cause x));
   ("unresolved_questions", VList (map VStr (unresolved_questions x)));
   ("trace_id", opt_str (trace_id x)); ("correlation_id", opt_str (correlation_id x))].
End CorrelateOutput.

(** ** Reading the inputs of a task *)

Module ReadInputs.
Section Read.
Context `{Pydantic}.

Definition schema_ok (d : dict) : bool :=
  match dget "schema_version" d with None => true | v => is_str v "1.0" end.
Definition aware_field (k : string) (d : dict) : result PyTime.aware :=
  match as_aware <$> dget k d with Some (Some a) => Ok a | _ => Exn (ValidationError k) end.
Definition time_window (v : pyval) : result TimeWindow.t :=
  let? d := Structured.model_dict v in
  guard? schema_ok d else ValidationError "schema_version" ;;
  let? start := aware_field "start" d in
  let? end_ := aware_field "end" d in
  let? _ := Structured.only ["schema_version"; "start"; "end"] d in
  validate (TimeWindow.mk start end_).
Definition refs (k : string) (inputs : dict) : result (list string) := Structured.strs_field k inputs.

(** [CorrelateInput(...)] from the inputs of a request *)
Definition correlate_input (inputs : dict) (trace_id correlation_id run_id tenant_id : option string)
    : result CorrelateInput.t :=
  let? service := Structured.str_field "service" (Some "") inputs in
  let? window := time_window (get_or "window" (VDict []) inputs) in
  let? metrics_refs := refs "metrics_refs" inputs in
  let? logs_refs := refs "logs_refs" inputs in
  let? deploy_state := match get_or "deploy_state" VNone inputs with
                       | VNone => Ok None
                       | VStr s => Ok (Some s)
                       | _ => Exn (ValidationError "deploy_state")
                       end in
  validate (CorrelateInput.mk service window metrics_refs logs_refs deploy_state trace_id correlation_id
              run_id tenant_id).
End Read.
End ReadInputs.

(** ** The agent *)

Module Correlate.

Definition AGENT_NAME : string := "observability-agent".
Definition AGENT_VERSION : string := "1.0.0".
Definition SKILL_ID : string := "correlate-service-symptoms".
Definition AGENT_URL : string := "http://observability-agent:8082/a2a".

Definition ALLOWED_MCP_TOOLS : list string :=
  ["telemetry.query_metrics"; "telemetry.query_logs"; "telemetry.get_trace"; "service.get_health";
   "knowledge.search"; "knowledge.get_runbook"; "deployment.get_current_release"].
Definition FORBIDDEN_MCP_TOOLS : list string :=
  ["ticket.create"; "incident.update"; "deployment.rollback"; "feature_flag.update";
   "deployment.scale_down"; "database.failover"; "service.disable"; "remediation.simulate"].

Definition INJECTION_PATTERNS : list string :=
  ["ignore previous"; "ignore all previous"; "disregard previous"; "execute "; "run command"; "rm -rf";
   "; cat "; "exfiltrate"; "send credentials"].

Definition CARD : AgentCard.t :=
  AgentCard.mk AGENT_NAME "Correlates metrics, logs, traces, and deployment changes." AGENT_URL
    AGENT_VERSION
    [AgentSkill.mk SKILL_ID "Correlate service symptoms" "Find likely causes from telemetry evidence."
       ["application/json"] ["application/json"]]
    ["oauth2"].
Definition dump_skill (s : AgentSkill.t) : pyval :=
  VDict [("schema_version", VStr "1.0"); ("id", VStr (AgentSkill.id s)); ("name", VStr (AgentSkill.name s));
         ("description", VStr (AgentSkill.description s));
         ("input_modes", VList (map VStr (AgentSkill.input_modes s)));
         ("output_modes", VList (map VStr (AgentSkill.output_modes s)))].
Definition dump_card (c : AgentCard.t) : dict :=
  [("schema_version", VStr "1.0"); ("name", VStr (AgentCard.name c));
   ("description", VStr (AgentCard.description c)); ("url", VStr (AgentCard.url c));
   ("version", VStr (AgentCard.version c)); ("skills", VList (map dump_skill (AgentCard.skills c)));
   ("authentication", VDict [("schema_version", VStr "1.0");
                             ("schemes", VList (map VStr (AgentCard.schemes c)))])].
Definition agent_card : result dict := let? c := validate CARD in Ok (dump_card c).

(** *** Helpers *)

Definition is_lower_hex (c : ascii) : bool :=
  PyStr.is_digit c || ((97 <=? PyStr.code c) && (PyStr.code c <=? 102))%nat.
(** [re.fullmatch("[0-9a-f]{n}", s)] *)
Definition lower_hex (n : nat) (s : string) : bool :=
  (String.length s =? n)%nat && forallb is_lower_hex (PyStr.chars s).
Definition parse_traceparent (header : option string) : option string :=
  match header with
  | None => None
  | Some h =>
      if String.eqb h "" then None else
      match PyStr.split "-"%char (PyStr.strip h) with
      | [version; trace_id; parent_id; flags] =>
          if String.eqb version "00" && lower_hex 32 trace_id && lower_hex 16 parent_id && lower_hex 2 flags
          then Some trace_id else None
      | _ => None
      end
  end.

Definition assert_read_only (tool : string) : result unit :=
  if mem tool FORBIDDEN_MCP_TOOLS || negb (mem tool ALLOWED_MCP_TOOLS)
  then Exn (ValueError ("tool " +:+ PyStr.repr tool +:+ " is not an allowed read-only MCP tool"))
  else Ok tt.
Fixpoint assert_all_read_only (tools : list string) : result unit :=
  match tools with [] => Ok tt | x :: l => let? _ := assert_read_only x in assert_all_read_only l end.

Definition contains_injection (text : string) : bool :=
  let lowered := PyStr.lower text in existsb (fun p => PyStr.contains p lowered) INJECTION_PATTERNS.

Definition deterministic_confidence (service salt : string) : float :=
  let digest := Sha256.hexdigest (service +:+ ":" +:+ salt) in
  PyFloat.div (PyFloat.of_Z (hex_int (PyStr.slice 8 digest) mod 1000)) (PyFloat.of_Z 1000).

(** [[\x00-\x08\x0b\x0c\x0e-\x1f]] *)
Definition is_control (c : ascii) : bool :=
  let n := PyStr.code c in
  ((n <=? 8) || (n =? 11) || (n =? 12) || ((14 <=? n) && (n <=? 31)))%nat.
Definition sanitize_for_evidence (text : string) (limit : nat) : string :=
  PyStr.slice limit (PyStr.of_chars (List.filter (fun c => negb (is_control c)) (PyStr.chars text))).

(** *** Correlation *)

Definition c05 : float := PyFloat.ratio 5 10.
Definition c055 : float := PyFloat.ratio 55 100.
Definition c095 : float := PyFloat.ratio 95 100.
(** [(c - 0.5) * 0.06] *)
Definition jitter (c : float) : float := PyFloat.mul (PyFloat.sub c c05) (PyFloat.ratio 6 100).
(** [b + 0.2 * min(n, 2) / 2] *)
Definition base (b : float) (n : nat) : float :=
  PyFloat.add b (PyFloat.div (PyFloat.mul (PyFloat.ratio 2 10) (PyFloat.of_Z (Z.of_nat (Nat.min n 2))))
                   (PyFloat.of_Z 2)).
Definition refs_confidence (b : float) (n : nat) (c : float) : float :=
  PyFloat.round (PyFloat.min c095 (PyFloat.max PyFloat.zero (PyFloat.add (base b n) (jitter c)))) 2.
Definition deploy_confidence (c : float) : float :=
  PyFloat.max PyFloat.zero (PyFloat.min c095 (PyFloat.round (PyFloat.add c055 (jitter c)) 2)).

Section Inputs.
Variable i : CorrelateInput.t.
Let service := CorrelateInput.service i.
Let metrics := CorrelateInput.metrics_refs i.
Let logs := CorrelateInput.logs_refs i.

Definition suspicious : bool :=
  existsb contains_injection (metrics ++ logs)
  || match CorrelateInput.deploy_state i with
     | Some s => negb (String.eqb s "") && contains_injection s
     | None => false
     end.

Definition metrics_finding : result CorrelateFinding.t :=
  validate (CorrelateFinding.mk
    ("Metric anomaly in " +:+ service)
    ("Correlated " +:+ pretty (length metrics) +:+ " metric reference(s) for service " +:+ service
       +:+ " within window " +:+ PyTime.isoformat_aware (TimeWindow.start (CorrelateInput.window i))
       +:+ ".." +:+ PyTime.isoformat_aware (TimeWindow.end_ (CorrelateInput.window i))
       +:+ ". Observation only; no remediation performed.")
    (take 16 metrics)
    (refs_confidence c055 (length metrics) (deterministic_confidence service "metrics"))).

Definition logs_finding : result CorrelateFinding.t :=
  validate (CorrelateFinding.mk
    ("Log error pattern in " +:+ service)
    ("Correlated " +:+ pretty (length logs) +:+ " log reference(s) for " +:+ service
       +:+ ". Pattern suggests errors cluster in window; requires orchestrator verification against primary telemetry.")
    (take 16 logs)
    (refs_confidence c05 (length logs) (deterministic_confidence service "logs"))).

Definition deploy_finding (deploy_txt : string) : result CorrelateFinding.t :=
  validate (CorrelateFinding.mk
    ("Recent deployment correlates with symptoms in " +:+ service)
    ("Deployment state mentions a recent change overlapping the symptom window: "
       +:+ sanitize_for_evidence deploy_txt 300)
    (match metrics with m :: _ => [m] | [] => ["deploy_state"] end)
    (deploy_confidence (deterministic_confidence service "deploy"))).

(** The finding and the question that the deployment state gives. *)
Definition deploy_part : result (list CorrelateFinding.t * list string) :=
  let txt := PyStr.strip (default "" (CorrelateInput.deploy_state i)) in
  if String.eqb txt "" then Ok ([], ["deploy_state absent; cannot assess change correlation."])
  else if existsb (fun k => PyStr.contains k (PyStr.lower txt)) ["deploy"; "release"; "rollout"; "canary"]
  then let? f := deploy_finding txt in Ok ([f], [])
  else Ok ([], ["deploy_state present but contains no release marker; deployment link unclear."]).

Definition missing_refs : list string :=
  match metrics, logs with
  | [], [] => ["No telemetry refs provided for service " +:+ service
                 +:+ "; supply metrics_refs and/or logs_refs for a conclusive correlation."]
  | _, _ => []
  end.

(** [max(findings, key=...)]: the first of the best. *)
Definition better (best f : CorrelateFinding.t) : CorrelateFinding.t :=
  if PyFloat.ltb (CorrelateFinding.confidence best) (CorrelateFinding.confidence f) then f else best.
Definition probable (findings : list CorrelateFinding.t) : option string * list string :=
  match findings with
  | [] => (None, [])
  | f :: rest =>
      let best := fold_left better rest f in
      if PyFloat.leb (PyFloat.ratio 6 10) (CorrelateFinding.confidence best)
      then (Some (CorrelateFinding.title best), [])
      else (None, ["Confidence below 0.6; probable cause withheld pending more evidence."])
  end.

Definition when {A} (l : list string) (r : result A) : result (list A) :=
  match l with [] => Ok [] | _ => let? a := r in Ok [a] end.

Definition correlate_local : result CorrelateOutput.t :=
  let flagged := if suspicious
                 then ["Retrieved telemetry content contains instruction-like text; treated as untrusted data and not followed."]
                 else [] in
  let? from_metrics := when metrics metrics_finding in
  let? from_logs := when logs logs_finding in
  let? deploy := deploy_part in
  let findings := from_metrics ++ from_logs ++ deploy.1 in
  let '(cause, withheld) := probable findings in
  validate (CorrelateOutput.mk findings cause (take 32 (flagged ++ deploy.2 ++ missing_refs ++ withheld))
              (CorrelateInput.trace_id i) (CorrelateInput.correlation_id i)).
End Inputs.
End Correlate.

Example agent_card_ok : is_ok Correlate.agent_card = true.
Proof. vm_compute. reflexivity. Qed.
Example traceparent_ok :
  Correlate.parse_traceparent (Some "00-4bf92f3577b34da6a3ce929d0e0e4736-00f067aa0ba902b7-01")
  = Some "4bf92f3577b34da6a3ce929d0e0e4736".
Proof. reflexivity. Qed.
Example refs_confidence_ok : Correlate.refs_confidence Correlate.c055 1 Correlate.c05 = PyFloat.ratio 65 100.
Proof. vm_compute. reflexivity. Qed.
