(* ===== verification/Catalog.v ===== *)
(** * The tool catalog and policy

    [apps/mcp_server/catalog.py]: the metadata of every tool, the two name sets
    and the per-tool timeouts, and [apps/orchestrator/policies.py]: the two
    policy evaluators. *)

From stdpp Require Import base list strings sets.
From Stdlib Require Import ZArith Lia Ascii.
From S2P Require Import Prelude.
From S2P Require Import PyFloat.
From S2P Require Import PyValue.
From S2P Require Import PyTime.
From S2P Require Import Contracts.
From S2P Require Import ContractsRun.
From S2P Require Import ContractsOps.

Local Open Scope py_scope.

Module Catalog.
Definition TOOL_VERSION : string := "1.0.0".

Definition meta (name description : string) (category : ToolCategory.t)
    (side_effect : SideEffect.t) (idempotent : bool) (timeout_seconds : Z)
    (required_scopes : list string) (approval_required supports_dry_run : bool)
    (owner : string) : ToolMetadata.t :=
  ToolMetadata.mk name description category side_effect idempotent timeout_seconds
    required_scopes approval_required supports_dry_run owner TOOL_VERSION.

Definition TOOL_METADATA : list (string * ToolMetadata.t) :=
  [
   ("telemetry.query_metrics",
    meta "telemetry.query_metrics" "Query mock metrics for a service over a time window."
      ToolCategory.READ SideEffect.NONE true 30 ["tools.read"] false false
      "telemetry");
   ("telemetry.query_logs",
    meta "telemetry.query_logs" "Query mock logs for a service."
      ToolCategory.READ SideEffect.NONE true 30 ["tools.read"] false false
      "telemetry");
   ("telemetry.get_trace",
    meta "telemetry.get_trace" "Get a mock distributed trace by id (read-only)."
      ToolCategory.READ SideEffect.NONE true 30 ["tools.read"] false false
      "telemetry");
   ("service.get_health",
    meta "service.get_health" "Get mock health for a service."
      ToolCategory.READ SideEffect.NONE true 15 ["tools.read"] false false
      "platform");
   ("knowledge.search",
    meta "knowledge.search" "Search mock knowledge base."
      ToolCategory.READ SideEffect.NONE true 15 ["tools.read"] false false
      "knowledge");
   ("knowledge.get_runbook",
    meta "knowledge.get_runbook" "Get runbook markdown (UNTRUSTED content)."
      ToolCategory.READ SideEffect.NONE true 15 ["tools.read"] false false
      "knowledge");
   ("deployment.get_current_release",
    meta "deployment.get_current_release" "Get mock current release for a service (read-only)."
      ToolCategory.READ SideEffect.NONE true 15 ["tools.read"] false false
      "deployments");
   ("remediation.simulate",
    meta "remediation.simulate" "Dry-run simulation of a remediation action. Never executes."
      ToolCategory.ANALYSIS SideEffect.NONE true 60 ["tools.read"] false true
      "remediation");
   ("deployment.rollback",
    meta "deployment.rollback" "Mock rollback. dry_run=true default; never acts locally."
      ToolCategory.WRITE SideEffect.EXTERNAL_WRITE true 60 ["tools.write.deployment.rollback"] true true
      "deployments");
   ("ticket.create",
    meta "ticket.create" "Create a mock ops ticket (propose-only; approval-gated)."
      ToolCategory.WRITE SideEffect.EXTERNAL_WRITE false 60 ["tools.write.ticket.create"] true true
      "platform")
  ].

Definition WRITE_TOOLS : list string := ["deployment.rollback"; "ticket.create"].
Definition READ_TOOLS : list string :=
  ["telemetry.query_metrics"; "telemetry.query_logs"; "telemetry.get_trace";
   "service.get_health"; "knowledge.search"; "knowledge.get_runbook";
   "deployment.get_current_release"].

Definition TOOL_TIMEOUTS : list (string * float) :=
  map (fun kv => (kv.1, PyFloat.of_Z (ToolMetadata.timeout_seconds kv.2))) TOOL_METADATA.

Definition metadata_ok (kv : string * ToolMetadata.t) : bool :=
  match validate kv.2 with
  | Ok m => String.eqb (ToolMetadata.name m) kv.1
  | Exn _ => false
  end.
End Catalog.

(** ** Policies *)

Module Policies.
Definition POLICY_RULE_VERSION : string := "1.0".

(** The bootstrap [PolicyDecision] dataclass. *)
Record BootstrapDecision := mkBootstrap {
  b_allowed : bool; b_requires_approval : bool; b_reason : string; b_rule_version : string }.

Definition evaluate (tool_name side_effect : string) : BootstrapDecision :=
  if String.eqb side_effect "none"
  then mkBootstrap true false "read-only tool" POLICY_RULE_VERSION
  else if String.eqb side_effect "destructive"
  then mkBootstrap false false "destructive tools denied by default" POLICY_RULE_VERSION
  else mkBootstrap true true (tool_name +:+ " requires human approval") POLICY_RULE_VERSION.

Definition SENIOR_TOOLS : list string := ["deployment.rollback"; "database.failover"].
Definition DESTRUCTIVE_TOOLS : list string :=
  ["deployment.scale_down"; "database.failover"; "service.disable"].
Definition mem (x : string) (l : list string) : bool := existsb (String.eqb x) l.

(** [tenant_id is not None and resource_tenant_id is not None and they differ] *)
Definition tenant_mismatch (tenant_id resource_tenant_id : option string) : bool :=
  match tenant_id, resource_tenant_id with
  | Some a, Some b => negb (String.eqb a b)
  | _, _ => false
  end.

(** The [scopes] parameter of the source is never read. *)
Definition evaluate_action (tool_name side_effect : string)
    (tenant_id resource_tenant_id : option string) (env : string)
    (run_id trace_id correlation_id : option string) : result PolicyDecision.t :=
  let decide (allowed requires_approval : bool) (reason : string) (scopes : list string) :=
    validate (PolicyDecision.mk POLICY_RULE_VERSION allowed requires_approval reason scopes None
                tenant_id run_id trace_id correlation_id) in
  if tenant_mismatch tenant_id resource_tenant_id
  then decide false false "tenant mismatch -> deny" []
  else if String.eqb side_effect "destructive" || mem tool_name DESTRUCTIVE_TOOLS
  then decide false false "destructive tools denied by default" []
  else if String.eqb side_effect "none"
  then decide true false "read-only tool auto-allowed" []
  else if mem tool_name SENIOR_TOOLS && String.eqb env "prod"
  then decide true true (tool_name +:+ " in prod requires senior-operator approval")
         ["case.approve"; "senior-operator"]
  else decide true true (tool_name +:+ " requires human approval") ["case.approve"].
End Policies.
