(* ===== verification/Tables.v ===== *)
(** * The relational store

    The rows of [packages/persistence/models.py] as records (the surrogate
    integer keys, which no query names, are the positions of the rows), the
    constraints those models declare, and the database engine the repository
    talks to.  SQLAlchemy and the database are a parameter: class [Engine]
    lists what the repository calls, class [EngineLaws] what it relies on.

    Transactions are serial: a transaction starts from the committed tables
    and its commit publishes what it wrote.  A race with another writer shows
    as a flush that fails although the tables read show no conflict, which the
    laws allow at any flush. *)

From stdpp Require Import base list strings gmap.
From Stdlib Require Import ZArith Lia Ascii Sorted.
From S2P Require Import Prelude.
From S2P Require Import PyFloat.
From S2P Require Import PyValue.
From S2P Require Import PyTime.
From S2P Require Import Contracts.

Local Open Scope py_scope.

Module Tenant.
Record t := mk { id : string; name : string; created_at : PyTime.time }.
End Tenant.

Module Run.
Record t := mk {
  id : string; tenant_id : string; created_by : string; objective : string; status : string;
  current_state : string; budget_json : dict; idempotency_key : option string;
  trace_id : option string; correlation_id : option string; created_at : PyTime.time;
  updated_at : PyTime.time; completed_at : option PyTime.time }.
End Run.

Module RunEvent.
Record t := mk {
  event_id : string; run_id : string; tenant_id : string; sequence : Z; type : string;
  timestamp : PyTime.time; data_json : dict; trace_id : option string;
  correlation_id : option string; sensitive : bool; safe_for_ui : bool }.
End RunEvent.

Module AgentTask.
Record t := mk {
  task_id : string; run_id : string; tenant_id : string; skill_id : string; agent_name : string;
  objective : string; status : string; input_hash : string; redacted_input_json : dict;
  output_hash : option string; redacted_output_json : option dict; error_json : option dict;
  deadline : option PyTime.time; created_at : PyTime.time; updated_at : PyTime.time }.
End AgentTask.

Module ToolInvocationRow.
Record t := mk {
  invocation_id : string; run_id : string; tenant_id : string; tool_name : string;
  tool_version : string; input_hash : string; redacted_input_json : dict;
  output_hash : option string; redacted_output_json : option dict; status : string;
  authorization_decision : option string; idempotency_key : option string; dry_run : bool;
  error_json : option dict; trace_id : option string; correlation_id : option string;
  started_at : PyTime.time; completed_at : option PyTime.time }.
End ToolInvocationRow.

Module ApprovalRow.
Record t := mk {
  approval_id : string; run_id : string; tenant_id : string; action_id : string;
  requested_by : string; approver : option string; decision : string; reason : option string;
  requested_at : PyTime.time; decided_at : option PyTime.time; expires_at : option PyTime.time;
  trace_id : option string; correlation_id : option string }.
End ApprovalRow.

Module FindingRow.
Record t := mk {
  finding_id : string; run_id : string; tenant_id : string; title : string; summary : string;
  evidence_refs_json : list string; confidence : float; severity : option string;
  trace_id : option string; correlation_id : option string; created_at : PyTime.time }.
End FindingRow.

Module EvidenceRef.
Record t := mk {
  ref_id : string; run_id : string; tenant_id : string; finding_id : option string;
  kind : string; uri : string; excerpt_hash : option string; span_ref : option string }.
End EvidenceRef.

Module ModelCall.
Record t := mk {
  call_id : string; run_id : string; tenant_id : string; model : string; task_type : string;
  prompt_hash : string; input_tokens : Z; output_tokens : Z; cost_usd : float;
  duration_ms : Z; status : string; error_json : option dict; trace_id : option string;
  created_at : PyTime.time }.
End ModelCall.

Module AuditRecord.
Record t := mk {
  audit_id : string; run_id : option string; tenant_id : string; actor : string;
  action : string; decision_json : option dict; reason : option string;
  trace_id : option string; correlation_id : option string; created_at : PyTime.time }.
End AuditRecord.

(** The ten tables, each in insertion order. *)
Record Tables := mkTables {
  tenants : list Tenant.t; runs : list Run.t; run_events : list RunEvent.t;
  agent_tasks : list AgentTask.t; tool_invocations : list ToolInvocationRow.t;
  approvals : list ApprovalRow.t; findings : list FindingRow.t;
  evidence_refs : list EvidenceRef.t; model_calls : list ModelCall.t;
  audit_records : list AuditRecord.t }.

Definition no_rows : Tables := mkTables [] [] [] [] [] [] [] [] [] [].

Definition on_tenants f (t : Tables) : Tables :=
  mkTables (f (tenants t)) (runs t) (run_events t) (agent_tasks t) (tool_invocations t)
    (approvals t) (findings t) (evidence_refs t) (model_calls t) (audit_records t).
Definition on_runs f (t : Tables) : Tables :=
  mkTables (tenants t) (f (runs t)) (run_events t) (agent_tasks t) (tool_invocations t)
    (approvals t) (findings t) (evidence_refs t) (model_calls t) (audit_records t).
Definition on_events f (t : Tables) : Tables :=
  mkTables (tenants t) (runs t) (f (run_events t)) (agent_tasks t) (tool_invocations t)
    (approvals t) (findings t) (evidence_refs t) (model_calls t) (audit_records t).
Definition on_tasks f (t : Tables) : Tables :=
  mkTables (tenants t) (runs t) (run_events t) (f (agent_tasks t)) (tool_invocations t)
    (approvals t) (findings t) (evidence_refs t) (model_calls t) (audit_records t).
Definition on_tools f (t : Tables) : Tables :=
  mkTables (tenants t) (runs t) (run_events t) (agent_tasks t) (f (tool_invocations t))
    (approvals t) (findings t) (evidence_refs t) (model_calls t) (audit_records t).
Definition on_approvals f (t : Tables) : Tables :=
  mkTables (tenants t) (runs t) (run_events t) (agent_tasks t) (tool_invocations t)
    (f (approvals t)) (findings t) (evidence_refs t) (model_calls t) (audit_records t).
Definition on_findings f (t : Tables) : Tables :=
  mkTables (tenants t) (runs t) (run_events t) (agent_tasks t) (tool_invocations t)
    (approvals t) (f (findings t)) (evidence_refs t) (model_calls t) (audit_records t).
Definition on_evidence f (t : Tables) : Tables :=
  mkTables (tenants t) (runs t) (run_events t) (agent_tasks t) (tool_invocations t)
    (approvals t) (findings t) (f (evidence_refs t)) (model_calls t) (audit_records t).
Definition on_calls f (t : Tables) : Tables :=
  mkTables (tenants t) (runs t) (run_events t) (agent_tasks t) (tool_invocations t)
    (approvals t) (findings t) (evidence_refs t) (f (model_calls t)) (audit_records t).
Definition on_audit f (t : Tables) : Tables :=
  mkTables (tenants t) (runs t) (run_events t) (agent_tasks t) (tool_invocations t)
    (approvals t) (findings t) (evidence_refs t) (model_calls t) (f (audit_records t)).

(** ** Queries *)

(** [select(T).where(p)], then [.scalars().first()] *)
Definition first {A} (p : A -> bool) (l : list A) : option A := List.find p l.
(** [s.add(row)] *)
Definition add {A} (x : A) (l : list A) : list A := l ++ [x].
(** Attribute writes on the row [first] returned. *)
Fixpoint update_first {A} (p : A -> bool) (f : A -> A) (rows : list A) : list A :=
  match rows with
  | x :: rest => if p x then f x :: rest else x :: update_first p f rest
  | [] => []
  end.

(** ** Constraints *)

(** The primary keys that are domain identifiers, the [unique=True] columns and
    [uq_run_events_run_sequence].  That rows refer to existing runs is not
    assumed of the database: it is proved of the repository. *)
Record constraints (t : Tables) : Prop := {
  pk_tenants : NoDup (map Tenant.id (tenants t));
  pk_runs : NoDup (map Run.id (runs t));
  uq_event_id : NoDup (map RunEvent.event_id (run_events t));
  uq_run_sequence : NoDup (map (fun r => (RunEvent.run_id r, RunEvent.sequence r)) (run_events t));
  uq_task_id : NoDup (map AgentTask.task_id (agent_tasks t));
  uq_invocation_id : NoDup (map ToolInvocationRow.invocation_id (tool_invocations t));
  uq_approval_id : NoDup (map ApprovalRow.approval_id (approvals t));
  uq_finding_id : NoDup (map FindingRow.finding_id (findings t));
  uq_ref_id : NoDup (map EvidenceRef.ref_id (evidence_refs t));
  uq_call_id : NoDup (map ModelCall.call_id (model_calls t));
  uq_audit_id : NoDup (map AuditRecord.audit_id (audit_records t));
}.

Definition no_dup {A} `{EqDecision A} (l : list A) : bool := bool_decide (NoDup l).
Definition check_constraints (t : Tables) : bool :=
  no_dup (map Tenant.id (tenants t)) && no_dup (map Run.id (runs t))
  && no_dup (map RunEvent.event_id (run_events t))
  && no_dup (map (fun r => (RunEvent.run_id r, RunEvent.sequence r)) (run_events t))
  && no_dup (map AgentTask.task_id (agent_tasks t))
  && no_dup (map ToolInvocationRow.invocation_id (tool_invocations t))
  && no_dup (map ApprovalRow.approval_id (approvals t))
  && no_dup (map FindingRow.finding_id (findings t))
  && no_dup (map EvidenceRef.ref_id (evidence_refs t))
  && no_dup (map ModelCall.call_id (model_calls t))
  && no_dup (map AuditRecord.audit_id (audit_records t)).

Lemma check_constraints_spec t : check_constraints t = true <-> constraints t.
Proof.
  unfold check_constraints, no_dup. rewrite !andb_true_iff, !bool_decide_eq_true. split.
  - intros ((((((((((? & ?) & ?) & ?) & ?) & ?) & ?) & ?) & ?) & ?) & ?). by constructor.
  - by intros [].
Qed.

Lemma no_rows_constraints : constraints no_rows.
Proof. constructor; constructor. Qed.

(** ** The engine *)

Definition RepositoryError (m : string) : exn := OtherError "RepositoryError" m.
Definition NotFoundError (m : string) : exn := OtherError "NotFoundError" m.
Definition ConflictError (m : string) : exn := OtherError "ConflictError" m.

(** [except IntegrityError] *)
Definition is_integrity_error (e : exn) : bool := String.eqb (exn_class e) "IntegrityError".

(** Exceptions of the repository and of the contracts, which no engine raises. *)
Definition repo_error (e : exn) : bool :=
  existsb (String.eqb (exn_class e))
    ["RepositoryError"; "NotFoundError"; "ConflictError"; "ValidationError"; "ValueError"].

(** What the repository calls of SQLAlchemy's [Session], of [uuid] and of the
    clock.  [committed] is what a new session reads and [pending] what the
    open one does; [active] is false between a failed flush and the next
    rollback.  [flush f] stands for attribute writes and [add]s, whose effect
    on the rows is [f], followed by [s.flush()]. *)
Class Engine (W : Type) := {
  committed : W -> Tables;
  pending : W -> Tables;
  active : W -> bool;
  begin : M W unit;
  flush : (Tables -> Tables) -> M W unit;
  commit : M W unit;
  rollback : M W unit;
  close : M W unit;
  order_by : forall A : Type, (A -> Z) -> list A -> list A;
  now : M W PyTime.time;
  uuid4_hex : M W string;
}.
Arguments order_by {W _ A}.

(** A call that touches neither the rows nor the session. *)
Definition observes {W} `{Engine W} {A} (m : M W A) : Prop :=
  forall w, exists w' a, m w = (w', Ok a) /\ committed w' = committed w
    /\ pending w' = pending w /\ active w' = active w.

Class EngineLaws (W : Type) `{Engine W} := {
  begin_law w : exists w', begin w = (w', Ok tt) /\ committed w' = committed w
    /\ pending w' = committed w /\ active w' = true;
  (** A flush writes rows that satisfy the constraints, or raises. *)
  flush_law f w : active w = true ->
    match flush f w with
    | (w', Ok _) => pending w' = f (pending w) /\ constraints (pending w')
                    /\ committed w' = committed w /\ active w' = true
    | (w', Exn e) => committed w' = committed w /\ active w' = false /\ repo_error e = false
    end;
  (** A commit publishes what was flushed, or raises; after a failed flush it
      raises ([PendingRollbackError]). *)
  commit_law w :
    match commit w with
    | (w', Ok _) => committed w' = pending w /\ active w = true
    | (w', Exn e) => committed w' = committed w /\ repo_error e = false
    end;
  rollback_law w : exists w', rollback w = (w', Ok tt) /\ committed w' = committed w
    /\ pending w' = committed w /\ active w' = true;
  close_law w : exists w', close w = (w', Ok tt) /\ committed w' = committed w;
  now_law : observes now;
  uuid_law : observes uuid4_hex;
  order_by_perm {A} (key : A -> Z) l : order_by key l ≡ₚ l;
  order_by_sorted {A} (key : A -> Z) l :
    StronglySorted (fun x y => (key x <= key y)%Z) (order_by key l);
}.

(** On an engine without races or outages a flush that keeps the constraints
    succeeds, and so does a commit that no failed flush precedes. *)
Class QuietEngine (W : Type) `{Engine W} := {
  flush_quiet f w : active w = true -> constraints (f (pending w)) ->
    exists w', flush f w = (w', Ok tt);
  commit_quiet w : active w = true -> exists w', commit w = (w', Ok tt);
}.

Section Engine.
Context {W : Type} `{Engine W}.

(** [SqlAlchemyRepository.transaction] *)
Definition transaction {A} (body : M W A) : M W A :=
  begin ;;*
  try_finally
    (try_catch (let* a := body in commit ;;* ret a) (fun e => rollback ;;* raise e))
    close.

(** [with self._session() as s] *)
Definition session {A} (body : M W A) : M W A := begin ;;* try_finally body close.

Definition rows {A} (q : Tables -> A) : M W A := gets (fun w => q (pending w)).

(** [f"{prefix}_{uuid.uuid4().hex[:12]}"] *)
Definition new_id (prefix : string) : M W string :=
  let* hex := uuid4_hex in ret (prefix +:+ "_" +:+ PyStr.slice 12 hex).
End Engine.

(** *** Rules *)

Section Rules.
Context {W : Type} `{EngineLaws W}.
Implicit Types w : W.

Lemma wp_observes {A} (m : M W A) Q E w :
  observes m ->
  (forall a w', committed w' = committed w -> pending w' = pending w -> active w' = active w ->
     Q a w') -> wp m Q E w.
Proof. intros Ho HQ. destruct (Ho w) as (w' & a & Hm & ? & ? & ?). unfold wp. rewrite Hm. auto. Qed.

Lemma wp_flush f Q E w :
  active w = true ->
  (forall w', pending w' = f (pending w) -> constraints (f (pending w)) ->
     committed w' = committed w -> active w' = true -> Q tt w') ->
  (forall e w', repo_error e = false -> committed w' = committed w -> active w' = false ->
     E e w') ->
  wp (flush f) Q E w.
Proof.
  intros Ha HQ HE. pose proof (flush_law f w Ha) as Hf. unfold wp.
  destruct (flush f w) as [w' [[]|e]].
  - destruct Hf as (Hp & Hc & ? & ?). rewrite Hp in Hc. auto.
  - destruct Hf as (? & ? & ?). auto.
Qed.

Lemma wp_try_finally {A} (m : M W A) Q E w :
  wp m (fun a w1 => forall w', committed w' = committed w1 -> Q a w')
       (fun e w1 => forall w', committed w' = committed w1 -> E e w') w ->
  wp (try_finally m close) Q E w.
Proof.
  unfold wp, try_finally. destruct (m w) as [w1 [a|e]]; intros Hm;
    destruct (close_law w1) as (w2 & -> & ?); auto.
Qed.

Lemma wp_begin Q E w :
  (forall w', committed w' = committed w -> pending w' = committed w -> active w' = true ->
     Q tt w') -> wp begin Q E w.
Proof. intros HQ. unfold wp. destruct (begin_law w) as (w' & -> & ? & ? & ?). auto. Qed.

Lemma wp_rollback Q E w :
  (forall w', committed w' = committed w -> pending w' = committed w -> active w' = true ->
     Q tt w') -> wp rollback Q E w.
Proof. intros HQ. unfold wp. destruct (rollback_law w) as (w' & -> & ? & ? & ?). auto. Qed.

(** What a transaction leaves committed: what its body wrote when the body
    returns and the commit passes, the tables as they were otherwise. *)
Lemma wp_transaction {A} (body : M W A) Q E w :
  (forall w1, committed w1 = committed w -> pending w1 = committed w -> active w1 = true ->
     wp body (fun a w2 => committed w2 = committed w /\
                          (active w2 = true -> forall w', committed w' = pending w2 -> Q a w'))
             (fun e w2 => committed w2 = committed w /\
                          forall w', committed w' = committed w -> E e w') w1) ->
  (forall e w', repo_error e = false -> committed w' = committed w -> E e w') ->
  wp (transaction body) Q E w.
Proof.
  intros Hb HE. unfold transaction. apply wp_bind, wp_begin. intros w1 Hc1 Hp1 Ha1.
  apply wp_try_finally, wp_try, wp_bind. eapply wp_mono; [by apply Hb| |].
  - intros a w2 [Hc2 HQ]. apply wp_bind. unfold wp at 1.
    pose proof (commit_law w2) as Hl. destruct (commit w2) as [w3 [[]|e]].
    + destruct Hl as [Hc3 Ha2]. apply wp_ret. intros w4 Hc4. apply HQ; congruence.
    + destruct Hl as [Hc3 He]. apply wp_bind. unfold wp at 1.
      destruct (rollback_law w3) as (w4 & -> & Hc4 & _). apply wp_raise.
      intros w5 Hc5. apply HE; congruence.
  - intros e w2 [Hc2 HEe]. apply wp_bind. unfold wp at 1.
    destruct (rollback_law w2) as (w4 & -> & Hc4 & _). apply wp_raise.
    intros w5 Hc5. apply HEe. congruence.
Qed.

Lemma wp_session {A} (body : M W A) Q E w :
  (forall w1, committed w1 = committed w -> pending w1 = committed w -> active w1 = true ->
     wp body (fun a w2 => forall w', committed w' = committed w2 -> Q a w')
             (fun e w2 => forall w', committed w' = committed w2 -> E e w') w1) ->
  wp (session body) Q E w.
Proof. intros Hb. unfold session. apply wp_bind, wp_begin. intros. apply wp_try_finally. auto. Qed.

Lemma wp_rows {A} (q : Tables -> A) Q E w : Q (q (pending w)) w -> wp (rows q) Q E w.
Proof. done. Qed.

(** *** Rules of a quiet engine *)
Lemma wp_flush_quiet `{!QuietEngine W} f Q E w :
  active w = true -> constraints (f (pending w)) ->
  (forall w', pending w' = f (pending w) -> committed w' = committed w -> active w' = true ->
     Q tt w') -> wp (flush f) Q E w.
Proof.
  intros Ha Hc HQ. pose proof (flush_law f w Ha) as Hf. unfold wp.
  destruct (flush_quiet f w Ha Hc) as [w' E']. rewrite E' in Hf |- *.
  destruct Hf as (? & ? & ? & ?). auto.
Qed.

Lemma wp_transaction_quiet `{!QuietEngine W} {A} (body : M W A) Q E w :
  (forall w1, committed w1 = committed w -> pending w1 = committed w -> active w1 = true ->
     wp body (fun a w2 => active w2 = true /\
                          forall w', committed w' = pending w2 -> Q a w')
             (fun e w2 => committed w2 = committed w /\
                          forall w', committed w' = committed w -> E e w') w1) ->
  wp (transaction body) Q E w.
Proof.
  intros Hb. unfold transaction. apply wp_bind, wp_begin. intros w1 Hc1 Hp1 Ha1.
  apply wp_try_finally, wp_try, wp_bind. eapply wp_mono; [by apply Hb| |].
  - intros a w2 [Ha2 HQ]. apply wp_bind. unfold wp at 1.
    pose proof (commit_law w2) as Hl. destruct (commit_quiet w2 Ha2) as [w3 E3].
    rewrite E3 in Hl |- *. destruct Hl as [Hc3 _]. apply wp_ret. intros w4 Hc4.
    apply HQ. congruence.
  - intros e w2 [Hc2 HEe]. apply wp_bind. unfold wp at 1.
    destruct (rollback_law w2) as (w4 & -> & Hc4 & _). apply wp_raise.
    intros w5 Hc5. apply HEe. congruence.
Qed.

Lemma new_id_observes prefix : observes (new_id prefix).
Proof.
  intros w. unfold new_id, bind. destruct (uuid_law w) as (w' & hex & -> & ?).
  by eexists _, _.
Qed.
End Rules.
