(* ===== verification/Repository.v ===== *)
(** * The repository

    Every public method of [SqlAlchemyRepository]
    ([packages/persistence/repositories.py]) over an [Engine], in the source's
    order of reads, checks, writes and conversions.  The redaction hook is a
    parameter, as in the constructor; [default_hook] is the source's default. *)

From stdpp Require Import base list strings gmap pretty.
From Stdlib Require Import ZArith Lia Ascii.
From S2P Require Import Prelude.
From S2P Require Import PyFloat.
From S2P Require Import PyValue.
From S2P Require Import PyTime.
From S2P Require Import Contracts.
From S2P Require Import ContractsOps.
From S2P Require Import Redaction.
From S2P Require Import Tables.

Local Open Scope py_scope.

Module Repository.

(** [redact=default_redact], on the dictionaries the methods give it *)
Definition default_hook (d : dict) : dict :=
  match Redact.default_redact (VDict d) with VDict d' => d' | _ => [] end.

(** [bool(s)] of an optional string, and [x or y] *)
Definition given (o : option string) : bool :=
  match o with Some s => negb (String.eqb s "") | None => false end.
(** [dict(d) if d else None] *)
Definition dict_or_none (d : option dict) : option dict :=
  match d with Some [] | None => None | Some d => Some d end.

(** *** Rows to contracts *)

Definition enum {E} (cls s : string) (parse : option E) : result E :=
  match parse with
  | Some e => Ok e
  | None => Exn (ValueError (PyStr.repr s +:+ " is not a valid " +:+ cls))
  end.

Definition row_to_event (r : RunEvent.t) : result AgentEvent.t :=
  let? type := enum "EventType" (RunEvent.type r) (EventType.parse (RunEvent.type r)) in
  validate (AgentEvent.mk (RunEvent.event_id r) (RunEvent.run_id r) (RunEvent.tenant_id r)
    (RunEvent.sequence r) type (RunEvent.timestamp r) (RunEvent.data_json r)
    (RunEvent.trace_id r) (RunEvent.correlation_id r) (RunEvent.sensitive r)
    (RunEvent.safe_for_ui r)).

Definition row_to_approval (r : ApprovalRow.t) : result Approval.t :=
  let? decision := enum "ApprovalDecision" (ApprovalRow.decision r)
                     (ApprovalDecision.parse (ApprovalRow.decision r)) in
  validate (Approval.mk (ApprovalRow.approval_id r) (ApprovalRow.run_id r)
    (ApprovalRow.tenant_id r) (ApprovalRow.action_id r) (ApprovalRow.requested_by r)
    (ApprovalRow.approver r) decision (ApprovalRow.reason r) (ApprovalRow.requested_at r)
    (ApprovalRow.decided_at r) (ApprovalRow.expires_at r) (ApprovalRow.trace_id r)
    (ApprovalRow.correlation_id r)).

Definition row_to_tool_invocation (r : ToolInvocationRow.t) : result ToolInvocation.t :=
  let? status := enum "ToolInvocationStatus" (ToolInvocationRow.status r)
                   (ToolInvocationStatus.parse (ToolInvocationRow.status r)) in
  let? authorization :=
    match ToolInvocationRow.authorization_decision r with
    | Some s => if String.eqb s "" then Ok None
                else let? a := enum "AuthorizationDecision" s (AuthorizationDecision.parse s) in
                     Ok (Some a)
    | None => Ok None
    end in
  validate (ToolInvocation.mk (ToolInvocationRow.invocation_id r) (ToolInvocationRow.run_id r)
    (ToolInvocationRow.tenant_id r) (ToolInvocationRow.tool_name r)
    (ToolInvocationRow.tool_version r) (ToolInvocationRow.input_hash r)
    (ToolInvocationRow.redacted_input_json r) (ToolInvocationRow.output_hash r) status
    authorization (ToolInvocationRow.idempotency_key r) (ToolInvocationRow.dry_run r)
    (ToolInvocationRow.started_at r) (ToolInvocationRow.completed_at r)
    (ToolInvocationRow.trace_id r) (ToolInvocationRow.correlation_id r)
    (dict_or_none (ToolInvocationRow.error_json r))).

(** *** Lookups *)

Definition get_tenant (id : string) (t : Tables) : option Tenant.t :=
  first (fun x => String.eqb (Tenant.id x) id) (tenants t).
Definition get_run_by_id (id : string) (t : Tables) : option Run.t :=
  first (fun x => String.eqb (Run.id x) id) (runs t).
Definition by_event_id (id : string) (t : Tables) : option RunEvent.t :=
  first (fun x => String.eqb (RunEvent.event_id x) id) (run_events t).
Definition by_approval_id (id : string) (t : Tables) : option ApprovalRow.t :=
  first (fun x => String.eqb (ApprovalRow.approval_id x) id) (approvals t).
Definition by_invocation_id (id : string) (t : Tables) : option ToolInvocationRow.t :=
  first (fun x => String.eqb (ToolInvocationRow.invocation_id x) id) (tool_invocations t).
Definition by_task_id (id : string) (t : Tables) : option AgentTask.t :=
  first (fun x => String.eqb (AgentTask.task_id x) id) (agent_tasks t).

(** [select(func.coalesce(func.max(RunEvent.sequence), -1))], plus one *)
Definition next_of (run_id : string) (t : Tables) : Z :=
  (fold_left Z.max
     (map RunEvent.sequence (List.filter (fun e => String.eqb (RunEvent.run_id e) run_id)
                               (run_events t))) (-1) + 1)%Z.

Definition events_after (run_id : string) (after : Z) (t : Tables) : list RunEvent.t :=
  List.filter (fun e => String.eqb (RunEvent.run_id e) run_id
                        && (after <? RunEvent.sequence e)%Z) (run_events t).

(** The test [run is None or run.tenant_id != tenant_id] of the methods. *)
Definition owned (run_id tenant_id : string) (t : Tables) : bool :=
  match get_run_by_id run_id t with
  | Some r => String.eqb (Run.tenant_id r) tenant_id
  | None => false
  end.

Definition run_missing (run_id : string) : exn := NotFoundError ("run " +:+ run_id +:+ " not found").

Section Methods.
Context {W : Type} `{Engine W}.
Variable redact : dict -> dict.

Definition check_run (run_id tenant_id : string) : M W unit :=
  let* ok := rows (owned run_id tenant_id) in
  if ok : bool then ret tt else raise (run_missing run_id).

(** Raise when a row with this identifier exists. *)
Definition refuse_existing {A} (q : Tables -> option A) (msg : string) : M W unit :=
  let* dup := rows q in
  match dup with Some _ => raise (ConflictError msg) | None => ret tt end.

(** ** Tenants and runs *)

Definition ensure_tenant (tenant_id name : string) : M W unit :=
  transaction (
    let* found := rows (get_tenant tenant_id) in
    match found with
    | Some _ => ret tt
    | None =>
        let* created := now in
        flush (on_tenants (add (Tenant.mk tenant_id
          (if String.eqb name "" then tenant_id else name) created)))
    end).

Definition ensure_tenant_in (tenant_id : string) : M W unit :=
  let* found := rows (get_tenant tenant_id) in
  match found with
  | Some _ => ret tt
  | None =>
      let* created := now in
      flush (on_tenants (add (Tenant.mk tenant_id tenant_id created)))
  end.

Definition get_run_row (run_id tenant_id : string) : M W Run.t :=
  let* row := rows (get_run_by_id run_id) in
  match row with
  | Some r => if String.eqb (Run.tenant_id r) tenant_id then ret r else raise (run_missing run_id)
  | None => raise (run_missing run_id)
  end.

Definition run_with_key (tenant_id : string) (idempotency_key : option string) (t : Tables)
    : option Run.t :=
  if given idempotency_key then
    first (fun r => String.eqb (Run.tenant_id r) tenant_id
                    && bool_decide (Run.idempotency_key r = idempotency_key)) (runs t)
  else None.

Definition create_run (run_id tenant_id created_by objective : string) (budget : dict)
    (current_state : string) (trace_id correlation_id idempotency_key : option string)
    : M W Run.t :=
  transaction (
    ensure_tenant_in tenant_id ;;*
    let* existing := rows (run_with_key tenant_id idempotency_key) in
    match existing with
    | Some r => ret r
    | None =>
        refuse_existing (get_run_by_id run_id) ("run " +:+ run_id +:+ " already exists") ;;*
        let* created_at := now in
        let* updated_at := now in
        let row := Run.mk run_id tenant_id created_by objective "created" current_state budget
                     idempotency_key trace_id correlation_id created_at updated_at None in
        flush (on_runs (add row)) ;;*
        ret row
    end).

Definition get_run (run_id tenant_id : string) : M W Run.t :=
  session (get_run_row run_id tenant_id).

(** The keyword arguments of [update_run]. *)
Inductive run_field : Type :=
  | F_status (v : string)
  | F_current_state (v : string)
  | F_budget_json (v : dict)
  | F_completed_at (v : option PyTime.time)
  | F_trace_id (v : option string)
  | F_correlation_id (v : option string)
  | F_objective (v : string)
  | F_other (name : string).

Definition field_name (f : run_field) : string :=
  match f with
  | F_status _ => "status" | F_current_state _ => "current_state"
  | F_budget_json _ => "budget_json" | F_completed_at _ => "completed_at"
  | F_trace_id _ => "trace_id" | F_correlation_id _ => "correlation_id"
  | F_objective _ => "objective" | F_other n => n
  end.
Definition allowed : list string :=
  ["status"; "current_state"; "budget_json"; "completed_at"; "trace_id"; "correlation_id";
   "objective"].

(** [setattr(row, k, v)] *)
Definition set_field (f : run_field) (r : Run.t) : Run.t :=
  let '(Run.mk id ten by_ obj st cur bud idem tr co cr up done) := r in
  match f with
  | F_status v => Run.mk id ten by_ obj v cur bud idem tr co cr up done
  | F_current_state v => Run.mk id ten by_ obj st v bud idem tr co cr up done
  | F_budget_json v => Run.mk id ten by_ obj st cur v idem tr co cr up done
  | F_completed_at v => Run.mk id ten by_ obj st cur bud idem tr co cr up v
  | F_trace_id v => Run.mk id ten by_ obj st cur bud idem v co cr up done
  | F_correlation_id v => Run.mk id ten by_ obj st cur bud idem tr v cr up done
  | F_objective v => Run.mk id ten by_ v st cur bud idem tr co cr up done
  | F_other _ => r
  end.
Definition touch (up : PyTime.time) (r : Run.t) : Run.t :=
  let '(Run.mk id ten by_ obj st cur bud idem tr co cr _ done) := r in
  Run.mk id ten by_ obj st cur bud idem tr co cr up done.
Definition set_fields (fields : list run_field) (up : PyTime.time) (r : Run.t) : Run.t :=
  touch up (fold_left (fun r f => set_field f r) fields r).

Definition unknown_fields (fields : list run_field) : list string :=
  List.filter (fun n => negb (existsb (String.eqb n) allowed)) (map field_name fields).

Definition update_run (run_id tenant_id : string) (fields : list run_field) : M W Run.t :=
  match unknown_fields fields with
  | _ :: _ as unknown =>
      raise (RepositoryError ("cannot update fields: " +:+ py_repr (VList (map VStr
        (map fst (sorted_items (map (fun n => (n, tt)) unknown)))))))
  | [] =>
      transaction (
        let* row := get_run_row run_id tenant_id in
        let* up := now in
        flush (on_runs (update_first (fun r => String.eqb (Run.id r) run_id)
                          (set_fields fields up))) ;;*
        ret (set_fields fields up row))
  end.

(** ** Events *)

Definition next_sequence (run_id : string) : M W Z := session (rows (next_of run_id)).
Definition next_sequence_in (run_id : string) : M W Z := rows (next_of run_id).

Definition sensitive_ui : exn := RepositoryError "sensitive events must not be safe_for_ui".

Definition event_row (e : AgentEvent.t) : RunEvent.t :=
  RunEvent.mk (AgentEvent.event_id e) (AgentEvent.run_id e) (AgentEvent.tenant_id e)
    (AgentEvent.sequence e) (EventType.value (AgentEvent.type e)) (AgentEvent.timestamp e)
    (AgentEvent.data e) (AgentEvent.trace_id e) (AgentEvent.correlation_id e)
    (AgentEvent.sensitive e) (AgentEvent.safe_for_ui e).

Definition append_event (event : AgentEvent.t) : M W AgentEvent.t :=
  if AgentEvent.sensitive event && AgentEvent.safe_for_ui event then raise sensitive_ui
  else transaction (
    check_run (AgentEvent.run_id event) (AgentEvent.tenant_id event) ;;*
    let* dup := rows (by_event_id (AgentEvent.event_id event)) in
    match dup with
    | Some r => lift_result (row_to_event r)
    | None =>
        try_catch (flush (on_events (add (event_row event))))
          (fun e => if is_integrity_error e
                    then rollback ;;* raise (ConflictError ("event sequence conflict run="
                           +:+ AgentEvent.run_id event +:+ " seq="
                           +:+ pretty (AgentEvent.sequence event)))
                    else raise e) ;;*
        ret event
    end).

(** [type.value if isinstance(type, EventType) else str(type)] *)
Definition type_text (type : EventType.t + string) : string :=
  match type with inl t => EventType.value t | inr s => s end.

(** One round of the retry loop; [None] stands for [continue]. *)
Definition append_attempt (run_id tenant_id : string) (type : EventType.t + string)
    (redacted_data : dict) (event_id trace_id correlation_id : option string)
    (sensitive safe_for_ui : bool) : M W (option AgentEvent.t) :=
  transaction (
    check_run run_id tenant_id ;;*
    let* eid := (if given event_id then ret (default "" event_id) else new_id "evt") in
    let* dup := rows (by_event_id eid) in
    match dup with
    | Some r => let* ev := lift_result (row_to_event r) in ret (Some ev)
    | None =>
        let* seq := next_sequence_in run_id in
        let* timestamp := now in
        let row := RunEvent.mk eid run_id tenant_id seq (type_text type) timestamp redacted_data
                     trace_id correlation_id sensitive safe_for_ui in
        let* written := try_catch (flush (on_events (add row)) ;;* ret true)
                          (fun e => if is_integrity_error e then ret false else raise e) in
        if written : bool then let* ev := lift_result (row_to_event row) in ret (Some ev)
        else ret None
    end).

Fixpoint append_retry (n : nat) (attempt : M W (option AgentEvent.t)) (run_id : string)
    : M W AgentEvent.t :=
  match n with
  | O => raise (ConflictError ("could not assign event sequence for run " +:+ run_id))
  | S n' => let* r := attempt in
            match r with Some ev => ret ev | None => append_retry n' attempt run_id end
  end.

Definition append_next_event (run_id tenant_id : string) (type : EventType.t + string)
    (data : dict) (event_id trace_id correlation_id : option string)
    (sensitive safe_for_ui : bool) : M W AgentEvent.t :=
  if sensitive && safe_for_ui then raise sensitive_ui
  else append_retry 4
         (append_attempt run_id tenant_id type (redact data) event_id trace_id correlation_id
            sensitive safe_for_ui) run_id.

Definition list_events (run_id tenant_id : string) (after_sequence limit : Z)
    : M W (list AgentEvent.t) :=
  if ((limit <? 1) || (5000 <? limit))%Z then raise (RepositoryError "limit must be 1..5000")
  else session (
    check_run run_id tenant_id ;;*
    let* page := rows (fun t => take (Z.to_nat limit)
                   (order_by RunEvent.sequence (events_after run_id after_sequence t))) in
    lift_result (map_result row_to_event page)).

(** ** Approvals *)

Definition approval_row (a : Approval.t) : ApprovalRow.t :=
  ApprovalRow.mk (Approval.approval_id a) (Approval.run_id a) (Approval.tenant_id a)
    (Approval.action_id a) (Approval.requested_by a) (Approval.approver a)
    (ApprovalDecision.value (Approval.decision a)) (Approval.reason a) (Approval.requested_at a)
    (Approval.decided_at a) (Approval.expires_at a) (Approval.trace_id a)
    (Approval.correlation_id a).

Definition create_approval (approval : Approval.t) : M W Approval.t :=
  transaction (
    check_run (Approval.run_id approval) (Approval.tenant_id approval) ;;*
    refuse_existing (by_approval_id (Approval.approval_id approval))
      ("approval " +:+ Approval.approval_id approval +:+ " already exists") ;;*
    flush (on_approvals (add (approval_row approval))) ;;*
    ret approval).

Definition approval_missing (approval_id : string) : exn :=
  NotFoundError ("approval " +:+ approval_id +:+ " not found").

Definition get_approval_row (approval_id tenant_id : string) : M W ApprovalRow.t :=
  let* row := rows (by_approval_id approval_id) in
  match row with
  | Some r => if String.eqb (ApprovalRow.tenant_id r) tenant_id then ret r
              else raise (approval_missing approval_id)
  | None => raise (approval_missing approval_id)
  end.

Definition get_approval (approval_id tenant_id : string) : M W Approval.t :=
  session (let* row := get_approval_row approval_id tenant_id in
           lift_result (row_to_approval row)).

(** [row.decision = ...; row.decided_at = ...], and with the approver *)
Definition mark_expired (at_ : PyTime.time) (r : ApprovalRow.t) : ApprovalRow.t :=
  let '(ApprovalRow.mk id run ten act by_ appr _ why req _ exp tr co) := r in
  ApprovalRow.mk id run ten act by_ appr (ApprovalDecision.value ApprovalDecision.EXPIRED)
    why req (Some at_) exp tr co.
Definition decide (decision approver : string) (reason : option string) (at_ : PyTime.time)
    (r : ApprovalRow.t) : ApprovalRow.t :=
  let '(ApprovalRow.mk id run ten act by_ _ _ _ req _ exp tr co) := r in
  ApprovalRow.mk id run ten act by_ (Some approver) decision reason req (Some at_) exp tr co.
Definition expired (at_ : PyTime.time) (r : ApprovalRow.t) : bool :=
  match ApprovalRow.expires_at r with Some e => (e <? at_)%Z | None => false end.

Definition decide_approval (approval_id tenant_id decision approver : string)
    (reason : option string) : M W Approval.t :=
  if negb (String.eqb decision "approved" || String.eqb decision "rejected")
  then raise (RepositoryError "decision must be approved|rejected")
  else transaction (
    let* row := get_approval_row approval_id tenant_id in
    let this r := String.eqb (ApprovalRow.approval_id r) approval_id in
    if negb (String.eqb (ApprovalRow.decision row)
               (ApprovalDecision.value ApprovalDecision.PENDING))
    then raise (ConflictError ("approval " +:+ approval_id +:+ " already decided"))
    else
      let* at_ := now in
      if expired at_ row then
        flush (on_approvals (update_first this (mark_expired at_))) ;;*
        raise (ConflictError ("approval " +:+ approval_id +:+ " expired"))
      else
        flush (on_approvals (update_first this (decide decision approver reason at_))) ;;*
        lift_result (row_to_approval (decide decision approver reason at_ row))).

Definition list_approvals (run_id tenant_id : string) : M W (list Approval.t) :=
  session (
    check_run run_id tenant_id ;;*
    let* found := rows (fun t => order_by ApprovalRow.requested_at
                    (List.filter (fun a => String.eqb (ApprovalRow.run_id a) run_id)
                       (approvals t))) in
    lift_result (map_result row_to_approval found)).

(** ** Tool audit *)

Definition tool_row (i : ToolInvocation.t) (in_hash : string) (redacted_in : dict)
    (out_hash : option string) (redacted_out : option dict) : ToolInvocationRow.t :=
  ToolInvocationRow.mk (ToolInvocation.invocation_id i) (ToolInvocation.run_id i)
    (ToolInvocation.tenant_id i) (ToolInvocation.tool_name i) (ToolInvocation.tool_version i)
    in_hash redacted_in out_hash redacted_out
    (ToolInvocationStatus.value (ToolInvocation.status i))
    (AuthorizationDecision.value <$> ToolInvocation.authorization_decision i)
    (ToolInvocation.idempotency_key i) (ToolInvocation.dry_run i)
    (dict_or_none (ToolInvocation.error i)) (ToolInvocation.trace_id i)
    (ToolInvocation.correlation_id i) (ToolInvocation.started_at i)
    (ToolInvocation.completed_at i).

(** [invocation.model_copy(update=...)] *)
Definition stored_copy (i : ToolInvocation.t) (in_hash : string) (redacted_in : dict)
    (out_hash : option string) : ToolInvocation.t :=
  ToolInvocation.mk (ToolInvocation.invocation_id i) (ToolInvocation.run_id i)
    (ToolInvocation.tenant_id i) (ToolInvocation.tool_name i) (ToolInvocation.tool_version i)
    in_hash redacted_in out_hash (ToolInvocation.status i)
    (ToolInvocation.authorization_decision i) (ToolInvocation.idempotency_key i)
    (ToolInvocation.dry_run i) (ToolInvocation.started_at i) (ToolInvocation.completed_at i)
    (ToolInvocation.trace_id i) (ToolInvocation.correlation_id i) (ToolInvocation.error i).

Definition invocation_with_key (run_id : string) (key : option string) (t : Tables)
    : option ToolInvocationRow.t :=
  if given key then
    first (fun r => String.eqb (ToolInvocationRow.run_id r) run_id
                    && bool_decide (ToolInvocationRow.idempotency_key r = key))
          (tool_invocations t)
  else None.

Definition record_tool_invocation (invocation : ToolInvocation.t)
    (raw_input raw_output : option dict) : M W ToolInvocation.t :=
  let source_input := default (ToolInvocation.redacted_input invocation) raw_input in
  let redacted_in := redact source_input in
  if Redact.contains_bare_secret_marker (VDict redacted_in)
  then raise (RepositoryError "redaction hook failed to mask secrets")
  else
    let in_hash := Redact.hash_payload (VDict source_input) in
    let redacted_out := redact <$> raw_output in
    let out_hash := match raw_output with
                    | Some o => Some (Redact.hash_payload (VDict o))
                    | None => ToolInvocation.output_hash invocation
                    end in
    transaction (
      check_run (ToolInvocation.run_id invocation) (ToolInvocation.tenant_id invocation) ;;*
      let* dup := rows (invocation_with_key (ToolInvocation.run_id invocation)
                          (ToolInvocation.idempotency_key invocation)) in
      match dup with
      | Some r => lift_result (row_to_tool_invocation r)
      | None =>
          refuse_existing (by_invocation_id (ToolInvocation.invocation_id invocation))
            ("tool invocation " +:+ ToolInvocation.invocation_id invocation +:+ " exists") ;;*
          flush (on_tools (add (tool_row invocation in_hash redacted_in out_hash redacted_out))) ;;*
          ret (stored_copy invocation in_hash redacted_in out_hash)
      end).

Definition complete_row (st : ToolInvocationStatus.t) (raw_output error : option dict)
    (at_ : PyTime.time) (r : ToolInvocationRow.t) : ToolInvocationRow.t :=
  let '(ToolInvocationRow.mk id run ten nm ver ih ri oh ro _ auth key dry err tr co sta _) := r in
  ToolInvocationRow.mk id run ten nm ver ih ri
    (match raw_output with Some o => Some (Redact.hash_payload (VDict o)) | None => oh end)
    (match raw_output with Some o => Some (redact o) | None => ro end)
    (ToolInvocationStatus.value st) auth key dry
    (match error with Some e => Some (redact e) | None => err end) tr co sta (Some at_).

Definition complete_tool_invocation (invocation_id tenant_id status : string)
    (raw_output error : option dict) : M W ToolInvocation.t :=
  match ToolInvocationStatus.parse status with
  | None => raise (RepositoryError ("unknown tool status " +:+ status))
  | Some st =>
      transaction (
        let* found := rows (by_invocation_id invocation_id) in
        let missing := NotFoundError ("tool invocation " +:+ invocation_id +:+ " not found") in
        match found with
        | None => raise missing
        | Some row =>
            if negb (String.eqb (ToolInvocationRow.tenant_id row) tenant_id) then raise missing
            else
              let* at_ := now in
              flush (on_tools (update_first
                (fun r => String.eqb (ToolInvocationRow.invocation_id r) invocation_id)
                (complete_row st raw_output error at_))) ;;*
              lift_result (row_to_tool_invocation (complete_row st raw_output error at_ row))
        end)
  end.

(** ** Findings, evidence, delegated tasks, model calls and audit *)

Definition by_finding_id (id : string) (t : Tables) : option FindingRow.t :=
  first (fun x => String.eqb (FindingRow.finding_id x) id) (findings t).
Definition by_ref_id (id : string) (t : Tables) : option EvidenceRef.t :=
  first (fun x => String.eqb (EvidenceRef.ref_id x) id) (evidence_refs t).

Definition save_finding (finding_id run_id tenant_id title summary : string)
    (evidence_refs : list string) (confidence : float)
    (severity trace_id correlation_id : option string) : M W string :=
  transaction (
    check_run run_id tenant_id ;;*
    refuse_existing (by_finding_id finding_id) ("finding " +:+ finding_id +:+ " exists") ;;*
    let* created_at := now in
    flush (on_findings (add (FindingRow.mk finding_id run_id tenant_id title summary
      evidence_refs confidence severity trace_id correlation_id created_at))) ;;*
    ret finding_id).

Definition save_evidence_ref (ref_id run_id tenant_id kind uri : string)
    (excerpt_hash span_ref finding_id : option string) : M W string :=
  transaction (
    check_run run_id tenant_id ;;*
    refuse_existing (by_ref_id ref_id) ("evidence ref " +:+ ref_id +:+ " exists") ;;*
    flush (on_evidence (add (EvidenceRef.mk ref_id run_id tenant_id finding_id kind uri
      excerpt_hash span_ref))) ;;*
    ret ref_id).

Definition save_agent_task (task_id run_id tenant_id skill_id agent_name objective
    status : string) (raw_inputs : option dict) (deadline : option PyTime.time) : M W string :=
  let redacted := redact (default [] raw_inputs) in
  let in_hash := Redact.hash_payload (VDict (default [] raw_inputs)) in
  transaction (
    check_run run_id tenant_id ;;*
    refuse_existing (by_task_id task_id) ("task " +:+ task_id +:+ " exists") ;;*
    let* created_at := now in
    let* updated_at := now in
    flush (on_tasks (add (AgentTask.mk task_id run_id tenant_id skill_id agent_name objective
      status in_hash redacted None None None deadline created_at updated_at))) ;;*
    ret task_id).

Definition update_task_row (status : string) (raw_output error : option dict)
    (at_ : PyTime.time) (r : AgentTask.t) : AgentTask.t :=
  let '(AgentTask.mk id run ten sk ag obj _ ih ri oh ro err dl cr _) := r in
  AgentTask.mk id run ten sk ag obj status ih ri
    (match raw_output with Some o => Some (Redact.hash_payload (VDict o)) | None => oh end)
    (match raw_output with Some o => Some (redact o) | None => ro end)
    (match error with Some e => Some (redact e) | None => err end) dl cr at_.

Definition update_agent_task (task_id tenant_id status : string)
    (raw_output error : option dict) : M W unit :=
  transaction (
    let* found := rows (by_task_id task_id) in
    let missing := NotFoundError ("task " +:+ task_id +:+ " not found") in
    match found with
    | None => raise missing
    | Some row =>
        if negb (String.eqb (AgentTask.tenant_id row) tenant_id) then raise missing
        else
          let* at_ := now in
          flush (on_tasks (update_first (fun r => String.eqb (AgentTask.task_id r) task_id)
            (update_task_row status raw_output error at_)))
    end).

Definition record_model_call (call_id : option string) (run_id tenant_id model
    task_type : string) (raw_prompt : option pyval) (input_tokens output_tokens : Z)
    (cost_usd : float) (duration_ms : Z) (status : string) (trace_id : option string)
    : M W string :=
  let* cid := (if given call_id then ret (default "" call_id) else new_id "mcall") in
  let prompt_hash := Redact.hash_payload (default (VDict []) raw_prompt) in
  transaction (
    check_run run_id tenant_id ;;*
    let* created_at := now in
    flush (on_calls (add (ModelCall.mk cid run_id tenant_id model task_type prompt_hash
      input_tokens output_tokens cost_usd duration_ms status None trace_id created_at))) ;;*
    ret cid).

Definition write_audit (audit_id run_id : option string) (tenant_id actor action : string)
    (decision : option dict) (reason trace_id correlation_id : option string) : M W string :=
  let* aid := (if given audit_id then ret (default "" audit_id) else new_id "audit") in
  let redacted_decision := redact <$> dict_or_none decision in
  transaction (
    (match run_id with Some r => check_run r tenant_id | None => ret tt end) ;;*
    let* created_at := now in
    flush (on_audit (add (AuditRecord.mk aid run_id tenant_id actor action redacted_decision
      reason trace_id correlation_id created_at))) ;;*
    ret aid).
End Methods.
End Repository.
