(* ===== verification/RepositorySpecs.v ===== *)
(** * What each repository method does

    One weakest-precondition lemma per method: the tables it leaves committed
    when it returns, and the reason of each of its own exceptions.  Whatever
    exception leaves a method, the committed tables are unchanged. *)

From stdpp Require Import base list strings gmap pretty.
From Stdlib Require Import ZArith Lia Ascii Sorted.
From S2P Require Import Prelude.
From S2P Require Import PyFloat.
From S2P Require Import PyValue.
From S2P Require Import PyTime.
From S2P Require Import Contracts.
From S2P Require Import ContractsOps.
From S2P Require Import Redaction.
From S2P Require Import Tables.
From S2P Require Import Repository.

Import Repository.
Local Open Scope py_scope.

(** The outcome of a method in terms of the committed tables: [Q a t'] when it
    returns [a] and leaves [t'], [E e] when it raises [e]; an exception leaves
    the tables as they were. *)
Definition outcome {W} `{Engine W} {A} (m : M W A) (Q : A -> Tables -> Prop) (E : exn -> Prop)
    (w : W) : Prop :=
  wp m (fun a w' => Q a (committed w'))
       (fun e w' => committed w' = committed w /\ (repo_error e = true -> E e)) w.

(** Rewrites every session state into the tables it started from. *)
Ltac tables :=
  repeat match goal with
    | H : pending ?w = _ |- _ => rewrite H in *; clear H
    | H : committed ?w = _ |- _ => rewrite H in *; clear H
    end.

Ltac db_step :=
  match goal with
  | |- wp (bind _ _) _ _ _ => apply wp_bind
  | |- wp (ret _) _ _ _ => apply wp_ret
  | |- wp (raise _) _ _ _ => apply wp_raise
  | |- wp (rows _) _ _ _ => apply wp_rows
  | |- wp (lift_result _) _ _ _ => apply wp_lift
  | |- wp (try_catch _ _) _ _ _ => apply wp_try
  | |- wp now _ _ _ => apply wp_observes; [apply now_law|intros ? ? ? ? ?]
  | |- wp (new_id _) _ _ _ => apply wp_observes; [apply new_id_observes|intros ? ? ? ? ?]
  | |- wp (flush _) _ _ _ => apply wp_flush; [congruence|intros ? ? ? ? ?|intros ? ? ? ? ?]
  | |- wp rollback _ _ _ => apply wp_rollback; intros ? ? ? ?
  | |- wp (transaction _) _ _ _ =>
      apply wp_transaction; [intros ? ? ? ?|intros ? ? ? ?]
  | |- wp (session _) _ _ _ => apply wp_session; intros ? ? ? ?
  | |- wp (if ?b then _ else _) _ _ _ => destruct b eqn:?
  | |- wp (match ?x with _ => _ end) _ _ _ => destruct x eqn:?
  | |- match ?x with Ok _ => _ | Exn _ => _ end => destruct x eqn:?
  end; cbn beta.

(** Turns the guards a path has passed into propositions. *)
Ltac guards :=
  cbn [ApprovalDecision.value] in *;
  repeat match goal with
    | H : negb _ = true |- _ => apply negb_true_iff in H
    | H : negb _ = false |- _ => apply negb_false_iff in H
    | H : String.eqb _ _ = true |- _ => rewrite String.eqb_eq in H
    | H : String.eqb _ _ = false |- _ => apply String.eqb_neq in H
    | H : _ || _ = true |- _ => apply orb_true_iff in H; rewrite ?String.eqb_eq in H
    end.

(** Runs a method down to its outcomes. *)
Ltac db := unfold outcome; repeat db_step; tables; guards.

(** Closes the side conditions every outcome carries. *)
Ltac settle :=
  repeat match goal with
    | |- _ /\ _ => split
    | |- forall _, _ => intros
    end; tables; try congruence; try done; eauto 6 with repo.

Create HintDb repo discriminated.

Lemma owned_no_row run_id tenant_id t :
  get_run_by_id run_id t = None -> owned run_id tenant_id t = false.
Proof. unfold owned. by intros ->. Qed.
Lemma owned_foreign run_id tenant_id t r :
  get_run_by_id run_id t = Some r -> Run.tenant_id r <> tenant_id ->
  owned run_id tenant_id t = false.
Proof. unfold owned. intros ->. apply String.eqb_neq. Qed.
Lemma owned_row run_id tenant_id t :
  owned run_id tenant_id t = true <->
  exists r, get_run_by_id run_id t = Some r /\ Run.tenant_id r = tenant_id.
Proof.
  unfold owned. destruct (get_run_by_id run_id t) as [r|].
  - rewrite String.eqb_eq. split; [by exists r|by intros (? & [= <-] & ?)].
  - split; [done|by intros (? & ? & _)].
Qed.
#[export] Hint Resolve owned_no_row owned_foreign : repo.

Section Specs.
Context {W : Type} `{EngineLaws W}.
Variable redact : dict -> dict.
Implicit Types w : W.

Lemma create_approval_wp a w :
  let t := committed w in
  outcome (create_approval a)
    (fun r t' => r = a /\ owned (Approval.run_id a) (Approval.tenant_id a) t = true
       /\ by_approval_id (Approval.approval_id a) t = None
       /\ t' = on_approvals (add (approval_row a)) t /\ constraints t')
    (fun e => (e = run_missing (Approval.run_id a)
               /\ owned (Approval.run_id a) (Approval.tenant_id a) t = false)
       \/ (e = ConflictError ("approval " +:+ Approval.approval_id a +:+ " already exists")
           /\ is_Some (by_approval_id (Approval.approval_id a) t))) w.
Proof.
  unfold create_approval, check_run, refuse_existing. db; settle.
Qed.

Lemma ensure_tenant_wp id name w :
  let t := committed w in
  outcome (ensure_tenant id name)
    (fun _ t' => (is_Some (get_tenant id t) /\ t' = t)
       \/ (get_tenant id t = None /\ constraints t' /\ exists c,
           t' = on_tenants (add (Tenant.mk id (if String.eqb name "" then id else name) c)) t))
    (fun e => False) w.
Proof. unfold ensure_tenant. db; settle. Qed.

(** The tables with the tenant in place. *)
Definition with_tenant (id : string) (t t1 : Tables) : Prop :=
  (is_Some (get_tenant id t) /\ t1 = t)
  \/ (get_tenant id t = None /\ constraints t1 /\ exists c, t1 = on_tenants (add (Tenant.mk id id c)) t).

Lemma create_run_wp run_id tenant_id by_ objective budget cur tr co key w :
  let t := committed w in
  outcome (create_run run_id tenant_id by_ objective budget cur tr co key)
    (fun r t' => exists t1, with_tenant tenant_id t t1 /\
       ((run_with_key tenant_id key t = Some r /\ t' = t1)
        \/ (run_with_key tenant_id key t = None /\ get_run_by_id run_id t = None /\ constraints t'
            /\ t' = on_runs (add r) t1 /\ exists c u,
               r = Run.mk run_id tenant_id by_ objective "created" cur budget key tr co c u None)))
    (fun e => e = ConflictError ("run " +:+ run_id +:+ " already exists")
              /\ run_with_key tenant_id key t = None /\ is_Some (get_run_by_id run_id t)) w.
Proof.
  clear redact. assert (Hk : forall f t, run_with_key tenant_id key (on_tenants f t) = run_with_key tenant_id key t)
    by done.
  assert (Hr : forall f t, get_run_by_id run_id (on_tenants f t) = get_run_by_id run_id t) by done.
  unfold create_run, ensure_tenant_in, refuse_existing. db; settle;
    rewrite ?Hk, ?Hr in *; eauto;
    (eexists; split; [first [left; by eauto|right; by eauto]|]); naive_solver.
Qed.

Lemma get_run_wp run_id tenant_id w :
  let t := committed w in
  outcome (get_run run_id tenant_id)
    (fun r t' => t' = t /\ get_run_by_id run_id t = Some r /\ Run.tenant_id r = tenant_id)
    (fun e => e = run_missing run_id /\ owned run_id tenant_id t = false) w.
Proof.
  unfold get_run, get_run_row. db; settle.
Qed.

Lemma update_run_wp run_id tenant_id fields w :
  let t := committed w in
  outcome (update_run run_id tenant_id fields)
    (fun r t' => unknown_fields fields = [] /\ constraints t' /\
       exists r0 up, get_run_by_id run_id t = Some r0 /\ Run.tenant_id r0 = tenant_id
       /\ r = set_fields fields up r0
       /\ t' = on_runs (update_first (fun x => String.eqb (Run.id x) run_id)
                          (set_fields fields up)) t)
    (fun e => unknown_fields fields <> []
              \/ (e = run_missing run_id /\ owned run_id tenant_id t = false)) w.
Proof.
  unfold update_run, get_run_row. db; settle.
Qed.

Lemma append_event_wp ev w :
  let t := committed w in
  outcome (append_event ev)
    (fun r t' => AgentEvent.sensitive ev && AgentEvent.safe_for_ui ev = false
       /\ owned (AgentEvent.run_id ev) (AgentEvent.tenant_id ev) t = true
       /\ ((exists d, by_event_id (AgentEvent.event_id ev) t = Some d
                      /\ row_to_event d = Ok r /\ t' = t)
           \/ (by_event_id (AgentEvent.event_id ev) t = None /\ r = ev /\ constraints t'
               /\ t' = on_events (add (event_row ev)) t)))
    (fun e => e = sensitive_ui
       \/ (e = run_missing (AgentEvent.run_id ev)
           /\ owned (AgentEvent.run_id ev) (AgentEvent.tenant_id ev) t = false)
       \/ (exists d, by_event_id (AgentEvent.event_id ev) t = Some d /\ row_to_event d = Exn e)
       \/ (by_event_id (AgentEvent.event_id ev) t = None
           /\ e = ConflictError ("event sequence conflict run=" +:+ AgentEvent.run_id ev
                  +:+ " seq=" +:+ pretty (AgentEvent.sequence ev)))) w.
Proof.
  unfold append_event, check_run. db; settle; try (right; by eauto 8); try (left; by eauto).
Qed.

(** The row a round of [append_next_event] writes. *)
Definition next_row (run_id tenant_id : string) type (data : dict) eid tr co sensitive safe
    (seq : Z) (now : PyTime.time) : RunEvent.t :=
  RunEvent.mk eid run_id tenant_id seq (type_text type) now data tr co sensitive safe.

Definition appended (run_id tenant_id : string) type data event_id tr co sensitive safe
    (t : Tables) (r : AgentEvent.t) (t' : Tables) : Prop :=
  exists eid, (given event_id = true -> event_id = Some eid) /\
  ((exists d, by_event_id eid t = Some d /\ row_to_event d = Ok r /\ t' = t)
   \/ (by_event_id eid t = None /\ constraints t' /\ exists now,
       let row := next_row run_id tenant_id type data eid tr co sensitive safe
                    (next_of run_id t) now in
       row_to_event row = Ok r /\ t' = on_events (add row) t)).

Lemma given_default o : given o = true -> o = Some (default "" o).
Proof. by destruct o. Qed.

Lemma append_attempt_wp run_id tenant_id type data event_id tr co sensitive safe w :
  let t := committed w in
  outcome (append_attempt run_id tenant_id type data event_id tr co sensitive safe)
    (fun r t' => exists ev, r = Some ev /\ owned run_id tenant_id t = true
       /\ appended run_id tenant_id type data event_id tr co sensitive safe t ev t')
    (fun e => (e = run_missing run_id /\ owned run_id tenant_id t = false)
       \/ exists d, row_to_event d = Exn e) w.
Proof.
  unfold append_attempt, check_run, next_sequence_in. db; settle;
    (eexists; split_and!; [done|done|]); unfold appended, next_row;
    (eexists; split; [|by eauto 8]); try congruence; by eauto using given_default.
Qed.

(** A round that returns has appended, so the loop never comes round again:
    after a lost race the commit itself raises. *)
Lemma append_next_event_wp run_id tenant_id type data event_id tr co sensitive safe w :
  let t := committed w in
  outcome (append_next_event redact run_id tenant_id type data event_id tr co sensitive safe)
    (fun ev t' => sensitive && safe = false /\ owned run_id tenant_id t = true
       /\ appended run_id tenant_id type (redact data) event_id tr co sensitive safe t ev t')
    (fun e => e = sensitive_ui
       \/ (e = run_missing run_id /\ owned run_id tenant_id t = false)
       \/ exists d, row_to_event d = Exn e) w.
Proof.
  unfold append_next_event, outcome. destruct (sensitive && safe).
  { apply wp_raise. eauto. }
  simpl append_retry. apply wp_bind. eapply wp_mono; [apply append_attempt_wp| |].
  - intros r w' (ev & -> & ? & ?). by apply wp_ret.
  - intros e w' [? He]. split; [done|]. intros ?. destruct He; eauto.
Qed.

Lemma list_events_wp run_id tenant_id after limit w :
  let t := committed w in
  let page := take (Z.to_nat limit) (order_by RunEvent.sequence (events_after run_id after t)) in
  outcome (list_events run_id tenant_id after limit)
    (fun r t' => t' = t /\ (1 <= limit <= 5000)%Z /\ owned run_id tenant_id t = true
       /\ map_result row_to_event page = Ok r)
    (fun e => (e = RepositoryError "limit must be 1..5000" /\ ~ (1 <= limit <= 5000)%Z)
       \/ (e = run_missing run_id /\ owned run_id tenant_id t = false)
       \/ map_result row_to_event page = Exn e) w.
Proof.
  unfold list_events, check_run. db; settle; try lia. left. split; [done|lia].
Qed.

Lemma get_approval_wp id tenant_id w :
  let t := committed w in
  outcome (get_approval id tenant_id)
    (fun r t' => t' = t /\ exists row, by_approval_id id t = Some row
       /\ ApprovalRow.tenant_id row = tenant_id /\ row_to_approval row = Ok r)
    (fun e => (e = approval_missing id /\
               forall row, by_approval_id id t = Some row -> ApprovalRow.tenant_id row <> tenant_id)
       \/ exists row, by_approval_id id t = Some row /\ row_to_approval row = Exn e) w.
Proof.
  unfold get_approval, get_approval_row. db; settle;
    left; split; [done|congruence|done|congruence].
Qed.

(** A decision that is accepted was made on a pending, unexpired row. *)
Lemma decide_approval_wp id tenant_id decision approver reason w :
  let t := committed w in
  outcome (decide_approval id tenant_id decision approver reason)
    (fun r t' => constraints t' /\ (decision = "approved" \/ decision = "rejected") /\
       exists row at_, by_approval_id id t = Some row /\ ApprovalRow.tenant_id row = tenant_id
       /\ ApprovalRow.decision row = "pending" /\ expired at_ row = false
       /\ row_to_approval (decide decision approver reason at_ row) = Ok r
       /\ t' = on_approvals (update_first (fun x => String.eqb (ApprovalRow.approval_id x) id)
                               (decide decision approver reason at_)) t)
    (fun e => e = RepositoryError "decision must be approved|rejected"
       \/ (e = approval_missing id /\
           forall row, by_approval_id id t = Some row -> ApprovalRow.tenant_id row <> tenant_id)
       \/ (exists row, by_approval_id id t = Some row /\ ApprovalRow.decision row <> "pending"
           /\ e = ConflictError ("approval " +:+ id +:+ " already decided"))
       \/ (exists row at_, by_approval_id id t = Some row /\ expired at_ row = true
           /\ e = ConflictError ("approval " +:+ id +:+ " expired"))
       \/ exists row, row_to_approval row = Exn e) w.
Proof.
  unfold decide_approval, get_approval_row. db; settle;
    first [by right; left; split; [done|congruence] | by eauto 12].
Qed.

Lemma list_approvals_wp run_id tenant_id w :
  let t := committed w in
  let found := order_by ApprovalRow.requested_at
                 (List.filter (fun a => String.eqb (ApprovalRow.run_id a) run_id) (approvals t)) in
  outcome (list_approvals run_id tenant_id)
    (fun r t' => t' = t /\ owned run_id tenant_id t = true
       /\ map_result row_to_approval found = Ok r)
    (fun e => (e = run_missing run_id /\ owned run_id tenant_id t = false)
       \/ map_result row_to_approval found = Exn e) w.
Proof. unfold list_approvals, check_run. db; settle. Qed.

(** The audit row of an invocation: redacted payloads and their hashes. *)
Definition audited (i : ToolInvocation.t) (raw_input raw_output : option dict)
    : ToolInvocationRow.t :=
  let source := default (ToolInvocation.redacted_input i) raw_input in
  tool_row i (Redact.hash_payload (VDict source)) (redact source)
    (match raw_output with Some o => Some (Redact.hash_payload (VDict o))
     | None => ToolInvocation.output_hash i end) (redact <$> raw_output).

Lemma record_tool_invocation_wp i raw_input raw_output w :
  let t := committed w in
  let leak := Redact.contains_bare_secret_marker
                (VDict (redact (default (ToolInvocation.redacted_input i) raw_input))) in
  outcome (record_tool_invocation redact i raw_input raw_output)
    (fun r t' => leak = false
       /\ owned (ToolInvocation.run_id i) (ToolInvocation.tenant_id i) t = true
       /\ ((exists d, invocation_with_key (ToolInvocation.run_id i)
                        (ToolInvocation.idempotency_key i) t = Some d
                      /\ row_to_tool_invocation d = Ok r /\ t' = t)
           \/ (invocation_with_key (ToolInvocation.run_id i) (ToolInvocation.idempotency_key i) t
               = None /\ by_invocation_id (ToolInvocation.invocation_id i) t = None
               /\ constraints t'
               /\ t' = on_tools (add (audited i raw_input raw_output)) t)))
    (fun e => leak = true
       \/ (e = run_missing (ToolInvocation.run_id i)
           /\ owned (ToolInvocation.run_id i) (ToolInvocation.tenant_id i) t = false)
       \/ (exists d, row_to_tool_invocation d = Exn e)
       \/ (e = ConflictError ("tool invocation " +:+ ToolInvocation.invocation_id i +:+ " exists")
           /\ is_Some (by_invocation_id (ToolInvocation.invocation_id i) t))) w.
Proof.
  unfold record_tool_invocation, check_run, refuse_existing. db; settle.
Qed.

Lemma complete_tool_invocation_wp id tenant_id status raw_output error w :
  let t := committed w in
  outcome (complete_tool_invocation redact id tenant_id status raw_output error)
    (fun r t' => constraints t' /\ exists st row at_,
       ToolInvocationStatus.parse status = Some st /\ by_invocation_id id t = Some row
       /\ ToolInvocationRow.tenant_id row = tenant_id
       /\ row_to_tool_invocation (complete_row redact st raw_output error at_ row) = Ok r
       /\ t' = on_tools (update_first (fun x => String.eqb (ToolInvocationRow.invocation_id x) id)
                           (complete_row redact st raw_output error at_)) t)
    (fun e => ToolInvocationStatus.parse status = None
       \/ (e = NotFoundError ("tool invocation " +:+ id +:+ " not found") /\
           forall row, by_invocation_id id t = Some row ->
             ToolInvocationRow.tenant_id row <> tenant_id)
       \/ exists row, row_to_tool_invocation row = Exn e) w.
Proof.
  unfold complete_tool_invocation. db; settle;
    first [by right; left; split; [done|congruence] | by eauto 12].
Qed.

(** The four methods that insert one row of a run under a fresh identifier. *)
Definition inserted {A} (run_id tenant_id id : string) (q : Tables -> option A)
    (t : Tables) (row_of : Tables -> Prop) (r : string) (t' : Tables) : Prop :=
  r = id /\ owned run_id tenant_id t = true /\ q t = None /\ constraints t' /\ row_of t'.
Definition not_inserted {A} (run_id tenant_id : string) (q : Tables -> option A) (t : Tables)
    (e : exn) : Prop :=
  (e = run_missing run_id /\ owned run_id tenant_id t = false)
  \/ (exn_class e = "ConflictError" /\ is_Some (q t)).

Lemma save_finding_wp id run_id tenant_id title summary refs conf sev tr co w :
  let t := committed w in
  outcome (save_finding id run_id tenant_id title summary refs conf sev tr co)
    (inserted run_id tenant_id id (by_finding_id id) t (fun t' => exists c,
       t' = on_findings (add (FindingRow.mk id run_id tenant_id title summary refs conf sev tr co c)) t))
    (not_inserted run_id tenant_id (by_finding_id id) t) w.
Proof.
  unfold save_finding, check_run, refuse_existing, inserted, not_inserted. db; settle.
Qed.

Lemma save_evidence_ref_wp id run_id tenant_id kind uri eh sp fid w :
  let t := committed w in
  outcome (save_evidence_ref id run_id tenant_id kind uri eh sp fid)
    (inserted run_id tenant_id id (by_ref_id id) t (fun t' =>
       t' = on_evidence (add (EvidenceRef.mk id run_id tenant_id fid kind uri eh sp)) t))
    (not_inserted run_id tenant_id (by_ref_id id) t) w.
Proof.
  unfold save_evidence_ref, check_run, refuse_existing, inserted, not_inserted. db; settle.
Qed.

Lemma save_agent_task_wp id run_id tenant_id sk ag obj st inputs dl w :
  let t := committed w in
  outcome (save_agent_task redact id run_id tenant_id sk ag obj st inputs dl)
    (inserted run_id tenant_id id (by_task_id id) t (fun t' => exists c u,
       t' = on_tasks (add (AgentTask.mk id run_id tenant_id sk ag obj st
              (Redact.hash_payload (VDict (default [] inputs))) (redact (default [] inputs))
              None None None dl c u)) t))
    (not_inserted run_id tenant_id (by_task_id id) t) w.
Proof.
  unfold save_agent_task, check_run, refuse_existing, inserted, not_inserted. db; settle.
Qed.

Lemma update_agent_task_wp id tenant_id status raw_output error w :
  let t := committed w in
  outcome (update_agent_task redact id tenant_id status raw_output error)
    (fun _ t' => constraints t' /\ exists row at_,
       by_task_id id t = Some row /\ AgentTask.tenant_id row = tenant_id
       /\ t' = on_tasks (update_first (fun x => String.eqb (AgentTask.task_id x) id)
                           (update_task_row redact status raw_output error at_)) t)
    (fun e => e = NotFoundError ("task " +:+ id +:+ " not found") /\
       forall row, by_task_id id t = Some row -> AgentTask.tenant_id row <> tenant_id) w.
Proof. unfold update_agent_task. db; settle. Qed.

Lemma record_model_call_wp cid run_id tenant_id m ty prompt i o cost dur st tr w :
  let t := committed w in
  outcome (record_model_call cid run_id tenant_id m ty prompt i o cost dur st tr)
    (fun id t' => (given cid = true -> cid = Some id) /\ owned run_id tenant_id t = true
       /\ constraints t' /\ exists c,
       t' = on_calls (add (ModelCall.mk id run_id tenant_id m ty
              (Redact.hash_payload (default (VDict []) prompt)) i o cost dur st None tr c)) t)
    (fun e => e = run_missing run_id /\ owned run_id tenant_id t = false) w.
Proof.
  unfold record_model_call, check_run. db; settle. by apply given_default.
Qed.

Lemma write_audit_wp aid run_id tenant_id actor action decision reason tr co w :
  let t := committed w in
  let ours := match run_id with Some r => owned r tenant_id t = true | None => True end in
  outcome (write_audit redact aid run_id tenant_id actor action decision reason tr co)
    (fun id t' => (given aid = true -> aid = Some id) /\ ours /\ constraints t' /\ exists c,
       t' = on_audit (add (AuditRecord.mk id run_id tenant_id actor action
              (redact <$> dict_or_none decision) reason tr co c)) t)
    (fun e => exists r, run_id = Some r /\ e = run_missing r /\ owned r tenant_id t = false) w.
Proof.
  unfold write_audit, check_run. db; settle; by apply given_default.
Qed.
End Specs.
