(* ===== verification/RepositoryStore.v ===== *)
(** * The store the repository implements

    [change T t t'] is the abstract store: what one call made for tenant [T]
    may do to the tables.  Every method of the repository refines it, on every
    engine and however the engine fails; the invariants of the store are then
    proved of [change] alone. *)

From stdpp Require Import base list strings gmap.
From Stdlib Require Import ZArith Lia Ascii Sorted.
From S2P Require Import Prelude.
From S2P Require Import PyFloat.
From S2P Require Import PyValue.
From S2P Require Import PyTime.
From S2P Require Import Contracts.
From S2P Require Import ContractsOps.
From S2P Require Import Redaction.
From S2P Require Import Tables.
From S2P Require Import Repository.
From S2P Require Import RepositorySpecs.

Import Repository.

(** ** The abstract store *)

Definition has_id {A} (key : A -> string) (id : string) (x : A) : bool := String.eqb (key x) id.

(** The redacted payloads of the rows that carry some. *)
Definition tool_payloads (r : ToolInvocationRow.t) : list dict :=
  ToolInvocationRow.redacted_input_json r
    :: option_list (ToolInvocationRow.redacted_output_json r).
Definition task_payloads (r : AgentTask.t) : list dict :=
  AgentTask.redacted_input_json r
    :: option_list (AgentTask.redacted_output_json r) ++ option_list (AgentTask.error_json r).

Inductive change (redact : dict -> dict) (T : string) (t : Tables) : Tables -> Prop :=
  | ch_none : change redact T t t
  | ch_tenant t1 : with_tenant T t t1 -> change redact T t t1
  | ch_tenant_named x :
      Tenant.id x = T -> get_tenant T t = None -> change redact T t (on_tenants (add x) t)
  | ch_run t1 r :
      with_tenant T t t1 -> get_run_by_id (Run.id r) t = None -> Run.tenant_id r = T ->
      change redact T t (on_runs (add r) t1)
  | ch_update_run id fields up :
      owned id T t = true ->
      change redact T t (on_runs (update_first (has_id Run.id id) (set_fields fields up)) t)
  | ch_event e :
      RunEvent.tenant_id e = T -> owned (RunEvent.run_id e) T t = true ->
      by_event_id (RunEvent.event_id e) t = None -> change redact T t (on_events (add e) t)
  | ch_approval a :
      ApprovalRow.tenant_id a = T -> owned (ApprovalRow.run_id a) T t = true ->
      by_approval_id (ApprovalRow.approval_id a) t = None ->
      change redact T t (on_approvals (add a) t)
  | ch_decide id row decision approver reason at_ :
      by_approval_id id t = Some row -> ApprovalRow.tenant_id row = T ->
      ApprovalRow.decision row = "pending" -> expired at_ row = false ->
      decision = "approved" \/ decision = "rejected" ->
      change redact T t (on_approvals (update_first (has_id ApprovalRow.approval_id id)
                                         (decide decision approver reason at_)) t)
  | ch_tool i raw_in raw_out :
      ToolInvocation.tenant_id i = T -> owned (ToolInvocation.run_id i) T t = true ->
      by_invocation_id (ToolInvocation.invocation_id i) t = None ->
      invocation_with_key (ToolInvocation.run_id i) (ToolInvocation.idempotency_key i) t = None ->
      change redact T t (on_tools (add (audited redact i raw_in raw_out)) t)
  | ch_complete id row st out err at_ :
      by_invocation_id id t = Some row -> ToolInvocationRow.tenant_id row = T ->
      change redact T t (on_tools (update_first (has_id ToolInvocationRow.invocation_id id)
                                     (complete_row redact st out err at_)) t)
  | ch_finding f :
      FindingRow.tenant_id f = T -> owned (FindingRow.run_id f) T t = true ->
      change redact T t (on_findings (add f) t)
  | ch_evidence e :
      EvidenceRef.tenant_id e = T -> owned (EvidenceRef.run_id e) T t = true ->
      change redact T t (on_evidence (add e) t)
  | ch_task k :
      AgentTask.tenant_id k = T -> owned (AgentTask.run_id k) T t = true ->
      (exists d, task_payloads k = [redact d]) ->
      change redact T t (on_tasks (add k) t)
  | ch_update_task id row st out err at_ :
      by_task_id id t = Some row -> AgentTask.tenant_id row = T ->
      change redact T t (on_tasks (update_first (has_id AgentTask.task_id id)
                                     (update_task_row redact st out err at_)) t)
  | ch_call c :
      ModelCall.tenant_id c = T -> owned (ModelCall.run_id c) T t = true ->
      change redact T t (on_calls (add c) t)
  | ch_audit a :
      AuditRecord.tenant_id a = T ->
      match AuditRecord.run_id a with Some r => owned r T t = true | None => True end ->
      (exists d, AuditRecord.decision_json a = redact <$> d) ->
      change redact T t (on_audit (add a) t).

(** ** The methods, for one tenant *)

Section Calls.
Context {W : Type} `{Engine W}.
Variable redact : dict -> dict.

Inductive tenant_call (T : string) : forall A : Type, M W A -> Prop :=
  | c_ensure_tenant name : tenant_call T _ (ensure_tenant T name)
  | c_create_run id by_ obj bud cur tr co key :
      tenant_call T _ (create_run id T by_ obj bud cur tr co key)
  | c_get_run id : tenant_call T _ (get_run id T)
  | c_update_run id fields : tenant_call T _ (update_run id T fields)
  | c_next_sequence id : tenant_call T _ (next_sequence id)
  | c_append_event e : AgentEvent.tenant_id e = T -> tenant_call T _ (append_event e)
  | c_append_next_event id ty data eid tr co se sa :
      tenant_call T _ (append_next_event redact id T ty data eid tr co se sa)
  | c_list_events id after limit : tenant_call T _ (list_events id T after limit)
  | c_create_approval a : Approval.tenant_id a = T -> tenant_call T _ (create_approval a)
  | c_get_approval id : tenant_call T _ (get_approval id T)
  | c_decide_approval id d who why : tenant_call T _ (decide_approval id T d who why)
  | c_list_approvals id : tenant_call T _ (list_approvals id T)
  | c_record_tool i inp out :
      ToolInvocation.tenant_id i = T -> tenant_call T _ (record_tool_invocation redact i inp out)
  | c_complete_tool id st out err :
      tenant_call T _ (complete_tool_invocation redact id T st out err)
  | c_save_finding id run ti su refs conf sev tr co :
      tenant_call T _ (save_finding id run T ti su refs conf sev tr co)
  | c_save_evidence id run k u eh sp f :
      tenant_call T _ (save_evidence_ref id run T k u eh sp f)
  | c_save_task id run sk ag ob st inp dl :
      tenant_call T _ (save_agent_task redact id run T sk ag ob st inp dl)
  | c_update_task id st out err : tenant_call T _ (update_agent_task redact id T st out err)
  | c_model_call id run m ty p i o c du st tr :
      tenant_call T _ (record_model_call id run T m ty p i o c du st tr)
  | c_audit id run ac act d why tr co :
      tenant_call T _ (write_audit redact id run T ac act d why tr co).
End Calls.

Section Refinement.
Context {W : Type} `{EngineLaws W}.
Variable redact : dict -> dict.

Lemma outcome_change {A} (m : M W A) Q E T w :
  outcome m Q E w ->
  (forall a t', Q a t' -> change redact T (committed w) t' /\ constraints t') ->
  constraints (committed w) ->
  change redact T (committed w) (committed (m w).1) /\ constraints (committed (m w).1).
Proof.
  intros Ho HQ Hc. unfold outcome, wp in Ho. destruct (m w) as [w' [a|e]]; simpl.
  - by apply HQ in Ho.
  - destruct Ho as [-> _]. split; [constructor|done].
Qed.

Lemma with_tenant_constraints T t t1 : with_tenant T t t1 -> constraints t -> constraints t1.
Proof. by intros [[_ ->]|(_ & ? & _)]. Qed.

Lemma ch_update_run_row id r T t fields up :
  get_run_by_id id t = Some r -> Run.tenant_id r = T ->
  change redact T t (on_runs (update_first (has_id Run.id id) (set_fields fields up)) t).
Proof. intros. apply ch_update_run, owned_row. eauto. Qed.

(** Applies the specification of the method at hand, and the rule of the
    abstract store it implements. *)
Ltac take_apart H :=
  lazymatch type of H with
  | ex _ => destruct H as [? ?]
  | and _ _ => destruct H as [? ?]
  | or (and _ _) _ => destruct H as [[? ?]|?]
  | or (ex _) _ => destruct H as [[? ?]|?]
  end.
Ltac by_spec spec rule :=
  eapply outcome_change; [apply spec|unfold inserted, appended; simpl; intros|done];
  repeat match goal with H : _ |- _ => progress take_apart H end; subst;
  (split; [first [by apply ch_none|by eapply rule; simpl; eauto]
          |by eauto using with_tenant_constraints]).

Lemma next_sequence_wp run_id w :
  outcome (next_sequence run_id)
    (fun n t' => t' = committed w /\ n = next_of run_id (committed w)) (fun _ => False) w.
Proof. unfold next_sequence. db; settle. Qed.

Lemma tenant_call_change T A (m : M W A) w :
  tenant_call redact T A m -> constraints (committed w) ->
  change redact T (committed w) (committed (m w).1) /\ constraints (committed (m w).1).
Proof.
  intros Hm Hc. destruct Hm.
  - by_spec ensure_tenant_wp (ch_tenant_named redact).
  - eapply outcome_change; [apply create_run_wp|simpl|done].
    intros r t' (t1 & Ht1 & [(_ & ->)|(_ & ? & ? & -> & c & u & ->)]).
    + split; [by apply ch_tenant|by eapply with_tenant_constraints].
    + split; [by apply ch_run|done].
  - by_spec get_run_wp ch_none.
  - by_spec update_run_wp ch_update_run_row.
  - by_spec next_sequence_wp ch_none.
  - by_spec append_event_wp ch_event.
  - by_spec append_next_event_wp ch_event.
  - by_spec list_events_wp ch_none.
  - by_spec create_approval_wp ch_approval.
  - by_spec get_approval_wp ch_none.
  - by_spec decide_approval_wp ch_decide.
  - by_spec list_approvals_wp ch_none.
  - by_spec record_tool_invocation_wp ch_tool.
  - by_spec complete_tool_invocation_wp ch_complete.
  - by_spec save_finding_wp ch_finding.
  - by_spec save_evidence_ref_wp ch_evidence.
  - by_spec save_agent_task_wp ch_task.
  - by_spec update_agent_task_wp ch_update_task.
  - by_spec record_model_call_wp ch_call.
  - by_spec write_audit_wp ch_audit.
Qed.
End Refinement.
