(* ===== verification/RepositoryProps.v ===== *)
(** * What the store guarantees

    Ownership, append-only logs, final decisions, tenant isolation and redacted
    payloads, proved of the abstract store and carried to every sequence of
    calls; then idempotence, dense numbering and complete replay of events. *)

From stdpp Require Import base list strings gmap.
From Stdlib Require Import ZArith Lia Ascii Sorted.
From S2P Require Import Prelude.
From S2P Require Import PyFloat.
From S2P Require Import PyValue.
From S2P Require Import PyTime.
From S2P Require Import Contracts.
From S2P Require Import ContractsOps.
From S2P Require Import Redaction.
From S2P Require Import Tables.
From S2P Require Import Repository.
From S2P Require Import RepositorySpecs.
From S2P Require Import RepositoryStore.

Import Repository.
Local Open Scope py_scope.

(** ** Lists of rows *)

Section RowLists.
Context {A : Type}.
Implicit Types (p : A -> bool) (l : list A).

Lemma first_some p l x : first p l = Some x -> x ∈ l /\ p x = true.
Proof. unfold first. intros Hf. apply find_some in Hf as [? ?]. by rewrite list_elem_of_In. Qed.

Lemma first_none p l : first p l = None -> forall x, x ∈ l -> p x = false.
Proof. unfold first. intros Hf x Hx. apply (find_none _ _ Hf). by apply list_elem_of_In. Qed.

Lemma first_add p l x y : first p l = Some y -> first p (add x l) = Some y.
Proof.
  unfold first, add. induction l as [|z l IH]; simpl; [done|]. by destruct (p z).
Qed.

Lemma first_add_new p l x : first p l = None -> p x = true -> first p (add x l) = Some x.
Proof.
  unfold first, add. induction l as [|z l IH]; simpl; [by intros _ ->|]. by destruct (p z).
Qed.

Lemma update_first_split p f l x :
  first p l = Some x ->
  exists l1 l2, l = l1 ++ x :: l2 /\ update_first p f l = l1 ++ f x :: l2
                /\ Forall (fun y => p y = false) l1.
Proof.
  unfold first. induction l as [|z l IH]; simpl; [done|]. destruct (p z) eqn:E.
  - intros [= ->]. by exists [], l.
  - intros (l1 & l2 & -> & -> & ?)%IH. exists (z :: l1), l2. split_and!; [done|done|by constructor].
Qed.

Lemma update_first_none p f l : first p l = None -> update_first p f l = l.
Proof.
  unfold first. induction l as [|z l IH]; simpl; [done|]. destruct (p z); [done|].
  intros ?. by rewrite IH.
Qed.

Lemma first_update p f l :
  (forall x, p (f x) = p x) -> first p (update_first p f l) = f <$> first p l.
Proof.
  intros Hp. unfold first. induction l as [|z l IH]; simpl; [done|].
  destruct (p z) eqn:E; simpl; [by rewrite Hp, E|by rewrite E].
Qed.

Lemma first_update_other p q f l :
  (forall x, q (f x) = q x) ->
  first q (update_first p f l) = (fun x => if p x then f x else x) <$> first q l
  \/ first q (update_first p f l) = first q l.
Proof.
  intros Hq. unfold first. induction l as [|z l IH]; simpl; [by right|].
  destruct (p z) eqn:E; simpl.
  - rewrite Hq. destruct (q z) eqn:Eq; [left; simpl; by rewrite E|by right].
  - destruct (q z) eqn:Eq; [by right|done].
Qed.

Lemma nodup_key {B} (key : A -> B) l x y :
  NoDup (map key l) -> x ∈ l -> y ∈ l -> key x = key y -> x = y.
Proof.
  induction l as [|z l IH]; simpl; [by intros _ ?%not_elem_of_nil|].
  intros [Hz Hn]%NoDup_cons Hx Hy E.
  apply elem_of_cons in Hx as [->|Hx], Hy as [->|Hy]; [done| | |by apply IH];
    exfalso; apply Hz; apply list_elem_of_fmap; eauto.
Qed.
End RowLists.

(** ** Ownership *)

(** Every row of a run belongs to the tenant the run belongs to. *)
Record well_owned (t : Tables) : Prop := {
  own_events : Forall (fun e => owned (RunEvent.run_id e) (RunEvent.tenant_id e) t = true)
                      (run_events t);
  own_tasks : Forall (fun k => owned (AgentTask.run_id k) (AgentTask.tenant_id k) t = true)
                     (agent_tasks t);
  own_tools : Forall (fun i => owned (ToolInvocationRow.run_id i) (ToolInvocationRow.tenant_id i) t
                               = true) (tool_invocations t);
  own_approvals : Forall (fun a => owned (ApprovalRow.run_id a) (ApprovalRow.tenant_id a) t = true)
                         (approvals t);
  own_findings : Forall (fun f => owned (FindingRow.run_id f) (FindingRow.tenant_id f) t = true)
                        (findings t);
  own_evidence : Forall (fun e => owned (EvidenceRef.run_id e) (EvidenceRef.tenant_id e) t = true)
                        (evidence_refs t);
  own_calls : Forall (fun c => owned (ModelCall.run_id c) (ModelCall.tenant_id c) t = true)
                     (model_calls t);
  own_audit : Forall (fun a => match AuditRecord.run_id a with
                               | Some r => owned r (AuditRecord.tenant_id a) t = true
                               | None => True end) (audit_records t);
  own_runs : Forall (fun r => is_Some (get_tenant (Run.tenant_id r) t)) (runs t);
}.

(** Nothing a change does takes a run from its tenant or a tenant away. *)
Record extends (t t' : Tables) : Prop := {
  ext_owned r T : owned r T t = true -> owned r T t' = true;
  ext_tenant T : is_Some (get_tenant T t) -> is_Some (get_tenant T t');
}.

Lemma extends_refl t : extends t t.
Proof. by constructor. Qed.
Lemma extends_trans t1 t2 t3 : extends t1 t2 -> extends t2 t3 -> extends t1 t3.
Proof. intros [] []. constructor; eauto. Qed.
Lemma extends_same_rows t t' : runs t' = runs t -> tenants t' = tenants t -> extends t t'.
Proof.
  intros Hr Ht. constructor; unfold owned, get_run_by_id, get_tenant; by rewrite ?Hr, ?Ht.
Qed.

Lemma extends_add_tenant t x : extends t (on_tenants (add x) t).
Proof.
  constructor; [done|]. unfold get_tenant. simpl. intros T [y Hy].
  exists y. by apply first_add.
Qed.
Lemma extends_with_tenant T t t1 : with_tenant T t t1 -> extends t t1.
Proof.
  intros [[_ ->]|(_ & _ & c & ->)]; [apply extends_refl|apply extends_add_tenant].
Qed.
Lemma extends_add_run t x : extends t (on_runs (add x) t).
Proof.
  constructor; [|done]. intros r T (y & Hy & <-)%owned_row. apply owned_row.
  exists y. split; [|done]. unfold get_run_by_id in *. simpl. by apply first_add.
Qed.

Lemma set_field_ids f r :
  Run.id (set_field f r) = Run.id r /\ Run.tenant_id (set_field f r) = Run.tenant_id r.
Proof. by destruct r, f. Qed.
Lemma set_fields_ids fields up r :
  Run.id (set_fields fields up r) = Run.id r
  /\ Run.tenant_id (set_fields fields up r) = Run.tenant_id r.
Proof.
  unfold set_fields.
  assert (forall x, Run.id (touch up x) = Run.id x /\ Run.tenant_id (touch up x) = Run.tenant_id x)
    as Ht by (by intros []).
  destruct (Ht (fold_left (fun r f => set_field f r) fields r)) as [-> ->].
  revert r. induction fields as [|f fields IH]; intros r; simpl; [done|].
  destruct (IH (set_field f r)) as [-> ->]. apply set_field_ids.
Qed.

Lemma extends_update_run t id fields up :
  extends t (on_runs (update_first (has_id Run.id id) (set_fields fields up)) t).
Proof.
  constructor; [|done]. intros r T (y & Hy & <-)%owned_row. apply owned_row.
  unfold get_run_by_id in *. simpl.
  assert (forall x, String.eqb (Run.id (set_fields fields up x)) r = String.eqb (Run.id x) r)
    as Hid by (intros x; by rewrite (proj1 (set_fields_ids fields up x))).
  destruct (first_update_other (has_id Run.id id) (fun x => String.eqb (Run.id x) r)
              (set_fields fields up) (runs t) Hid) as [E|E]; rewrite E, Hy; simpl; [|eauto].
  destruct (has_id Run.id id y); [|eauto]. eexists. split; [done|]. apply set_fields_ids.
Qed.

Lemma change_extends redact T t t' : change redact T t t' -> extends t t'.
Proof.
  destruct 1; try (by apply extends_same_rows).
  - by eapply extends_with_tenant.
  - apply extends_add_tenant.
  - eapply extends_trans; [by eapply extends_with_tenant|apply extends_add_run].
  - apply extends_update_run.
Qed.

Section ForallRows.
Context {A : Type}.
Implicit Types (P : A -> Prop).
Lemma Forall_add P l x : Forall P l -> P x -> Forall P (add x l).
Proof. intros. apply Forall_app. by repeat constructor. Qed.
Lemma Forall_update P p f l :
  (forall x, P x -> P (f x)) -> Forall P l -> Forall P (update_first p f l).
Proof.
  intros Hf. induction 1; simpl; [constructor|]. destruct (p x); constructor; auto.
Qed.
End ForallRows.

Create HintDb rows discriminated.
#[export] Hint Resolve Forall_add Forall_update Forall_impl ext_owned ext_tenant : rows.

Lemma run_has_tenant t r T : well_owned t -> owned r T t = true -> is_Some (get_tenant T t).
Proof.
  intros Ho (x & Hx & <-)%owned_row. apply first_some in Hx as [Hx _].
  by apply (proj1 (Forall_forall _ _) (own_runs t Ho)) in Hx.
Qed.

Lemma with_tenant_runs T t t1 : with_tenant T t t1 -> runs t1 = runs t.
Proof. by intros [[_ ->]|(_ & _ & c & ->)]. Qed.
Lemma with_tenant_has T t t1 : with_tenant T t t1 -> is_Some (get_tenant T t1).
Proof.
  intros [[? ->]|(Hn & _ & c & ->)]; [done|]. eexists. unfold get_tenant in *. simpl.
  apply first_add_new; [done|]. simpl. apply String.eqb_refl.
Qed.

(** Ownership survives where the other tables stay and this one only grows. *)
Lemma well_owned_extends t t' :
  extends t t' -> well_owned t ->
  run_events t' = run_events t -> agent_tasks t' = agent_tasks t ->
  tool_invocations t' = tool_invocations t -> approvals t' = approvals t ->
  findings t' = findings t -> evidence_refs t' = evidence_refs t ->
  model_calls t' = model_calls t -> audit_records t' = audit_records t ->
  Forall (fun r => is_Some (get_tenant (Run.tenant_id r) t')) (runs t') -> well_owned t'.
Proof.
  intros [Ho _] [] Ee Ek Ei Ea Ef Ev Ec Eu Hr.
  constructor; rewrite ?Ee, ?Ek, ?Ei, ?Ea, ?Ef, ?Ev, ?Ec, ?Eu; try done;
    (eapply Forall_impl; [eassumption|]); intros x Hx; simpl in *; auto.
  destruct (AuditRecord.run_id x); auto.
Qed.

Lemma with_tenant_owned T t t1 : with_tenant T t t1 -> well_owned t -> well_owned t1.
Proof.
  intros Hw Ho. apply (well_owned_extends t); [by eapply extends_with_tenant|done|..];
    try (by destruct Hw as [[_ ->]|(_ & _ & c & ->)]).
  rewrite (with_tenant_runs _ _ _ Hw). eapply Forall_impl; [apply (own_runs t Ho)|].
  intros x Hx. by apply (ext_tenant _ _ (extends_with_tenant _ _ _ Hw)).
Qed.

(** Rewriting one row that keeps its run and its tenant keeps ownership. *)
Ltac keep_rows := constructor; simpl; try done; apply Forall_update; [by intros []|done].
Ltac add_row := constructor; simpl; try done; apply Forall_add; [done|by subst].

Lemma change_well_owned redact T t t' : change redact T t t' -> well_owned t -> well_owned t'.
Proof.
  intros Hch Ho. destruct Hch; try done; try (destruct Ho; by keep_rows).
  - by eapply with_tenant_owned.
  - apply (well_owned_extends t); try done; [apply extends_add_tenant|].
    eapply Forall_impl; [apply (own_runs t Ho)|]. intros y.
    by apply (ext_tenant _ _ (extends_add_tenant t x)).
  - apply (well_owned_extends t1); try done; [apply extends_add_run|by eapply with_tenant_owned|].
    apply Forall_add; [apply (with_tenant_owned _ _ _ H Ho)|].
    rewrite H1. apply (with_tenant_has _ _ _ H).
  - apply (well_owned_extends t); try done; [apply extends_update_run|]. simpl.
    apply Forall_update; [|apply Ho]. intros r. by rewrite (proj2 (set_fields_ids fields up r)).
  - destruct Ho; add_row.
  - destruct Ho; add_row.
  - destruct Ho; add_row.
  - destruct Ho; add_row.
  - destruct Ho; add_row.
  - destruct Ho; add_row.
  - destruct Ho; add_row.
  - destruct Ho; add_row.
Qed.

(** ** Append-only logs, final decisions *)

Definition grows {A} (l l' : list A) : Prop := l' = l \/ exists x, l' = add x l.

Lemma change_logs redact T t t' :
  change redact T t t' ->
  grows (run_events t) (run_events t') /\ grows (audit_records t) (audit_records t').
Proof.
  intros Hch. destruct Hch; try (by split; left);
    try (match goal with Hw : with_tenant _ _ _ |- _ =>
      destruct Hw as [[_ ->]|(_ & _ & c & ->)]; by split; left end).
  - split; [right; by eexists|by left].
  - split; [by left|right; by eexists].
Qed.

Lemma update_first_keeps {A} (p : A -> bool) f l x y :
  first p l = Some y -> x ∈ l -> x <> y -> x ∈ update_first p f l.
Proof.
  intros (l1 & l2 & -> & -> & _)%(update_first_split p f) Hx Hne.
  rewrite elem_of_app, elem_of_cons in *. intuition congruence.
Qed.

Lemma change_final redact T t t' a :
  change redact T t t' -> a ∈ approvals t -> ApprovalRow.decision a <> "pending" ->
  a ∈ approvals t'.
Proof.
  intros Hch Ha Hd. destruct Hch; try done;
    try (match goal with Hw : with_tenant _ _ _ |- _ =>
      by destruct Hw as [[_ ->]|(_ & _ & c & ->)] end); simpl.
  - unfold add. set_solver.
  - eapply update_first_keeps; [done|done|congruence].
Qed.

(** No change marks a stored approval expired. *)
Lemma change_no_expiry redact T t t' a' :
  change redact T t t' -> a' ∈ approvals t' -> ApprovalRow.decision a' = "expired" ->
  a' ∈ approvals t \/ by_approval_id (ApprovalRow.approval_id a') t = None.
Proof.
  intros Hch Ha Hd. destruct Hch; try (by left);
    try (match goal with Hw : with_tenant _ _ _ |- _ =>
      left; by destruct Hw as [[_ ->]|(_ & _ & c & ->)] end); simpl in *.
  - unfold add in Ha. apply elem_of_app in Ha as [?|Ha%list_elem_of_singleton]; [by left|].
    subst. by right.
  - left. match goal with E : by_approval_id _ _ = Some _ |- _ =>
      apply (update_first_split _ (decide decision approver reason at_)) in E
        as (l1 & l2 & El & Eu & _) end.
    unfold has_id in Ha.
    rewrite Eu in Ha. rewrite El. apply elem_of_app in Ha as [Ha|[->|Ha]%elem_of_cons];
      [set_solver| |set_solver].
    destruct row. simpl in Hd. naive_solver.
Qed.

(** ** Tenant isolation *)

(** The rows of one tenant. *)
Definition of_tenant {A} (key : A -> string) (T : string) (l : list A) : list A :=
  List.filter (fun x => String.eqb (key x) T) l.

Record same_rows (T : string) (t t' : Tables) : Prop := {
  sr_tenants : of_tenant Tenant.id T (tenants t') = of_tenant Tenant.id T (tenants t);
  sr_runs : of_tenant Run.tenant_id T (runs t') = of_tenant Run.tenant_id T (runs t);
  sr_events : of_tenant RunEvent.tenant_id T (run_events t')
              = of_tenant RunEvent.tenant_id T (run_events t);
  sr_tasks : of_tenant AgentTask.tenant_id T (agent_tasks t')
             = of_tenant AgentTask.tenant_id T (agent_tasks t);
  sr_tools : of_tenant ToolInvocationRow.tenant_id T (tool_invocations t')
             = of_tenant ToolInvocationRow.tenant_id T (tool_invocations t);
  sr_approvals : of_tenant ApprovalRow.tenant_id T (approvals t')
                 = of_tenant ApprovalRow.tenant_id T (approvals t);
  sr_findings : of_tenant FindingRow.tenant_id T (findings t')
                = of_tenant FindingRow.tenant_id T (findings t);
  sr_evidence : of_tenant EvidenceRef.tenant_id T (evidence_refs t')
                = of_tenant EvidenceRef.tenant_id T (evidence_refs t);
  sr_calls : of_tenant ModelCall.tenant_id T (model_calls t')
             = of_tenant ModelCall.tenant_id T (model_calls t);
  sr_audit : of_tenant AuditRecord.tenant_id T (audit_records t')
             = of_tenant AuditRecord.tenant_id T (audit_records t);
}.

Lemma of_tenant_add {A} (key : A -> string) T l x :
  key x <> T -> of_tenant key T (add x l) = of_tenant key T l.
Proof.
  intros Hx%String.eqb_neq. unfold of_tenant, add.
  by rewrite List.filter_app; simpl; rewrite Hx, app_nil_r.
Qed.

Lemma of_tenant_update {A} (key : A -> string) T p f l x :
  first p l = Some x -> (forall y, key (f y) = key y) -> key x <> T ->
  of_tenant key T (update_first p f l) = of_tenant key T l.
Proof.
  intros (l1 & l2 & -> & -> & _)%(update_first_split p f) Hk Hx%String.eqb_neq.
  unfold of_tenant. rewrite !List.filter_app. simpl. by rewrite Hk, Hx.
Qed.

Lemma same_rows_trans T t1 t2 t3 : same_rows T t1 t2 -> same_rows T t2 t3 -> same_rows T t1 t3.
Proof. intros [] []. constructor; congruence. Qed.

Lemma with_tenant_same T T' t t1 : with_tenant T t t1 -> T' <> T -> same_rows T' t t1.
Proof.
  intros [[_ ->]|(_ & _ & c & ->)] Hne; [done|]. constructor; try done. simpl.
  by apply of_tenant_add.
Qed.

Lemma change_isolated redact T T' t t' : change redact T t t' -> T' <> T -> same_rows T' t t'.
Proof.
  intros Hch Hne. destruct Hch; subst; try done;
    try (constructor; try done; simpl; by apply of_tenant_add);
    try (constructor; try done; simpl;
         by eapply of_tenant_update; [done|by intros []|congruence]).
  - by eapply with_tenant_same.
  - eapply same_rows_trans; [by eapply with_tenant_same|].
    constructor; try done. simpl. by apply of_tenant_add.
  - apply owned_row in H as (r & Hr & <-). constructor; try done. simpl.
    eapply of_tenant_update; [exact Hr|intros y; apply set_fields_ids|congruence].
Qed.

(** ** Redacted payloads *)

(** A payload the hook has produced. *)
Definition produced (redact : dict -> dict) (d : dict) : Prop := exists d0, d = redact d0.

Record payloads_redacted (redact : dict -> dict) (t : Tables) : Prop := {
  pr_tools : Forall (fun r => Forall (produced redact) (tool_payloads r)) (tool_invocations t);
  pr_tasks : Forall (fun k => Forall (produced redact) (task_payloads k)) (agent_tasks t);
  pr_audit : Forall (fun a => Forall (produced redact) (option_list (AuditRecord.decision_json a)))
                    (audit_records t);
}.

Lemma produced_self redact d : produced redact (redact d).
Proof. by exists d. Qed.
#[export] Hint Resolve produced_self List.Forall_nil List.Forall_cons : rows.

Lemma change_redacted redact T t t' :
  change redact T t t' -> payloads_redacted redact t -> payloads_redacted redact t'.
Proof.
  intros Hch [Hi Hk Ha]. destruct Hch; try done;
    try (match goal with Hw : with_tenant _ _ _ |- _ =>
      by destruct Hw as [[_ ->]|(_ & _ & c & ->)] end); constructor; simpl; try done.
  - apply Forall_add; [done|]. unfold tool_payloads. simpl. destruct raw_out; simpl; auto with rows.
  - apply Forall_update; [|done]. intros []. unfold tool_payloads. simpl.
    intros Hx. destruct out; simpl; [|done]. inversion Hx; subst. auto with rows.
  - apply Forall_add; [done|]. destruct H1 as [d ->]. auto with rows.
  - apply Forall_update; [|done]. intros []. unfold task_payloads. simpl.
    rewrite !Forall_cons, !Forall_app.
    destruct out, err; simpl; naive_solver auto with rows.
  - apply Forall_add; [done|]. destruct H1 as [d ->]. destruct d; simpl; auto with rows.
Qed.
