(* ===== verification/MemoryEngine.v ===== *)
(** * A concrete engine

    An in-memory instance of [Engine]: the committed tables, the open session's
    view, a clock that ticks at every reading and numbered identifiers.  It
    satisfies the laws and is quiet, so every theorem about the repository can
    be evaluated on it; with [raced] it
    refuses the flushes that another writer is to win. *)

From stdpp Require Import base list strings sorting pretty.
From Stdlib Require Import ZArith Lia Ascii Sorted.
From S2P Require Import Prelude.
From S2P Require Import PyFloat.
From S2P Require Import PyValue.
From S2P Require Import PyTime.
From S2P Require Import Tables.

Module Memory.
Record db := mkDb {
  saved : Tables; view : Tables; live : bool; clock : PyTime.time; ids : nat }.

Definition empty : db := mkDb no_rows no_rows true 1789128000000000 0.

(** A flush that another writer wins fails. *)
Definition do_flush (raced : db -> bool) (f : Tables -> Tables) : M db unit := fun w =>
  if negb (raced w) && check_constraints (f (view w))
  then (mkDb (saved w) (f (view w)) (live w) (clock w) (ids w), Ok tt)
  else (mkDb (saved w) (view w) false (clock w) (ids w),
        Exn (OtherError "IntegrityError" "UNIQUE constraint failed")).

Definition do_commit : M db unit := fun w =>
  if live w then (mkDb (view w) (view w) true (clock w) (ids w), Ok tt)
  else (w, Exn (OtherError "PendingRollbackError"
                 "This Session's transaction has been rolled back due to a previous exception during flush.")).

Definition reset : M db unit := fun w =>
  (mkDb (saved w) (saved w) true (clock w) (ids w), Ok tt).

Definition by_key {A} (key : A -> Z) (x y : A) : Prop := (key x <= key y)%Z.
#[global] Instance by_key_dec {A} (key : A -> Z) : RelDecision (by_key key).
Proof. intros x y. unfold by_key. apply _. Defined.
#[global] Instance by_key_total {A} (key : A -> Z) : Total (by_key key).
Proof. intros x y. unfold by_key. lia. Qed.
#[global] Instance by_key_trans {A} (key : A -> Z) : Transitive (by_key key).
Proof. intros x y z. unfold by_key. lia. Qed.

Definition engine_with (raced : db -> bool) : Engine db := {|
  committed := saved;
  pending := view;
  active := live;
  begin := reset;
  flush := do_flush raced;
  commit := do_commit;
  rollback := reset;
  close := ret tt;
  order_by A key := merge_sort (by_key key);
  now := fun w =>
    (mkDb (saved w) (view w) (live w) (clock w + 1000000) (ids w), Ok (clock w));
  uuid4_hex := fun w =>
    (mkDb (saved w) (view w) (live w) (clock w) (S (ids w)),
     Ok ("id" +:+ pretty (ids w)));
|}.

Lemma laws_with raced : @EngineLaws db (engine_with raced).
Proof.
  constructor; simpl.
  - intros w. by eexists.
  - intros f w Ha. unfold do_flush.
    destruct (negb _ && check_constraints (f (view w))) eqn:E; simpl; [|done].
    apply andb_prop in E as [_ E]. by apply check_constraints_spec in E.
  - intros w. unfold do_commit. by destruct (live w) eqn:E.
  - intros w. by eexists.
  - intros w. by eexists.
  - intros w. by eexists _, _.
  - intros w. by eexists _, _.
  - intros A key l. apply merge_sort_Permutation.
  - intros A key l. apply (StronglySorted_merge_sort (by_key key)).
Qed.

(** No other writer. *)
#[global] Instance engine : Engine db := engine_with (fun _ => false).
#[global] Instance laws : EngineLaws db := laws_with (fun _ => false).
#[global] Instance quiet : QuietEngine db.
Proof.
  constructor; simpl.
  - intros f w _ Hc. unfold do_flush. apply check_constraints_spec in Hc. rewrite Hc. by eexists.
  - intros w Ha. unfold do_commit. rewrite Ha. by eexists.
Qed.
End Memory.
