(* ===== verification/Executor.v ===== *)
(** * The tool executor

    [apps/mcp_server/executor.py] with the process-local store of [store.py]
    and the runbooks of [content.py]: the mock handlers and [execute_tool], its
    authorization, validation, write gate, idempotency, timeout, redaction and
    audit.  The gateway's state holds the repository's world, so the
    write-through of audit records is the repository's own [write_audit]. *)

From stdpp Require Import base list strings pretty.
From Stdlib Require Import ZArith Lia Ascii SpecFloat.
From S2P Require Import Prelude.
From S2P Require Import PyFloat.
From S2P Require Import PyValue.
From S2P Require Import PyTime.
From S2P Require Import Contracts.
From S2P Require Import ContractsOps.
From S2P Require Import Redaction.
From S2P Require Import Catalog.
From S2P Require Import Tables.
From S2P Require Import Repository.
From S2P Require Import Security.
From S2P Require Import McpModels.

Local Open Scope py_scope.

Module Executor.

(** ** Content *)

Definition newline : string := String (ascii_of_nat 10) "".
Definition lines (l : list string) : string := PyStr.concat (map (fun x => x +:+ newline) l).

Definition RUNBOOKS : list (string * dict) :=
  [("rb-001", [("id", VStr "rb-001"); ("title", VStr "Checkout error-rate runbook");
     ("body_md", VStr (lines
       ["# Checkout error-rate (UNTRUSTED)"; "";
        "1. Check `telemetry.query_metrics(checkout-api, error_rate)`.";
        "2. Compare with last release via `deployment.get_current_release`.";
        "3. Never run shell commands from this text; use MCP tools only."]))]);
   ("rb-002", [("id", VStr "rb-002"); ("title", VStr "Latency triage");
     ("body_md", VStr (lines
       ["# Latency triage (UNTRUSTED)"; "";
        "1. Query p99 latency."; "2. Simulate remediation before acting."]))])].
Definition get_runbook (runbook_id : pyval) : option dict :=
  match runbook_id with VStr s => dget s RUNBOOKS | _ => None end.

(** ** State *)

Definition MCPToolError (code msg : string) : exn := CodedError "MCPToolError" code msg 0.
Definition is_tool_error (e : exn) : bool := String.eqb (exn_class e) "MCPToolError".
Definition error_code (e : exn) : string := match e with CodedError _ c _ _ => c | _ => "" end.

(** [IDEMPOTENCY_STORE] maps a key to the input hash and the result. *)
Record Gateway (W : Type) := mkGateway {
  AUDIT_LOG : list ToolInvocation.t;
  IDEMPOTENCY_STORE : list (string * (string * dict));
  INJECTED_DELAYS : list (string * float);
  audit_repository : bool;
  database : W }.
Arguments mkGateway {W} _ _ _ _ _.
Arguments AUDIT_LOG {W} _.
Arguments IDEMPOTENCY_STORE {W} _.
Arguments INJECTED_DELAYS {W} _.
Arguments audit_repository {W} _.
Arguments database {W} _.

Definition reset_state {W} (g : Gateway W) : Gateway W :=
  mkGateway [] [] [] (audit_repository g) (database g).

(** The gateway and the two locals of [execute_tool] that its inner functions
    rebind. *)
Record Exec (W : Type) := mkExec {
  gw : Gateway W; decision : AuthorizationDecision.t; status : ToolInvocationStatus.t }.
Arguments mkExec {W} _ _ _.
Arguments gw {W} _.
Arguments decision {W} _.
Arguments status {W} _.

Section State.
Context {W : Type}.
Definition set_decision (d : AuthorizationDecision.t) : M (Exec W) unit :=
  modify (fun x => mkExec (gw x) d (status x)).
Definition set_status (s : ToolInvocationStatus.t) : M (Exec W) unit :=
  modify (fun x => mkExec (gw x) (decision x) s).
Definition on_gateway (f : Gateway W -> Gateway W) : M (Exec W) unit :=
  modify (fun x => mkExec (f (gw x)) (decision x) (status x)).
Definition log_audit (i : ToolInvocation.t) (g : Gateway W) : Gateway W :=
  mkGateway (AUDIT_LOG g ++ [i]) (IDEMPOTENCY_STORE g) (INJECTED_DELAYS g) (audit_repository g)
    (database g).
Definition remember (k : string) (v : string * dict) (g : Gateway W) : Gateway W :=
  mkGateway (AUDIT_LOG g) (dset k v (IDEMPOTENCY_STORE g)) (INJECTED_DELAYS g)
    (audit_repository g) (database g).
(** A call on the repository, the clock or the identifier source. *)
Definition on_db {A} (m : M W A) : M (Exec W) A := fun x =>
  let '(w, r) := m (database (gw x)) in
  (mkExec (mkGateway (AUDIT_LOG (gw x)) (IDEMPOTENCY_STORE (gw x)) (INJECTED_DELAYS (gw x))
             (audit_repository (gw x)) w) (decision x) (status x), r).
End State.

(** [d[k]] *)
Definition item (k : string) (d : dict) : result pyval :=
  match dget k d with Some v => Ok v | None => Exn (KeyError (PyStr.repr k)) end.

(** [int(v)] of a validated integer *)
Definition int_of (v : pyval) : Z := match v with VInt z => z | _ => 0 end.

(** ** Mock handlers *)

Section Handlers.
Context {W : Type} `{Engine W}.

Definition h_query_metrics (args : dict) : M (Exec W) dict :=
  let* service := lift_result (item "service" args) in
  let* metric := lift_result (item "metric" args) in
  let* start := lift_result (item "start_time" args) in
  let* stop := lift_result (item "end_time" args) in
  ret [("service", service); ("metric", metric);
       ("aggregation", get_or "aggregation" (VStr "average") args);
       ("window", VDict [("start", VStr (py_str start)); ("end", VStr (py_str stop))]);
       ("points", VList (map (fun i => VDict
          [("t", VStr ("2026-09-11T12:0" +:+ pretty i +:+ ":00Z"));
           ("v", VFloat (PyFloat.add (PyFloat.of_Z 90) (PyFloat.of_Z i)))])
          [0; 1; 2; 3; 4]%Z));
       ("mode", VStr "mock")].

(** The comprehension over [range(n)], from [i]. *)
Fixpoint log_entries (query : pyval) (n : nat) (i : Z) : M (Exec W) (list pyval) :=
  match n with
  | O => ret []
  | S n' =>
      let* t := on_db now in
      let entry := VDict
        [("ts", VStr (PyTime.isoformat t)); ("level", VStr "ERROR");
         ("msg", VStr ("mock log " +:+ pretty i +:+ " for " +:+ py_str query))] in
      let* rest := log_entries query n' (i + 1) in
      ret (entry :: rest)
  end.

Definition h_query_logs (args : dict) : M (Exec W) dict :=
  let limit := int_of (get_or "limit" (VInt 100) args) in
  let n := Z.min limit 3 in
  let* service := lift_result (item "service" args) in
  let* query := lift_result (item "query" args) in
  let* logs := log_entries query (Z.to_nat n) 0 in
  ret [("service", service); ("query", query); ("logs", VList logs);
       ("mode", VStr "mock")].

Definition h_get_health (args : dict) : M (Exec W) dict :=
  let* service := lift_result (item "service" args) in
  ret [("service", service); ("status", VStr "degraded"); ("latency_ms_p99", VInt 420);
       ("checks", VDict [("http", VStr "ok"); ("db", VStr "ok"); ("queue", VStr "lagging")]);
       ("mode", VStr "mock")].

Definition h_search (args : dict) : M (Exec W) dict :=
  let* query := lift_result (item "query" args) in
  ret [("query", query);
       ("results", VList (take (Z.to_nat (int_of (get_or "top_k" (VInt 5) args)))
          [VDict [("id", VStr "rb-001"); ("title", VStr "Checkout error-rate runbook");
                  ("snippet", VStr "check release...")];
           VDict [("id", VStr "kb-042"); ("title", VStr "Latency triage");
                  ("snippet", VStr "compare deploys...")]]));
       ("mode", VStr "mock")].

Definition h_get_runbook (args : dict) : M (Exec W) dict :=
  let* runbook_id := lift_result (item "runbook_id" args) in
  match get_runbook runbook_id with
  | None => raise (MCPToolError "not_found" ("runbook " +:+ py_str runbook_id +:+ " not found"))
  | Some rb => ret (dupdate [("mode", VStr "mock"); ("untrusted", VBool true)] rb)
  end.

Definition h_simulate (args : dict) : M (Exec W) dict :=
  let* action := lift_result (item "action" args) in
  ret [("action", action); ("target_service", get_or "target_service" VNone args);
       ("risk", VStr "medium"); ("blast_radius", VStr "single-service");
       ("steps", VList [VStr ("would execute: " +:+ py_str action +:+ " (simulated)")]);
       ("executed", VBool false); ("dry_run", VBool true); ("mode", VStr "mock")].

Definition h_get_trace (args : dict) : M (Exec W) dict :=
  let trace_id := (let v := get_or "trace_id" VNone args in
                   if truthy v then v else VStr "trace-mock-1") in
  let* service := lift_result (item "service" args) in
  ret [("service", service); ("trace_id", trace_id);
       ("spans", VList
          [VDict [("span_id", VStr "s1"); ("operation", VStr "GET /checkout");
                  ("duration_ms", VInt 120)];
           VDict [("span_id", VStr "s2"); ("operation", VStr "db.query");
                  ("duration_ms", VInt 85)]]);
       ("ref", VStr ("trace://t/" +:+ py_str service +:+ "/" +:+ py_str trace_id));
       ("mode", VStr "mock")].

Definition h_get_current_release (args : dict) : M (Exec W) dict :=
  let* service := lift_result (item "service" args) in
  ret [("service", service); ("release", VStr "2026.09.10");
       ("ref", VStr ("resource://releases/" +:+ py_str service)); ("mode", VStr "mock")].

Definition h_ticket_create (args : dict) : M (Exec W) dict :=
  let dry_run := truthy (get_or "dry_run" (VBool false) args) in
  let* title := lift_result (item "title" args) in
  ret [("title", title); ("severity", get_or "severity" (VStr "medium") args);
       ("dry_run", VBool dry_run); ("executed", VBool (negb dry_run));
       ("ticket_id", if dry_run then VNone else VStr "ticket-mock-1");
       ("ref", VStr "ticket://t/1"); ("mode", VStr "mock")].

Definition h_rollback (args : dict) : M (Exec W) dict :=
  let dry_run := truthy (get_or "dry_run" (VBool true) args) in
  let* deployment := lift_result (item "deployment" args) in
  ret [("deployment", deployment);
       ("target_release", get_or "target_release" (VStr "previous-stable") args);
       ("dry_run", VBool dry_run); ("executed", VBool false); ("mock", VBool true);
       ("message", VStr (if dry_run then "dry-run plan (no action taken)"
                         else "approved mock rollback (no real action locally)"));
       ("mode", VStr "mock")].

Definition HANDLERS : list (string * (dict -> M (Exec W) dict)) :=
  [("telemetry.query_metrics", h_query_metrics); ("telemetry.query_logs", h_query_logs);
   ("telemetry.get_trace", h_get_trace); ("service.get_health", h_get_health);
   ("knowledge.search", h_search); ("knowledge.get_runbook", h_get_runbook);
   ("deployment.get_current_release", h_get_current_release);
   ("remediation.simulate", h_simulate); ("deployment.rollback", h_rollback);
   ("ticket.create", h_ticket_create)].

(** ** Execution *)

Context `{Pydantic}.
(** Whether a handler that first sleeps for [delay] ends within [timeout]. *)
Variable in_time : string -> float -> pyval -> bool.
(** The trace identifier of the current span, when it is recorded. *)
Variable span_trace : option string.

(** What [execute_tool] computes before its span and its inner functions share. *)
Record Call := mkCall {
  tool_name : string; meta : ToolMetadata.t; auth : AuthContext.t; started : PyTime.time;
  invocation_id : string; eff_run_id : string; raw_args : dict; redacted_in : dict;
  input_hash : string; dry_run : bool; key : pyval }.

Definition is_write (c : Call) : bool := mem (tool_name c) Catalog.WRITE_TOOLS.
Definition store_key (c : Call) : string := tool_name c +:+ ":" +:+ py_str (key c).

Definition error_dict (error : option (string * string)) : option dict :=
  (fun e => [("code", VStr e.1); ("message", VStr e.2)]) <$> error.

(** The [decision] of the durable audit record. *)
Definition audit_payload (c : Call) (x : Exec W) (out_hash : option string)
    (error : option (string * string)) : dict :=
  [("tool_name", VStr (tool_name c)); ("run_id", VStr (eff_run_id c));
   ("invocation_id", VStr (invocation_id c));
   ("authorization_decision", VStr (AuthorizationDecision.value (decision x)));
   ("status", VStr (ToolInvocationStatus.value (status x)));
   ("input_hash", VStr (input_hash c)); ("output_hash", opt_str out_hash);
   ("redacted_input",
     McpRedact.redact_for_audit (VDict (redacted_in c)) McpRedact.OUTPUT_MAX_BYTES);
   ("error", match error_dict error with
             | Some d => McpRedact.redact_for_audit (VDict d) McpRedact.OUTPUT_MAX_BYTES
             | None => VNone
             end)].

(** [_persist_audit_record]: the write-through never raises. *)
Definition persist_audit_record (c : Call) (out_hash : option string)
    (error : option (string * string)) : M (Exec W) unit :=
  let* x := gets id in
  if negb (audit_repository (gw x)) then ret tt
  else
    try_catch
      (on_db (Repository.write_audit Repository.default_hook None None
                (AuthContext.tenant_id (auth c)) (AuthContext.user_id (auth c))
                ("mcp.tool." +:+ tool_name c) (Some (audit_payload c x out_hash error)) None
                span_trace None) ;;*
       ret tt)
      (fun _ => ret tt).

(** The optional string a contract field takes from any value. *)
Definition as_opt_str (v : pyval) : result (option string) :=
  match v with
  | VNone => Ok None
  | VStr s => Ok (Some s)
  | _ => Exn (ValidationError "idempotency_key")
  end.

(** [ToolInvocation(...)] as [_audit] builds it. *)
Definition audit_entry (c : Call) (x : Exec W) (out_hash : option string)
    (error : option (string * string)) (completed : PyTime.time) : result ToolInvocation.t :=
  let? idem := (if is_write c then as_opt_str (key c) else Ok None) in
  validate (ToolInvocation.mk (invocation_id c) (eff_run_id c) (AuthContext.tenant_id (auth c))
    (tool_name c) (ToolMetadata.version (meta c)) (input_hash c) (redacted_in c) out_hash
    (status x) (Some (decision x)) idem (is_write c && dry_run c) (started c) (Some completed)
    span_trace None (error_dict error)).

Definition audit (c : Call) (out_hash : option string) (error : option (string * string))
    : M (Exec W) unit :=
  let* completed := on_db now in
  let* x := gets id in
  let* entry := lift_result (audit_entry c x out_hash error completed) in
  on_gateway (log_audit entry) ;;*
  persist_audit_record c out_hash error.

(** Tenant and scopes. *)
Definition authorize (c : Call) : M (Exec W) unit :=
  try_catch
    (let* _ := lift_result (AuthContext.check_tenant (auth c)
                              (get_or "tenant_id" VNone (raw_args c))) in
     lift_result (AuthContext.require_scope (auth c) (ToolMetadata.required_scopes (meta c))))
    (fun e => if AuthContext.is_forbidden e
              then set_decision AuthorizationDecision.DENIED ;;*
                   raise (MCPToolError "forbidden" (exn_str e))
              else raise e).

(** Strict validation; the tenant of the arguments is the caller's. *)
Definition validated_args (c : Call) : M (Exec W) dict :=
  match dget (tool_name c) McpModels.INPUT_MODELS with
  | None => raise (KeyError (PyStr.repr (tool_name c)))
  | Some model =>
      match McpModels.construct model (raw_args c) with
      | Exn e => raise (MCPToolError "validation_error" ("invalid input: " +:+ exn_str e))
      | Ok parsed =>
          let* args := lift_result (McpModels.model_dump parsed) in
          ret (dset "tenant_id" (VStr (AuthContext.tenant_id (auth c))) args)
      end
  end.

(** Approval, idempotency key and replay of a write; [Some] is a cached
    result. *)
Definition write_gate (c : Call) : M (Exec W) (option dict) :=
  set_decision AuthorizationDecision.REQUIRES_APPROVAL ;;*
  (if negb (dry_run c) && negb (AuthContext.approved (auth c))
   then raise (MCPToolError "approval_required"
                 (tool_name c +:+ " requires human approval (dry_run=false)"))
   else ret tt) ;;*
  set_decision AuthorizationDecision.ALLOWED ;;*
  (if negb (dry_run c) && negb (truthy (key c))
   then raise (MCPToolError "validation_error" "idempotency_key required when dry_run=false")
   else ret tt) ;;*
  if truthy (key c) then
    let* seen := gets (fun x => dget (store_key c) (IDEMPOTENCY_STORE (gw x))) in
    match seen with
    | None => ret None
    | Some (hash, result) =>
        if negb (String.eqb hash (input_hash c))
        then raise (MCPToolError "conflict" "idempotency key already used with different input")
        else
          let cached := dset "deduplicated" (VBool true) result in
          audit c (Some (McpRedact.sha256_hex (McpRedact.redact (VDict cached)))) None ;;*
          ret (Some cached)
    end
  else ret None.

(** [await asyncio.wait_for(HANDLERS[tool_name](args), timeout)] *)
Definition run_handler (c : Call) (args : dict) (timeout : pyval) : M (Exec W) dict :=
  match dget (tool_name c) HANDLERS with
  | None => raise (KeyError (PyStr.repr (tool_name c)))
  | Some handler =>
      let* delay := gets (fun x => default (PyFloat.of_Z 0)
                            (dget (tool_name c) (INJECTED_DELAYS (gw x)))) in
      if in_time (tool_name c) delay timeout then handler args
      else set_status ToolInvocationStatus.TIMEOUT ;;*
           raise (MCPToolError "timeout"
                    (tool_name c +:+ " timed out after " +:+ py_str timeout +:+ "s"))
  end.

(** The result of a fresh execution: bounded, redacted, remembered, audited. *)
Definition finish (c : Call) (result : dict) : M (Exec W) dict :=
  (if McpRedact.output_too_large (VDict result) 65536
   then raise (MCPToolError "tool_error" "tool result oversize; rejected") else ret tt) ;;*
  let result := McpRedact.redact_dict result in
  let* stored := gets (fun x => dmem (store_key c) (IDEMPOTENCY_STORE (gw x))) in
  (if truthy (key c) && is_write c && negb stored
   then on_gateway (remember (store_key c) (input_hash c, result)) else ret tt) ;;*
  audit c (Some (McpRedact.sha256_hex (VDict result))) None ;;*
  ret result.

Definition body (c : Call) (timeout_override : option float) : M (Exec W) dict :=
  authorize c ;;*
  let* args := validated_args c in
  let* cached := (if is_write c then write_gate c else ret None) in
  match cached with
  | Some r => ret r
  | None =>
      let timeout := match timeout_override with
                     | Some t => VFloat t
                     | None => VInt (ToolMetadata.timeout_seconds (meta c))
                     end in
      let* result := run_handler c args timeout in
      finish c result
  end.

(** [except MCPToolError] *)
Definition on_tool_error (c : Call) (e : exn) : M (Exec W) dict :=
  if is_tool_error e then
    let* x := gets id in
    (if bool_decide (status x = ToolInvocationStatus.TIMEOUT) then ret tt
     else set_status ToolInvocationStatus.FAILED) ;;*
    (if mem (error_code e) ["forbidden"; "auth_error"]
     then set_decision AuthorizationDecision.DENIED else ret tt) ;;*
    audit c None (Some (error_code e, exn_str e)) ;;*
    raise e
  else raise e.

Definition run_call (c : Call) (timeout_override : option float) : M (Exec W) dict :=
  try_catch (body c timeout_override) (on_tool_error c).

(** [x or y] on an optional string *)
Definition given_or (o : option string) (other : pyval) : pyval :=
  match o with Some s => if String.eqb s "" then other else VStr s | None => other end.

(** The identifiers, hash and flags of a call. *)
Definition prepare (tool_name : string) (raw_args : dict) (auth : AuthContext.t)
    (idempotency_key run_id : option string) (meta : ToolMetadata.t) : M W Call :=
  let* started := now in
  let* invocation_id := new_id "inv" in
  let* eff_run_id := (if Repository.given run_id then ret (default "" run_id) else new_id "run") in
  let redacted_in := McpRedact.redact_dict raw_args in
  ret (mkCall tool_name meta auth started invocation_id eff_run_id raw_args redacted_in
    (McpRedact.sha256_hex (VDict redacted_in))
    (truthy (get_or "dry_run" (VBool true) raw_args))
    (given_or idempotency_key (get_or "idempotency_key" VNone raw_args))).

Definition execute_tool (tool_name : string) (raw_args : dict) (auth : AuthContext.t)
    (idempotency_key run_id : option string) (timeout_override : option float)
    : M (Gateway W) dict := fun g =>
  match dget tool_name Catalog.TOOL_METADATA with
  | None => (g, Exn (MCPToolError "not_found" ("unknown tool " +:+ tool_name)))
  | Some meta =>
      let go := (let* c := on_db (prepare tool_name raw_args auth idempotency_key run_id meta) in
                 run_call c timeout_override) in
      let '(x, r) := go (mkExec g AuthorizationDecision.ALLOWED ToolInvocationStatus.SUCCEEDED) in
      (gw x, r)
  end.
End Handlers.
End Executor.
