(* ===== verification/ExecutorProps.v ===== *)
(** * What executing a tool guarantees

    Authorization before effects, one audit entry per call, replay of writes
    under their idempotency key, and two places where the executor does other
    than it says. *)

From stdpp Require Import base list strings relations.
From Stdlib Require Import ZArith Lia Ascii SpecFloat.
From S2P Require Import Prelude.
From S2P Require Import PyFloat.
From S2P Require Import PyValue.
From S2P Require Import PyTime.
From S2P Require Import Contracts.
From S2P Require Import ContractsOps.
From S2P Require Import Redaction.
From S2P Require Import Catalog.
From S2P Require Import Tables.
From S2P Require Import Repository.
From S2P Require Import MemoryEngine.
From S2P Require Import Security.
From S2P Require Import McpModels.
From S2P Require Import Executor.

Import Executor.
Local Open Scope py_scope.

Lemma wp_conj {S A} (m : M S A) (Q1 Q2 Q : A -> S -> Prop) (E1 E2 E : exn -> S -> Prop) s :
  wp m Q1 E1 s -> wp m Q2 E2 s -> (forall a s', Q1 a s' -> Q2 a s' -> Q a s') ->
  (forall e s', E1 e s' -> E2 e s' -> E e s') -> wp m Q E s.
Proof. unfold wp. destruct (m s) as [? []]; auto. Qed.

Section Frames.
Context {W : Type} `{EngineLaws W}.

(** Only the repository's world may differ. *)
Record frame (x x' : Exec W) : Prop := {
  f_log : AUDIT_LOG (gw x') = AUDIT_LOG (gw x);
  f_store : IDEMPOTENCY_STORE (gw x') = IDEMPOTENCY_STORE (gw x);
  f_delays : INJECTED_DELAYS (gw x') = INJECTED_DELAYS (gw x);
  f_decision : decision x' = decision x;
  f_status : status x' = status x;
}.

Lemma frame_refl x : frame x x.
Proof. by constructor. Qed.
Lemma frame_trans x y z : frame x y -> frame y z -> frame x z.
Proof. intros [] []. constructor; congruence. Qed.

Lemma wp_on_db {A} (m : M W A) Q E x :
  (forall a x', frame x x' -> Q a x') -> (forall e x', frame x x' -> E e x') ->
  wp (on_db m) Q E x.
Proof.
  intros HQ HE. unfold wp, on_db. destruct (m (database (gw x))) as [w' [a|e]];
    [apply HQ|apply HE]; by constructor.
Qed.

(** The clock and the identifiers never raise. *)
Lemma wp_on_db_observes {A} (m : M W A) Q E x :
  observes m -> (forall a x', frame x x' -> Q a x') -> wp (on_db m) Q E x.
Proof.
  intros Ho HQ. unfold wp, on_db. destruct (Ho (database (gw x))) as (w' & a & -> & _).
  apply HQ. by constructor.
Qed.

Lemma wp_lift_result {A} (r : result A) (Q : A -> Exec W -> Prop) E x :
  (forall a, r = Ok a -> Q a x) -> (forall e, r = Exn e -> E e x) -> wp (lift_result r) Q E x.
Proof. intros HQ HE. apply wp_lift. destruct r; auto. Qed.
End Frames.

Ltac ex_step :=
  match goal with
  | |- wp (bind _ _) _ _ _ => apply wp_bind
  | |- wp (ret _) _ _ _ => apply wp_ret
  | |- wp (raise _) _ _ _ => apply wp_raise
  | |- wp (gets _) _ _ _ => apply wp_gets
  | |- wp (modify _) _ _ _ => apply wp_modify
  | |- wp (set_decision _) _ _ _ => apply wp_modify
  | |- wp (set_status _) _ _ _ => apply wp_modify
  | |- wp (on_gateway _) _ _ _ => apply wp_modify
  | |- wp (lift_result _) _ _ _ => apply wp_lift_result; [intros ? ?|intros ? ?]
  | |- wp (try_catch _ _) _ _ _ => apply wp_try
  | |- wp (on_db now) _ _ _ => apply wp_on_db_observes; [apply now_law|intros ? ? ?]
  | |- wp (on_db _) _ _ _ => apply wp_on_db; [intros ? ? ?|intros ? ? ?]
  | |- wp (if ?b then _ else _) _ _ _ => destruct b eqn:?
  | |- wp (match ?x with _ => _ end) _ _ _ => destruct x eqn:?
  end; cbn beta.

Section Parts.
Context {W : Type} `{EngineLaws W} `{Pydantic}.
Variable in_time : string -> float -> pyval -> bool.
Variable span_trace : option string.

Lemma log_entries_frame query n i (x : Exec W) :
  wp (log_entries query n i) (fun _ => frame x) (fun _ => frame x) x.
Proof.
  revert i x. induction n as [|n IH]; intros i x; simpl; [apply wp_ret, frame_refl|].
  apply wp_bind, wp_on_db; [|done]. intros t x1 Hf1. apply wp_bind.
  eapply wp_mono; [apply IH| |].
  - intros l x2 Hf2. apply wp_ret. by eapply frame_trans.
  - intros e x2 Hf2. by eapply frame_trans.
Qed.

(** The handlers touch nothing but the clock. *)
Lemma handlers_frame name h args (x : Exec W) :
  dget name HANDLERS = Some h -> wp (h args) (fun _ => frame x) (fun _ => frame x) x.
Proof.
  intros Hh. unfold HANDLERS in Hh. cbn [dget] in Hh.
  repeat match type of Hh with
    | (if ?b then _ else _) = _ => destruct b; [injection Hh as <-|]
    end; [..|done];
    cbv [h_query_metrics h_query_logs h_get_trace h_get_health h_search h_get_runbook
         h_get_current_release h_simulate h_rollback h_ticket_create];
    repeat ex_step; try apply frame_refl.
  eapply wp_mono; [apply log_entries_frame| |]; [|done]. intros l x' Hf. by apply wp_ret.
Qed.

Lemma persist_frame c out err (x : Exec W) :
  wp (persist_audit_record span_trace c out err) (fun _ => frame x) (fun _ _ => False) x.
Proof.
  unfold persist_audit_record. repeat ex_step; simpl; try apply frame_refl; done.
Qed.

(** An audit entry is appended, or the entry is invalid and nothing is. *)
Definition entry_of (c : Call) (d : AuthorizationDecision.t) (s : ToolInvocationStatus.t)
    (out : option string) (err : option (string * string)) (i : ToolInvocation.t) : Prop :=
  ToolInvocation.status i = s /\ ToolInvocation.authorization_decision i = Some d
  /\ ToolInvocation.tool_name i = Field.trim (tool_name c)
  /\ ToolInvocation.tenant_id i = Field.trim (AuthContext.tenant_id (auth c))
  /\ ToolInvocation.run_id i = Field.trim (eff_run_id c)
  /\ ToolInvocation.redacted_input i = Field.strip_keys (redacted_in c)
  /\ ToolInvocation.error i = error_dict err.

Record logged (x x' : Exec W) (P : ToolInvocation.t -> Prop) : Prop := {
  l_log : exists i, AUDIT_LOG (gw x') = AUDIT_LOG (gw x) ++ [i] /\ P i;
  l_store : IDEMPOTENCY_STORE (gw x') = IDEMPOTENCY_STORE (gw x);
  l_decision : decision x' = decision x;
  l_status : status x' = status x;
}.

Lemma audit_entry_of c (x : Exec W) out err t i :
  audit_entry span_trace c x out err t = Ok i -> entry_of c (decision x) (status x) out err i.
Proof.
  unfold audit_entry, rbind. destruct (if is_write c then _ else _) as [idem|]; [|done].
  intros (-> & _)%validate_ok. unfold entry_of. cbn. split_and!; try done.
  by destruct err as [[? ?]|].
Qed.

Lemma audit_wp c out err (x : Exec W) :
  wp (audit span_trace c out err)
     (fun _ x' => logged x x' (entry_of c (decision x) (status x) out err))
     (fun e x' => frame x x' /\ is_tool_error e = false) x.
Proof.
  unfold audit. ex_step. ex_step. destruct H2 as [F1 F2 F3 F4 F5].
  ex_step. ex_step. ex_step. ex_step.
  - ex_step. ex_step. eapply wp_mono; [apply persist_frame| |done].
    intros [] x2 [G1 G2 G3 G4 G5]. simpl in *. apply audit_entry_of in H2.
    unfold id in *. rewrite F4, F5 in H2.
    constructor; [|congruence..]. rewrite G1, F1. eauto.
  - split; [by constructor|]. unfold audit_entry, rbind in H2.
    destruct (if is_write c then _ else _) as [idem|e'] eqn:Ei.
    + apply validate_error in H2 as [m ->]. done.
    + injection H2 as <-. destruct (is_write c); [|done].
      destruct (key c); simpl in Ei; by simplify_eq.
Qed.
End Parts.

(** What is remembered under a key stays. *)
Definition store_grows {W} (g g' : Gateway W) : Prop :=
  forall k v, dget k (IDEMPOTENCY_STORE g) = Some v -> dget k (IDEMPOTENCY_STORE g') = Some v.
#[export] Instance store_grows_order {W} : PreOrder (@store_grows W).
Proof. split; [by intros g k v|]. intros g1 g2 g3 H12 H23 k v Hk. auto. Qed.
Lemma store_same {W} (g g' : Gateway W) :
  IDEMPOTENCY_STORE g' = IDEMPOTENCY_STORE g -> store_grows g g'.
Proof. intros E k v. by rewrite E. Qed.

(** Runs a part of the executor down to its outcomes. *)
Ltac ex_run :=
  repeat first [ex_step | match goal with
    | |- wp (audit _ _ _ _) _ _ _ =>
        eapply wp_mono; [apply audit_wp|intros ? ? ?|intros ? ? [? ?]]; cbn beta
    end].

(** Audit log and idempotency store are as they were. *)
Record quiet {W} (x x' : Exec W) : Prop := {
  q_log : AUDIT_LOG (gw x') = AUDIT_LOG (gw x);
  q_store : IDEMPOTENCY_STORE (gw x') = IDEMPOTENCY_STORE (gw x);
}.
Lemma quiet_frame {W} (x x' : Exec W) : frame x x' -> quiet x x'.
Proof. by intros []. Qed.
Lemma quiet_trans {W} (x y z : Exec W) : quiet x y -> quiet y z -> quiet x z.
Proof. intros [] []. constructor; congruence. Qed.
#[export] Hint Resolve quiet_frame quiet_trans frame_refl frame_trans : exec.

(** The caller's tenant and scopes cover the call. *)
Definition authorized (c : Call) : Prop :=
  (let requested := get_or "tenant_id" VNone (raw_args c) in
   truthy requested = false \/ requested = VStr (AuthContext.tenant_id (auth c)))
  /\ ("*" ∈ AuthContext.scopes (auth c)
      \/ forall s, s ∈ ToolMetadata.required_scopes (meta c) -> s ∈ AuthContext.scopes (auth c)).
(** A write for real is approved and carries an idempotency key. *)
Definition cleared (c : Call) : Prop :=
  is_write c = true -> dry_run c = false ->
  AuthContext.approved (auth c) = true /\ truthy (key c) = true.

Section Stages.
Context {W : Type} `{EngineLaws W} `{Pydantic}.
Variable in_time : string -> float -> pyval -> bool.
Variable span_trace : option string.
Implicit Types (x : Exec W).

Lemma authorize_wp c x :
  wp (authorize c) (fun _ x' => x' = x /\ authorized c) (fun _ x' => quiet x x') x.
Proof.
  unfold authorize. repeat ex_step; try done. split; [done|]. split.
  - unfold AuthContext.check_tenant in *. simpl.
    destruct (truthy _) eqn:Et; [|by left]. right. simpl in *.
    destruct (get_or _ _ _) as [| | | |s| | | ]; simpl in *; try done.
    destruct (String.eqb_spec s (AuthContext.tenant_id (auth c))); [by subst|done].
  - destruct a0. by apply SecurityLemmas.require_scope_ok.
Qed.

Lemma validated_args_wp c x :
  wp (validated_args c) (fun _ x' => x' = x) (fun _ x' => x' = x) x.
Proof. unfold validated_args. repeat ex_step; done. Qed.

Lemma write_gate_wp c x :
  wp (write_gate span_trace c)
     (fun o x' => (dry_run c = false -> AuthContext.approved (auth c) = true /\ truthy (key c) = true)
        /\ match o with
           | None => quiet x x' /\ status x' = status x
                     /\ decision x' = AuthorizationDecision.ALLOWED
                     /\ (truthy (key c) = true ->
                         dget (store_key c) (IDEMPOTENCY_STORE (gw x)) = None)
           | Some r => truthy (key c) = true
               /\ (exists res, dget (store_key c) (IDEMPOTENCY_STORE (gw x))
                                 = Some (input_hash c, res) /\ r = dset "deduplicated" (VBool true) res)
               /\ IDEMPOTENCY_STORE (gw x') = IDEMPOTENCY_STORE (gw x)
               /\ exists i out, AUDIT_LOG (gw x') = AUDIT_LOG (gw x) ++ [i]
                  /\ entry_of c AuthorizationDecision.ALLOWED (status x) out None i
           end)
     (fun _ x' => quiet x x') x.
Proof.
  assert (Happ : negb (dry_run c) && negb (AuthContext.approved (auth c)) = false ->
    negb (dry_run c) && negb (truthy (key c)) = false -> dry_run c = false ->
    AuthContext.approved (auth c) = true /\ truthy (key c) = true).
  { intros Ha Hk Hd. rewrite Hd in *. simpl in *. by apply negb_false_iff in Ha, Hk. }
  unfold write_gate. ex_run; simpl in *; try done.
  - split; [by apply Happ|]. apply negb_false_iff, String.eqb_eq in Heqb2 as ->.
    destruct H2 as [[i [Hl He]] Hs _ _]. simpl in *. split_and!; eauto.
  - destruct H2. by constructor.
  - split; [by apply Happ|]. by split_and!.
  - split; [by apply Happ|]. by split_and!.
Qed.

(** A handler that runs leaves the store; one that does not marks a timeout. *)
Lemma run_handler_wp c args timeout x :
  wp (run_handler in_time c args timeout)
     (fun _ x' => frame x x')
     (fun e x' => frame x x'
        \/ (quiet x x' /\ status x' = ToolInvocationStatus.TIMEOUT /\ is_tool_error e = true)) x.
Proof.
  unfold run_handler. destruct (dget (tool_name c) HANDLERS) as [h|] eqn:Eh.
  - ex_step. ex_step. ex_step.
    + eapply wp_mono; [by eapply handlers_frame|done|]. intros e x' Hf. by left.
    + ex_run. by right.
  - apply wp_raise. left. apply frame_refl.
Qed.

Definition stored_result c (r : dict) x x' : Prop :=
  if truthy (key c) && is_write c && negb (dmem (store_key c) (IDEMPOTENCY_STORE (gw x)))
  then IDEMPOTENCY_STORE (gw x')
       = dset (store_key c) (input_hash c, r) (IDEMPOTENCY_STORE (gw x))
  else IDEMPOTENCY_STORE (gw x') = IDEMPOTENCY_STORE (gw x).

Lemma stored_result_keeps c r x x' : stored_result c r x x' -> store_grows (gw x) (gw x').
Proof.
  unfold stored_result, dmem, store_grows. intros Hs k v Hk.
  destruct (truthy (key c) && is_write c && _) eqn:Eb; rewrite Hs; [|done].
  destruct (String.eqb_spec k (store_key c)) as [->|Hne]; [|by rewrite dget_dset_ne].
  rewrite Hk, !andb_false_r in Eb. done.
Qed.

Lemma finish_wp c result x :
  wp (finish span_trace c result)
     (fun r x' => stored_result c r x x' /\ r = McpRedact.redact_dict result
        /\ exists i out, AUDIT_LOG (gw x') = AUDIT_LOG (gw x) ++ [i]
           /\ entry_of c (decision x) (status x) out None i)
     (fun e x' => AUDIT_LOG (gw x') = AUDIT_LOG (gw x)
        /\ (IDEMPOTENCY_STORE (gw x') = IDEMPOTENCY_STORE (gw x)
            \/ (is_tool_error e = false /\ store_grows (gw x) (gw x')))
        /\ status x' = status x) x.
Proof.
  unfold finish, stored_result. ex_run; simpl in *; rewrite ?Heqb0; try (by split_and!; [|left|]).
  - destruct H2 as [[i [Hl He]] Hs _ _]. simpl in *. split_and!; [done|done|eauto].
  - destruct H2 as [Hl Hs _ _ Hst]. simpl in *. split_and!; [done| |done]. right. split; [done|].
    apply (stored_result_keeps c (McpRedact.redact_dict result)). unfold stored_result. by rewrite Heqb0.
  - destruct H2 as [[i [Hl He]] Hs _ _]. simpl in *. split_and!; [done|done|eauto].
  - destruct H2 as [Hl Hs _ _ Hst]. simpl in *. split_and!; [done|by left|done].
Qed.
End Stages.

(** The store after a call that returned [r]: a replay leaves it, a fresh keyed
    write adds its result. *)
Definition store_after {W} (c : Call) (r : dict) (x x' : Exec W) : Prop :=
  if is_write c && truthy (key c) then
    match dget (store_key c) (IDEMPOTENCY_STORE (gw x)) with
    | Some (hash, res) =>
        hash = input_hash c /\ r = dset "deduplicated" (VBool true) res
        /\ IDEMPOTENCY_STORE (gw x') = IDEMPOTENCY_STORE (gw x)
    | None =>
        IDEMPOTENCY_STORE (gw x')
        = dset (store_key c) (input_hash c, r) (IDEMPOTENCY_STORE (gw x))
    end
  else IDEMPOTENCY_STORE (gw x') = IDEMPOTENCY_STORE (gw x).

Definition logs {W} (c : Call) d st err (x x' : Exec W) : Prop :=
  exists i out, AUDIT_LOG (gw x') = AUDIT_LOG (gw x) ++ [i] /\ entry_of c d st out err i.

Section Calls.
Context {W : Type} `{EngineLaws W} `{Pydantic}.
Variable in_time : string -> float -> pyval -> bool.
Variable span_trace : option string.
Implicit Types (x : Exec W).

Definition fresh x : Prop :=
  decision x = AuthorizationDecision.ALLOWED /\ status x = ToolInvocationStatus.SUCCEEDED.

Definition body_returns c x (r : dict) x' : Prop :=
  authorized c /\ cleared c /\ store_after c r x x'
  /\ logs c AuthorizationDecision.ALLOWED ToolInvocationStatus.SUCCEEDED None x x'.
Definition body_raises c x e x' : Prop :=
  AUDIT_LOG (gw x') = AUDIT_LOG (gw x)
  /\ (IDEMPOTENCY_STORE (gw x') = IDEMPOTENCY_STORE (gw x)
      \/ (is_tool_error e = false /\ authorized c /\ cleared c /\ store_grows (gw x) (gw x'))).

Lemma body_quiet c x e x' : quiet x x' -> body_raises c x e x'.
Proof. intros []. split; [done|by left]. Qed.

(** What follows the gate: the handler and its bookkeeping. *)
Lemma tail_wp c args timeout x x1 :
  quiet x x1 -> fresh x1 -> authorized c -> cleared c ->
  (is_write c = true -> truthy (key c) = true ->
   dget (store_key c) (IDEMPOTENCY_STORE (gw x)) = None) ->
  wp (let* result := run_handler in_time c args timeout in finish span_trace c result)
     (body_returns c x) (body_raises c x) x1.
Proof.
  intros [Q1 Q2] [F1 F2] Ha Hcl Hnew. apply wp_bind.
  eapply wp_mono; [apply run_handler_wp| |].
  - intros res x2 [G1 G2 G3 G4 G5]. eapply wp_mono; [apply finish_wp| |].
    + intros r x3 (Hs & _ & i & out & Hl & He). split; [done|]. split; [done|]. split.
      * unfold stored_result in Hs. unfold store_after. unfold dmem in Hs.
        rewrite G2, Q2 in Hs. destruct (is_write c), (truthy (key c)); simpl in *; try done.
        by rewrite Hnew in * by done.
      * exists i, out. rewrite Hl, G1, Q1. split; [done|]. by rewrite G4, G5, F1, F2 in He.
    + intros e x3 (Hl & Hs & _). split; [congruence|].
      destruct Hs as [Hs|[? Hs]]; [left; congruence|right]. split_and!; [done..|].
      etrans; [apply (store_same _ (gw x1)); congruence|]. etrans; [apply (store_same _ (gw x2)); congruence|done].
  - intros e x2 [[G1 G2 _ _ _]|([G1 G2] & _)]; apply body_quiet; constructor; congruence.
Qed.

Lemma body_wp c to x :
  fresh x -> wp (body in_time span_trace c to) (body_returns c x) (body_raises c x) x.
Proof.
  intros [Hd Hs]. unfold body. apply wp_bind.
  eapply wp_mono; [apply authorize_wp| |intros e x1; apply body_quiet].
  intros [] x1 [-> Ha]. apply wp_bind.
  eapply wp_mono; [apply validated_args_wp| |intros e x1 ->; by apply body_quiet].
  intros args x1 ->. apply wp_bind. destruct (is_write c) eqn:Ew.
  - eapply wp_mono; [apply write_gate_wp| |intros e x1; apply body_quiet].
    intros [r|] x1 [Hc Hr].
    + destruct Hr as (Hk & (res & Hg & ->) & Hst & i & out & Hl & He). apply wp_ret.
      split; [done|]. split; [intros _; apply Hc|]. split.
      * unfold store_after. by rewrite Ew, Hk, Hg.
      * exists i, out. by rewrite <- Hs.
    + destruct Hr as (Hq & Hst & Hd' & Hn). apply tail_wp;
        [done|split; congruence|done|intros _; apply Hc|intros _; exact Hn].
  - apply wp_ret, tail_wp; [done|done|done|intros ?; congruence|intros ?; congruence].
Qed.

(** What one call that raised a tool error leaves: its entry, with its code. *)
Definition failed_with c (e : exn) x x' : Prop :=
  exists d st, logs c d st (Some (error_code e, exn_str e)) x x'
    /\ (st = ToolInvocationStatus.FAILED \/ st = ToolInvocationStatus.TIMEOUT)
    /\ (error_code e = "forbidden" -> d = AuthorizationDecision.DENIED).

Lemma on_tool_error_wp c e x :
  is_tool_error e = true ->
  wp (on_tool_error span_trace c e) (fun _ _ => False)
     (fun e' x' => IDEMPOTENCY_STORE (gw x') = IDEMPOTENCY_STORE (gw x)
        /\ if is_tool_error e' then failed_with c e' x x'
           else AUDIT_LOG (gw x') = AUDIT_LOG (gw x)) x.
Proof.
  intros Ee. unfold on_tool_error. rewrite Ee. ex_run; simpl in *; rewrite ?Ee;
    try (destruct H2; split; [done|]; match goal with E : is_tool_error ?e0 = false |- _ =>
           by rewrite E end).
  all: destruct H2 as [[i [Hl He]] Hs _ _]; split; [done|]; eexists _, _;
    (split; [by eexists i, _|]); simpl in *.
  1,2: apply bool_decide_eq_true in Heqb; rewrite Heqb; split; [by right|].
  3,4: split; [by left|].
  all: intros Hc; rewrite Hc in *; by simpl in *.
Qed.

Lemma on_tool_error_raises c e x Q :
  wp (on_tool_error span_trace c e) Q (fun _ _ => True) x.
Proof.
  destruct (is_tool_error e) eqn:Ee.
  - eapply wp_mono; [by apply on_tool_error_wp|done|done].
  - unfold on_tool_error. rewrite Ee. by apply wp_raise.
Qed.
End Calls.

Lemma dget_map_value (f : string -> pyval -> pyval) k (d : dict) :
  dget k (map (fun kv => (kv.1, f kv.1 kv.2)) d) = f k <$> dget k d.
Proof.
  induction d as [|[k' v] d IH]; simpl; [done|].
  destruct (String.eqb_spec k k') as [->|]; [done|apply IH].
Qed.

(** ** Real effects *)

(** The input model reads the arguments as a call for real. *)
Definition read_as_real `{Pydantic} (raw : dict) : Prop :=
  match dget "dry_run" raw with Some v => as_bool v = Some false | None => True end.
(** The result says that something was executed. *)
Definition says_executed (r : dict) : Prop := dget "executed" r = Some (VBool true).

Lemma redact_says_executed r : says_executed (McpRedact.redact_dict r) -> says_executed r.
Proof.
  unfold says_executed, McpRedact.redact_dict. cbn [McpRedact.redact].
  rewrite (dget_map_value (fun k v => if McpRedact.sensitive k then VStr McpRedact.REDACTED else McpRedact.redact v)).
  replace (McpRedact.sensitive "executed") with false by (by vm_compute).
  destruct (dget "executed" r) as [v|]; [|done]. simpl. by destruct v; intros [= ->].
Qed.

Section Effects.
Context {W : Type} `{EngineLaws W} `{Pydantic}.
Variable in_time : string -> float -> pyval -> bool.
Variable span_trace : option string.
Implicit Types (x : Exec W).

(** Only a ticket is ever executed, and only when its flag says so. *)
Lemma handlers_executed name h args x :
  dget name HANDLERS = Some h ->
  wp (h args) (fun r _ => says_executed r ->
      name = "ticket.create" /\ truthy (get_or "dry_run" (VBool false) args) = false)
    (fun _ _ => True) x.
Proof.
  intros Hh. unfold HANDLERS in Hh. cbn [dget] in Hh. unfold says_executed.
  repeat match type of Hh with
    | (if ?b then _ else _) = _ => destruct b eqn:?; [injection Hh as <-|]
    end; [..|done];
    cbv [h_query_metrics h_query_logs h_get_trace h_get_health h_search h_get_runbook
         h_get_current_release h_simulate h_rollback h_ticket_create];
    repeat ex_step; try done.
  - eapply wp_mono; [apply log_entries_frame| |done]. intros l x' _. by apply wp_ret.
  - unfold get_runbook in Heqo. destruct a; try done. cbn [RUNBOOKS dget] in Heqo.
    repeat match type of Heqo with (if ?b then _ else _) = _ => destruct b; [by injection Heqo as <-|] end. done.
  - intros [= Hd%negb_true_iff]. split; [by apply String.eqb_eq|done].
Qed.

Lemma run_handler_executed c args timeout x :
  wp (run_handler in_time c args timeout) (fun r _ => says_executed r ->
      tool_name c = "ticket.create" /\ truthy (get_or "dry_run" (VBool false) args) = false)
    (fun _ _ => True) x.
Proof.
  unfold run_handler. destruct (dget _ HANDLERS) eqn:Eh; [|by apply wp_raise].
  ex_step. ex_step. ex_step; [by apply handlers_executed|]. by repeat ex_step.
Qed.

(** The flag that the handler of tickets sees is the one that the model read. *)
Lemma ticket_flag raw parsed :
  McpModels.construct McpModels.TicketCreateInput raw = Ok parsed ->
  truthy (get_or "dry_run" (VBool false) parsed) = false -> read_as_real raw.
Proof.
  intros Ep%McpModels.construct_parsed.
  assert (NoDup (map McpModels.fname McpModels.TicketCreateInput)) as Hn
    by (refine (bool_decide_eq_true_1 _ _); vm_compute; reflexivity).
  destruct (McpModels.parse_fields_get _ _ _ (McpModels.dflt "dry_run" McpModels.FBool (VBool false)) Hn Ep)
    as (v & Hv & Hg); [unfold McpModels.TicketCreateInput; rewrite !elem_of_cons; tauto|].
  change (McpModels.fname (McpModels.dflt "dry_run" McpModels.FBool (VBool false))) with "dry_run" in Hg.
  unfold get_or. rewrite Hg. unfold read_as_real, McpModels.parse_field in *. simpl in Hv.
  destruct (dget "dry_run" raw) as [u|]; [|done].
  destruct u; simpl in Hv; try done;
    match type of Hv with context [as_bool ?u] => destruct (as_bool u) as [[]|] eqn:? end; simpl in Hv; intros; by simplify_eq/=.
Qed.
Lemma validated_args_flag c x :
  wp (validated_args c) (fun args x' => x' = x /\ (tool_name c = "ticket.create" ->
      truthy (get_or "dry_run" (VBool false) args) = false -> read_as_real (raw_args c)))
    (fun _ _ => True) x.
Proof.
  unfold validated_args. destruct (dget _ McpModels.INPUT_MODELS) as [model|] eqn:Em; [|by apply wp_raise].
  destruct (McpModels.construct model (raw_args c)) as [parsed|e] eqn:Ep; [|by apply wp_raise].
  repeat ex_step; [|done]. split; [done|]. intros Et. rewrite Et in Em. injection Em as <-.
  unfold McpModels.model_dump in *. destruct (serializable _); simplify_eq.
  unfold get_or. rewrite dget_dset_ne by done. by apply ticket_flag.
Qed.

(** Where the result of a call comes from. *)
Definition replays c x (r : dict) : Prop :=
  exists res, dget (store_key c) (IDEMPOTENCY_STORE (gw x)) = Some (input_hash c, res)
    /\ r = dset "deduplicated" (VBool true) res.
Lemma run_call_executed c to x :
  wp (run_call in_time span_trace c to) (fun r _ => says_executed r ->
      replays c x r \/ (tool_name c = "ticket.create" /\ read_as_real (raw_args c)))
    (fun _ _ => True) x.
Proof.
  unfold run_call. apply wp_try.
  eapply (wp_mono _ _ _ (fun _ _ => True)); [|intros r x1 Hr; exact Hr|intros e x' _; apply on_tool_error_raises].
  unfold body. apply wp_bind. eapply wp_mono; [apply authorize_wp| |done]. intros [] x1 [-> _].
  apply wp_bind. eapply wp_mono; [apply validated_args_flag| |done]. intros args x1 [-> Hflag]. apply wp_bind.
  assert (forall timeout y, wp (let* result := run_handler in_time c args timeout in finish span_trace c result)
    (fun r _ => says_executed r -> replays c x r \/ (tool_name c = "ticket.create" /\ read_as_real (raw_args c)))
    (fun _ _ => True) y) as Htail.
  { intros timeout y. apply wp_bind. eapply wp_mono; [apply run_handler_executed| |done]. intros r y1 Hr.
    eapply wp_mono; [apply finish_wp| |done]. intros r' y2 (_ & -> & _) He%redact_says_executed.
    destruct (Hr He) as [Et Hd]. right. split; [done|by apply Hflag]. }
  destruct (is_write c); [|by apply wp_ret].
  eapply wp_mono; [apply write_gate_wp| |done]. intros [r|] y (_ & Hr); [|apply Htail].
  apply wp_ret. intros _. left. by destruct Hr as (_ & Hr & _).
Qed.
End Effects.

Lemma run_call_authorized {W} `{EngineLaws W} `{Pydantic} in_time span_trace c to (x : Exec W) :
  fresh x ->
  wp (run_call in_time span_trace c to)
     (fun _ _ => authorized c /\ cleared c)
     (fun _ x' => IDEMPOTENCY_STORE (gw x') = IDEMPOTENCY_STORE (gw x)
                  \/ (authorized c /\ cleared c)) x.
Proof.
  intros Hf. unfold run_call. apply wp_try. eapply wp_mono; [by apply body_wp| |].
  - intros r x' (? & ? & _). done.
  - intros e x1 [Hl Hs]. destruct (is_tool_error e) eqn:Ee.
    + destruct Hs as [Hs|[? _]]; [|congruence].
      eapply wp_mono; [by apply on_tool_error_wp|done|]. intros e' x' [Hs' _]. left. congruence.
    + unfold on_tool_error. rewrite Ee. apply wp_raise. destruct Hs as [?|(_ & ? & ? & _)]; [by left|by right].
Qed.

Lemma run_call_audited {W} `{EngineLaws W} `{Pydantic} in_time span_trace c to (x : Exec W) :
  fresh x ->
  wp (run_call in_time span_trace c to)
     (fun _ x' => logs c AuthorizationDecision.ALLOWED ToolInvocationStatus.SUCCEEDED None x x')
     (fun e x' =>
        if is_tool_error e then failed_with c e x x'
        else AUDIT_LOG (gw x') = AUDIT_LOG (gw x)) x.
Proof.
  intros Hf. unfold run_call. apply wp_try. eapply wp_mono; [by apply body_wp| |].
  - by intros r x' (_ & _ & _ & ?).
  - intros e x1 [Hl _]. destruct (is_tool_error e) eqn:Ee.
    + eapply wp_mono; [by apply on_tool_error_wp|done|]. intros e' x' [_ Hx].
      unfold failed_with, logs in *. by rewrite <- Hl.
    + unfold on_tool_error. rewrite Ee. apply wp_raise. by rewrite Ee.
Qed.

Section Replay.
Context {W : Type} `{EngineLaws W} `{Pydantic}.
Variable in_time : string -> float -> pyval -> bool.
Variable span_trace : option string.
Implicit Types (x : Exec W).


End Replay.

(** ** The whole of [execute_tool] *)

Definition raw_dry_run (raw : dict) : bool := truthy (get_or "dry_run" (VBool true) raw).
Definition raw_key (idempotency_key : option string) (raw : dict) : pyval :=
  given_or idempotency_key (get_or "idempotency_key" VNone raw).

(** The caller passes the checks: tenant, scopes, and for a write whose
    [dry_run] argument is present and false in Python the approval and the key. *)
Definition granted (tool : string) (raw : dict) (auth : AuthContext.t)
    (idempotency_key : option string) : Prop :=
  exists meta, dget tool Catalog.TOOL_METADATA = Some meta
  /\ (let requested := get_or "tenant_id" VNone raw in
      truthy requested = false \/ requested = VStr (AuthContext.tenant_id auth))
  /\ ("*" ∈ AuthContext.scopes auth
      \/ forall s, s ∈ ToolMetadata.required_scopes meta -> s ∈ AuthContext.scopes auth)
  /\ (mem tool Catalog.WRITE_TOOLS = true -> raw_dry_run raw = false ->
      AuthContext.approved auth = true /\ truthy (raw_key idempotency_key raw) = true).

Record prepared (tool : string) (raw : dict) (au : AuthContext.t) (idem run : option string)
    (m : ToolMetadata.t) (c : Call) : Prop := {
  p_tool : tool_name c = tool; p_meta : meta c = m; p_auth : auth c = au;
  p_raw : raw_args c = raw; p_redacted : redacted_in c = McpRedact.redact_dict raw;
  p_hash : input_hash c = McpRedact.sha256_hex (VDict (McpRedact.redact_dict raw));
  p_dry_run : dry_run c = raw_dry_run raw; p_key : key c = raw_key idem raw;
  p_run : Repository.given run = true -> run = Some (eff_run_id c);
}.

Section Execute.
Context {W : Type} `{EngineLaws W} `{Pydantic}.
Variable in_time : string -> float -> pyval -> bool.
Variable span_trace : option string.

Lemma prepare_wp tool raw au idem run m (w : W) Q E :
  (forall c w', prepared tool raw au idem run m c -> Q c w') ->
  wp (prepare tool raw au idem run m) Q E w.
Proof.
  intros HQ. unfold prepare. apply wp_bind, wp_observes; [apply now_law|]. intros t w1 _ _ _.
  apply wp_bind, wp_observes; [apply new_id_observes|]. intros inv w2 _ _ _. apply wp_bind.
  destruct (Repository.given run) eqn:Eg.
  - apply wp_ret, wp_ret, HQ. constructor; try done. intros _. by destruct run.
  - apply wp_observes; [apply new_id_observes|]. intros rid w3 _ _ _.
    apply wp_ret, HQ. constructor; try done. intros ?. simpl. congruence.
Qed.

Lemma execute_wp tool raw au idem run to (g : Gateway W) Q E :
  (forall m c x, dget tool Catalog.TOOL_METADATA = Some m -> prepared tool raw au idem run m c ->
     fresh x -> AUDIT_LOG (gw x) = AUDIT_LOG g -> IDEMPOTENCY_STORE (gw x) = IDEMPOTENCY_STORE g ->
     wp (run_call in_time span_trace c to) (fun r x' => Q r (gw x')) (fun e x' => E e (gw x')) x) ->
  (dget tool Catalog.TOOL_METADATA = None -> E (MCPToolError "not_found" ("unknown tool " +:+ tool)) g) ->
  wp (execute_tool in_time span_trace tool raw au idem run to) Q E g.
Proof.
  intros Hrun Hnone. unfold execute_tool. unfold wp.
  destruct (dget tool Catalog.TOOL_METADATA) as [m|] eqn:Em; [|by apply Hnone].
  match goal with |- context [bind ?p ?k ?x] =>
    enough (wp (bind p k) (fun r x' => Q r (gw x')) (fun e x' => E e (gw x')) x) as Hw end.
  { unfold wp in Hw. by destruct (bind _ _ _) as [x' [r|e]]. }
  apply wp_bind. unfold wp, on_db. simpl.
  pose proof (prepare_wp tool raw au idem run m (database g)
    (fun c _ => prepared tool raw au idem run m c) (fun _ _ => False) ltac:(done)) as Hp.
  unfold wp in Hp. destruct (prepare tool raw au idem run m (database g)) as [w' [c|e]]; [|done].
  by apply (Hrun m c).
Qed.

Lemma granted_of tool raw au idem run m c :
  dget tool Catalog.TOOL_METADATA = Some m -> prepared tool raw au idem run m c ->
  authorized c -> cleared c -> granted tool raw au idem.
Proof.
  intros Hm [] [Ht Hs] Hc. exists m. unfold cleared, is_write in Hc. subst.
  rewrite p_dry_run0, p_key0 in Hc. split_and!; done.
Qed.

Lemma execute_granted tool raw au idem run to (g : Gateway W) :
  wp (execute_tool in_time span_trace tool raw au idem run to)
     (fun _ _ => granted tool raw au idem)
     (fun _ g' => IDEMPOTENCY_STORE g' = IDEMPOTENCY_STORE g \/ granted tool raw au idem) g.
Proof.
  apply execute_wp; [|by left]. intros m c x Hm Hp Hf _ Hst.
  eapply wp_mono; [by apply run_call_authorized| |].
  - intros r x' [? ?]. by eapply granted_of.
  - intros e x' [Hs|[? ?]]; [left; congruence|right; by eapply granted_of].
Qed.
End Execute.

(** The entry of the store that a call looks up *)
Definition lookup_key (tool : string) (idem : option string) (raw : dict) : string :=
  tool +:+ ":" +:+ py_str (raw_key idem raw).
Definition hash_of (raw : dict) : string := McpRedact.sha256_hex (VDict (McpRedact.redact_dict raw)).
(** The result is the one that was stored for the same redacted input. *)
Definition replayed {W} (tool : string) (raw : dict) (idem : option string) (g : Gateway W) (r : dict) : Prop :=
  exists res, dget (lookup_key tool idem raw) (IDEMPOTENCY_STORE g) = Some (hash_of raw, res)
    /\ r = dset "deduplicated" (VBool true) res.
(** What the gate takes for a dry run and the input model for a call for real:
    no flag, or one that is true in Python and that pydantic reads as false. *)
Definition gate_misses `{Pydantic} (raw : dict) : Prop := raw_dry_run raw = true /\ read_as_real raw.

Lemma execute_executed {W} `{EngineLaws W} `{Pydantic} in_time span_trace tool raw au idem run to (g : Gateway W) :
  wp (execute_tool in_time span_trace tool raw au idem run to)
     (fun r _ => says_executed r ->
        replayed tool raw idem g r \/ (tool = "ticket.create" /\ read_as_real raw)) (fun _ _ => True) g.
Proof.
  apply execute_wp; [|done]. intros m c x _ [] _ _ Hs.
  eapply wp_mono; [apply run_call_executed| |done]. intros r x' Hr He. subst.
  destruct (Hr He) as [(res & Hg & ->)|?]; [left|by right]. exists res.
  rewrite Hs, p_hash0 in Hg. unfold store_key in Hg. by rewrite p_key0 in Hg.
Qed.

(** C7. A tool call that returns was covered by the caller's tenant and scopes,
    and, if it is a write whose [dry_run] argument is false in Python, by a human
    approval and an idempotency key.  A result that says it was executed is that
    of [ticket.create], under an approval and a key unless the gate mistook the
    call for a dry run, or is replayed from the store.  Whatever a call ends
    with, it changes the idempotency store only if the checks passed. *)
Theorem effects_are_authorized {W} `{EngineLaws W} `{Pydantic} in_time span_trace tool raw au
    idem run to (g : Gateway W) :
  wp (execute_tool in_time span_trace tool raw au idem run to)
     (fun r _ => granted tool raw au idem
        /\ (says_executed r -> replayed tool raw idem g r
            \/ (tool = "ticket.create"
                /\ (AuthContext.approved au = true /\ truthy (raw_key idem raw) = true \/ gate_misses raw))))
     (fun _ g' => IDEMPOTENCY_STORE g' = IDEMPOTENCY_STORE g \/ granted tool raw au idem) g.
Proof.
  eapply wp_conj; [apply execute_granted|apply execute_executed| |by intros e g' ? _].
  intros r g' Hg He. split; [done|]. intros Hr. destruct (He Hr) as [?|[-> Hreal]]; [by left|right].
  split; [done|]. destruct (raw_dry_run raw) eqn:Ed; [by right|left].
  destruct Hg as (m & _ & _ & _ & Hc). by apply Hc.
Qed.

(** The audit entry of a call: its tool, tenant and redacted arguments. *)
Definition audit_of (tool : string) (raw : dict) (au : AuthContext.t)
    (d : AuthorizationDecision.t) (s : ToolInvocationStatus.t) (err : option (string * string))
    (i : ToolInvocation.t) : Prop :=
  ToolInvocation.status i = s /\ ToolInvocation.authorization_decision i = Some d
  /\ ToolInvocation.tool_name i = Field.trim tool
  /\ ToolInvocation.tenant_id i = Field.trim (AuthContext.tenant_id au)
  /\ ToolInvocation.redacted_input i = Field.strip_keys (McpRedact.redact_dict raw)
  /\ ToolInvocation.error i = error_dict err.

Lemma audit_of_entry tool raw au idem run m c d s out err i :
  prepared tool raw au idem run m c -> entry_of c d s out err i -> audit_of tool raw au d s err i.
Proof.
  intros [] (? & ? & Ht & Hn & _ & Hr & ?). subst. rewrite p_redacted0 in Hr. by split_and!.
Qed.

(** C28. A call of a tool that is not in the catalogue raises [not_found] and
    leaves the gateway as it is.  Every call of a catalogued tool leaves exactly one entry in the audit
    log, with the redacted arguments: a success of an allowed call when it
    returns, a failure or timeout with the error's code and message when it
    raises a tool error, denied when that is [forbidden].  An exception of any
    other kind leaves none. *)
Theorem calls_are_audited {W} `{EngineLaws W} `{Pydantic} in_time span_trace tool raw au
    idem run to (g : Gateway W) :
  wp (execute_tool in_time span_trace tool raw au idem run to)
     (fun _ g' => exists i, AUDIT_LOG g' = AUDIT_LOG g ++ [i]
        /\ audit_of tool raw au AuthorizationDecision.ALLOWED ToolInvocationStatus.SUCCEEDED None i)
     (fun e g' =>
        match dget tool Catalog.TOOL_METADATA with
        | None => g' = g /\ e = MCPToolError "not_found" ("unknown tool " +:+ tool)
        | Some _ =>
            if is_tool_error e then
              exists i d s, AUDIT_LOG g' = AUDIT_LOG g ++ [i]
                /\ audit_of tool raw au d s (Some (error_code e, exn_str e)) i
                /\ (s = ToolInvocationStatus.FAILED \/ s = ToolInvocationStatus.TIMEOUT)
                /\ (error_code e = "forbidden" -> d = AuthorizationDecision.DENIED)
            else AUDIT_LOG g' = AUDIT_LOG g
        end) g.
Proof.
  apply execute_wp; [|by intros ->]. intros m c x Hm Hp Hf Hl _. rewrite Hm.
  eapply wp_mono; [by apply run_call_audited| |].
  - intros r x' (i & out & Hi & He). exists i. split; [by rewrite <- Hl|]. by eapply audit_of_entry.
  - intros e x' Hx. cbn beta in *. destruct (is_tool_error e); [|by rewrite <- Hl].
    destruct Hx as (d & s & (i & out & Hi & He) & Hs & Hd). exists i, d, s.
    split; [by rewrite <- Hl|]. split; [by eapply audit_of_entry|done].
Qed.




(** ** Where the executor does other than it says *)

(** The durable audit record never shows the authorization decision: its
    key holds [auth], which the repository's redaction hook takes for a secret,
    so the stored value is the mask whatever was decided. *)
Theorem audit_decision_is_masked {W} c (x : Exec W) out err :
  dget "authorization_decision" (audit_payload c x out err)
    = Some (VStr (AuthorizationDecision.value (decision x)))
  /\ dget "authorization_decision" (Repository.default_hook (audit_payload c x out err))
    = Some (VStr Redact.REDACTED).
Proof.
  split; [reflexivity|]. unfold Repository.default_hook, Redact.default_redact.
  rewrite dget_map_value. cbn [audit_payload dget String.eqb Ascii.eqb Bool.eqb fmap option_fmap option_map].
  cbn [Redact.redact_value]. unfold Redact.redact_str.
  by replace (Redact.sensitive_key "authorization_decision") with true by (by vm_compute).
Qed.

Module GatewayDemo.
Definition gateway : Gateway Memory.db := mkGateway [] [] [] true Memory.empty.
Definition always : string -> float -> pyval -> bool := fun _ _ _ => true.
Definition operator : AuthContext.t :=
  AuthContext.mk "acme" ["tools.write.ticket.create"; "tools.write.deployment.rollback"] "alice"
    false.
Definition ticket : dict := [("title", VStr "Checkout is down")].
Definition dry_ticket : dict := [("title", VStr "Checkout is down"); ("dry_run", VBool true)].
Definition run (tool : string) (raw : dict) (key : option string)
    : M (Gateway Memory.db) dict :=
  @execute_tool Memory.db Memory.engine McpModels.strict always None tool raw operator key
    (Some "run_1") None.
End GatewayDemo.

(** [ticket.create] without a [dry_run] argument is executed for real with
    no approval and no idempotency key: the gate reads the missing flag as a
    dry run, the input model as a real one, and the audit entry says dry run. *)
Theorem ticket_executes_unapproved :
  let '(g', r) := GatewayDemo.run "ticket.create" GatewayDemo.ticket None GatewayDemo.gateway in
  AuthContext.approved GatewayDemo.operator = false
  /\ (exists d, r = Ok d /\ dget "executed" d = Some (VBool true)
                /\ dget "dry_run" d = Some (VBool false))
  /\ IDEMPOTENCY_STORE g' = []
  /\ map ToolInvocation.dry_run (AUDIT_LOG g') = [true].
Proof.
  vm_compute. split; [reflexivity|]. split; [|split; reflexivity].
  eexists. split; [reflexivity|]. split; reflexivity.
Qed.

(** ** Witnesses *)

Lemma effects_are_authorized_witness :
  is_ok (GatewayDemo.run "ticket.create" GatewayDemo.dry_ticket (Some "k1") GatewayDemo.gateway).2 = true
  /\ granted "ticket.create" GatewayDemo.dry_ticket GatewayDemo.operator (Some "k1").
Proof.
  assert (is_ok (GatewayDemo.run "ticket.create" GatewayDemo.dry_ticket (Some "k1")
            GatewayDemo.gateway).2 = true) as Hok by (vm_compute; reflexivity).
  split; [exact Hok|].
  pose proof (@effects_are_authorized Memory.db Memory.engine Memory.laws McpModels.strict
    GatewayDemo.always None "ticket.create" GatewayDemo.dry_ticket GatewayDemo.operator
    (Some "k1") (Some "run_1") None GatewayDemo.gateway) as Hw.
  unfold wp in Hw. unfold GatewayDemo.run in Hok.
  destruct (execute_tool _ _ _ _ _ _ _ _ _) as [g' [r|e]]; [exact (proj1 Hw)|discriminate].
Defined.

Lemma calls_are_audited_witness :
  (exists i, AUDIT_LOG (GatewayDemo.run "ticket.create" GatewayDemo.dry_ticket (Some "k1")
                          GatewayDemo.gateway).1 = [i]
     /\ audit_of "ticket.create" GatewayDemo.dry_ticket GatewayDemo.operator
          AuthorizationDecision.ALLOWED ToolInvocationStatus.SUCCEEDED None i).
Proof.
  pose proof (@calls_are_audited Memory.db Memory.engine Memory.laws McpModels.strict
    GatewayDemo.always None "ticket.create" GatewayDemo.dry_ticket GatewayDemo.operator
    (Some "k1") (Some "run_1") None GatewayDemo.gateway) as Hw.
  assert (is_ok (GatewayDemo.run "ticket.create" GatewayDemo.dry_ticket (Some "k1")
            GatewayDemo.gateway).2 = true) as Hok by (vm_compute; reflexivity).
  unfold wp in Hw. unfold GatewayDemo.run in *.
  destruct (execute_tool _ _ _ _ _ _ _ _ _) as [g' [r|e]]; [exact Hw|discriminate].
Defined.

