(* ===== verification/GatewayServer.v ===== *)
(** * The gateway server

    [apps/mcp_server/server.py] and the services and prompts of [content.py]:
    the origin and identity middleware, the REST routes, and the functions that
    the MCP SDK calls for a tool, a resource or a prompt, all around the
    executor's [execute_tool].  The SDK, the routing and the parsing of bodies
    are outside the repository: a request is the parts of it that the source
    reads, and a tool function is given its typed arguments. *)

From stdpp Require Import base list strings pretty.
From Stdlib Require Import ZArith Lia Ascii SpecFloat.
From S2P Require Import Prelude.
From S2P Require Import PyFloat.
From S2P Require Import PyValue.
From S2P Require Import PyTime.
From S2P Require Import Contracts.
From S2P Require Import ContractsOps.
From S2P Require Import Security.
From S2P Require Import Bearer.
From S2P Require Import Catalog.
From S2P Require Import Tables.
From S2P Require Import Repository.
From S2P Require Import McpModels.
From S2P Require Import Executor.

Local Open Scope py_scope.

(** ** Content *)

Module Content.
Import Executor(newline, get_runbook, RUNBOOKS).

Definition SERVICES : list (string * dict) :=
  [("checkout-api",
    [("name", VStr "checkout-api"); ("owner", VStr "team-checkout"); ("tier", VStr "tier-1");
     ("slos", VDict [("availability", VFloat (PyFloat.of_decimal 9995 (-2)));
                     ("p99_latency_ms", VInt 450)]);
     ("links", VDict [("dashboard", VStr "https://example.invalid/d/checkout");
                      ("repo", VStr "https://example.invalid/checkout")]);
     ("tenant_id", VStr "tenant_a")]);
   ("payments-api",
    [("name", VStr "payments-api"); ("owner", VStr "team-payments"); ("tier", VStr "tier-1");
     ("slos", VDict [("availability", VFloat (PyFloat.of_decimal 9999 (-2)));
                     ("p99_latency_ms", VInt 300)]);
     ("links", VDict [("dashboard", VStr "https://example.invalid/d/payments")]);
     ("tenant_id", VStr "tenant_a")])].
Definition get_service (name : string) : option dict := dget name SERVICES.

Record Prompt := mkPrompt { description : string; args : list string; template : string }.
Definition PROMPTS : list (string * Prompt) :=
  [("investigate-incident", mkPrompt
      "Guided incident investigation (user-selected; never auto-executed as authority)."
      ["service"; "symptom"]
      ("Investigate incident for service={service}: symptom={symptom}." +:+ newline +:+
       "Steps: 1) query metrics/logs 2) check health 3) search runbooks " +:+
       "4) propose findings with evidence. Do not execute writes."));
   ("summarize-evidence", mkPrompt
      "Summarize collected evidence into findings."
      ["run_id"]
      ("Summarize evidence for run={run_id}. List findings with confidence, " +:+
       "evidence refs, and unresolved questions. Flag UNTRUSTED sources."));
   ("prepare-change-review", mkPrompt
      "Prepare a change review with risk + approval needs."
      ["change_id"; "action"]
      ("Prepare change review for change={change_id} action={action} risk={risk}. " +:+
       "Require simulate-first, dry-run, idempotency key, and human approval."))].

(** The first name the arguments lack; the exemption of [risk] is the source's. *)
Fixpoint missing_arg (name : string) (given : list (string * string)) (l : list string) : option string :=
  match l with
  | [] => None
  | key :: l' =>
      if negb (dmem key given) && negb (String.eqb name "prepare-change-review" && String.eqb key "risk")
      then Some key else missing_arg name given l'
  end.

(** One round of the filling loop, and [{"risk": "medium", **args}]. *)
Definition fill_one (filled : string) (kv : string * string) : string :=
  PyStr.replace ("{" +:+ kv.1 +:+ "}") (PyStr.slice 500 kv.2) filled.
Definition merged (given : list (string * string)) : list (string * string) :=
  dupdate [("risk", "medium")] given.

Definition render_prompt (name : string) (given : list (string * string)) : result string :=
  match dget name PROMPTS with
  | None => Exn (KeyError (PyStr.repr ("unknown prompt " +:+ name)))
  | Some spec =>
      match missing_arg name given (args spec) with
      | Some key => Exn (ValueError ("missing prompt arg: " +:+ key))
      | None => Ok (fold_left fill_one (merged given) (template spec))
      end
  end.
End Content.

(** ** The server *)

Module GatewayServer.
Import Executor.

(** The headers as the server passes them on: lower-case names, in order. *)
Record Request := mkRequest { path : string; headers : list (string * string) }.
(** [request.headers.get(k, "")] *)
Definition header (k : string) (q : Request) : string := default "" (dget k (headers q)).
(** [dict(request.headers)]: the first value of every name *)
Definition header_dict (q : Request) : list (string * string) :=
  fold_left (fun d kv => dset kv.1 (header kv.1 q) d) (headers q) [].

(** [HTTPException(status, detail)]: the detail is a text, or a code and a text. *)
Definition http (status : Z) (code message : string) : exn := CodedError "HTTPException" code message status.

(** The state of the process: the key cache of [identity.py] and the gateway. *)
Record Server (W : Type) := mkServer { jwks : option dict; gateway : Gateway W }.
Arguments mkServer {W} _ _.
Arguments jwks {W} _.
Arguments gateway {W} _.

Section Server.
Context {W : Type}.
Definition on_keys {A} (m : M (option dict) A) : M (Server W) A := fun s =>
  let '(k, r) := m (jwks s) in (mkServer k (gateway s), r).
Definition on_tools {A} (m : M (Gateway W) A) : M (Server W) A := fun s =>
  let '(g, r) := m (gateway s) in (mkServer (jwks s) g, r).
End Server.

Section Routes.
Context {W : Type} `{Engine W} `{Pydantic}.
Variable getenv : string -> option string.
Variable now : float.
Variable urlopen : string -> result (list Z).
Variable injected : option (string -> dict -> result unit).
Variable pyjwt : option (dict -> string -> option string -> option string -> result unit).
Variable in_time : string -> float -> pyval -> bool.
Variable span_trace : option string.

(** *** The middleware *)

(** [ALLOWED_ORIGINS], computed when the module is loaded *)
Definition ALLOWED_ORIGINS : list string :=
  GatewayHeaders.comma_list
    (default "http://localhost,http://testserver" (getenv "MCP_ALLOWED_ORIGINS")).

Definition bad_origin (q : Request) : bool :=
  let origin := header "origin" q in
  negb (String.eqb origin "") && negb (mem origin ALLOWED_ORIGINS)
  && negb (PyStr.contains "localhost" origin).

Definition resolve (authz : string) : M (option dict) Identity.t :=
  Bearer.resolve_identity getenv now urlopen injected pyjwt authz.

(** What [_origin_and_auth] leaves in [_current_auth]. *)
Definition current_auth (q : Request) : M (Server W) (option AuthContext.t) :=
  let* ident := on_keys (try_catch (let* i := resolve (header "authorization" q) in ret (Some i))
                           (fun _ => ret None)) in
  ret (match ident with
       | Some i => if PyStr.startswith "/mcp" (path q) || PyStr.startswith "/tools/" (path q)
                   then Some (AuthContext.from_identity i false) else None
       | None => None
       end).

(** [_origin_and_auth] in front of a handler *)
Definition behind {A} (q : Request) (handler : option AuthContext.t -> M (Server W) A) : M (Server W) A :=
  if bad_origin q then raise (http 403 "forbidden" "bad origin")
  else let* auth := current_auth q in handler auth.

(** *** MCP tools *)

(** [_req_auth] *)
Definition req_auth (auth : option AuthContext.t) : M (Server W) AuthContext.t :=
  match auth with Some a => ret a | None => raise (GatewayHeaders.AuthError "missing gateway identity") end.

(** The call at the end of every tool function. *)
Definition call_tool (auth : option AuthContext.t) (name : string) (args : dict) : M (Server W) dict :=
  let* a := req_auth auth in
  on_tools (execute_tool in_time span_trace name args a None None None).

Definition t_query_metrics auth (service metric start_time end_time aggregation : string) :=
  call_tool auth "telemetry.query_metrics"
    [("service", VStr service); ("metric", VStr metric); ("start_time", VStr start_time);
     ("end_time", VStr end_time); ("aggregation", VStr aggregation)].
Definition t_query_logs auth (service query : string) (limit : Z) :=
  call_tool auth "telemetry.query_logs"
    [("service", VStr service); ("query", VStr query); ("limit", VInt limit)].
Definition t_get_health auth (service : string) :=
  call_tool auth "service.get_health" [("service", VStr service)].
Definition t_search auth (query : string) (top_k : Z) :=
  call_tool auth "knowledge.search" [("query", VStr query); ("top_k", VInt top_k)].
Definition t_get_runbook auth (runbook_id : string) :=
  call_tool auth "knowledge.get_runbook" [("runbook_id", VStr runbook_id)].
(** [if v: args[k] = v] *)
Definition when_given (k v : string) (args : dict) : dict :=
  if String.eqb v "" then args else dset k (VStr v) args.
Definition t_simulate auth (action target_service : string) :=
  call_tool auth "remediation.simulate"
    (when_given "target_service" target_service [("action", VStr action)]).
Definition t_get_trace auth (service trace_id : string) :=
  call_tool auth "telemetry.get_trace" (when_given "trace_id" trace_id [("service", VStr service)]).
Definition t_get_current_release auth (service : string) :=
  call_tool auth "deployment.get_current_release" [("service", VStr service)].
Definition t_ticket_create auth (title severity : string) (dry_run : bool) (idempotency_key : string) :=
  call_tool auth "ticket.create"
    (when_given "idempotency_key" idempotency_key
       [("title", VStr title); ("severity", VStr severity); ("dry_run", VBool dry_run)]).
Definition t_rollback auth (deployment : string) (dry_run : bool) (idempotency_key : string) :=
  call_tool auth "deployment.rollback"
    (when_given "idempotency_key" idempotency_key
       [("deployment", VStr deployment); ("dry_run", VBool dry_run)]).

(** A call of the SDK, with the arguments that its schemas let through. *)
Inductive ToolCall :=
  | QueryMetrics (service metric start_time end_time aggregation : string)
  | QueryLogs (service query : string) (limit : Z)
  | GetHealth (service : string)
  | Search (query : string) (top_k : Z)
  | GetRunbook (runbook_id : string)
  | Simulate (action target_service : string)
  | GetTrace (service trace_id : string)
  | GetCurrentRelease (service : string)
  | TicketCreate (title severity : string) (dry_run : bool) (idempotency_key : string)
  | Rollback (deployment : string) (dry_run : bool) (idempotency_key : string).
Definition run_tool (c : ToolCall) (auth : option AuthContext.t) : M (Server W) dict :=
  match c with
  | QueryMetrics s m t0 t1 a => t_query_metrics auth s m t0 t1 a
  | QueryLogs s x n => t_query_logs auth s x n
  | GetHealth s => t_get_health auth s
  | Search x k => t_search auth x k
  | GetRunbook i => t_get_runbook auth i
  | Simulate a t => t_simulate auth a t
  | GetTrace s t => t_get_trace auth s t
  | GetCurrentRelease s => t_get_current_release auth s
  | TicketCreate t s d k => t_ticket_create auth t s d k
  | Rollback x d k => t_rollback auth x d k
  end.

(** *** MCP resources and prompts *)

Definition r_service (name : string) : result string :=
  match Content.get_service name with
  | None => Exn (ValueError ("unknown service " +:+ name))
  | Some svc => Ok (json_dumps (VDict svc))
  end.
Definition r_runbook (id : string) : result string :=
  match get_runbook (VStr id) with
  | None => Exn (ValueError ("unknown runbook " +:+ id))
  | Some rb => Ok (get_str "body_md" "" rb)
  end.
Definition p_investigate (service symptom : string) : result string :=
  Content.render_prompt "investigate-incident" [("service", service); ("symptom", symptom)].
Definition p_summarize (run_id : string) : result string :=
  Content.render_prompt "summarize-evidence" [("run_id", run_id)].
Definition p_change (change_id action risk : string) : result string :=
  Content.render_prompt "prepare-change-review"
    [("change_id", change_id); ("action", action); ("risk", risk)].

(** *** REST routes *)

Definition health : dict := [("status", VStr "ok"); ("service", VStr "mcp-server")].
Definition tools : dict :=
  [("tools", VList (map (fun kv => VStr kv.1) (sorted_items Catalog.TOOL_METADATA)));
   ("mode", VStr "mock");
   ("metadata", VList (map (fun kv => VDict (ToolMetadata.dump kv.2)) Catalog.TOOL_METADATA))].
Definition tool_metadata (tool_name : string) : result dict :=
  match dget tool_name Catalog.TOOL_METADATA with
  | None => Exn (http 404 "" ("unknown tool " +:+ tool_name))
  | Some meta => Ok (ToolMetadata.dump meta)
  end.

(** [_auth_or_401]: no middleware of this application sets
    [request.state.identity]. *)
Definition auth_or_401 (q : Request) : M (Server W) AuthContext.t :=
  on_keys
    (try_catch
       (GatewayHeaders.from_headers getenv now urlopen injected pyjwt (header_dict q) None)
       (fun e => if AuthContext.is_forbidden e then raise (http 403 "" (exn_str e))
                 else if String.eqb (exn_class e) "AuthError" then raise (http 401 "" (exn_str e))
                 else raise e)).

Record InvokeBody := mkBody {
  body_args : dict; body_idempotency_key : option string; body_run_id : option string }.

Definition status_of (code : string) : Z :=
  default 500%Z (dget code
    [("validation_error", 422); ("auth_error", 401); ("forbidden", 403); ("not_found", 404);
     ("conflict", 409); ("approval_required", 409); ("policy_denied", 403); ("timeout", 504)]%Z).

(** [a or b] on optional strings *)
Definition or_else (a b : option string) : option string := if Repository.given a then a else b.

Definition invoke_tool (tool_name : string) (body : InvokeBody) (q : Request)
    (x_idempotency_key : option string) : M (Server W) dict :=
  let* auth := auth_or_401 q in
  try_catch
    (on_tools (execute_tool in_time span_trace tool_name (body_args body) auth
       (or_else x_idempotency_key (body_idempotency_key body)) (body_run_id body) None))
    (fun e => if is_tool_error e then raise (http (status_of (error_code e)) (error_code e) (exn_str e))
              else raise e).

Definition read_service (name : string) : result dict :=
  match Content.get_service name with
  | None => Exn (http 404 "" ("unknown service " +:+ name))
  | Some svc => Ok svc
  end.
Definition read_runbook (runbook_id : string) : result dict :=
  match get_runbook (VStr runbook_id) with
  | None => Exn (http 404 "" ("unknown runbook " +:+ runbook_id))
  | Some rb => Ok (dupdate [("untrusted", VBool true)] rb)
  end.
Definition list_prompts : dict :=
  [("prompts", VList (map (fun kv => VStr kv.1) (sorted_items Content.PROMPTS)))].
Definition get_prompt (name : string) (params : list (string * string)) : result dict :=
  match dget name Content.PROMPTS with
  | None => Exn (http 404 "" ("unknown prompt " +:+ name))
  | Some _ =>
      match Content.render_prompt name params with
      | Ok text => Ok [("name", VStr name); ("text", VStr text)]
      | Exn e => match e with
                 | KeyError _ | ValueError _ => Exn (http 422 "" (exn_str e))
                 | _ => Exn e
                 end
      end
  end.

(** [AUDIT_LOG[-limit:]] *)
Definition last_entries {A} (limit : Z) (l : list A) : list A :=
  if (limit <? 0)%Z then drop (Z.to_nat (- limit)) l
  else if (limit =? 0)%Z then l
  else drop (length l - Z.to_nat limit) l.
Definition audit_tail (limit : Z) : M (Server W) dict :=
  let* entries := gets (fun s => last_entries limit (AUDIT_LOG (gateway s))) in
  let* dumped := lift_result (map_result ToolInvocation.dump entries) in
  ret [("entries", VList (map VDict dumped))].

(** ** What the server serves

    The routes and the MCP endpoint behind the middleware. *)
Inductive Call :=
  | Invoke (tool_name : string) (body : InvokeBody) (x_idempotency_key : option string)
  | Mcp (c : ToolCall)
  | AuditTail (limit : Z).
Definition serve (q : Request) (c : Call) : M (Server W) dict :=
  behind q (fun auth =>
    match c with
    | Invoke name body key => invoke_tool name body q key
    | Mcp c => run_tool c auth
    | AuditTail limit => audit_tail limit
    end).
End Routes.
End GatewayServer.
