(* ===== verification/GatewayServerProps.v ===== *)
(** * Properties of the gateway server

    Who may run a tool through the server and what it may do, the filling of
    prompts against a simultaneous substitution, and what the open routes
    show. *)

From stdpp Require Import base sets list strings pretty.
From Stdlib Require Import ZArith Lia Ascii SpecFloat.
From S2P Require Import Prelude.
From S2P Require Import PyFloat.
From S2P Require Import PyValue.
From S2P Require Import PyTime.
From S2P Require Import Contracts.
From S2P Require Import ContractsOps.
From S2P Require Import Redaction.
From S2P Require Import Json.
From S2P Require Import Security.
From S2P Require Import Bearer.
From S2P Require Import BearerProps.
From S2P Require Import Catalog.
From S2P Require Import Tables.
From S2P Require Import Repository.
From S2P Require Import McpModels.
From S2P Require Import MemoryEngine.
From S2P Require Import Executor.
From S2P Require Import ExecutorProps.
From S2P Require Import GatewayServer.

Import Executor GatewayServer.
Local Open Scope py_scope.

(** ** Headers *)

Lemma dget_fold_dset {A} (f : string -> A) k l d :
  (forall kv, kv ∈ l -> kv.2 = f kv.1) ->
  dget k (fold_left (fun d kv => dset kv.1 kv.2 d) l d)
  = if dmem k l then Some (f k) else dget k d.
Proof.
  revert d. induction l as [|[k' v] l IH]; intros d Hf; [done|]. cbn [fold_left fst snd].
  rewrite IH by set_solver. pose proof (Hf (k', v) ltac:(set_solver)) as Hv. simpl in Hv. subst v.
  unfold dmem. cbn [dget]. destruct (dget k l) eqn:E, (String.eqb_spec k k') as [->|Hne]; try done.
  - by rewrite dget_dset_eq.
  - by rewrite dget_dset_ne.
Qed.

(** Header names are in lower case, as an ASGI server passes them on. *)
Definition well_formed (q : Request) : Prop := Forall (fun kv => PyStr.lower kv.1 = kv.1) (headers q).

Lemma fold_dset_members {A} (l d : list (string * A)) kv :
  kv ∈ fold_left (fun d kv => dset kv.1 kv.2 d) l d -> kv ∈ d \/ kv ∈ l.
Proof.
  revert d. induction l as [|[k v] l IH]; intros d; simpl; [by left|].
  intros [Hin|Hin]%IH; [|set_solver].
  assert (forall d, kv ∈ dset k v d -> kv = (k, v) \/ kv ∈ d) as Hd.
  { clear. intros d. induction d as [|[k' v'] d IH]; simpl; [set_solver|]. destruct (String.eqb k k'); set_solver. }
  apply Hd in Hin. set_solver.
Qed.

Lemma header_dict_get k q : well_formed q ->
  dget k (GatewayHeaders.norm (header_dict q)) = dget k (headers q).
Proof.
  intros Hq. set (f := fun k => header k q).
  assert (header_dict q = fold_left (fun d kv => dset kv.1 kv.2 d) (map (fun kv => (kv.1, f kv.1)) (headers q)) []) as Hd.
  { unfold header_dict. generalize (@nil (string * string)).
    induction (headers q) as [|kv l IH]; intros d; simpl; [done|]. apply IH. }
  assert (forall kv, kv ∈ header_dict q -> kv.2 = f kv.1 /\ PyStr.lower kv.1 = kv.1) as Hf.
  { intros kv. rewrite Hd. intros [Hin|Hin]%fold_dset_members; [set_solver|].
    apply list_elem_of_fmap in Hin as ([k' v'] & -> & Hin). split; [done|].
    unfold well_formed in Hq. rewrite Forall_forall in Hq. by apply (Hq (k', v')). }
  assert (GatewayHeaders.norm (header_dict q) = fold_left (fun d kv => dset kv.1 kv.2 d) (header_dict q) []) as ->.
  { unfold GatewayHeaders.norm. generalize (@nil (string * string)). revert Hf. generalize (header_dict q).
    intros l Hl. induction l as [|kv l IH]; intros d; simpl; [done|].
    rewrite (proj2 (Hl kv ltac:(set_solver))). apply IH. set_solver. }
  rewrite (dget_fold_dset f) by (intros kv Hin; by apply Hf).
  unfold dmem. rewrite Hd, (dget_fold_dset f).
  2: { intros kv Hin. apply list_elem_of_fmap in Hin as (? & -> & _). done. }
  assert (dmem k (map (fun kv : string * string => (kv.1, f kv.1)) (headers q)) = dmem k (headers q)) as ->.
  { clear Hd Hf. unfold dmem. induction (headers q) as [|[k' v'] l IH]; simpl; [done|]. clear -IH.
    destruct (String.eqb k k'); [done|]. exact IH. }
  unfold dmem, f, header. by destruct (dget k (headers q)).
Qed.

(** ** Who is served *)

Section Served.
Context {W : Type} `{EngineLaws W} `{Pydantic}.
Context (getenv : string -> option string) (now : float) (urlopen : string -> result (list Z))
  (injected : option (string -> dict -> result unit))
  (pyjwt : option (dict -> string -> option string -> option string -> result unit))
  (in_time : string -> float -> pyval -> bool) (span_trace : option string).

Abbreviation resolve := (Bearer.resolve_identity getenv now urlopen injected pyjwt).
Abbreviation serve := (serve getenv now urlopen injected pyjwt in_time span_trace).

(** The token in an [Authorization] header is verified, and its claims are
    those of [id]. *)
Definition proves (authz : string) (keys : option dict) (id : Identity.t) : Prop :=
  authz <> "" /\ PyStr.startswith "Bearer " authz = true
  /\ PyStr.startswith "local:" (bearer_of authz) = false
  /\ verified getenv urlopen injected pyjwt (bearer_of authz) keys
  /\ exists payload, payload_of (bearer_of authz) payload /\ claims_hold getenv now payload id.

(** The call proves an identity: by the header of its request, under the keys in
    the cache; a REST route reads the header through another encoding, under the
    keys that the middleware may just have fetched. *)
Definition identified (q : Request) (c : Call) (keys : option dict) (id : Identity.t) : Prop :=
  let authz := header "authorization" q in
  match c with
  | Invoke _ _ _ => proves (GatewayHeaders.reencoded authz) (resolve authz keys).1 id
  | _ => proves authz keys id
  end.
(** The context that an identity gets: never an approved one. *)
Definition context_of (c : Call) (id : Identity.t) : AuthContext.t :=
  match c with
  | Invoke _ _ _ => AuthContext.mk (Identity.tenant_id id) (Identity.scopes id) (Identity.user_id id) false
  | _ => AuthContext.from_identity id false
  end.

(** What runs a tool, and with what. *)
Definition tool_of (c : ToolCall) : string * dict :=
  match c with
  | QueryMetrics s m t0 t1 a =>
      ("telemetry.query_metrics", [("service", VStr s); ("metric", VStr m); ("start_time", VStr t0);
                                   ("end_time", VStr t1); ("aggregation", VStr a)])
  | QueryLogs s x n => ("telemetry.query_logs", [("service", VStr s); ("query", VStr x); ("limit", VInt n)])
  | GetHealth s => ("service.get_health", [("service", VStr s)])
  | Search x k => ("knowledge.search", [("query", VStr x); ("top_k", VInt k)])
  | GetRunbook i => ("knowledge.get_runbook", [("runbook_id", VStr i)])
  | Simulate a t => ("remediation.simulate", when_given "target_service" t [("action", VStr a)])
  | GetTrace s t => ("telemetry.get_trace", when_given "trace_id" t [("service", VStr s)])
  | GetCurrentRelease s => ("deployment.get_current_release", [("service", VStr s)])
  | TicketCreate t s d k =>
      ("ticket.create", when_given "idempotency_key" k
         [("title", VStr t); ("severity", VStr s); ("dry_run", VBool d)])
  | Rollback x d k =>
      ("deployment.rollback", when_given "idempotency_key" k [("deployment", VStr x); ("dry_run", VBool d)])
  end.
Definition target (c : Call) : option (string * dict * option string * option string) :=
  match c with
  | Invoke name body key => Some (name, body_args body, or_else key (body_idempotency_key body), body_run_id body)
  | Mcp c => Some (tool_of c, None, None)
  | AuditTail _ => None
  end.
(** The exception that a failure of the executor becomes. *)
Definition answered (c : Call) (e : exn) : exn :=
  match c with
  | Invoke _ _ _ => if is_tool_error e then http (status_of (error_code e)) (error_code e) (exn_str e) else e
  | _ => e
  end.

(** The identity may make the call, and a write is a dry run. *)
Definition permitted (id : Identity.t) (tool : string) (args : dict) (key : option string) : Prop :=
  granted tool args (AuthContext.from_identity id false) key
  /\ (mem tool Catalog.WRITE_TOOLS = true -> raw_dry_run args = true).

Lemma granted_permitted id a tool args key :
  AuthContext.tenant_id a = Identity.tenant_id id -> AuthContext.scopes a = Identity.scopes id ->
  AuthContext.approved a = false -> granted tool args a key -> permitted id tool args key.
Proof.
  intros Ht Hs Ha (meta & Hm & Hten & Hsc & Hw). rewrite Ht in Hten. rewrite Hs in Hsc. split.
  - exists meta. split; [done|]. split; [exact Hten|]. split; [exact Hsc|]. intros Hin Hd. destruct (Hw Hin Hd). congruence.
  - intros Hin. destruct (raw_dry_run args) eqn:Hd; [done|]. destruct (Hw Hin eq_refl). congruence.
Qed.

Lemma wp_on_keys {A} (m : M (option dict) A) (Q : A -> Server W -> Prop) E (s : Server W) :
  wp m (fun a k => Q a (mkServer k (gateway s))) (fun e k => E e (mkServer k (gateway s))) (jwks s) ->
  wp (on_keys m) Q E s.
Proof. unfold wp, on_keys. by destruct (m (jwks s)) as [k [a|e]]. Qed.
Lemma wp_on_tools {A} (m : M (Gateway W) A) (Q : A -> Server W -> Prop) E (s : Server W) :
  wp m (fun a g => Q a (mkServer (jwks s) g)) (fun e g => E e (mkServer (jwks s) g)) (gateway s) ->
  wp (on_tools m) Q E s.
Proof. unfold wp, on_tools. by destruct (m (gateway s)) as [g [a|e]]. Qed.

Context (m : string) (Hmode : getenv "AUTH_MODE" = Some m) (Hoidc : PyStr.lower (PyStr.strip m) = "oidc").

Lemma resolve_proves authz keys id : (resolve authz keys).2 = Ok id -> proves authz keys id.
Proof.
  intros (Ha & Hb & Hl & Hp)%(resolve_oidc getenv now urlopen injected pyjwt m authz keys id Hmode Hoidc).
  apply parse_oidc in Hp as (Hv & Hp); [done|]. unfold Bearer.auth_mode, Bearer.env. by rewrite Hmode.
Qed.

(** The middleware leaves an identity only when the header proves it. *)
Lemma current_auth_wp q (s : Server W) :
  wp (current_auth getenv now urlopen injected pyjwt q)
     (fun a s' => gateway s' = gateway s /\ jwks s' = (resolve (header "authorization" q) (jwks s)).1
        /\ forall auth, a = Some auth -> exists id, proves (header "authorization" q) (jwks s) id
             /\ auth = AuthContext.from_identity id false)
     (fun _ _ => False) s.
Proof.
  unfold current_auth. apply wp_bind, wp_on_keys. unfold wp, try_catch, bind, GatewayServer.resolve, ret.
  destruct (resolve (header "authorization" q) (jwks s)) as [k [id|e]] eqn:Er; simpl; [|by split_and!].
  split_and!; [done..|]. intros auth Ha. destruct (_ || _); [|done]. injection Ha as <-.
  exists id. split; [|done]. apply resolve_proves. by rewrite Er.
Qed.

(** The context of a REST route. *)
Lemma auth_or_401_wp q (s : Server W) : well_formed q ->
  wp (auth_or_401 getenv now urlopen injected pyjwt q)
     (fun auth s' => gateway s' = gateway s /\ exists id,
        proves (GatewayHeaders.reencoded (header "authorization" q)) (jwks s) id
        /\ auth = AuthContext.mk (Identity.tenant_id id) (Identity.scopes id) (Identity.user_id id) false)
     (fun _ s' => gateway s' = gateway s) s.
Proof.
  intros Hq. unfold auth_or_401. apply wp_on_keys, wp_try. unfold GatewayHeaders.from_headers.
  rewrite (header_dict_get "authorization") by done. fold (header "authorization" q).
  assert (GatewayHeaders.mock_mode getenv = false) as Hmock.
  { unfold GatewayHeaders.mock_mode. by rewrite (local_dev_needs_mock getenv m). }
  rewrite Hmock.
  assert (forall e (k : option dict), wp (if AuthContext.is_forbidden e then raise (http 403 "" (exn_str e))
      else if String.eqb (exn_class e) "AuthError" then raise (http 401 "" (exn_str e)) else raise e)
    (fun (a : AuthContext.t) (k : option dict) => False) (fun _ _ => True) k) as Hc.
  { intros e k. unfold wp. by repeat case_match. }
  assert (forall e k (Q : AuthContext.t -> option dict -> Prop) E,
    (forall e' k', E e' k') ->
    wp (if AuthContext.is_forbidden e then raise (http 403 "" (exn_str e))
      else if String.eqb (exn_class e) "AuthError" then raise (http 401 "" (exn_str e)) else raise e) Q E k) as Hraise.
  { intros e k Q E HE. unfold wp. repeat case_match; simplify_eq; try apply HE; done. }
  destruct (negb _ && negb _); [by apply wp_raise, Hraise|].
  destruct (PyStr.startswith "Bearer " _); [|by apply wp_raise, Hraise].
  apply wp_bind, wp_try. unfold wp at 1.
  destruct (resolve _ (jwks s)) as [k [id|e]] eqn:Er.
  - destruct (negb _ && negb _); [by apply wp_raise, Hraise|]. apply wp_ret. split; [done|].
    exists id. split; [|done]. apply resolve_proves. by rewrite Er.
  - destruct (Bearer.is_identity_error e); by apply wp_raise, Hraise.
Qed.

(** A call runs the executor once, or nothing. *)
Definition runs (tool : string) (args : dict) (a : AuthContext.t) (key run : option string)
    (s s' : Server W) (r : result dict) : Prop :=
  execute_tool in_time span_trace tool args a key run None (gateway s) = (gateway s', r).

Lemma on_tools_wp tool args a key run (s : Server W) :
  wp (on_tools (execute_tool in_time span_trace tool args a key run None))
     (fun r s' => runs tool args a key run s s' (Ok r)) (fun e s' => runs tool args a key run s s' (Exn e)) s.
Proof. unfold runs, wp, on_tools. by destruct (execute_tool _ _ _ _ _ _ _ _ _) as [g [r|e]]. Qed.
Lemma runs_granted tool args a key run s s' r :
  runs tool args a key run s s' r ->
  match r with
  | Ok _ => granted tool args a key
  | Exn _ => IDEMPOTENCY_STORE (gateway s') = IDEMPOTENCY_STORE (gateway s) \/ granted tool args a key
  end.
Proof.
  unfold runs. intros Er. pose proof (execute_granted in_time span_trace tool args a key run None (gateway s)) as Hw.
  unfold wp in Hw. by rewrite Er in Hw; destruct r.
Qed.

Lemma call_tool_wp auth name args (s : Server W) :
  wp (call_tool in_time span_trace auth name args)
     (fun r s' => exists a, auth = Some a /\ runs name args a None None s s' (Ok r))
     (fun e s' => gateway s' = gateway s
        \/ exists a, auth = Some a /\ runs name args a None None s s' (Exn e)) s.
Proof.
  unfold call_tool, req_auth. apply wp_bind. destruct auth as [a|]; [|by left].
  apply wp_ret. eapply wp_mono; [apply on_tools_wp| |]; simpl; [by eauto|]. intros e s' Hr. right. by exists a.
Qed.
Lemma run_tool_wp c auth (s : Server W) :
  wp (run_tool in_time span_trace c auth)
     (fun r s' => exists a, auth = Some a /\ runs (tool_of c).1 (tool_of c).2 a None None s s' (Ok r))
     (fun e s' => gateway s' = gateway s
        \/ exists a, auth = Some a /\ runs (tool_of c).1 (tool_of c).2 a None None s s' (Exn e)) s.
Proof. destruct c; apply call_tool_wp. Qed.

(** What was served: the executor's own answer and effects, for the identity
    that the request proves. *)
Definition served q c tool args key run (s s' : Server W) (r : result dict) : Prop :=
  exists id, identified q c (jwks s) id /\ runs tool args (context_of c id) key run s s' r
    /\ match r with
       | Ok _ => permitted id tool args key
       | Exn _ => IDEMPOTENCY_STORE (gateway s') = IDEMPOTENCY_STORE (gateway s) \/ permitted id tool args key
       end.
Lemma context_served q c tool args key run s1 s s' r id :
  gateway s1 = gateway s -> identified q c (jwks s) id -> runs tool args (context_of c id) key run s1 s' r ->
  served q c tool args key run s s' r.
Proof.
  intros Hg Hi Hr. exists id. split; [done|]. assert (runs tool args (context_of c id) key run s s' r) as Hr'
    by (unfold runs in *; by rewrite <- Hg). split; [done|]. apply runs_granted in Hr'.
  assert (granted tool args (context_of c id) key -> permitted id tool args key) as Hp
    by (apply granted_permitted; by destruct c). destruct r; [by apply Hp|]. destruct Hr'; auto.
Qed.

Lemma served_wp q c tool args key run (s : Server W) :
  well_formed q -> target c = Some (tool, args, key, run) ->
  wp (serve q c)
     (fun r s' => served q c tool args key run s s' (Ok r))
     (fun e s' => gateway s' = gateway s
        \/ exists e0, e = answered c e0 /\ served q c tool args key run s s' (Exn e0)) s.
Proof.
  intros Hq Hc. unfold GatewayServer.serve, behind. destruct (bad_origin getenv q); [by left|].
  apply wp_bind. eapply wp_mono; [apply current_auth_wp| |done]. intros auth s1 (Hg & Hk & Ha).
  destruct c as [name body k|c|]; [| |done].
  - injection Hc as <- <- <- <-. unfold invoke_tool. apply wp_bind.
    eapply wp_mono; [by apply auth_or_401_wp| |]; [|intros e s2 Hs2; left; congruence].
    intros a s2 (Hg2 & id & Hid & ->). rewrite Hk in Hid.
    apply wp_try. eapply wp_mono; [apply on_tools_wp| |].
    + intros r s3 Hr. eapply (context_served q (Invoke name body k)); [exact Hg|exact Hid|].
      unfold runs in *. by rewrite <- Hg2.
    + intros e s3 Hr. assert (served q (Invoke name body k) name (body_args body)
        (or_else k (body_idempotency_key body)) (body_run_id body) s s3 (Exn e)).
      { eapply (context_served q (Invoke name body k)); [exact Hg|exact Hid|].
        unfold runs in *. by rewrite <- Hg2. }
      destruct (is_tool_error e) eqn:Ee; apply wp_raise; right; exists e; simpl; by rewrite Ee.
  - simpl in Hc. destruct (tool_of c) as [t a0] eqn:Et. injection Hc as <- <- <- <-.
    eapply wp_mono; [apply run_tool_wp| |]; rewrite Et; simpl.
    + intros r s2 (a & -> & Hr). destruct (Ha a eq_refl) as (id & Hi & ->).
      by apply (context_served q (Mcp c) _ _ _ _ s1 s s2 (Ok r) id).
    + intros e s2 [Hs2|(a & -> & Hr)]; [left; congruence|]. right. exists e. split; [done|].
      destruct (Ha a eq_refl) as (id & Hi & ->). by apply (context_served q (Mcp c) _ _ _ _ s1 s s2 (Exn e) id).
Qed.
End Served.

(** C9. With [AUTH_MODE=oidc] the server runs a tool only for a verified
    identity: a REST invocation or a call of the SDK that returns was made with
    a bearer token whose signature, issuer, audience and expiry hold, and its
    answer and what it does to the gateway are those of one [execute_tool] with
    the call's arguments for that identity's tenant, scopes and user, never
    approved; the identity is of the arguments' tenant and has the tool's
    scopes, and a write was a dry run as the gate reads its arguments, for which
    a missing flag is one.  A request that fails leaves the gateway as it is, or
    failed as that [execute_tool] did, with its effects and its error. *)
Theorem served_tools_are_authenticated {W} `{EngineLaws W} `{Pydantic} getenv now urlopen injected pyjwt
    in_time span_trace m q c tool args key run (s : Server W) :
  getenv "AUTH_MODE" = Some m -> PyStr.lower (PyStr.strip m) = "oidc" ->
  well_formed q -> target c = Some (tool, args, key, run) ->
  let identity := identified getenv now urlopen injected pyjwt q c (jwks s) in
  let executed id := execute_tool in_time span_trace tool args (context_of c id) key run None (gateway s) in
  wp (serve getenv now urlopen injected pyjwt in_time span_trace q c)
     (fun r s' => exists id, identity id /\ executed id = (gateway s', Ok r) /\ permitted id tool args key)
     (fun e s' => gateway s' = gateway s \/ exists e0, e = answered c e0 /\
        exists id, identity id /\ executed id = (gateway s', Exn e0)
          /\ (IDEMPOTENCY_STORE (gateway s') = IDEMPOTENCY_STORE (gateway s) \/ permitted id tool args key)) s.
Proof. intros. by eapply served_wp. Qed.

Lemma slice_members n s c : c ∈ PyStr.chars (PyStr.slice n s) -> c ∈ PyStr.chars s.
Proof.
  unfold PyStr.slice, PyStr.chars. revert s. induction n as [|n IH]; intros [|d s]; simpl; [set_solver..|].
  rewrite !elem_of_cons. intros [->|Hin]; [by left|right; by apply IH].
Qed.

(** ** Prompts

    A template is a list of pieces, texts and named holes. *)

Module Template.
Inductive piece :=
  | Lit (s : list ascii)
  | Hole (name : string).
Definition opening : ascii := "{"%char.
Definition closing : ascii := "}"%char.
Definition show (p : piece) : list ascii :=
  match p with Lit s => s | Hole k => opening :: PyStr.chars k ++ [closing] end.
Definition flatten (ps : list piece) : list ascii := concat (map show ps).

(** The pieces of a text: a hole runs from a brace to the next. *)
Fixpoint pieces (inside : bool) (acc l : list ascii) : list piece :=
  match l with
  | [] => [Lit (reverse acc)]
  | c :: l' =>
      if inside then
        if Ascii.eqb c closing then Hole (PyStr.of_chars (reverse acc)) :: pieces false [] l'
        else pieces true (c :: acc) l'
      else if Ascii.eqb c opening then Lit (reverse acc) :: pieces true [] l'
      else pieces false (c :: acc) l'
  end.
Definition of_text (s : string) : list piece := pieces false [] (PyStr.chars s).

(** All holes at once, each from the first binding of its name. *)
Definition put (binding : string -> option (list ascii)) (p : piece) : piece :=
  match p with
  | Hole k => match binding k with Some v => Lit v | None => Hole k end
  | Lit s => Lit s
  end.
Definition fill (binding : string -> option (list ascii)) (ps : list piece) : string :=
  PyStr.of_chars (flatten (map (put binding) ps)).

(** What a piece must satisfy for one-hole-at-a-time to be the same. *)
Definition plain (p : piece) : Prop :=
  match p with
  | Lit s => opening ∉ s
  | Hole k => opening ∉ PyStr.chars k /\ closing ∉ PyStr.chars k
  end.
#[global] Instance plain_dec p : Decision (plain p).
Proof. destruct p; apply _. Defined.

Lemma starts_app a l : PyStr.starts a (a ++ l) = true.
Proof. induction a as [|c a IH]; simpl; [done|]. by rewrite Ascii.eqb_refl. Qed.
Lemma starts_name k h l :
  closing ∉ k -> closing ∉ h -> PyStr.starts (k ++ [closing]) (h ++ closing :: l) = true -> k = h.
Proof.
  revert h. induction k as [|c k IH]; intros [|d h] Hk Hh; cbn [PyStr.starts app]; [done| | |].
  - destruct (Ascii.eqb_spec closing d) as [<-|]; [|done]. exfalso. set_solver.
  - destruct (Ascii.eqb_spec c closing) as [->|]; [|done]. exfalso. set_solver.
  - destruct (Ascii.eqb_spec c d) as [->|]; [|done]. cbn [andb]. intros Hs. f_equal.
    apply IH; [by apply not_elem_of_cons in Hk as []|by apply not_elem_of_cons in Hh as []|done].
Qed.

Section Replace.
Context (k : string) (v : list ascii) (Hk : closing ∉ PyStr.chars k).
Let old : list ascii := opening :: PyStr.chars k ++ [closing].
Let go := PyStr.replace_go old v.

Lemma go_skip s l : go (length s) (s ++ l) = go 0 l.
Proof. induction s as [|c s IH]; [done|]. exact IH. Qed.
Lemma go_plain s l : opening ∉ s -> go 0 (s ++ l) = s ++ go 0 l.
Proof.
  induction s as [|c s IH]; intros Hs; [done|]. apply not_elem_of_cons in Hs as [Hc Hs].
  unfold go. cbn [app PyStr.replace_go].
  assert (PyStr.starts old (c :: s ++ l) = false) as ->.
  { unfold old. cbn [PyStr.starts]. by destruct (Ascii.eqb_spec opening c) as [<-|]. }
  f_equal. by apply IH.
Qed.
Lemma go_hole l : go 0 (old ++ l) = v ++ go 0 l.
Proof.
  change (old ++ l) with (opening :: (PyStr.chars k ++ [closing]) ++ l). unfold go. cbn [PyStr.replace_go].
  assert (PyStr.starts old (opening :: (PyStr.chars k ++ [closing]) ++ l) = true) as -> by apply (starts_app old).
  f_equal. apply (go_skip (PyStr.chars k ++ [closing])).
Qed.
Lemma go_other h l : opening ∉ PyStr.chars h -> closing ∉ PyStr.chars h -> h <> k ->
  go 0 (show (Hole h) ++ l) = show (Hole h) ++ go 0 l.
Proof.
  intros Ho Hc Hne. cbn [show app]. unfold go. cbn [PyStr.replace_go app].
  destruct (PyStr.starts old _) eqn:E.
  - exfalso. apply Hne. unfold old in E. cbn [PyStr.starts] in E. rewrite Ascii.eqb_refl, <- app_assoc in E.
    apply starts_name in E; [|done..].
    rewrite <- (String.string_of_list_ascii_of_string h), <- (String.string_of_list_ascii_of_string k).
    unfold PyStr.chars in E. by rewrite E.
  - f_equal. apply go_plain.
    intros [?|Hin]%elem_of_app; [done|]. apply list_elem_of_singleton in Hin. done.
Qed.

Definition only (h : string) : option (list ascii) := if String.eqb h k then Some v else None.
Lemma go_flatten ps : Forall plain ps -> go 0 (flatten ps) = flatten (map (put only) ps).
Proof.
  induction 1 as [|p ps Hp Hps IH]; [done|]. unfold flatten in *. cbn [map concat].
  destruct p as [s|h]; [cbn [put show]; rewrite go_plain by done; by rewrite IH|]. destruct Hp as [Ho Hc].
  unfold put at 1, only at 1. destruct (String.eqb_spec h k) as [->|Hne].
  - cbn [show]. rewrite <- IH. apply go_hole.
  - rewrite go_other by done. by rewrite IH.
Qed.
End Replace.

Lemma put_plain binding ps :
  (forall k v, binding k = Some v -> opening ∉ v) -> Forall plain ps -> Forall plain (map (put binding) ps).
Proof.
  intros Hb. induction 1 as [|p ps Hp Hps IH]; simpl; constructor; [|done].
  destruct p as [s|h]; [done|]. simpl. destruct (binding h) as [v|] eqn:E; [|done]. by eapply Hb.
Qed.

(** The bindings of a list of arguments. *)
Definition bound (l : list (string * string)) (k : string) : option (list ascii) :=
  (fun v => PyStr.chars (PyStr.slice 500 v)) <$> dget k l.

Lemma fill_all l ps :
  (forall kv, kv ∈ l -> closing ∉ PyStr.chars kv.1 /\ opening ∉ PyStr.chars (PyStr.slice 500 kv.2)) ->
  Forall plain ps ->
  fold_left Content.fill_one l (PyStr.of_chars (flatten ps)) = fill (bound l) ps.
Proof.
  revert ps. induction l as [|[k v] l IH]; intros ps Hl Hps.
  - unfold fill. cbn [fold_left]. do 2 f_equal. rewrite <- (map_id ps) at 1. apply map_ext. by intros [].
  - cbn [fold_left]. destruct (Hl (k, v) ltac:(left)) as [Hk Hv]. simpl in Hk, Hv.
    unfold Content.fill_one at 2. cbn [fst snd]. unfold PyStr.replace. rewrite PyStr.chars_of_chars.
    assert (PyStr.chars ("{" +:+ k +:+ "}") = opening :: PyStr.chars k ++ [closing]) as ->
      by (rewrite !PyStr.chars_app; done).
    rewrite (go_flatten k) by done. rewrite IH; [|intros kv Hin; apply Hl; by right|].
    + unfold fill. do 2 f_equal. rewrite map_map. apply map_ext. intros [s|h]; [done|].
      simpl. unfold only, bound. simpl. by destruct (String.eqb_spec h k) as [->|].
    + apply put_plain; [|done]. unfold only. intros h w. destruct (String.eqb h k); [|done]. by intros [= <-].
Qed.
End Template.

(** [render_prompt] with all holes filled at once; the exemption of [risk] plays
    no part, as no prompt asks for it. *)
Definition render_at_once (name : string) (given : list (string * string)) : result string :=
  match dget name Content.PROMPTS with
  | None => Exn (KeyError (PyStr.repr ("unknown prompt " +:+ name)))
  | Some spec =>
      match List.find (fun k => negb (dmem k given)) (Content.args spec) with
      | Some key => Exn (ValueError ("missing prompt arg: " +:+ key))
      | None => Ok (Template.fill (Template.bound (Content.merged given))
                      (Template.of_text (Content.template spec)))
      end
  end.

Lemma missing_arg_find name given l : "risk" ∉ l ->
  Content.missing_arg name given l = List.find (fun k => negb (dmem k given)) l.
Proof.
  induction l as [|k l IH]; intros Hr; [done|]. apply not_elem_of_cons in Hr as [Hk Hr]. simpl.
  rewrite IH by done. destruct (String.eqb_spec k "risk"); [by subst|].
  rewrite andb_false_r. by destruct (dmem k given).
Qed.

(** Every prompt of the table is made of plain pieces and does not ask for a risk. *)
Definition sound_prompt (spec : Content.Prompt) : Prop :=
  "risk" ∉ Content.args spec
  /\ PyStr.of_chars (Template.flatten (Template.of_text (Content.template spec))) = Content.template spec
  /\ Forall Template.plain (Template.of_text (Content.template spec)).
Lemma prompts_sound : Forall (fun kv => sound_prompt kv.2) Content.PROMPTS.
Proof. apply (bool_decide_unpack _). vm_compute. exact I. Qed.

Lemma dget_forall {A} (P : A -> Prop) k (d : list (string * A)) v :
  Forall (fun kv => P kv.2) d -> dget k d = Some v -> P v.
Proof.
  induction 1 as [|[k' w] d Hw Hd IH]; simpl; [done|]. destruct (String.eqb k k'); [by intros [= <-]|done].
Qed.

(** C39. Filling a prompt hole by hole, as the loop over the arguments does, is
    filling all holes at once, each with the first 500 characters of its
    argument ([medium] for a missing risk), provided that no value has an
    opening and no name a closing brace; the refusals are those of an unknown
    prompt and of the first argument that is missing.  With a brace in a value
    it is not: [prompt_reopened]. *)
Theorem prompts_fill_at_once name given :
  (forall k v, (k, v) ∈ given -> Template.closing ∉ PyStr.chars k /\ Template.opening ∉ PyStr.chars v) ->
  Content.render_prompt name given = render_at_once name given.
Proof.
  intros Hg. unfold Content.render_prompt, render_at_once.
  destruct (dget name Content.PROMPTS) as [spec|] eqn:Es; [|done].
  pose proof (dget_forall sound_prompt name _ _ prompts_sound Es) as (Hr & Ht & Hp).
  rewrite missing_arg_find by done. destruct (List.find _ _); [done|]. f_equal.
  rewrite <- Ht at 1. apply Template.fill_all; [|done]. intros [k v] Hin.
  apply fold_dset_members in Hin as [Hin|Hin].
  - apply list_elem_of_singleton in Hin as [= -> ->]. split; vm_compute; set_solver.
  - destruct (Hg k v Hin) as [Hk Hv]. split; [done|]. simpl. intros Hx. apply Hv. by apply slice_members in Hx.
Qed.

(** A value with braces is filled again by a later argument. *)
Example prompt_reopened :
  Content.render_prompt "investigate-incident" [("service", "{symptom}"); ("symptom", "x")]
  = Content.render_prompt "investigate-incident" [("service", "x"); ("symptom", "x")].
Proof. vm_compute. reflexivity. Qed.

(** ** The audit log

    [/audit] asks for no identity.  A positive limit shows the last entries in
    order; zero shows them all, and a negative one all but the first. *)
Lemma last_entries_spec {A} (limit : Z) (l : list A) :
  suffix (last_entries limit l) l
  /\ ((0 < limit)%Z -> length (last_entries limit l) = Nat.min (Z.to_nat limit) (length l))
  /\ (limit = 0%Z -> last_entries limit l = l)
  /\ ((limit < 0)%Z -> length (last_entries limit l) = (length l - Z.to_nat (- limit))%nat).
Proof.
  unfold last_entries. destruct (Z.ltb_spec limit 0); [|destruct (Z.eqb_spec limit 0)].
  - split; [apply suffix_drop|]. rewrite length_drop. split_and!; lia.
  - split; [done|]. split_and!; [lia|done|lia].
  - split; [apply suffix_drop|]. rewrite length_drop. split_and!; lia.
Qed.

(** ** Witnesses *)

Module ServerDemo.
Definition server : Server Memory.db := mkServer None GatewayDemo.gateway.
Definition request (path : string) : Request :=
  mkRequest path [("authorization", "Bearer " +:+ BearerDemo.token); ("origin", "http://localhost")].
Definition run (q : Request) (c : Call) : M (Server Memory.db) dict :=
  @serve Memory.db Memory.engine McpModels.strict BearerDemo.oidc BearerDemo.now BearerDemo.keys None
    (Some BearerDemo.verifier) GatewayDemo.always None q c.
Definition dry_ticket : Call := Invoke "ticket.create" (mkBody GatewayDemo.dry_ticket (Some "k1") None) None.
End ServerDemo.

Lemma served_tools_are_authenticated_witness :
  is_ok (ServerDemo.run (ServerDemo.request "/mcp/mcp") (Mcp (GetHealth "checkout-api"))
           ServerDemo.server).2 = true
  /\ exists id, identified BearerDemo.oidc BearerDemo.now BearerDemo.keys None (Some BearerDemo.verifier)
       (ServerDemo.request "/mcp/mcp") (Mcp (GetHealth "checkout-api")) None id
     /\ permitted id "service.get_health" [("service", VStr "checkout-api")] None.
Proof.
  assert (is_ok (ServerDemo.run (ServerDemo.request "/mcp/mcp") (Mcp (GetHealth "checkout-api"))
            ServerDemo.server).2 = true) as Hok by (vm_compute; reflexivity).
  split; [exact Hok|].
  pose proof (@served_tools_are_authenticated Memory.db Memory.engine Memory.laws McpModels.strict
    BearerDemo.oidc BearerDemo.now BearerDemo.keys None (Some BearerDemo.verifier) GatewayDemo.always
    None " OIDC" (ServerDemo.request "/mcp/mcp") (Mcp (GetHealth "checkout-api")) "service.get_health"
    [("service", VStr "checkout-api")] None None ServerDemo.server eq_refl eq_refl
    ltac:(repeat constructor) eq_refl) as Hw.
  unfold wp in Hw. unfold ServerDemo.run in Hok.
  destruct (serve _ _ _ _ _ _ _ _ _ _) as [s' [r|e]]; [|discriminate].
  destruct Hw as (id & Hid & _ & Hp). exists id. split; [exact Hid|exact Hp].
Defined.

Lemma prompts_fill_at_once_witness :
  Content.render_prompt "prepare-change-review" [("action", "rollback"); ("change_id", "CHG-1")]
  = render_at_once "prepare-change-review" [("action", "rollback"); ("change_id", "CHG-1")]
  /\ is_ok (render_at_once "prepare-change-review" [("action", "rollback"); ("change_id", "CHG-1")]) = true.
Proof.
  split; [|vm_compute; reflexivity].
  apply prompts_fill_at_once. intros k v Hin.
  repeat (apply elem_of_cons in Hin as [[= -> ->]|Hin]; [split; vm_compute; set_solver|]).
  by apply elem_of_nil in Hin.
Defined.

(** Without a token: the REST tools are refused, the audit log is not. *)
Example audit_log_is_open :
  let q := mkRequest "/audit" [] in
  let served := (ServerDemo.run (ServerDemo.request "/tools/ticket.create/invoke") ServerDemo.dry_ticket
                   ServerDemo.server).1 in
  is_ok (ServerDemo.run q (AuditTail 20) served).2 = true
  /\ (ServerDemo.run q ServerDemo.dry_ticket served).2
     = Exn (http 401 "" "missing bearer token")
  /\ length (AUDIT_LOG (gateway served)) = 1%nat.
Proof. vm_compute. split; [|split]; reflexivity. Qed.

(** An origin that merely contains [localhost] passes. *)
Example lookalike_origin :
  bad_origin BearerDemo.oidc (mkRequest "/tools" [("origin", "https://localhost.attacker.example")]) = false
  /\ bad_origin BearerDemo.oidc (mkRequest "/tools" [("origin", "https://attacker.example")]) = true.
Proof. vm_compute. split; reflexivity. Qed.
