(* ===== verification/RepositoryEvents.v ===== *)
(** * Numbering and replay of events

    What appending an event under a fresh number leaves, and what a page of the
    list of events shows. *)

From stdpp Require Import base list strings gmap.
From Stdlib Require Import ZArith Lia Ascii Sorted.
From S2P Require Import Prelude.
From S2P Require Import PyFloat.
From S2P Require Import PyValue.
From S2P Require Import PyTime.
From S2P Require Import Contracts.
From S2P Require Import ContractsOps.
From S2P Require Import Redaction.
From S2P Require Import Tables.
From S2P Require Import Repository.
From S2P Require Import RepositorySpecs.
From S2P Require Import RepositoryStore.
From S2P Require Import RepositoryProps.

Import Repository.
Local Open Scope py_scope.

(** The sequence numbers of a run, in insertion order. *)
Definition sequences (run_id : string) (t : Tables) : list Z :=
  map RunEvent.sequence (List.filter (fun e => String.eqb (RunEvent.run_id e) run_id)
                           (run_events t)).
(** The run's events are numbered 0, 1, 2, ... *)
Definition numbered (run_id : string) (t : Tables) : Prop :=
  sequences run_id t = map Z.of_nat (seq 0 (length (sequences run_id t))).

Lemma fold_max_ge l a : (a <= fold_left Z.max l a)%Z /\ Forall (fun x => (x <= fold_left Z.max l a)%Z) l.
Proof.
  revert a. induction l as [|x l IH]; intros a; simpl; [split; [lia|constructor]|].
  destruct (IH (Z.max a x)) as [? ?]. split; [lia|constructor; [lia|done]].
Qed.

Lemma next_of_above run_id t e :
  e ∈ run_events t -> RunEvent.run_id e = run_id -> (RunEvent.sequence e < next_of run_id t)%Z.
Proof.
  intros He Hr. unfold next_of.
  destruct (fold_max_ge (sequences run_id t) (-1)) as [_ Hf]. unfold sequences in Hf.
  rewrite Forall_forall in Hf. enough (RunEvent.sequence e
    ∈ map RunEvent.sequence (List.filter (fun e => String.eqb (RunEvent.run_id e) run_id)
                               (run_events t))) as Hin by (apply Hf in Hin; lia).
  apply list_elem_of_fmap_2, list_elem_of_In, filter_In. split; [by apply list_elem_of_In|].
  by apply String.eqb_eq.
Qed.

Lemma fold_max_seq n m a :
  (a < Z.of_nat m)%Z -> fold_left Z.max (map Z.of_nat (seq m n)) a
  = if (n =? 0) then a else (Z.of_nat (m + n) - 1)%Z.
Proof.
  revert m a. induction n as [|n IH]; intros m a Ha; simpl; [done|].
  rewrite IH by lia. destruct n; simpl; lia.
Qed.

Lemma numbered_next run_id t :
  numbered run_id t -> next_of run_id t = Z.of_nat (length (sequences run_id t)).
Proof.
  intros Hn. unfold next_of. fold (sequences run_id t). rewrite Hn at 1.
  rewrite fold_max_seq by lia. destruct (length (sequences run_id t)); simpl; lia.
Qed.

Lemma sequences_add run_id t e :
  sequences run_id (on_events (add e) t)
  = sequences run_id t ++ (if String.eqb (RunEvent.run_id e) run_id then [RunEvent.sequence e] else []).
Proof.
  unfold sequences, add. simpl. rewrite List.filter_app, map_app. simpl.
  by destruct (String.eqb _ _).
Qed.

Lemma numbered_add run_id t e :
  numbered run_id t -> RunEvent.sequence e = next_of (RunEvent.run_id e) t ->
  numbered run_id (on_events (add e) t).
Proof.
  intros Hn He. unfold numbered. rewrite sequences_add.
  destruct (String.eqb_spec (RunEvent.run_id e) run_id) as [<-|]; [|by rewrite app_nil_r].
  rewrite length_app, seq_app, map_app, <- Hn. simpl. rewrite He. by rewrite numbered_next.
Qed.

(** A row comes back as an event with its own number, run and tenant. *)
Lemma row_to_event_sequence r e :
  row_to_event r = Ok e -> AgentEvent.sequence e = RunEvent.sequence r.
Proof.
  unfold row_to_event, rbind, enum. destruct (EventType.parse _); [|done].
  intros (-> & _)%validate_ok. done.
Qed.

(** The row fits the constraints when its identifier and number are fresh. *)
Lemma constraints_add_event t e :
  constraints t -> by_event_id (RunEvent.event_id e) t = None ->
  RunEvent.sequence e = next_of (RunEvent.run_id e) t -> constraints (on_events (add e) t).
Proof.
  intros [] Hid Hseq. constructor; simpl; try done; unfold add; rewrite map_app; simpl;
    apply NoDup_app; (split_and!; [done| |apply NoDup_singleton]);
    intros x Hx ->%list_elem_of_singleton; apply list_elem_of_fmap in Hx as (y & Hy & Hin).
  - apply (first_none _ _ Hid) in Hin. rewrite Hy in Hin. by rewrite String.eqb_refl in Hin.
  - injection Hy as Hr Hs. apply (next_of_above (RunEvent.run_id e)) in Hin; [|done].
    rewrite <- Hseq in Hin. lia.
Qed.

(** ** Replay *)

Lemma Forall2_map_eq {A B C} (R : A -> B -> Prop) (f : A -> C) (g : B -> C) l k :
  (forall x y, R x y -> g y = f x) -> Forall2 R l k -> map g k = map f l.
Proof. intros HR. induction 1; simpl; [done|]. f_equal; auto. Qed.

Lemma sorted_strict {A} (key : A -> Z) l :
  StronglySorted (fun x y => (key x <= key y)%Z) l -> NoDup (map key l) ->
  StronglySorted (fun x y => (key x < key y)%Z) l.
Proof.
  induction 1 as [|x l Hs IH Hx]; intros Hn; [constructor|]. simpl in Hn.
  apply NoDup_cons in Hn as [Hni Hn]. constructor; [by apply IH|].
  rewrite Forall_forall in *. intros y Hy. specialize (Hx y Hy).
  assert (key x <> key y) by (intros E; apply Hni; rewrite E; by apply list_elem_of_fmap_2). lia.
Qed.

Lemma sorted_app_lt {A} (R : A -> A -> Prop) l k x y :
  StronglySorted R (l ++ k) -> x ∈ l -> y ∈ k -> R x y.
Proof.
  induction l as [|z l IH]; simpl; [by intros _ ?%not_elem_of_nil|].
  intros Hs Hx Hy. inversion Hs as [|? ? Hs' Hz]; subst.
  apply elem_of_cons in Hx as [->|Hx]; [|by apply IH].
  rewrite Forall_forall in Hz. apply Hz. set_solver.
Qed.

Lemma sorted_take {A} (R : A -> A -> Prop) n l : StronglySorted R l -> StronglySorted R (take n l).
Proof.
  intros Hs. revert n. induction Hs as [|x l Hs IH Hx]; intros [|n]; simpl; try constructor; auto.
  rewrite Forall_forall in *. intros y Hy. apply Hx. by eapply elem_of_take in Hy as (? & ? & _);
    eapply list_elem_of_lookup_2.
Qed.

Lemma StronglySorted_fmap_key {A} (key : A -> Z) l :
  StronglySorted (fun x y => (key x < key y)%Z) l -> StronglySorted Z.lt (map key l).
Proof.
  induction 1 as [|x l Hs IH Hx]; simpl; constructor; [done|]. by apply List.Forall_map.
Qed.

Section ElemOf.
Context {A B : Type} (R : A -> B -> Prop).
Lemma Forall2_elem_of_l l k x : Forall2 R l k -> x ∈ l -> exists y, y ∈ k /\ R x y.
Proof.
  induction 1 as [|a b l k Hab _ IH]; [by intros ?%not_elem_of_nil|].
  intros [->|Hx]%elem_of_cons; [exists b; split; [left|done]|].
  destruct (IH Hx) as (y & ? & ?). exists y. split; [by right|done].
Qed.
Lemma Forall2_elem_of_r l k y : Forall2 R l k -> y ∈ k -> exists x, x ∈ l /\ R x y.
Proof.
  induction 1 as [|a b l k Hab _ IH]; [by intros ?%not_elem_of_nil|].
  intros [->|Hx]%elem_of_cons; [exists a; split; [left|done]|].
  destruct (IH Hx) as (x & ? & ?). exists x. split; [by right|done].
Qed.
Lemma list_elem_of_take n (l : list A) x : x ∈ take n l -> x ∈ l.
Proof. rewrite <- (take_drop n l) at 2. intros. apply elem_of_app. by left. Qed.
End ElemOf.

Section Replay.
Context {W : Type} `{EngineLaws W}.

Lemma events_after_spec run_id after t e :
  e ∈ events_after run_id after t <->
  e ∈ run_events t /\ RunEvent.run_id e = run_id /\ (after < RunEvent.sequence e)%Z.
Proof.
  unfold events_after. rewrite !list_elem_of_In, filter_In, andb_true_iff, String.eqb_eq, Z.ltb_lt.
  naive_solver.
Qed.

Lemma events_after_nodup run_id after t :
  constraints t -> NoDup (map RunEvent.sequence (events_after run_id after t)).
Proof.
  intros Hc. pose proof (uq_run_sequence t Hc) as Hn. unfold events_after.
  induction (run_events t) as [|e l IH]; simpl in *; [constructor|].
  apply NoDup_cons in Hn as [Hni Hn]. destruct (_ && _) eqn:E; simpl; [|by apply IH].
  apply andb_prop in E as [E%String.eqb_eq _]. constructor; [|by apply IH].
  intros (y & Hy & Hin)%list_elem_of_fmap. apply Hni, list_elem_of_fmap. exists y.
  apply list_elem_of_In, filter_In in Hin as [Hin [Hr%String.eqb_eq _]%andb_prop].
  split; [by rewrite Hy, E, Hr|by apply list_elem_of_In].
Qed.

Lemma ordered_events run_id after t :
  constraints t ->
  StronglySorted (fun x y => (RunEvent.sequence x < RunEvent.sequence y)%Z)
    (order_by (W:=W) RunEvent.sequence (events_after run_id after t)).
Proof.
  intros Hc. apply sorted_strict; [apply order_by_sorted|].
  pose proof (fmap_Permutation RunEvent.sequence _ _
    (order_by_perm (W:=W) RunEvent.sequence (events_after run_id after t))) as Hp.
  unfold fmap, list_fmap in Hp. rewrite Hp. by apply events_after_nodup.
Qed.
End Replay.
