(* ===== verification/RepositoryTheorems.v ===== *)
(** * Guarantees of the repository

    The guarantees the persistence layer announces, for every engine that
    satisfies the laws: idempotence, numbering, replay, ownership, tenant
    isolation, final decisions and redaction.  The witnesses evaluate them on
    the in-memory engine. *)

From stdpp Require Import base list strings gmap.
From Stdlib Require Import ZArith Lia Ascii Sorted.
From S2P Require Import Prelude.
From S2P Require Import PyFloat.
From S2P Require Import PyValue.
From S2P Require Import PyTime.
From S2P Require Import Contracts.
From S2P Require Import ContractsOps.
From S2P Require Import Redaction.
From S2P Require Import Tables.
From S2P Require Import Repository.
From S2P Require Import RepositorySpecs.
From S2P Require Import RepositoryStore.
From S2P Require Import RepositoryProps.
From S2P Require Import RepositoryEvents.
From S2P Require Import MemoryEngine.

Import Repository.
Local Open Scope py_scope.

(** ** Sequences of calls *)

Section History.
Context {W : Type} `{EngineLaws W}.
Variable redact : dict -> dict.

(** The worlds that calls by any tenants lead to from an empty store. *)
Inductive history : W -> Prop :=
  | h_start w : committed w = no_rows -> history w
  | h_call T A (m : M W A) w : history w -> tenant_call redact T A m -> history (m w).1.

Lemma history_inv w :
  history w -> constraints (committed w) /\ well_owned (committed w)
               /\ payloads_redacted redact (committed w).
Proof.
  induction 1 as [w ->|T A m w Hh (Hc & Ho & Hp) Hm].
  - split_and!; repeat constructor.
  - destruct (tenant_call_change redact T A m w Hm Hc) as [Hch Hc'].
    split_and!; [done|by eapply change_well_owned|by eapply change_redacted].
Qed.

Lemma rows_owned_of_history w : history w -> well_owned (committed w).
Proof. intros Hh. by destruct (history_inv w Hh) as (_ & ? & _). Qed.
End History.

(** C14. Every repository method, whatever it is called with and however the
    engine fails under it, does to the committed tables what the abstract
    store allows one call of its tenant, and keeps the declared constraints. *)
Theorem methods_refine_store {W} `{EngineLaws W} redact T A (m : M W A) w :
  tenant_call redact T A m -> constraints (committed w) ->
  change redact T (committed w) (committed (m w).1) /\ constraints (committed (m w).1).
Proof. apply tenant_call_change. Qed.

(** C18. Whatever calls the tenants make, every event, task, invocation,
    approval, finding, evidence reference, model call and audit record belongs
    to an existing run of its own tenant, every run to an existing tenant, and
    identifiers and sequence numbers stay unique. *)
Theorem rows_are_owned {W} `{EngineLaws W} redact (w : W) :
  history redact w -> constraints (committed w) /\ well_owned (committed w).
Proof. intros Hh. by destruct (history_inv redact w Hh) as (? & ? & _). Qed.

(** A call made for one tenant changes no row of another tenant, in any
    table. *)
Theorem tenants_are_isolated {W} `{EngineLaws W} redact T T' A (m : M W A) w :
  tenant_call redact T A m -> constraints (committed w) -> T' <> T ->
  same_rows T' (committed w) (committed (m w).1).
Proof.
  intros Hm Hc Hne. eapply change_isolated; [|exact Hne].
  by apply (tenant_call_change redact T A m w Hm Hc).
Qed.

(** C33. The event and audit logs only grow, by at most one record per call,
    and a decided approval is never rewritten. *)
Theorem records_are_final {W} `{EngineLaws W} redact T A (m : M W A) w :
  tenant_call redact T A m -> constraints (committed w) ->
  grows (run_events (committed w)) (run_events (committed (m w).1))
  /\ grows (audit_records (committed w)) (audit_records (committed (m w).1))
  /\ forall a, a ∈ approvals (committed w) -> ApprovalRow.decision a <> "pending" ->
       a ∈ approvals (committed (m w).1).
Proof.
  intros Hm Hc. destruct (tenant_call_change redact T A m w Hm Hc) as [Hch _].
  destruct (change_logs _ _ _ _ Hch). split_and!; [done|done|].
  intros a Ha Hd. by eapply change_final.
Qed.

(** No call ever turns a stored approval into an expired one: the write
    that [decide_approval] makes on an expired row is rolled back by the
    ConflictError it then raises. *)
Theorem stored_approval_never_expires {W} `{EngineLaws W} redact T A (m : M W A) w a a' :
  tenant_call redact T A m -> constraints (committed w) ->
  a ∈ approvals (committed w) -> ApprovalRow.decision a <> "expired" ->
  a' ∈ approvals (committed (m w).1) -> ApprovalRow.approval_id a' = ApprovalRow.approval_id a ->
  ApprovalRow.decision a' <> "expired".
Proof.
  intros Hm Hc Ha Hd Ha' Hid He.
  destruct (tenant_call_change redact T A m w Hm Hc) as [Hch _].
  destruct (change_no_expiry _ _ _ _ _ Hch Ha' He) as [Hin|Hnone].
  - apply Hd. rewrite <- He. f_equal.
    by eapply (nodup_key ApprovalRow.approval_id); [apply uq_approval_id|..].
  - rewrite Hid in Hnone. apply (first_none _ _ Hnone) in Ha. simpl in Ha.
    by rewrite String.eqb_refl in Ha.
Qed.

(** Every payload stored by an invocation, a delegated task or an audit
    record, in and out, is one the redaction hook produced. *)
Theorem stored_payloads_are_redacted {W} `{EngineLaws W} redact (w : W) :
  history redact w -> payloads_redacted redact (committed w).
Proof. intros Hh. by destruct (history_inv redact w Hh) as (_ & _ & ?). Qed.

(** ** Idempotence *)

Lemma run_key_after_add T key r t :
  given key = true -> Run.tenant_id r = T -> Run.idempotency_key r = key ->
  run_with_key T key t = None -> run_with_key T key (on_runs (add r) t) = Some r.
Proof.
  unfold run_with_key. intros -> HT Hk Hn. simpl. apply first_add_new; [done|].
  by rewrite HT, Hk, String.eqb_refl, bool_decide_eq_true_2.
Qed.

Lemma create_run_again {W} `{EngineLaws W} T key r id by_ obj bud cur tr co (w : W) :
  run_with_key T key (committed w) = Some r -> is_Some (get_tenant T (committed w)) ->
  outcome (create_run id T by_ obj bud cur tr co key)
    (fun r' t' => r' = r /\ t' = committed w) (fun _ => False) w.
Proof.
  intros Hk [x Hx]. eapply wp_mono; [apply create_run_wp| |]; simpl.
  - intros r' w' (t1 & Ht1 & Hc). destruct Ht1 as [[_ ->]|(Hn & _)]; [|congruence].
    destruct Hc as [[E ->]|[E _]]; [|congruence]. split; congruence.
  - intros e w' [? He]. split; [done|]. intros Hr. destruct (He Hr) as (_ & ? & _). congruence.
Qed.

(** Creating a run twice for one tenant under one idempotency key returns
    the same run, whatever the other arguments of the second call are, and the
    second call changes nothing. *)
Theorem create_run_idempotent {W} `{EngineLaws W} T key id by_ obj bud cur tr co
    id' by_' obj' bud' cur' tr' co' (w : W) :
  constraints (committed w) -> well_owned (committed w) -> given key = true ->
  wp (create_run id T by_ obj bud cur tr co key)
     (fun r w1 => wp (create_run id' T by_' obj' bud' cur' tr' co' key)
        (fun r' w2 => r' = r /\ committed w2 = committed w1)
        (fun e w2 => repo_error e = false /\ committed w2 = committed w1) w1)
     (fun e w1 => committed w1 = committed w) w.
Proof.
  intros Hc Ho Hg. eapply wp_mono; [apply create_run_wp| |by intros e w' [? _]]. simpl.
  intros r w1 (t1 & Ht1 & Hr).
  assert (run_with_key T key (committed w1) = Some r /\ is_Some (get_tenant T (committed w1)))
    as [Hk Ht].
  { pose proof (with_tenant_has _ _ _ Ht1) as Hx.
    assert (run_with_key T key t1 = run_with_key T key (committed w)) as Heq
      by (unfold run_with_key; by rewrite (with_tenant_runs _ _ _ Ht1)).
    destruct Hr as [[? ->]|(? & _ & _ & -> & c & u & ->)]; [by rewrite Heq|].
    split; [|done]. apply run_key_after_add; [done|done|done|by rewrite Heq]. }
  eapply wp_mono; [by eapply create_run_again|by intros r' w2 ?|].
  intros e w2 [? He]. split; [|done]. destruct (repo_error e); [by destruct He|done].
Qed.

(** ** Numbering and retries *)

(** C19. [append_next_event] numbers a run's events 0, 1, 2, ... without gaps and
    touches the numbers of no other run.  It is idempotent in the identifier of
    the event: if the identifier it is given, or draws, is stored already, it
    answers with the stored event and changes nothing; otherwise it adds exactly
    one row, with that identifier, run and tenant, the data that the hook
    returns, and a number above those of the run, and answers with that row. *)
Theorem append_next_event_numbers {W} `{EngineLaws W} redact run_id T type data eid tr co se sa
    (w : W) :
  outcome (append_next_event redact run_id T type data eid tr co se sa)
    (fun ev t' =>
       (forall r, numbered r (committed w) -> numbered r t')
       /\ (forall r, r <> run_id -> sequences r t' = sequences r (committed w))
       /\ exists id, (given eid = true -> eid = Some id) /\
          match by_event_id id (committed w) with
          | Some stored => row_to_event stored = Ok ev /\ t' = committed w
          | None => exists row, t' = on_events (add row) (committed w) /\ row_to_event row = Ok ev
              /\ RunEvent.event_id row = id /\ RunEvent.run_id row = run_id /\ RunEvent.tenant_id row = T
              /\ RunEvent.data_json row = redact data
              /\ (forall e, e ∈ run_events (committed w) -> RunEvent.run_id e = run_id ->
                    (RunEvent.sequence e < RunEvent.sequence row)%Z)
          end)
    (fun e => exn_class e <> "ConflictError") w.
Proof.
  eapply wp_mono; [apply append_next_event_wp| |]; simpl.
  - intros ev w' (_ & _ & id & Hid & [(d & Hd & Hev & ->)|(Hn & _ & at_ & Hev & ->)]).
    { split_and!; [done|done|]. exists id. by rewrite Hd. }
    split_and!.
    + intros r Hr. by apply numbered_add.
    + intros r Hne. rewrite sequences_add. simpl.
      destruct (String.eqb_spec run_id r); [congruence|by rewrite app_nil_r].
    + exists id. rewrite Hn. split; [done|]. eexists. split_and!; [done..|].
      intros e He Hr. by apply next_of_above.
  - intros e w' [Hc He]. split; [done|]. intros Hr.
    destruct (He Hr) as [->|[[-> _]|[d Hd]]]; [done|done|].
    unfold row_to_event, rbind, enum in Hd. destruct (EventType.parse _).
    + by apply validate_error in Hd as [? ->].
    + by simplify_eq.
Qed.

(** Losing the race for a sequence number is not retried: when the first
    flush fails with an IntegrityError, [append_next_event] ends with the error
    of the commit that follows it, not with the next number or a
    ConflictError. *)
Theorem lost_race_is_not_retried {W} `{EngineLaws W} redact run_id T type data eid tr co se sa
    (w : W) :
  (forall f w0, exists m, (flush f w0).2 = Exn (OtherError "IntegrityError" m)) ->
  by_event_id eid (committed w) = None -> eid <> "" -> se && sa = false ->
  owned run_id T (committed w) = true ->
  exists e, (append_next_event redact run_id T type data (Some eid) tr co se sa w).2 = Exn e
            /\ exn_class e <> "ConflictError" /\ repo_error e = false.
Proof.
  intros Hf Hid Hne Hs Ho.
  enough (wp (append_next_event redact run_id T type data (Some eid) tr co se sa)
            (fun _ _ => False) (fun e _ => repo_error e = false) w) as Hw.
  { unfold wp in Hw. destruct (append_next_event _ _ _ _ _ _ _ _ _ _ w) as [w' [a|e]]; [done|].
    exists e. split_and!; [done| |done]. intros Hcl. unfold repo_error in Hw. by rewrite Hcl in Hw. }
  assert (given (Some eid) = true) as Hg.
  { simpl. by destruct (String.eqb_spec eid ""). }
  unfold append_next_event. rewrite Hs. simpl append_retry. apply wp_bind.
  unfold append_attempt. apply wp_transaction; [|done]. intros w1 Hc1 Hp1 Ha1.
  unfold check_run. rewrite Hg. apply wp_bind, wp_bind, wp_rows. rewrite Hp1, Ho. apply wp_ret.
  apply wp_bind, wp_ret, wp_bind, wp_rows. simpl default. rewrite Hp1, Hid.
  apply wp_bind, wp_rows, wp_bind, wp_observes; [apply now_law|]. intros at_ w2 Hc2 Hp2 Ha2.
  assert (active w2 = true) as Ha by congruence.
  apply wp_bind, wp_try, wp_bind. unfold wp at 1.
  match goal with |- context [flush ?f w2] => destruct (Hf f w2) as [msg Hfl];
    pose proof (flush_law f w2 Ha) as Hl; destruct (flush f w2) as [w3 r] end.
  simpl in Hfl. subst r. simpl. destruct Hl as (Hc3 & Ha3 & _).
  apply wp_ret, wp_ret. split; [congruence|]. intros ?. congruence.
Qed.

(** On an engine without races, appending a valid event under a fresh
    identifier to an own run succeeds: the number it computes is free. *)
Theorem append_next_event_succeeds {W} `{EngineLaws W} `{!QuietEngine W} redact run_id T type data
    eid tr co se sa (w : W) :
  constraints (committed w) -> owned run_id T (committed w) = true ->
  eid <> "" -> by_event_id eid (committed w) = None -> se && sa = false ->
  (forall at_, is_ok (row_to_event (next_row run_id T type (redact data) eid tr co se sa
                        (next_of run_id (committed w)) at_)) = true) ->
  wp (append_next_event redact run_id T type data (Some eid) tr co se sa)
     (fun ev w' => exists row, run_events (committed w') = add row (run_events (committed w))
                   /\ row_to_event row = Ok ev
                   /\ RunEvent.sequence row = next_of run_id (committed w))
     (fun _ _ => False) w.
Proof.
  intros Hc Ho Hne Hid Hs Hok.
  assert (given (Some eid) = true) as Hg.
  { simpl. by destruct (String.eqb_spec eid ""). }
  unfold append_next_event. rewrite Hs. simpl append_retry. apply wp_bind.
  unfold append_attempt. apply wp_transaction_quiet. intros w1 Hc1 Hp1 Ha1.
  unfold check_run. rewrite Hg. apply wp_bind, wp_bind, wp_rows. rewrite Hp1, Ho. apply wp_ret.
  apply wp_bind, wp_ret, wp_bind, wp_rows. simpl default. rewrite Hp1, Hid.
  apply wp_bind, wp_rows, wp_bind, wp_observes; [apply now_law|]. intros at_ w2 Hc2 Hp2 Ha2.
  rewrite Hp1. apply wp_bind, wp_try, wp_bind, wp_flush_quiet; [congruence| |].
  { rewrite Hp2, Hp1. by apply constraints_add_event. }
  intros w3 Hp3 Hc3 Ha3. apply wp_ret, wp_bind, wp_lift. specialize (Hok at_).
  unfold next_row in Hok. destruct (row_to_event _) as [ev|] eqn:Hev; [|done].
  apply wp_ret. split; [done|]. intros w4 Hw4. apply wp_ret.
  rewrite Hw4, Hp3, Hp2, Hp1. eexists. split_and!; [done|done|done].
Qed.

(** ** Replay *)

(** C20. [list_events] replays: the events it returns are stored events of the
    run above the cursor, strictly ordered by sequence number and at most
    [limit]; and a stored event above the cursor is among them unless the page
    is full of earlier ones, so paging with the last number misses nothing. *)
Theorem list_events_replays {W} `{EngineLaws W} run_id T after limit (w : W) :
  constraints (committed w) ->
  outcome (list_events run_id T after limit)
    (fun l t' => t' = committed w
       /\ StronglySorted Z.lt (map AgentEvent.sequence l)
       /\ (Z.of_nat (length l) <= limit)%Z
       /\ (forall ev, ev ∈ l -> (after < AgentEvent.sequence ev)%Z /\
             exists row, row ∈ run_events (committed w) /\ RunEvent.run_id row = run_id
                         /\ row_to_event row = Ok ev)
       /\ (forall row, row ∈ run_events (committed w) -> RunEvent.run_id row = run_id ->
             (after < RunEvent.sequence row)%Z ->
             (exists ev, ev ∈ l /\ row_to_event row = Ok ev)
             \/ (Z.of_nat (length l) = limit /\
                 forall ev, ev ∈ l -> (AgentEvent.sequence ev < RunEvent.sequence row)%Z)))
    (fun _ => True) w.
Proof.
  intros Hc. eapply wp_mono; [apply list_events_wp| |by intros e w' [? _]]. simpl.
  intros l w' (-> & Hlim & _ & Hl). split; [done|].
  set (all := order_by RunEvent.sequence (events_after run_id after (committed w))) in *.
  pose proof (ordered_events (W:=W) run_id after _ Hc) as Hs. fold all in Hs.
  apply map_result_forall2 in Hl.
  assert (Hall : forall e, e ∈ all <-> e ∈ events_after run_id after (committed w))
    by (intros e; unfold all; by rewrite order_by_perm).
  assert (Hseq : map AgentEvent.sequence l = map RunEvent.sequence (take (Z.to_nat limit) all))
    by (eapply Forall2_map_eq; [|done]; apply row_to_event_sequence).
  assert (Hlen : length l = length (take (Z.to_nat limit) all)) by (by symmetry; eapply Forall2_length).
  split_and!.
  - rewrite Hseq. apply StronglySorted_fmap_key. by apply sorted_take.
  - rewrite Hlen, length_take. lia.
  - intros ev Hev. destruct (Forall2_elem_of_r _ _ _ _ Hl Hev) as (row & Hrow & Hr).
    apply list_elem_of_take in Hrow. apply Hall, events_after_spec in Hrow as (? & ? & ?).
    split; [by rewrite (row_to_event_sequence _ _ Hr)|eauto].
  - intros row Hin Hr Ha. assert (row ∈ all) as Hrow by (by apply Hall, events_after_spec).
    rewrite <- (take_drop (Z.to_nat limit) all) in Hrow.
    apply elem_of_app in Hrow as [Hrow|Hrow]; [left|right].
    { destruct (Forall2_elem_of_l _ _ _ _ Hl Hrow) as (ev & ? & ?). eauto. }
    split.
    { rewrite Hlen, length_take. apply list_elem_of_lookup in Hrow as [i Hi].
      apply lookup_lt_Some in Hi. rewrite length_drop in Hi. lia. }
    intros ev Hev. destruct (Forall2_elem_of_r _ _ _ _ Hl Hev) as (row' & Hrow' & Hr').
    rewrite (row_to_event_sequence _ _ Hr').
    rewrite <- (take_drop (Z.to_nat limit) all) in Hs. by eapply (sorted_app_lt _ _ _ _ _ Hs).
Qed.

(** ** Witnesses on the in-memory engine *)

Module Demo.
Definition create : M Memory.db Tables.Run.t :=
  create_run "run_1" "acme" "alice" "Investigate the checkout errors" [] "created" None None
    (Some "key-1").
(** A store with one run. *)
Definition started : Memory.db := (create Memory.empty).1.
Definition append : M Memory.db AgentEvent.t :=
  append_next_event default_hook "run_1" "acme" (inl EventType.RUN_STARTED)
    [("api_key", VStr "abc"); ("n", VInt 1)] (Some "evt_1") None None false false.
(** A store with one run and one event. *)
Definition appended : Memory.db := (append started).1.
Definition pending_approval : Approval.t :=
  Approval.mk "apr_1" "run_1" "acme" "act_1" "alice" None ApprovalDecision.PENDING None
    1789128000000000 None (Some 1789128000000001%Z) None None.
(** A store with an approval whose time is over. *)
Definition overdue : Memory.db := (create_approval pending_approval started).1.
Definition decide_late : M Memory.db Approval.t :=
  decide_approval "apr_1" "acme" "approved" "bob" None.
End Demo.

Lemma demo_history : history default_hook Demo.started.
Proof. eapply h_call; [by apply h_start|apply (c_create_run default_hook "acme")]. Qed.
Lemma demo_history_appended : history default_hook Demo.appended.
Proof. eapply h_call; [apply demo_history|apply (c_append_next_event default_hook "acme")]. Qed.
Lemma demo_constraints : constraints (committed Demo.started).
Proof. apply check_constraints_spec. vm_compute. reflexivity. Qed.
Lemma demo_constraints_appended : constraints (committed Demo.appended).
Proof. apply check_constraints_spec. vm_compute. reflexivity. Qed.
Lemma demo_constraints_overdue : constraints (committed Demo.overdue).
Proof. apply check_constraints_spec. vm_compute. reflexivity. Qed.
Lemma demo_owned : well_owned (committed Demo.started).
Proof. apply (rows_owned_of_history default_hook), demo_history. Qed.

Lemma methods_refine_store_witness :
  change default_hook "acme" no_rows (committed Demo.started)
  /\ length (runs (committed Demo.started)) = 1.
Proof.
  split; [|reflexivity].
  exact (proj1 (methods_refine_store default_hook "acme" _ Demo.create Memory.empty
                  (c_create_run default_hook "acme" _ _ _ _ _ _ _ _) no_rows_constraints)).
Defined.

Lemma rows_are_owned_witness :
  well_owned (committed Demo.appended) /\ length (run_events (committed Demo.appended)) = 1.
Proof.
  split; [|vm_compute; reflexivity].
  exact (proj2 (rows_are_owned default_hook Demo.appended demo_history_appended)).
Defined.

Lemma tenants_are_isolated_witness :
  same_rows "acme" (committed Demo.appended)
    (committed (create_run (W:=Memory.db) "run_2" "globex" "eve" "Look around" [] "created"
                  None None None Demo.appended).1).
Proof.
  exact (tenants_are_isolated default_hook "globex" "acme" _ _ Demo.appended
           (c_create_run default_hook "globex" _ _ _ _ _ _ _ _) demo_constraints_appended
           ltac:(discriminate)).
Defined.

Lemma records_are_final_witness :
  grows (run_events (committed Demo.started)) (run_events (committed Demo.appended)).
Proof.
  exact (proj1 (records_are_final default_hook "acme" _ Demo.append Demo.started
    (c_append_next_event default_hook "acme" _ _ _ _ _ _ _ _) demo_constraints)).
Defined.

Lemma stored_approval_never_expires_witness :
  is_ok (Demo.decide_late Demo.overdue).2 = false
  /\ ApprovalRow.decision (approval_row Demo.pending_approval) <> "expired".
Proof.
  split; [vm_compute; reflexivity|].
  refine (stored_approval_never_expires default_hook "acme" _ Demo.decide_late Demo.overdue
    (approval_row Demo.pending_approval) (approval_row Demo.pending_approval)
    (c_decide_approval default_hook "acme" _ _ _ _) demo_constraints_overdue _ _ _ _);
    [left|discriminate|left|reflexivity].
Defined.

Lemma stored_payloads_are_redacted_witness :
  payloads_redacted default_hook (committed Demo.appended)
  /\ map RunEvent.data_json (run_events (committed Demo.appended))
     = [[("api_key", VStr Redact.REDACTED); ("n", VInt 1)]].
Proof.
  split; [|vm_compute; reflexivity].
  exact (stored_payloads_are_redacted default_hook Demo.appended demo_history_appended).
Defined.

Lemma create_run_idempotent_witness :
  wp Demo.create
    (fun r w1 => wp (create_run "run_9" "acme" "bob" "Other" [] "created" None None (Some "key-1"))
       (fun r' w2 => r' = r /\ committed w2 = committed w1)
       (fun e w2 => repo_error e = false /\ committed w2 = committed w1) w1)
    (fun e w1 => committed w1 = committed Demo.started) Demo.started
  /\ is_ok (Demo.create Demo.started).2 = true.
Proof.
  split; [|vm_compute; reflexivity].
  refine (create_run_idempotent "acme" (Some "key-1") _ _ _ _ _ _ _ _ _ _ _ _ _ _ Demo.started
    demo_constraints demo_owned _). reflexivity.
Defined.

Lemma append_next_event_numbers_witness :
  outcome Demo.append (fun _ t' => forall r, numbered r (committed Demo.started) -> numbered r t')
    (fun _ => True) Demo.started
  /\ sequences "run_1" (committed Demo.appended) = [0%Z].
Proof.
  split; [|vm_compute; reflexivity].
  pose proof (append_next_event_numbers default_hook "run_1" "acme" (inl EventType.RUN_STARTED)
    [("api_key", VStr "abc"); ("n", VInt 1)] (Some "evt_1") None None false false Demo.started) as Hw.
  exact (wp_mono _ _ _ _ _ _ Hw (fun _ _ Hq => proj1 Hq) (fun _ _ He => conj (proj1 He) (fun _ => I))).
Defined.

Lemma lost_race_is_not_retried_witness :
  exists e, (@append_next_event Memory.db (Memory.engine_with (fun _ => true)) default_hook "run_1"
               "acme" (inl EventType.RUN_STARTED) [] (Some "evt_1") None None false false
               Demo.started).2 = Exn e
            /\ exn_class e <> "ConflictError" /\ repo_error e = false.
Proof.
  refine (@lost_race_is_not_retried Memory.db (Memory.engine_with (fun _ => true))
    (Memory.laws_with (fun _ => true)) default_hook "run_1" "acme" (inl EventType.RUN_STARTED) []
    "evt_1" None None false false Demo.started _ _ _ _ _);
    [intros f w0; eexists; reflexivity|vm_compute; reflexivity|discriminate|reflexivity
    |vm_compute; reflexivity].
Defined.

Lemma append_next_event_succeeds_witness :
  wp Demo.append
    (fun ev w' => exists row,
       run_events (committed w') = add row (run_events (committed Demo.started))
       /\ row_to_event row = Ok ev /\ RunEvent.sequence row = 0%Z)
    (fun _ _ => False) Demo.started.
Proof.
  refine (append_next_event_succeeds default_hook "run_1" "acme" (inl EventType.RUN_STARTED)
    [("api_key", VStr "abc"); ("n", VInt 1)] "evt_1" None None false false Demo.started
    demo_constraints _ _ _ _ _);
    [vm_compute; reflexivity|discriminate|vm_compute; reflexivity|reflexivity
    |intros at_; vm_compute; reflexivity].
Defined.

Lemma list_events_replays_witness :
  outcome (list_events "run_1" "acme" (-1) 100)
    (fun l t' => t' = committed Demo.appended /\ StronglySorted Z.lt (map AgentEvent.sequence l))
    (fun _ => True) Demo.appended
  /\ (list_events (W:=Memory.db) "run_1" "acme" (-1) 100 Demo.appended).2
     = (let? ev := (Demo.append Demo.started).2 in Ok [ev]).
Proof.
  split; [|vm_compute; reflexivity].
  pose proof (list_events_replays "run_1" "acme" (-1) 100 Demo.appended demo_constraints_appended)
    as Hw.
  exact (wp_mono _ _ _ _ _ _ Hw (fun _ _ Hq => conj (proj1 Hq) (proj1 (proj2 Hq)))
           (fun _ _ He => He)).
Defined.
