(* ===== verification/RepositoryClients.v ===== *)
(** * Clients of the repository

    What a client may promise that calls the repository for one tenant and
    handles its errors: its effect on the tables is a sequence of changes of the
    abstract store, all of that tenant.  The laws are those of a step relation,
    so that a client is proved by the rules of [steps]. *)

From stdpp Require Import base list strings relations.
From Stdlib Require Import ZArith Lia.
From S2P Require Import Prelude.
From S2P Require Import PyFloat.
From S2P Require Import PyValue.
From S2P Require Import Tables.
From S2P Require Import Repository.
From S2P Require Import RepositorySpecs.
From S2P Require Import RepositoryStore.
From S2P Require Import RepositoryProps.

Local Open Scope py_scope.

Module Clients.
Section Tenant.
Context {W : Type} `{EngineLaws W}.
Context (redact : dict -> dict) (T : string).

Definition for_tenant (w w' : W) : Prop :=
  constraints (committed w) ->
  rtc (change redact T) (committed w) (committed w') /\ constraints (committed w').

#[global] Instance for_tenant_order : PreOrder for_tenant.
Proof.
  split; [by intros w Hw|]. intros w1 w2 w3 H12 H23 Hc. destruct (H12 Hc) as [Hr Hc2].
  destruct (H23 Hc2) as [Hr' Hc3]. split; [by etrans|done].
Qed.

(** A call of the tenant is one such step. *)
Lemma call_for_tenant A (m : M W A) : tenant_call redact T A m -> steps for_tenant m.
Proof.
  intros Hm w Hc. destruct (tenant_call_change redact T A m w Hm Hc). split; [by apply rtc_once|done].
Qed.

(** [with contextlib.suppress(Exception)] *)
Definition suppress {A} (m : M W A) : M W unit := try_catch (m ;;* ret tt) (fun _ => ret tt).
Lemma suppress_for_tenant A (m : M W A) : steps for_tenant m -> steps for_tenant (suppress m).
Proof.
  intros Hm. apply (steps_try for_tenant); [|intros e; apply (steps_ret for_tenant)].
  apply (steps_bind for_tenant); [done|]. intros _. apply (steps_ret for_tenant).
Qed.

Lemma changes_isolated T' t t' : rtc (change redact T) t t' -> T' <> T -> same_rows T' t t'.
Proof.
  intros Hr Hne. induction Hr as [t|t1 t2 t3 H12 _ IH]; [by constructor|].
  eapply same_rows_trans; [by eapply change_isolated|done].
Qed.
Lemma for_tenant_isolated T' w w' :
  for_tenant w w' -> constraints (committed w) -> T' <> T -> same_rows T' (committed w) (committed w').
Proof. intros Hw Hc Hne. apply changes_isolated; [by apply Hw|done]. Qed.
End Tenant.

Lemma suppress_returns {W A} (m : M W A) w : exists w', suppress m w = (w', Ok tt).
Proof. unfold suppress, try_catch, bind. destruct (m w) as [w' [x|e]]; simpl; eauto. Qed.
End Clients.

#[export] Hint Resolve Clients.call_for_tenant Clients.suppress_for_tenant : steps.
