(* ===== verification/Observability.v ===== *)
(** * The observability specialist: the task service

    [apps/a2a_agents/observability/agent.py], the part with state: the task
    store with its write-through to the repository, the execution of a task and
    the endpoints.  The state of the process is a record over the world of the
    repository; the time is an argument of every endpoint.

    An endpoint runs without interruption, except that [create_task] suspends
    while a thread correlates: [create_begin] is what precedes the suspension
    and [create_end] what follows it, and between them other requests run. *)

From stdpp Require Import base gmap sets list strings pretty.
From Stdlib Require Import ZArith Lia Ascii SpecFloat.
From S2P Require Import Prelude.
From S2P Require Import PyFloat.
From S2P Require Import PyValue.
From S2P Require Import PyTime.
From S2P Require Import Regex.
From S2P Require Import Contracts.
From S2P Require Import ContractsRun.
From S2P Require Import ContractsOps.
From S2P Require Import Security.
From S2P Require Import Bearer.
From S2P Require Import McpModels.
From S2P Require Import Tables.
From S2P Require Import Repository.
From S2P Require Import RepositoryClients.
From S2P Require Import Correlate.

Local Open Scope py_scope.

Module Observability.
Import Correlate Tables Repository.

Definition SKILL_TIMEOUT_SECONDS : float := PyFloat.of_Z 30.
Definition SKILL_MAX_TIMEOUT_SECONDS : float := PyFloat.of_Z 120.

(** ** Errors *)

(** [HTTPException(status, detail=ErrorEnvelope(...).model_dump())]: the
    envelope may itself be refused. *)
Definition http_error (status : Z) (code : ErrorCode.t) (msg : string) : exn :=
  match validate (ErrorEnvelope.mk code msg None None false None None None) with
  | Ok env => CodedError "HTTPException" (ErrorCode.value (ErrorEnvelope.code env)) (ErrorEnvelope.message env) status
  | Exn e => e
  end.

(** [(?i)(bearer\s+\S+|api_key\s*=\s*\S+|client_secret\s*=\s*\S+)] *)
Definition assigned (name : string) : re :=
  Regex.seqs [Regex.ilit name; RStar Regex.space; Regex.chr "="%char; RStar Regex.space;
              Regex.plus Regex.nonspace].
Definition secret_re : re :=
  Regex.alts [Regex.seqs [Regex.ilit "bearer"; Regex.plus Regex.space; Regex.plus Regex.nonspace];
              assigned "api_key"; assigned "client_secret"].
Definition error_result (task_id : string) (status : A2ATaskStatus.t) (code message : string)
    (retryable : bool) (run_id tenant_id trace_id correlation_id : option string)
    : result A2ATaskResult.t :=
  let safe := PyStr.slice 2000 (Regex.sub secret_re "[redacted]" message) in
  let? error := validate (A2ATaskError.mk code safe retryable) in
  validate (A2ATaskResult.mk task_id run_id tenant_id status None [] (Some error) trace_id correlation_id).

(** [f"{x:.1f}"] of a positive finite float *)
Definition fixed1 (x : float) : string :=
  match x with
  | S754_finite _ m e => let n := PyFloat.scaled m e 1 in pretty (n / 10)%Z +:+ "." +:+ pretty (n mod 10)%Z
  | _ => "0.0"
  end.

(** ** Execution *)

(** How the wait for the correlating thread ends. *)
Inductive waited : Type := Finished | TimedOut | Interrupted.

Record Pending := mkPending {
  p_request : A2ATaskRequest.t; p_trace : option string; p_inputs : CorrelateInput.t; p_timeout : float }.

(** [request.trace_id or from_header] *)
Definition resolve_trace (r : A2ATaskRequest.t) (traceparent : option string) : option string :=
  match A2ATaskRequest.trace_id r with
  | Some t => if String.eqb t "" then parse_traceparent traceparent else Some t
  | None => parse_traceparent traceparent
  end.

Definition failure (r : A2ATaskRequest.t) (trace_id : option string) (status : A2ATaskStatus.t)
    (code message : string) (retryable : bool) : result A2ATaskResult.t :=
  error_result (A2ATaskRequest.task_id r) status code message retryable (A2ATaskRequest.run_id r)
    (Some (A2ATaskRequest.tenant_id r)) trace_id (A2ATaskRequest.correlation_id r).

Section Execute.
Context `{Pydantic}.

(** [_execute_task] up to the wait. *)
Definition execute_begin (now : PyTime.time) (cancelled : gset string) (r : A2ATaskRequest.t)
    (trace_id : option string) : result (A2ATaskResult.t + Pending) :=
  let failed status code msg retryable :=
    let? x := failure r trace_id status code msg retryable in Ok (inl x) in
  if negb (String.eqb (A2ATaskRequest.skill_id r) SKILL_ID)
  then failed A2ATaskStatus.FAILED "validation_error"
         ("unsupported skill_id " +:+ PyStr.repr (A2ATaskRequest.skill_id r) +:+ "; expected " +:+ PyStr.repr SKILL_ID)
         false
  else if bool_decide (A2ATaskRequest.task_id r ∈ cancelled)
  then failed A2ATaskStatus.CANCELLED "cancelled" "task was cancelled" false
  else if (A2ATaskRequest.deadline r <=? now)%Z
  then failed A2ATaskStatus.TIMEOUT "timeout" "deadline already exceeded" true
  else
    match ReadInputs.correlate_input (A2ATaskRequest.inputs r) trace_id (A2ATaskRequest.correlation_id r)
            (A2ATaskRequest.run_id r) (Some (A2ATaskRequest.tenant_id r)) with
    | Exn e => failed A2ATaskStatus.FAILED "validation_error" ("invalid skill inputs: " +:+ exn_str e) false
    | Ok inputs =>
        let? _ := assert_all_read_only ALLOWED_MCP_TOOLS in
        let remaining := PyTime.total_seconds (A2ATaskRequest.deadline r - now)%Z in
        let timeout := PyFloat.max (PyFloat.ratio 1 100)
          (PyFloat.min (PyFloat.min remaining SKILL_TIMEOUT_SECONDS) SKILL_MAX_TIMEOUT_SECONDS) in
        Ok (inr (mkPending r trace_id inputs timeout))
    end.

(** [_execute_task] after it. *)
Definition execute_end (p : Pending) (w : waited) : result A2ATaskResult.t :=
  let r := p_request p in
  match w with
  | TimedOut => failure r (p_trace p) A2ATaskStatus.TIMEOUT "timeout"
                  ("skill " +:+ SKILL_ID +:+ " exceeded timeout of " +:+ fixed1 (p_timeout p) +:+ "s") true
  | Interrupted => failure r (p_trace p) A2ATaskStatus.CANCELLED "cancelled" "task was cancelled" false
  | Finished =>
      let? output := correlate_local (p_inputs p) in
      validate (A2ATaskResult.mk (A2ATaskRequest.task_id r) (A2ATaskRequest.run_id r)
        (Some (A2ATaskRequest.tenant_id r)) A2ATaskStatus.COMPLETED (Some (CorrelateOutput.dump output)) []
        None (p_trace p) (A2ATaskRequest.correlation_id r))
  end.
End Execute.

(** ** The task store *)

(** [_TASKS], [_CANCELLED], the key cache of [packages/security/identity.py],
    and the world of the repository. *)
Record Agent (W : Type) := mkAgent {
  tasks : gmap string A2ATaskResult.t; cancelled : gset string; jwks : option dict; world : W }.
Arguments mkAgent {W} _ _ _ _.
Arguments tasks {W} _.
Arguments cancelled {W} _.
Arguments jwks {W} _.
Arguments world {W} _.

Definition dump_error (e : A2ATaskError.t) : dict :=
  [("schema_version", VStr "1.0"); ("code", VStr (A2ATaskError.code e));
   ("message", VStr (A2ATaskError.message e)); ("retryable", VBool (A2ATaskError.retryable e))].

Section Service.
Context {W : Type} `{Engine W} `{Pydantic}.
Variable getenv : string -> option string.
Variable urlopen : string -> result (list Z).
Variable injected : option (string -> dict -> result unit).
Variable pyjwt : option (dict -> string -> option string -> option string -> result unit).
(** The repository's redaction hook, when there is a repository. *)
Variable repo : option (dict -> dict).

Definition persist_task (task_id : string) (x : A2ATaskResult.t) (r : A2ATaskRequest.t) : M W unit :=
  match repo with
  | None => ret tt
  | Some redact =>
      let status := A2ATaskStatus.value (A2ATaskResult.status x) in
      let run_id := (let id := default "" (A2ATaskRequest.run_id r) in
                     if String.eqb id "" then task_id else id) in
      Clients.suppress (save_agent_task redact task_id run_id (A2ATaskRequest.tenant_id r) (A2ATaskRequest.skill_id r)
                  AGENT_NAME (A2ATaskRequest.objective r) status (Some (A2ATaskRequest.inputs r))
                  (Some (A2ATaskRequest.deadline r))) ;;*
      match A2ATaskResult.output x with
      | None => ret tt
      | Some out => Clients.suppress (update_agent_task redact task_id (A2ATaskRequest.tenant_id r) status (Some out)
                                (dump_error <$> A2ATaskResult.error x))
      end
  end.

Definition on_world {A} (m : M W A) : M (Agent W) A := fun a =>
  let '(w, x) := m (world a) in (mkAgent (tasks a) (cancelled a) (jwks a) w, x).
Definition on_jwks {A} (m : M (option dict) A) : M (Agent W) A := fun a =>
  let '(j, x) := m (jwks a) in (mkAgent (tasks a) (cancelled a) j (world a), x).

Definition store_get (task_id : string) : M (Agent W) (option A2ATaskResult.t) :=
  gets (fun a => tasks a !! task_id).
Definition store_put (task_id : string) (x : A2ATaskResult.t) (request : option A2ATaskRequest.t)
    : M (Agent W) unit :=
  modify (fun a => mkAgent (<[task_id := x]> (tasks a)) (cancelled a) (jwks a) (world a)) ;;*
  match request with Some r => on_world (persist_task task_id x r) | None => ret tt end.
Definition clear_task_store : M (Agent W) unit :=
  modify (fun a => mkAgent ∅ ∅ (jwks a) (world a)).

(** ** Endpoints *)

(** [authz] is the authorization header, empty when absent; [unix] is the time
    by which tokens expire. *)
Definition caller_tenant (unix : float) (authz : string) : M (Agent W) (option string) :=
  if String.eqb authz "" then
    if String.eqb (default "mock" (getenv "AUTH_MODE")) "oidc"
    then raise (http_error 401 ErrorCode.AUTH_ERROR "missing bearer token")
    else ret None
  else
    let* ident := on_jwks
      (try_catch (Bearer.resolve_identity getenv unix urlopen injected pyjwt authz)
         (fun e => match e with
                   | CodedError _ _ msg status =>
                       if Bearer.is_identity_error e then raise (http_error status ErrorCode.AUTH_ERROR msg)
                       else raise e
                   | _ => raise e
                   end)) in
    ret (Some (Identity.tenant_id ident)).

Definition not_found : exn := http_error 404 ErrorCode.NOT_FOUND "task not found".
Definition enforce_task_tenant (caller task_tenant : option string) : M (Agent W) unit :=
  match caller with
  | None => ret tt
  | Some t => if String.eqb (default "" task_tenant) t then ret tt else raise not_found
  end.

Record Request := mkRequest {
  body : A2ATaskRequest.t; authz : string; traceparent : option string; now : PyTime.time; unix : float }.

Definition create_begin (q : Request) : M (Agent W) (A2ATaskResult.t + Pending) :=
  let r := body q in
  let* caller := caller_tenant (unix q) (authz q) in
  enforce_task_tenant caller (Some (A2ATaskRequest.tenant_id r)) ;;*
  let* existing := store_get (A2ATaskRequest.task_id r) in
  match existing with
  | Some x => enforce_task_tenant caller (A2ATaskResult.tenant_id x) ;;* ret (inl x)
  | None =>
      let trace_id := resolve_trace r (traceparent q) in
      let* gone := gets cancelled in
      let* x := lift_result (execute_begin (now q) gone r trace_id) in
      match x with
      | inl x => store_put (A2ATaskRequest.task_id r) x (Some r) ;;* ret (inl x)
      | inr p => ret (inr p)
      end
  end.
Definition create_end (p : Pending) (w : waited) : M (Agent W) A2ATaskResult.t :=
  let* x := lift_result (execute_end p w) in
  store_put (A2ATaskRequest.task_id (p_request p)) x (Some (p_request p)) ;;* ret x.
(** The whole of [create_task], when nothing else runs meanwhile. *)
Definition create_task (q : Request) (w : waited) : M (Agent W) A2ATaskResult.t :=
  let* x := create_begin q in
  match x with inl x => ret x | inr p => create_end p w end.

Definition get_task (task_id authz : string) (unix : float) : M (Agent W) A2ATaskResult.t :=
  let* found := store_get task_id in
  match found with
  | None => raise (http_error 404 ErrorCode.NOT_FOUND ("task " +:+ task_id +:+ " not found"))
  | Some x =>
      let* caller := caller_tenant unix authz in
      enforce_task_tenant caller (A2ATaskResult.tenant_id x) ;;* ret x
  end.

Definition with_tenant (tenant : option string) (x : A2ATaskResult.t) : A2ATaskResult.t :=
  let '(A2ATaskResult.mk id run _ st out arts err tr co) := x in
  A2ATaskResult.mk id run tenant st out arts err tr co.
Definition is_completed (x : A2ATaskResult.t) : bool :=
  match A2ATaskResult.status x with A2ATaskStatus.COMPLETED => true | _ => false end.

Definition record_cancel (task_id : string) (existing : option A2ATaskResult.t) (caller : option string)
    : M (Agent W) A2ATaskResult.t :=
  modify (fun a => mkAgent (tasks a) ({[task_id]} ∪ cancelled a) (jwks a) (world a)) ;;*
  let tenant := match existing with Some x => A2ATaskResult.tenant_id x | None => caller end in
  let* x := lift_result (error_result task_id A2ATaskStatus.CANCELLED "cancelled" "task was cancelled" false
                           None tenant None None) in
  let x := match existing with Some e => with_tenant (A2ATaskResult.tenant_id e) x | None => x end in
  store_put task_id x None ;;* ret x.
Definition cancel_task (task_id authz : string) (unix : float) : M (Agent W) A2ATaskResult.t :=
  let* caller := caller_tenant unix authz in
  let* existing := store_get task_id in
  match existing with
  | Some x =>
      enforce_task_tenant caller (A2ATaskResult.tenant_id x) ;;*
      (if is_completed x then ret x else record_cancel task_id existing caller)
  | None => record_cancel task_id None caller
  end.
End Service.
End Observability.
