(* ===== verification/RunState.v ===== *)
(** * Run state, budgets and the circuit breaker

    [apps/orchestrator/state.py] and the [CircuitBreaker] of
    [apps/orchestrator/graph.py].  [correlation_note] and [run_result] ([result]) are the two
    attributes the graph sets on the dataclass dynamically. *)

From stdpp Require Import base list strings sets gmap.
From Stdlib Require Import ZArith Lia Ascii.
From S2P Require Import Prelude.
From S2P Require Import PyFloat.
From S2P Require Import PyValue.
From S2P Require Import PyTime.

Local Open Scope py_scope.

Record BudgetLimits := mkLimits {
  max_model_calls : Z; max_tool_calls : Z; max_delegations : Z; max_duration_seconds : float;
  max_cost_usd : float; max_input_tokens : Z; max_output_tokens : Z; max_delegation_depth : Z }.

Definition default_limits : BudgetLimits :=
  mkLimits 10 20 3 (PyFloat.of_Z 600) (PyFloat.of_Z 2) 60000 20000 3.

Record BudgetUsage := mkUsage {
  model_calls : Z; tool_calls : Z; delegations : Z; cost_usd : float; input_tokens : Z;
  output_tokens : Z; delegation_depth : Z }.

Definition no_usage : BudgetUsage := mkUsage 0 0 0 PyFloat.zero 0 0 0.

Record RunState := mkRunState {
  run_id : string;
  tenant_id : string;
  objective : string;
  context : dict;
  status : string;
  current_state : string;
  budget : dict;
  limits : BudgetLimits;
  usage : BudgetUsage;
  started_at : PyTime.time;
  trace_id : option string;
  correlation_id : option string;
  classification : dict;
  plan : list string;
  resources : dict;
  mcp_evidence : list dict;
  a2a_result : option dict;
  a2a_fallback : bool;
  findings : list dict;
  proposed_actions : list dict;
  policy_decisions : list dict;
  approvals : list dict;
  unresolved : list string;
  outcome : option string;
  error : option dict;
  conflict : option string;
  retried_reads : bool;
  event_sequence : Z;
  cancelled : bool;
  correlation_note : option dict;
  run_result : option dict }.

(** [RunState(run_id=..., objective=..., context=..., started_at=...)] with the
    dataclass defaults for the rest. *)
Definition new_run (run_id objective : string) (context : dict) (started_at : PyTime.time)
    : RunState :=
  mkRunState run_id "tenant_a" objective context "created" "classify" [] default_limits no_usage
    started_at None None [] [] [] [] None false [] [] [] [] [] None None None false 0 false
    None None.

(** Field updates. *)

Definition set_status (v : string) (s : RunState) : RunState :=
    mkRunState (run_id s) (tenant_id s) (objective s) (context s) v (current_state s) (budget s)
      (limits s) (usage s) (started_at s) (trace_id s) (correlation_id s) (classification s)
      (plan s) (resources s) (mcp_evidence s) (a2a_result s) (a2a_fallback s) (findings s)
      (proposed_actions s) (policy_decisions s) (approvals s) (unresolved s) (outcome s) (error
      s) (conflict s) (retried_reads s) (event_sequence s) (cancelled s) (correlation_note s)
      (run_result s).
Definition set_current_state (v : string) (s : RunState) : RunState :=
    mkRunState (run_id s) (tenant_id s) (objective s) (context s) (status s) v (budget s)
      (limits s) (usage s) (started_at s) (trace_id s) (correlation_id s) (classification s)
      (plan s) (resources s) (mcp_evidence s) (a2a_result s) (a2a_fallback s) (findings s)
      (proposed_actions s) (policy_decisions s) (approvals s) (unresolved s) (outcome s) (error
      s) (conflict s) (retried_reads s) (event_sequence s) (cancelled s) (correlation_note s)
      (run_result s).
Definition set_usage (v : BudgetUsage) (s : RunState) : RunState :=
    mkRunState (run_id s) (tenant_id s) (objective s) (context s) (status s) (current_state s)
      (budget s) (limits s) v (started_at s) (trace_id s) (correlation_id s) (classification s)
      (plan s) (resources s) (mcp_evidence s) (a2a_result s) (a2a_fallback s) (findings s)
      (proposed_actions s) (policy_decisions s) (approvals s) (unresolved s) (outcome s) (error
      s) (conflict s) (retried_reads s) (event_sequence s) (cancelled s) (correlation_note s)
      (run_result s).
Definition set_classification (v : dict) (s : RunState) : RunState :=
    mkRunState (run_id s) (tenant_id s) (objective s) (context s) (status s) (current_state s)
      (budget s) (limits s) (usage s) (started_at s) (trace_id s) (correlation_id s) v (plan s)
      (resources s) (mcp_evidence s) (a2a_result s) (a2a_fallback s) (findings s)
      (proposed_actions s) (policy_decisions s) (approvals s) (unresolved s) (outcome s) (error
      s) (conflict s) (retried_reads s) (event_sequence s) (cancelled s) (correlation_note s)
      (run_result s).
Definition set_plan (v : list string) (s : RunState) : RunState :=
    mkRunState (run_id s) (tenant_id s) (objective s) (context s) (status s) (current_state s)
      (budget s) (limits s) (usage s) (started_at s) (trace_id s) (correlation_id s)
      (classification s) v (resources s) (mcp_evidence s) (a2a_result s) (a2a_fallback s)
      (findings s) (proposed_actions s) (policy_decisions s) (approvals s) (unresolved s)
      (outcome s) (error s) (conflict s) (retried_reads s) (event_sequence s) (cancelled s)
      (correlation_note s) (run_result s).
Definition set_resources (v : dict) (s : RunState) : RunState :=
    mkRunState (run_id s) (tenant_id s) (objective s) (context s) (status s) (current_state s)
      (budget s) (limits s) (usage s) (started_at s) (trace_id s) (correlation_id s)
      (classification s) (plan s) v (mcp_evidence s) (a2a_result s) (a2a_fallback s) (findings
      s) (proposed_actions s) (policy_decisions s) (approvals s) (unresolved s) (outcome s)
      (error s) (conflict s) (retried_reads s) (event_sequence s) (cancelled s)
      (correlation_note s) (run_result s).
Definition set_mcp_evidence (v : list dict) (s : RunState) : RunState :=
    mkRunState (run_id s) (tenant_id s) (objective s) (context s) (status s) (current_state s)
      (budget s) (limits s) (usage s) (started_at s) (trace_id s) (correlation_id s)
      (classification s) (plan s) (resources s) v (a2a_result s) (a2a_fallback s) (findings s)
      (proposed_actions s) (policy_decisions s) (approvals s) (unresolved s) (outcome s) (error
      s) (conflict s) (retried_reads s) (event_sequence s) (cancelled s) (correlation_note s)
      (run_result s).
Definition set_a2a_result (v : option dict) (s : RunState) : RunState :=
    mkRunState (run_id s) (tenant_id s) (objective s) (context s) (status s) (current_state s)
      (budget s) (limits s) (usage s) (started_at s) (trace_id s) (correlation_id s)
      (classification s) (plan s) (resources s) (mcp_evidence s) v (a2a_fallback s) (findings s)
      (proposed_actions s) (policy_decisions s) (approvals s) (unresolved s) (outcome s) (error
      s) (conflict s) (retried_reads s) (event_sequence s) (cancelled s) (correlation_note s)
      (run_result s).
Definition set_a2a_fallback (v : bool) (s : RunState) : RunState :=
    mkRunState (run_id s) (tenant_id s) (objective s) (context s) (status s) (current_state s)
      (budget s) (limits s) (usage s) (started_at s) (trace_id s) (correlation_id s)
      (classification s) (plan s) (resources s) (mcp_evidence s) (a2a_result s) v (findings s)
      (proposed_actions s) (policy_decisions s) (approvals s) (unresolved s) (outcome s) (error
      s) (conflict s) (retried_reads s) (event_sequence s) (cancelled s) (correlation_note s)
      (run_result s).
Definition set_findings (v : list dict) (s : RunState) : RunState :=
    mkRunState (run_id s) (tenant_id s) (objective s) (context s) (status s) (current_state s)
      (budget s) (limits s) (usage s) (started_at s) (trace_id s) (correlation_id s)
      (classification s) (plan s) (resources s) (mcp_evidence s) (a2a_result s) (a2a_fallback s)
      v (proposed_actions s) (policy_decisions s) (approvals s) (unresolved s) (outcome s)
      (error s) (conflict s) (retried_reads s) (event_sequence s) (cancelled s)
      (correlation_note s) (run_result s).
Definition set_proposed_actions (v : list dict) (s : RunState) : RunState :=
    mkRunState (run_id s) (tenant_id s) (objective s) (context s) (status s) (current_state s)
      (budget s) (limits s) (usage s) (started_at s) (trace_id s) (correlation_id s)
      (classification s) (plan s) (resources s) (mcp_evidence s) (a2a_result s) (a2a_fallback s)
      (findings s) v (policy_decisions s) (approvals s) (unresolved s) (outcome s) (error s)
      (conflict s) (retried_reads s) (event_sequence s) (cancelled s) (correlation_note s)
      (run_result s).
Definition set_policy_decisions (v : list dict) (s : RunState) : RunState :=
    mkRunState (run_id s) (tenant_id s) (objective s) (context s) (status s) (current_state s)
      (budget s) (limits s) (usage s) (started_at s) (trace_id s) (correlation_id s)
      (classification s) (plan s) (resources s) (mcp_evidence s) (a2a_result s) (a2a_fallback s)
      (findings s) (proposed_actions s) v (approvals s) (unresolved s) (outcome s) (error s)
      (conflict s) (retried_reads s) (event_sequence s) (cancelled s) (correlation_note s)
      (run_result s).
Definition set_approvals (v : list dict) (s : RunState) : RunState :=
    mkRunState (run_id s) (tenant_id s) (objective s) (context s) (status s) (current_state s)
      (budget s) (limits s) (usage s) (started_at s) (trace_id s) (correlation_id s)
      (classification s) (plan s) (resources s) (mcp_evidence s) (a2a_result s) (a2a_fallback s)
      (findings s) (proposed_actions s) (policy_decisions s) v (unresolved s) (outcome s) (error
      s) (conflict s) (retried_reads s) (event_sequence s) (cancelled s) (correlation_note s)
      (run_result s).
Definition set_unresolved (v : list string) (s : RunState) : RunState :=
    mkRunState (run_id s) (tenant_id s) (objective s) (context s) (status s) (current_state s)
      (budget s) (limits s) (usage s) (started_at s) (trace_id s) (correlation_id s)
      (classification s) (plan s) (resources s) (mcp_evidence s) (a2a_result s) (a2a_fallback s)
      (findings s) (proposed_actions s) (policy_decisions s) (approvals s) v (outcome s) (error
      s) (conflict s) (retried_reads s) (event_sequence s) (cancelled s) (correlation_note s)
      (run_result s).
Definition set_outcome (v : option string) (s : RunState) : RunState :=
    mkRunState (run_id s) (tenant_id s) (objective s) (context s) (status s) (current_state s)
      (budget s) (limits s) (usage s) (started_at s) (trace_id s) (correlation_id s)
      (classification s) (plan s) (resources s) (mcp_evidence s) (a2a_result s) (a2a_fallback s)
      (findings s) (proposed_actions s) (policy_decisions s) (approvals s) (unresolved s) v
      (error s) (conflict s) (retried_reads s) (event_sequence s) (cancelled s)
      (correlation_note s) (run_result s).
Definition set_error (v : option dict) (s : RunState) : RunState :=
    mkRunState (run_id s) (tenant_id s) (objective s) (context s) (status s) (current_state s)
      (budget s) (limits s) (usage s) (started_at s) (trace_id s) (correlation_id s)
      (classification s) (plan s) (resources s) (mcp_evidence s) (a2a_result s) (a2a_fallback s)
      (findings s) (proposed_actions s) (policy_decisions s) (approvals s) (unresolved s)
      (outcome s) v (conflict s) (retried_reads s) (event_sequence s) (cancelled s)
      (correlation_note s) (run_result s).
Definition set_conflict (v : option string) (s : RunState) : RunState :=
    mkRunState (run_id s) (tenant_id s) (objective s) (context s) (status s) (current_state s)
      (budget s) (limits s) (usage s) (started_at s) (trace_id s) (correlation_id s)
      (classification s) (plan s) (resources s) (mcp_evidence s) (a2a_result s) (a2a_fallback s)
      (findings s) (proposed_actions s) (policy_decisions s) (approvals s) (unresolved s)
      (outcome s) (error s) v (retried_reads s) (event_sequence s) (cancelled s)
      (correlation_note s) (run_result s).
Definition set_event_sequence (v : Z) (s : RunState) : RunState :=
    mkRunState (run_id s) (tenant_id s) (objective s) (context s) (status s) (current_state s)
      (budget s) (limits s) (usage s) (started_at s) (trace_id s) (correlation_id s)
      (classification s) (plan s) (resources s) (mcp_evidence s) (a2a_result s) (a2a_fallback s)
      (findings s) (proposed_actions s) (policy_decisions s) (approvals s) (unresolved s)
      (outcome s) (error s) (conflict s) (retried_reads s) v (cancelled s) (correlation_note s)
      (run_result s).
Definition set_cancelled (v : bool) (s : RunState) : RunState :=
    mkRunState (run_id s) (tenant_id s) (objective s) (context s) (status s) (current_state s)
      (budget s) (limits s) (usage s) (started_at s) (trace_id s) (correlation_id s)
      (classification s) (plan s) (resources s) (mcp_evidence s) (a2a_result s) (a2a_fallback s)
      (findings s) (proposed_actions s) (policy_decisions s) (approvals s) (unresolved s)
      (outcome s) (error s) (conflict s) (retried_reads s) (event_sequence s) v
      (correlation_note s) (run_result s).
Definition set_correlation_note (v : option dict) (s : RunState) : RunState :=
    mkRunState (run_id s) (tenant_id s) (objective s) (context s) (status s) (current_state s)
      (budget s) (limits s) (usage s) (started_at s) (trace_id s) (correlation_id s)
      (classification s) (plan s) (resources s) (mcp_evidence s) (a2a_result s) (a2a_fallback s)
      (findings s) (proposed_actions s) (policy_decisions s) (approvals s) (unresolved s)
      (outcome s) (error s) (conflict s) (retried_reads s) (event_sequence s) (cancelled s) v
      (run_result s).
Definition set_run_result (v : option dict) (s : RunState) : RunState :=
    mkRunState (run_id s) (tenant_id s) (objective s) (context s) (status s) (current_state s)
      (budget s) (limits s) (usage s) (started_at s) (trace_id s) (correlation_id s)
      (classification s) (plan s) (resources s) (mcp_evidence s) (a2a_result s) (a2a_fallback s)
      (findings s) (proposed_actions s) (policy_decisions s) (approvals s) (unresolved s)
      (outcome s) (error s) (conflict s) (retried_reads s) (event_sequence s) (cancelled s)
      (correlation_note s) v.


(** [state.unresolved.append(msg)] *)
Definition add_unresolved (msg : string) (s : RunState) : RunState :=
  set_unresolved (unresolved s ++ [msg]) s.

(** ** Circuit breaker *)

Module CircuitBreaker.
Definition THRESHOLD : Z := 3.

Record t := mk { threshold : Z; failures : gmap string Z; opened : gset string }.

Definition init (threshold : Z) : t := mk threshold ∅ ∅.
Definition is_open (key : string) (b : t) : bool := bool_decide (key ∈ opened b).
(** [failures.get(key, 0)] *)
Definition count (key : string) (b : t) : Z := default 0%Z (failures b !! key).

(** [guard] *)
Definition guard (key : string) (b : t) : result unit :=
  if is_open key b then Exn (CircuitOpenError ("circuit open for " +:+ key)) else Ok tt.

Definition record_success (key : string) (b : t) : t :=
  mk (threshold b) (<[key := 0%Z]> (failures b)) (opened b ∖ {[key]}).

Definition record_failure (key : string) (b : t) : t :=
  let n := (count key b + 1)%Z in
  mk (threshold b) (<[key := n]> (failures b))
     (if (threshold b <=? n)%Z then opened b ∪ {[key]} else opened b).
End CircuitBreaker.
