(* ===== verification/GraphTools.v ===== *)
(** * The graph's tool registry and utilities

    The pure parts of [apps/orchestrator/graph.py]: the canonical states, the
    tool registry built from the catalog, the gate every tool call passes
    ([validate_tool_call]), the construction of proposed actions, and the small
    utilities at the end of the file. *)

From stdpp Require Import base list strings sets.
From Stdlib Require Import ZArith Lia Ascii.
From S2P Require Import Prelude.
From S2P Require Import PyFloat.
From S2P Require Import PyValue.
From S2P Require Import Regex.
From S2P Require Import Sha256.
From S2P Require Import PyTime.
From S2P Require Import Contracts.
From S2P Require Import ContractsRun.
From S2P Require Import ContractsOps.
From S2P Require Import Catalog.
From S2P Require Import RunState.

Local Open Scope py_scope.

Module GraphTools.
Definition STATES : list string :=
  ["classify"; "plan"; "resources"; "mcp_reads"; "a2a_delegate"; "correlate"; "findings";
   "propose"; "policy"; "approval_pause"; "execute_approved"; "verify"; "complete"].
Definition describe : string := PyStr.join " -> " STATES.

Definition MODEL_COST_USD : float := PyFloat.ratio 5 100.
Definition TOOL_COST_USD : float := PyFloat.ratio 1 100.
Definition DELEGATION_COST_USD : float := PyFloat.ratio 10 100.

Definition TOOL_TIMEOUTS : list (string * float) := Catalog.TOOL_TIMEOUTS.
(** [max] over the timeouts, the first of equal ones *)
Definition fmax (l : list float) : option float :=
  match l with
  | [] => None
  | x :: l' => Some (fold_left PyFloat.max l' x)
  end.
Definition MCP_TIMEOUT_SECONDS : float :=
  match fmax (map snd TOOL_TIMEOUTS) with Some m => m | None => PyFloat.of_Z 60 end.
Definition mcp_timeout_for (tool_name : string) : float :=
  match dget tool_name TOOL_TIMEOUTS with Some t => t | None => MCP_TIMEOUT_SECONDS end.

Definition A2A_TIMEOUT_SECONDS : float := PyFloat.of_Z 30.
Definition MAX_READ_RETRIES : nat := 2.
Definition LOW_CONFIDENCE_THRESHOLD : float := PyFloat.ratio 1 2.

(** [^[a-z0-9_]+\.[a-z0-9_]+$], where [$] also matches before a final newline *)
Definition TOOL_NAME_RE : re :=
  let part := Regex.plus (RClass Field.name_char) in
  RSeq part (RSeq (Regex.chr "."%char) (RSeq part Regex.eol)).
(** [(rm\s+-rf|;\s*cat\s|&&|\|\||`|\$\(|exec\s*\()], ignoring case *)
Definition SHELL_HINT_RE : re :=
  Regex.alts [
    RSeq (Regex.ilit "rm") (RSeq (Regex.plus Regex.space) (Regex.ilit "-rf"));
    RSeq (Regex.ilit ";") (RSeq (RStar Regex.space) (RSeq (Regex.ilit "cat") Regex.space));
    Regex.ilit "&&"; Regex.ilit "||"; Regex.ilit "`"; Regex.ilit "$(";
    RSeq (Regex.ilit "exec") (RSeq (RStar Regex.space) (Regex.ilit "("))].

(** ** Registry *)

Record ToolSpec := mkSpec {
  name : string; category : string; side_effect : string; idempotent : bool;
  approval_required : bool; timeout_seconds : float; version : string }.

Definition spec_from_catalog (meta : ToolMetadata.t) : ToolSpec :=
  mkSpec (ToolMetadata.name meta) (ToolCategory.value (ToolMetadata.category meta))
    (SideEffect.value (ToolMetadata.side_effect meta)) (ToolMetadata.idempotent meta)
    (ToolMetadata.approval_required meta)
    (PyFloat.of_Z (ToolMetadata.timeout_seconds meta)) (ToolMetadata.version meta).

Definition TOOL_REGISTRY : list (string * ToolSpec) :=
  map (fun kv => (kv.1, spec_from_catalog kv.2)) Catalog.TOOL_METADATA.
Definition READ_TOOLS : list string :=
  map fst (filter (fun kv => category kv.2 = "read") TOOL_REGISTRY).

Definition validate_tool_call (tool_name : string) (args : dict) : result ToolSpec :=
  guard? Regex.match_start TOOL_NAME_RE tool_name
    else ValueError ("tool_name " +:+ PyStr.repr tool_name
                     +:+ " is not an allowlisted tool (regex mismatch)") ;;
  guard? negb (Regex.search SHELL_HINT_RE tool_name
               || Regex.search SHELL_HINT_RE (py_str (VDict args)))
    else ValueError
      "refusing to execute model text as command: shell metacharacters detected" ;;
  match dget tool_name TOOL_REGISTRY with
  | None => Exn (ValueError ("tool " +:+ PyStr.repr tool_name
                             +:+ " is not in the allowlisted registry"))
  | Some spec =>
      guard? (Z.of_nat (json_size (VDict args)) <=? 32768)%Z
        else ValueError "tool args exceed 32KB cap" ;;
      guard? (length args <=? 50) else ValueError "tool args exceed 50 keys" ;;
      Ok spec
  end.

(** The idempotency key and the action id. *)
Definition idempotency_key (run_id tool_name : string) (tool_input : dict) : string :=
  "idem-" +:+ PyStr.slice 16 (Sha256.hexdigest
    (run_id +:+ ":" +:+ tool_name +:+ ":" +:+ repr_items (sorted_items tool_input))).
Definition action_id (run_id tool_name idem : string) : string :=
  run_id +:+ "-" +:+ PyStr.replace_char "."%char "-"%char tool_name +:+ "-"
    +:+ PyStr.slice_last 6 idem.

Definition requires_approval (spec : ToolSpec) (risk : string) : bool :=
  let base := if approval_required spec then true
              else String.eqb (category spec) "write"
                   || String.eqb (category spec) "destructive" in
  if String.eqb risk "high" || String.eqb risk "critical" then true else base.

Definition build_proposed_action (run_id tenant_id tool_name reason : string)
    (tool_input : dict) (risk : string) (rollback : option string) (dry_run : bool)
    : result dict :=
  let? spec := validate_tool_call tool_name tool_input in
  let idem := idempotency_key run_id tool_name tool_input in
  match RiskLevel.parse risk with
  | None => Exn (ValidationError "risk")
  | Some r =>
      let? action := validate (ProposedAction.mk (action_id run_id tool_name idem)
          (Some run_id) (Some tenant_id) tool_name (PyStr.slice (Z.to_nat 2000) reason)
          tool_input r (requires_approval spec risk) rollback dry_run idem None None) in
      ProposedAction.dump action
  end.

(** ** Utilities *)

Definition secret_words : list string :=
  ["secret"; "token"; "password"; "api_key"; "apikey"; "bearer"].
Definition is_secret_key (k : string) : bool :=
  existsb (fun s => PyStr.contains s (PyStr.lower k)) secret_words.
Definition redact (args : dict) : dict :=
  map (fun kv => if is_secret_key kv.1 then (kv.1, VStr "[redacted]") else kv) args.

(** [(?i)(bearer\s+\S+|api_key\s*=\s*\S+|client_secret\s*=\s*\S+)] *)
Definition SECRET_RE : re :=
  let assign w := RSeq (Regex.ilit w) (RSeq (RStar Regex.space) (RSeq (Regex.ilit "=")
                    (RSeq (RStar Regex.space) (Regex.plus Regex.nonspace)))) in
  Regex.alts [
    RSeq (Regex.ilit "bearer") (RSeq (Regex.plus Regex.space) (Regex.plus Regex.nonspace));
    assign "api_key"; assign "client_secret"].
Definition safe_error (exc : option exn) : string :=
  match exc with
  | None => "unknown error"
  | Some e =>
      let head := PyStr.slice (Z.to_nat 500) (exn_str e) in
      let msg := if String.eqb head "" then exn_class e else head in
      Regex.sub SECRET_RE "[redacted]" msg
  end.

(** A dict comes back as a dict, so [jsonable] keeps the type. *)
Definition jsonable (obj : pyval) : pyval := json_roundtrip obj.
Definition jsonable_dict (d : dict) : dict := map (fun kv => (kv.1, json_roundtrip kv.2)) d.

Definition reject_malformed (tool_name : string) (out : pyval) : result dict :=
  match out with
  | VDict d =>
      guard? (length d <=? 128)
        else ValueError ("tool " +:+ tool_name +:+ " returned oversize result") ;;
      guard? (Z.of_nat (json_size out) <=? 65536)%Z
        else ValueError ("tool " +:+ tool_name +:+ " returned oversize result") ;;
      Ok d
  | _ => Exn (ValueError ("tool " +:+ tool_name +:+ " returned malformed (non-dict) result"))
  end.

Definition get_truthy (k : string) (d : dict) : bool :=
  match dget k d with Some v => truthy v | None => false end.

(** One finding of the specialist; [float()] may also overflow, which the
    source does not catch. *)
Definition valid_finding (f : pyval) : result bool :=
  match f with
  | VDict d =>
      if negb (get_truthy "title" d) || negb (get_truthy "summary" d) then Ok false
      else match dget "evidence_refs" d with
           | Some (VList (_ :: _)) =>
               match py_float (get_or "confidence" (VInt (-1)) d) with
               | Ok c => Ok (PyFloat.leb PyFloat.zero c && PyFloat.leb c PyFloat.one)
               | Exn e => if is_type_or_value_error e then Ok false else Exn e
               end
           | _ => Ok false
           end
  | _ => Ok false
  end.
Fixpoint valid_findings (l : list pyval) : result bool :=
  match l with
  | [] => Ok true
  | f :: l' => let? b := valid_finding f in if b : bool then valid_findings l' else Ok false
  end.
Definition valid_a2a_output (output : option pyval) : result bool :=
  match output with
  | Some (VDict d) =>
      match dget "findings" d with Some (VList l) => valid_findings l | _ => Ok false end
  | _ => Ok false
  end.

(** [float(f.get("confidence", 0.0))] *)
Definition confidence_of (f : dict) : result float :=
  py_float (get_or "confidence" (VFloat PyFloat.zero) f).

Fixpoint conf_values (l : list pyval) : result (list float) :=
  match l with
  | [] => Ok []
  | f :: l' =>
      let? d := as_dict f in
      match confidence_of d with
      | Ok c => let? r := conf_values l' in Ok (c :: r)
      | Exn e => if is_type_or_value_error e then conf_values l' else Exn e
      end
  end.
Definition avg_conf (findings : list pyval) : result float :=
  let? vals := conf_values findings in
  match vals with
  | [] => Ok PyFloat.zero
  | _ => Ok (PyFloat.div (PyFloat.sum vals) (PyFloat.of_Z (Z.of_nat (length vals))))
  end.

(** [next((e for e in evidence if e.get("tool") == tool), None)] *)
Definition evidence_for (tool : string) (evidence : list dict) : option dict :=
  find (fun e => is_str (dget "tool" e) tool) evidence.

Definition deploy_state_text (s : RunState) : option string :=
  match evidence_for "deployment.get_current_release" (mcp_evidence s) with
  | Some rel =>
      match dget "release" rel with
      | Some v => if truthy v then Some ("release " +:+ py_str v +:+ " deployed") else None
      | None => None
      end
  | None => None
  end.
End GraphTools.
