(* ===== verification/Graph.v ===== *)
(** * The orchestrator graph

    [OrchestratorGraph] of [apps/orchestrator/graph.py].  The injected
    dependencies are the operations of the class [Deps] over an abstract world
    [W]; a method is a computation over [G W]: the run state, the circuit
    breaker, the world, and a trace of the calls made on the dependencies, which
    the code does not read (it is what the theorems speak about). *)

From stdpp Require Import base list strings pretty sets.
From Stdlib Require Import ZArith Lia Ascii.
From S2P Require Import Prelude.
From S2P Require Import PyFloat.
From S2P Require Import PyValue.
From S2P Require Import PyTime.
From S2P Require Import Contracts.
From S2P Require Import ContractsRun.
From S2P Require Import ContractsOps.
From S2P Require Import RunState.
From S2P Require Import GraphTools.
Import GraphTools.

Local Open Scope py_scope.

(** ** Dependencies

    [MCPClient], [A2AClient], [PolicyClient], [Store], [ModelClient] and
    [Clock], with the wall clock [utcnow] and [time.monotonic].  [a2a_cancel] is
    the optional [cancel] method.  [cancel_signal] says whether some other
    holder of the run state (a worker thread, a client) has set its [cancelled]
    flag. *)
Class Deps (W : Type) := {
  mcp_invoke : string -> dict -> float -> M W pyval;
  a2a_delegate : dict -> float -> M W pyval;
  a2a_cancel : option (string -> M W unit);
  policy_evaluate : dict -> string -> M W dict;
  store_save : RunState -> M W unit;
  store_append : dict -> M W unit;
  model_classify : string -> dict -> M W dict;
  model_plan : string -> dict -> M W (list string);
  clock_now : M W PyTime.time;
  utcnow : M W PyTime.time;
  monotonic : M W float;
  cancel_signal : W -> bool;
}.

Inductive obs : Type :=
  | OInvoke (tool : string) (args : dict)
  | ODelegate (request : dict)
  | OCancelTask (task_id : string)
  | OEvaluate (action : dict) (env : string)
  | OModel
  | OAppend (event : dict)
  | OSave (s : RunState).

Record G (W : Type) := mkG {
  st : RunState; breaker : CircuitBreaker.t; world : W; trace : list obs }.
Arguments mkG {W} _ _ _ _.
Arguments st {W} _.
Arguments breaker {W} _.
Arguments world {W} _.
Arguments trace {W} _.

(** [d[k]] *)
Definition dict_item (k : string) (d : dict) : result pyval :=
  match dget k d with Some v => Ok v | None => Exn (KeyError (PyStr.repr k)) end.

(** [d["action_id"]] as a member of a set: approval rows and proposed actions
    carry a [str] there. *)
Definition str_item (k : string) (d : dict) : result string :=
  let? v := dict_item k d in
  match v with
  | VStr s => Ok s
  | _ => Exn (TypeError ("unhashable type: '" +:+ type_name v +:+ "'"))
  end.

(** [dict(v)] *)
Definition py_dict (v : pyval) : result dict :=
  match v with
  | VDict d => Ok d
  | VList [] | VStr EmptyString => Ok []
  | VList _ | VStr _ => Exn (ValueError "dictionary update sequence element #0")
  | _ => Exn (TypeError ("'" +:+ type_name v +:+ "' object is not iterable"))
  end.

(** [service = str(state.context.get("service", "checkout-api"))] *)
Definition service_of (s : RunState) : string := get_str "service" "checkout-api" (context s).

Definition obs_task_id (s : RunState) : string := run_id s +:+ "-obs-1".

Module Graph.
Section Methods.
Context {W : Type} `{!Deps W}.
Notation GM := (M (G W)).

Definition get_st : GM RunState := gets st.
Definition upd (f : RunState -> RunState) : GM unit :=
  modify (fun g => mkG (f (st g)) (breaker g) (world g) (trace g)).
Definition upd_breaker (f : CircuitBreaker.t -> CircuitBreaker.t) : GM unit :=
  modify (fun g => mkG (st g) (f (breaker g)) (world g) (trace g)).
(** A call on a dependency, observed as [o]. *)
Definition call {A} (o : list obs) (m : M W A) : GM A := fun g =>
  let '(w, r) := m (world g) in (mkG (st g) (breaker g) w (trace g ++ o), r).

Definition save : GM unit :=
  let* s := get_st in call [OSave s] (store_save s).

(** ** Events *)

Definition event_of (s : RunState) (now : PyTime.time) (type : EventType.t) (data : dict)
    (sensitive safe_for_ui : bool) : AgentEvent.t :=
  AgentEvent.mk (run_id s +:+ "-e" +:+ pretty (event_sequence s)) (run_id s) (tenant_id s)
    (event_sequence s) type now data (trace_id s) (correlation_id s) sensitive
    (safe_for_ui && negb sensitive).

Definition emit_as (type : EventType.t) (data : dict) (sensitive safe_for_ui : bool)
    : GM unit :=
  upd (fun s => set_event_sequence (event_sequence s + 1)%Z s) ;;*
  let* s := get_st in
  let* now := call [] utcnow in
  let* ev := lift_result (validate (event_of s now type data sensitive safe_for_ui)) in
  let* d := lift_result (AgentEvent.dump ev) in
  call [OAppend d] (store_append d).
Definition emit (type : EventType.t) (data : dict) : GM unit := emit_as type data false true.

Definition transition (next_state : string) (type : EventType.t) (data : dict) : GM unit :=
  upd (set_current_state next_state) ;;*
  emit type (dupdate [("state", VStr next_state)] data) ;;*
  save.

(** ** Cancellation and budgets *)

Definition check_cancel : GM unit :=
  modify (fun g => if cancel_signal (world g)
                   then mkG (set_cancelled true (st g)) (breaker g) (world g) (trace g)
                   else g) ;;*
  let* s := get_st in
  if cancelled s then raise (RunCancelledError "run was cancelled") else ret tt.

Definition exceeded (budget msg : string) : GM unit := raise (BudgetExceededError msg budget).

(** The checks that do not need the clock, in order. *)
Definition over_budget (lim : BudgetLimits) (use : BudgetUsage) : option (string * string) :=
  if (max_model_calls lim <? model_calls use)%Z
  then Some ("model_calls", "max_model_calls exceeded")
  else if (max_tool_calls lim <? tool_calls use)%Z
  then Some ("tool_calls", "max_tool_calls exceeded")
  else if (max_delegations lim <? delegations use)%Z
  then Some ("delegations", "max_delegations exceeded")
  else if (max_input_tokens lim <? input_tokens use)%Z
  then Some ("input_tokens", "max_input_tokens exceeded")
  else if (max_output_tokens lim <? output_tokens use)%Z
  then Some ("output_tokens", "max_output_tokens exceeded")
  else if (max_delegation_depth lim <? Z.max (delegations use) (delegation_depth use))%Z
  then Some ("delegation_depth", "max_delegation_depth exceeded")
  else if PyFloat.ltb (PyFloat.add (max_cost_usd lim) (PyFloat.ratio 1 1000000000))
            (cost_usd use)
  then Some ("cost", "max_cost_usd exceeded")
  else None.

Definition check_budgets : GM unit :=
  let* s := get_st in
  match over_budget (limits s) (usage s) with
  | Some (budget, msg) => exceeded budget msg
  | None =>
      let* now := call [] clock_now in
      if PyFloat.ltb (max_duration_seconds (limits s))
           (PyTime.total_seconds (now - started_at s)%Z)
      then exceeded "duration" "max_duration exceeded" else ret tt
  end.

(** [round(cost + x, 4)] *)
Definition add_cost (x cost : float) : float := PyFloat.round (PyFloat.add cost x) 4.

Definition model_spent (u : BudgetUsage) : BudgetUsage :=
  mkUsage (model_calls u + 1) (tool_calls u) (delegations u)
    (add_cost MODEL_COST_USD (cost_usd u)) (input_tokens u) (output_tokens u)
    (delegation_depth u).
Definition tool_spent (u : BudgetUsage) : BudgetUsage :=
  mkUsage (model_calls u) (tool_calls u + 1) (delegations u)
    (add_cost TOOL_COST_USD (cost_usd u)) (input_tokens u) (output_tokens u)
    (delegation_depth u).
Definition delegation_spent (u : BudgetUsage) : BudgetUsage :=
  mkUsage (model_calls u) (tool_calls u) (delegations u + 1)
    (add_cost DELEGATION_COST_USD (cost_usd u)) (input_tokens u) (output_tokens u)
    (delegation_depth u + 1).
Definition spend (f : BudgetUsage -> BudgetUsage) : GM unit :=
  upd (fun s => set_usage (f (usage s)) s) ;;* check_budgets.
Definition spend_model : GM unit := spend model_spent.
Definition spend_tool : GM unit := spend tool_spent.
Definition spend_delegation : GM unit := spend delegation_spent.

(** ** MCP reads *)

Definition invoke (tool_name : string) (args : dict) : GM pyval :=
  call [OInvoke tool_name args] (mcp_invoke tool_name args (mcp_timeout_for tool_name)).

(** One round of the retry loop. *)
Definition attempt (tool_name : string) (args : dict) : GM dict :=
  check_cancel ;;*
  spend_tool ;;*
  let* started := call [] monotonic in
  let* out := invoke tool_name args in
  let* d := lift_result (reject_malformed tool_name out) in
  upd_breaker (CircuitBreaker.record_success "mcp") ;;*
  let* ended := call [] monotonic in
  emit EventType.TOOL_COMPLETED
    [("tool_name", VStr tool_name); ("status", VStr "succeeded");
     ("latency_s", VFloat (PyFloat.round (PyFloat.sub ended started) 4))] ;;*
  ret d.

(** [left] further rounds are allowed after a timeout or a connection
    error; any other failure ends the loop. *)
Fixpoint attempts (left : nat) (tool_name : string) (args : dict) : GM (dict + exn) :=
  try_catch (let* d := attempt tool_name args in ret (inl d)) (fun e =>
    match e with
    | RunCancelledError _ | BudgetExceededError _ _ => raise e
    | _ =>
        if is_timeout_or_connection e then
          match left with
          | O => ret (inr e)
          | S left' => attempts left' tool_name args
          end
        else ret (inr e)
    end).

Definition mcp_read (tool_name : string) (args : dict) : GM (option dict) :=
  let* spec := lift_result (validate_tool_call tool_name args) in
  (if String.eqb (category spec) "read" then ret tt
   else raise (AssertionError (tool_name +:+ " is not a read tool"))) ;;*
  let* b := gets breaker in
  lift_result (CircuitBreaker.guard "mcp" b) ;;*
  emit EventType.TOOL_STARTED
    [("tool_name", VStr tool_name); ("args", VDict (redact args))] ;;*
  let* r := attempts MAX_READ_RETRIES tool_name args in
  match r with
  | inl d => ret (Some d)
  | inr e =>
      upd_breaker (CircuitBreaker.record_failure "mcp") ;;*
      emit EventType.TOOL_COMPLETED
        [("tool_name", VStr tool_name); ("status", VStr "failed");
         ("error", VStr (safe_error (Some e)))] ;;*
      ret None
  end.

(** ** Delegation *)

Definition evidence_refs (scheme : string) (evidence : list dict) : list pyval :=
  map (get_or "ref" (VStr ""))
    (filter (fun e => PyStr.contains scheme (get_str "ref" "" e) = true) evidence).

Definition delegation_request (s : RunState) (deadline : PyTime.time) : dict :=
  let service := service_of s in
  let metrics := evidence_refs "telemetry://m" (mcp_evidence s) in
  [("schema_version", VStr "1.0"); ("task_id", VStr (obs_task_id s));
   ("run_id", VStr (run_id s)); ("tenant_id", VStr (tenant_id s));
   ("skill_id", VStr "correlate-service-symptoms");
   ("agent_name", VStr "observability-agent");
   ("objective", VStr ("Correlate symptoms for " +:+ service));
   ("inputs", VDict
      [("service", VStr service);
       ("window", VDict [("start", VStr "2026-09-11T11:00:00Z");
                         ("end", VStr "2026-09-11T12:00:00Z")]);
       ("metrics_refs", VList (match metrics with
          | [] => [VStr ("telemetry://m/" +:+ service +:+ "/err")] | _ => metrics end));
       ("logs_refs", VList (evidence_refs "telemetry://l" (mcp_evidence s)));
       ("deploy_state", opt_str (deploy_state_text s))]);
   ("deadline", VStr (PyTime.isoformat deadline)); ("requester", VStr "orchestrator");
   ("trace_id", opt_str (trace_id s)); ("correlation_id", opt_str (correlation_id s))].

(** The specialist is not used: record why and fall back. *)
Definition fallback (msg : string) : GM (option dict) :=
  upd (set_a2a_fallback true) ;;* upd (add_unresolved msg) ;;* ret None.
Definition failed_fallback (msg : string) : GM (option dict) :=
  upd_breaker (CircuitBreaker.record_failure "a2a") ;;* fallback msg.

(** What follows a delegation that returned [result]. *)
Definition accept_result (result : pyval) : GM (option dict) :=
  let* d := lift_result (as_dict result) in
  let status := get_str "status" "" d in
  if negb (String.eqb status "completed") then
    upd_breaker (CircuitBreaker.record_failure "a2a") ;;*
    upd (set_a2a_fallback true) ;;*
    let* err := lift_result (as_dict (get_or "error" (VDict []) d)) in
    upd (add_unresolved ("Specialist returned " +:+ status +:+ ": "
           +:+ get_str "message" "unknown" err +:+ "; confidence reduced.")) ;;*
    ret None
  else
    let* ok := lift_result (valid_a2a_output (dget "output" d)) in
    if ok : bool then
      upd_breaker (CircuitBreaker.record_success "a2a") ;;* ret (Some d)
    else failed_fallback
      "Specialist output failed schema validation; treated as untrusted and ignored.".

(** The call with its [except] clauses: [inr] carries the fallback text. *)
Definition call_specialist (request : dict) : GM (pyval + string) :=
  try_catch
    (let* r := call [ODelegate request] (a2a_delegate request A2A_TIMEOUT_SECONDS) in
     ret (inl r))
    (fun e =>
      if is_timeout_or_connection e then
        ret (inr ("Specialist delegation timed out (" +:+ safe_error (Some e)
                  +:+ "); confidence reduced."))
      else match e with
           | RunCancelledError _ => raise e
           | _ => ret (inr ("Specialist delegation failed (" +:+ safe_error (Some e)
                            +:+ "); confidence reduced."))
           end).

Definition delegate : GM (option dict) :=
  let* b := gets breaker in
  match CircuitBreaker.guard "a2a" b with
  | Exn _ => fallback "A2A circuit open; degraded to orchestrator-only synthesis."
  | Ok _ =>
      check_cancel ;;*
      spend_delegation ;;*
      let* s := get_st in
      let* now := call [] utcnow in
      let* deadline := lift_result (PyTime.fromtimestamp
        (PyFloat.add (PyTime.timestamp now) A2A_TIMEOUT_SECONDS)) in
      let request := delegation_request s deadline in
      emit EventType.AGENT_DELEGATED
        [("agent", VStr "observability-agent");
         ("skill_id", VStr "correlate-service-symptoms");
         ("task_id", VStr (obs_task_id s))] ;;*
      let* r := call_specialist request in
      match r with
      | inl result => accept_result result
      | inr msg => failed_fallback msg
      end
  end.
End Methods.
End Graph.
