(* ===== verification/GraphSteps.v ===== *)
(** * The workflow steps and the driver of the graph

    The [_do_*] methods of [OrchestratorGraph], the driver [run] and
    [resume_after_approval].  The driver's [while True] takes a fuel argument:
    [loop] answers [None] when it runs out, which [GraphGate] proves cannot
    happen with [run_fuel]. *)

From stdpp Require Import base list strings pretty sets.
From Stdlib Require Import ZArith Lia Ascii.
From S2P Require Import Prelude.
From S2P Require Import PyFloat.
From S2P Require Import PyValue.
From S2P Require Import PyTime.
From S2P Require Import Contracts.
From S2P Require Import ContractsRun.
From S2P Require Import ContractsOps.
From S2P Require Import RunState.
From S2P Require Import GraphTools.
From S2P Require Import Graph.
Import GraphTools Graph.

Local Open Scope py_scope.

Module Steps.
(** [state.a2a_result["output"]] when it is a dict *)
Definition a2a_output (s : RunState) : option dict :=
  match a2a_result s with
  | Some d => match dget "output" d with Some (VDict out) => Some out | _ => None end
  | None => None
  end.

(** [list(out.get(k, []))] *)
Definition list_item (k : string) (out : dict) : result (list pyval) :=
  py_list (get_or k (VList []) out).

(** In-place update of the [i]-th finding of the stored specialist output:
    the list of findings the step works on shares its dicts with the state. *)
Definition set_finding (i : nat) (f : dict) (s : RunState) : RunState :=
  match a2a_result s, a2a_output s with
  | Some d, Some out =>
      match dget "findings" out with
      | Some (VList l) =>
          set_a2a_result (Some (dset "output"
            (VDict (dset "findings" (VList (<[i := VDict f]> l)) out)) d)) s
      | _ => s
      end
  | _, _ => s
  end.

(** One adjustment of a finding's confidence: [new] on the parsed value,
    [bad] when [float] raises [TypeError] or [ValueError]. *)
Definition adjusted (new : float -> float) (bad : float) (f : dict) : result dict :=
  match confidence_of f with
  | Ok c => Ok (dset "confidence" (VFloat (new c)) f)
  | Exn e => if is_type_or_value_error e then Ok (dset "confidence" (VFloat bad) f) else Exn e
  end.

Definition cap_confidence (c : float) : float := PyFloat.min c (PyFloat.ratio 6 10).
Definition lower_confidence (c : float) : float :=
  PyFloat.round (PyFloat.sub c (PyFloat.ratio 15 100)) 2.

(** [next((e ... "service.get_health"), {})] reports healthy *)
Definition reports_healthy (s : RunState) : bool :=
  match evidence_for "service.get_health" (mcp_evidence s) with
  | Some e => is_str (dget "status" e) "healthy"
  | None => false
  end.

Definition conflict_text : string :=
  "Specialist reports anomaly (avg conf > 0.6) but primary " +:+
  "service.get_health reports healthy; both retained, confidence capped.".

(** ** Findings *)

Definition severity_of (conf : float) : string :=
  if PyFloat.leb (PyFloat.ratio 75 100) conf then "high"
  else if PyFloat.leb (PyFloat.ratio 1 2) conf then "medium" else "low".

(** [[str(r) for r in refs if str(r)]] *)
Definition ref_texts (l : list pyval) : list string :=
  filter (fun r => r <> "") (map py_str l).

(** The body of the findings loop: a finding, or the note why it is dropped. *)
Definition build_finding (s : RunState) (i : nat) (v : pyval) : result (dict + string) :=
  let? f := as_dict v in
  let title := PyStr.strip (get_str "title" "" f) in
  let summary := PyStr.strip (get_str "summary" "" f) in
  let parsed :=
    let? raw_refs := py_list (get_or "evidence_refs" (VList []) f) in
    let? conf := confidence_of f in
    Ok (ref_texts raw_refs, conf) in
  match parsed with
  | Exn e =>
      if is_type_or_value_error e
      then Ok (inr ("Finding " +:+ pretty i +:+ " dropped: schema validation failed."))
      else Exn e
  | Ok (refs, conf) =>
      if String.eqb title "" || String.eqb summary "" || (length refs =? 0)
      then Ok (inr ("Finding " +:+ pretty i +:+ " dropped: missing title/summary/evidence."))
      else
        let conf := PyFloat.max PyFloat.zero (PyFloat.min PyFloat.one conf) in
        Ok (inl [("schema_version", VStr "1.0");
                 ("finding_id", VStr (run_id s +:+ "-f" +:+ pretty i));
                 ("run_id", VStr (run_id s)); ("tenant_id", VStr (tenant_id s));
                 ("title", VStr (PyStr.slice 256 title));
                 ("summary", VStr (PyStr.slice (Z.to_nat 4000) summary));
                 ("evidence_refs", VList (map VStr (take 16 refs)));
                 ("confidence", VFloat conf); ("severity", VStr (severity_of conf))])
  end.

(** [f["confidence"]] of the findings the loop built *)
Definition built_confidence (f : dict) : float :=
  match dget "confidence" f with Some (VFloat c) => c | _ => PyFloat.zero end.
(** [max(..., default=0.0)] *)
Definition max_default (l : list float) : float :=
  match fmax l with Some m => m | None => PyFloat.zero end.

(** ** Proposals *)

(** [max(findings, key=lambda f: float(f.get("confidence", 0.0)))] *)
Fixpoint argmax (best : dict) (key : float) (l : list dict) : result dict :=
  match l with
  | [] => Ok best
  | f :: l' => let? c := confidence_of f in
               if PyFloat.ltb key c then argmax f c l' else argmax best key l'
  end.
Definition top_finding (l : list dict) : result dict :=
  match l with
  | [] => Exn (ValueError "max() arg is an empty sequence")
  | f :: l' => let? c := confidence_of f in argmax f c l'
  end.

Definition ticket_action (s : RunState) (top : dict) : result dict :=
  let? title := dict_item "title" top in
  build_proposed_action (run_id s) (tenant_id s) "ticket.create"
    ("Track investigation: " +:+ py_str title)
    [("title", VStr ("Investigate " +:+ service_of s));
     ("severity", get_or "severity" (VStr "medium") top)]
    "low" None false.

Definition rollback_action (s : RunState) : result dict :=
  build_proposed_action (run_id s) (tenant_id s) "deployment.rollback"
    "Recent release correlates with symptoms; prepare dry-run rollback"
    [("service", VStr (service_of s)); ("dry_run", VBool true)]
    "medium" (Some "re-deploy release 2026.09.10") true.

Definition mentions_deployment (f : dict) : bool :=
  PyStr.contains "deployment" (PyStr.lower (get_str "title" "" f)).

Definition propose_actions (s : RunState) : result (list dict) :=
  let? top := top_finding (findings s) in
  let? ticket := ticket_action s top in
  if existsb mentions_deployment (findings s)
  then let? rollback := rollback_action s in Ok [ticket; rollback]
  else Ok [ticket].

(** ** Policy decisions *)

Definition copy_key (k : string) (raw : dict) (d : dict) : dict :=
  match dget k raw with Some v => dset k v d | None => d end.
Definition policy_row (action : dict) (tool : string) (raw : dict) : dict :=
  copy_key "reason" raw (copy_key "requires_approval" raw (copy_key "allowed" raw
    [("action_id", get_or "action_id" VNone action); ("tool_name", VStr tool)])).
Definition is_denied (d : dict) : bool := negb (truthy (get_or "allowed" (VBool false) d)).

(** ** Approvals *)

Definition approval_row (s : RunState) (now : PyTime.time) (action : dict) : result dict :=
  let? id := dict_item "action_id" action in
  Ok [("schema_version", VStr "1.0");
      ("approval_id", VStr (run_id s +:+ "-" +:+ py_str id +:+ "-appr"));
      ("run_id", VStr (run_id s)); ("tenant_id", VStr (tenant_id s)); ("action_id", id);
      ("requested_by", VStr "orchestrator"); ("decision", VStr "pending");
      ("requested_at", VStr (PyTime.isoformat now))].

Definition decide_approval (decision approver : string) (reason : option string) (ap : dict)
    : dict :=
  dset "reason" (opt_str reason)
    (dset "approver" (VStr approver) (dset "decision" (VStr decision) ap)).

Definition is_approved (ap : dict) : bool := is_str (dget "decision" ap) "approved".
Definition approved_ids (s : RunState) : result (list string) :=
  map_result (str_item "action_id") (filter (fun a => is_approved a = true) (approvals s)).

(** [dict(action.get("input", {}))] *)
Definition action_input (action : dict) : result dict :=
  py_dict (get_or "input" (VDict []) action).

Section Methods.
Context {W : Type} `{!Deps W}.
Notation GM := (M (G W)).

Definition do_classify : GM bool :=
  spend_model ;;*
  let* s := get_st in
  let* classification := call [OModel] (model_classify (objective s) (context s)) in
  upd (set_classification classification) ;;*
  transition "plan" EventType.MESSAGE_DELTA [("classification", VDict classification)] ;;*
  if get_truthy "needs_clarification" classification then
    let q := get_str "reason" "insufficient context" classification in
    upd (fun s => set_status "completed" (set_outcome (Some "clarify") s)) ;;*
    upd (add_unresolved ("Clarification needed: " +:+ q)) ;;*
    emit EventType.MESSAGE_DELTA
      [("clarification_question",
        VStr ("Please clarify: " +:+ q +:+ ". Include service name."))] ;;*
    let* s := get_st in
    transition "complete" EventType.RUN_COMPLETED
      [("outcome", VStr "clarify"); ("unresolved", VList (map VStr (unresolved s)))] ;;*
    ret true
  else ret false.

Definition do_plan : GM unit :=
  spend_model ;;*
  let* s := get_st in
  let* p := call [OModel] (model_plan (objective s) (classification s)) in
  upd (set_plan p) ;;*
  transition "resources" EventType.MESSAGE_DELTA [("plan", VList (map VStr p))].

Definition do_resources : GM unit :=
  let* s := get_st in
  let service := service_of s in
  let uri := "resource://services/" +:+ service in
  upd (set_resources [("service", VStr service); ("uri", VStr uri); ("slo", VStr "99.9%");
                      ("owner", VStr "sre")]) ;;*
  transition "mcp_reads" EventType.TOOL_STARTED
    [("tool_name", VStr "resource.read"); ("uri", VStr uri)].

Definition read_plan : list string :=
  ["telemetry.query_metrics"; "telemetry.query_logs"; "service.get_health";
   "deployment.get_current_release"].

(** One read of the plan, its result appended to the evidence. *)
Definition collect (service tool : string) : GM unit :=
  let* out := mcp_read tool [("service", VStr service)] in
  match out with
  | Some d => upd (fun s => set_mcp_evidence (mcp_evidence s ++
                [dupdate [("tool", VStr tool)] (jsonable_dict d)]) s)
  | None => ret tt
  end.

Definition do_mcp_reads : GM unit :=
  let* s := get_st in
  for_each read_plan (collect (service_of s)) ;;*
  let* s := get_st in
  (match mcp_evidence s with
   | [] => upd (add_unresolved
             "All primary MCP reads failed; proceeding with degraded evidence.")
   | _ => ret tt
   end) ;;*
  transition "a2a_delegate" EventType.TOOL_COMPLETED
    [("evidence_count", VInt (Z.of_nat (length (mcp_evidence s))))].

Definition do_delegate : GM unit :=
  let* r := delegate in
  upd (set_a2a_result (jsonable_dict <$> r)) ;;*
  let* s := get_st in
  transition "correlate" EventType.MESSAGE_DELTA
    [("delegated", VBool (match r with Some _ => true | None => false end));
     ("fallback", VBool (a2a_fallback s))].

(** [for f in findings_raw: f["confidence"] = ...] *)
Definition adjust_all (new : float -> float) (bad : float) (l : list pyval) : GM unit :=
  for_each (imap pair l) (fun '(i, v) =>
    let* f := lift_result (as_dict v) in
    let* f' := lift_result (adjusted new bad f) in
    upd (set_finding i f')).

(** The findings as the state holds them now. *)
Definition stored_findings (s : RunState) : list pyval :=
  match a2a_output s with
  | Some out => match list_item "findings" out with Ok l => l | Exn _ => [] end
  | None => []
  end.

Definition is_nonempty {A} (l : list A) : bool := match l with [] => false | _ => true end.

Definition do_correlate : GM unit :=
  let* s := get_st in
  let* raws := lift_result (match a2a_output s with
    | Some out => let? f := list_item "findings" out in
                  let? u := list_item "unresolved_questions" out in Ok (f, u)
    | None => Ok ([], [])
    end) in
  let findings_raw := raws.1 in
  let* avg := (if reports_healthy s && is_nonempty findings_raw
               then lift_result (avg_conf findings_raw) else ret PyFloat.zero) in
  (if reports_healthy s && is_nonempty findings_raw
        && PyFloat.ltb (PyFloat.ratio 6 10) avg
   then upd (set_conflict (Some conflict_text)) ;;*
        upd (add_unresolved conflict_text) ;;*
        adjust_all cap_confidence (PyFloat.ratio 1 2) findings_raw
   else ret tt) ;;*
  let* s1 := get_st in
  (if a2a_fallback s1
   then adjust_all lower_confidence (PyFloat.ratio 4 10) (stored_findings s1)
   else ret tt) ;;*
  upd (fun s => set_unresolved (unresolved s ++ ref_texts raws.2) s) ;;*
  let* s2 := get_st in
  let note := [("specialist_findings", VInt (Z.of_nat (length findings_raw)));
               ("fallback", VBool (a2a_fallback s2));
               ("conflict", opt_str (conflict s2))] in
  upd (set_correlation_note (Some note)) ;;*
  save ;;*
  upd (set_current_state "findings") ;;*
  emit EventType.MESSAGE_DELTA [("correlation", VDict note)] ;;*
  save.

(** The finding synthesised when the specialist gave none. *)
Definition degraded_finding (s : RunState) : pyval :=
  VDict [("title", VStr ("Elevated errors in " +:+ service_of s));
         ("summary", VStr
            "Primary telemetry shows elevated errors; specialist unavailable.");
         ("evidence_refs", VList (map (get_or "ref" (VStr "telemetry://m/1"))
                                    (take 2 (mcp_evidence s))));
         ("confidence", VFloat (PyFloat.ratio 45 100))].

Definition collect_finding (acc : list dict) (i : nat) (v : pyval) : GM (list dict) :=
  let* s := get_st in
  let* r := lift_result (build_finding s i v) in
  match r with
  | inl f => ret (acc ++ [f])
  | inr note => upd (add_unresolved note) ;;* ret acc
  end.
Fixpoint collect_findings (acc : list dict) (i : nat) (l : list pyval) : GM (list dict) :=
  match l with
  | [] => ret acc
  | v :: l' => let* acc' := collect_finding acc i v in collect_findings acc' (S i) l'
  end.

Definition do_findings : GM bool :=
  let* s := get_st in
  let* raw := lift_result (match a2a_output s with
    | Some out => list_item "findings" out | None => Ok [] end) in
  let synth := negb (is_nonempty raw) && is_nonempty (mcp_evidence s) in
  (if synth
   then upd (add_unresolved "Orchestrator-only synthesis; specialist evidence missing.")
   else ret tt) ;;*
  let* fs := collect_findings [] 0 (if synth then [degraded_finding s] else raw) in
  upd (set_findings fs) ;;*
  for_each fs (fun f => emit EventType.FINDING_CREATED [("finding", VDict f)]) ;;*
  save ;;*
  if negb (is_nonempty fs)
       || PyFloat.ltb (max_default (map built_confidence fs)) LOW_CONFIDENCE_THRESHOLD
  then
    upd (fun s => set_status "completed" (set_outcome (Some "more_info") s)) ;;*
    upd (add_unresolved
      "Confidence below 0.5; more telemetry (metrics_refs/logs_refs/traces) is needed.") ;;*
    emit EventType.MESSAGE_DELTA
      [("more_info", VStr "Please supply additional telemetry refs for re-analysis.")] ;;*
    let* s := get_st in
    transition "complete" EventType.RUN_COMPLETED
      [("outcome", VStr "more_info"); ("unresolved", VList (map VStr (unresolved s)))] ;;*
    ret true
  else upd (set_current_state "propose") ;;* save ;;* ret false.

Definition do_propose : GM unit :=
  let* s := get_st in
  let* actions := lift_result (propose_actions s) in
  upd (set_proposed_actions actions) ;;*
  let* ids := lift_result (map_result (dict_item "action_id") actions) in
  transition "policy" EventType.MESSAGE_DELTA [("proposed", VList ids)].

Definition evaluate_one (env : string) (action : dict) : GM dict :=
  let* tool := lift_result (dict_item "tool_name" action) in
  let* raw := call [OEvaluate action env] (policy_evaluate action env) in
  ret (policy_row action (py_str tool) raw).
Fixpoint evaluate_all (env : string) (l : list dict) : GM (list dict) :=
  match l with
  | [] => ret []
  | a :: l' => let* d := evaluate_one env a in
               let* r := evaluate_all env l' in ret (d :: r)
  end.

Definition do_policy : GM bool :=
  let* s := get_st in
  let env := get_str "env" "dev" (context s) in
  let* decisions := evaluate_all env (proposed_actions s) in
  upd (set_policy_decisions decisions) ;;*
  save ;;*
  let denied := filter (fun d => is_denied d = true) decisions in
  if is_nonempty denied then
    upd (fun s => set_status "completed" (set_outcome (Some "denied") s)) ;;*
    let reasons := PyStr.join "; " (map (get_str "reason" "denied") denied) in
    emit EventType.MESSAGE_DELTA
      [("policy_denial", VStr ("Policy denied " +:+ pretty (length denied)
          +:+ " action(s): " +:+ reasons +:+ ". Nothing executed."))] ;;*
    transition "complete" EventType.RUN_COMPLETED
      [("outcome", VStr "denied"); ("denied", VList (map VDict denied))] ;;*
    ret true
  else upd (set_current_state "approval_pause") ;;* save ;;* ret false.

Definition do_approval_pause : GM unit :=
  let* s := get_st in
  match proposed_actions s with
  | [] => upd (set_current_state "verify") ;;* save
  | actions =>
      upd (set_status "waiting_for_approval") ;;*
      let* now := call [] utcnow in
      for_each actions (fun a =>
        let* row := lift_result (approval_row s now a) in
        upd (fun s => set_approvals (approvals s ++ [row]) s)) ;;*
      let* s := get_st in
      emit EventType.APPROVAL_REQUIRED
        [("approvals", VList (map VDict (approvals s)));
         ("actions", VList (map VDict (proposed_actions s)))] ;;*
      save
  end.

(** The guarded call of one approved action, with its [except]. *)
Definition run_action (tool : string) (id : pyval) (input : dict) : GM unit :=
  try_catch
    (let* out := invoke tool input in
     lift_result (reject_malformed tool out) ;;*
     emit EventType.TOOL_COMPLETED
       [("tool_name", VStr tool); ("action_id", id); ("status", VStr "succeeded")])
    (fun e =>
     emit EventType.TOOL_COMPLETED
       [("tool_name", VStr tool); ("action_id", id); ("status", VStr "failed");
        ("error", VStr (safe_error (Some e)))] ;;*
     upd (add_unresolved ("Action " +:+ py_str id +:+ " failed: "
                          +:+ safe_error (Some e)))).

Definition execute_one (approved : list string) (action : dict) : GM unit :=
  let* id := lift_result (str_item "action_id" action) in
  if negb (existsb (String.eqb id) approved) then ret tt
  else
    let* tool_v := lift_result (dict_item "tool_name" action) in
    let tool := py_str tool_v in
    let* input := lift_result (action_input action) in
    let* spec := lift_result (validate_tool_call tool input) in
    (if String.eqb (category spec) "destructive"
     then raise (RuntimeError ("refusing to execute destructive tool " +:+ tool))
     else ret tt) ;;*
    check_cancel ;;*
    spend_tool ;;*
    emit EventType.TOOL_STARTED
      [("tool_name", VStr tool); ("action_id", VStr id);
       ("dry_run", VBool (get_truthy "dry_run" action))] ;;*
    run_action tool (VStr id) input.

Definition do_execute : GM unit :=
  let* s := get_st in
  let* approved := lift_result (approved_ids s) in
  (if is_nonempty (proposed_actions s) && negb (is_nonempty approved)
   then raise (RuntimeError "execute_approved without any approved approval row")
   else ret tt) ;;*
  for_each (proposed_actions s) (execute_one approved) ;;*
  upd (fun s => set_status "running" (set_current_state "verify" s)) ;;*
  save.

Definition do_verify : GM unit :=
  let* s := get_st in
  let* out := mcp_read "service.get_health" [("service", VStr (service_of s))] in
  let verified := match out with
    | Some d => is_nonempty d && (is_str (dget "status" d) "healthy"
                                  || is_str (dget "status" d) "degraded")
    | None => false
    end in
  transition "complete" EventType.MESSAGE_DELTA [("verified", VBool verified)].

Definition final_result (s : RunState) (conf : float) : dict :=
  [("schema_version", VStr "1.0"); ("run_id", VStr (run_id s));
   ("tenant_id", VStr (tenant_id s)); ("situation", VStr (objective s));
   ("evidence", VList (map VDict (mcp_evidence s)));
   ("findings", VList (map VDict (findings s))); ("confidence", VFloat conf);
   ("proposed_actions", VList (map VDict (proposed_actions s)));
   ("unresolved_questions", VList (map VStr (unresolved s)));
   ("outcome", opt_str (outcome s))].

(** [state.outcome or "completed"] *)
Definition outcome_or (o : option string) : string :=
  match o with Some "" | None => "completed" | Some x => x end.

Definition do_complete : GM unit :=
  upd (fun s => set_status "completed" (set_outcome (Some (outcome_or (outcome s))) s)) ;;*
  let* s := get_st in
  let* confs := lift_result (map_result confidence_of (findings s)) in
  let r := final_result s (max_default confs) in
  upd (set_run_result (Some r)) ;;*
  emit EventType.RUN_COMPLETED [("result", VDict r)] ;;*
  save.

(** ** The driver *)

(** One iteration of [while True]: the answer says whether [run] returns. *)
Definition dispatch (cur : string) : GM bool :=
  let go (m : GM unit) (b : bool) : GM bool := m ;;* ret b in
  if String.eqb cur "classify" then do_classify
  else if String.eqb cur "plan" then go do_plan false
  else if String.eqb cur "resources" then go do_resources false
  else if String.eqb cur "mcp_reads" then go do_mcp_reads false
  else if String.eqb cur "a2a_delegate" then go do_delegate false
  else if String.eqb cur "correlate" then go do_correlate false
  else if String.eqb cur "findings" then do_findings
  else if String.eqb cur "propose" then go do_propose false
  else if String.eqb cur "policy" then do_policy
  else if String.eqb cur "approval_pause" then go do_approval_pause true
  else if String.eqb cur "execute_approved" then go do_execute false
  else if String.eqb cur "verify" then go do_verify false
  else if String.eqb cur "complete" then go do_complete true
  else raise (RuntimeError ("unknown workflow state " +:+ PyStr.repr cur)).

Definition step : GM bool :=
  check_cancel ;;* check_budgets ;;* let* s := get_st in dispatch (current_state s).

Fixpoint loop (fuel : nat) : GM (option unit) :=
  match fuel with
  | O => ret None
  | S n => let* stop := step in if stop : bool then ret (Some tt) else loop n
  end.

Definition run_fuel : nat := 14.

Definition error_dict (code : ErrorCode.t) (message : string) : dict :=
  [("code", VStr (ErrorCode.value code)); ("message", VStr message);
   ("retryable", VBool false)].

Definition set_failed (err : dict) (s : RunState) : RunState :=
  set_error (Some err) (set_outcome (Some "failed") (set_status "failed" s)).

Definition on_cancel : GM unit :=
  upd (fun s => set_outcome (Some "cancelled") (set_status "cancelled" s)) ;;*
  emit EventType.RUN_CANCELLED [("reason", VStr "cancel requested")] ;;*
  save ;;*
  let* s := get_st in
  match a2a_cancel with
  | Some cancel => try_catch (call [OCancelTask (obs_task_id s)] (cancel (obs_task_id s)))
                     (fun _ => ret tt)
  | None => ret tt
  end.

Definition on_budget (message : string) : GM unit :=
  let err := error_dict ErrorCode.BUDGET_EXCEEDED message in
  upd (set_failed err) ;;*
  emit EventType.RUN_FAILED [("error", VDict err)] ;;*
  save.

Definition on_exception (e : exn) : GM unit :=
  let err := error_dict ErrorCode.INTERNAL_ERROR (safe_error (Some e)) in
  upd (set_failed err) ;;*
  try_catch (emit EventType.RUN_FAILED [("error", VDict err)] ;;* save) (fun _ => ret tt).

Definition handle (e : exn) : GM unit :=
  match e with
  | RunCancelledError _ => on_cancel
  | BudgetExceededError msg _ => on_budget msg
  | _ => on_exception e
  end.

Definition start : GM unit :=
  let* s := get_st in
  if String.eqb (status s) "created" then
    upd (set_status "running") ;;*
    transition "classify" EventType.RUN_STARTED [("objective", VStr (objective s))]
  else ret tt.

Definition run (fuel : nat) : GM (option unit) :=
  start ;;* try_catch (loop fuel) (fun e => handle e ;;* ret (Some tt)).

Definition resume_after_approval (fuel : nat) (decision approver : string)
    (reason : option string) : GM (option unit) :=
  let* s := get_st in
  if negb (String.eqb (current_state s) "approval_pause")
       || negb (String.eqb (status s) "waiting_for_approval")
  then raise (ValueError "run is not awaiting approval")
  else
    let decision := PyStr.lower decision in
    if negb (existsb (String.eqb decision) ["approved"; "rejected"; "expired"])
    then raise (ValueError "decision must be approved|rejected|expired")
    else if String.eqb decision "approved" then
      upd (fun s => set_approvals
             (map (decide_approval "approved" approver reason) (approvals s)) s) ;;*
      emit EventType.APPROVAL_RECEIVED
        [("decision", VStr "approved"); ("approver", VStr approver)] ;;*
      save ;;*
      upd (set_current_state "execute_approved") ;;*
      run fuel
    else
      let d := if String.eqb decision "rejected" then "rejected" else "expired" in
      upd (fun s => set_approvals (map (decide_approval d approver reason) (approvals s)) s) ;;*
      upd (fun s => set_status "completed" (set_outcome (Some "rejected") s)) ;;*
      emit EventType.APPROVAL_RECEIVED
        [("decision", VStr decision); ("approver", VStr approver)] ;;*
      transition "complete" EventType.RUN_COMPLETED
        [("outcome", VStr "rejected"); ("executed", VBool false);
         ("note", VStr ("approval " +:+ decision +:+ "; no actions executed"))] ;;*
      ret (Some tt).
End Methods.
End Steps.
