(* ===== verification/GraphFakes.v ===== *)
(** * The default dependencies

    The deterministic fakes of [apps/orchestrator/graph.py] ([FakeModelClient],
    [FakeMCPClient], [FakeA2AClient], [FakePolicyClient],
    [InMemoryPersistence]), as one instance of [Deps] over a concrete world.
    The clocks are constants of the world. *)

From stdpp Require Import base list strings pretty sets.
From Stdlib Require Import ZArith Lia Ascii.
From S2P Require Import Prelude.
From S2P Require Import PyFloat.
From S2P Require Import PyValue.
From S2P Require Import PyTime.
From S2P Require Import Contracts.
From S2P Require Import ContractsRun.
From S2P Require Import ContractsOps.
From S2P Require Import Catalog.
From S2P Require Import RunState.
From S2P Require Import GraphTools.
From S2P Require Import Graph.
From S2P Require Import GraphSteps.
Import GraphTools.

Local Open Scope py_scope.

Module Fakes.
(** ** FakeModelClient *)

Definition classification (category : string) (needs : bool) (reason : string) : dict :=
  [("category", VStr category); ("needs_clarification", VBool needs); ("reason", VStr reason)].

Definition category_of (lowered : string) : string :=
  if PyStr.contains "checkout" lowered || PyStr.contains "error rate" lowered
     || PyStr.contains "incident" lowered then "incident"
  else if PyStr.contains "deploy" lowered || PyStr.contains "rollback" lowered then "change"
  else "investigation".

Definition classify (objective : string) (context : dict) : dict :=
  let obj := PyStr.strip objective in
  if String.length obj <? 8 then classification "unknown" true "objective too short"
  else
    let lowered := PyStr.lower obj in
    let category := category_of lowered in
    if negb (get_truthy "service" context) && negb (PyStr.contains "service" lowered)
    then classification category true "missing service context"
    else classification category false (category +:+ " investigation").

Definition plan : list string :=
  ["retrieve service metadata"; "query read-only telemetry (metrics/logs/health)";
   "delegate to observability specialist";
   "correlate specialist output with primary evidence"; "propose approval-gated actions"].

(** ** FakeMCPClient *)

Definition mcp_answer (health_status tool_name : string) (args : dict) : pyval :=
  let service := get_str "service" "checkout-api" args in
  VDict (
    if String.eqb tool_name "telemetry.query_metrics" then
      [("service", VStr service); ("error_rate", VFloat (PyFloat.ratio 18 100));
       ("ref", VStr ("telemetry://m/" +:+ service +:+ "/err"))]
    else if String.eqb tool_name "telemetry.query_logs" then
      [("service", VStr service); ("errors", VInt 42);
       ("ref", VStr ("telemetry://l/" +:+ service +:+ "/err"))]
    else if String.eqb tool_name "service.get_health" then
      [("service", VStr service); ("status", VStr health_status);
       ("ref", VStr ("telemetry://h/" +:+ service))]
    else if String.eqb tool_name "deployment.get_current_release" then
      [("service", VStr service); ("release", VStr "2026.09.10");
       ("ref", VStr ("resource://releases/" +:+ service))]
    else if String.eqb tool_name "telemetry.get_trace" then
      let trace_id := get_str "trace_id" "trace-mock-1" args in
      [("service", VStr service); ("trace_id", VStr trace_id);
       ("ref", VStr ("trace://t/" +:+ service +:+ "/" +:+ trace_id))]
    else if String.eqb tool_name "remediation.simulate" then
      [("action", VStr (get_str "action" "restart" args)); ("executed", VBool false);
       ("dry_run", VBool true); ("ref", VStr "simulate://s/1")]
    else if String.eqb tool_name "ticket.create"
            || String.eqb tool_name "deployment.rollback" then
      [("ok", VBool true); ("dry_run", VBool (get_truthy "dry_run" args));
       ("ref", VStr "ticket://t/1")]
    else [("ok", VBool true)]).

Definition mcp_result (fail_tools : list (string * string)) (health tool_name : string)
    (args : dict) : result pyval :=
  match dget tool_name fail_tools with
  | Some "timeout" => Exn (TimeoutError ("tool " +:+ tool_name +:+ " timed out"))
  | Some "error" => Exn (RuntimeError ("tool " +:+ tool_name +:+ " failed"))
  | Some "malformed" => Ok (VDict [("unexpected_blob", VObj "<object object>")])
  | _ => Ok (mcp_answer health tool_name args)
  end.

(** ** FakeA2AClient *)

Definition A2A_MODES : list string :=
  ["ok"; "timeout"; "failed"; "low_confidence"; "conflict"; "malformed"].
Definition finding (title summary ref : string) (conf : float) : pyval :=
  VDict [("title", VStr title); ("summary", VStr summary);
         ("evidence_refs", VList [VStr ref]); ("confidence", VFloat conf)].
Definition task_result (task_id status key : string) (v : pyval) : pyval :=
  VDict [("task_id", VStr task_id); ("status", VStr status); (key, v)].
Definition output (findings : list pyval) (cause : pyval) (unresolved : list pyval) : pyval :=
  VDict [("findings", VList findings); ("probable_cause", cause);
         ("unresolved_questions", VList unresolved)].

Definition a2a_answer (mode : string) (confidence : float) (request : dict) : result pyval :=
  let task_id := get_str "task_id" "task_1" request in
  let done v := Ok (task_result task_id "completed" "output" v) in
  if String.eqb mode "timeout" then Exn (TimeoutError "A2A delegation timed out")
  else if String.eqb mode "failed" then
    Ok (task_result task_id "failed" "error"
          (VDict [("code", VStr "a2a_error"); ("message", VStr "specialist unavailable");
                  ("retryable", VBool true)]))
  else if String.eqb mode "malformed" then done (VDict [("bogus", VInt 1)])
  else if String.eqb mode "low_confidence" then
    done (output [] VNone [VStr "insufficient telemetry refs"])
  else if String.eqb mode "conflict" then
    done (output [finding "All healthy" "No anomaly detected" "a2a://obs/1"
                    (PyFloat.ratio 9 10)] (VStr "All healthy") [])
  else
    done (output [finding "Metric anomaly in checkout-api"
                    "Elevated error rate correlates with recent release"
                    "telemetry://m/checkout-api/err" confidence]
            (VStr "Metric anomaly in checkout-api") []).

(** ** FakePolicyClient *)

Definition POLICY_MODES : list string := ["approve_all"; "deny_rollback"; "deny_all"].
Definition denial (reason : string) : dict :=
  [("allowed", VBool false); ("requires_approval", VBool false); ("reason", VStr reason);
   ("required_scopes", VList [])].
Definition policy_answer (mode : string) (action : dict) (env : string) : result dict :=
  let tool := get_str "tool_name" "" action in
  let side := match dget tool TOOL_REGISTRY with
              | Some spec => side_effect spec | None => "external_write" end in
  if String.eqb mode "deny_all" then Ok (denial "denied by test policy")
  else if String.eqb mode "deny_rollback" && String.eqb tool "deployment.rollback"
  then Ok (denial "rollback denied in test policy")
  else
    let? decision := Policies.evaluate_action tool side None None env None None None in
    Ok (PolicyDecision.dump decision).

(** ** InMemoryPersistence

    [save] keeps [dataclasses.replace(state)], which drops the two dynamic
    attributes. *)
Record Persistence := mkPersistence { saves : list RunState; events : list dict }.
Definition replace_state (s : RunState) : RunState :=
  set_run_result None (set_correlation_note None s).
Definition event_types (p : Persistence) : list string :=
  map (fun e => py_str (get_or "type" VNone e)) (events p).

(** [request_cancel]: the flag is set on the last saved copy of the run. *)
Fixpoint cancel_first (id : string) (l : list RunState) : list RunState * bool :=
  match l with
  | [] => ([], false)
  | s :: l' => if String.eqb (run_id s) id then (set_cancelled true s :: l', true)
               else let '(r, b) := cancel_first id l' in (s :: r, b)
  end.
Definition request_cancel (p : Persistence) (id : string) : Persistence * bool :=
  let '(r, b) := cancel_first id (reverse (saves p)) in
  (mkPersistence (reverse r) (events p), b).

(** ** The world *)

Record World := mkWorld {
  fail_tools : list (string * string); health_status : string;
  calls : list (string * dict);
  a2a_mode : string; confidence : float; a2a_calls : list dict; a2a_cancelled : list string;
  policy_mode : string; store : Persistence; now : PyTime.time; cancel : bool }.

Definition add_call (c : string * dict) (w : World) : World :=
  mkWorld (fail_tools w) (health_status w) (calls w ++ [c]) (a2a_mode w) (confidence w)
    (a2a_calls w) (a2a_cancelled w) (policy_mode w) (store w) (now w) (cancel w).
Definition add_delegation (r : dict) (w : World) : World :=
  mkWorld (fail_tools w) (health_status w) (calls w) (a2a_mode w) (confidence w)
    (a2a_calls w ++ [r]) (a2a_cancelled w) (policy_mode w) (store w) (now w) (cancel w).
Definition add_cancelled (id : string) (w : World) : World :=
  mkWorld (fail_tools w) (health_status w) (calls w) (a2a_mode w) (confidence w)
    (a2a_calls w) (a2a_cancelled w ++ [id]) (policy_mode w) (store w) (now w) (cancel w).
Definition set_store (p : Persistence) (w : World) : World :=
  mkWorld (fail_tools w) (health_status w) (calls w) (a2a_mode w) (confidence w)
    (a2a_calls w) (a2a_cancelled w) (policy_mode w) p (now w) (cancel w).

Definition fake_invoke (tool_name : string) (args : dict) (timeout_s : float) : M World pyval :=
  lift_result (validate_tool_call tool_name args) ;;*
  modify (add_call (tool_name, args)) ;;*
  let* w := gets id in
  lift_result (mcp_result (fail_tools w) (health_status w) tool_name args).

Definition fake_delegate (request : dict) (timeout_s : float) : M World pyval :=
  modify (add_delegation request) ;;*
  let* w := gets id in
  lift_result (a2a_answer (a2a_mode w) (confidence w) request).

#[global] Instance deps : Deps World := {|
  mcp_invoke := fake_invoke;
  a2a_delegate := fake_delegate;
  a2a_cancel := Some (fun task => modify (add_cancelled task));
  policy_evaluate action env :=
    let* w := gets id in lift_result (policy_answer (policy_mode w) action env);
  store_save s :=
    modify (fun w => set_store (mkPersistence (saves (store w) ++ [replace_state s])
                                  (events (store w))) w);
  store_append e :=
    modify (fun w => set_store (mkPersistence (saves (store w)) (events (store w) ++ [e])) w);
  model_classify objective context := ret (classify objective context);
  model_plan objective classification := ret plan;
  clock_now := gets now;
  utcnow := gets now;
  monotonic := ret PyFloat.zero;
  cancel_signal := cancel;
|}.

(** [GraphDeps()] with the flags of the failure-injection tests. *)
Definition world0 (fails : list (string * string)) (health mode : string) (conf : float)
    (policy : string) : World :=
  mkWorld fails health [] mode conf [] [] policy (mkPersistence [] []) 1789128000000000 false.
Definition default_world : World :=
  world0 [] "degraded" "ok" (PyFloat.ratio 8 10) "approve_all".

Definition graph0 (s : RunState) (w : World) : G World :=
  mkG s (CircuitBreaker.init CircuitBreaker.THRESHOLD) w [].

Definition sample_run : RunState :=
  new_run "run_1" "Investigate checkout error rate" [("service", VStr "checkout-api")]
    1789128000000000.
Definition after_run (w : World) : G World := (Steps.run Steps.run_fuel (graph0 sample_run w)).1.
End Fakes.
