(* ===== verification/GraphLemmas.v ===== *)
(** * Lemmas and automation for the graph

    Structural reasoning shared by the graph's theorems: a tactic that walks
    through a method with the laws of [steps], the relation [emits] that says
    which calls a method may make, and the postconditions of the events and
    transitions. *)

From stdpp Require Import base list strings pretty sets.
From Stdlib Require Import ZArith Lia Ascii.
From S2P Require Import Prelude.
From S2P Require Import PyFloat.
From S2P Require Import PyValue.
From S2P Require Import PyTime.
From S2P Require Import Contracts.
From S2P Require Import ContractsRun.
From S2P Require Import ContractsOps.
From S2P Require Import RunState.
From S2P Require Import GraphTools.
From S2P Require Import Graph.
From S2P Require Import GraphSteps.
Import GraphTools Graph Steps.

Local Open Scope py_scope.

(** ** Automation *)

Create HintDb graph_base discriminated.
Create HintDb graph_call discriminated.
Create HintDb graph discriminated.
#[export] Hint Unfold
  save emit_as emit transition check_cancel check_budgets exceeded spend spend_model spend_tool
  spend_delegation : graph_base.
#[export] Hint Unfold
  attempt invoke mcp_read fallback failed_fallback accept_result call_specialist delegate
  : graph_call.
#[export] Hint Unfold
  spend_model spend_tool spend_delegation
  do_classify do_plan do_resources collect do_mcp_reads do_delegate adjust_all
  do_correlate collect_finding do_findings do_propose evaluate_one do_policy do_approval_pause
  run_action execute_one do_execute do_verify do_complete on_cancel on_budget on_exception
  start : graph.

(** One rule of the walk; [leaf] closes the basic operations. *)
Ltac steps_rule leaf :=
  lazymatch goal with
  | |- steps _ (bind (lift_result _) _) => apply steps_bind_lift; [tc_solve|intros ? ?]
  | |- steps _ (bind (if _ then ret tt else raise _) _) =>
      apply steps_bind_require; [tc_solve|intros ?]
  | |- steps _ (bind (if _ then raise _ else ret tt) _) =>
      apply steps_bind_refuse; [tc_solve|intros ?]
  | |- steps _ (bind _ _) => apply steps_bind; [tc_solve| |intros ?]
  | |- steps _ (try_catch _ _) => apply steps_try; [tc_solve| |intros ?]
  | |- steps _ (for_each _ _) => apply steps_for_each; [tc_solve|intros ? ?]
  | |- steps _ (ret _) => apply steps_ret; tc_solve
  | |- steps _ (raise _) => apply steps_raise; tc_solve
  | |- steps _ (gets _) => apply steps_gets; tc_solve
  | |- steps _ get_st => apply steps_gets; tc_solve
  | |- steps _ (lift_result _) => apply steps_lift; tc_solve
  | |- steps _ (if ?b then _ else _) => destruct b eqn:?
  | |- steps _ (match ?x with _ => _ end) => destruct x eqn:?
  | |- _ => leaf
  end.
Ltac steps_walk leaf :=
  repeat (cbv beta zeta; steps_rule ltac:(first [ solve [eauto 2 with steps] | leaf ])).

(** ** Which calls are made *)

Section Emits.
Context {W : Type}.
Implicit Types (g : G W).

(** The trace grew by calls that satisfy [P]. *)
Definition emits (P : obs -> Prop) g g' : Prop :=
  exists ext, trace g' = trace g ++ ext /\ Forall P ext.

#[global] Instance emits_preorder P : PreOrder (emits P).
Proof.
  split.
  - intros g. exists []. split; [by rewrite app_nil_r|constructor].
  - intros g1 g2 g3 (e1 & E1 & H1) (e2 & E2 & H2). exists (e1 ++ e2).
    split; [by rewrite E2, E1, app_assoc|by apply Forall_app].
Qed.

Lemma emits_mono (P Q : obs -> Prop) g g' :
  (forall o, P o -> Q o) -> emits P g g' -> emits Q g g'.
Proof. intros H (ext & E & HF). exists ext. split; [done|]. by eapply Forall_impl. Qed.

Lemma emits_upd P f : steps (emits P) (upd (W:=W) f).
Proof. intros g. exists []. split; [by rewrite app_nil_r|constructor]. Qed.
Lemma emits_breaker P f : steps (emits P) (upd_breaker (W:=W) f).
Proof. intros g. exists []. split; [by rewrite app_nil_r|constructor]. Qed.
Lemma emits_sync P (f : G W -> G W) :
  (forall g, trace (f g) = trace g) -> steps (emits P) (modify f).
Proof. intros H g. exists []. simpl. rewrite H, app_nil_r. split; [done|constructor]. Qed.
Lemma emits_call P {A} o (m : M W A) : Forall P o -> steps (emits P) (call o m).
Proof.
  intros H g. unfold call. destruct (m (world g)) as [w r]. exists o. by split.
Qed.
End Emits.

(** Calls that do not act on anything: events, saves, model and policy calls. *)
Definition quiet (o : obs) : Prop :=
  match o with OInvoke _ _ | ODelegate _ | OCancelTask _ => False | _ => True end.

Ltac emits_leaf :=
  first
    [ apply emits_upd | apply emits_breaker
    | apply emits_sync; intros ?; repeat case_match; reflexivity
    | apply emits_call; repeat constructor; solve [eauto 3] ].
Ltac emits_walk := autounfold with graph; steps_walk emits_leaf.
Ltac emits_base := autounfold with graph_base; steps_walk emits_leaf.
Ltac emits_calls := autounfold with graph_call; steps_walk emits_leaf.

(** Recording an event or a state makes only the store calls. *)
Section Recording.
Context {W : Type} `{!Deps W} (P : obs -> Prop).
Context (HA : forall e, P (OAppend e)) (HS : forall s, P (OSave s)).

Lemma records_emit ty d : steps (emits P) (emit (W:=W) ty d).
Proof using HA. emits_base. Qed.
Lemma records_save : steps (emits P) (save (W:=W)).
Proof using HS. emits_base. Qed.
Lemma records_transition s ty d : steps (emits P) (transition (W:=W) s ty d).
Proof using HA HS. emits_base. Qed.
End Recording.

Section Methods.
Context {W : Type} `{!Deps W} (P : obs -> Prop) (HQ : forall o, quiet o -> P o).

Lemma quiet_append e : P (OAppend e). Proof using HQ. by apply HQ. Qed.
Lemma quiet_save s : P (OSave s). Proof using HQ. by apply HQ. Qed.
Lemma quiet_model : P OModel. Proof using HQ. by apply HQ. Qed.
Lemma quiet_evaluate a env : P (OEvaluate a env). Proof using HQ. by apply HQ. Qed.
Hint Resolve quiet_append quiet_save quiet_model quiet_evaluate : core.

Lemma emits_emit ty d : steps (emits P) (emit (W:=W) ty d).
Proof using HQ. emits_base. Qed.
Lemma emits_save : steps (emits P) (save (W:=W)).
Proof using HQ. emits_base. Qed.
Lemma emits_transition s ty d : steps (emits P) (transition (W:=W) s ty d).
Proof using HQ. emits_base. Qed.
Lemma emits_check_cancel : steps (emits P) (check_cancel (W:=W)).
Proof using HQ. emits_base. Qed.
Lemma emits_check_budgets : steps (emits P) (check_budgets (W:=W)).
Proof using HQ. emits_base. Qed.
Lemma emits_spend f : steps (emits P) (spend (W:=W) f).
Proof using HQ. emits_base. Qed.
Hint Resolve emits_emit emits_save emits_transition emits_check_cancel emits_check_budgets
  emits_spend : steps.

Lemma emits_collect_findings acc i l : steps (emits P) (collect_findings (W:=W) acc i l).
Proof using HQ. revert acc i. induction l; intros acc i; simpl; emits_walk. Qed.
Lemma emits_evaluate_all env l : steps (emits P) (evaluate_all (W:=W) env l).
Proof using HQ. induction l; simpl; emits_walk. Qed.
Hint Resolve emits_collect_findings emits_evaluate_all : steps.

Lemma emits_start : steps (emits P) (start (W:=W)).
Proof using HQ. emits_walk. Qed.
Lemma emits_do_classify : steps (emits P) (do_classify (W:=W)).
Proof using HQ. emits_walk. Qed.
Lemma emits_do_plan : steps (emits P) (do_plan (W:=W)).
Proof using HQ. emits_walk. Qed.
Lemma emits_do_resources : steps (emits P) (do_resources (W:=W)).
Proof using HQ. emits_walk. Qed.
Lemma emits_do_correlate : steps (emits P) (do_correlate (W:=W)).
Proof using HQ. emits_walk. Qed.
Lemma emits_do_findings : steps (emits P) (do_findings (W:=W)).
Proof using HQ. emits_walk. Qed.
Lemma emits_do_propose : steps (emits P) (do_propose (W:=W)).
Proof using HQ. emits_walk. Qed.
Lemma emits_do_policy : steps (emits P) (do_policy (W:=W)).
Proof using HQ. emits_walk. Qed.
Lemma emits_do_approval_pause : steps (emits P) (do_approval_pause (W:=W)).
Proof using HQ. emits_walk. Qed.
Lemma emits_do_complete : steps (emits P) (do_complete (W:=W)).
Proof using HQ. emits_walk. Qed.

Lemma emits_attempts n tool args :
  P (OInvoke tool args) -> steps (emits P) (attempts (W:=W) n tool args).
Proof using HQ.
  intros Ht. induction n as [|n IH]; simpl; unfold spend_tool, attempt, invoke; emits_calls.
Qed.
Hint Resolve emits_attempts : steps.

Section Reads.
Context (HR : forall tool args spec, validate_tool_call tool args = Ok spec ->
                category spec = "read" -> P (OInvoke tool args)).

Lemma emits_mcp_read tool args : steps (emits P) (mcp_read (W:=W) tool args).
Proof using HQ HR.
  emits_calls. apply emits_attempts. eapply HR; [done|]. by apply String.eqb_eq.
Qed.
Hint Resolve emits_mcp_read : steps.
Lemma emits_do_mcp_reads : steps (emits P) (do_mcp_reads (W:=W)).
Proof using HQ HR. emits_walk. Qed.
Lemma emits_do_verify : steps (emits P) (do_verify (W:=W)).
Proof using HQ HR. emits_walk. Qed.
End Reads.

Section Delegation.
Context (HD : forall r, P (ODelegate r)).

Lemma emits_delegate : steps (emits P) (delegate (W:=W)).
Proof using HQ HD. unfold spend_delegation; emits_calls. Qed.
Hint Resolve emits_delegate : steps.
Lemma emits_do_delegate : steps (emits P) (do_delegate (W:=W)).
Proof using HQ HD. emits_walk. Qed.
End Delegation.

Section Execution.
Context (HX : forall tool args spec, validate_tool_call tool args = Ok spec ->
                category spec <> "destructive" -> P (OInvoke tool args)).

Lemma emits_do_execute : steps (emits P) (do_execute (W:=W)).
Proof using HQ HX.
  emits_walk. unfold invoke. apply emits_call. constructor; [|constructor].
  eapply HX; [done|]. by apply String.eqb_neq.
Qed.
End Execution.

Section Handling.
Context (HC : forall id, P (OCancelTask id)).

Lemma emits_handle e : steps (emits P) (handle (W:=W) e).
Proof using HQ HC. destruct e; simpl; emits_walk. Qed.
End Handling.
End Methods.
