(* ===== verification/GraphFlow.v ===== *)
(** * Control flow of the graph

    Where each step leads, the termination of the driver, and the calls a run
    may make before and after the approval gate. *)

From stdpp Require Import base list strings pretty sets.
From Stdlib Require Import ZArith Lia Ascii.
From S2P Require Import Prelude.
From S2P Require Import PyFloat.
From S2P Require Import PyValue.
From S2P Require Import PyTime.
From S2P Require Import Contracts.
From S2P Require Import ContractsRun.
From S2P Require Import ContractsOps.
From S2P Require Import RunState.
From S2P Require Import GraphTools.
From S2P Require Import Graph.
From S2P Require Import GraphSteps.
From S2P Require Import GraphLemmas.
Import GraphTools Graph Steps.

Local Open Scope py_scope.

(** ** Postconditions of normal returns *)

Section Ends.
Context {W : Type}.

Definition ends {A} (Q : A -> G W -> Prop) (m : M (G W) A) : Prop :=
  forall g, wp m Q (fun _ _ => True) g.

Lemma ends_bind {A B} Q (m : M (G W) A) (f : A -> M (G W) B) :
  (forall a, ends Q (f a)) -> ends Q (bind m f).
Proof. intros H g. rewrite wp_bind. unfold wp. destruct (m g) as [g' [a|e]]; [apply H|done]. Qed.
Lemma ends_bind_with {A B} (P : A -> G W -> Prop) Q (m : M (G W) A) (f : A -> M (G W) B) :
  ends P m -> (forall a g, P a g -> wp (f a) Q (fun _ _ => True) g) -> ends Q (bind m f).
Proof. intros Hm Hf g. rewrite wp_bind. eapply wp_mono; [apply Hm|apply Hf|done]. Qed.
Lemma ends_mono {A} (P Q : A -> G W -> Prop) m :
  (forall a g, P a g -> Q a g) -> ends P m -> ends Q m.
Proof. intros H Hm g. eapply wp_mono; [apply Hm|apply H|done]. Qed.
Lemma ends_ret {A} (Q : A -> G W -> Prop) a : (forall g, Q a g) -> ends Q (ret a).
Proof. intros H g. apply H. Qed.
Lemma ends_raise {A} (Q : A -> G W -> Prop) e : ends Q (raise e).
Proof. done. Qed.
Lemma ends_if {A} (Q : A -> G W -> Prop) (b : bool) m1 m2 :
  ends Q m1 -> ends Q m2 -> ends Q (if b then m1 else m2).
Proof. by destruct b. Qed.

Lemma wp_steps {A} (R : G W -> G W -> Prop) (m : M (G W) A) g :
  steps R m -> wp m (fun _ => R g) (fun _ => R g) g.
Proof. intros H. specialize (H g). unfold wp. by destruct (m g) as [g' []]. Qed.
Lemma wp_true {A} (m : M (G W) A) g : wp m (fun _ _ => True) (fun _ _ => True) g.
Proof. unfold wp. by destruct (m g) as [g' []]. Qed.
End Ends.

Lemma wp_upd {W} f Q E (g : G W) :
  wp (upd f) Q E g <-> Q tt (mkG (f (st g)) (breaker g) (world g) (trace g)).
Proof. done. Qed.

(** ** Projections of the run state that a method keeps *)

Section Keeps.
Context {W : Type} `{!Deps W} {A : Type} (f : RunState -> A).

Definition keeps (g g' : G W) : Prop := f (st g') = f (st g).
#[global] Instance keeps_preorder : PreOrder keeps.
Proof. split; [done|]. unfold keeps. intros g1 g2 g3 H1 H2. by rewrite H2. Qed.

Lemma keeps_call {B} o (m : M W B) : steps keeps (call o m).
Proof. intros g. unfold call. by destruct (m (world g)). Qed.
Lemma keeps_breaker h : steps keeps (upd_breaker (W:=W) h).
Proof. by intros g. Qed.
Lemma keeps_upd h : (forall s, f (h s) = f s) -> steps keeps (upd (W:=W) h).
Proof. intros H g. apply H. Qed.
Lemma keeps_check_cancel :
  (forall s, f (set_cancelled true s) = f s) -> steps keeps (check_cancel (W:=W)).
Proof.
  intros H. unfold check_cancel. steps_walk idtac.
  intros g. simpl. destruct (cancel_signal (world g)); [apply H|done].
Qed.
Lemma keeps_check_budgets : steps keeps (check_budgets (W:=W)).
Proof. unfold check_budgets, exceeded. steps_walk ltac:(apply keeps_call). Qed.
Lemma keeps_save : steps keeps (save (W:=W)).
Proof. unfold save. steps_walk ltac:(apply keeps_call). Qed.
Lemma keeps_emit ty d :
  (forall v s, f (set_event_sequence v s) = f s) -> steps keeps (emit (W:=W) ty d).
Proof.
  intros H. unfold emit, emit_as.
  steps_walk ltac:(first [apply keeps_call | apply keeps_upd; intros; apply H]).
Qed.
End Keeps.

(** Two relations at once. *)
Definition both {S} (R1 R2 : S -> S -> Prop) (x y : S) : Prop := R1 x y /\ R2 x y.
#[export] Instance both_preorder {S} (R1 R2 : S -> S -> Prop) :
  PreOrder R1 -> PreOrder R2 -> PreOrder (both R1 R2).
Proof.
  intros H1 H2. split; [by intros x; split|].
  intros x y z [] []. by split; etransitivity.
Qed.

(** What the first part is known to return is known to the continuation. *)
Lemma steps_bind_ends {W A B} (R : G W -> G W -> Prop) `{!PreOrder R} (P : A -> Prop)
    (m : M (G W) A) (f : A -> M (G W) B) :
  steps R m -> ends (fun a _ => P a) m -> (forall a, P a -> steps R (f a)) ->
  steps R (bind m f).
Proof.
  intros Hm He Hf g. specialize (Hm g). specialize (He g). unfold bind, wp in *.
  destruct (m g) as [g' [a|e]]; simpl in *; [|done].
  etransitivity; [exact Hm|by apply Hf].
Qed.

(** ** Where a step leads *)

Definition successor (cur : string) : option string :=
  dget cur [("classify", "plan"); ("plan", "resources"); ("resources", "mcp_reads");
            ("mcp_reads", "a2a_delegate"); ("a2a_delegate", "correlate");
            ("correlate", "findings"); ("findings", "propose"); ("propose", "policy");
            ("policy", "approval_pause"); ("execute_approved", "verify");
            ("verify", "complete")].

Section Flow.
Context {W : Type} `{!Deps W}.
Implicit Types (g : G W).

Definition at_state (cur : string) {A} (_ : A) (g : G W) : Prop := current_state (st g) = cur.
Definition goes_to (cur : string) (b : bool) (g : G W) : Prop :=
  b = false -> current_state (st g) = cur.

Lemma ends_move next ty d :
  ends (at_state next) (upd (W:=W) (set_current_state next) ;;* emit ty d ;;* save).
Proof.
  intros g. rewrite wp_bind, wp_upd, wp_bind.
  eapply wp_mono; [apply (wp_steps (keeps current_state)), keeps_emit; done| |done].
  intros [] g1 H1. eapply wp_mono; [apply (wp_steps (keeps current_state)), keeps_save| |done].
  intros [] g2 H2. unfold at_state. by rewrite H2, H1.
Qed.

Lemma ends_transition next ty d : ends (at_state next) (transition (W:=W) next ty d).
Proof. apply ends_move. Qed.

Lemma ends_move_save h next {B} (b : B) :
  (forall s, current_state (h s) = next) ->
  ends (at_state next) (upd (W:=W) h ;;* save ;;* ret b).
Proof.
  intros H g. rewrite wp_bind, wp_upd, wp_bind.
  eapply wp_mono; [apply (wp_steps (keeps current_state)), keeps_save| |done].
  intros [] g1 H1. rewrite wp_ret. unfold at_state. rewrite H1. apply H.
Qed.

Lemma ends_goes {A} next (m : M (G W) A) :
  ends (at_state next) m -> ends (goes_to next) (m ;;* ret false).
Proof. intros H. eapply ends_bind_with; [exact H|]. intros a g Hg _. exact Hg. Qed.

Lemma ends_stop {A} next (m : M (G W) A) : ends (goes_to next) (m ;;* ret true).
Proof. apply ends_bind. intros a. by apply ends_ret. Qed.
End Flow.

Ltac ends_walk :=
  repeat (cbv beta zeta; lazymatch goal with
    | |- ends _ (transition _ _ _) => apply ends_transition
    | |- ends _ (raise _) => apply ends_raise
    | |- ends _ (if _ then _ else _) => apply ends_if
    | |- ends (goes_to _) (bind _ (fun _ => ret true)) => apply ends_stop
    | |- ends (goes_to _) (bind _ (fun _ => ret false)) => apply ends_goes
    | |- ends _ (bind _ _) => apply ends_bind; intros ?
    end).

Section Successor.
Context {W : Type} `{!Deps W}.

Lemma ends_at {A} (Q : A -> G W -> Prop) m g : ends Q m -> wp m Q (fun _ _ => True) g.
Proof. intros H. apply H. Qed.

Lemma ends_do_classify : ends (goes_to "plan") (do_classify (W:=W)).
Proof.
  unfold do_classify. do 4 (apply ends_bind; intros ?).
  eapply ends_bind_with; [apply ends_transition|]. intros [] g Hg.
  case_match; [|by intros _]. apply ends_at. cbv zeta. do 4 (apply ends_bind; intros ?).
  ends_walk.
Qed.
Lemma ends_do_findings : ends (goes_to "propose") (do_findings (W:=W)).
Proof.
  unfold do_findings. do 7 (apply ends_bind; intros ?). apply ends_if.
  - do 4 (apply ends_bind; intros ?). ends_walk.
  - eapply (ends_mono (at_state "propose")); [by intros b g H _|]. by apply ends_move_save.
Qed.
Lemma ends_do_policy : ends (goes_to "approval_pause") (do_policy (W:=W)).
Proof.
  unfold do_policy. do 4 (apply ends_bind; intros ?). cbv zeta. apply ends_if.
  - do 2 (apply ends_bind; intros ?). ends_walk.
  - eapply (ends_mono (at_state "approval_pause")); [by intros b g H _|]. by apply ends_move_save.
Qed.
Lemma ends_do_plan : ends (at_state "resources") (do_plan (W:=W)).
Proof. unfold do_plan. ends_walk. Qed.
Lemma ends_do_resources : ends (at_state "mcp_reads") (do_resources (W:=W)).
Proof. unfold do_resources. ends_walk. Qed.
Lemma ends_do_mcp_reads : ends (at_state "a2a_delegate") (do_mcp_reads (W:=W)).
Proof. unfold do_mcp_reads. ends_walk. Qed.
Lemma ends_do_delegate : ends (at_state "correlate") (do_delegate (W:=W)).
Proof. unfold do_delegate. ends_walk. Qed.
Lemma ends_do_correlate : ends (at_state "findings") (do_correlate (W:=W)).
Proof. unfold do_correlate. cbv zeta. do 10 (apply ends_bind; intros ?). apply ends_move. Qed.
Lemma ends_do_propose : ends (at_state "policy") (do_propose (W:=W)).
Proof. unfold do_propose. ends_walk. Qed.
Lemma ends_do_execute : ends (at_state "verify") (do_execute (W:=W)).
Proof.
  unfold do_execute. do 4 (apply ends_bind; intros ?). intros g.
  rewrite wp_bind, wp_upd.
  eapply wp_mono; [apply (wp_steps (keeps current_state)), keeps_save| |done].
  intros [] g' H. unfold at_state. by rewrite H.
Qed.
Lemma ends_do_verify : ends (at_state "complete") (do_verify (W:=W)).
Proof. unfold do_verify. ends_walk. Qed.

Lemma ends_to next cur (m : M (G W) bool) :
  successor cur = Some next -> ends (goes_to next) m ->
  ends (fun b g => b = false -> successor cur = Some (current_state (st g))) m.
Proof. intros E. apply ends_mono. intros b g H Hb. by rewrite E, (H Hb). Qed.
Lemma ends_to_go next cur (m : M (G W) unit) :
  successor cur = Some next -> ends (at_state next) m ->
  ends (fun b g => b = false -> successor cur = Some (current_state (st g))) (m ;;* ret false).
Proof. intros E H. eapply ends_to, ends_goes; done. Qed.

(** Every step that does not stop the driver moves to the successor. *)
Lemma ends_dispatch cur :
  ends (fun b g => b = false -> successor cur = Some (current_state (st g)))
    (dispatch (W:=W) cur).
Proof.
  unfold dispatch. cbv zeta.
  repeat match goal with
    |- ends _ (if String.eqb cur ?c then _ else _) => destruct (String.eqb_spec cur c) as [->|?]
  end.
  - by eapply ends_to, ends_do_classify.
  - by eapply ends_to_go, ends_do_plan.
  - by eapply ends_to_go, ends_do_resources.
  - by eapply ends_to_go, ends_do_mcp_reads.
  - by eapply ends_to_go, ends_do_delegate.
  - by eapply ends_to_go, ends_do_correlate.
  - by eapply ends_to, ends_do_findings.
  - by eapply ends_to_go, ends_do_propose.
  - by eapply ends_to, ends_do_policy.
  - apply ends_bind. intros _. by apply ends_ret.
  - by eapply ends_to_go, ends_do_execute.
  - by eapply ends_to_go, ends_do_verify.
  - apply ends_bind. intros _. by apply ends_ret.
  - apply ends_raise.
Qed.
End Successor.

(** ** Termination of the driver *)

(** Steps still possible from a state, itself included. *)
Definition remaining (cur : string) : nat :=
  default 0 (dget cur (imap (fun i c => (c, 13 - i)) STATES)).

Lemma dget_in {A} k (d : list (string * A)) v : dget k d = Some v -> (k, v) ∈ d.
Proof.
  induction d as [|[k' v'] d IH]; simpl; [done|].
  destruct (String.eqb_spec k k') as [->|]; [intros [= ->]; left|right; auto].
Qed.

Lemma successor_remaining cur next : successor cur = Some next -> remaining next < remaining cur.
Proof.
  intros H%dget_in. repeat (apply elem_of_cons in H as [[= -> ->]|H]; [vm_compute; lia|]).
  by apply elem_of_nil in H.
Qed.

Lemma remaining_bound cur : remaining cur < run_fuel.
Proof.
  unfold remaining. destruct (dget cur _) as [n|] eqn:E; simpl; [|unfold run_fuel; lia].
  apply dget_in in E. repeat (apply elem_of_cons in E as [[= -> ->]|E]; [vm_compute; lia|]).
  by apply elem_of_nil in E.
Qed.

Section Driver.
Context {W : Type} `{!Deps W}.
Implicit Types (g : G W).

(** A check that passes changes nothing but the world (it reads the clock). *)
Definition same_state g g' : Prop :=
  st g' = st g /\ breaker g' = breaker g /\ trace g' = trace g.

Lemma wp_check_cancel g :
  wp (check_cancel (W:=W)) (fun _ g' => g' = g /\ cancelled (st g) = false)
    (fun e g' => e = RunCancelledError "run was cancelled" /\ trace g' = trace g) g.
Proof.
  unfold check_cancel. rewrite wp_bind, wp_modify, wp_bind. unfold get_st. rewrite wp_gets.
  destruct (cancel_signal (world g)) eqn:E; simpl; [by rewrite wp_raise|].
  destruct (cancelled (st g)) eqn:E'; simpl; [by rewrite wp_raise|by rewrite wp_ret].
Qed.

Lemma wp_check_budgets g :
  wp (check_budgets (W:=W))
    (fun _ g' => same_state g g' /\ over_budget (limits (st g)) (usage (st g)) = None)
    (fun _ g' => same_state g g') g.
Proof.
  unfold check_budgets, exceeded. rewrite wp_bind. unfold get_st. rewrite wp_gets.
  destruct (over_budget _ _) as [[b msg]|] eqn:E; [by rewrite wp_raise|].
  rewrite wp_bind. unfold call, wp at 1. destruct (clock_now (world g)) as [w [now|e]]; simpl.
  - case_match; [rewrite wp_raise|rewrite wp_ret]; unfold same_state; simpl; by rewrite app_nil_r.
  - unfold same_state; simpl. by rewrite app_nil_r.
Qed.

Lemma wp_step (Q : bool -> G W -> Prop) E g :
  (forall g', same_state g g' -> cancelled (st g) = false ->
     over_budget (limits (st g)) (usage (st g)) = None ->
     wp (dispatch (current_state (st g))) Q E g') ->
  (forall e g', trace g' = trace g -> E e g') ->
  wp (step (W:=W)) Q E g.
Proof.
  intros HQ HE. unfold step. rewrite wp_bind.
  eapply wp_mono; [apply wp_check_cancel| |intros e g' [_ H]; by apply HE].
  intros _ g1 [-> Hc]. rewrite wp_bind.
  eapply wp_mono; [apply wp_check_budgets| |intros e g' (_ & _ & H); by apply HE].
  intros _ g2 [Hs Hb]. rewrite wp_bind. unfold get_st. rewrite wp_gets.
  pose proof Hs as (-> & _). by apply HQ.
Qed.

Lemma step_next g g' :
  step g = (g', Ok false) -> successor (current_state (st g)) = Some (current_state (st g')).
Proof.
  intros E.
  assert (wp step (fun b g' => b = false ->
            successor (current_state (st g)) = Some (current_state (st g')))
            (fun _ _ => True) g) as H.
  { apply wp_step; [|done]. intros g1 _ _ _. apply ends_dispatch. }
  unfold wp in H. rewrite E in H. by apply H.
Qed.

Lemma loop_returns n g : remaining (current_state (st g)) < n -> (loop n g).2 <> Ok None.
Proof.
  revert g. induction n as [|n IH]; intros g Hr; [lia|]. simpl. unfold bind.
  destruct (step g) as [g' [[]|e]] eqn:E; [done| |done].
  apply IH. apply step_next, successor_remaining in E. lia.
Qed.

Lemma loop_fuel n m g :
  remaining (current_state (st g)) < n -> n <= m -> loop m g = loop n g.
Proof.
  revert m g. induction n as [|n IH]; intros m g Hr Hm; [lia|].
  destruct m as [|m]; [lia|]. simpl. unfold bind.
  destruct (step g) as [g' [[]|e]] eqn:E; [done| |done].
  apply IH; [|lia]. apply step_next, successor_remaining in E. lia.
Qed.

(** The calls of the driver from a set of states closed under [successor]. *)
Lemma loop_emits (P : obs -> Prop) (C : string -> Prop) n g :
  (forall o, quiet o -> P o) ->
  (forall cur, C cur -> steps (emits P) (dispatch (W:=W) cur)) ->
  (forall cur next, C cur -> successor cur = Some next -> C next) ->
  C (current_state (st g)) -> emits P g (loop n g).1.
Proof.
  intros HP Hd Hs. revert g. induction n as [|n IH]; intros g Hg; [simpl; reflexivity|].
  assert (emits P g (step g).1) as Hstep.
  { assert (wp step (fun _ => emits P g) (fun _ => emits P g) g) as H.
    { assert (forall g', trace g' = trace g -> emits P g g') as Hsame.
      { intros g' E. exists []. rewrite app_nil_r. by split. }
      apply wp_step; [|intros; by apply Hsame].
      intros g1 (_ & _ & H1) _ _.
      eapply wp_mono; [apply (wp_steps (emits P)), Hd, Hg| |];
        intros ? g2 H2; (etransitivity; [by apply Hsame|done]). }
    unfold wp in H. by destruct (step g) as [g' []]. }
  simpl. unfold bind. destruct (step g) as [g' [[]|e]] eqn:E; simpl in *; [done| |done].
  etransitivity; [done|]. apply IH. eapply Hs; [done|]. by apply step_next.
Qed.

Lemma start_state g g' :
  start g = (g', Ok tt) ->
  (status (st g) = "created" /\ current_state (st g') = "classify")
  \/ (status (st g) <> "created" /\ g' = g).
Proof.
  unfold start, bind, get_st, gets. intros H.
  destruct (String.eqb_spec (status (st g)) "created") as [E|E].
  - left. split; [done|].
    pose proof (ends_transition (W:=W) "classify" EventType.RUN_STARTED
      [("objective", VStr (objective (st g)))]) as Ht.
    specialize (Ht (mkG (set_status "running" (st g)) (breaker g) (world g) (trace g))).
    unfold wp in Ht. simpl in H. unfold upd, modify in H. simpl in H. by rewrite H in Ht.
  - right. split; [done|]. unfold ret in H. congruence.
Qed.

End Driver.
