(* ===== verification/GraphGate.v ===== *)
(** * Termination and the approval gate

    The driver always returns; before an approval a run only reads; after a
    rejection it does nothing; after an approval it executes nothing but the
    approved, validated, non-destructive actions, each at most once. *)

From stdpp Require Import base list strings pretty sets.
From Stdlib Require Import ZArith Lia Ascii.
From S2P Require Import Prelude.
From S2P Require Import PyFloat.
From S2P Require Import PyValue.
From S2P Require Import PyTime.
From S2P Require Import Contracts.
From S2P Require Import ContractsRun.
From S2P Require Import ContractsOps.
From S2P Require Import Catalog.
From S2P Require Import RunState.
From S2P Require Import GraphTools.
From S2P Require Import Graph.
From S2P Require Import GraphSteps.
From S2P Require Import GraphFakes.
From S2P Require Import GraphLemmas.
From S2P Require Import GraphFlow.
Import GraphTools Graph Steps.

Local Open Scope py_scope.

(** ** Read-only calls *)

(** The tool is registered as a read without side effect. *)
Definition read_tool (tool : string) : Prop :=
  exists spec, dget tool TOOL_REGISTRY = Some spec /\ category spec = "read"
               /\ side_effect spec = "none".

Definition read_only (o : obs) : Prop :=
  match o with OInvoke tool _ => read_tool tool | _ => True end.

(** Nothing but events and saves. *)
Definition record_only (o : obs) : Prop :=
  match o with OAppend _ | OSave _ => True | _ => False end.

Lemma quiet_read_only o : quiet o -> read_only o.
Proof. by destruct o. Qed.

Lemma validate_registered tool args spec :
  validate_tool_call tool args = Ok spec -> dget tool TOOL_REGISTRY = Some spec.
Proof.
  unfold validate_tool_call. intros H. repeat (case_match; try done); congruence.
Qed.

Lemma registry_read tool spec :
  dget tool TOOL_REGISTRY = Some spec -> category spec = "read" -> side_effect spec = "none".
Proof.
  intros H%dget_in Hc. vm_compute in H.
  repeat (apply elem_of_cons in H as [[= -> ->]|H]; [done|]). by apply elem_of_nil in H.
Qed.

Lemma read_only_invoke tool args spec :
  validate_tool_call tool args = Ok spec -> category spec = "read" -> read_only (OInvoke tool args).
Proof.
  intros H%validate_registered Hc. exists spec. eauto using registry_read.
Qed.

Section ReadOnly.
Context {W : Type} `{!Deps W}.
Implicit Types (g : G W).

(** The states before the approval gate, and those after execution. *)
Definition before_gate (cur : string) : Prop :=
  existsb (String.eqb cur) (take 10 STATES) = true.
Definition after_execution (cur : string) : Prop := cur = "verify" \/ cur = "complete".

Lemma before_gate_next cur next :
  before_gate cur -> successor cur = Some next -> before_gate next.
Proof.
  unfold before_gate. intros Hc Hs%dget_in. vm_compute in Hs.
  repeat (apply elem_of_cons in Hs as [[= -> ->]|Hs]; [done|]).
  by apply elem_of_nil in Hs.
Qed.

Lemma after_execution_next cur next :
  after_execution cur -> successor cur = Some next -> after_execution next.
Proof. intros [-> | ->] [= <-]. by right. Qed.

Lemma go {P} (m : M (G W) unit) (b : bool) :
  steps (emits P) m -> steps (emits P) (m ;;* ret b).
Proof. intros H. apply steps_bind; [tc_solve|done|]. intros _. apply steps_ret; tc_solve. Qed.

Lemma reads_dispatch (P : obs -> Prop) cur
    (HQ : forall o, quiet o -> P o) (HD : forall r, P (ODelegate r))
    (HR : forall tool args spec, validate_tool_call tool args = Ok spec ->
            category spec = "read" -> P (OInvoke tool args)) :
  cur <> "execute_approved" -> steps (emits P) (dispatch (W:=W) cur).
Proof.
  intros Hne.
  unfold dispatch. cbv zeta.
  repeat match goal with
    |- steps _ (if String.eqb cur ?c then _ else _) => destruct (String.eqb_spec cur c) as [->|?]
  end; try done.
  - by apply emits_do_classify.
  - apply go, emits_do_plan, HQ.
  - apply go, emits_do_resources, HQ.
  - by apply go, emits_do_mcp_reads.
  - by apply go, emits_do_delegate.
  - apply go, emits_do_correlate, HQ.
  - by apply emits_do_findings.
  - apply go, emits_do_propose, HQ.
  - by apply emits_do_policy.
  - apply go, emits_do_approval_pause, HQ.
  - by apply go, emits_do_verify.
  - apply go, emits_do_complete, HQ.
  - apply steps_raise; tc_solve.
Qed.

Lemma read_only_dispatch cur :
  cur <> "execute_approved" -> steps (emits read_only) (dispatch (W:=W) cur).
Proof. apply reads_dispatch; [apply quiet_read_only|done|apply read_only_invoke]. Qed.

Lemma read_only_loop (C : string -> Prop) n g :
  (forall cur, C cur -> cur <> "execute_approved") ->
  (forall cur next, C cur -> successor cur = Some next -> C next) ->
  C (current_state (st g)) -> emits read_only g (loop n g).1.
Proof.
  intros Hne Hs. apply loop_emits; [apply quiet_read_only| |done].
  intros cur Hc. by apply read_only_dispatch, Hne.
Qed.

Lemma emits_guarded (P : obs -> Prop) (m : M (G W) (option unit)) g :
  (forall o, quiet o -> P o) -> (forall id, P (OCancelTask id)) ->
  emits P g (m g).1 -> emits P g (try_catch m (fun e => handle e ;;* ret (Some tt)) g).1.
Proof.
  intros HQ HC H. unfold try_catch. destruct (m g) as [g' [a|e]]; simpl in *; [done|].
  etransitivity; [exact H|]. apply steps_bind; [tc_solve|by apply emits_handle|].
  intros _. apply steps_ret; tc_solve.
Qed.

(** Before the approval gate. *)
Lemma run_reads n g :
  status (st g) = "created" \/ before_gate (current_state (st g)) ->
  emits read_only g (run n g).1.
Proof.
  intros Hg. unfold run. unfold bind at 1.
  pose proof (emits_start read_only quiet_read_only g) as Hs.
  destruct (start g) as [g1 [[]|e]] eqn:E; simpl in *; [|done].
  etransitivity; [exact Hs|]. apply emits_guarded; [apply quiet_read_only|done|].
  apply (read_only_loop before_gate).
  - by intros cur Hc ->.
  - apply before_gate_next.
  - apply start_state in E as [[_ ->]|[Hne ->]].
    + done.
    + by destruct Hg.
Qed.
End ReadOnly.

(** ** Execution of approved actions *)

(** The tool is registered and not a read. *)
Definition is_read (tool : string) : bool :=
  match dget tool TOOL_REGISTRY with
  | Some spec => String.eqb (category spec) "read"
  | None => false
  end.

(** The invocations of other tools than reads, in order. *)
Definition write_calls (l : list obs) : list (string * dict) :=
  omap (fun o => match o with
                 | OInvoke tool args => if is_read tool then None else Some (tool, args)
                 | _ => None
                 end) l.

(** The call an action stands for when its id is among [approved]. *)
Definition action_call (approved : list string) (action : dict) : list (string * dict) :=
  match str_item "action_id" action, dict_item "tool_name" action, action_input action with
  | Ok id, Ok tool, Ok input =>
      if existsb (String.eqb id) approved then [(py_str tool, input)] else []
  | _, _, _ => []
  end.

(** What may be invoked at all: registered, validated, not destructive. *)
Definition safe_call (o : obs) : Prop :=
  match o with
  | OInvoke tool args =>
      exists spec, validate_tool_call tool args = Ok spec /\ category spec <> "destructive"
  | _ => True
  end.

Lemma read_only_writes l : Forall read_only l -> write_calls l = [].
Proof.
  induction 1 as [|o l Ho _ IH]; [done|]. destruct o; simpl in *; try done.
  destruct Ho as (spec & Hs & Hc & _). unfold is_read. by rewrite Hs, Hc.
Qed.

Section Execution.
Context {W : Type} `{!Deps W}.
Implicit Types (g : G W).

(** [m] makes at most the write calls [l], in that order. *)
Definition writes_within {A} (l : list (string * dict)) (m : M (G W) A) : Prop :=
  forall g, exists ext, trace (m g).1 = trace g ++ ext /\ write_calls ext `sublist_of` l.

Lemma within_quiet {A} (m : M (G W) A) : steps (emits read_only) m -> writes_within [] m.
Proof.
  intros H g. destruct (H g) as (ext & E & HF). exists ext. split; [done|].
  by rewrite read_only_writes.
Qed.
Lemma within_mono {A} l l' (m : M (G W) A) :
  l `sublist_of` l' -> writes_within l m -> writes_within l' m.
Proof. intros Hl H g. destruct (H g) as (ext & E & Hs). exists ext. split; [done|by etransitivity]. Qed.
Lemma within_bind {A B} l1 l2 (m : M (G W) A) (f : A -> M (G W) B) :
  writes_within l1 m -> (forall a, writes_within l2 (f a)) -> writes_within (l1 ++ l2) (bind m f).
Proof.
  intros Hm Hf g. destruct (Hm g) as (e1 & E1 & H1). unfold bind.
  destruct (m g) as [g' [a|e]]; simpl in *.
  - destruct (Hf a g') as (e2 & E2 & H2). exists (e1 ++ e2).
    split; [by rewrite E2, E1, app_assoc|]. unfold write_calls. rewrite omap_app.
    by apply sublist_app.
  - exists e1. split; [done|]. by apply sublist_inserts_r.
Qed.
Lemma within_try {A} l (m : M (G W) A) h :
  writes_within l m -> (forall e, writes_within [] (h e)) -> writes_within l (try_catch m h).
Proof.
  intros Hm Hh g. destruct (Hm g) as (e1 & E1 & H1). unfold try_catch.
  destruct (m g) as [g' [a|e]]; simpl in *; [by exists e1|].
  destruct (Hh e g') as (e2 & E2 & H2). exists (e1 ++ e2).
  split; [by rewrite E2, E1, app_assoc|]. unfold write_calls. rewrite omap_app.
  rewrite <- (app_nil_r l). by apply sublist_app.
Qed.
Lemma within_pre {A B} l (m : M (G W) A) (f : A -> M (G W) B) :
  steps (emits read_only) m -> (forall a, writes_within l (f a)) -> writes_within l (bind m f).
Proof. intros Hm Hf. apply (within_bind [] l); [by apply within_quiet|done]. Qed.
Lemma within_post {A B} l (m : M (G W) A) (f : A -> M (G W) B) :
  writes_within l m -> (forall a, steps (emits read_only) (f a)) -> writes_within l (bind m f).
Proof.
  intros Hm Hf. rewrite <- (app_nil_r l).
  apply within_bind; [done|]. intros a. by apply within_quiet.
Qed.
(** A check that must pass: what it yields is known to the continuation. *)
Lemma within_lift {A B} l (r : result A) (f : A -> M (G W) B) :
  (forall a, r = Ok a -> writes_within l (f a)) -> writes_within l (bind (lift_result r) f).
Proof.
  intros H g. unfold bind, lift_result. destruct r as [a|e]; [by apply H|].
  exists []. rewrite app_nil_r. split; [done|]. apply sublist_nil_l.
Qed.
Lemma within_for_each {A} (calls : A -> list (string * dict)) l (body : A -> M (G W) unit) :
  (forall x, writes_within (calls x) (body x)) ->
  writes_within (flat_map calls l) (for_each l body).
Proof.
  intros H. induction l as [|x l IH]; simpl.
  - apply within_quiet, steps_ret; tc_solve.
  - apply within_bind; [done|]. by intros _.
Qed.

Lemma within_invoke tool args : writes_within [(tool, args)] (invoke (W:=W) tool args).
Proof.
  intros g. unfold invoke, call. destruct (mcp_invoke _ _ _ (world g)) as [w r].
  eexists. split; [done|]. simpl. unfold write_calls. simpl. destruct (is_read tool); simpl.
  - apply sublist_nil_l.
  - done.
Qed.

Lemma within_run_action tool id input :
  writes_within [(tool, input)] (run_action (W:=W) tool id input).
Proof.
  unfold run_action. apply within_try.
  - apply within_post; [apply within_invoke|]. intros out.
    apply steps_bind; [tc_solve|apply steps_lift; tc_solve|].
    intros d. apply emits_emit, quiet_read_only.
  - intros e. apply within_quiet. apply steps_bind; [tc_solve|apply emits_emit, quiet_read_only|].
    intros _. apply emits_upd.
Qed.

Lemma within_execute_one approved action :
  writes_within (action_call approved action) (execute_one (W:=W) approved action).
Proof.
  unfold execute_one, action_call. apply within_lift. intros id ->.
  destruct (existsb _ approved) eqn:Ea; cbn [negb].
  2: { eapply within_mono; [apply sublist_nil_l|]. apply within_quiet, steps_ret; tc_solve. }
  apply within_lift. intros tool ->. apply within_lift. intros input ->. cbv zeta.
  apply within_lift. intros spec _.
  apply within_pre; [destruct (String.eqb _ _); [apply steps_raise|apply steps_ret]; tc_solve|].
  intros _. apply within_pre; [apply emits_check_cancel, quiet_read_only|].
  intros _. apply within_pre; [apply emits_spend, quiet_read_only|].
  intros _. apply within_pre; [apply emits_emit, quiet_read_only|].
  intros _. apply within_run_action.
Qed.

(** The calls a state's approvals and proposals allow. *)
Definition approved_calls (s : RunState) : list (string * dict) :=
  match approved_ids s with
  | Ok approved => flat_map (action_call approved) (proposed_actions s)
  | Exn _ => []
  end.

Lemma within_do_execute g :
  exists ext, trace (do_execute g).1 = trace g ++ ext
    /\ write_calls ext `sublist_of` approved_calls (st g).
Proof.
  unfold do_execute, approved_calls. unfold bind at 1, get_st, gets.
  revert g. enough (forall s, writes_within
    match approved_ids s with
    | Ok approved => flat_map (action_call approved) (proposed_actions s)
    | Exn _ => []
    end
    (let* approved := lift_result (approved_ids s) in
     (if is_nonempty (proposed_actions s) && negb (is_nonempty approved)
      then raise (RuntimeError "execute_approved without any approved approval row")
      else ret tt) ;;*
     for_each (proposed_actions s) (execute_one approved) ;;*
     upd (W:=W) (fun s => set_status "running" (set_current_state "verify" s)) ;;*
     save)) as H by (intros g; apply H).
  intros s. apply within_lift. intros approved ->.
  apply within_pre; [case_match; [apply steps_raise|apply steps_ret]; tc_solve|]. intros _.
  apply within_post; [apply within_for_each, within_execute_one|].
  intros _. apply steps_bind; [tc_solve|apply emits_upd|].
  intros _. apply emits_save, quiet_read_only.
Qed.
End Execution.

Section Resume.
Context {W : Type} `{!Deps W}.
Implicit Types (g : G W).

Definition extends (Q : list obs -> Prop) g g' : Prop :=
  exists ext, trace g' = trace g ++ ext /\ Q ext.
Definition writes_in (l : list (string * dict)) (ext : list obs) : Prop :=
  write_calls ext `sublist_of` l.

Lemma extends_same Q g g' : Q [] -> trace g' = trace g -> extends Q g g'.
Proof. intros HQ E. exists []. by rewrite app_nil_r. Qed.
Lemma extends_writes l g g1 g2 :
  extends (writes_in l) g g1 -> emits read_only g1 g2 -> extends (writes_in l) g g2.
Proof.
  intros (e1 & E1 & H1) (e2 & E2 & H2). exists (e1 ++ e2).
  split; [by rewrite E2, E1, app_assoc|]. unfold writes_in, write_calls in *.
  rewrite omap_app. fold (write_calls e2). rewrite (read_only_writes e2 H2).
  by rewrite app_nil_r.
Qed.
Lemma extends_after l g g1 g2 :
  emits read_only g g1 -> extends (writes_in l) g1 g2 -> extends (writes_in l) g g2.
Proof.
  intros (e1 & E1 & H1) (e2 & E2 & H2). exists (e1 ++ e2).
  split; [by rewrite E2, E1, app_assoc|]. unfold writes_in, write_calls in *.
  rewrite omap_app. fold (write_calls e1). by rewrite (read_only_writes e1 H1).
Qed.

Lemma loop_execute n g :
  current_state (st g) = "execute_approved" ->
  extends (writes_in (approved_calls (st g))) g (loop n g).1.
Proof.
  intros Hcur. set (R := extends (writes_in (approved_calls (st g))) g).
  destruct n as [|n]; [by apply extends_same; [apply sublist_nil_l|]|].
  assert (wp step (fun _ => R) (fun _ => R) g) as Hstep.
  { apply wp_step; [|by intros e g' E; apply extends_same; [apply sublist_nil_l|]].
    intros g1 (Est & _ & Etr) _ _. rewrite Hcur.
    change (wp (do_execute ;;* ret false) (fun _ => R) (fun _ => R) g1).
    destruct (within_do_execute g1) as (ext & E & Hw). rewrite Est in Hw.
    assert (R (do_execute g1).1) as HR by (exists ext; by rewrite E, Etr).
    rewrite wp_bind. unfold wp. by destruct (do_execute g1) as [g2 []]. }
  simpl. unfold bind. unfold wp in Hstep.
  destruct (step g) as [g' [[]|e]] eqn:E; simpl; [done| |done].
  eapply extends_writes; [exact Hstep|].
  apply (read_only_loop after_execution); [by intros cur [->| ->]|apply after_execution_next|].
  apply step_next in E. rewrite Hcur in E. injection E as <-. by left.
Qed.

Lemma extends_guarded l (m : M (G W) (option unit)) g0 g :
  extends (writes_in l) g0 (m g).1 ->
  extends (writes_in l) g0 (try_catch m (fun e => handle e ;;* ret (Some tt)) g).1.
Proof.
  intros H. unfold try_catch. destruct (m g) as [g' [a|e]]; simpl in *; [done|].
  eapply extends_writes; [exact H|]. apply steps_bind; [tc_solve| |].
  - apply emits_handle; [apply quiet_read_only|done].
  - intros _. apply steps_ret; tc_solve.
Qed.

Definition approve_all (approver : string) (reason : option string) (s : RunState) : RunState :=
  set_approvals (map (decide_approval "approved" approver reason) (approvals s)) s.

(** The part of [resume_after_approval] that handles an approval. *)
Definition resume_approved (n : nat) (approver : string) (reason : option string)
    : M (G W) (option unit) :=
  upd (approve_all approver reason) ;;*
  emit EventType.APPROVAL_RECEIVED
    [("decision", VStr "approved"); ("approver", VStr approver)] ;;*
  save ;;*
  upd (set_current_state "execute_approved") ;;*
  run n.

(** The fields of the state that decide what is executed. *)
Definition gate_view (s : RunState) := (proposed_actions s, approvals s, status s).

Lemma resume_approved_writes n approver reason g :
  status (st g) <> "created" ->
  extends (writes_in (approved_calls (approve_all approver reason (st g)))) g
    (resume_approved n approver reason g).1.
Proof.
  intros Hst. set (l := approved_calls _).
  assert (wp (resume_approved n approver reason) (fun _ => extends (writes_in l) g)
            (fun _ => extends (writes_in l) g) g) as H.
  { unfold resume_approved. rewrite wp_bind, wp_upd.
    set (g0 := mkG _ _ _ _).
    pose (R := both (keeps (W:=W) gate_view) (emits read_only)).
    assert (forall g', R g0 g' -> extends (writes_in l) g g') as HR.
    { intros g' [_ He]. eapply extends_writes; [|exact He].
      by apply extends_same; [apply sublist_nil_l|]. }
    rewrite wp_bind. eapply wp_mono; [apply (wp_steps R)| |intros; by apply HR].
    { split; [by apply keeps_emit|apply emits_emit, quiet_read_only]. }
    intros [] g1 H1. rewrite wp_bind.
    eapply wp_mono; [apply (wp_steps R)| |intros; apply HR; by etransitivity].
    { split; [apply keeps_save|apply emits_save, quiet_read_only]. }
    intros [] g2 H2. rewrite wp_bind, wp_upd. set (g3 := mkG _ _ _ _).
    assert (R g0 g2) as [Hk He] by by etransitivity.
    unfold keeps, gate_view in Hk. simpl in Hk. injection Hk as Hp Ha Hs.
    assert (extends (writes_in l) g (run n g3).1) as Hrun; [|by unfold wp; destruct (run n g3) as [? []]].
    unfold run, start, bind at 1, get_st, gets.
    assert (String.eqb (status (st g3)) "created" = false) as Hne
      by (apply String.eqb_neq; simpl; by rewrite Hs).
    unfold bind at 1. rewrite Hne. unfold ret at 1. apply extends_guarded.
    eapply extends_after; [|replace l with (approved_calls (st g3)); [by apply loop_execute|]].
    - exact He.
    - unfold l, approved_calls, approved_ids. simpl. by rewrite Hp, Ha. }
  unfold wp in H. by destruct (resume_approved n approver reason g) as [? []].
Qed.
End Resume.

(** ** The theorems *)

Section Theorems.
Context {W : Type} `{!Deps W}.
Implicit Types (g : G W).

Lemma resume_cases n decision approver reason g :
  let awaiting := String.eqb (current_state (st g)) "approval_pause"
                  && String.eqb (status (st g)) "waiting_for_approval" in
  if negb awaiting
  then resume_after_approval n decision approver reason g
       = (g, Exn (ValueError "run is not awaiting approval"))
  else if negb (existsb (String.eqb (PyStr.lower decision)) ["approved"; "rejected"; "expired"])
  then resume_after_approval n decision approver reason g
       = (g, Exn (ValueError "decision must be approved|rejected|expired"))
  else if String.eqb (PyStr.lower decision) "approved"
  then resume_after_approval n decision approver reason g = resume_approved n approver reason g
  else emits record_only g (resume_after_approval n decision approver reason g).1.
Proof.
  cbv zeta. unfold resume_after_approval, get_st. rewrite !bind_gets, <- !negb_andb.
  destruct (_ && _); cbn [negb]; [|done]. destruct (existsb _ _); cbn [negb]; [|done].
  destruct (String.eqb _ "approved"); [done|].
  apply steps_bind; [tc_solve|apply emits_upd|intros _].
  apply steps_bind; [tc_solve|apply emits_upd|intros _].
  apply steps_bind; [tc_solve|by apply records_emit|intros _].
  apply steps_bind; [tc_solve|by apply records_transition|intros _].
  apply steps_ret; tc_solve.
Qed.

Lemma record_only_writes l : Forall record_only l -> write_calls l = [].
Proof. induction 1 as [|o l Ho _ IH]; [done|]. by destruct o. Qed.

Lemma safe_dispatch cur : steps (emits safe_call) (dispatch (W:=W) cur).
Proof.
  destruct (String.eqb_spec cur "execute_approved") as [->|Hne].
  - apply go, emits_do_execute; [by intros []|]. intros tool args spec ? ?. by exists spec.
  - apply reads_dispatch; [by intros []|done| |done].
    intros tool args spec ? Hr. exists spec. split; [done|]. by rewrite Hr.
Qed.

Lemma safe_run n g : emits safe_call g (run n g).1.
Proof.
  unfold run, bind at 1.
  pose proof (emits_start (W:=W) safe_call ltac:(by intros []) g) as Hs.
  destruct (start g) as [g1 [[]|e]]; simpl in *; [|done].
  etransitivity; [exact Hs|]. apply emits_guarded; [by intros []|done|].
  apply (loop_emits safe_call (fun _ => True)); [by intros []| |done|done].
  intros cur _. apply safe_dispatch.
Qed.

Lemma safe_resume n decision approver reason g :
  emits safe_call g (resume_after_approval n decision approver reason g).1.
Proof.
  pose proof (resume_cases n decision approver reason g) as H. cbv zeta in H.
  destruct (negb _); [rewrite H; simpl; reflexivity|].
  destruct (negb _); [rewrite H; simpl; reflexivity|].
  destruct (String.eqb _ "approved"); [|eapply emits_mono; [|exact H]; by intros []].
  rewrite H. unfold resume_approved.
  apply steps_bind; [tc_solve|apply emits_upd|intros _].
  apply steps_bind; [tc_solve|by apply emits_emit; intros []|intros _].
  apply steps_bind; [tc_solve|by apply emits_save; intros []|intros _].
  apply steps_bind; [tc_solve|apply emits_upd|intros _]. intros g'. apply safe_run.
Qed.
End Theorems.

Section Properties.
Context {W : Type} `{!Deps W}.
Implicit Types (g : G W).

Lemma run_returns k g :
  (run (run_fuel + k) g).2 <> Ok None /\ run (run_fuel + k) g = run run_fuel g.
Proof.
  unfold run, bind. destruct (start g) as [g1 [[]|e]]; [|done].
  pose proof (remaining_bound (current_state (st g1))) as Hr. split.
  - unfold try_catch. pose proof (loop_returns (run_fuel + k) g1 ltac:(lia)) as H.
    destruct (loop _ g1) as [g2 [o|e]]; [done|]. by destruct (handle e g2) as [g3 []].
  - unfold try_catch. by rewrite (loop_fuel run_fuel (run_fuel + k)) by lia.
Qed.

(** C13. The driver terminates: from every state, and whatever the
    dependencies answer, [run] with [run_fuel] iterations (or more) never runs
    out of fuel, and the extra fuel changes nothing. *)
Theorem run_terminates k g :
  (run (run_fuel + k) g).2 <> Ok None /\ run (run_fuel + k) g = run run_fuel g.
Proof. apply run_returns. Qed.

(** C5. Before the approval gate a run only reads: whatever the clients
    answer, a run that is new or stands in a state up to [approval_pause]
    invokes registered read tools without side effects and nothing else. *)
Theorem run_only_reads_before_approval n g :
  status (st g) = "created" \/ before_gate (current_state (st g)) ->
  exists ext, trace (run n g).1 = trace g ++ ext /\
    forall tool args, OInvoke tool args ∈ ext ->
      exists spec, dget tool TOOL_REGISTRY = Some spec
        /\ category spec = "read" /\ side_effect spec = "none".
Proof.
  intros H. destruct (run_reads n g H) as (ext & E & HF). exists ext. split; [done|].
  intros tool args Hin. rewrite Forall_forall in HF. apply (HF _ Hin).
Qed.

(** The approval gate: resuming a run makes no other write call than those
    of the proposed actions whose approval row exists, each at most once and
    in the proposed order (write calls are never retried); and when the
    decision is not [approved] (rejected, expired, malformed, or the run is
    not awaiting one) it only records events and states. *)
Theorem resume_executes_only_approved n decision approver reason g :
  exists ext,
    trace (resume_after_approval n decision approver reason g).1 = trace g ++ ext /\
    write_calls ext `sublist_of` approved_calls (approve_all approver reason (st g)) /\
    (PyStr.lower decision <> "approved" -> Forall record_only ext).
Proof.
  pose proof (resume_cases n decision approver reason g) as H. cbv zeta in H.
  destruct (negb _) eqn:Ea.
  { rewrite H. exists []. rewrite app_nil_r. split_and!; [done|apply sublist_nil_l|done]. }
  destruct (negb _) eqn:Ed in H.
  { rewrite H. exists []. rewrite app_nil_r. split_and!; [done|apply sublist_nil_l|done]. }
  destruct (String.eqb_spec (PyStr.lower decision) "approved") as [E|E].
  - rewrite H. destruct (resume_approved_writes n approver reason g) as (ext & Et & Hw); [|by exists ext].
    apply negb_false_iff, andb_true_iff in Ea as [_ ->%String.eqb_eq]. done.
  - destruct H as (ext & Et & Hr). exists ext. rewrite (record_only_writes ext Hr).
    split_and!; [done|apply sublist_nil_l|done].
Qed.

(** C26. Model text is never run as a command: every tool invocation a run or a
    resumption makes, in any state and after any history, is of a registered
    tool with validated arguments, and never of a destructive one. *)
Theorem invocations_are_validated n decision approver reason g :
  (exists ext, trace (run n g).1 = trace g ++ ext /\ Forall safe_call ext) /\
  (exists ext, trace (resume_after_approval n decision approver reason g).1 = trace g ++ ext
     /\ Forall safe_call ext).
Proof. split; [apply safe_run|apply safe_resume]. Qed.
End Properties.

(** A run of the fakes: it pauses for approval after four reads. *)
Lemma run_only_reads_before_approval_witness :
  status (st (Fakes.graph0 Fakes.sample_run Fakes.default_world)) = "created" /\
  exists ext, trace (Fakes.after_run Fakes.default_world) = [] ++ ext /\
    forall tool args, OInvoke tool args ∈ ext ->
      exists spec, dget tool TOOL_REGISTRY = Some spec
        /\ category spec = "read" /\ side_effect spec = "none".
Proof.
  split; [reflexivity|].
  apply (run_only_reads_before_approval run_fuel
           (Fakes.graph0 Fakes.sample_run Fakes.default_world)).
  left. reflexivity.
Defined.
