(* ===== verification/GraphBudget.v ===== *)
(** * Budgets bound the calls of a run

    For each billable kind (tool invocations, delegations, model calls), the
    number of calls a run makes is bounded by what its limits leave, and never
    exceeds what the usage records. *)

From stdpp Require Import base list strings pretty sets.
From Stdlib Require Import ZArith Lia Ascii.
From S2P Require Import Prelude.
From S2P Require Import PyFloat.
From S2P Require Import PyValue.
From S2P Require Import PyTime.
From S2P Require Import Contracts.
From S2P Require Import ContractsRun.
From S2P Require Import ContractsOps.
From S2P Require Import Catalog.
From S2P Require Import RunState.
From S2P Require Import GraphTools.
From S2P Require Import Graph.
From S2P Require Import GraphSteps.
From S2P Require Import GraphFakes.
From S2P Require Import GraphLemmas.
From S2P Require Import GraphFlow.
Import GraphTools Graph Steps.

Local Open Scope py_scope.
Local Open Scope Z_scope.

(** ** One billable kind *)

(** A kind of call: its weight on observations (0 or 1), the usage counter that
    records it and the limit that caps it. *)
Record Kind := mkKind {
  weight : obs -> Z; used : BudgetUsage -> Z; cap : BudgetLimits -> Z }.

Definition tool_kind : Kind :=
  mkKind (fun o => match o with OInvoke _ _ => 1 | _ => 0 end) tool_calls max_tool_calls.
Definition delegation_kind : Kind :=
  mkKind (fun o => match o with ODelegate _ => 1 | _ => 0 end) delegations max_delegations.
Definition model_kind : Kind :=
  mkKind (fun o => match o with OModel => 1 | _ => 0 end) model_calls max_model_calls.

(** What the source guarantees of a kind: each [_spend] counts its own calls,
    the budget check enforces the cap, and nothing else is billed. *)
Class Billable (k : Kind) := {
  bill_tool : forall u t a, used k (tool_spent u) = used k u + weight k (OInvoke t a);
  bill_model : forall u, used k (model_spent u) = used k u + weight k OModel;
  bill_delegation : forall u r, used k (delegation_spent u) = used k u + weight k (ODelegate r);
  bill_nonneg : forall o, 0 <= weight k o;
  bill_free : forall o, match o with OInvoke _ _ | ODelegate _ | OModel => True
                        | _ => weight k o = 0 end;
  bill_cap : forall lim u, over_budget lim u = None -> used k u <= cap k lim;
}.

Ltac kind_instance :=
  split; unfold over_budget, tool_spent, model_spent, delegation_spent; simpl;
  [ intros; lia | intros; lia | intros; lia | intros []; lia | by intros []
  | intros lim u H; repeat case_match; try done;
    repeat match goal with H : (_ <? _)%Z = false |- _ => apply Z.ltb_ge in H end; lia ].
#[export] Instance tool_billable : Billable tool_kind.
Proof. kind_instance. Qed.
#[export] Instance delegation_billable : Billable delegation_kind.
Proof. kind_instance. Qed.
#[export] Instance model_billable : Billable model_kind.
Proof. kind_instance. Qed.

Section Kind.
Context (k : Kind) `{!Billable k} {W : Type} `{!Deps W}.
Implicit Types (g : G W).

Definition total (l : list obs) : Z := foldr (fun o n => weight k o + n) 0 l.
Definition count g : Z := total (trace g).
Lemma total_app l l' : total (l ++ l') = total l + total l'.
Proof. induction l; simpl; lia. Qed.
Lemma total_nonneg l : 0 <= total l.
Proof using Billable0. induction l as [|o l IH]; simpl; [lia|]. pose proof (bill_nonneg o). lia. Qed.

(** At most [n] calls, and no bill. *)
Definition calls_upto (n : Z) g g' : Prop :=
  limits (st g') = limits (st g) /\ usage (st g') = usage (st g) /\
  count g <= count g' <= count g + n.
(** Calls are billed, and a call happens only within the cap. *)
Definition billed g g' : Prop :=
  let n := count g' - count g in
  limits (st g') = limits (st g) /\
  0 <= n <= used k (usage (st g')) - used k (usage (st g)) /\
  (0 < n -> used k (usage (st g)) + n <= cap k (limits (st g))).

#[local] Instance calls_preorder : PreOrder (calls_upto 0).
Proof.
  split; [intros g; unfold calls_upto; repeat split; lia|].
  intros g1 g2 g3 (H1 & H2 & H3) (H4 & H5 & H6). unfold calls_upto.
  rewrite H4, H5. repeat split; try done; lia.
Qed.
#[local] Instance billed_preorder : PreOrder billed.
Proof.
  split; [intros g; unfold billed; repeat split; lia|].
  intros g1 g2 g3 (H1 & H2 & H3) (H4 & H5 & H6). unfold billed.
  rewrite H4, H1 in *. repeat split; try done; lia.
Qed.
Lemma calls_billed g g' : calls_upto 0 g g' -> billed g g'.
Proof. intros (H1 & H2 & H3). unfold billed. rewrite H1, H2. repeat split; lia. Qed.
Lemma steps_billed {A} (m : M (G W) A) : steps (calls_upto 0) m -> steps billed m.
Proof. intros H g. apply calls_billed, H. Qed.

Lemma upto_upd f :
  (forall s, limits (f s) = limits s) -> (forall s, usage (f s) = usage s) ->
  steps (calls_upto 0) (upd (W:=W) f).
Proof. intros H1 H2 g. unfold calls_upto, count. simpl. rewrite H1, H2. repeat split; lia. Qed.
Lemma upto_call {A} n o (m : M W A) : total o <= n -> steps (calls_upto n) (call o m).
Proof using Billable0.
  intros Hn g. unfold call. destruct (m (world g)) as [w r]. unfold calls_upto, count. simpl.
  rewrite total_app. pose proof (total_nonneg o). repeat split; lia.
Qed.
Lemma upto_free {A} o (m : M W A) :
  match o with OInvoke _ _ | ODelegate _ | OModel => False | _ => True end ->
  steps (calls_upto 0) (call [o] m).
Proof using Billable0.
  intros Ho. apply upto_call. simpl. pose proof (bill_free o). destruct o; try done; lia.
Qed.
Lemma upto_breaker f : steps (calls_upto 0) (upd_breaker (W:=W) f).
Proof. intros g. unfold calls_upto, count. simpl. repeat split; lia. Qed.
Lemma upto_bind_r {A B} n (m : M (G W) A) (f : A -> M (G W) B) :
  steps (calls_upto 0) m -> 0 <= n -> (forall a, steps (calls_upto n) (f a)) ->
  steps (calls_upto n) (bind m f).
Proof.
  intros Hm Hn Hf g. specialize (Hm g). unfold bind.
  destruct (m g) as [g1 [a|e]]; simpl in *; [|unfold calls_upto in *; intuition lia].
  specialize (Hf a g1). unfold calls_upto in *. destruct (f a g1) as [g2 ?]; simpl in *.
  destruct Hm as (H1 & H2 & H3), Hf as (H4 & H5 & H6). rewrite H4, H5. intuition lia.
Qed.
Lemma upto_bind_l {A B} n (m : M (G W) A) (f : A -> M (G W) B) :
  steps (calls_upto n) m -> (forall a, steps (calls_upto 0) (f a)) ->
  steps (calls_upto n) (bind m f).
Proof.
  intros Hm Hf g. specialize (Hm g). unfold bind.
  destruct (m g) as [g1 [a|e]]; simpl in *; [|done].
  specialize (Hf a g1). unfold calls_upto in *. destruct (f a g1) as [g2 ?]; simpl in *.
  destruct Hm as (H1 & H2 & H3), Hf as (H4 & H5 & H6). rewrite H4, H5. intuition lia.
Qed.
Lemma upto_try {A} n (m : M (G W) A) h :
  steps (calls_upto n) m -> (forall e, steps (calls_upto 0) (h e)) ->
  steps (calls_upto n) (try_catch m h).
Proof.
  intros Hm Hf g. specialize (Hm g). unfold try_catch.
  destruct (m g) as [g1 [a|e]]; simpl in *; [done|].
  specialize (Hf e g1). unfold calls_upto in *. destruct (h e g1) as [g2 ?]; simpl in *.
  destruct Hm as (H1 & H2 & H3), Hf as (H4 & H5 & H6). rewrite H4, H5. intuition lia.
Qed.

(** The pattern of every billable step: bill, check, then at most one call. *)
Lemma billed_spend {B} n f (rest : M (G W) B) :
  (forall u, used k (f u) = used k u + n) -> 0 <= n -> steps (calls_upto n) rest ->
  steps billed (spend f ;;* rest).
Proof using Billable0.
  intros Hf Hn Hrest g. unfold spend, bind. simpl.
  set (g1 := mkG _ _ _ _). pose proof (wp_check_budgets g1) as Hc. unfold wp in Hc.
  destruct (check_budgets g1) as [g2 [[]|e]].
  - destruct Hc as [(Est & _ & Etr) Hb]. specialize (Hrest g2).
    destruct (rest g2) as [g3 r]; simpl in *. destruct Hrest as (H1 & H2 & H3).
    apply bill_cap in Hb. unfold billed, count in *. rewrite H1, H2, Est. simpl in *.
    rewrite Etr in H3. simpl in H3. rewrite !Hf in *. repeat split; lia.
  - destruct Hc as (Est & _ & Etr). unfold billed, count. simpl. rewrite Est, Etr. simpl.
    rewrite !Hf. repeat split; lia.
Qed.

(** *** The methods *)

Ltac upto_leaf :=
  first [ by apply upto_upd | apply upto_breaker | by apply upto_free
        | apply upto_call; simpl; lia ].

Lemma upto_emit ty d : steps (calls_upto 0) (emit (W:=W) ty d).
Proof using Billable0. autounfold with graph_base. steps_walk upto_leaf. Qed.
Lemma upto_save : steps (calls_upto 0) (save (W:=W)).
Proof using Billable0. autounfold with graph_base. steps_walk upto_leaf. Qed.
Lemma upto_transition s ty d : steps (calls_upto 0) (transition (W:=W) s ty d).
Proof using Billable0. autounfold with graph_base. steps_walk upto_leaf. Qed.
Lemma upto_check_cancel : steps (calls_upto 0) (check_cancel (W:=W)).
Proof.
  unfold check_cancel. steps_walk idtac. intros g. unfold calls_upto, count. simpl.
  destruct (cancel_signal (world g)); simpl; repeat split; lia.
Qed.
Lemma upto_check_budgets : steps (calls_upto 0) (check_budgets (W:=W)).
Proof using Billable0. autounfold with graph_base. steps_walk upto_leaf. Qed.
Hint Resolve upto_emit upto_save upto_transition upto_check_cancel upto_check_budgets : steps.
Ltac upto_walk := autounfold with graph; steps_walk upto_leaf.

Lemma upto_collect_findings acc i l : steps (calls_upto 0) (collect_findings (W:=W) acc i l).
Proof using Billable0. revert acc i. induction l; intros acc i; simpl; upto_walk. Qed.
Lemma upto_evaluate_all env l : steps (calls_upto 0) (evaluate_all (W:=W) env l).
Proof using Billable0. induction l; simpl; upto_walk. Qed.
Hint Resolve upto_collect_findings upto_evaluate_all : steps.

Lemma upto_start : steps (calls_upto 0) (start (W:=W)).
Proof using Billable0. upto_walk. Qed.
Lemma upto_do_resources : steps (calls_upto 0) (do_resources (W:=W)).
Proof using Billable0. upto_walk. Qed.
Lemma upto_do_correlate : steps (calls_upto 0) (do_correlate (W:=W)).
Proof using Billable0.
  unfold do_correlate, adjust_all. steps_walk upto_leaf.
  all: apply upto_upd; intros s; unfold set_finding; repeat case_match; done.
Qed.
Lemma upto_do_findings : steps (calls_upto 0) (do_findings (W:=W)).
Proof using Billable0. upto_walk. Qed.
Lemma upto_do_propose : steps (calls_upto 0) (do_propose (W:=W)).
Proof using Billable0. upto_walk. Qed.
Lemma upto_do_policy : steps (calls_upto 0) (do_policy (W:=W)).
Proof using Billable0. upto_walk. Qed.
Lemma upto_do_approval_pause : steps (calls_upto 0) (do_approval_pause (W:=W)).
Proof using Billable0. upto_walk. Qed.
Lemma upto_do_complete : steps (calls_upto 0) (do_complete (W:=W)).
Proof using Billable0. upto_walk. Qed.
Lemma upto_handle e : steps (calls_upto 0) (handle (W:=W) e).
Proof using Billable0. destruct e; simpl; upto_walk. Qed.

Lemma upto_invoke t a : steps (calls_upto (weight k (OInvoke t a))) (invoke (W:=W) t a).
Proof using Billable0. unfold invoke. apply upto_call. simpl. lia. Qed.

Lemma billed_attempt t a : steps billed (attempt (W:=W) t a).
Proof using Billable0.
  unfold attempt. apply steps_bind; [tc_solve|apply steps_billed, upto_check_cancel|intros _].
  eapply billed_spend; [intros u; apply (bill_tool u t a)|apply bill_nonneg|].
  apply upto_bind_r; [apply upto_call; simpl; lia|apply bill_nonneg|intros started].
  apply upto_bind_l; [apply upto_invoke|intros out]. steps_walk upto_leaf.
Qed.
Lemma billed_attempts n t a : steps billed (attempts (W:=W) n t a).
Proof using Billable0.
  pose proof (billed_attempt t a) as Ha.
  induction n as [|n IH]; simpl; steps_walk ltac:(first [exact Ha | exact IH]).
Qed.

Ltac billed_leaf := apply steps_billed; solve [eauto 2 with steps | upto_leaf].

Lemma billed_mcp_read t a : steps billed (mcp_read (W:=W) t a).
Proof using Billable0.
  pose proof (fun n => billed_attempts n t a). unfold mcp_read. steps_walk billed_leaf.
Qed.
Hint Resolve billed_mcp_read : steps.
Lemma billed_do_mcp_reads : steps billed (do_mcp_reads (W:=W)).
Proof using Billable0. unfold do_mcp_reads, collect. steps_walk billed_leaf. Qed.
Lemma billed_do_verify : steps billed (do_verify (W:=W)).
Proof using Billable0. unfold do_verify. steps_walk billed_leaf. Qed.

Lemma billed_model {A B} (c : RunState -> M W A) (rest : A -> M (G W) B) :
  (forall a, steps (calls_upto 0) (rest a)) ->
  steps billed (spend_model ;;* let* s := get_st in let* a := call [OModel] (c s) in rest a).
Proof using Billable0.
  intros Hr. eapply billed_spend; [intros u; apply bill_model|apply bill_nonneg|].
  apply upto_bind_r; [apply steps_gets; tc_solve|apply bill_nonneg|intros s].
  apply upto_bind_l; [apply upto_call; simpl; lia|done].
Qed.
Lemma billed_do_classify : steps billed (do_classify (W:=W)).
Proof using Billable0. unfold do_classify. apply billed_model. intros a. upto_walk. Qed.
Lemma billed_do_plan : steps billed (do_plan (W:=W)).
Proof using Billable0. unfold do_plan. apply billed_model. intros a. upto_walk. Qed.

Lemma upto_accept r : steps (calls_upto 0) (accept_result (W:=W) r).
Proof using Billable0. autounfold with graph_call. upto_walk. Qed.
Lemma upto_fallback msg : steps (calls_upto 0) (fallback (W:=W) msg).
Proof using Billable0. autounfold with graph_call. upto_walk. Qed.
Lemma upto_failed_fallback msg : steps (calls_upto 0) (failed_fallback (W:=W) msg).
Proof using Billable0. autounfold with graph_call. upto_walk. Qed.
Hint Resolve upto_accept upto_fallback upto_failed_fallback : steps.

Lemma upto_call_specialist r :
  steps (calls_upto (weight k (ODelegate r))) (call_specialist (W:=W) r).
Proof using Billable0.
  unfold call_specialist. apply upto_try; [|intros e; steps_walk upto_leaf].
  apply upto_bind_l; [apply upto_call; simpl; lia|intros a; apply steps_ret; tc_solve].
Qed.

Lemma billed_delegate : steps billed (delegate (W:=W)).
Proof using Billable0.
  unfold delegate. apply steps_bind; [tc_solve|apply steps_gets; tc_solve|intros b].
  destruct (CircuitBreaker.guard _ _); [|apply steps_billed, upto_fallback].
  apply steps_bind; [tc_solve|apply steps_billed, upto_check_cancel|intros _].
  pose proof (bill_nonneg (ODelegate [])) as Hn.
  assert (forall r, weight k (ODelegate r) = weight k (ODelegate [])) as Hw.
  { intros r. pose proof (bill_delegation no_usage r). pose proof (bill_delegation no_usage []). lia. }
  eapply billed_spend; [intros u; apply (bill_delegation u [])|done|].
  apply upto_bind_r; [apply steps_gets; tc_solve|done|intros s].
  apply upto_bind_r; [apply upto_call; simpl; lia|done|intros now].
  apply upto_bind_r; [apply steps_lift; tc_solve|done|intros deadline].
  cbv zeta. apply upto_bind_r; [apply upto_emit|done|intros _].
  apply upto_bind_l; [rewrite <- (Hw (delegation_request s deadline)); apply upto_call_specialist|].
  intros [r|msg]; [apply upto_accept|apply upto_failed_fallback].
Qed.
Lemma billed_do_delegate : steps billed (do_delegate (W:=W)).
Proof using Billable0. pose proof billed_delegate. unfold do_delegate. steps_walk billed_leaf. Qed.

Lemma upto_run_action t id a :
  steps (calls_upto (weight k (OInvoke t a))) (run_action (W:=W) t id a).
Proof using Billable0.
  unfold run_action. apply upto_try; [|intros e; steps_walk upto_leaf].
  apply upto_bind_l; [apply upto_invoke|intros out; steps_walk upto_leaf].
Qed.
Lemma billed_execute_one ids a : steps billed (execute_one (W:=W) ids a).
Proof using Billable0.
  unfold execute_one. apply steps_bind_lift; [tc_solve|intros id _].
  apply steps_if; [intros _; apply steps_ret; tc_solve|intros _].
  apply steps_bind_lift; [tc_solve|intros tool _]. cbv zeta.
  apply steps_bind_lift; [tc_solve|intros input _].
  apply steps_bind_lift; [tc_solve|intros spec _].
  apply steps_bind_refuse; [tc_solve|intros _].
  apply steps_bind; [tc_solve|apply steps_billed, upto_check_cancel|intros _].
  eapply billed_spend; [intros u; apply (bill_tool u (py_str tool) input)|apply bill_nonneg|].
  apply upto_bind_r; [apply upto_emit|apply bill_nonneg|intros _]. apply upto_run_action.
Qed.
Lemma billed_do_execute : steps billed (do_execute (W:=W)).
Proof using Billable0.
  pose proof billed_execute_one. unfold do_execute. steps_walk billed_leaf.
Qed.

Lemma billed_dispatch cur : steps billed (dispatch (W:=W) cur).
Proof using Billable0.
  pose proof billed_do_classify. pose proof billed_do_plan. pose proof billed_do_delegate.
  pose proof billed_do_mcp_reads. pose proof billed_do_verify. pose proof billed_do_execute.
  pose proof (steps_billed _ upto_do_resources). pose proof (steps_billed _ upto_do_correlate).
  pose proof (steps_billed _ upto_do_findings). pose proof (steps_billed _ upto_do_propose).
  pose proof (steps_billed _ upto_do_policy). pose proof (steps_billed _ upto_do_complete).
  pose proof (steps_billed _ upto_do_approval_pause).
  unfold dispatch. cbv zeta. steps_walk fail.
Qed.

Lemma billed_run n : steps billed (run (W:=W) n).
Proof using Billable0.
  assert (forall m, steps billed (loop (W:=W) m)) as Hl.
  { induction m as [|m IH]; simpl; [apply steps_ret; tc_solve|].
    pose proof billed_dispatch. unfold step. steps_walk billed_leaf. }
  pose proof (fun e => steps_billed _ (upto_handle e)).
  unfold run. apply steps_bind; [tc_solve|apply steps_billed, upto_start|intros _].
  steps_walk billed_leaf.
Qed.

Lemma billed_resume n d a r : steps billed (resume_after_approval (W:=W) n d a r).
Proof using Billable0.
  pose proof billed_run. unfold resume_after_approval. steps_walk billed_leaf.
Qed.
End Kind.

(** ** The theorem *)

(** The calls of kind [k] made between [g] and [g']. *)
Definition calls_made {W} (k : Kind) (g g' : G W) : Z := count k g' - count k g.

Definition within_budget {W} (k : Kind) (g g' : G W) : Prop :=
  0 <= calls_made k g g' <= Z.max 0 (cap k (limits (st g)) - used k (usage (st g))) /\
  calls_made k g g' <= used k (usage (st g')) - used k (usage (st g)).

Lemma billed_within {W} k (g g' : G W) : billed k g g' -> within_budget k g g'.
Proof. unfold billed, within_budget, calls_made. intros (H1 & H2 & H3). split; lia. Qed.

(** C12. Budgets hold at every call: a run or a resumption makes at most as many
    tool invocations, delegations and model calls as its limits leave over what
    its usage already records, and records each of them. *)
Theorem calls_within_budget {W} `{!Deps W} n decision approver reason (g : G W) :
  let g1 := (run n g).1 in
  let g2 := (resume_after_approval n decision approver reason g).1 in
  (within_budget tool_kind g g1 /\ within_budget tool_kind g g2) /\
  (within_budget delegation_kind g g1 /\ within_budget delegation_kind g g2) /\
  (within_budget model_kind g g1 /\ within_budget model_kind g g2).
Proof.
  cbv zeta. repeat split_and; apply billed_within; first [apply billed_run | apply billed_resume];
    exact _.
Qed.
