(* ===== verification/GraphEvents.v ===== *)
(** * The event stream of a run

    Every event the graph appends carries the run's identifiers, and the
    sequence numbers increase strictly, across runs and resumptions. *)

From stdpp Require Import base list strings pretty sets.
From Stdlib Require Import ZArith Lia Ascii Sorted.
From S2P Require Import Prelude.
From S2P Require Import PyFloat.
From S2P Require Import PyValue.
From S2P Require Import PyTime.
From S2P Require Import Contracts.
From S2P Require Import ContractsRun.
From S2P Require Import ContractsOps.
From S2P Require Import Catalog.
From S2P Require Import RunState.
From S2P Require Import GraphTools.
From S2P Require Import Graph.
From S2P Require Import GraphSteps.
From S2P Require Import GraphFakes.
From S2P Require Import GraphLemmas.
From S2P Require Import GraphFlow.
Import GraphTools Graph Steps.

Local Open Scope py_scope.
Local Open Scope Z_scope.

(** The sequence number of an appended event. *)
Definition sequence_of (o : obs) : option Z :=
  match o with
  | OAppend e => match dget "sequence" e with Some (VInt n) => Some n | _ => None end
  | _ => None
  end.

(** An appended event names the run, its tenant and its own number; text fields
    are stripped by the contract. *)
Definition stamped (s : RunState) (o : obs) : Prop :=
  match o with
  | OAppend e => exists n : Z,
      dget "sequence" e = Some (VInt n) /\
      dget "event_id" e = Some (VStr (Field.trim (run_id s +:+ "-e" +:+ pretty n))) /\
      dget "run_id" e = Some (VStr (Field.trim (run_id s))) /\
      dget "tenant_id" e = Some (VStr (Field.trim (tenant_id s)))
  | _ => True
  end.

(** Strictly increasing numbers in the interval from [lo] (excluded) to [hi]. *)
Definition between (lo hi : Z) (l : list Z) : Prop :=
  StronglySorted Z.lt l /\ Forall (fun n => lo < n <= hi) l.

Lemma between_nil lo hi : between lo hi [].
Proof. split; constructor. Qed.

Lemma between_app a b c l1 l2 :
  a <= b <= c -> between a b l1 -> between b c l2 -> between a c (l1 ++ l2).
Proof.
  intros Hle [S1 F1] [S2 F2]. split.
  - induction S1 as [|x l1 S1 IH Hx]; simpl; [done|]. inversion F1; subst.
    constructor; [by apply IH|]. apply Forall_app. split; [done|].
    eapply Forall_impl; [exact F2|]. intros y Hy. simpl in *. lia.
  - apply Forall_app. split; (eapply Forall_impl; [done|]); intros y Hy; simpl in *; lia.
Qed.

Section Events.
Context {W : Type} `{!Deps W}.
Implicit Types (g : G W).

(** The identifiers are kept, and the events appended are numbered onwards. *)
Definition numbered g g' : Prop :=
  run_id (st g') = run_id (st g) /\ tenant_id (st g') = tenant_id (st g) /\
  event_sequence (st g) <= event_sequence (st g') /\
  exists ext, trace g' = trace g ++ ext /\
    between (event_sequence (st g)) (event_sequence (st g')) (omap sequence_of ext) /\
    Forall (stamped (st g)) ext.

Lemma stamped_same s s' o :
  run_id s' = run_id s -> tenant_id s' = tenant_id s -> stamped s' o -> stamped s o.
Proof. destruct o; simpl; try done. by intros -> ->. Qed.

#[global] Instance numbered_preorder : PreOrder numbered.
Proof.
  split.
  - intros g. split_and!; [done|done|lia|]. exists []. rewrite app_nil_r.
    split_and!; [done|apply between_nil|constructor].
  - intros g1 g2 g3 (R1 & T1 & L1 & e1 & E1 & B1 & S1) (R2 & T2 & L2 & e2 & E2 & B2 & S2).
    split_and!; [congruence|congruence|lia|]. exists (e1 ++ e2).
    split_and!; [by rewrite E2, E1, app_assoc| |].
    + rewrite omap_app. eapply between_app; [|done|done]. lia.
    + apply Forall_app. split; [done|]. eapply Forall_impl; [exact S2|].
      intros o. by apply stamped_same.
Qed.

Lemma numbered_silent g g' :
  run_id (st g') = run_id (st g) -> tenant_id (st g') = tenant_id (st g) ->
  event_sequence (st g) <= event_sequence (st g') ->
  (exists ext, trace g' = trace g ++ ext /\ Forall (fun o => match o with OAppend _ => False | _ => True end) ext) ->
  numbered g g'.
Proof.
  intros Hr Ht Hs (ext & E & HF). split_and!; [done|done|done|]. exists ext. split; [done|].
  clear E. induction HF as [|o ext Ho _ [IH1 IH2]]; [split; [apply between_nil|constructor]|].
  split; [by destruct o|]. constructor; [by destruct o|done].
Qed.

Lemma numbered_upd f :
  (forall s, run_id (f s) = run_id s) -> (forall s, tenant_id (f s) = tenant_id s) ->
  (forall s, event_sequence s <= event_sequence (f s)) -> steps numbered (upd (W:=W) f).
Proof.
  intros Hr Ht Hs g. apply numbered_silent; [apply Hr|apply Ht|apply Hs|].
  exists []. by rewrite app_nil_r.
Qed.
Lemma numbered_call {A} o (m : M W A) :
  Forall (fun o => match o with OAppend _ => False | _ => True end) o ->
  steps numbered (call o m).
Proof.
  intros Ho g. unfold call. destruct (m (world g)) as [w r]. apply numbered_silent; simpl; try done; try lia.
  by exists o.
Qed.
Lemma numbered_breaker f : steps numbered (upd_breaker (W:=W) f).
Proof.
  intros g. apply numbered_silent; simpl; try done; try lia. exists []. by rewrite app_nil_r.
Qed.
Lemma numbered_check_cancel : steps numbered (check_cancel (W:=W)).
Proof.
  unfold check_cancel. steps_walk idtac. intros g. simpl.
  destruct (cancel_signal (world g)); [|reflexivity].
  apply numbered_silent; simpl; try done; try lia. exists []. by rewrite app_nil_r.
Qed.

(** One event is appended at most, under the next number. *)
Lemma numbered_emit ty d : steps numbered (emit (W:=W) ty d).
Proof.
  intros g. unfold emit, emit_as, upd, modify, bind, get_st, gets, call, lift_result. simpl.
  destruct (utcnow (world g)) as [w1 [now|e]]; simpl;
    [|apply numbered_silent; simpl; [done|done|lia|by exists []]].
  destruct (validate _) as [ev|e] eqn:Ev; simpl;
    [|apply numbered_silent; simpl; [done|done|lia|by exists []; rewrite !app_nil_r]].
  destruct (AgentEvent.dump ev) as [ev_d|e] eqn:Ed; simpl;
    [|apply numbered_silent; simpl; [done|done|lia|by exists []; rewrite !app_nil_r]].
  destruct (store_append ev_d w1) as [w2 r]. simpl.
  apply validate_ok in Ev as (-> & _ & _).
  unfold AgentEvent.dump, rbind in Ed. destruct (dump_dict _); [|done]. injection Ed as <-.
  split_and!; simpl; [done|done|lia|]. eexists. rewrite app_nil_r. split_and!; [done| |].
  - simpl. split; [repeat constructor|]. constructor; [simpl; lia|constructor].
  - constructor; [|constructor]. simpl. by eexists.
Qed.

Ltac numbered_leaf :=
  first [ apply numbered_breaker | apply numbered_check_cancel | apply numbered_emit
        | apply numbered_upd; intros ?; solve [reflexivity | simpl; lia]
        | apply numbered_call; by repeat constructor ].

Lemma numbered_save : steps numbered (save (W:=W)).
Proof. unfold save. steps_walk numbered_leaf. Qed.
Lemma numbered_transition s ty d : steps numbered (transition (W:=W) s ty d).
Proof. pose proof numbered_save. unfold transition. steps_walk numbered_leaf. Qed.
Lemma numbered_check_budgets : steps numbered (check_budgets (W:=W)).
Proof. autounfold with graph_base. steps_walk numbered_leaf. Qed.
Lemma numbered_spend f : steps numbered (spend (W:=W) f).
Proof. pose proof numbered_check_budgets. unfold spend. steps_walk numbered_leaf. Qed.
Hint Resolve numbered_check_cancel numbered_emit numbered_save numbered_transition
  numbered_check_budgets numbered_spend : steps.
Ltac numbered_walk := autounfold with graph; steps_walk numbered_leaf.

Lemma numbered_attempts n t a : steps numbered (attempts (W:=W) n t a).
Proof.
  induction n as [|n IH]; simpl; unfold attempt, invoke, spend_tool; numbered_walk.
Qed.
Lemma numbered_collect_findings acc i l : steps numbered (collect_findings (W:=W) acc i l).
Proof. revert acc i. induction l; intros acc i; simpl; numbered_walk. Qed.
Lemma numbered_evaluate_all env l : steps numbered (evaluate_all (W:=W) env l).
Proof. induction l; simpl; numbered_walk. Qed.
Hint Resolve numbered_attempts numbered_collect_findings numbered_evaluate_all : steps.
Lemma numbered_mcp_read t a : steps numbered (mcp_read (W:=W) t a).
Proof. unfold mcp_read. numbered_walk. Qed.
Lemma numbered_delegate : steps numbered (delegate (W:=W)).
Proof. autounfold with graph_call. numbered_walk. Qed.
Lemma numbered_run_action t id a : steps numbered (run_action (W:=W) t id a).
Proof. unfold run_action, invoke. numbered_walk. Qed.
Lemma numbered_adjust_all f b l : steps numbered (adjust_all (W:=W) f b l).
Proof.
  unfold adjust_all. steps_walk idtac.
  apply numbered_upd; intros s; unfold set_finding; repeat case_match; try done; simpl; lia.
Qed.
Hint Resolve numbered_mcp_read numbered_delegate numbered_run_action numbered_adjust_all : steps.

Lemma numbered_dispatch cur : steps numbered (dispatch (W:=W) cur).
Proof.
  unfold dispatch. cbv zeta.
  unfold do_classify, do_plan, do_resources, do_mcp_reads, collect, do_delegate, do_correlate,
    do_findings, do_propose, do_policy, do_approval_pause, do_execute, execute_one, do_verify,
    do_complete, spend_model, spend_tool.
  steps_walk numbered_leaf.
Qed.
Lemma numbered_handle e : steps numbered (handle (W:=W) e).
Proof. destruct e; simpl; numbered_walk. Qed.
Hint Resolve numbered_dispatch numbered_handle : steps.

Lemma numbered_run n : steps numbered (run (W:=W) n).
Proof.
  assert (forall m, steps numbered (loop (W:=W) m)) as Hl.
  { induction m as [|m IH]; simpl; [apply steps_ret; tc_solve|].
    unfold step. steps_walk numbered_leaf. }
  unfold run, start. steps_walk numbered_leaf.
Qed.
Lemma numbered_resume n d a r : steps numbered (resume_after_approval (W:=W) n d a r).
Proof. pose proof numbered_run. unfold resume_after_approval. steps_walk numbered_leaf. Qed.

(** C27. The event stream is ordered: the events a run or a resumption appends
    carry the run's identifiers, and their sequence numbers increase
    strictly, start above the state's counter and end at most at its new
    value (so the streams of a pause and of its resumption concatenate). *)
Theorem events_are_numbered n decision approver reason g :
  numbered g (run n g).1 /\
  numbered g (resume_after_approval n decision approver reason g).1.
Proof. split; [apply numbered_run|apply numbered_resume]. Qed.
End Events.
