(* ===== verification/GraphFindings.v ===== *)
(** * Specialist output and findings

    What [_valid_a2a_output] accepts, what the findings of a run look like, and
    that a run without specialist evidence never proposes an action. *)

From stdpp Require Import base list strings pretty sets.
From Stdlib Require Import ZArith Lia Ascii.
From S2P Require Import Prelude.
From S2P Require Import PyFloat.
From S2P Require Import PyValue.
From S2P Require Import PyTime.
From S2P Require Import Contracts.
From S2P Require Import ContractsRun.
From S2P Require Import ContractsOps.
From S2P Require Import Catalog.
From S2P Require Import RunState.
From S2P Require Import GraphTools.
From S2P Require Import Graph.
From S2P Require Import GraphSteps.
From S2P Require Import GraphFakes.
From S2P Require Import GraphLemmas.
From S2P Require Import GraphFlow.
Import GraphTools Graph Steps.

Local Open Scope py_scope.

(** A confidence is a number between 0 and 1, and not a NaN. *)
Definition unit_interval (c : float) : Prop :=
  PyFloat.leb PyFloat.zero c = true /\ PyFloat.leb c PyFloat.one = true
  /\ PyFloat.is_nan c = false.

(** ** The specialist's output *)

Definition accepted_finding (f : pyval) : Prop :=
  exists d refs c, f = VDict d /\ get_truthy "title" d = true /\ get_truthy "summary" d = true
    /\ dget "evidence_refs" d = Some (VList refs) /\ refs <> []
    /\ py_float (get_or "confidence" (VInt (-1)) d) = Ok c /\ unit_interval c.

Lemma unit_interval_iff c :
  PyFloat.leb PyFloat.zero c && PyFloat.leb c PyFloat.one = true <-> unit_interval c.
Proof.
  unfold unit_interval. rewrite andb_true_iff. split; [|tauto].
  intros [H1 H2]. split_and!; [done|done|by eapply PyFloat.leb_not_nan_l].
Qed.

Lemma valid_finding_spec f : valid_finding f = Ok true <-> accepted_finding f.
Proof.
  split.
  - destruct f as [| | | | | |d|]; simpl; try done.
    destruct (get_truthy "title" d) eqn:Et; [|done].
    destruct (get_truthy "summary" d) eqn:Es; [|done]. simpl.
    destruct (dget "evidence_refs" d) as [[| | | | |[|r l]| |]|] eqn:Er; try done.
    destruct (py_float _) as [c|e] eqn:Ec; [|by case_match].
    intros [= H]. exists d, (r :: l), c. split_and!; try done. by apply unit_interval_iff.
  - intros (d & refs & c & -> & Et & Es & Er & Hne & Ec & Hc). simpl.
    rewrite Et, Es, Er. simpl. destruct refs as [|r l]; [done|]. rewrite Ec.
    f_equal. by apply unit_interval_iff.
Qed.

Lemma valid_findings_spec l : valid_findings l = Ok true <-> Forall accepted_finding l.
Proof.
  induction l as [|f l IH]; simpl; [by split|]. rewrite Forall_cons, <- IH, <- valid_finding_spec.
  destruct (valid_finding f) as [[]|e]; simpl; naive_solver.
Qed.

(** Specialist output is never trusted blindly: [valid_a2a_output] accepts
    exactly the outputs whose [findings] is a list of dicts, each with a title,
    a summary, at least one evidence reference, and a confidence that parses to
    a number of the unit interval (so never a NaN). *)
Theorem valid_a2a_output_spec output :
  valid_a2a_output output = Ok true <->
  exists d l, output = Some (VDict d) /\ dget "findings" d = Some (VList l)
    /\ Forall accepted_finding l.
Proof.
  split.
  - destruct output as [[| | | | | |d|]|]; simpl; try done.
    destruct (dget "findings" d) as [[| | | | |l| |]|] eqn:E; try done.
    rewrite valid_findings_spec. naive_solver.
  - intros (d & l & -> & E & H). simpl. rewrite E. by apply valid_findings_spec.
Qed.

(** ** Findings *)

Definition finding_ok (f : dict) : Prop :=
  exists title summary refs c,
    dget "title" f = Some (VStr title) /\ title <> "" /\ (String.length title <= 256)%nat /\
    dget "summary" f = Some (VStr summary) /\ summary <> "" /\
    (Z.of_nat (String.length summary) <= 4000)%Z /\
    dget "evidence_refs" f = Some (VList (map VStr refs)) /\ refs <> [] /\
    (length refs <= 16)%nat /\ Forall (fun r => r <> "") refs /\
    dget "confidence" f = Some (VFloat c) /\ unit_interval c /\
    dget "severity" f = Some (VStr (severity_of c)).

Lemma substring_length n s : (String.length (String.substring 0 n s) <= n)%nat.
Proof.
  revert s. induction n as [|n IH]; intros [|c s]; simpl; try lia. specialize (IH s). lia.
Qed.
Lemma substring_nonempty n s : s <> "" -> String.substring 0 (S n) s <> "".
Proof. by destruct s. Qed.

Lemma clamp_unit c : unit_interval (PyFloat.max PyFloat.zero (PyFloat.min PyFloat.one c)).
Proof. apply unit_interval_iff. apply andb_true_iff. apply PyFloat.clamp_range. Qed.

Lemma build_finding_ok s i v f : build_finding s i v = Ok (inl f) -> finding_ok f.
Proof.
  unfold build_finding, rbind. intros H.
  destruct (as_dict v) as [d|]; [|done]. cbv zeta in H.
  destruct (py_list _) as [raw|e]; [|destruct (is_type_or_value_error e); done].
  destruct (confidence_of d) as [c|e]; [|destruct (is_type_or_value_error e); done].
  destruct (String.eqb_spec (PyStr.strip (get_str "title" "" d)) "") as [|Ht]; [done|].
  destruct (String.eqb_spec (PyStr.strip (get_str "summary" "" d)) "") as [|Hs]; [done|].
  destruct (length (ref_texts raw)) as [|k] eqn:Hl; [done|]. injection H as <-.
  exists (PyStr.slice 256 (PyStr.strip (get_str "title" "" d))),
    (PyStr.slice (Z.to_nat 4000) (PyStr.strip (get_str "summary" "" d))),
    (take 16 (ref_texts raw)), (PyFloat.max PyFloat.zero (PyFloat.min PyFloat.one c)).
  unfold PyStr.slice. split_and!; try reflexivity.
  - by apply substring_nonempty.
  - apply substring_length.
  - replace (Z.to_nat 4000) with (S (Z.to_nat 3999)) by lia. by apply substring_nonempty.
  - pose proof (substring_length (Z.to_nat 4000) (PyStr.strip (get_str "summary" "" d))). lia.
  - by destruct (ref_texts raw).
  - rewrite length_take. lia.
  - apply Forall_take. apply Forall_forall. intros r Hr. unfold ref_texts in Hr.
    by apply list_elem_of_filter in Hr as [? _].
  - apply clamp_unit.
Qed.

Section Findings.
Context {W : Type} `{!Deps W}.
Implicit Types (g : G W).

Definition findings_ok g : Prop := Forall finding_ok (findings (st g)).
Definition keeps_findings g g' : Prop := findings_ok g -> findings_ok g'.
#[global] Instance keeps_findings_preorder : PreOrder keeps_findings.
Proof. split; [intros g H; exact H|intros g1 g2 g3; unfold keeps_findings; auto]. Qed.

Lemma kf_same {A} (m : M (G W) A) : steps (keeps findings) m -> steps keeps_findings m.
Proof. intros H g. specialize (H g). unfold keeps_findings, findings_ok, keeps in *. by rewrite H. Qed.
Ltac kf_leaf :=
  apply kf_same; first
    [ apply keeps_breaker | apply keeps_call | by apply keeps_emit
    | apply keeps_save | by apply keeps_check_cancel | apply keeps_check_budgets
    | apply keeps_upd; intros ?; reflexivity ].

Lemma kf_transition s ty d : steps keeps_findings (transition (W:=W) s ty d).
Proof. unfold transition. steps_walk kf_leaf. Qed.
Lemma kf_spend f : steps keeps_findings (spend (W:=W) f).
Proof. unfold spend. steps_walk kf_leaf. Qed.
Hint Resolve kf_transition kf_spend : steps.
Lemma kf_attempts n t a : steps keeps_findings (attempts (W:=W) n t a).
Proof.
  induction n as [|n IH]; simpl; unfold attempt, invoke, spend_tool; steps_walk kf_leaf.
Qed.
Lemma kf_evaluate_all env l : steps keeps_findings (evaluate_all (W:=W) env l).
Proof. induction l; simpl; unfold evaluate_one; steps_walk kf_leaf. Qed.
Hint Resolve kf_attempts kf_evaluate_all : steps.
Lemma kf_mcp_read t a : steps keeps_findings (mcp_read (W:=W) t a).
Proof. unfold mcp_read. steps_walk kf_leaf. Qed.
Lemma kf_delegate : steps keeps_findings (delegate (W:=W)).
Proof. autounfold with graph_call. unfold spend_delegation. steps_walk kf_leaf. Qed.
Lemma kf_run_action t id a : steps keeps_findings (run_action (W:=W) t id a).
Proof. unfold run_action, invoke. steps_walk kf_leaf. Qed.
Lemma kf_adjust_all f b l : steps keeps_findings (adjust_all (W:=W) f b l).
Proof.
  unfold adjust_all. steps_walk idtac. apply kf_same, keeps_upd. intros s.
  unfold set_finding. by repeat case_match.
Qed.
Hint Resolve kf_mcp_read kf_delegate kf_run_action kf_adjust_all : steps.

(** The loop only accumulates well-formed findings. *)
Lemma collect_findings_ok acc i l :
  Forall finding_ok acc ->
  ends (fun fs _ => Forall finding_ok fs) (collect_findings (W:=W) acc i l).
Proof.
  revert acc i. induction l as [|v l IH]; intros acc i Hacc; simpl; [by apply ends_ret|].
  eapply (ends_bind_with (fun acc' _ => Forall finding_ok acc')).
  - unfold collect_finding. apply ends_bind. intros s g. rewrite wp_bind, wp_lift.
    destruct (build_finding s i v) as [[f|note]|e] eqn:E; [|by rewrite wp_bind, wp_upd|done].
    rewrite wp_ret. apply Forall_app. split; [done|].
    constructor; [by eapply build_finding_ok|constructor].
  - intros acc' g H. by apply IH.
Qed.

Lemma kf_collect_findings acc i l : steps keeps_findings (collect_findings (W:=W) acc i l).
Proof.
  revert acc i. induction l; intros acc i; simpl; unfold collect_finding; steps_walk kf_leaf.
Qed.
Hint Resolve kf_collect_findings : steps.

Lemma kf_do_findings : steps keeps_findings (do_findings (W:=W)).
Proof.
  unfold do_findings. apply steps_bind; [tc_solve|apply steps_gets; tc_solve|intros s].
  apply steps_bind; [tc_solve|apply steps_lift; tc_solve|intros raw]. cbv zeta.
  apply steps_bind; [tc_solve|steps_walk kf_leaf|intros _].
  apply (steps_bind_ends _ (Forall finding_ok)); [apply kf_collect_findings
    |apply collect_findings_ok; constructor|intros fs Hfs].
  apply steps_bind; [tc_solve|by intros g _|intros _]. steps_walk kf_leaf.
Qed.
Hint Resolve kf_do_findings : steps.

Lemma kf_dispatch cur : steps keeps_findings (dispatch (W:=W) cur).
Proof.
  unfold dispatch. cbv zeta.
  unfold do_classify, do_plan, do_resources, do_mcp_reads, collect, do_delegate, do_correlate,
    do_propose, do_policy, do_approval_pause, do_execute, execute_one, do_verify,
    do_complete, spend_model, spend_tool.
  steps_walk kf_leaf.
Qed.
Lemma kf_handle e : steps keeps_findings (handle (W:=W) e).
Proof. destruct e; simpl; autounfold with graph; steps_walk kf_leaf. Qed.
Hint Resolve kf_dispatch kf_handle : steps.

Lemma kf_run n : steps keeps_findings (run (W:=W) n).
Proof.
  assert (forall m, steps keeps_findings (loop (W:=W) m)) as Hl.
  { induction m as [|m IH]; simpl; [apply steps_ret; tc_solve|].
    unfold step. steps_walk kf_leaf. }
  unfold run, start. steps_walk kf_leaf.
Qed.
Lemma kf_resume n d a r : steps keeps_findings (resume_after_approval (W:=W) n d a r).
Proof. pose proof kf_run. unfold resume_after_approval. steps_walk kf_leaf. Qed.

(** C36. Well-formed findings are an invariant of runs and resumptions: every
    finding in the state has a non-empty bounded title and summary, one to
    sixteen non-empty evidence references, a confidence clamped to the unit
    interval, and the severity that confidence stands for. *)
Theorem findings_well_formed n decision approver reason g :
  Forall finding_ok (findings (st g)) ->
  Forall finding_ok (findings (st (run n g).1)) /\
  Forall finding_ok (findings (st (resume_after_approval n decision approver reason g).1)).
Proof. intros H. split; [by apply (kf_run n g)|by apply (kf_resume n decision approver reason g)]. Qed.

(** ** Without specialist evidence *)

Lemma degraded_confidence s' s (f : dict) :
  build_finding s' 0 (degraded_finding s) = Ok (inl f) ->
  PyFloat.ltb (built_confidence f) LOW_CONFIDENCE_THRESHOLD = true.
Proof.
  unfold build_finding, degraded_finding. cbn [as_dict rbind].
  cbv zeta. unfold confidence_of.
  change (py_list (get_or "evidence_refs" (VList []) _)) with
    (Ok (map (get_or "ref" (VStr "telemetry://m/1")) (take 2 (mcp_evidence s)))).
  cbn -[PyFloat.ratio PyFloat.ltb PyFloat.max PyFloat.min ref_texts PyStr.strip PyStr.slice severity_of].
  case_match; [done|]. intros [= <-]. vm_compute. reflexivity.
Qed.

Definition low (fs : list dict) : Prop :=
  negb (is_nonempty fs)
  || PyFloat.ltb (max_default (map built_confidence fs)) LOW_CONFIDENCE_THRESHOLD = true.

Lemma collect_degraded_low (b : bool) s :
  ends (fun fs (_ : G W) => low fs)
    (collect_findings [] 0 (if b then [degraded_finding s] else [])).
Proof.
  destruct b; cbn [collect_findings]; [|by apply ends_ret].
  eapply (ends_bind_with (fun acc _ => low acc)); [|by intros acc g H].
  unfold collect_finding. apply ends_bind. intros s' g. rewrite wp_bind, wp_lift.
  destruct (build_finding s' 0 (degraded_finding s)) as [[f|note]|e] eqn:E;
    [|by rewrite wp_bind, wp_upd|done].
  rewrite wp_ret. exact (degraded_confidence _ _ _ E).
Qed.

Definition more_info (s : RunState) : Prop :=
  status s = "completed" /\ outcome s = Some "more_info" /\ current_state s = "complete".

Lemma ends_more_info ty d :
  ends (fun (stop : bool) (g : G W) => stop = true /\ more_info (st g))
    (upd (W:=W) (fun s => set_status "completed" (set_outcome (Some "more_info") s)) ;;*
     upd (add_unresolved
        "Confidence below 0.5; more telemetry (metrics_refs/logs_refs/traces) is needed.") ;;*
     emit EventType.MESSAGE_DELTA
        [("more_info", VStr "Please supply additional telemetry refs for re-analysis.")] ;;*
     let* s := get_st in transition "complete" ty (d s) ;;* ret true).
Proof.
  intros g. rewrite wp_bind, wp_upd, wp_bind, wp_upd, wp_bind.
  pose (f := fun s => (status s, outcome s)).
  eapply wp_mono; [apply (wp_steps (keeps f)); by apply keeps_emit| |done].
  intros ? g1 H1. rewrite wp_bind. unfold get_st. rewrite wp_gets. unfold transition.
  rewrite wp_bind, wp_bind, wp_upd, wp_bind.
  pose (h := fun s => (status s, outcome s, current_state s)).
  eapply wp_mono; [apply (wp_steps (keeps h)); by apply keeps_emit| |done].
  intros ? g2 H2. eapply wp_mono; [apply (wp_steps (keeps h)), keeps_save| |done].
  intros ? g3 H3. rewrite wp_ret. unfold keeps, f, h in *. simpl in *.
  injection H1 as ? ?. injection H2 as ? ? ?. injection H3 as ? ? ?.
  unfold more_info. split_and!; congruence.
Qed.

(** A specialist failure never leads to an action: when the findings step
    has no specialist output, it ends the run (it never goes on to propose),
    with outcome [more_info], since the finding synthesised from the primary
    telemetry has a confidence below the threshold. *)
Theorem no_specialist_no_proposal g :
  a2a_output (st g) = None ->
  match do_findings g with
  | (g', Ok stop) => stop = true /\ more_info (st g')
  | (_, Exn _) => True
  end.
Proof.
  intros Hnone.
  assert (wp do_findings (fun stop g' => stop = true /\ more_info (st g')) (fun _ _ => True) g)
    as H; [|unfold wp in H; by destruct (do_findings g) as [? []]].
  unfold do_findings. rewrite wp_bind. unfold get_st at 1. rewrite wp_gets, Hnone.
  rewrite wp_bind, wp_lift. cbv zeta. cbn [negb is_nonempty andb].
  apply ends_at, ends_bind. intros ?.
  eapply ends_bind_with; [apply collect_degraded_low|]. intros fs g' Hlow. unfold low in Hlow.
  rewrite Hlow. apply ends_at. do 3 (apply ends_bind; intros ?). apply ends_more_info.
Qed.
End Findings.

Lemma findings_well_formed_witness :
  let g := Fakes.graph0 Fakes.sample_run Fakes.default_world in
  Forall finding_ok (findings (st g)) /\
  (Forall finding_ok (findings (st (run run_fuel g).1)) /\
   Forall finding_ok
     (findings (st (resume_after_approval run_fuel "approved" "lead" None g).1))) /\
  findings (st (run run_fuel g).1) <> [].
Proof.
  cbv zeta. split; [constructor|]. split; [|vm_compute; discriminate].
  exact (findings_well_formed run_fuel "approved" "lead" None
           (Fakes.graph0 Fakes.sample_run Fakes.default_world) (List.Forall_nil finding_ok)).
Defined.

(** The state the findings step meets after a failed delegation. *)
Definition after_failed_specialist : RunState :=
  set_mcp_evidence [[("tool", VStr "service.get_health"); ("ref", VStr "telemetry://h/api")]]
    (set_current_state "findings" (set_status "running" Fakes.sample_run)).
Lemma no_specialist_no_proposal_witness :
  a2a_output (st (Fakes.graph0 after_failed_specialist Fakes.default_world)) = None /\
  match do_findings (Fakes.graph0 after_failed_specialist Fakes.default_world) with
  | (g', Ok stop) => stop = true /\ more_info (st g')
  | (_, Exn _) => True
  end.
Proof. split; [reflexivity|]. apply no_specialist_no_proposal. reflexivity. Defined.
