(* ===== verification/GraphOutcome.v ===== *)
(** * How a run ends

    The status a run returns with, what cancellation does, what a denied policy
    does, and what happens when the tool gateway is down. *)

From stdpp Require Import base list strings pretty sets gmap.
From Stdlib Require Import ZArith Lia Ascii.
From S2P Require Import Prelude.
From S2P Require Import PyFloat.
From S2P Require Import PyValue.
From S2P Require Import PyTime.
From S2P Require Import Contracts.
From S2P Require Import ContractsRun.
From S2P Require Import ContractsOps.
From S2P Require Import Catalog.
From S2P Require Import RunState.
From S2P Require Import GraphTools.
From S2P Require Import Graph.
From S2P Require Import GraphSteps.
From S2P Require Import GraphFakes.
From S2P Require Import GraphLemmas.
From S2P Require Import GraphFlow.
Import GraphTools Graph Steps.

Local Open Scope py_scope.

(** ** Keeping the status *)

Section KeepStatus.
Context {W : Type} `{!Deps W}.

Ltac status_leaf :=
  first [ apply keeps_breaker | apply keeps_call | by apply keeps_emit
        | apply keeps_save | by apply keeps_check_cancel | apply keeps_check_budgets
        | apply keeps_upd; intros ?; reflexivity ].

Lemma status_transition s ty d : steps (keeps status) (transition (W:=W) s ty d).
Proof. unfold transition. steps_walk status_leaf. Qed.
Hint Resolve status_transition : steps.

(** A field set once and kept to the end has that value at the end. *)
Lemma ends_keep {X A} (f : RunState -> X) v h (rest : M (G W) A) :
  (forall s, f (h s) = v) -> steps (keeps f) rest ->
  ends (fun _ g => f (st g) = v) (upd (W:=W) h ;;* rest).
Proof.
  intros Hv Hk g. rewrite wp_bind, wp_upd.
  eapply wp_mono; [apply (wp_steps (keeps f)), Hk| |done].
  intros a g' H. unfold keeps in H. rewrite H. apply Hv.
Qed.

Definition settled (s : RunState) : Prop :=
  status s ∈ ["completed"; "failed"; "cancelled"; "waiting_for_approval"].
Definition settles (stop : bool) (g : G W) : Prop := stop = true -> settled (st g).

Lemma ends_settles {A} v h (rest : M (G W) A) :
  v ∈ ["completed"; "failed"; "cancelled"; "waiting_for_approval"] ->
  (forall s, status (h s) = v) -> steps (keeps status) rest ->
  ends (fun _ g => settled (st g)) (upd (W:=W) h ;;* rest).
Proof.
  intros Hv Hh Hr. eapply ends_mono; [|by apply (ends_keep status v)].
  intros a g H. unfold settled. by rewrite H.
Qed.

Lemma settles_classify : ends settles (do_classify (W:=W)).
Proof.
  unfold do_classify. do 5 (apply ends_bind; intros ?). apply ends_if; [|by apply ends_ret].
  cbv zeta. eapply (ends_mono (fun _ g => settled (st g))); [by intros b g H _|].
  apply (ends_settles "completed"); [set_solver|done|]. steps_walk status_leaf.
Qed.
Lemma settles_findings : ends settles (do_findings (W:=W)).
Proof.
  unfold do_findings. do 7 (apply ends_bind; intros ?). apply ends_if.
  - eapply (ends_mono (fun _ g => settled (st g))); [by intros b g H _|].
    apply (ends_settles "completed"); [set_solver|done|]. steps_walk status_leaf.
  - do 2 (apply ends_bind; intros ?). by apply ends_ret.
Qed.
Lemma settles_policy : ends settles (do_policy (W:=W)).
Proof.
  unfold do_policy. do 4 (apply ends_bind; intros ?). cbv zeta. apply ends_if.
  - eapply (ends_mono (fun _ g => settled (st g))); [by intros b g H _|].
    apply (ends_settles "completed"); [set_solver|done|]. steps_walk status_leaf.
  - do 2 (apply ends_bind; intros ?). by apply ends_ret.
Qed.
Lemma settled_complete : ends (fun _ g => settled (st g)) (do_complete (W:=W)).
Proof.
  unfold do_complete. apply (ends_settles "completed"); [set_solver|done|].
  steps_walk status_leaf.
Qed.
Lemma settled_pause g :
  proposed_actions (st g) <> [] ->
  wp (do_approval_pause (W:=W)) (fun _ g => settled (st g)) (fun _ _ => True) g.
Proof.
  intros Hne. unfold do_approval_pause. rewrite wp_bind. unfold get_st at 1. rewrite wp_gets.
  destruct (proposed_actions (st g)) as [|a l]; [done|].
  apply ends_at, (ends_settles "waiting_for_approval"); [set_solver|done|].
  steps_walk status_leaf.
Qed.
Lemma settled_handle e : ends (fun _ g => settled (st g)) (handle (W:=W) e).
Proof.
  assert (ends (fun _ g => settled (st g)) (on_cancel (W:=W))) as Hc.
  { unfold on_cancel. apply (ends_settles "cancelled"); [set_solver|done|].
    steps_walk status_leaf. }
  assert (forall m, ends (fun _ g => settled (st g)) (on_budget (W:=W) m)) as Hb.
  { intros m. unfold on_budget. apply (ends_settles "failed"); [set_solver|done|].
    steps_walk status_leaf. }
  assert (forall e, ends (fun _ g => settled (st g)) (on_exception (W:=W) e)) as He.
  { intros e'. unfold on_exception. apply (ends_settles "failed"); [set_solver|done|].
    steps_walk status_leaf. }
  destruct e; simpl; auto.
Qed.

(** ** What a non-stopping step leaves behind *)

(** At the policy step and at the gate there is something to decide. *)
Definition has_proposals (s : RunState) : Prop :=
  current_state s ∈ ["policy"; "approval_pause"] -> proposed_actions s <> [].

Lemma proposes_something s l : propose_actions s = Ok l -> l <> [].
Proof.
  unfold propose_actions, rbind. intros H. repeat case_match; simplify_eq; done.
Qed.

Lemma ends_propose : ends (fun _ g => proposed_actions (st g) <> []) (do_propose (W:=W)).
Proof.
  unfold do_propose. apply ends_bind. intros s g. rewrite wp_bind, wp_lift.
  destruct (propose_actions s) as [l|e] eqn:E; [|done]. apply proposes_something in E.
  apply ends_at. eapply ends_mono; [|apply (ends_keep proposed_actions l); [done|]].
  - intros a g' H. by rewrite H.
  - unfold transition. steps_walk status_leaf.
Qed.

Lemma keeps_policy : steps (keeps proposed_actions) (do_policy (W:=W)).
Proof.
  assert (forall env l, steps (keeps proposed_actions) (evaluate_all (W:=W) env l)) as He.
  { intros env l. induction l; simpl; unfold evaluate_one; steps_walk status_leaf. }
  unfold do_policy, transition. steps_walk status_leaf.
Qed.

Lemma wp_and {A} (m : M (G W) A) (Q1 Q2 : A -> G W -> Prop) g :
  wp m Q1 (fun _ _ => True) g -> wp m Q2 (fun _ _ => True) g ->
  wp m (fun a g' => Q1 a g' /\ Q2 a g') (fun _ _ => True) g.
Proof. unfold wp. by destruct (m g) as [? []]. Qed.

(** What a state requires of the step: to settle when it stops. *)
Lemma settles_go {A} (m : M (G W) A) : ends settles (m ;;* ret false).
Proof. apply ends_bind. intros a. by apply ends_ret. Qed.

Lemma settles_dispatch g :
  has_proposals (st g) ->
  wp (dispatch (W:=W) (current_state (st g))) settles (fun _ _ => True) g.
Proof.
  unfold has_proposals. generalize (current_state (st g)) as cur. intros cur Hg.
  unfold dispatch. cbv zeta.
  repeat match goal with
    |- wp (if String.eqb cur ?c then _ else _) _ _ _ => destruct (String.eqb_spec cur c) as [->|?]
  end; try apply ends_at, settles_go.
  - apply settles_classify.
  - apply settles_findings.
  - apply settles_policy.
  - rewrite wp_bind. eapply wp_mono; [apply settled_pause, Hg; set_solver| |done].
    by intros a g' H _.
  - rewrite wp_bind. eapply wp_mono; [apply settled_complete| |done]. by intros a g' H _.
  - done.
Qed.

Lemma successor_proposals cur next :
  successor cur = Some next -> next ∈ ["policy"; "approval_pause"] ->
  cur = "propose" \/ cur = "policy".
Proof.
  intros Hs%dget_in Hin.
  repeat (apply elem_of_cons in Hs as [[= -> ->]|Hs]; [first [by left | by right | set_solver]|]).
  by apply elem_of_nil in Hs.
Qed.

Lemma proposals_dispatch g :
  has_proposals (st g) ->
  wp (dispatch (W:=W) (current_state (st g)))
    (fun b g' => b = false -> has_proposals (st g')) (fun _ _ => True) g.
Proof.
  intros Hg. set (cur := current_state (st g)).
  assert (wp (dispatch (W:=W) cur) (fun b g' => (b = false -> successor cur = Some (current_state (st g')))
            /\ (cur = "propose" \/ cur = "policy" -> proposed_actions (st g') <> []))
            (fun _ _ => True) g) as H.
  { apply wp_and; [apply ends_dispatch|].
    destruct (String.eqb_spec cur "propose") as [->|H1].
    { change (wp (do_propose ;;* ret false) (fun (b : bool) g' => "propose" = "propose" \/ "propose" = "policy" -> proposed_actions (st g') <> []) (fun _ _ => True) g).
      rewrite wp_bind. eapply wp_mono; [apply ends_propose| |done]. by intros a g' H _. }
    destruct (String.eqb_spec cur "policy") as [E|H2].
    { rewrite E.
      change (wp do_policy (fun (b : bool) g' => "policy" = "propose" \/ "policy" = "policy" -> proposed_actions (st g') <> []) (fun _ _ => True) g).
      eapply wp_mono; [apply (wp_steps (keeps proposed_actions)), keeps_policy| |done].
      intros a g' H _. rewrite H. apply Hg. fold cur. rewrite E. set_solver. }
    eapply wp_mono; [apply wp_true| |done]. by intros a g' _ [?|?]. }
  eapply wp_mono; [exact H| |done]. intros b g' [Hs Hp] Hb. specialize (Hs Hb).
  intros Hin. apply Hp. by eapply successor_proposals.
Qed.

Lemma settles_loop n g :
  has_proposals (st g) ->
  match loop (W:=W) n g with (g', Ok (Some _)) => settled (st g') | _ => True end.
Proof.
  revert g. induction n as [|n IH]; intros g Hg; [done|]. simpl. unfold bind.
  assert (wp (step (W:=W)) (fun b g' => settles b g' /\ (b = false -> has_proposals (st g')))
            (fun _ _ => True) g) as Hs.
  { apply wp_step; [|done]. intros g1 (E & _ & _) _ _. rewrite <- E in Hg |- *.
    apply wp_and; [by apply settles_dispatch|by apply proposals_dispatch]. }
  unfold wp in Hs. destruct (step g) as [g' [[]|e]]; [by apply Hs| |done].
  apply IH. by apply Hs.
Qed.

Lemma settled_run n g :
  status (st g) = "created" \/ has_proposals (st g) ->
  match run (W:=W) n g with (g', Ok (Some _)) => settled (st g') | _ => True end.
Proof.
  intros Hg. unfold run, bind. destruct (start g) as [g1 [[]|e]] eqn:E; [|done].
  assert (has_proposals (st g1)) as H1.
  { apply start_state in E as [[_ E]|[Hne ->]]; [|by destruct Hg].
    intros Hin. rewrite E in Hin. set_solver. }
  pose proof (settles_loop n g1 H1) as Hl. unfold try_catch.
  destruct (loop n g1) as [g2 [o|e]]; [exact Hl|].
  pose proof (settled_handle e g2) as Hh. unfold wp in Hh.
  by destruct (handle e g2) as [g3 []].
Qed.

(** C15. A run always settles: a run that is new, or resumes at a state where
    it has proposals if it is at the gate, and that returns, has status
    completed, failed, cancelled or waiting for approval; it is never left
    [running]. *)
Theorem run_settles n g :
  status (st g) = "created" \/ has_proposals (st g) ->
  match run (W:=W) n g with (g', Ok (Some _)) => settled (st g') | _ => True end.
Proof. apply settled_run. Qed.
End KeepStatus.

Lemma run_settles_witness :
  let g := Fakes.graph0 Fakes.sample_run Fakes.default_world in
  status (st g) = "created" /\
  match run run_fuel g with (g', Ok (Some _)) => settled (st g') | _ => True end /\
  (run run_fuel g).2 = Ok (Some tt).
Proof.
  cbv zeta. split; [reflexivity|]. split; [|vm_compute; reflexivity].
  apply (run_settles run_fuel (Fakes.graph0 Fakes.sample_run Fakes.default_world)).
  left. reflexivity.
Defined.

(** ** Cancellation *)

(** Events, saves, and the cancellation sent to the specialist. *)
Definition cancel_only (o : obs) : Prop :=
  match o with OAppend _ | OSave _ | OCancelTask _ => True | _ => False end.

Section Cancellation.
Context {W : Type} `{!Deps W}.
Implicit Types (g : G W).

Definition cancelled_state (s : RunState) : Prop :=
  status s = "cancelled" /\ outcome s = Some "cancelled".

Lemma on_cancel_state g : cancelled_state (st (on_cancel g).1).
Proof.
  pose (f := fun s => (status s, outcome s)).
  unfold on_cancel. unfold bind at 1, upd, modify.
  set (g1 := mkG _ _ _ _).
  assert (steps (keeps (W:=W) f) (emit EventType.RUN_CANCELLED [("reason", VStr "cancel requested")] ;;*
    save ;;*
    let* s := get_st in
    match a2a_cancel with
    | Some cancel => try_catch (call [OCancelTask (obs_task_id s)] (cancel (obs_task_id s)))
                       (fun _ => ret tt)
    | None => ret tt
    end)) as H.
  { steps_walk ltac:(first [apply keeps_call | by apply keeps_emit | apply keeps_save]). }
  specialize (H g1). unfold keeps, f in H. simpl in H. by injection H.
Qed.

Lemma on_cancel_calls g : emits cancel_only g (on_cancel g).1.
Proof.
  unfold on_cancel. apply steps_bind; [tc_solve|apply emits_upd|intros _].
  apply steps_bind; [tc_solve|by apply records_emit|intros _].
  apply steps_bind; [tc_solve|by apply records_save|intros _].
  steps_walk ltac:(apply emits_call; by repeat constructor).
Qed.

Lemma cancelled_stops n g :
  cancelled (st g) = true -> status (st g) <> "created" ->
  cancelled_state (st (run (S n) g).1) /\
  exists ext, trace (run (S n) g).1 = trace g ++ ext /\ Forall cancel_only ext.
Proof.
  intros Hc Hs. apply String.eqb_neq in Hs.
  assert (exists g1, trace g1 = trace g /\ (run (S n) g).1 = (on_cancel g1).1) as (g1 & E1 & E).
  { unfold run, start, get_st. unfold bind at 1. rewrite bind_gets, Hs. unfold ret at 1.
    unfold try_catch. simpl. unfold step at 1, bind at 1 2.
    pose proof (wp_check_cancel g) as Hk. unfold wp in Hk.
    destruct (check_cancel g) as [g1 [[]|e]]; [destruct Hk; congruence|].
    destruct Hk as [-> Et]. exists g1. split; [done|]. simpl. unfold bind.
    by destruct (on_cancel g1) as [g2 []]. }
  rewrite E. split; [apply on_cancel_state|].
  destruct (on_cancel_calls g1) as (ext & Et & HF). exists ext. by rewrite Et, E1.
Qed.

(** A cancelled run stops at once: whatever state it stands in, it makes
    no further tool, specialist, model or policy call, and its status and
    outcome become [cancelled], even when recording that fails. *)
Theorem cancelled_run_stops n g :
  cancelled (st g) = true -> status (st g) <> "created" ->
  cancelled_state (st (run (S n) g).1) /\
  exists ext, trace (run (S n) g).1 = trace g ++ ext /\ Forall cancel_only ext.
Proof. apply cancelled_stops. Qed.
End Cancellation.

Definition cancelled_run : G Fakes.World :=
  Fakes.graph0 (set_cancelled true (set_current_state "execute_approved"
    (set_status "running" Fakes.sample_run))) Fakes.default_world.
Lemma cancelled_run_stops_witness :
  cancelled (st cancelled_run) = true /\ status (st cancelled_run) <> "created" /\
  (cancelled_state (st (run 14 cancelled_run).1) /\
   exists ext, trace (run 14 cancelled_run).1 = trace cancelled_run ++ ext
     /\ Forall cancel_only ext).
Proof.
  split; [reflexivity|]. split; [discriminate|].
  apply (cancelled_run_stops 13 cancelled_run); [reflexivity|discriminate].
Defined.

(** ** The policy gate *)

Section PolicyGate.
Context {W : Type} `{!Deps W}.
Implicit Types (g : G W).

Lemma evaluate_all_length env l :
  ends (fun ds (_ : G W) => length ds = length l) (evaluate_all env l).
Proof.
  induction l as [|a l IH]; simpl; [by apply ends_ret|]. apply ends_bind. intros d.
  eapply ends_bind_with; [exact IH|]. intros ds g H. rewrite wp_ret. simpl. by f_equal.
Qed.

Definition denied_state (ds : list dict) (s : RunState) : Prop :=
  policy_decisions s = ds /\ status s = "completed" /\ outcome s = Some "denied".

(** Deny is terminal: the policy step records one decision per proposed
    action; if any of them does not allow its action the run completes with
    outcome [denied], and only if all allow does it move to the approval
    gate. *)
Theorem policy_gate g :
  match do_policy g with
  | (g', Ok stop) =>
      length (policy_decisions (st g')) = length (proposed_actions (st g)) /\
      if stop : bool
      then Exists (fun d => is_denied d = true) (policy_decisions (st g'))
           /\ status (st g') = "completed" /\ outcome (st g') = Some "denied"
      else Forall (fun d => is_denied d = false) (policy_decisions (st g'))
           /\ current_state (st g') = "approval_pause"
  | (_, Exn _) => True
  end.
Proof.
  enough (wp (do_policy (W:=W)) (fun stop g' =>
      length (policy_decisions (st g')) = length (proposed_actions (st g)) /\
      if stop : bool
      then Exists (fun d => is_denied d = true) (policy_decisions (st g'))
           /\ status (st g') = "completed" /\ outcome (st g') = Some "denied"
      else Forall (fun d => is_denied d = false) (policy_decisions (st g'))
           /\ current_state (st g') = "approval_pause") (fun _ _ => True) g) as H
    by (unfold wp in H; by destruct (do_policy g) as [? []]).
  unfold do_policy. rewrite wp_bind. unfold get_st at 1. rewrite wp_gets. cbv zeta.
  rewrite wp_bind. eapply wp_mono; [apply evaluate_all_length| |done].
  intros ds g1 Hlen. rewrite wp_bind, wp_upd, wp_bind.
  eapply wp_mono; [apply (wp_steps (keeps policy_decisions)), keeps_save| |done].
  intros ? g2 H2. unfold keeps in H2. simpl in H2.
  destruct (is_nonempty _) eqn:Ed.
  - assert (Exists (fun d => is_denied d = true) ds) as Hex.
    { apply Exists_exists. destruct (filter _ ds) as [|d l] eqn:Ef; [done|].
      exists d. apply and_comm, (list_elem_of_filter (fun d => is_denied d = true)). rewrite Ef. left. }
    pose (f := fun s => (policy_decisions s, status s, outcome s)).
    rewrite wp_bind, wp_upd. set (g3 := mkG _ _ _ _).
    match goal with |- wp ?m _ _ _ => assert (steps (keeps (W:=W) f) m) as Hk by
      (unfold transition; steps_walk ltac:(first [apply keeps_call | by apply keeps_emit
        | apply keeps_save | by apply keeps_upd])) end.
    match goal with |- wp ?m _ _ _ => assert (ends (fun (b : bool) (_ : G W) => b = true) m) as Hb by
      (do 2 (apply ends_bind; intros ?); by apply ends_ret) end.
    eapply wp_mono; [apply wp_and; [apply Hb|]| |done].
    { eapply wp_mono; [apply (wp_steps (keeps f)), Hk|exact (fun _ _ H => H)|done]. }
    intros b g4 [-> H4]. unfold keeps, f in H4. simpl in H4. injection H4 as Hp Hs Ho.
    rewrite Hp, H2. split_and!; [done|done|congruence|congruence].
  - rewrite wp_bind, wp_upd, wp_bind.
    pose (f := fun s => (policy_decisions s, current_state s)).
    eapply wp_mono; [apply (wp_steps (keeps f)), keeps_save| |done].
    intros ? g3 H3. unfold keeps, f in H3. simpl in H3. injection H3 as Hp Hc.
    rewrite wp_ret, Hp, H2. split_and!; [done| |done].
    apply Forall_forall. intros d Hd. destruct (is_denied d) eqn:E; [|done].
    assert (d ∈ filter (fun d => is_denied d = true) ds) as Hin by by apply list_elem_of_filter.
    destruct (filter _ ds); [set_solver|done].
Qed.
End PolicyGate.
