(* ===== verification/GraphExact.v ===== *)
(** * What an approval brings about

    The counterpart of the approval gate: a resumed run that ends completed has
    made every write call that was approved, once and in the proposed order. *)

From stdpp Require Import base list strings.
From Stdlib Require Import ZArith Lia.
From S2P Require Import Prelude.
From S2P Require Import PyFloat.
From S2P Require Import PyValue.
From S2P Require Import PyTime.
From S2P Require Import ContractsOps.
From S2P Require Import RunState.
From S2P Require Import GraphTools.
From S2P Require Import Graph.
From S2P Require Import GraphSteps.
From S2P Require Import GraphFakes.
From S2P Require Import GraphLemmas.
From S2P Require Import GraphFlow.
From S2P Require Import GraphGate.
From S2P Require Import GraphOutcome.
Import GraphTools Graph Steps.

Local Open Scope py_scope.

(** The calls of other tools than reads *)
Definition writes_of : list (string * dict) -> list (string * dict) :=
  List.filter (fun c => negb (is_read c.1)).
Lemma writes_of_app l1 l2 : writes_of (l1 ++ l2) = writes_of l1 ++ writes_of l2.
Proof. apply List.filter_app. Qed.
Lemma write_calls_app l1 l2 : write_calls (l1 ++ l2) = write_calls l1 ++ write_calls l2.
Proof. apply omap_app. Qed.

Section Exact.
Context {W : Type} `{!Deps W}.
Implicit Types (g : G W).

(** [m] makes exactly the write calls [l], whether it returns or raises; *)
Definition performs {A} (l : list (string * dict)) (m : M (G W) A) : Prop :=
  forall g, exists ext, trace (m g).1 = trace g ++ ext /\ write_calls ext = l.
(** or at least when it returns. *)
Definition exactly_at {A} (l : list (string * dict)) (m : M (G W) A) g : Prop :=
  exists ext, trace (m g).1 = trace g ++ ext /\ (is_ok (m g).2 = true -> write_calls ext = l).
Definition exactly {A} (l : list (string * dict)) (m : M (G W) A) : Prop := forall g, exactly_at l m g.

Lemma performs_quiet {A} (m : M (G W) A) : steps (emits read_only) m -> performs [] m.
Proof. intros H g. destruct (H g) as (ext & E & HF). exists ext. by rewrite read_only_writes. Qed.
Lemma performs_post {A B} l (m : M (G W) A) (f : A -> M (G W) B) :
  performs l m -> (forall a, performs [] (f a)) -> performs l (bind m f).
Proof.
  intros Hm Hf g. destruct (Hm g) as (e1 & E1 & H1). unfold bind.
  destruct (m g) as [g' [a|e]]; simpl in *; [|by exists e1].
  destruct (Hf a g') as (e2 & E2 & H2). exists (e1 ++ e2).
  rewrite E2, E1, app_assoc, write_calls_app, H1, H2, app_nil_r. done.
Qed.
Lemma performs_try {A} l (m : M (G W) A) h :
  performs l m -> (forall e, performs [] (h e)) -> performs l (try_catch m h).
Proof.
  intros Hm Hh g. destruct (Hm g) as (e1 & E1 & H1). unfold try_catch.
  destruct (m g) as [g' [a|e]]; simpl in *; [by exists e1|].
  destruct (Hh e g') as (e2 & E2 & H2). exists (e1 ++ e2).
  rewrite E2, E1, app_assoc, write_calls_app, H1, H2, app_nil_r. done.
Qed.
Lemma performs_invoke tool args : performs (writes_of [(tool, args)]) (invoke (W:=W) tool args).
Proof.
  intros g. unfold invoke, call. destruct (mcp_invoke _ _ _ (world g)) as [w r].
  eexists. split; [done|]. unfold writes_of, write_calls. simpl. by destruct (is_read tool).
Qed.
(** A guarded action is called, even when it fails. *)
Lemma performs_run_action tool id input :
  performs (writes_of [(tool, input)]) (run_action (W:=W) tool id input).
Proof.
  unfold run_action. apply performs_try.
  - apply performs_post; [apply performs_invoke|]. intros out. apply performs_quiet.
    apply steps_bind; [tc_solve|apply steps_lift; tc_solve|]. intros d. apply emits_emit, quiet_read_only.
  - intros e. apply performs_quiet. apply steps_bind; [tc_solve|apply emits_emit, quiet_read_only|].
    intros _. apply emits_upd.
Qed.

Lemma exactly_performs {A} l (m : M (G W) A) : performs l m -> exactly l m.
Proof. intros H g. destruct (H g) as (ext & E & Hw). by exists ext. Qed.
Lemma exactly_quiet {A} (m : M (G W) A) : steps (emits read_only) m -> exactly [] m.
Proof. intros H. by apply exactly_performs, performs_quiet. Qed.
Lemma exactly_bind {A B} l1 l2 (m : M (G W) A) (f : A -> M (G W) B) g :
  exactly_at l1 m g -> (forall a, exactly l2 (f a)) -> exactly_at (l1 ++ l2) (bind m f) g.
Proof.
  intros (e1 & E1 & H1) Hf. unfold exactly_at, bind.
  destruct (m g) as [g' [a|e]]; simpl in *; [|by exists e1].
  destruct (Hf a g') as (e2 & E2 & H2). exists (e1 ++ e2). split; [by rewrite E2, E1, app_assoc|].
  intros Hok. by rewrite write_calls_app, H1, H2.
Qed.
Lemma exactly_pre {A B} l (m : M (G W) A) (f : A -> M (G W) B) :
  steps (emits read_only) m -> (forall a, exactly l (f a)) -> exactly l (bind m f).
Proof. intros Hm Hf g. apply (exactly_bind [] l); [by apply exactly_quiet|done]. Qed.
Lemma exactly_post {A B} l (m : M (G W) A) (f : A -> M (G W) B) :
  exactly l m -> (forall a, steps (emits read_only) (f a)) -> exactly l (bind m f).
Proof.
  intros Hm Hf g. rewrite <- (app_nil_r l). apply exactly_bind; [done|]. intros a. by apply exactly_quiet.
Qed.
Lemma exactly_lift {A B} l (r : result A) (f : A -> M (G W) B) :
  (forall a, r = Ok a -> exactly l (f a)) -> exactly l (bind (lift_result r) f).
Proof.
  intros H g. unfold exactly_at, bind, lift_result. destruct r as [a|e]; [by apply H|].
  exists []. by rewrite app_nil_r.
Qed.
Lemma exactly_for_each {A} (calls : A -> list (string * dict)) l (body : A -> M (G W) unit) :
  (forall x, exactly (writes_of (calls x)) (body x)) -> exactly (writes_of (flat_map calls l)) (for_each l body).
Proof.
  intros H. induction l as [|x l IH]; simpl.
  - apply exactly_quiet, steps_ret; tc_solve.
  - rewrite writes_of_app. intros g. apply exactly_bind; [apply H|]. by intros _.
Qed.

Lemma exactly_execute_one approved action :
  exactly (writes_of (action_call approved action)) (execute_one (W:=W) approved action).
Proof.
  unfold execute_one, action_call. apply exactly_lift. intros id ->.
  destruct (existsb _ approved) eqn:Ea; cbn [negb].
  2: { destruct (dict_item "tool_name" action), (action_input action); apply exactly_quiet, steps_ret; tc_solve. }
  apply exactly_lift. intros tool ->. apply exactly_lift. intros input ->. cbv zeta.
  apply exactly_lift. intros spec _.
  apply exactly_pre; [destruct (String.eqb _ _); [apply steps_raise|apply steps_ret]; tc_solve|].
  intros _. apply exactly_pre; [apply emits_check_cancel, quiet_read_only|].
  intros _. apply exactly_pre; [apply emits_spend, quiet_read_only|].
  intros _. apply exactly_pre; [apply emits_emit, quiet_read_only|].
  intros _. apply exactly_performs, performs_run_action.
Qed.

(** A state whose approvals can be read, and the write calls they allow *)
Definition allows (s : RunState) (calls : list (string * dict)) : Prop :=
  is_ok (approved_ids s) = true /\ calls = writes_of (approved_calls s).
Lemma exactly_do_execute g :
  exists ext, trace (do_execute (W:=W) g).1 = trace g ++ ext
    /\ (is_ok (do_execute (W:=W) g).2 = true -> allows (st g) (write_calls ext)).
Proof.
  unfold allows, do_execute, approved_calls, get_st. rewrite bind_gets.
  destruct (approved_ids (st g)) as [approved|e]; [|by exists []; rewrite app_nil_r].
  enough (forall s, exactly (writes_of (flat_map (action_call approved) (proposed_actions s)))
    ((if is_nonempty (proposed_actions s) && negb (is_nonempty approved)
      then raise (RuntimeError "execute_approved without any approved approval row")
      else ret tt) ;;*
     for_each (proposed_actions s) (execute_one approved) ;;*
     upd (W:=W) (fun s => set_status "running" (set_current_state "verify" s)) ;;*
     save)) as H.
  { destruct (H (st g) g) as (ext & E & Hx). exists ext. split; [exact E|]. intros Hok.
    split; [done|by apply Hx]. }
  intros s. apply exactly_pre; [case_match; [apply steps_raise|apply steps_ret]; tc_solve|]. intros _.
  apply exactly_post; [apply exactly_for_each, exactly_execute_one|].
  intros _. apply steps_bind; [tc_solve|apply emits_upd|]. intros _. apply emits_save, quiet_read_only.
Qed.

(** The loop from the execution on *)
Lemma loop_exact n g :
  current_state (st g) = "execute_approved" ->
  exists ext, trace (loop (W:=W) (S n) g).1 = trace g ++ ext
    /\ (is_ok (loop (W:=W) (S n) g).2 = true -> allows (st g) (write_calls ext)).
Proof.
  intros Hcur.
  assert (exists ext, trace (step (W:=W) g).1 = trace g ++ ext
    /\ (is_ok (step (W:=W) g).2 = true -> allows (st g) (write_calls ext))) as (e1 & E1 & H1).
  { enough (wp (step (W:=W)) (fun _ => extends (fun ext => allows (st g) (write_calls ext)) g)
      (fun _ => extends (fun _ => True) g) g) as Hw.
    { unfold wp in Hw. destruct (step g) as [g' [b|e]]; destruct Hw as (ext & E & Hx); by exists ext. }
    apply wp_step; [|by intros e g' E; apply extends_same].
    intros g1 (Est & _ & Etr) _ _. rewrite Hcur.
    change (wp (do_execute ;;* ret false) (fun _ => extends (fun ext => allows (st g) (write_calls ext)) g)
      (fun _ => extends (fun _ => True) g) g1).
    destruct (exactly_do_execute g1) as (ext & E & Hx). rewrite Est in Hx. rewrite wp_bind. unfold wp.
    destruct (do_execute g1) as [g2 [u|e]]; simpl in *; exists ext; rewrite E, Etr; split; auto. }
  simpl loop. unfold bind. destruct (step g) as [g1 [[]|e]] eqn:E; simpl in *;
    [by exists e1| |by exists e1].
  assert (emits read_only g1 (loop n g1).1) as (e2 & E2 & H2).
  { apply (read_only_loop after_execution); [by intros cur [->| ->]|apply after_execution_next|].
    apply step_next in E. rewrite Hcur in E. injection E as <-. by left. }
  exists (e1 ++ e2). split; [by rewrite E2, E1, app_assoc|]. intros _.
  rewrite write_calls_app, (read_only_writes e2 H2), app_nil_r. by apply H1.
Qed.

(** A failure or a cancellation is no completion. *)
Lemma not_completed {A} v h (rest : M (G W) A) g :
  v <> "completed" -> (forall s, status (h s) = v) -> steps (keeps status) rest ->
  status (st ((upd (W:=W) h ;;* rest) g).1) <> "completed".
Proof.
  intros Hv Hh Hr. unfold bind, upd, modify. set (g1 := mkG _ _ _ _). specialize (Hr g1). unfold keeps in Hr.
  rewrite Hr. subst g1. simpl. by rewrite Hh.
Qed.
Ltac status_leaf :=
  first [ apply keeps_call | by apply keeps_emit | apply keeps_save | apply keeps_upd; intros ?; reflexivity ].
Lemma handled_not_completed e g : status (st (handle (W:=W) e g).1) <> "completed".
Proof.
  assert (status (st (on_cancel (W:=W) g).1) <> "completed") as Hc by by destruct (on_cancel_state g) as [-> _].
  assert (forall m, status (st (on_budget (W:=W) m g).1) <> "completed") as Hb.
  { intros m. unfold on_budget. apply (not_completed "failed"); [done..|]. steps_walk status_leaf. }
  assert (forall e, status (st (on_exception (W:=W) e g).1) <> "completed") as He.
  { intros e'. unfold on_exception. apply (not_completed "failed"); [done..|]. steps_walk status_leaf. }
  destruct e; simpl; auto.
Qed.

(** The calls of a run that stands at the execution, when it ends completed *)
Definition executes_all (s : RunState) g g' : Prop :=
  exists ext, trace g' = trace g ++ ext /\ (status (st g') = "completed" -> allows s (write_calls ext)).
Lemma run_executes_all n g :
  current_state (st g) = "execute_approved" -> status (st g) <> "created" ->
  executes_all (st g) g (run (S n) g).1.
Proof.
  intros Hcur Hst. apply String.eqb_neq in Hst.
  assert (run (S n) g = try_catch (loop (S n)) (fun e => handle e ;;* ret (Some tt)) g) as ->.
  { unfold run, start, get_st. unfold bind at 1. rewrite bind_gets. by rewrite Hst. }
  destruct (loop_exact n g Hcur) as (e1 & E1 & H1). unfold executes_all, try_catch.
  destruct (loop (S n) g) as [g1 [o|e]]; cbn [fst snd] in *; [exists e1; by split; [|intros _; apply H1]|].
  assert (emits read_only g1 (handle e g1).1) as (e2 & E2 & _).
  { apply emits_handle; [apply quiet_read_only|done]. }
  pose proof (handled_not_completed e g1) as Hn. exists (e1 ++ e2). unfold bind.
  destruct (handle e g1) as [g2 [u|e']]; simpl in *; (split; [by rewrite E2, E1, app_assoc|by intros ?%Hn]).
Qed.

(** An approval that resumes the run *)
Lemma resume_executes_all n approver reason g :
  status (st g) = "waiting_for_approval" ->
  executes_all (approve_all approver reason (st g)) g
    (resume_approved (S n) approver reason g).1.
Proof.
  intros Hst. set (l := approve_all _ _ _).
  enough (wp (resume_approved (S n) approver reason) (fun _ => executes_all l g) (fun _ => executes_all l g) g) as Hw.
  { unfold wp in Hw. by destruct (resume_approved (S n) approver reason g) as [? []]. }
  unfold resume_approved. rewrite wp_bind, wp_upd. set (g0 := mkG _ _ _ _).
  pose (R := both (keeps (W:=W) gate_view) (emits read_only)).
  assert (forall g', R g0 g' -> executes_all l g g') as HR.
  { intros g' [Hk (ext & E & _)]. exists ext. split; [done|]. unfold keeps, gate_view in Hk.
    injection Hk as _ _ ->. simpl. by rewrite Hst. }
  rewrite wp_bind. eapply wp_mono; [apply (wp_steps R)| |intros; by apply HR].
  { split; [by apply keeps_emit|apply emits_emit, quiet_read_only]. }
  intros [] g1 H1. rewrite wp_bind. eapply wp_mono; [apply (wp_steps R)| |intros; apply HR; by etransitivity].
  { split; [apply keeps_save|apply emits_save, quiet_read_only]. }
  intros [] g2 H2. rewrite wp_bind, wp_upd. set (g3 := mkG _ _ _ _).
  assert (R g0 g2) as [Hk (e2 & E2 & Hw2%read_only_writes)] by by etransitivity.
  unfold keeps, gate_view in Hk. simpl in Hk. injection Hk as Hp Ha Hs.
  enough (executes_all l g (run (S n) g3).1) as Hrun by (unfold wp; by destruct (run (S n) g3) as [? []]).
  destruct (run_executes_all n g3) as (e3 & E3 & Hw3); [done|simpl; by rewrite Hs, Hst|].
  exists (e2 ++ e3). split; [rewrite E3; simpl; by rewrite E2, app_assoc|]. intros Hc.
  rewrite write_calls_app, Hw2. specialize (Hw3 Hc). unfold allows, l, approved_calls, approved_ids in *. simpl in *.
  by rewrite Hp, Ha in Hw3.
Qed.
End Exact.

Section Approval.
Context {W : Type} `{!Deps W}.
Implicit Types (g : G W).

(** C3. The approval gate, exactly: resuming a run makes no other write call than
    those of the proposed actions whose approval row exists, each at most once and
    in the proposed order; when the decision is not [approved] it only records
    events and states; and when it is and the run ends completed, every one of
    those calls was made. *)
Theorem resume_executes_approved n decision approver reason g :
  let s := approve_all approver reason (st g) in
  let g' := (resume_after_approval (S n) decision approver reason g).1 in
  exists ext, trace g' = trace g ++ ext
    /\ write_calls ext `sublist_of` approved_calls s
    /\ (PyStr.lower decision <> "approved" -> Forall record_only ext)
    /\ (PyStr.lower decision = "approved" -> current_state (st g) = "approval_pause" ->
        status (st g) = "waiting_for_approval" -> status (st g') = "completed" ->
        write_calls ext = writes_of (approved_calls s)).
Proof.
  intros s g'. destruct (resume_executes_only_approved (S n) decision approver reason g) as (ext & E & Hsub & Hrec).
  exists ext. split_and!; [done..|]. intros Hd Hcur Hst Hdone.
  pose proof (resume_cases (S n) decision approver reason g) as Hc. cbv zeta in Hc.
  rewrite Hcur, Hst, Hd in Hc. simpl in Hc.
  destruct (resume_executes_all n approver reason g Hst) as (ext' & E' & Hx).
  unfold g' in Hdone. rewrite Hc in E, Hdone. rewrite E in E'. apply app_inv_head in E' as <-.
  by apply Hx.
Qed.
End Approval.

(** The default clients: the ticket is opened, once. *)
Lemma resume_executes_approved_witness :
  let g := (run run_fuel (Fakes.graph0 Fakes.sample_run Fakes.default_world)).1 in
  let g' := (resume_after_approval 14 "Approved" "alice" None g).1 in
  status (st g') = "completed"
  /\ exists ext, trace g' = trace g ++ ext
     /\ write_calls ext = writes_of (approved_calls (approve_all "alice" None (st g)))
     /\ length (write_calls ext) = 1.
Proof.
  cbv zeta. split; [vm_compute; reflexivity|].
  destruct (resume_executes_approved 13 "Approved" "alice" None
    (run run_fuel (Fakes.graph0 Fakes.sample_run Fakes.default_world)).1) as (ext & E & _ & _ & Hx).
  exists ext. split; [exact E|].
  rewrite Hx by (vm_compute; reflexivity). split; [reflexivity|vm_compute; reflexivity].
Defined.
