(* ===== verification/GraphGuards.v ===== *)
(** * The guards of the graph

    The circuit breaker refines a count of consecutive failures; the tool-call
    gate and the construction of proposed actions do what they promise; the
    policy evaluator and the catalog agree with them; and what a gateway outage
    leads to. *)

From stdpp Require Import base list strings pretty sets gmap.
From Stdlib Require Import ZArith Lia Ascii.
From S2P Require Import Prelude.
From S2P Require Import PyFloat.
From S2P Require Import PyValue.
From S2P Require Import Regex.
From S2P Require Import PyTime.
From S2P Require Import Contracts.
From S2P Require Import ContractsRun.
From S2P Require Import ContractsOps.
From S2P Require Import Catalog.
From S2P Require Import RunState.
From S2P Require Import GraphTools.
From S2P Require Import Graph.
From S2P Require Import GraphSteps.
From S2P Require Import GraphFakes.
From S2P Require Import GraphLemmas.
From S2P Require Import GraphFlow.
Import GraphTools Graph Steps.

Local Open Scope py_scope.

(** ** Circuit breaker

    The abstract state is the history of outcomes, newest first. *)

Section Breaker.
Definition outcome_step (b : CircuitBreaker.t) (e : string * bool) : CircuitBreaker.t :=
  if e.2 then CircuitBreaker.record_success e.1 b else CircuitBreaker.record_failure e.1 b.

Fixpoint replay (threshold : Z) (history : list (string * bool)) : CircuitBreaker.t :=
  match history with
  | [] => CircuitBreaker.init threshold
  | e :: older => outcome_step (replay threshold older) e
  end.

(** Failures of [key] since its last success. *)
Fixpoint streak (key : string) (history : list (string * bool)) : Z :=
  match history with
  | [] => 0
  | (k, ok) :: older =>
      if String.eqb k key then (if ok : bool then 0 else streak key older + 1)
      else streak key older
  end.

Lemma streak_nonneg key h : (0 <= streak key h)%Z.
Proof. induction h as [|[k []] h IH]; simpl; try case_match; lia. Qed.

Lemma replay_threshold t h : CircuitBreaker.threshold (replay t h) = t.
Proof. induction h as [|[k []] h IH]; simpl; done. Qed.

Lemma replay_count t key h : CircuitBreaker.count key (replay t h) = streak key h.
Proof.
  unfold CircuitBreaker.count. induction h as [|[k ok] h IH]; simpl; [done|].
  unfold outcome_step. simpl. destruct (String.eqb_spec k key) as [->|Hne].
  - destruct ok; simpl; rewrite lookup_insert_eq; [done|].
    unfold CircuitBreaker.count. by rewrite IH.
  - destruct ok; simpl; by rewrite lookup_insert_ne.
Qed.

Lemma replay_open t key h :
  (0 < t)%Z -> CircuitBreaker.is_open key (replay t h) = (t <=? streak key h)%Z.
Proof.
  intros Ht. unfold CircuitBreaker.is_open.
  enough (key ∈ CircuitBreaker.opened (replay t h) <-> (t <= streak key h)%Z) as H.
  { apply eq_bool_prop_intro. rewrite bool_decide_spec, H. by rewrite Is_true_true, Z.leb_le. }
  induction h as [|[k ok] h IH]; simpl; [split; [set_solver|lia]|].
  unfold outcome_step. simpl. destruct ok; simpl.
  - destruct (String.eqb_spec k key) as [->|]; [split; [set_solver|lia]|set_solver].
  - rewrite replay_threshold, replay_count.
    destruct (String.eqb_spec k key) as [->|Hne].
    + destruct (Z.leb_spec t (streak key h + 1)); [split; [lia|set_solver]|].
      rewrite IH. lia.
    + destruct (t <=? _)%Z; [|done]. set_solver.
Qed.

(** C37. The circuit breaker refines its specification: after any history of
    successes and failures of any dependencies, [guard key] lets a call
    through exactly when fewer than [threshold] failures of [key] followed
    its last success. *)
Theorem breaker_refines threshold key history :
  (0 < threshold)%Z ->
  CircuitBreaker.guard key (replay threshold history) =
    if (threshold <=? streak key history)%Z
    then Exn (CircuitOpenError ("circuit open for " +:+ key)) else Ok tt.
Proof. intros Ht. unfold CircuitBreaker.guard. by rewrite replay_open. Qed.
End Breaker.

Lemma breaker_refines_witness :
  (0 < CircuitBreaker.THRESHOLD)%Z /\
  CircuitBreaker.guard "mcp" (replay CircuitBreaker.THRESHOLD
    [("mcp", false); ("a2a", true); ("mcp", false); ("mcp", false); ("mcp", true)])
  = Exn (CircuitOpenError "circuit open for mcp").
Proof.
  split; [reflexivity|].
  exact (breaker_refines CircuitBreaker.THRESHOLD "mcp"
    [("mcp", false); ("a2a", true); ("mcp", false); ("mcp", false); ("mcp", true)] eq_refl).
Defined.

(** ** The tool-call gate *)

Definition gate_checks (tool : string) (args : dict) (spec : ToolSpec) : Prop :=
  Regex.match_start TOOL_NAME_RE tool = true /\
  Regex.search SHELL_HINT_RE tool = false /\
  Regex.search SHELL_HINT_RE (py_str (VDict args)) = false /\
  dget tool TOOL_REGISTRY = Some spec /\
  (Z.of_nat (json_size (VDict args)) <= 32768)%Z /\ length args <= 50.

Lemma validate_iff tool args spec :
  validate_tool_call tool args = Ok spec <-> gate_checks tool args spec.
Proof.
  unfold validate_tool_call, gate_checks.
  destruct (Regex.match_start _ _); [|naive_solver].
  destruct (Regex.search _ tool); [naive_solver|].
  destruct (Regex.search _ _); [naive_solver|]. cbn [negb orb].
  destruct (dget tool TOOL_REGISTRY) as [s|]; [|naive_solver].
  destruct (Z.leb_spec (Z.of_nat (json_size (VDict args))) 32768) as [Hs|Hs];
    [|split; [done|intros (_ & _ & _ & _ & ? & _); lia]].
  destruct (Nat.leb_spec (length args) 50) as [Hl|Hl];
    [|split; [done|intros (_ & _ & _ & _ & _ & ?); lia]].
  naive_solver.
Qed.

Lemma validate_error_kind tool args e :
  validate_tool_call tool args = Exn e -> exists msg, e = ValueError msg.
Proof. unfold validate_tool_call. intros H. repeat case_match; naive_solver. Qed.

(** The literal shell operators the pattern lists. *)
Definition shell_operators : list string := ["&&"; "||"; "`"; "$("].

Lemma shell_operator_found m s :
  m ∈ shell_operators -> PyStr.contains m s = true -> Regex.search SHELL_HINT_RE s = true.
Proof.
  intros Hm Hc. apply (search_literal_alt _ s (PyStr.chars m)).
  - intros E. unfold shell_operators in Hm.
    repeat (apply elem_of_cons in Hm as [->|Hm]; [done|]). by apply elem_of_nil in Hm.
  - intros pr post. unfold shell_operators in Hm.
    unfold SHELL_HINT_RE. cbn [Regex.alts].
    apply elem_of_cons in Hm as [->|Hm].
    { eexists. do 2 apply Regex.m_alt_r. apply Regex.m_alt_l. repeat econstructor. }
    apply elem_of_cons in Hm as [->|Hm].
    { eexists. do 3 apply Regex.m_alt_r. apply Regex.m_alt_l. repeat econstructor. }
    apply elem_of_cons in Hm as [->|Hm].
    { eexists. do 4 apply Regex.m_alt_r. apply Regex.m_alt_l. repeat econstructor. }
    apply elem_of_cons in Hm as [->|Hm]; [|by apply elem_of_nil in Hm].
    eexists. do 5 apply Regex.m_alt_r. apply Regex.m_alt_l. repeat econstructor.
  - unfold PyStr.of_chars, PyStr.chars. by rewrite String.string_of_list_ascii_of_string.
Qed.

(** Model text is never a command: [validate_tool_call] accepts exactly the
    calls of registered tools with a well-formed name, no shell hint in the name
    or in the arguments, and arguments within the size limits; every other call
    raises [ValueError], in particular any whose arguments contain one of the
    operators [&&], [||], a backtick or [$(]. *)
Theorem validate_tool_call_spec tool args :
  (forall spec, validate_tool_call tool args = Ok spec <-> gate_checks tool args spec) /\
  (forall e, validate_tool_call tool args = Exn e -> exists msg, e = ValueError msg) /\
  (forall m, m ∈ shell_operators -> PyStr.contains m (py_str (VDict args)) = true ->
     exists msg, validate_tool_call tool args = Exn (ValueError msg)).
Proof.
  split_and!; [apply validate_iff|apply validate_error_kind|].
  intros m Hm Hc. pose proof (shell_operator_found m _ Hm Hc) as Hs.
  destruct (validate_tool_call tool args) as [spec|e] eqn:E.
  - apply validate_iff in E as (_ & _ & H & _). congruence.
  - apply validate_error_kind in E as [msg ->]. by exists msg.
Qed.

(** ** Proposed actions *)

Lemma build_proposed_action_ok run tenant tool reason input risk rollback dry d :
  build_proposed_action run tenant tool reason input risk rollback dry = Ok d ->
  exists spec, validate_tool_call tool input = Ok spec /\
    dget "requires_approval" d = Some (VBool (requires_approval spec risk)) /\
    dget "tool_name" d = Some (VStr (Field.trim tool)) /\
    dget "idempotency_key" d = Some (VStr (Field.trim (idempotency_key run tool input))).
Proof.
  unfold build_proposed_action, rbind. intros H.
  destruct (validate_tool_call tool input) as [spec|]; [|done]. exists spec. split; [done|].
  destruct (RiskLevel.parse risk) as [r|]; [|done].
  destruct (validate _) as [a|] eqn:Ev; [|done]. apply validate_ok in Ev as (-> & _ & _).
  unfold ProposedAction.dump, rbind in H. destruct (dump_dict _); [|done]. by injection H as <-.
Qed.

Lemma write_needs_approval tool spec risk :
  dget tool TOOL_REGISTRY = Some spec -> category spec <> "read" -> category spec <> "analysis" ->
  requires_approval spec risk = true.
Proof.
  intros H%dget_in Hr Ha. vm_compute in H.
  repeat (apply elem_of_cons in H as [[= -> ->]|H];
    [first [by destruct Hr | by destruct Ha | by unfold requires_approval; case_match]|]).
  by apply elem_of_nil in H.
Qed.

(** Consequential actions always ask for approval: an action built for a
    tool that writes, or with high or critical risk, carries
    [requires_approval = True]; it names a validated call, and two proposals of
    the same call in the same run carry the same idempotency key. *)
Theorem proposed_actions_need_approval run tenant tool reason input risk rollback dry d :
  build_proposed_action run tenant tool reason input risk rollback dry = Ok d ->
  (exists spec, validate_tool_call tool input = Ok spec /\
     (category spec = "write" \/ category spec = "destructive" \/ risk = "high"
        \/ risk = "critical" -> dget "requires_approval" d = Some (VBool true))) /\
  (forall reason' risk' rollback' dry' d',
     build_proposed_action run tenant tool reason' input risk' rollback' dry' = Ok d' ->
     dget "idempotency_key" d' = dget "idempotency_key" d).
Proof.
  intros H. apply build_proposed_action_ok in H as (spec & Hv & Ha & _ & Hk). split.
  - exists spec. split; [done|]. intros Hc. rewrite Ha. do 2 f_equal.
    destruct Hc as [Hc|[Hc|[->| ->]]]; unfold requires_approval; try done.
    + rewrite Hc. by repeat case_match.
    + rewrite Hc. by repeat case_match.
  - intros r' k' b' y' d' H'. apply build_proposed_action_ok in H' as (_ & _ & _ & _ & Hk').
    congruence.
Qed.

Definition sample_action : result dict :=
  build_proposed_action "run_1" "tenant_a" "ticket.create" "Track investigation"
    [("title", VStr "Investigate checkout-api")] "low" None false.
Lemma proposed_actions_need_approval_witness :
  match sample_action with
  | Ok d => exists spec,
      validate_tool_call "ticket.create" [("title", VStr "Investigate checkout-api")] = Ok spec
      /\ dget "requires_approval" d = Some (VBool true)
  | Exn _ => False
  end.
Proof.
  destruct sample_action as [d|e] eqn:E; [|vm_compute in E; discriminate].
  destruct (proposed_actions_need_approval "run_1" "tenant_a" "ticket.create"
    "Track investigation" [("title", VStr "Investigate checkout-api")] "low" None false d E)
    as [(spec & Hv & Ha) _].
  exists spec. split; [exact Hv|]. apply Ha. left.
  vm_compute in Hv. injection Hv as <-. reflexivity.
Defined.

(** ** Policy and catalog *)

(** The policy evaluator denies by default what must be denied and asks for
    approval otherwise: a decision denies exactly on a tenant mismatch or for a
    destructive effect or tool, requires approval exactly when it allows an
    effect, and never both; a senior tool in production also needs the
    senior-operator scope. *)
Theorem evaluate_action_spec tool side tenant resource env run trace corr d :
  Policies.evaluate_action tool side tenant resource env run trace corr = Ok d ->
  let denied := Policies.tenant_mismatch tenant resource || String.eqb side "destructive"
                || Policies.mem tool Policies.DESTRUCTIVE_TOOLS in
  PolicyDecision.allowed d = negb denied /\
  PolicyDecision.requires_approval d = negb denied && negb (String.eqb side "none") /\
  (PolicyDecision.requires_approval d = true -> Policies.mem tool Policies.SENIOR_TOOLS = true ->
   env = "prod" -> "senior-operator" ∈ PolicyDecision.required_scopes d).
Proof.
  unfold Policies.evaluate_action. cbv zeta. intros H.
  destruct (Policies.tenant_mismatch tenant resource); cbn [orb].
  { apply validate_ok in H as (-> & _ & _). by split_and!. }
  destruct (_ || Policies.mem tool Policies.DESTRUCTIVE_TOOLS).
  { apply validate_ok in H as (-> & _ & _). by split_and!. }
  destruct (String.eqb side "none").
  { apply validate_ok in H as (-> & _ & _). by split_and!. }
  destruct (Policies.mem tool Policies.SENIOR_TOOLS && String.eqb env "prod") eqn:Es;
    apply validate_ok in H as (-> & _ & _); split_and!; try done.
  - intros _ _ _. change ("senior-operator" ∈ ["case.approve"; "senior-operator"]). set_solver.
  - intros _ Hm ->. rewrite Hm in Es. done.
Qed.

Lemma evaluate_action_spec_witness :
  match Policies.evaluate_action "deployment.rollback" "external_write" (Some "a") (Some "a")
          "prod" None None None with
  | Ok d => "senior-operator" ∈ PolicyDecision.required_scopes d
  | Exn _ => False
  end.
Proof.
  destruct (Policies.evaluate_action "deployment.rollback" "external_write" (Some "a") (Some "a")
              "prod" None None None) as [d|e] eqn:E; [|vm_compute in E; discriminate].
  refine (proj2 (proj2 (evaluate_action_spec "deployment.rollback" "external_write" (Some "a")
    (Some "a") "prod" None None None d E)) _ _ _); [|reflexivity|reflexivity].
  vm_compute in E. injection E as <-. reflexivity.
Defined.

(** The default policy asks for approval exactly where the catalog does. *)
Definition policy_agrees (env : string) (kv : string * ToolMetadata.t) : bool :=
  match Policies.evaluate_action kv.1 (SideEffect.value (ToolMetadata.side_effect kv.2))
          None None env None None None with
  | Ok d => PolicyDecision.allowed d
            && Bool.eqb (PolicyDecision.requires_approval d) (ToolMetadata.approval_required kv.2)
  | Exn _ => false
  end.

(** The catalog is consistent: every entry is a valid [ToolMetadata] under
    its own name, names are distinct, [READ_TOOLS] and [WRITE_TOOLS] are the
    tools of those categories and the registry the graph derives has the same
    reads, and in every environment the default policy allows each tool and
    asks for approval exactly when the catalog says so. *)
Theorem catalog_consistent env :
  forallb Catalog.metadata_ok Catalog.TOOL_METADATA = true /\
  NoDup (map fst Catalog.TOOL_METADATA) /\
  map fst (filter (fun kv => ToolMetadata.category kv.2 = ToolCategory.READ)
             Catalog.TOOL_METADATA) = Catalog.READ_TOOLS /\
  map fst (filter (fun kv => ToolMetadata.category kv.2 = ToolCategory.WRITE)
             Catalog.TOOL_METADATA) = Catalog.WRITE_TOOLS /\
  READ_TOOLS = Catalog.READ_TOOLS /\
  forallb (policy_agrees env) Catalog.TOOL_METADATA = true.
Proof.
  split_and!; [by vm_compute|by apply (bool_decide_unpack _); vm_compute| | | |];
    [by vm_compute..|].
  unfold policy_agrees, Policies.evaluate_action. destruct (String.eqb env "prod"); by vm_compute.
Qed.

(** ** Gateway outage *)

Section Outage.
Context {W : Type} `{!Deps W}.
Implicit Types (g : G W).

Definition same_breaker g g' : Prop := breaker g' = breaker g.
#[local] Instance same_breaker_preorder : PreOrder same_breaker.
Proof. split; [done|]. unfold same_breaker. intros g1 g2 g3 H1 H2. congruence. Qed.

Lemma sb_call {A} o (m : M W A) : steps same_breaker (call o m).
Proof. intros g. unfold call. by destruct (m (world g)). Qed.
Ltac sb_leaf :=
  first [ apply sb_call | by intros ?
        | intros ?; unfold same_breaker; simpl; by repeat case_match ].

Lemma sb_emit ty d : steps same_breaker (emit (W:=W) ty d).
Proof. unfold emit, emit_as. steps_walk sb_leaf. Qed.
Lemma sb_check_cancel : steps same_breaker (check_cancel (W:=W)).
Proof. unfold check_cancel. steps_walk sb_leaf. Qed.
Lemma sb_spend f : steps same_breaker (spend (W:=W) f).
Proof. unfold spend, check_budgets, exceeded. steps_walk sb_leaf. Qed.

(** The gateway answers no call. *)
Definition gateway_down : Prop :=
  forall tool args timeout w, exists w' e, mcp_invoke (W:=W) tool args timeout w = (w', Exn e).
Context (Hdown : gateway_down).

Lemma down_attempt tool args g :
  wp (attempt (W:=W) tool args) (fun _ _ => False) (fun _ => same_breaker g) g.
Proof using Hdown.
  unfold attempt. rewrite wp_bind.
  eapply wp_mono; [apply (wp_steps same_breaker), sb_check_cancel| |done].
  intros ? g1 H1. rewrite wp_bind.
  eapply wp_mono; [apply (wp_steps same_breaker), sb_spend| |unfold same_breaker in *; intros; congruence].
  intros ? g2 H2. rewrite wp_bind.
  eapply wp_mono; [apply (wp_steps same_breaker), sb_call| |unfold same_breaker in *; intros; congruence].
  intros ? g3 H3. rewrite wp_bind. unfold invoke, call, wp at 1.
  destruct (Hdown tool args (mcp_timeout_for tool) (world g3)) as (w & e & ->).
  unfold same_breaker in *. simpl. congruence.
Qed.

Lemma down_attempts n tool args g :
  wp (attempts (W:=W) n tool args) (fun r g' => same_breaker g g' /\ exists e, r = inr e)
     (fun _ _ => True) g.
Proof using Hdown.
  revert g. induction n as [|n IH]; intros g; simpl; rewrite wp_try, wp_bind;
    (eapply wp_mono; [apply down_attempt|done|]); intros e g' H.
  - repeat case_match; try done; rewrite wp_ret; eauto.
  - repeat case_match; try done; first [rewrite wp_ret; by eauto |
      eapply wp_mono; [apply IH| |done]; intros r g'' [H' ?]; split; [by etransitivity|done]].
Qed.

Definition failures g : Z := CircuitBreaker.count "mcp" (breaker g).

Lemma down_read tool args g :
  wp (mcp_read (W:=W) tool args)
     (fun r g' => r = None /\ CircuitBreaker.is_open "mcp" (breaker g) = false /\
        breaker g' = CircuitBreaker.record_failure "mcp" (breaker g)) (fun _ _ => True) g.
Proof using Hdown.
  unfold mcp_read. rewrite wp_bind, wp_lift. destruct (validate_tool_call _ _); [|done].
  rewrite wp_bind. destruct (String.eqb _ "read"); [rewrite wp_ret|done].
  rewrite wp_bind, wp_gets, wp_bind, wp_lift. unfold CircuitBreaker.guard.
  destruct (CircuitBreaker.is_open "mcp" (breaker g)) eqn:Eo; [done|].
  rewrite wp_bind. eapply wp_mono; [apply (wp_steps same_breaker), sb_emit| |done].
  intros ? g1 H1. rewrite wp_bind. eapply wp_mono; [apply down_attempts| |done].
  intros r g2 [H2 [e ->]]. rewrite wp_bind. unfold upd_breaker. rewrite wp_modify, wp_bind.
  eapply wp_mono; [apply (wp_steps same_breaker), sb_emit| |done].
  intros ? g3 H3. rewrite wp_ret. unfold same_breaker in *. simpl in H3.
  split_and!; [done|done|]. by rewrite H3, H2, H1.
Qed.

Lemma down_collect service tool g :
  wp (collect (W:=W) service tool)
     (fun _ g' => CircuitBreaker.is_open "mcp" (breaker g) = false /\
        breaker g' = CircuitBreaker.record_failure "mcp" (breaker g)) (fun _ _ => True) g.
Proof using Hdown.
  unfold collect. rewrite wp_bind. eapply wp_mono; [apply down_read| |done].
  intros r g' (-> & H). by rewrite wp_ret.
Qed.

Lemma third_failure_opens b :
  CircuitBreaker.threshold b = CircuitBreaker.THRESHOLD ->
  (0 <= CircuitBreaker.count "mcp" b)%Z ->
  CircuitBreaker.is_open "mcp" (Nat.iter 3 (CircuitBreaker.record_failure "mcp") b) = true.
Proof.
  intros Ht Hc. unfold CircuitBreaker.is_open. apply bool_decide_eq_true.
  simpl. unfold CircuitBreaker.count at 1. simpl. rewrite lookup_insert_eq. simpl.
  unfold CircuitBreaker.count at 1. simpl. rewrite lookup_insert_eq. simpl.
  rewrite Ht. unfold CircuitBreaker.THRESHOLD.
  destruct (Z.leb_spec 3 (CircuitBreaker.count "mcp" b + 1 + 1 + 1)); [set_solver|lia].
Qed.

(** C38. A gateway outage fails the run: when no tool call is answered, the
    reads step never completes, because the third failed read opens the
    [mcp] circuit and the fourth is refused by the breaker with an exception
    that the step does not catch; the branch that would go on with degraded
    evidence is unreachable. *)
Theorem outage_fails_reads g :
  CircuitBreaker.threshold (breaker g) = CircuitBreaker.THRESHOLD ->
  (0 <= CircuitBreaker.count "mcp" (breaker g))%Z ->
  (do_mcp_reads (W:=W) g).2 <> Ok tt.
Proof using Hdown.
  intros Ht Hc.
  assert (wp (do_mcp_reads (W:=W)) (fun _ _ => False) (fun _ _ => True) g) as H.
  { unfold do_mcp_reads. rewrite wp_bind. unfold get_st at 1. rewrite wp_gets, wp_bind.
    unfold read_plan. cbn [for_each]. generalize (service_of (st g)). intros service.
    rewrite wp_bind. eapply wp_mono; [apply down_collect| |done]. intros _ g1 [_ H1].
    rewrite wp_bind. eapply wp_mono; [apply down_collect| |done]. intros _ g2 [_ H2].
    rewrite wp_bind. eapply wp_mono; [apply down_collect| |done]. intros _ g3 [_ H3].
    rewrite wp_bind. eapply wp_mono; [apply down_collect| |done]. intros _ g4 [H4 _].
    pose proof (third_failure_opens (breaker g) Ht Hc) as Ho. simpl in Ho.
    rewrite H3, H2, H1 in H4. congruence. }
  unfold wp in H. destruct (do_mcp_reads g) as [g' [[]|e]]; [done|discriminate].
Qed.
End Outage.

(** Dependencies whose gateway is down, over the fake world. *)
Definition down_deps : Deps Fakes.World := {|
  mcp_invoke _ _ _ := raise (RuntimeError "gateway unavailable");
  a2a_delegate := @a2a_delegate _ Fakes.deps;
  a2a_cancel := @a2a_cancel _ Fakes.deps;
  policy_evaluate := @policy_evaluate _ Fakes.deps;
  store_save := @store_save _ Fakes.deps;
  store_append := @store_append _ Fakes.deps;
  model_classify := @model_classify _ Fakes.deps;
  model_plan := @model_plan _ Fakes.deps;
  clock_now := @clock_now _ Fakes.deps;
  utcnow := @utcnow _ Fakes.deps;
  monotonic := @monotonic _ Fakes.deps;
  cancel_signal := @cancel_signal _ Fakes.deps;
|}.

Lemma outage_fails_reads_witness :
  let g := Fakes.graph0 Fakes.sample_run Fakes.default_world in
  (@do_mcp_reads _ down_deps g).2 <> Ok tt /\
  error (st (@run _ down_deps run_fuel g).1)
    = Some (error_dict ErrorCode.INTERNAL_ERROR "circuit open for mcp").
Proof.
  cbv zeta. split; [|vm_compute; reflexivity].
  apply (@outage_fails_reads Fakes.World down_deps).
  - intros tool args timeout w. by exists w, (RuntimeError "gateway unavailable").
  - reflexivity.
  - vm_compute. discriminate.
Defined.
