(* ===== verification/GraphWorld.v ===== *)
(** * What holds of whole runs

    A relation that every local update and every call of the dependencies
    respects is respected by every method, and so by a whole run.  Two
    instances: the graph touches its world only by the operations of its
    dependencies, and it adds no approval that is already granted.  With the
    gate, they say what a client of the graph may count on. *)

From stdpp Require Import base list strings pretty sets.
From Stdlib Require Import ZArith Lia Ascii.
From S2P Require Import Prelude.
From S2P Require Import PyFloat.
From S2P Require Import PyValue.
From S2P Require Import PyTime.
From S2P Require Import Contracts.
From S2P Require Import ContractsRun.
From S2P Require Import ContractsOps.
From S2P Require Import RunState.
From S2P Require Import GraphTools.
From S2P Require Import Graph.
From S2P Require Import GraphSteps.
From S2P Require Import GraphLemmas.
From S2P Require Import GraphFlow.
From S2P Require Import GraphGate.
Import GraphTools Graph Steps.

Local Open Scope py_scope.

(** ** One walk over the methods *)

Section Walk.
Context {W : Type} `{!Deps W} (R : G W -> G W -> Prop) `{!PreOrder R}.

(** A local update: the world, the run and the approvals stay. *)
Definition gate_of (s : RunState) := (run_id s, approvals s).
Definition local (f : G W -> G W) : Prop :=
  forall g, world (f g) = world g /\ gate_of (st (f g)) = gate_of (st g).

Record respects : Prop := {
  rs_local : forall f, local f -> steps R (modify f);
  rs_requested : forall s at_ a row g, approval_row s at_ a = Ok row -> run_id (st g) = run_id s ->
    R g (upd (fun s => set_approvals (approvals s ++ [row]) s) g).1;
  rs_invoke : forall o tool args timeout, steps R (call o (mcp_invoke tool args timeout));
  rs_delegate : forall o request timeout, steps R (call o (a2a_delegate request timeout));
  rs_cancel : forall o cancel id, a2a_cancel = Some cancel -> steps R (call o (cancel id));
  rs_evaluate : forall o action env, steps R (call o (policy_evaluate action env));
  rs_save : steps R (save (W:=W));
  rs_append : forall o e, steps R (call o (store_append e));
  rs_classify : forall o objective context, steps R (call o (model_classify objective context));
  rs_plan : forall o objective classification, steps R (call o (model_plan objective classification));
  rs_clock : forall o, steps R (call o clock_now);
  rs_utcnow : forall o, steps R (call o utcnow);
  rs_monotonic : forall o, steps R (call o monotonic) }.
Context (HR : respects).

Lemma walk_save : steps R (save (W:=W)).
Proof using HR. apply (rs_save HR). Qed.
Hint Resolve walk_save : steps.
Lemma walk_upd f : (forall s, gate_of (f s) = gate_of s) -> steps R (upd (W:=W) f).
Proof using HR. intros H. apply (rs_local HR). intros g. split; [done|apply H]. Qed.
Lemma walk_breaker f : steps R (upd_breaker (W:=W) f).
Proof using HR. apply (rs_local HR). intros g. by split. Qed.
Ltac walk_leaf :=
  first
    [ apply walk_upd; intros ?; first [reflexivity | unfold set_finding; repeat case_match; reflexivity] | apply walk_breaker
    | apply (rs_local HR); intros ?; split; repeat case_match; reflexivity
    | solve [eapply (rs_invoke HR)|eapply (rs_delegate HR)|by eapply (rs_cancel HR)
        |eapply (rs_evaluate HR)|eapply (rs_append HR)|eapply (rs_classify HR)
        |eapply (rs_plan HR)|eapply (rs_clock HR)|eapply (rs_utcnow HR)|eapply (rs_monotonic HR)] ].
Ltac walk := unfold transition, spend, emit, emit_as, check_cancel, check_budgets, exceeded; steps_walk walk_leaf.

Lemma walk_emit ty d : steps R (emit (W:=W) ty d).
Proof using HR PreOrder0. walk. Qed.
Lemma walk_transition s ty d : steps R (transition (W:=W) s ty d).
Proof using HR PreOrder0. walk. Qed.
Lemma walk_check_cancel : steps R (check_cancel (W:=W)).
Proof using HR PreOrder0. walk. Qed.
Lemma walk_check_budgets : steps R (check_budgets (W:=W)).
Proof using HR PreOrder0. walk. Qed.
Lemma walk_spend f : steps R (spend (W:=W) f).
Proof using HR PreOrder0. walk. Qed.
Hint Resolve walk_emit walk_transition walk_check_cancel walk_check_budgets walk_spend : steps.
Ltac walk ::= autounfold with graph; steps_walk walk_leaf.
Ltac walk_calls := autounfold with graph_call; steps_walk walk_leaf.

Lemma walk_attempts n tool args : steps R (attempts (W:=W) n tool args).
Proof using HR PreOrder0. induction n as [|n IH]; simpl; unfold spend_tool, attempt, invoke; walk_calls. Qed.
Hint Resolve walk_attempts : steps.
Lemma walk_mcp_read tool args : steps R (mcp_read (W:=W) tool args).
Proof using HR PreOrder0. walk_calls. Qed.
Lemma walk_delegate : steps R (delegate (W:=W)).
Proof using HR PreOrder0. unfold spend_delegation; walk_calls. Qed.
Lemma walk_collect_findings acc i l : steps R (collect_findings (W:=W) acc i l).
Proof using HR PreOrder0. revert acc i. induction l; intros acc i; simpl; walk. Qed.
Lemma walk_evaluate_all env l : steps R (evaluate_all (W:=W) env l).
Proof using HR PreOrder0. induction l; simpl; walk. Qed.
Hint Resolve walk_mcp_read walk_delegate walk_collect_findings walk_evaluate_all : steps.

Lemma walk_start : steps R (start (W:=W)).
Proof using HR PreOrder0. walk. Qed.
Lemma walk_reading :
  steps R (do_classify (W:=W)) /\ steps R (do_plan (W:=W)) /\ steps R (do_resources (W:=W))
  /\ steps R (do_mcp_reads (W:=W)) /\ steps R (do_delegate (W:=W)) /\ steps R (do_correlate (W:=W))
  /\ steps R (do_findings (W:=W)).
Proof using HR PreOrder0. split_and!; walk. Qed.
(** The rows of a request carry the run that is being requested for. *)
Lemma walk_rows s at_ l g :
  run_id (st g) = run_id s ->
  R g (for_each l (fun a => let* row := lift_result (approval_row s at_ a) in
         upd (fun s => set_approvals (approvals s ++ [row]) s)) g).1.
Proof using HR PreOrder0.
  revert g. induction l as [|a l IH]; intros g Hg; simpl; [reflexivity|].
  unfold bind at 1 2. destruct (approval_row s at_ a) as [row|e] eqn:Hr; simpl; [|reflexivity].
  etransitivity; [by eapply (rs_requested HR)|]. by apply IH.
Qed.
Lemma walk_pause : steps R (do_approval_pause (W:=W)).
Proof using HR PreOrder0.
  intros g. unfold do_approval_pause, get_st. rewrite bind_gets.
  destruct (proposed_actions (st g)) as [|a l].
  { revert g. change (steps R (upd (W:=W) (set_current_state "verify") ;;* save)). walk. }
  apply (steps_bind_at R); [by apply walk_upd|]. intros [] g1 E1.
  assert (run_id (st g1) = run_id (st g)) as H1 by (injection E1 as <-; done).
  apply (steps_bind_at R); [apply (rs_utcnow HR)|]. intros at_ g2 E2.
  assert (run_id (st g2) = run_id (st g)) as H2.
  { unfold call in E2. destruct (utcnow (world g1)). by injection E2 as <-. }
  apply (steps_bind_at R); [by apply walk_rows|]. intros _ g3 _. revert g3.
  change (steps R (let* s := get_st in emit (W:=W) EventType.APPROVAL_REQUIRED
        [("approvals", VList (map VDict (approvals s)));
         ("actions", VList (map VDict (proposed_actions s)))] ;;* save)). walk.
Qed.
Lemma walk_deciding :
  steps R (do_propose (W:=W)) /\ steps R (do_policy (W:=W)) /\ steps R (do_execute (W:=W))
  /\ steps R (do_verify (W:=W)) /\ steps R (do_complete (W:=W)).
Proof using HR PreOrder0. split_and!; walk; unfold invoke; walk_leaf. Qed.
Lemma walk_dispatch cur : steps R (dispatch (W:=W) cur).
Proof using HR PreOrder0.
  destruct walk_reading as (? & ? & ? & ? & ? & ? & ?). destruct walk_deciding as (? & ? & ? & ? & ?).
  pose proof walk_pause. unfold dispatch. steps_walk walk_leaf.
Qed.
Hint Resolve walk_start walk_dispatch : steps.
Lemma walk_step : steps R (step (W:=W)).
Proof using HR PreOrder0. unfold step. walk. Qed.
Hint Resolve walk_step : steps.
Lemma walk_loop n : steps R (loop (W:=W) n).
Proof using HR PreOrder0. induction n; simpl; walk. Qed.
Lemma walk_handle e : steps R (handle (W:=W) e).
Proof using HR PreOrder0. destruct e; simpl; walk. Qed.
Hint Resolve walk_loop walk_handle : steps.
Lemma walk_run n : steps R (run (W:=W) n).
Proof using HR PreOrder0. unfold run. walk. Qed.
End Walk.

(** ** The world *)

Section World.
Context {W : Type} `{!Deps W} (R : W -> W -> Prop) `{!PreOrder R}.

(** What the dependencies promise. *)
Record respected : Prop := {
  rd_invoke : forall tool args timeout, steps R (mcp_invoke tool args timeout);
  rd_delegate : forall request timeout, steps R (a2a_delegate request timeout);
  rd_cancel : forall cancel id, a2a_cancel = Some cancel -> steps R (cancel id);
  rd_evaluate : forall action env, steps R (policy_evaluate action env);
  rd_save : forall s, steps R (store_save s);
  rd_append : forall e, steps R (store_append e);
  rd_classify : forall objective context, steps R (model_classify objective context);
  rd_plan : forall objective classification, steps R (model_plan objective classification);
  rd_clock : steps R clock_now;
  rd_utcnow : steps R utcnow;
  rd_monotonic : steps R monotonic }.

Definition on_world (g g' : G W) : Prop := R (world g) (world g').
#[local] Instance on_world_order : PreOrder on_world.
Proof using PreOrder0.
  split; [intros g; unfold on_world; reflexivity|intros x y z; unfold on_world; by etrans].
Qed.
Lemma world_call {A} o (m : M W A) : steps R m -> steps on_world (call o m).
Proof using PreOrder0. intros H g. unfold on_world, call. specialize (H (world g)). by destruct (m (world g)). Qed.

(** A run respects whatever its dependencies respect. *)
Lemma world_run n : respected -> steps on_world (run (W:=W) n).
Proof using PreOrder0.
  intros []. apply (walk_run on_world). constructor; intros; try (apply world_call; eauto).
  - intros g. unfold on_world. simpl. rewrite (proj1 (H g)). reflexivity.
  - unfold on_world. simpl. reflexivity.
  - unfold save, get_st. intros g. rewrite bind_gets. by apply world_call.
Qed.
End World.

(** ** Approvals *)

Section Approvals.
Context {W : Type} `{!Deps W}.

(** No step leads to the execution of approved actions. *)
Lemma successor_gate cur next : successor cur = Some next -> next <> "execute_approved".
Proof.
  intros Hs%dget_in. repeat (apply elem_of_cons in Hs as [[= -> ->]|Hs]; [done|]). by apply elem_of_nil in Hs.
Qed.

(** A run makes the write calls that its approvals allow, and no other. *)
Lemma run_writes n (g : G W) :
  exists ext, trace (run n g).1 = trace g ++ ext /\ write_calls ext `sublist_of` approved_calls (st g).
Proof.
  assert (forall m : M (G W) (option unit), emits read_only g (m g).1 ->
    exists ext, trace (m g).1 = trace g ++ ext /\ write_calls ext `sublist_of` approved_calls (st g)) as Hread.
  { intros m (ext & E & HF). exists ext. split; [done|]. rewrite read_only_writes; [apply sublist_nil_l|done]. }
  destruct (String.eqb_spec (status (st g)) "created") as [Hs|Hs]; [by apply (Hread (run n)), run_reads; left|].
  assert (run n g = try_catch (loop n) (fun e => handle e ;;* ret (Some tt)) g) as ->.
  { unfold run, start, get_st. unfold bind at 1. rewrite bind_gets. by apply String.eqb_neq in Hs as ->. }
  destruct (String.eqb_spec (current_state (st g)) "execute_approved") as [Hc|Hc].
  - by apply extends_guarded, loop_execute.
  - apply (Hread (try_catch (loop n) _)). apply emits_guarded; [apply quiet_read_only|done|].
    by apply (read_only_loop (fun cur => cur <> "execute_approved")); [|intros ???; eapply successor_gate|].
Qed.

End Approvals.
