(* ===== verification/ObservabilityLemmas.v ===== *)
(** * Lemmas about the specialist

    What stripping keeps, the bands of the confidences, and when the contracts
    of the skill accept what the code builds. *)

From stdpp Require Import base gmap sets list strings pretty.
From Stdlib Require Import ZArith Lia Ascii SpecFloat.
From S2P Require Import Prelude.
From S2P Require Import PyFloat.
From S2P Require Import PyValue.
From S2P Require Import PyTime.
From S2P Require Import Json.
From S2P Require Import Regex.
From S2P Require Import Contracts.
From S2P Require Import ContractsRun.
From S2P Require Import ContractsOps.
From S2P Require Import Security.
From S2P Require Import McpModels.
From S2P Require Import Correlate.
From S2P Require Import GraphTools.
Import Correlate.

Local Open Scope py_scope.

Module Strip.
Lemma str_length_app s t : String.length (s +:+ t) = (String.length s + String.length t)%nat.
Proof. induction s as [|c s IH]; [done|]. simpl. by rewrite IH. Qed.
Lemma length_chars s : String.length s = length (PyStr.chars s).
Proof. induction s as [|c s IH]; [done|]. simpl. by rewrite IH. Qed.

Lemma drop_while_length p (l : list ascii) : (length (PyStr.drop_while p l) <= length l)%nat.
Proof. induction l as [|c l IH]; simpl; [lia|]. destruct (p c); simpl; lia. Qed.
Lemma drop_while_keeps p (l : list ascii) c : c ∈ l -> p c = false -> c ∈ PyStr.drop_while p l.
Proof.
  induction l as [|d l IH]; intros Hc Hp; [done|]. simpl. destruct (p d) eqn:E; [|done].
  apply elem_of_cons in Hc as [->|Hc]; [congruence|]. by apply IH.
Qed.

Lemma trim_length s : (String.length (Field.trim s) <= String.length s)%nat.
Proof.
  rewrite !length_chars. unfold Field.trim. rewrite PyStr.chars_of_chars. unfold Field.trim_l.
  rewrite length_reverse. etrans; [apply drop_while_length|]. rewrite length_reverse. apply drop_while_length.
Qed.
Lemma trim_nonempty c s : Field.is_white c = false -> (1 <= String.length (Field.trim (String c s)))%nat.
Proof.
  intros Hc. rewrite length_chars. unfold Field.trim. rewrite PyStr.chars_of_chars. unfold Field.trim_l.
  assert (c ∈ reverse (PyStr.drop_while Field.is_white (reverse (PyStr.drop_while Field.is_white
            (PyStr.chars (String c s)))))) as Hin.
  { apply elem_of_reverse, drop_while_keeps; [|done]. apply elem_of_reverse, drop_while_keeps; [|done]. left. }
  destruct (reverse _); [by apply elem_of_nil in Hin|]. simpl. lia.
Qed.
Lemma trim_keeps_nonempty s : Field.trim s <> "" -> s <> "".
Proof. by intros H ->. Qed.

(** A text that starts with a visible character passes any length check that
    allows its own length. *)
Lemma trimmed_length c s hi :
  Field.is_white c = false -> (Z.of_nat (String.length (String c s)) <= hi)%Z ->
  Field.length_in 1 hi (Field.trim (String c s)) = true.
Proof.
  intros Hc Hl. pose proof (trim_length (String c s)). pose proof (trim_nonempty c s Hc).
  unfold Field.length_in. apply andb_true_iff. split; apply Z.leb_le; lia.
Qed.

Lemma length_in_spec lo hi s :
  Field.length_in lo hi s = true <-> (lo <= Z.of_nat (String.length s) <= hi)%Z.
Proof. unfold Field.length_in. rewrite andb_true_iff, !Z.leb_le. done. Qed.
Lemma length_in_trim hi s : Field.length_in 0 hi s = true -> Field.length_in 0 hi (Field.trim s) = true.
Proof. rewrite !length_in_spec. pose proof (trim_length s). lia. Qed.


(** A validated value is a fixed point of validation. *)
Lemma validated {T} `{Contract T} (x y : T) : validate x = Ok y -> strip y = y /\ validate y = Ok y.
Proof.
  intros (-> & Hf & Hr)%validate_ok. rewrite strip_idem. split; [done|]. apply validate_ok.
  by rewrite strip_idem.
Qed.
Lemma valid_ok {T} `{Contract T} (x : T) : validate x = Ok x -> valid x = true.
Proof. unfold valid. by intros ->. Qed.

Lemma ident_visible s : Field.ident s = true -> forallb (fun c => negb (Field.is_white c)) (PyStr.chars s) = true.
Proof.
  unfold Field.ident. intros [_ H]%andb_true_iff. rewrite forallb_forall in *. intros c Hc%H.
  revert Hc. by destruct c as [[] [] [] [] [] [] [] []].
Qed.
Lemma trim_ident s : Field.ident s = true -> Field.trim s = s.
Proof. intros Hs. by apply Field.trim_no_white, ident_visible. Qed.
Lemma ident_length s : Field.ident s = true -> (1 <= String.length s <= 128)%nat.
Proof. unfold Field.ident. intros [H _]%andb_true_iff. apply length_in_spec in H. lia. Qed.
End Strip.

(** ** Confidences *)

Module Bands.
(** The confidences that a digest can give. *)
Definition unit_conf (k : nat) : float := PyFloat.div (PyFloat.of_Z (Z.of_nat k)) (PyFloat.of_Z 1000).
Lemma deterministic_confidence_unit service salt :
  exists k, (k < 1000)%nat /\ deterministic_confidence service salt = unit_conf k.
Proof.
  unfold deterministic_confidence. set (h := hex_int _). exists (Z.to_nat (h mod 1000)).
  pose proof (Z.mod_pos_bound h 1000 ltac:(lia)). split; [lia|]. unfold unit_conf. by rewrite Z2Nat.id by lia.
Qed.

Definition hundredths (n : Z) : float := PyFloat.ratio n 100.
Definition in_band (lo hi : Z) (x : float) : bool :=
  PyFloat.leb (hundredths lo) x && PyFloat.leb x (hundredths hi).
Definition everywhere (f : float -> bool) : bool := forallb (fun k => f (unit_conf k)) (seq 0 1000).

Lemma everywhere_conf f service salt : everywhere f = true -> f (deterministic_confidence service salt) = true.
Proof.
  intros Hf. destruct (deterministic_confidence_unit service salt) as (k & Hk & ->).
  unfold everywhere in Hf. rewrite forallb_forall in Hf. apply (Hf k), in_seq. lia.
Qed.

(** Two references count as many. *)
Lemma refs_confidence_cap b n c : refs_confidence b (S (S n)) c = refs_confidence b 2 c.
Proof. unfold refs_confidence, base. replace (Nat.min (S (S n)) 2) with 2%nat by lia. done. Qed.

Lemma refs_band b lo hi service salt n :
  everywhere (fun c => in_band lo hi (refs_confidence b 1 c)) = true ->
  everywhere (fun c => in_band lo hi (refs_confidence b 2 c)) = true ->
  (0 < n)%nat -> in_band lo hi (refs_confidence b n (deterministic_confidence service salt)) = true.
Proof.
  intros H1 H2 Hn. destruct n as [|[|n]]; [lia| |rewrite refs_confidence_cap].
  - apply (everywhere_conf (fun c => in_band lo hi (refs_confidence b 1 c))), H1.
  - apply (everywhere_conf (fun c => in_band lo hi (refs_confidence b 2 c))), H2.
Qed.

Lemma metrics_band service n :
  (0 < n)%nat -> in_band 62 78 (refs_confidence c055 n (deterministic_confidence service "metrics")) = true.
Proof. apply refs_band; vm_compute; reflexivity. Qed.
Lemma logs_band service n :
  (0 < n)%nat -> in_band 57 73 (refs_confidence c05 n (deterministic_confidence service "logs")) = true.
Proof. apply refs_band; vm_compute; reflexivity. Qed.
Lemma deploy_band service :
  in_band 52 58 (deploy_confidence (deterministic_confidence service "deploy")) = true.
Proof. apply (everywhere_conf (fun c => in_band 52 58 (deploy_confidence c))). vm_compute. reflexivity. Qed.
End Bands.
