(* ===== verification/ObservabilityTasks.v ===== *)
(** * What the task service guarantees

    Every valid request gets a result; a caller sees and changes only its
    tenant's tasks, under any interleaving of requests; a completed result is
    final. *)

From stdpp Require Import base gmap sets list strings pretty.
From Stdlib Require Import ZArith Lia Ascii SpecFloat.
From S2P Require Import Prelude.
From S2P Require Import PyFloat.
From S2P Require Import PyValue.
From S2P Require Import PyTime.
From S2P Require Import Regex.
From S2P Require Import Contracts.
From S2P Require Import ContractsRun.
From S2P Require Import ContractsOps.
From S2P Require Import Security.
From S2P Require Import Bearer.
From S2P Require Import McpModels.
From S2P Require Import Tables.
From S2P Require Import Repository.
From S2P Require Import MemoryEngine.
From S2P Require Import RepositoryStore.
From S2P Require Import RepositoryProps.
From S2P Require Import RepositoryClients.
From S2P Require Import Correlate.
From S2P Require Import Observability.
From S2P Require Import ObservabilityLemmas.
From S2P Require Import ObservabilityProps.
Import Correlate Observability Strip.

Local Open Scope py_scope.

(** ** Results *)

Module ResultLemmas.
(** What a validated request guarantees. *)
Record request_ok (r : A2ATaskRequest.t) : Prop := {
  ro_task : Field.ident (A2ATaskRequest.task_id r) = true;
  ro_tenant : Field.ident (A2ATaskRequest.tenant_id r) = true;
  ro_run : opt_ref (A2ATaskRequest.run_id r) = true /\ Field.trim <$> A2ATaskRequest.run_id r = A2ATaskRequest.run_id r;
  ro_trace : opt_trace (A2ATaskRequest.trace_id r) = true;
  ro_correlation : opt_trace (A2ATaskRequest.correlation_id r) = true }.
Lemma request_facts r : validate r = Ok r -> request_ok r.
Proof.
  intros (Hs & Hf & _)%validate_ok. cbn [fields A2ATaskRequest.contract] in Hf.
  unfold A2ATaskRequest.checks in Hf. rewrite !Forall_cons in Hf. cbn [snd] in Hf.
  pose proof (f_equal A2ATaskRequest.run_id Hs) as Hr.
  change (A2ATaskRequest.run_id (strip r)) with (Field.trim <$> A2ATaskRequest.run_id r) in Hr.
  destruct Hf as (? & ? & ? & _ & _ & _ & _ & ? & ? & _). by split.
Qed.

Lemma opt_trace_trim o : opt_trace o = true -> opt_trace (Field.trim <$> o) = true.
Proof. destruct o as [t|]; [apply length_in_trim|done]. Qed.

(** No secret starts with this character. *)
Definition harmless (c : ascii) : Prop :=
  Field.is_white c = false /\ forall l, Regex.at_pos secret_re (None, c :: l) = None.

Lemma redact_keeps_head c s :
  harmless c -> exists s', PyStr.slice 2000 (Regex.sub secret_re "[redacted]" (String c s)) = String c s'.
Proof.
  intros [_ Hc]. unfold Regex.sub. change (PyStr.chars (String c s)) with (c :: PyStr.chars s).
  specialize (Hc (PyStr.chars s)). cbn [String.length]. set (n := S (String.length s)).
  cbn [Regex.sub_from]. rewrite Hc. change (PyStr.of_chars (c :: ?l)) with (String c (PyStr.of_chars l)).
  eexists. unfold PyStr.slice. reflexivity.
Qed.

Definition is_error (st : A2ATaskStatus.t) (x : A2ATaskResult.t) (task : string) (tenant : option string) : Prop :=
  A2ATaskResult.task_id x = task /\ A2ATaskResult.tenant_id x = tenant /\ A2ATaskResult.status x = st
  /\ A2ATaskResult.output x = None /\ A2ATaskResult.error x <> None.

Lemma error_result_ok id st code c s retryable run tenant tr co :
  Field.ident id = true -> opt_ref (Field.trim <$> run) = true -> opt_ref (Field.trim <$> tenant) = true ->
  opt_trace tr = true -> opt_trace co = true -> Field.length_in 1 128 (Field.trim code) = true ->
  harmless c -> st <> A2ATaskStatus.COMPLETED ->
  exists x, error_result id st code (String c s) retryable run tenant tr co = Ok x
    /\ is_error st x id (Field.trim <$> tenant).
Proof.
  intros Hid Hrun Hten Htr Hco Hcode Hc Hst. unfold error_result.
  destruct (redact_keeps_head c s Hc) as [s' Hs']. pose proof (PyStr.slice_length 2000 (Regex.sub secret_re "[redacted]" (String c s))) as Hl.
  rewrite Hs' in *. set (e := A2ATaskError.mk code (String c s') retryable).
  assert (validate e = Ok (strip e)) as He.
  { apply validate_ok. split; [done|]. split; [|done]. cbn [fields A2ATaskError.contract].
    unfold A2ATaskError.checks. repeat constructor; cbn [snd]; [exact Hcode|]. apply trimmed_length; [apply Hc|lia]. }
  rewrite He. cbn [rbind]. set (x := A2ATaskResult.mk _ _ _ _ _ _ _ _ _).
  assert (validate x = Ok (strip x)) as Hx.
  { apply validate_ok. split; [done|]. split.
    - cbn [fields A2ATaskResult.contract]. change (strip x) with (A2ATaskResult.strip_all x).
      unfold A2ATaskResult.checks, A2ATaskResult.strip_all. subst x.
      cbn [A2ATaskResult.task_id A2ATaskResult.run_id A2ATaskResult.tenant_id A2ATaskResult.artifacts
           A2ATaskResult.error A2ATaskResult.trace_id A2ATaskResult.correlation_id].
      rewrite (trim_ident id Hid). repeat constructor; cbn [snd]; try done; [|by apply opt_trace_trim..].
      cbn [fmap option_fmap option_map Field.opt]. apply valid_ok. rewrite strip_idem. by eapply validated.
    - change (rule (strip x)) with (A2ATaskResult.status_payload_consistency (A2ATaskResult.strip_all x)).
      by destruct st. }
  exists (strip x). split; [exact Hx|]. unfold is_error. change (strip x) with (A2ATaskResult.strip_all x).
  unfold A2ATaskResult.strip_all. subst x. simpl. rewrite (trim_ident id Hid). done.
Qed.

Lemma failure_ok r tr st code c s retryable :
  request_ok r -> opt_trace tr = true -> Field.length_in 1 128 (Field.trim code) = true -> harmless c ->
  st <> A2ATaskStatus.COMPLETED ->
  exists x, failure r tr st code (String c s) retryable = Ok x
    /\ is_error st x (A2ATaskRequest.task_id r) (Some (A2ATaskRequest.tenant_id r)).
Proof.
  intros Hr Htr Hcode Hc Hst. destruct (ro_run r Hr) as [Hrun Htrim]. pose proof (trim_ident _ (ro_tenant r Hr)) as Ht.
  destruct (error_result_ok (A2ATaskRequest.task_id r) st code c s retryable (A2ATaskRequest.run_id r)
              (Some (A2ATaskRequest.tenant_id r)) tr (A2ATaskRequest.correlation_id r)) as (x & Hx & He);
    try done; [apply Hr|by rewrite Htrim| |apply Hr|].
  - cbn [fmap option_fmap option_map]. rewrite Ht. pose proof (ident_length _ (ro_tenant r Hr)).
    apply length_in_spec. lia.
  - exists x. split; [exact Hx|]. cbn [fmap option_fmap option_map] in He. by rewrite Ht in He.
Qed.

Lemma resolve_trace_ok r header : request_ok r -> opt_trace (resolve_trace r header) = true.
Proof.
  intros Hr. pose proof (ro_trace r Hr). assert (opt_trace (parse_traceparent header) = true).
  { unfold parse_traceparent. destruct header as [h|]; [|done]. repeat case_match; try done.
    repeat match goal with E : _ && _ = true |- _ => apply andb_true_iff in E as [? ?] end.
    unfold lower_hex in *. apply length_in_spec.
    repeat match goal with E : _ && _ = true |- _ => apply andb_true_iff in E as [?%Nat.eqb_eq ?] end. lia. }
  unfold resolve_trace. destruct (A2ATaskRequest.trace_id r) as [t|]; [|done]. by destruct (String.eqb t "").
Qed.
End ResultLemmas.

(** ** Execution *)

Module ExecuteLemmas.
Import ResultLemmas.

(** The status that the end of the wait gives. *)
Definition status_of (w : waited) : A2ATaskStatus.t :=
  match w with
  | Finished => A2ATaskStatus.COMPLETED
  | TimedOut => A2ATaskStatus.TIMEOUT
  | Interrupted => A2ATaskStatus.CANCELLED
  end.
Record pending_ok (p : Pending) : Prop := {
  po_request : request_ok (p_request p);
  po_trace : opt_trace (p_trace p) = true;
  po_inputs : exists raw, validate raw = Ok (p_inputs p) }.

(** A result that ends the request without correlating. *)
Definition refused (r : A2ATaskRequest.t) (x : A2ATaskResult.t) : Prop :=
  exists st, st <> A2ATaskStatus.COMPLETED
    /\ is_error st x (A2ATaskRequest.task_id r) (Some (A2ATaskRequest.tenant_id r)).

Section Execute.
Context `{Pydantic}.

Lemma correlate_input_ok inputs tr co run ten i :
  ReadInputs.correlate_input inputs tr co run ten = Ok i -> exists raw, validate raw = Ok i.
Proof.
  unfold ReadInputs.correlate_input, rbind. repeat (case_match; try done); eauto.
Qed.

Lemma execute_begin_spec now gone r tr :
  request_ok r -> opt_trace tr = true ->
  exists y, execute_begin now gone r tr = Ok y
    /\ match y with
       | inl x => refused r x
       | inr p => p_request p = r /\ pending_ok p /\ A2ATaskRequest.skill_id r = SKILL_ID
                  /\ (now < A2ATaskRequest.deadline r)%Z /\ A2ATaskRequest.task_id r ∉ gone
       end.
Proof.
  intros Hr Htr. unfold execute_begin.
  assert (forall st code c s b, Field.length_in 1 128 (Field.trim code) = true -> harmless c ->
    st <> A2ATaskStatus.COMPLETED ->
    exists y, (let? x := failure r tr st code (String c s) b in Ok (@inl _ Pending x)) = Ok y
      /\ match y with inl x => refused r x | inr _ => False end) as Hfail.
  { intros st code c s b Hcode Hc Hst. destruct (failure_ok r tr st code c s b Hr Htr Hcode Hc Hst) as (x & -> & He).
    eexists. split; [done|]. by exists st. }
  assert (forall st code c s b, Field.length_in 1 128 (Field.trim code) = true -> harmless c ->
    st <> A2ATaskStatus.COMPLETED ->
    exists y, (let? x := failure r tr st code (String c s) b in Ok (@inl _ Pending x)) = Ok y
      /\ match y with
         | inl x => refused r x
         | inr p => p_request p = r /\ pending_ok p /\ A2ATaskRequest.skill_id r = SKILL_ID
                    /\ (now < A2ATaskRequest.deadline r)%Z /\ A2ATaskRequest.task_id r ∉ gone
         end) as Hf.
  { intros st code c s b H1 H2 H3. destruct (Hfail st code c s b H1 H2 H3) as (y & -> & Hy). exists y.
    split; [done|]. by destruct y. }
  clear Hfail. destruct (String.eqb_spec (A2ATaskRequest.skill_id r) SKILL_ID) as [Hskill|]; cbn [negb];
    [|by apply Hf].
  case_bool_decide; [by apply Hf|].
  destruct (Z.leb_spec (A2ATaskRequest.deadline r) now); [by apply Hf|].
  destruct (ReadInputs.correlate_input _ _ _ _ _) as [i|e] eqn:Ei; [|by apply Hf].
  assert (assert_all_read_only ALLOWED_MCP_TOOLS = Ok tt) as -> by reflexivity. cbn [rbind].
  eexists. split; [done|]. split; [done|]. split; [|done]. split; [done|done|]. by eapply correlate_input_ok.
Qed.

(** The skill's input, read from the request alone. *)
Definition own_input (r : A2ATaskRequest.t) (tr : option string) : result CorrelateInput.t :=
  ReadInputs.correlate_input (A2ATaskRequest.inputs r) tr (A2ATaskRequest.correlation_id r)
    (A2ATaskRequest.run_id r) (Some (A2ATaskRequest.tenant_id r)).
Lemma execute_begin_inputs now gone r tr p :
  execute_begin now gone r tr = Ok (inr p) -> own_input r tr = Ok (p_inputs p).
Proof.
  unfold execute_begin, own_input.
  assert (forall st c msg b, (let? x := failure r tr st c msg b in Ok (inl x)) <> Ok (inr p)) as Hf.
  { intros st c msg b. by destruct (failure r tr st c msg b). }
  repeat (case_match; try (intros ?; exfalso; by eapply Hf)). simpl. by intros [= <-].
Qed.
Lemma execute_begin_runs now gone r tr i :
  A2ATaskRequest.skill_id r = SKILL_ID -> A2ATaskRequest.task_id r ∉ gone ->
  (now < A2ATaskRequest.deadline r)%Z -> own_input r tr = Ok i ->
  exists p, execute_begin now gone r tr = Ok (inr p).
Proof.
  intros Hs Hg Hd Hi. unfold execute_begin. rewrite Hs. cbn [negb]. rewrite bool_decide_eq_false_2 by done.
  destruct (Z.leb_spec (A2ATaskRequest.deadline r) now); [lia|]. unfold own_input in Hi. rewrite Hi.
  by eexists.
Qed.

Lemma execute_end_spec p w :
  pending_ok p ->
  exists x, execute_end p w = Ok x
    /\ A2ATaskResult.task_id x = A2ATaskRequest.task_id (p_request p)
    /\ A2ATaskResult.tenant_id x = Some (A2ATaskRequest.tenant_id (p_request p))
    /\ A2ATaskResult.status x = status_of w
    /\ (w = Finished -> exists out, correlate_local (p_inputs p) = Ok out
         /\ A2ATaskResult.output x = Some (CorrelateOutput.dump out))
    /\ (w <> Finished -> A2ATaskResult.output x = None /\ A2ATaskResult.error x <> None).
Proof.
  intros [Hr Htr [raw Hi]]. unfold execute_end.
  assert (forall st code c s b, Field.length_in 1 128 (Field.trim code) = true -> harmless c ->
    st <> A2ATaskStatus.COMPLETED ->
    exists x, failure (p_request p) (p_trace p) st code (String c s) b = Ok x
      /\ A2ATaskResult.task_id x = A2ATaskRequest.task_id (p_request p)
      /\ A2ATaskResult.tenant_id x = Some (A2ATaskRequest.tenant_id (p_request p))
      /\ A2ATaskResult.status x = st
      /\ A2ATaskResult.output x = None /\ A2ATaskResult.error x <> None) as Hf.
  { intros st code c s b H1 H2 H3. destruct (failure_ok _ _ st code c s b Hr Htr H1 H2 H3) as (x & -> & He).
    by exists x. }
  destruct w.
  - destruct (CorrelateLemmas.correlate_sound raw (p_inputs p) Hi) as (out & Hout & _). rewrite Hout. cbn [rbind].
    set (x := A2ATaskResult.mk _ _ _ _ _ _ _ _ _).
    destruct (ro_run _ Hr) as [Hrun Htrim]. pose proof (trim_ident _ (ro_tenant _ Hr)) as Hten.
    pose proof (ident_length _ (ro_tenant _ Hr)) as Hlen. pose proof (trim_ident _ (ro_task _ Hr)) as Hid.
    exists (strip x). change (strip x) with (A2ATaskResult.strip_all x). unfold A2ATaskResult.strip_all. subst x.
    cbn [A2ATaskResult.task_id A2ATaskResult.run_id A2ATaskResult.tenant_id A2ATaskResult.artifacts
         A2ATaskResult.error A2ATaskResult.trace_id A2ATaskResult.correlation_id A2ATaskResult.status
         A2ATaskResult.output fmap option_fmap option_map map].
    rewrite Hid, Hten. split; [|split; [done|split; [done|split; [done|split; [|done]]]]].
    + apply validate_ok. split.
      { change (strip ?x) with (A2ATaskResult.strip_all x). unfold A2ATaskResult.strip_all.
        cbn [A2ATaskResult.task_id A2ATaskResult.tenant_id fmap option_fmap option_map]. by rewrite Hid, Hten. }
      split; [|done]. cbn [fields A2ATaskResult.contract]. unfold A2ATaskResult.checks.
      cbn [A2ATaskResult.task_id A2ATaskResult.run_id A2ATaskResult.tenant_id A2ATaskResult.artifacts
           A2ATaskResult.error A2ATaskResult.trace_id A2ATaskResult.correlation_id].
      change (option_map Field.trim ?o) with (Field.trim <$> o). rewrite Htrim.
      repeat constructor; cbn [snd]; try done; [by apply Hr| |by apply opt_trace_trim|by apply opt_trace_trim, Hr].
      apply length_in_spec. lia.
    + intros _. exists out. split; [done|]. reflexivity.
  - destruct (Hf A2ATaskStatus.TIMEOUT "timeout" "s"%char
      ("kill " +:+ SKILL_ID +:+ " exceeded timeout of " +:+ fixed1 (p_timeout p) +:+ "s") true) as (x & ? & ? & ? & ? & ?);
      [done|split; done|done|]. by exists x.
  - destruct (Hf A2ATaskStatus.CANCELLED "cancelled" "t"%char "ask was cancelled" false) as (x & ? & ? & ? & ? & ?);
      [done|split; done|done|]. by exists x.
Qed.
End Execute.
End ExecuteLemmas.

(** ** The service as a system

    Requests arrive in any order, and a suspended [create_task] resumes at any
    later time.  The log pairs each answer with the tenant that the request's
    credentials named. *)

Module Serving.
Import ResultLemmas ExecuteLemmas.
Inductive Call : Type :=
  | Create (q : Request)
  | Resume (k : nat) (w : waited)
  | Get (task_id authz : string) (unix : float)
  | Cancel (task_id authz : string) (unix : float).

(** [None] for a request that was not authenticated, [Some None] for the local
    path without credentials. *)
Definition caller : Type := option (option string).
Record Answer := mkAnswer { asked_by : caller; answer : result A2ATaskResult.t }.

Record Sys (W : Type) := mkSys {
  agent : Agent W; inflight : list (caller * Pending); answers : list Answer }.
Arguments mkSys {W} _ _ _.
Arguments agent {W} _.
Arguments inflight {W} _.
Arguments answers {W} _.

Section Serve.
Context {W : Type} `{Engine W} `{Pydantic}.
Variable getenv : string -> option string.
Variable urlopen : string -> result (list Z).
Variable injected : option (string -> dict -> result unit).
Variable pyjwt : option (dict -> string -> option string -> option string -> result unit).
Variable repo : option (dict -> dict).

Definition who (unix : float) (authz : string) (a : Agent W) : caller :=
  match (caller_tenant getenv urlopen injected pyjwt unix authz a).2 with Ok c => Some c | Exn _ => None end.

Definition serve (c : Call) (s : Sys W) : Sys W :=
  let a := agent s in
  match c with
  | Create q =>
      let by_ := who (unix q) (authz q) a in
      match create_begin getenv urlopen injected pyjwt repo q a with
      | (a', Ok (inr p)) => mkSys a' (inflight s ++ [(by_, p)]) (answers s)
      | (a', Ok (inl x)) => mkSys a' (inflight s) (answers s ++ [mkAnswer by_ (Ok x)])
      | (a', Exn e) => mkSys a' (inflight s) (answers s ++ [mkAnswer by_ (Exn e)])
      end
  | Resume k w =>
      match inflight s !! k with
      | None => s
      | Some (by_, p) =>
          let '(a', r) := create_end repo p w a in
          mkSys a' (delete k (inflight s)) (answers s ++ [mkAnswer by_ r])
      end
  | Get id au un =>
      let by_ := who un au a in
      let '(a', r) := get_task getenv urlopen injected pyjwt id au un a in
      mkSys a' (inflight s) (answers s ++ [mkAnswer by_ r])
  | Cancel id au un =>
      let by_ := who un au a in
      let '(a', r) := cancel_task getenv urlopen injected pyjwt repo id au un a in
      mkSys a' (inflight s) (answers s ++ [mkAnswer by_ r])
  end.
Definition serve_all (l : list Call) (s : Sys W) : Sys W := fold_left (fun s c => serve c s) l s.

(** The framework passes on only bodies that the contract accepts. *)
Definition well_formed (c : Call) : Prop :=
  match c with Create q => validate (body q) = Ok (body q) | _ => True end.

(** *** What each part does to the store *)

Definition same_store (a a' : Agent W) : Prop := tasks a' = tasks a /\ cancelled a' = cancelled a.

Lemma caller_tenant_frame unix au a :
  same_store a (caller_tenant getenv urlopen injected pyjwt unix au a).1.
Proof.
  unfold caller_tenant. destruct (String.eqb au ""); [by destruct (String.eqb _ _)|].
  unfold bind, on_jwks. destruct (try_catch _ _ (jwks a)) as [j [i|e]]; done.
Qed.

(** The write-through always returns. *)
Lemma persist_ok id x r w : exists w', persist_task repo id x r w = (w', Ok tt).
Proof.
  unfold persist_task. destruct repo as [redact|]; [|by exists w]. unfold bind.
  match goal with |- context [Clients.suppress ?m w] => destruct (Clients.suppress_returns m w) as [w1 ->] end.
  destruct (A2ATaskResult.output x); [apply Clients.suppress_returns|by exists w1].
Qed.
Lemma store_put_spec id x r a :
  exists a', store_put repo id x r a = (a', Ok tt)
    /\ tasks a' = <[id := x]> (tasks a) /\ cancelled a' = cancelled a.
Proof.
  unfold store_put, bind, modify. destruct r as [r|]; [|by eexists]. unfold on_world. cbn [world].
  destruct (persist_ok id x r (world a)) as [w' ->]. by eexists.
Qed.

(** The tenant of a result may be shown to the caller. *)
Definition allowed (c : option string) (tenant : option string) : Prop :=
  match c with None => True | Some t => default "" tenant = t end.
Lemma enforce_spec c tenant (a : Agent W) :
  (enforce_task_tenant c tenant a = (a, Ok tt) /\ allowed c tenant)
  \/ (enforce_task_tenant c tenant a = (a, Exn not_found) /\ ~ allowed c tenant).
Proof.
  unfold enforce_task_tenant, allowed. destruct c as [t|]; [|by left].
  destruct (String.eqb_spec (default "" tenant) t); auto.
Qed.

(** Authentication, and then the rest with the caller it found. *)
Lemma authenticated {A} unix au a (k : option string -> M (Agent W) A) :
  exists a1, same_store a a1 /\
    let '(a', r) := bind (caller_tenant getenv urlopen injected pyjwt unix au) k a in
    (who unix au a = None /\ a' = a1 /\ exists e, r = Exn e)
    \/ exists c, who unix au a = Some c /\ k c a1 = (a', r).
Proof.
  pose proof (caller_tenant_frame unix au a) as Hf. unfold bind, who.
  destruct (caller_tenant _ _ _ _ unix au a) as [a1 [c|e]]; exists a1; (split; [done|]).
  - destruct (k c a1) as [a' r] eqn:E. right. by exists c.
  - left. eauto.
Qed.

(** *** The endpoints *)

Abbreviation create_begin' := (create_begin getenv urlopen injected pyjwt repo).

Lemma create_begin_spec q a :
  request_ok (body q) ->
  let id := A2ATaskRequest.task_id (body q) in
  let '(a', r) := create_begin' q a in
  match r with
  | Exn _ =>
      same_store a a'
      /\ (who (unix q) (authz q) a = None
          \/ exists t, who (unix q) (authz q) a = Some t
              /\ (~ allowed t (Some (A2ATaskRequest.tenant_id (body q)))
                  \/ exists x, tasks a !! id = Some x /\ ~ allowed t (A2ATaskResult.tenant_id x)))
  | Ok (inl x) =>
      exists t, who (unix q) (authz q) a = Some t /\ allowed t (A2ATaskResult.tenant_id x)
        /\ ((tasks a !! id = Some x /\ same_store a a')
            \/ (tasks a !! id = None /\ tasks a' = <[id := x]> (tasks a) /\ cancelled a' = cancelled a
                /\ refused (body q) x))
  | Ok (inr p) =>
      exists t, who (unix q) (authz q) a = Some t /\ allowed t (Some (A2ATaskRequest.tenant_id (body q)))
        /\ p_request p = body q /\ pending_ok p /\ same_store a a' /\ tasks a !! id = None
  end.
Proof.
  intros Hr id. unfold create_begin. fold id.
  match goal with |- context [bind (caller_tenant _ _ _ _ (unix q) (authz q)) ?K a] =>
    destruct (authenticated (unix q) (authz q) a K) as (a1 & Hs1 & Hk);
    destruct (bind (caller_tenant _ _ _ _ (unix q) (authz q)) K a) as [a' r]
  end.
  destruct Hk as [(Hw & -> & e & ->)|(c & Hc & Hk)]; [by split; [|left]|]. cbv beta in Hk. unfold bind at 1 in Hk.
  destruct (enforce_spec c (Some (A2ATaskRequest.tenant_id (body q))) a1) as [[E Hal]|[E Hal]]; rewrite E in Hk; clear E;
    [|injection Hk as <- <-; split; [done|]; right; exists c; split; [done|by left]].
  destruct Hs1 as [Ht1 Hc1]. unfold bind at 1, store_get, gets at 1 in Hk. rewrite Ht1 in Hk.
  destruct (tasks a !! id) as [x|] eqn:Ex.
  - unfold bind in Hk. destruct (enforce_spec c (A2ATaskResult.tenant_id x) a1) as [[E Hx]|[E Hx]]; rewrite E in Hk; clear E;
      injection Hk as <- <-;
      [|split; [done|]; right; exists c; split; [done|right]; by exists x]. exists c. split; [done|]. split; [done|]. by left.
  - cbv zeta in Hk. unfold bind at 1, gets in Hk. unfold bind at 1, lift_result in Hk.
    destruct (execute_begin_spec (now q) (cancelled a1) (body q) (resolve_trace (body q) (traceparent q)) Hr
                (resolve_trace_ok _ _ Hr)) as (y & Ey & Hy). rewrite Ey in Hk.
    destruct y as [x|p].
    + unfold bind in Hk. destruct (store_put_spec id x (Some (body q)) a1) as (a2 & Ep & Ht2 & Hc2).
      rewrite Ep in Hk. injection Hk as <- <-. exists c. split; [done|]. split.
      { destruct Hy as (st & _ & _ & -> & _). exact Hal. }
      right. rewrite Ht2, Hc2, Ht1. done.
    + injection Hk as <- <-. destruct Hy as (? & ? & _). exists c. done.
Qed.

(** A new task is executed on the request, and on what was cancelled before. *)
Lemma create_begin_executes q a a' y :
  tasks a !! A2ATaskRequest.task_id (body q) = None -> create_begin' q a = (a', Ok y) ->
  execute_begin (now q) (cancelled a) (body q) (resolve_trace (body q) (traceparent q)) = Ok y.
Proof.
  intros Hnew. unfold create_begin.
  match goal with |- context [bind (caller_tenant _ _ _ _ (unix q) (authz q)) ?K a] =>
    destruct (authenticated (unix q) (authz q) a K) as (a1 & [Ht1 Hc1] & Hk);
    destruct (bind (caller_tenant _ _ _ _ (unix q) (authz q)) K a) as [a2 r]
  end.
  destruct Hk as [(_ & _ & e & ->)|(c & _ & Hk)]; [done|]. intros [= -> ->]. revert Hk. unfold bind at 1.
  destruct (enforce_spec c (Some (A2ATaskRequest.tenant_id (body q))) a1) as [[E _]|[E _]]; rewrite E; [|done].
  unfold bind at 1, store_get, gets at 1. rewrite Ht1, Hnew. cbv zeta.
  unfold bind at 1, gets, lift_result, bind at 1. rewrite Hc1.
  destruct (execute_begin _ _ _ _) as [[x|p]|e]; [|by intros [= _ ->]|done].
  unfold bind. destruct (store_put_spec (A2ATaskRequest.task_id (body q)) x (Some (body q)) a1) as (a2 & -> & _).
  by intros [= _ ->].
Qed.

Lemma create_end_spec p w a :
  pending_ok p ->
  exists a' x, create_end repo p w a = (a', Ok x)
    /\ tasks a' = <[A2ATaskRequest.task_id (p_request p) := x]> (tasks a) /\ cancelled a' = cancelled a
    /\ A2ATaskResult.tenant_id x = Some (A2ATaskRequest.tenant_id (p_request p))
    /\ A2ATaskResult.status x = status_of w
    /\ (w = Finished -> exists out, correlate_local (p_inputs p) = Ok out
         /\ A2ATaskResult.output x = Some (CorrelateOutput.dump out))
    /\ (w <> Finished -> A2ATaskResult.output x = None /\ A2ATaskResult.error x <> None).
Proof.
  intros Hp. destruct (execute_end_spec p w Hp) as (x & Hx & _ & Hten & Hst & Hout).
  destruct (store_put_spec (A2ATaskRequest.task_id (p_request p)) x (Some (p_request p)) a) as (a' & Ha' & Ht & Hc).
  exists a', x. split; [|done]. unfold create_end, bind, lift_result. by rewrite Hx, Ha'.
Qed.

Lemma get_task_spec id au un a :
  let '(a', r) := get_task getenv urlopen injected pyjwt id au un a in
  same_store a a' /\ match r with
                     | Exn _ => True
                     | Ok x => exists t, who un au a = Some t /\ allowed t (A2ATaskResult.tenant_id x)
                               /\ tasks a !! id = Some x
                     end.
Proof.
  unfold get_task. unfold bind at 1, store_get, gets at 1. destruct (tasks a !! id) as [x|]; [|done].
  match goal with |- context [bind (caller_tenant _ _ _ _ un au) ?K a] =>
    destruct (authenticated un au a K) as (a1 & Hs1 & Hk);
    destruct (bind (caller_tenant _ _ _ _ un au) K a) as [a' r]
  end.
  destruct Hk as [(_ & -> & e & ->)|(c & Hc & Hk)]; [done|]. cbv beta in Hk. unfold bind in Hk.
  destruct (enforce_spec c (A2ATaskResult.tenant_id x) a1) as [[E Hx]|[E Hx]]; rewrite E in Hk; clear E;
    injection Hk as <- <-; (split; [done|]); [|done]. by exists c.
Qed.

Lemma with_tenant_id t x : A2ATaskResult.tenant_id (with_tenant t x) = t.
Proof. by destruct x. Qed.

Lemma record_cancel_spec id existing c (a : Agent W) :
  let '(a', r) := record_cancel repo id existing c a in
  match r with
  | Exn _ => tasks a' = tasks a
  | Ok x => tasks a' = <[id := x]> (tasks a)
            /\ A2ATaskResult.tenant_id x = match existing with
                                           | Some e => A2ATaskResult.tenant_id e
                                           | None => Field.trim <$> c
                                           end
  end.
Proof.
  unfold record_cancel. unfold bind at 1, modify at 1. cbv zeta. unfold bind at 1, lift_result.
  destruct (error_result _ _ _ _ _ _ _ _ _) as [x|e] eqn:Ex; [|done].
  set (y := match existing with Some _ => _ | None => x end). set (a1 := mkAgent _ _ _ _).
  destruct (store_put_spec id y None a1) as (a' & Ha' & Ht & _). unfold bind. rewrite Ha'. split; [done|].
  destruct existing as [e|]; [apply with_tenant_id|]. subst y. unfold error_result, rbind in Ex.
  destruct (validate (A2ATaskError.mk _ _ _)); [|done]. by apply validate_ok in Ex as [-> _].
Qed.

Lemma cancel_task_spec id au un a :
  let '(a', r) := cancel_task getenv urlopen injected pyjwt repo id au un a in
  match r with
  | Exn _ => tasks a' = tasks a
  | Ok x =>
      exists t, who un au a = Some t /\
        match tasks a !! id with
        | Some e => allowed t (A2ATaskResult.tenant_id e)
                    /\ A2ATaskResult.tenant_id x = A2ATaskResult.tenant_id e
                    /\ if is_completed e then x = e /\ same_store a a' else tasks a' = <[id := x]> (tasks a)
        | None => A2ATaskResult.tenant_id x = Field.trim <$> t /\ tasks a' = <[id := x]> (tasks a)
        end
  end.
Proof.
  unfold cancel_task.
  match goal with |- context [bind (caller_tenant _ _ _ _ un au) ?K a] =>
    destruct (authenticated un au a K) as (a1 & Hs1 & Hk);
    destruct (bind (caller_tenant _ _ _ _ un au) K a) as [a' r]
  end.
  destruct Hk as [(_ & -> & e & ->)|(c & Hc & Hk)]; [by destruct Hs1|]. cbv beta in Hk. destruct Hs1 as [Ht1 Hc1].
  unfold bind at 1, store_get, gets at 1 in Hk. rewrite Ht1 in Hk. destruct (tasks a !! id) as [e|].
  - unfold bind at 1 in Hk. destruct (enforce_spec c (A2ATaskResult.tenant_id e) a1) as [[E He]|[E _]];
      rewrite E in Hk; [|injection Hk as <- <-; congruence].
    destruct (is_completed e); [injection Hk as <- <-; exists c; by repeat split|].
    pose proof (record_cancel_spec id (Some e) c a1) as Hr. rewrite Hk in Hr. destruct r as [x|]; [|congruence].
    exists c. destruct Hr as [Hr Hx]. rewrite Hr, Ht1. done.
  - pose proof (record_cancel_spec id None c a1) as Hr. rewrite Hk in Hr. destruct r as [x|]; [|congruence].
    exists c. destruct Hr as [Hr Hx]. rewrite Hr, Ht1. done.
Qed.

(** *** Invariants *)

Definition owned (T : string) (x : A2ATaskResult.t) : Prop :=
  default "" (A2ATaskResult.tenant_id x) = T \/ default "" (A2ATaskResult.tenant_id x) = Field.trim T.
Definition answer_ok (w : Answer) : Prop :=
  forall T x, asked_by w = Some (Some T) -> answer w = Ok x -> owned T x.
Definition pending_of (cp : caller * Pending) : Prop :=
  pending_ok cp.2 /\ exists t, cp.1 = Some t /\ allowed t (Some (A2ATaskRequest.tenant_id (p_request cp.2))).
Record good (s : Sys W) : Prop := {
  g_inflight : Forall pending_of (inflight s);
  g_answers : Forall answer_ok (answers s) }.

Lemma answer_allowed t x : allowed t (A2ATaskResult.tenant_id x) -> answer_ok (mkAnswer (Some t) (Ok x)).
Proof. intros Ht T y [= ->] [= ->]. by left. Qed.
Lemma answer_exn c e : answer_ok (mkAnswer c (Exn e)).
Proof. by intros T x _. Qed.

Lemma serve_good c s : well_formed c -> good s -> good (serve c s).
Proof.
  intros Hc [Hin Han]. destruct c as [q|k w|id au un|id au un]; unfold serve.
  - pose proof (create_begin_spec q (agent s) (request_facts _ Hc)) as Hs. cbv zeta in Hs.
    destruct (create_begin _ _ _ _ _ q (agent s)) as [a' [[x|p]|e]].
    + destruct Hs as (t & -> & Hal & _). split; [done|]. apply Forall_app. split; [done|].
      apply Forall_singleton. by apply answer_allowed.
    + destruct Hs as (t & -> & Hal & Hp & Hok & _). split; [|done]. apply Forall_app. split; [done|].
      apply Forall_singleton. split; [done|]. exists t. simpl. by rewrite Hp.
    + split; [done|]. apply Forall_app. split; [done|]. apply Forall_singleton, answer_exn.
  - destruct (inflight s !! k) as [[c p]|] eqn:E; [|done].
    destruct (proj1 (Forall_lookup _ _) Hin _ _ E) as [Hp (t & Ht & Hal)]. cbn [fst snd] in *. subst c.
    destruct (create_end_spec p w (agent s) Hp) as (a' & x & -> & _ & _ & Hten & _).
    split; [by apply Forall_delete|]. apply Forall_app. split; [done|]. apply Forall_singleton.
    apply answer_allowed. by rewrite Hten.
  - pose proof (get_task_spec id au un (agent s)) as Hs.
    destruct (get_task _ _ _ _ id au un (agent s)) as [a' r]. split; [done|]. apply Forall_app. split; [done|].
    apply Forall_singleton. destruct r as [x|e]; [|apply answer_exn].
    destruct Hs as (_ & t & -> & Hal & _). by apply answer_allowed.
  - pose proof (cancel_task_spec id au un (agent s)) as Hs.
    destruct (cancel_task _ _ _ _ _ id au un (agent s)) as [a' r]. split; [done|]. apply Forall_app. split; [done|].
    apply Forall_singleton. destruct r as [x|e]; [|apply answer_exn]. destruct Hs as (t & -> & Hs).
    destruct (tasks (agent s) !! id) as [e|].
    + destruct Hs as (Hal & Hx & _). rewrite <- Hx in Hal. by apply answer_allowed.
    + destruct Hs as [Hx _]. intros T y [= ->] [= ->]. right. by rewrite Hx.
Qed.

Lemma serve_all_good l s :
  Forall well_formed l -> good s -> good (serve_all l s).
Proof. intros Hl. revert s. induction Hl as [|c l Hc _ IH]; intros s Hs; [done|]. by apply IH, serve_good. Qed.

(** A completed result with nothing in flight for its task. *)
Definition settled (id : string) (x : A2ATaskResult.t) (s : Sys W) : Prop :=
  tasks (agent s) !! id = Some x /\ is_completed x = true
  /\ Forall (fun cp => A2ATaskRequest.task_id (p_request cp.2) <> id) (inflight s).

Lemma serve_settled id x c s :
  well_formed c -> good s -> settled id x s -> settled id x (serve c s).
Proof.
  intros Hc [Hin _] (Hx & Hdone & Hfree). destruct c as [q|k w|id' au un|id' au un]; unfold serve.
  - pose proof (create_begin_spec q (agent s) (request_facts _ Hc)) as Hs. cbv zeta in Hs.
    destruct (create_begin _ _ _ _ _ q (agent s)) as [a' [[y|p]|e]].
    + destruct Hs as (t & _ & _ & [(_ & Ht & _)|(Hn & Ht & _)]); split; cbn [agent inflight]; rewrite ?Ht; try done.
      rewrite lookup_insert_ne; [done|]. congruence.
    + destruct Hs as (t & _ & _ & Hp & _ & [Ht _] & Hn). split; cbn [agent inflight]; [by rewrite Ht|].
      split; [done|]. apply Forall_app. split; [done|]. apply Forall_singleton. simpl. rewrite Hp. congruence.
    + destruct Hs as ((Ht & _) & _). split; cbn [agent inflight]; [by rewrite Ht|done].
  - destruct (inflight s !! k) as [[c p]|] eqn:E; [|done].
    destruct (proj1 (Forall_lookup _ _) Hin _ _ E) as [Hp _].
    pose proof (proj1 (Forall_lookup _ _) Hfree _ _ E) as Hne. simpl in Hne, Hp.
    destruct (create_end_spec p w (agent s) Hp) as (a' & y & -> & Ht & _).
    split; cbn [agent inflight]; [by rewrite Ht, lookup_insert_ne|]. split; [done|]. by apply Forall_delete.
  - pose proof (get_task_spec id' au un (agent s)) as Hs.
    destruct (get_task _ _ _ _ id' au un (agent s)) as [a' r]. destruct Hs as [[Ht _] _].
    split; cbn [agent inflight]; [by rewrite Ht|done].
  - pose proof (cancel_task_spec id' au un (agent s)) as Hs.
    destruct (cancel_task _ _ _ _ _ id' au un (agent s)) as [a' r].
    split; cbn [agent inflight]; [|done]. destruct r as [y|e]; [|by rewrite Hs]. destruct Hs as (t & _ & Hs).
    destruct (decide (id' = id)) as [->|Hne].
    + rewrite Hx in Hs. rewrite Hdone in Hs. destruct Hs as (_ & _ & _ & Ht & _). by rewrite Ht.
    + destruct (tasks (agent s) !! id') as [e|].
      * destruct Hs as (_ & _ & Hs). destruct (is_completed e); [destruct Hs as (_ & -> & _); done|].
        by rewrite Hs, lookup_insert_ne.
      * destruct Hs as [_ ->]. by rewrite lookup_insert_ne.
Qed.
End Serve.
End Serving.

Import ResultLemmas ExecuteLemmas Serving.

(** ** The guarantees *)

Section Guarantees.
Context {W : Type} `{Engine W} `{Pydantic}.
Context (getenv : string -> option string) (urlopen : string -> result (list Z)).
Context (injected : option (string -> dict -> result unit)).
Context (pyjwt : option (dict -> string -> option string -> option string -> result unit)).
Context (repo : option (dict -> dict)).

#[local] Abbreviation serve_all' := (serve_all getenv urlopen injected pyjwt repo).
#[local] Abbreviation create_task' := (create_task getenv urlopen injected pyjwt repo).
#[local] Abbreviation who' := (who getenv urlopen injected pyjwt).

Definition start (w : W) : Sys W := mkSys (mkAgent ∅ ∅ None w) [] [].
Lemma start_good w : good (start w).
Proof. split; constructor. Qed.

(** C16. Tasks are isolated by tenant: whatever requests arrive, in whatever
    order, and whenever suspended tasks resume, a caller whose credentials name
    a tenant is never answered with the result of another tenant's task. *)
Theorem tasks_are_isolated (calls : list Call) (w : W) (T : string) (x : A2ATaskResult.t) :
  Forall well_formed calls ->
  mkAnswer (Some (Some T)) (Ok x) ∈ answers (serve_all' calls (start w)) -> owned T x.
Proof.
  intros Hc Hx. pose proof (serve_all_good getenv urlopen injected pyjwt repo calls _ Hc (start_good w)) as [_ Han].
  by apply (proj1 (Forall_forall _ _) Han _ Hx).
Qed.

(** C29. A completed result is final: once a task is completed and none of its
    deliveries is still suspended, no request of any kind or caller changes its
    result - replays, cancellations and new deliveries included. *)
Theorem completed_results_are_final (before after : list Call) (w : W) (id : string) (x : A2ATaskResult.t) :
  Forall well_formed before -> Forall well_formed after ->
  settled id x (serve_all' before (start w)) ->
  tasks (agent (serve_all' after (serve_all' before (start w)))) !! id = Some x.
Proof.
  intros Hb Ha. pose proof (serve_all_good getenv urlopen injected pyjwt repo before _ Hb (start_good w)) as Hg.
  revert Hg. generalize (serve_all' before (start w)). induction Ha as [|c l Hc _ IH]; intros s Hg Hs; [apply Hs|].
  apply IH; [by apply serve_good|by apply serve_settled].
Qed.

(** C30. A delivery that is authorized for its tenant always returns a result,
    never an error: when it completes, the correlation of the input that the
    request itself holds, and otherwise a failure with an error and no output;
    it completes if the skill is the agent's, the task was not cancelled, its
    deadline lies ahead, its input is valid and the wait ends; the result is
    stored, and a second delivery of the same task returns it again without
    running. *)
Theorem tasks_run_once (q : Request) (w : waited) (a : Agent W) (t : option string) :
  let id := A2ATaskRequest.task_id (body q) in
  let tenant := A2ATaskRequest.tenant_id (body q) in
  let input := own_input (body q) (resolve_trace (body q) (traceparent q)) in
  validate (body q) = Ok (body q) ->
  who' (unix q) (authz q) a = Some t -> allowed t (Some tenant) -> tasks a !! id = None ->
  exists a' x, create_task' q w a = (a', Ok x)
    /\ tasks a' !! id = Some x /\ A2ATaskResult.tenant_id x = Some tenant
    /\ (if bool_decide (A2ATaskResult.status x = A2ATaskStatus.COMPLETED)
        then exists i out, input = Ok i /\ correlate_local i = Ok out
               /\ A2ATaskResult.output x = Some (CorrelateOutput.dump out)
        else A2ATaskResult.output x = None /\ A2ATaskResult.error x <> None)
    /\ (forall i, A2ATaskRequest.skill_id (body q) = SKILL_ID -> id ∉ cancelled a ->
          (now q < A2ATaskRequest.deadline (body q))%Z -> input = Ok i -> w = Finished ->
          A2ATaskResult.status x = A2ATaskStatus.COMPLETED)
    /\ forall q2 w2 t2, validate (body q2) = Ok (body q2) ->
         A2ATaskRequest.task_id (body q2) = id -> A2ATaskRequest.tenant_id (body q2) = tenant ->
         who' (unix q2) (authz q2) a' = Some t2 -> allowed t2 (Some tenant) ->
         exists a2, create_task' q2 w2 a' = (a2, Ok x) /\ tasks a2 = tasks a'.
Proof.
  intros id tenant input Hq Hwho Hal Hnew.
  assert (forall a' x, tasks a' !! id = Some x -> A2ATaskResult.tenant_id x = Some tenant ->
    forall q2 w2 t2, validate (body q2) = Ok (body q2) ->
      A2ATaskRequest.task_id (body q2) = id -> A2ATaskRequest.tenant_id (body q2) = tenant ->
      who' (unix q2) (authz q2) a' = Some t2 -> allowed t2 (Some tenant) ->
      exists a2, create_task' q2 w2 a' = (a2, Ok x) /\ tasks a2 = tasks a') as Hreplay.
  { intros a' x Hx Hten q2 w2 t2 Hq2 Hid2 Ht2 Hw2 Hal2. unfold create_task, bind.
    pose proof (create_begin_spec getenv urlopen injected pyjwt repo q2 a' (request_facts _ Hq2)) as Hs.
    cbv zeta in Hs. rewrite Hid2, Ht2, Hw2 in Hs.
    destruct (create_begin _ _ _ _ _ q2 a') as [a2 [[y|p]|e]]; [|naive_solver|].
    - destruct Hs as (t' & _ & _ & [[Hy [Ht _]]|[Hy _]]); exists a2; [|congruence]. split; [|done].
      by replace y with x by congruence.
    - destruct Hs as (_ & [?|(t' & [= <-] & [?|(y & Hy & ?)])]); try done. exfalso. assert (y = x) as -> by congruence.
      by rewrite Hten in *. }
  unfold create_task, bind at 1.
  pose proof (create_begin_spec getenv urlopen injected pyjwt repo q a (request_facts _ Hq)) as Hs.
  cbv zeta in Hs. fold id tenant in Hs. rewrite Hwho in Hs.
  destruct (create_begin _ _ _ _ _ q a) as [a1 [[x|p]|e]] eqn:Eb.
  - pose proof (create_begin_executes getenv urlopen injected pyjwt repo _ _ _ _ Hnew Eb) as Hex.
    destruct Hs as (t' & _ & _ & [[Hx _]|(_ & Ht & _ & (st & Hst & Hid & Hten & Hstat & Hout & Herr))]); [congruence|].
    assert (tasks a1 !! id = Some x) as Hx1 by (by rewrite Ht, lookup_insert_eq).
    exists a1, x. split; [done|]. split; [done|]. split; [done|]. split; [by rewrite bool_decide_eq_false_2 by congruence|].
    split; [|by apply Hreplay]. intros i Hsk Hg Hd Hi _.
    destruct (execute_begin_runs (now q) (cancelled a) (body q) (resolve_trace (body q) (traceparent q)) i) as [p Hp]; [done..|congruence].
  - pose proof (execute_begin_inputs _ _ _ _ _ (create_begin_executes getenv urlopen injected pyjwt repo _ _ _ _ Hnew Eb)) as Hin.
    destruct Hs as (t' & _ & _ & Hp & Hok & _ & _).
    destruct (create_end_spec repo p w a1 Hok) as (a2 & x & Ha2 & Ht2 & _ & Hten & Hst & Hout & Hfail).
    rewrite Hp in Ht2, Hten. fold id tenant in Ht2, Hten.
    assert (tasks a2 !! id = Some x) as Hx2 by (by rewrite Ht2, lookup_insert_eq).
    exists a2, x. split; [exact Ha2|]. split; [done|]. split; [done|].
    split; [|split; [by intros i _ _ _ _ Hw; rewrite Hst, Hw|by apply Hreplay]]. rewrite Hst.
    destruct w; cbn [status_of]; [rewrite bool_decide_eq_true_2 by done|rewrite bool_decide_eq_false_2 by done; by apply Hfail..].
    destruct (Hout eq_refl) as (out & Ho & Hd). by exists (p_inputs p), out.
  - destruct Hs as (_ & [?|(t' & [= <-] & [?|(y & Hy & _)])]); [done|done|congruence].
Qed.

(** With [AUTH_MODE=oidc] no request without credentials reaches a task:
    creation and cancellation fail before anything is read or written, and a
    read returns no task.  The failure is not the intended 401, though: the
    envelope of the error refuses its own message, which contains a marker of
    secrets, so that the contract's [ValidationError] escapes instead. *)
Theorem anonymous_requests_fail (q : Request) (id : string) (un : float) (a : Agent W) :
  getenv "AUTH_MODE" = Some "oidc" -> authz q = "" ->
  create_begin getenv urlopen injected pyjwt repo q a = (a, Exn (ValidationError "message"))
  /\ cancel_task getenv urlopen injected pyjwt repo id "" un a = (a, Exn (ValidationError "message"))
  /\ (get_task getenv urlopen injected pyjwt id "" un a).1 = a
  /\ is_ok (get_task getenv urlopen injected pyjwt id "" un a).2 = false
  /\ (is_Some (tasks a !! id) ->
      (get_task getenv urlopen injected pyjwt id "" un a).2 = Exn (ValidationError "message")).
Proof.
  intros Hmode Hq.
  assert (forall un, caller_tenant getenv urlopen injected pyjwt un "" a = (a, Exn (ValidationError "message"))) as Hc.
  { intros un'. unfold caller_tenant. rewrite Hmode. reflexivity. }
  assert (forall B un (k : option string -> M (Agent W) B),
    bind (caller_tenant getenv urlopen injected pyjwt un "") k a = (a, Exn (ValidationError "message"))) as Hb
    by (intros B un' k; unfold bind; by rewrite Hc).
  unfold create_begin, cancel_task. rewrite Hq, !Hb. split; [done|]. split; [done|].
  assert (get_task getenv urlopen injected pyjwt id "" un a = (a, Exn
    match tasks a !! id with
    | Some _ => ValidationError "message"
    | None => http_error 404 ErrorCode.NOT_FOUND ("task " +:+ id +:+ " not found")
    end)) as ->.
  { unfold get_task. unfold bind at 1, store_get, gets. destruct (tasks a !! id) as [x|]; [apply Hb|done]. }
  split; [done|]. split; [done|]. by intros [x ->].
Qed.
End Guarantees.

(** ** The write-through *)

Section WriteThrough.
Context {W : Type} `{EngineLaws W} `{Pydantic}.
Context (getenv : string -> option string) (urlopen : string -> result (list Z)).
Context (injected : option (string -> dict -> result unit)).
Context (pyjwt : option (dict -> string -> option string -> option string -> result unit)).

Lemma persist_for_tenant redact id x r :
  steps (Clients.for_tenant redact (A2ATaskRequest.tenant_id r)) (persist_task (Some redact) id x r).
Proof.
  apply (steps_bind (Clients.for_tenant redact _)); [|intros _].
  - apply Clients.suppress_for_tenant, Clients.call_for_tenant. constructor.
  - destruct (A2ATaskResult.output x); [|apply (steps_ret (Clients.for_tenant redact _))].
    apply Clients.suppress_for_tenant, Clients.call_for_tenant. constructor.
Qed.

Definition on_world_of redact T (x y : Agent W) : Prop := Clients.for_tenant redact T (world x) (world y).
#[local] Instance on_world_order redact T : PreOrder (on_world_of redact T).
Proof. split; [intros x; unfold on_world_of; reflexivity|intros x y z; unfold on_world_of; by etrans]. Qed.

Lemma store_put_world redact id x r :
  steps (on_world_of redact (A2ATaskRequest.tenant_id r)) (store_put (Some redact) id x (Some r)).
Proof.
  set (R := on_world_of _ _).
  apply (steps_bind R); [apply (steps_modify R); intros y; subst R; unfold on_world_of; simpl; reflexivity|].
  intros _ y. subst R. unfold on_world_of, on_world. pose proof (persist_for_tenant redact id x r (world y)) as Hp.
  by destruct (persist_task _ _ _ _ (world y)) as [w' o].
Qed.

(** Before its suspension a request touches the world only by that. *)
Lemma create_begin_world redact q :
  steps (on_world_of redact (A2ATaskRequest.tenant_id (body q)))
    (create_begin getenv urlopen injected pyjwt (Some redact) q).
Proof.
  set (R := on_world_of _ _).
  assert (forall c tenant, steps R (enforce_task_tenant c tenant)) as Henf.
  { intros [t|] tenant; [|apply (steps_ret R)]. simpl. destruct (String.eqb _ _); [apply (steps_ret R)|apply (steps_raise R)]. }
  apply (steps_bind R).
  { intros x. subst R. unfold on_world_of, caller_tenant. destruct (String.eqb (authz q) "").
    - destruct (String.eqb _ _); simpl; reflexivity.
    - unfold bind, on_jwks. destruct (try_catch _ _ (jwks x)) as [j [i|e]]; simpl; reflexivity. }
  intros c. apply (steps_bind R); [apply Henf|]. intros _. apply (steps_bind R); [apply (steps_gets R)|]. intros [x|].
  - apply (steps_bind R); [apply Henf|]. intros _. apply (steps_ret R).
  - apply (steps_bind R); [apply (steps_gets R)|]. intros gone. apply (steps_bind R); [apply (steps_lift R)|].
    intros [x|p]; [|apply (steps_ret R)]. apply (steps_bind R); [apply store_put_world|]. intros _. apply (steps_ret R).
Qed.

(** The write-through is contained: a delivery changes the database only by
    changes that the abstract store allows its own tenant, keeps the declared
    constraints, and leaves every other tenant's rows as they were - while the
    database may fail at any point without the delivery failing. *)
Theorem write_through_is_contained redact (q : Request) (w : waited) (a : Agent W) :
  validate (body q) = Ok (body q) -> constraints (committed (world a)) ->
  let T := A2ATaskRequest.tenant_id (body q) in
  let before := committed (world a) in
  let after := committed (world (create_task getenv urlopen injected pyjwt (Some redact) q w a).1) in
  rtc (change redact T) before after /\ constraints after /\ forall T', T' <> T -> same_rows T' before after.
Proof.
  intros Hq Hc T before after.
  assert (Clients.for_tenant redact T (world a) (world (create_task getenv urlopen injected pyjwt (Some redact) q w a).1)) as Hw.
  { unfold create_task, bind at 1. pose proof (create_begin_world redact q a) as Hb.
    pose proof (create_begin_spec getenv urlopen injected pyjwt (Some redact) q a (request_facts _ Hq)) as Hs.
    cbv zeta in Hs. destruct (create_begin _ _ _ _ _ q a) as [a1 [[x|p]|e]]; [exact Hb| |exact Hb].
    destruct Hs as (t & _ & _ & Hp & _). etrans; [exact Hb|]. unfold create_end, bind at 1, lift_result.
    destruct (execute_end p w) as [x|e]; [|cbn [fst]; reflexivity]. unfold bind.
    pose proof (store_put_world redact (A2ATaskRequest.task_id (p_request p)) x (p_request p) a1) as Hput.
    rewrite Hp in Hput |- *. by destruct (store_put _ _ _ _ a1) as [a2 [[]|e]]. }
  split; [by apply Hw|]. split; [by apply Hw|]. intros T' Hne. by eapply Clients.for_tenant_isolated.
Qed.
End WriteThrough.

(** ** Witnesses *)

Module TaskDemo.
Definition world : Memory.db := Memory.empty.
Definition local_env (k : string) : option string := None.
Definition oidc_env (k : string) : option string := if String.eqb k "AUTH_MODE" then Some "oidc" else None.
Definition no_keys (url : string) : result (list Z) := Exn (OtherError "URLError" "unreachable").
Definition inputs : dict :=
  [("service", VStr "checkout"); ("window", VDict [("start", VInt 1789124400); ("end", VInt 1789128000)]);
   ("metrics_refs", VList [VStr "telemetry://m/1"])].
Definition task (tenant : string) : A2ATaskRequest.t :=
  A2ATaskRequest.mk "task-1" (Some "run-1") tenant SKILL_ID "observability-agent" "Correlate symptoms" inputs None
    1789128030000000 "orchestrator" None None.
Definition request (tenant authz : string) : Request :=
  mkRequest (task tenant) authz None 1789128000000000 (PyFloat.of_Z 1789128000).
Definition acme : string := "Bearer local:ann:acme".
Definition globex : string := "Bearer local:eve:globex".

#[local] Existing Instance McpModels.strict.
Definition all (env : string -> option string) (calls : list Call) : Sys Memory.db :=
  serve_all env no_keys None None (Some (fun d => d)) calls (start world).
(** The task runs for its tenant; the other tenant reads and cancels it. *)
Definition intrusion : list Call :=
  [Create (request "acme" acme); Resume 0 Finished; Get "task-1" globex PyFloat.zero;
   Cancel "task-1" globex PyFloat.zero; Get "task-1" acme PyFloat.zero].
Definition nth_result (k : nat) (s : Sys Memory.db) : option A2ATaskResult.t :=
  match answers s !! k with Some (mkAnswer _ (Ok x)) => Some x | _ => None end.
End TaskDemo.
Import TaskDemo.
#[local] Existing Instance McpModels.strict.

Lemma tasks_are_isolated_witness :
  Forall well_formed intrusion
  /\ exists x, mkAnswer (Some (Some "acme")) (Ok x) ∈ answers (all local_env intrusion)
     /\ A2ATaskResult.status x = A2ATaskStatus.COMPLETED /\ owned "acme" x
     /\ map (fun w => is_ok (answer w)) (answers (all local_env intrusion)) = [true; false; false; true].
Proof.
  assert (Forall well_formed intrusion) as Hc by (repeat constructor). split; [done|].
  destruct (nth_result 0 (all local_env intrusion)) as [x|] eqn:E; [|vm_compute in E; discriminate].
  assert (mkAnswer (Some (Some "acme")) (Ok x) ∈ answers (all local_env intrusion)) as Hx.
  { apply (list_elem_of_lookup_2 _ 0). vm_compute in E. injection E as <-. vm_compute. reflexivity. }
  exists x. split; [done|]. split; [by (vm_compute in E; injection E as <-)|]. split; [|vm_compute; reflexivity].
  unfold all in Hx.
  exact (tasks_are_isolated local_env no_keys None None (Some (fun d => d)) intrusion world "acme" x Hc Hx).
Defined.

Lemma completed_results_are_final_witness :
  let before := [Create (request "acme" acme); Resume 0 Finished] in
  let after := [Cancel "task-1" acme PyFloat.zero; Create (request "acme" acme)] in
  Forall well_formed before /\ Forall well_formed after
  /\ exists x, settled "task-1" x (all local_env before)
     /\ tasks (agent (serve_all local_env no_keys None None (Some (fun d => d)) after (all local_env before)))
          !! "task-1" = Some x.
Proof.
  intros before after. assert (Forall well_formed before) as Hb by (repeat constructor).
  assert (Forall well_formed after) as Ha by (repeat constructor). split; [done|]. split; [done|].
  destruct (tasks (agent (all local_env before)) !! "task-1") as [x|] eqn:E; [|vm_compute in E; discriminate].
  assert (settled "task-1" x (all local_env before)) as Hs.
  { split; [done|]. split; [vm_compute in E; injection E as <-; vm_compute; reflexivity|vm_compute; constructor]. }
  exists x. split; [done|]. unfold all in *.
  exact (completed_results_are_final local_env no_keys None None (Some (fun d => d)) before after world "task-1" x
           Hb Ha Hs).
Defined.

Lemma tasks_run_once_witness :
  let q := request "acme" acme in
  let a := agent (start world) in
  validate (body q) = Ok (body q)
  /\ who local_env no_keys None None (unix q) (authz q) a = Some (Some "acme")
  /\ exists a' x, create_task local_env no_keys None None (Some (fun d => d)) q Finished a = (a', Ok x)
     /\ tasks a' !! "task-1" = Some x.
Proof.
  intros q a. assert (validate (body q) = Ok (body q)) as Hq by (vm_compute; reflexivity). split; [done|].
  assert (who local_env no_keys None None (unix q) (authz q) a = Some (Some "acme")) as Hw by (vm_compute; reflexivity).
  split; [done|].
  assert (allowed (Some "acme") (Some (A2ATaskRequest.tenant_id (body q)))) as Hal by reflexivity.
  assert (tasks a !! A2ATaskRequest.task_id (body q) = None) as Hnew by reflexivity.
  destruct (tasks_run_once local_env no_keys None None (Some (fun d => d)) q Finished a (Some "acme") Hq Hw Hal Hnew)
    as (a' & x & Ha & Hx & _). exists a', x. split; [exact Ha|exact Hx].
Defined.

Lemma anonymous_requests_fail_witness :
  let q := request "acme" "" in
  let a := agent (start world) in
  oidc_env "AUTH_MODE" = Some "oidc" /\ authz q = ""
  /\ create_begin oidc_env no_keys None None None q a = (a, Exn (ValidationError "message")).
Proof.
  intros q a. split; [done|]. split; [done|].
  exact (proj1 (anonymous_requests_fail oidc_env no_keys None None None q "task-1" PyFloat.zero a eq_refl eq_refl)).
Defined.

(** A tenant that cancels an identifier before its first delivery keeps the
    owner's delivery out: the owner is told that its new task is not found. *)
Example squatted_task :
  map answer (answers (all local_env [Cancel "task-1" globex PyFloat.zero; Create (request "acme" acme)])) !! 1
  = Some (Exn not_found).
Proof. vm_compute. reflexivity. Qed.

(** A cancellation that arrives while the task runs is answered as cancelled,
    and then overwritten by the completed result. *)
Example cancellation_lost :
  let s := all local_env [Create (request "acme" acme); Cancel "task-1" acme PyFloat.zero; Resume 0 Finished] in
  map (fun w => match answer w with Ok x => Some (A2ATaskResult.status x) | _ => None end) (answers s)
  = [Some A2ATaskStatus.CANCELLED; Some A2ATaskStatus.COMPLETED]
  /\ A2ATaskResult.status <$> tasks (agent s) !! "task-1" = Some A2ATaskStatus.COMPLETED
  /\ bool_decide ("task-1" ∈ cancelled (agent s)) = true.
Proof. vm_compute. done. Qed.

Lemma write_through_is_contained_witness :
  let w := (Repository.create_run "run-1" "acme" "ann" "Investigate" [] "classify" None None None Memory.empty).1 in
  let a := mkAgent ∅ ∅ None w in
  let q := request "acme" acme in
  let after := committed (Observability.world (create_task local_env no_keys None None (Some (fun d => d)) q Finished a).1) in
  validate (body q) = Ok (body q) /\ constraints (committed w)
  /\ map (fun k => (AgentTask.task_id k, AgentTask.status k)) (agent_tasks after) = [("task-1", "completed")]
  /\ same_rows "globex" (committed w) after.
Proof.
  intros w a q after. assert (validate (body q) = Ok (body q)) as Hq by (vm_compute; reflexivity). split; [done|].
  assert (constraints (committed w)) as Hc.
  { assert (constraints (committed Memory.empty)) as H0 by (repeat constructor).
    exact (proj2 (tenant_call_change (fun d => d) "acme" _
             (Repository.create_run "run-1" "acme" "ann" "Investigate" [] "classify" None None None) Memory.empty
             (c_create_run _ _ _ _ _ _ _ _ _ _) H0)). }
  split; [exact Hc|]. split; [vm_compute; reflexivity|].
  exact (proj2 (proj2 (write_through_is_contained local_env no_keys None None (fun d => d) q Finished a Hq Hc))
           "globex" ltac:(done)).
Defined.
