(* ===== verification/ApiStore.v ===== *)
(** * The state of the API process

    [apps/api/store.py]: the process-local caches, cancellation, and
    [RepositoryStore], the graph's store over the repository.  A request runs to
    completion before the next one, and a run of the graph before the requests
    that follow it: no request changes a cached run while the graph works on it. *)

From stdpp Require Import base gmap sets list strings.
From Stdlib Require Import ZArith Lia Ascii.
From S2P Require Import Prelude.
From S2P Require Import PyFloat.
From S2P Require Import PyValue.
From S2P Require Import PyTime.
From S2P Require Import IsoTime.
From S2P Require Import Contracts.
From S2P Require Import ContractsRun.
From S2P Require Import ContractsOps.
From S2P Require Import Tables.
From S2P Require Import Repository.
From S2P Require Import RepositoryClients.
From S2P Require Import RunState.
From S2P Require Import GraphTools.
From S2P Require Import Graph.
From S2P Require Import GraphFakes.

Local Open Scope py_scope.

Module ApiStore.

(** [get_database_url] *)
Definition get_database_url (getenv : string -> option string) : string :=
  let url := PyStr.strip (default "" (getenv "DATABASE_URL")) in
  if negb (String.eqb url "") then url
  else if String.eqb (default "local" (getenv "APP_ENV")) "test" then "sqlite:///:memory:"
  else "sqlite:///./workbench.db".

(** [RUN_STATES], [CANCEL_FLAGS], [DECIDE_IDEMPOTENCY], [A2A_CANCELLED] and the
    world of the repository.  A cached run is the object that the graph works
    on. *)
Record App (W : Type) := mkApp {
  db : W; run_states : gmap string RunState; cancel_flags : gset string;
  decide_cache : gmap (string * string) dict; a2a_cancelled : list string }.
Arguments mkApp {W} _ _ _ _ _.
Arguments db {W} _.
Arguments run_states {W} _.
Arguments cancel_flags {W} _.
Arguments decide_cache {W} _.
Arguments a2a_cancelled {W} _.

(** [datetime + timedelta(minutes=30)] *)
Definition max_instant : Z := 253402300800000000.
Definition plus_30_minutes (t : PyTime.time) : result PyTime.time :=
  let t' := (t + 30 * 60 * 1000000)%Z in
  if (t' <? max_instant)%Z then Ok t' else Exn (OverflowError "date value out of range").

(** [_parse_dt] of a value that is not a datetime: the rows of the graph hold
    texts. *)
Definition parse_dt (v : option pyval) : option PyTime.time :=
  match v with
  | None | Some VNone => None
  | Some v => PyTime.instant <$> IsoTime.fromisoformat (py_str v)
  end.
Definition coerce_decision (v : pyval) : ApprovalDecision.t :=
  default ApprovalDecision.PENDING (ApprovalDecision.parse (py_str v)).

(** The argument of a [str | None] field *)
Definition opt_text (k : string) (d : dict) : result (option string) :=
  match get_or k VNone d with
  | VNone => Ok None
  | VStr s => Ok (Some s)
  | _ => Exn (ValidationError k)
  end.
(** [event.get(k)] where the event is a dump of [AgentEvent] *)
Definition text_of (k : string) (d : dict) : option string :=
  match dget k d with Some (VStr s) => Some s | _ => None end.
Definition flag_of (k : string) (d : dict) : bool := truthy (get_or k (VBool false) d).

Section Store.
Context {W : Type} `{Engine W}.
Variable redact : dict -> dict.

Definition on_db {A} (m : M W A) : M (App W) A := fun x =>
  let '(w, r) := m (db x) in
  (mkApp w (run_states x) (cancel_flags x) (decide_cache x) (a2a_cancelled x), r).
Definition set_run (run_id : string) (s : RunState) : M (App W) unit :=
  modify (fun x => mkApp (db x) (<[run_id := s]> (run_states x)) (cancel_flags x) (decide_cache x)
                     (a2a_cancelled x)).

(** [request_cancel], also called by [propagate_cancel] of the worker *)
Definition obs_task (run_id : string) : string := run_id +:+ "-obs-1".
Definition request_cancel (run_id : string) : M (App W) unit :=
  modify (fun x =>
    mkApp (db x) (alter (set_cancelled true) run_id (run_states x)) ({[run_id]} ∪ cancel_flags x)
      (decide_cache x)
      (if bool_decide (obs_task run_id ∈ a2a_cancelled x) then a2a_cancelled x
       else a2a_cancelled x ++ [obs_task run_id])).

(** ** RepositoryStore *)

(** The ledger of [save] *)
Definition ledger (s : RunState) : dict :=
  [("max_tool_calls", VInt (max_tool_calls (limits s)));
   ("max_model_calls", VInt (max_model_calls (limits s)));
   ("max_cost_usd", VFloat (max_cost_usd (limits s)));
   ("consumed_tool_calls", VInt (tool_calls (usage s)));
   ("consumed_model_calls", VInt (model_calls (usage s)));
   ("consumed_cost_usd", VFloat (cost_usd (usage s)))].

Section Adapter.
Variables run_id tenant_id : string.

(** The approval of a row of the graph. *)
Definition approval_of (ap : dict) (s : RunState) (requested_at : PyTime.time) : result Approval.t :=
  let approval_id := get_str "approval_id" "" ap in
  let? expires_at := match parse_dt (dget "expires_at" ap) with
                     | Some t => Ok t
                     | None => plus_30_minutes requested_at
                     end in
  let? approver := opt_text "approver" ap in
  let? reason := opt_text "reason" ap in
  validate (Approval.mk approval_id run_id tenant_id (get_str "action_id" approval_id ap)
    (get_str "requested_by" "orchestrator" ap) approver
    (coerce_decision (get_or "decision" (VStr "pending") ap)) reason requested_at
    (parse_dt (dget "decided_at" ap)) (Some expires_at) (trace_id s) (correlation_id s)).

(** [contextlib.suppress(ConflictError)] *)
Definition is_conflict (e : exn) : bool := String.eqb (exn_class e) "ConflictError".
Definition upsert_approval (ap : dict) (s : RunState) : M W unit :=
  if String.eqb (get_str "approval_id" "" ap) "" then ret tt
  else
    let* requested_at := match parse_dt (dget "requested_at" ap) with
                         | Some t => ret t
                         | None => now
                         end in
    let* approval := lift_result (approval_of ap s requested_at) in
    try_catch (Repository.create_approval approval ;;* ret tt)
      (fun e => if is_conflict e then ret tt else raise e).

Definition save (s : RunState) : M (App W) unit :=
  set_run run_id s ;;*
  on_db (Clients.suppress (Repository.update_run run_id tenant_id
    [Repository.F_status (status s); Repository.F_current_state (current_state s);
     Repository.F_budget_json (ledger s)])) ;;*
  for_each (approvals s) (fun ap => on_db (Clients.suppress (upsert_approval ap s))).

Definition append (event : dict) : M (App W) unit :=
  let type := get_str "type" "message.delta" event in
  let raw := get_or "data" (VDict []) event in
  let* data := lift_result (if truthy raw then py_dict raw else Ok []) in
  let sensitive := flag_of "sensitive" event in
  on_db (Clients.suppress
    (Repository.append_next_event redact run_id tenant_id (inr type) data
       (Some (py_str (first_truthy [get_or "event_id" VNone event; VStr ""])))
       (text_of "trace_id" event) (text_of "correlation_id" event) sensitive
       (flag_of "safe_for_ui" event && negb sensitive))).

(** ** The dependencies of a graph

    [GraphDeps] as the routes and the worker build it: fresh fakes, whose logs
    of calls nothing reads, this store, and the system clocks. *)
Variable read_monotonic : M W float.

Definition deps : Deps (App W) := {|
  mcp_invoke tool args timeout :=
    lift_result (let? _ := GraphTools.validate_tool_call tool args in Fakes.mcp_result [] "degraded" tool args);
  a2a_delegate request timeout := lift_result (Fakes.a2a_answer "ok" (PyFloat.ratio 8 10) request);
  a2a_cancel := Some (fun _ => ret tt);
  policy_evaluate action env := lift_result (Fakes.policy_answer "approve_all" action env);
  store_save := save;
  store_append := append;
  model_classify objective context := ret (Fakes.classify objective context);
  model_plan objective classification := ret Fakes.plan;
  clock_now := on_db now;
  utcnow := on_db now;
  monotonic := on_db read_monotonic;
  cancel_signal _ := false;
|}.
End Adapter.
End Store.
End ApiStore.
