(* ===== verification/Engines.v ===== *)
(** * The database of a process

    [get_engine], [create_all] and [from_url] of
    [packages/persistence/repositories.py], and the singleton of
    [apps/api/store.py] with its test hook.  SQLAlchemy is a parameter: making an
    engine, and creating and dropping the tables of the metadata on one. *)

From stdpp Require Import base gmap sets list strings.
From Stdlib Require Import ZArith Lia Ascii.
From S2P Require Import Prelude.
From S2P Require Import PyValue.
From S2P Require Import Repository.
From S2P Require Import ApiStore.

Local Open Scope py_scope.

Module Engines.

(** The keyword arguments of [create_engine] that [get_engine] looks at *)
Record EngineArgs := mkArgs { future : option bool; connect_args : option dict; poolclass : option string }.
Definition no_args : EngineArgs := mkArgs None None None.
(** [kwargs.setdefault] *)
Definition setdefault {A} (given : option A) (x : A) : option A := Some (default x given).
Definition engine_args (database_url : string) (kwargs : EngineArgs) : EngineArgs :=
  if PyStr.startswith "sqlite" database_url
  then mkArgs (setdefault (future kwargs) true)
         (setdefault (connect_args kwargs) [("check_same_thread", VBool false)])
         (setdefault (poolclass kwargs) "StaticPool")
  else mkArgs (setdefault (future kwargs) true) (connect_args kwargs) (poolclass kwargs).

Section Engines.
(** Databases and engines *)
Context {D E : Type}.
Variable create_engine : string -> EngineArgs -> M D E.
Variables metadata_create_all metadata_drop_all : E -> M D unit.
Variable getenv : string -> option string.

Definition get_engine (database_url : string) (kwargs : EngineArgs) : M D E :=
  create_engine database_url (engine_args database_url kwargs).
Definition create_all (engine : E) : M D unit := metadata_create_all engine.

(** The factory of a repository is a [sessionmaker] bound to an engine. *)
Record SqlAlchemyRepository := mkRepo { bind_to : option E; redact : dict -> dict }.
Definition from_url (database_url : string) (redact : dict -> dict) : M D SqlAlchemyRepository :=
  let* engine := get_engine database_url no_args in
  create_all engine ;;*
  ret (mkRepo (Some engine) redact).

(** [_REPO] and [_ENGINE] *)
Record Singleton := mkSingleton { databases : D; REPO : option SqlAlchemyRepository; ENGINE : option E }.
Definition on_databases {A} (m : M D A) : M Singleton A := fun s =>
  let '(d, r) := m (databases s) in (mkSingleton d (REPO s) (ENGINE s), r).
Definition set_engine (e : E) : M Singleton unit := modify (fun s => mkSingleton (databases s) (REPO s) (Some e)).
Definition set_repo : M Singleton SqlAlchemyRepository :=
  let* engine := gets ENGINE in
  let repo := mkRepo engine Repository.default_hook in
  modify (fun s => mkSingleton (databases s) (Some repo) (ENGINE s)) ;;* ret repo.

Definition memory_url : string := "sqlite:///:memory:".
Definition connect (database_url : string) : M Singleton unit :=
  let* engine := on_databases (get_engine database_url no_args) in
  set_engine engine ;;*
  on_databases (create_all engine).
Definition get_repository : M Singleton SqlAlchemyRepository :=
  let* repo := gets REPO in
  match repo with
  | Some repo => ret repo
  | None =>
      try_catch (connect (ApiStore.get_database_url getenv)) (fun _ => connect memory_url) ;;*
      set_repo
  end.

(** [reset_repository], which clears the caches as well *)
Definition reset_repository (database_url : string) : M (ApiStore.App Singleton) SqlAlchemyRepository :=
  let* engine := ApiStore.on_db (on_databases (get_engine database_url no_args)) in
  ApiStore.on_db (set_engine engine) ;;*
  ApiStore.on_db (on_databases (metadata_drop_all engine)) ;;*
  ApiStore.on_db (on_databases (metadata_create_all engine)) ;;*
  let* repo := ApiStore.on_db set_repo in
  modify (fun x => ApiStore.mkApp (ApiStore.db x) ∅ ∅ ∅ []) ;;*
  ret repo.

(** ** Properties *)

(** The repository is made once: whoever asks later is given the same one and
    touches no database. *)
Lemma get_repository_once s s' repo :
  get_repository s = (s', Ok repo) -> REPO s' = Some repo /\ get_repository s' = (s', Ok repo).
Proof.
  assert (REPO s' = Some repo -> REPO s' = Some repo /\ get_repository s' = (s', Ok repo)) as Hlast.
  { intros Hr. split; [done|]. unfold get_repository, bind, gets. by rewrite Hr. }
  intros E0. apply Hlast. revert E0. unfold get_repository. rewrite bind_gets.
  destruct (REPO s) as [r|] eqn:Er; [by intros [= <- <-]|].
  unfold bind at 1. destruct (try_catch _ _ s) as [s1 [u|e]]; [|done]. unfold set_repo. rewrite bind_gets.
  by intros [= <- <-].
Qed.

(** It is bound to the engine of the configured database, or to that of a
    database in memory; it is not made only where the latter fails too. *)
Lemma get_repository_binds s :
  REPO s = None ->
  wp get_repository
    (fun repo s' => bind_to repo = ENGINE s'
       /\ ((exists s1, connect (ApiStore.get_database_url getenv) s = (s1, Ok tt) /\ ENGINE s' = ENGINE s1)
           \/ exists s1 e s2, connect (ApiStore.get_database_url getenv) s = (s1, Exn e)
                /\ connect memory_url s1 = (s2, Ok tt) /\ ENGINE s' = ENGINE s2))
    (fun e s' => exists s1 e1, connect (ApiStore.get_database_url getenv) s = (s1, Exn e1)
                   /\ connect memory_url s1 = (s', Exn e)) s.
Proof.
  intros Hr. unfold get_repository. rewrite wp_bind, wp_gets, Hr, wp_bind, wp_try. unfold wp at 1.
  destruct (connect (ApiStore.get_database_url getenv) s) as [s1 [[]|e1]] eqn:E1.
  - unfold set_repo. rewrite wp_bind, wp_gets, wp_bind, wp_modify, wp_ret. split; [done|]. left. by exists s1.
  - unfold wp at 1. destruct (connect memory_url s1) as [s2 [[]|e2]] eqn:E2; [|by exists s1, e1].
    unfold set_repo. rewrite wp_bind, wp_gets, wp_bind, wp_modify, wp_ret. split; [done|]. right.
    by exists s1, e1, s2.
Qed.

(** After a reset the process has nothing cached. *)
Lemma reset_repository_clears url x x' repo :
  reset_repository url x = (x', Ok repo) ->
  REPO (ApiStore.db x') = Some repo /\ ApiStore.run_states x' = ∅ /\ ApiStore.cancel_flags x' = ∅
  /\ ApiStore.decide_cache x' = ∅ /\ ApiStore.a2a_cancelled x' = [].
Proof.
  unfold reset_repository. intros E0.
  enough (wp (reset_repository url) (fun repo x' => REPO (ApiStore.db x') = Some repo /\ ApiStore.run_states x' = ∅
    /\ ApiStore.cancel_flags x' = ∅ /\ ApiStore.decide_cache x' = ∅ /\ ApiStore.a2a_cancelled x' = [])
    (fun _ _ => True) x) as Hw by (unfold wp, reset_repository in Hw; by rewrite E0 in Hw).
  unfold reset_repository. rewrite wp_bind. unfold wp at 1.
  destruct (ApiStore.on_db _ x) as [x1 [e1|]]; [|done]. rewrite wp_bind. unfold wp at 1.
  destruct (ApiStore.on_db (set_engine e1) x1) as [x2 [u2|]]; [|done]. rewrite wp_bind. unfold wp at 1.
  destruct (ApiStore.on_db _ x2) as [x3 [u3|]]; [|done]. rewrite wp_bind. unfold wp at 1.
  destruct (ApiStore.on_db _ x3) as [x4 [u4|]]; [|done]. rewrite wp_bind. unfold wp at 1.
  unfold ApiStore.on_db, set_repo, bind, gets, modify, ret. simpl. done.
Qed.
End Engines.
End Engines.

(** ** Where the fallback is used *)

Module EnginesDemo.
(** A server that refuses connections; engines are their URLs. *)
Definition create_engine (url : string) (args : Engines.EngineArgs) : M unit string := ret url.
Definition create_tables (url : string) : M unit unit :=
  if PyStr.startswith "postgresql" url then raise (OtherError "OperationalError" "connection refused") else ret tt.
Definition production (k : string) : option string :=
  dget k [("APP_ENV", "production"); ("DATABASE_URL", "postgresql://db/workbench")].
End EnginesDemo.

(** A production process whose database is down works on a database in memory. *)
Example unreachable_database_is_replaced :
  match (Engines.get_repository EnginesDemo.create_engine EnginesDemo.create_tables EnginesDemo.production
           (Engines.mkSingleton tt None None)).2 with
  | Ok repo => Engines.bind_to repo
  | Exn _ => None
  end = Some "sqlite:///:memory:".
Proof. reflexivity. Qed.
