(* ===== verification/Api.v ===== *)
(** * The gateway API

    [apps/api/]: the dependencies, the routes of runs and approvals, the
    handlers of errors and the security headers.  A route is a computation over
    the state of the process; FastAPI's parsing of requests is the premise that
    a body passed its contract, and its rendering of answers is left out.  The
    background task that [create_run] leaves is an explicit step,
    [execute_run]. *)

From stdpp Require Import base gmap sets list strings pretty.
From Stdlib Require Import ZArith Lia Ascii.
From S2P Require Import Prelude.
From S2P Require Import PyFloat.
From S2P Require Import PyValue.
From S2P Require Import PyTime.
From S2P Require Import Contracts.
From S2P Require Import ContractsRun.
From S2P Require Import ContractsOps.
From S2P Require Import Security.
From S2P Require Import Runtime.
From S2P Require Import Tables.
From S2P Require Import Repository.
From S2P Require Import RepositoryClients.
From S2P Require Import RunState.
From S2P Require Import Graph.
From S2P Require Import GraphSteps.
From S2P Require Import ApiStore.

Local Open Scope py_scope.

(** ** Bodies *)

Module CreateRunRequest.
Record t := mk {
  objective : string; context : dict; max_tool_calls : Z; max_model_calls : Z; max_cost_usd : float;
  schema_version : string }.
Definition checks (x : t) : list (string * bool) :=
  [("objective", Field.length_in 1 8000 (objective x)); ("max_tool_calls", int_in 1 100 (max_tool_calls x));
   ("max_model_calls", int_in 1 50 (max_model_calls x)); ("max_cost_usd", cost_ok (max_cost_usd x))].
#[global, refine] Instance contract : Contract t := {| strip x := x; fields := checks; rule _ := None |}.
Proof. done. Defined.
End CreateRunRequest.

Module DecideRequest.
Record t := mk { decision : string; approver : string; reason : option string; schema_version : string }.
Definition checks (x : t) : list (string * bool) :=
  [("approver", Field.length_in 1 256 (approver x)); ("reason", Field.opt (Field.length_in 0 2000) (reason x))].
#[global, refine] Instance contract : Contract t := {| strip x := x; fields := checks; rule _ := None |}.
Proof. done. Defined.
End DecideRequest.

Module Api.
Import ApiStore.

Definition SCHEMA_VERSION : string := "1.0".

(** ** Errors *)

(** [HTTPException(status, detail=_envelope(code, message))] *)
Definition http (status : Z) (code message : string) : exn := CodedError "HTTPException" code message status.
Definition not_found : exn := http 404 "not_found" "not found".
Definition is_not_found (e : exn) : bool := String.eqb (exn_class e) "NotFoundError".
(** [except NotFoundError as e: raise HTTPException(404)] *)
Definition or_404 {S A} (m : M S A) : M S A :=
  try_catch m (fun e => if is_not_found e then raise not_found else raise e).
(** [contextlib.suppress(NotFoundError, ConflictError)] *)
Definition best_effort {S A} (m : M S A) : M S unit :=
  try_catch (m ;;* ret tt) (fun e => if is_not_found e || is_conflict e then ret tt else raise e).

(** [_envelope] of [main.py], and its handlers: the answer of an exception,
    [None] for one that no handler takes (a 500). *)
Definition envelope (code message : string) (retryable : bool) : dict :=
  [("code", VStr code); ("message", VStr message); ("retryable", VBool retryable)].
Definition handle_error (e : exn) : option (Z * dict) :=
  match e with
  | CodedError cls code msg status =>
      if mem cls ["AuthorizationError"; "NotFoundForIsolation"; "IdentityError"; "HTTPException"]
      then Some (status, envelope code msg false)
      else if String.eqb cls "RateLimitError" then Some (429%Z, envelope "rate_limited" msg true)
      else if String.eqb cls "LimitExceededError" then Some (400%Z, envelope code msg false)
      else None
  | _ => None
  end.

(** ** [packages/security/headers.py] and the probes *)
Definition SECURITY_HEADERS : list (string * string) :=
  [("X-Content-Type-Options", "nosniff"); ("X-Frame-Options", "DENY"); ("Referrer-Policy", "no-referrer");
   ("Permissions-Policy", "camera=(), microphone=(), geolocation=()");
   ("Cross-Origin-Opener-Policy", "same-origin"); ("Cross-Origin-Resource-Policy", "same-origin");
   ("Content-Security-Policy", "default-src 'none'; frame-ancestors 'none'")].
Definition HSTS : string * string :=
  ("Strict-Transport-Security", "max-age=63072000; includeSubDomains; preload").
Definition is_prod (env : string) : bool := mem (PyStr.lower (PyStr.strip env)) ["production"; "prod"].
Definition build_headers (env : string) : list (string * string) :=
  if is_prod env then dset HSTS.1 HSTS.2 SECURITY_HEADERS else SECURITY_HEADERS.
(** [response.headers.setdefault] for each; header names of the response are
    lower case. *)
Definition secured (env : string) (headers : list (string * string)) : list (string * string) :=
  fold_left (fun h kv => if dmem (PyStr.lower kv.1) h then h else h ++ [(PyStr.lower kv.1, kv.2)])
    (build_headers env) headers.
Definition health : dict := [("status", VStr "ok"); ("service", VStr "agent-api")].
Definition ready (getenv : string -> option string) : dict :=
  [("status", VStr "ready"); ("mode", VStr (default "local" (getenv "APP_ENV")));
   ("checks", VDict [("postgres", VStr "mock-ok"); ("mcp", VStr "mock-ok"); ("a2a", VStr "mock-ok")])].

(** ** Dependencies *)

(** [request.state.identity], when the middleware attached one *)
Definition get_identity (getenv : string -> option string) (attached : option Identity.t) : Identity.t :=
  match attached with
  | Some ident => ident
  | None => Identity.mk (default "analyst-local" (getenv "MOCK_USER_ID"))
              (default "tenant-local" (getenv "MOCK_TENANT_ID"))
              ["case.read"; "case.write"; "case.approve"; "tools.read"] "mock" None
  end.
Definition get_tenant_id (ident : Identity.t) (x_tenant_id : option string) : result string :=
  match x_tenant_id with
  | Some t => if String.eqb t "" || String.eqb t (Identity.tenant_id ident) then Ok (Identity.tenant_id ident)
              else Exn (CodedError "AuthorizationError" "not_found" "tenant mismatch" 404)
  | None => Ok (Identity.tenant_id ident)
  end.
Definition get_user_id (ident : Identity.t) (x_user_id : option string) : string :=
  match x_user_id with Some u => if String.eqb u "" then Identity.user_id ident else u | None => Identity.user_id ident end.

(** [Approval.model_dump(mode="json")] *)
Definition opt_time (t : option PyTime.time) : pyval := match t with Some t => VStr (json_time t) | None => VNone end.
Definition dump_approval (a : Approval.t) : dict :=
  [("schema_version", VStr "1.0"); ("approval_id", VStr (Approval.approval_id a));
   ("run_id", VStr (Approval.run_id a)); ("tenant_id", VStr (Approval.tenant_id a));
   ("action_id", VStr (Approval.action_id a)); ("requested_by", VStr (Approval.requested_by a));
   ("approver", opt_str (Approval.approver a));
   ("decision", VStr (ApprovalDecision.value (Approval.decision a))); ("reason", opt_str (Approval.reason a));
   ("requested_at", VStr (json_time (Approval.requested_at a))); ("decided_at", opt_time (Approval.decided_at a));
   ("expires_at", opt_time (Approval.expires_at a)); ("trace_id", opt_str (Approval.trace_id a));
   ("correlation_id", opt_str (Approval.correlation_id a))].

Section Routes.
Context {W : Type} `{Engine W}.
Variable redact : dict -> dict.
(** [time.monotonic] *)
Variable read_monotonic : M W float.

Notation AM := (M (App W)).

Definition require (ident : Identity.t) (scopes : list string) : AM unit :=
  lift_result (Authz.require_scopes ident scopes).

(** ** POST /runs *)

Definition new_budget (body : CreateRunRequest.t) : dict :=
  [("max_tool_calls", VInt (CreateRunRequest.max_tool_calls body));
   ("max_model_calls", VInt (CreateRunRequest.max_model_calls body));
   ("max_cost_usd", VFloat (CreateRunRequest.max_cost_usd body)); ("consumed_tool_calls", VInt 0);
   ("consumed_model_calls", VInt 0); ("consumed_cost_usd", VFloat PyFloat.zero)].
Definition accepted (run_id status : string) : dict :=
  [("run_id", VStr run_id); ("status", VStr status);
   ("stream_url", VStr ("/v1/runs/" +:+ run_id +:+ "/events")); ("schema_version", VStr SCHEMA_VERSION)].
Definition new_state (run_id tenant_id : string) (body : CreateRunRequest.t) (started_at : PyTime.time) : RunState :=
  mkRunState run_id tenant_id (CreateRunRequest.objective body) (CreateRunRequest.context body) "created" "classify"
    (new_budget body)
    (RunState.mkLimits (CreateRunRequest.max_model_calls body) (CreateRunRequest.max_tool_calls body) 3
       (PyFloat.of_Z 600) (CreateRunRequest.max_cost_usd body) 60000 20000 3)
    no_usage started_at None None [] [] [] [] None false [] [] [] [] [] None None None false 0 false None None.

(** The run to dispatch, when one was created. *)
Definition create_run (body : CreateRunRequest.t) (ident : Identity.t) (idempotency_key : option string)
    : AM (dict * option (string * string)) :=
  require ident ["case.write"] ;;*
  (if String.eqb (CreateRunRequest.schema_version body) SCHEMA_VERSION then ret tt
   else raise (http 400 "validation_error" "stale schema_version; expected 1.0")) ;;*
  let tenant := Identity.tenant_id ident in
  let user := Identity.user_id ident in
  let* run_id := on_db (new_id "run") in
  let* request := lift_result (validate (AgentRequest.mk run_id tenant user (CreateRunRequest.objective body)
    (CreateRunRequest.context body) (CreateRunRequest.max_tool_calls body) (CreateRunRequest.max_model_calls body)
    (CreateRunRequest.max_cost_usd body) idempotency_key None None)) in
  let* start := on_db read_monotonic in
  let* tracker := lift_result (Runtime.from_budget_dict
    [("max_tool_calls", VInt (AgentRequest.max_tool_calls request));
     ("max_model_calls", VInt (AgentRequest.max_model_calls request));
     ("max_cost_usd", VFloat (AgentRequest.max_cost_usd request))] [] start) in
  let* at_ := on_db read_monotonic in
  let s := Runtime.snap tracker in
  let snapshot := Runtime.mkSnapshot (Runtime.model_calls s) (Runtime.tool_calls s) (Runtime.input_tokens s)
    (Runtime.output_tokens s) (Runtime.cost_usd s) (PyFloat.sub at_ start) (Runtime.delegation_depth s) in
  (match Runtime.over (Runtime.limits tracker) snapshot with Some e => raise e | None => ret tt end) ;;*
  let* row := on_db (Repository.create_run run_id tenant user (CreateRunRequest.objective body)
    (new_budget body) "created" None None idempotency_key) in
  if negb (String.eqb (Run.id row) run_id) then ret (accepted (Run.id row) (Run.status row), None)
  else
    on_db (Repository.append_next_event redact (Run.id row) tenant (inl EventType.RUN_STARTED)
      [("objective", VStr (CreateRunRequest.objective body))] None None None false false) ;;*
    let* started_at := on_db now in
    set_run (Run.id row) (new_state (Run.id row) tenant body started_at) ;;*
    ret (accepted (Run.id row) "created", Some (Run.id row, tenant)).

(** ** Running the graph *)

(** [graph.run(state)] on a cached run, which the graph mutates; the calls it
    made are returned for the theorems, and so is its exception. *)
Definition run_graph (run_id tenant_id : string) (s : RunState) : AM (list obs * result unit) := fun x =>
  let '(g, r) := Steps.run (Deps0 := ApiStore.deps redact run_id tenant_id read_monotonic) Steps.run_fuel
                   (mkG s (CircuitBreaker.init CircuitBreaker.THRESHOLD) x []) in
  let x' := world g in
  (mkApp (db x') (<[run_id := st g]> (run_states x')) (cancel_flags x') (decide_cache x') (a2a_cancelled x'),
   Ok (trace g, match r with Ok _ => Ok tt | Exn e => Exn e end)).

(** [_execute_run], the background task *)
Definition execute_run (run_id tenant_id : string) : AM (list obs) :=
  let* x := gets id in
  match run_states x !! run_id with
  | None => ret []
  | Some s =>
      let* done := run_graph run_id tenant_id
        (if bool_decide (run_id ∈ cancel_flags x) then set_cancelled true s else s) in
      ret done.1
  end.

(** ** GET /runs/{run_id} *)

Fixpoint from_events (l : list AgentEvent.t) : list dict * list dict :=
  match l with
  | [] => ([], [])
  | e :: l' =>
      let '(fs, acts) := from_events l' in
      match AgentEvent.type e with
      | EventType.FINDING_CREATED =>
          match dget "finding" (AgentEvent.data e) with Some (VDict f) => (f :: fs, acts) | _ => (fs, acts) end
      | EventType.APPROVAL_REQUIRED =>
          match dget "actions" (AgentEvent.data e) with
          | Some (VList vs) => (fs, omap (fun v => match v with VDict d => Some d | _ => None end) vs ++ acts)
          | _ => (fs, acts)
          end
      | _ => (fs, acts)
      end
  end.
Definition findings_from_events (run_id tenant_id : string) : AM (list dict * list dict) :=
  try_catch (let* l := on_db (Repository.list_events run_id tenant_id (-1) 1000) in ret (from_events l))
    (fun e => if is_not_found e then ret ([], []) else raise e).

Definition run_detail (run_id tenant_id : string) : AM dict :=
  let* row := or_404 (on_db (Repository.get_run run_id tenant_id)) in
  let* approvals := or_404 (on_db (Repository.list_approvals run_id tenant_id)) in
  let* cached := gets (fun x => run_states x !! run_id) in
  let* shown := match cached with
    | Some s => ret (findings s, proposed_actions s, current_state s,
                     if String.eqb (Run.status row) "cancelled" then "cancelled" else status s)
    | None => let* p := findings_from_events run_id tenant_id in
              ret (p.1, p.2, Run.current_state row, Run.status row)
    end in
  let '(findings, proposed, current, status) := shown in
  ret [("run_id", VStr run_id); ("status", VStr status); ("current_state", VStr current);
       ("findings", VList (map VDict findings)); ("proposed_actions", VList (map VDict proposed));
       ("approvals", VList (map (fun a => VDict (dump_approval a)) approvals));
       ("budgets", VDict (Run.budget_json row)); ("trace_id", opt_str (Run.trace_id row))].

Definition get_run (run_id : string) (ident : Identity.t) : AM dict :=
  require ident ["case.read"] ;;* run_detail run_id (Identity.tenant_id ident).

(** ** POST /runs/{run_id}/cancel *)

Definition cancel_run (run_id : string) (ident : Identity.t) : AM dict :=
  require ident ["case.write"] ;;*
  let tenant := Identity.tenant_id ident in
  let* row := or_404 (on_db (Repository.get_run run_id tenant)) in
  (if String.eqb (Run.status row) "cancelled" then ret tt
   else
     on_db (Repository.update_run run_id tenant [Repository.F_status "cancelled"]) ;;*
     best_effort (on_db (Repository.append_next_event redact run_id tenant (inl EventType.RUN_CANCELLED)
       [("reason", VStr "cancel requested")] None None None false false))) ;;*
  request_cancel run_id ;;*
  modify (fun x => mkApp (db x) (alter (set_status "cancelled") run_id (run_states x)) (cancel_flags x)
                     (decide_cache x) (a2a_cancelled x)) ;;*
  request_cancel run_id ;;*
  ret [("run_id", VStr run_id); ("status", VStr "cancelled")].

(** ** GET /runs/{run_id}/events *)

Inductive Events : Type :=
  | Page (after : Z) (events : list dict)
  | Stream (chunks : list string).

Definition TERMINAL_EVENTS : list string :=
  map EventType.value [EventType.RUN_COMPLETED; EventType.RUN_FAILED; EventType.RUN_CANCELLED].
Definition newline : string := String (ascii_of_nat 10) "".
Definition sse_response (events : list dict) : list string :=
  let type e := py_str (get_or "type" VNone e) in
  map (fun e => "id: " +:+ py_str (get_or "sequence" (VInt 0) e) +:+ newline +:+ "event: " +:+ type e +:+ newline
                  +:+ "data: " +:+ json_dumps (VDict e) +:+ newline +:+ newline) events
  ++ (if existsb (fun e => mem (type e) TERMINAL_EVENTS) events
      then ["event: close" +:+ newline +:+ "data: {}" +:+ newline +:+ newline] else []).

Definition sequence_for_event_id (run_id tenant_id event_id : string) : AM (option Z) :=
  try_catch (let* l := on_db (Repository.list_events run_id tenant_id (-1) 1000) in
             ret (AgentEvent.sequence <$> find (fun e => String.eqb (AgentEvent.event_id e) event_id) l))
    (fun _ => ret None).

(** Where the events start. *)
Definition effective_after (run_id tenant_id : string) (after_sequence : Z) (last_event_id : option string) : AM Z :=
  match last_event_id with
  | Some h =>
      if (after_sequence =? 0)%Z && negb (String.eqb h "") then
        match parse_int h with
        | Ok n => ret n
        | Exn _ => let* seq := sequence_for_event_id run_id tenant_id h in ret (default after_sequence seq)
        end
      else ret after_sequence
  | None => ret after_sequence
  end.

Definition run_events (run_id : string) (after_sequence : Z) (ident : Identity.t)
    (last_event_id : option string) (accept : string) : AM Events :=
  require ident ["case.read"] ;;*
  let tenant := Identity.tenant_id ident in
  or_404 (on_db (Repository.get_run run_id tenant)) ;;*
  let* after := effective_after run_id tenant after_sequence last_event_id in
  let* events := or_404 (on_db (Repository.list_events run_id tenant after 1000)) in
  let* payload := lift_result (map_result AgentEvent.dump events) in
  ret (if PyStr.contains "text/event-stream" accept then Stream (sse_response payload) else Page after payload).

(** ** Approvals *)

Definition list_approvals (run_id : string) (ident : Identity.t) : AM dict :=
  require ident ["case.read"] ;;*
  let* rows := or_404 (on_db (Repository.list_approvals run_id (Identity.tenant_id ident))) in
  ret [("run_id", VStr run_id); ("approvals", VList (map (fun a => VDict (dump_approval a)) rows))].

(** The cached approval with the stored decision. *)
Definition sync_approval (rows : list Approval.t) (ap : dict) : dict :=
  match find (fun a => String.eqb (Approval.approval_id a) (py_str (get_or "approval_id" VNone ap))) (reverse rows) with
  | Some a => dset "reason" (opt_str (Approval.reason a))
                (dset "approver" (opt_str (Approval.approver a))
                   (dset "decision" (VStr (ApprovalDecision.value (Approval.decision a))) ap))
  | None => ap
  end.
Definition synced (run_id tenant_id : string) (s : RunState) : AM RunState :=
  try_catch (let* rows := on_db (Repository.list_approvals run_id tenant_id) in
             let s' := set_approvals (map (sync_approval rows) (approvals s)) s in
             set_run run_id s' ;;* ret s')
    (fun _ => ret s).

(** [_maybe_resume]; the calls of the graph, as for [run_graph] *)
Definition maybe_resume (run_id tenant_id decision : string) : AM (list obs) :=
  let* cached := gets (fun x => run_states x !! run_id) in
  match cached with
  | None => ret []
  | Some s =>
      let* s := synced run_id tenant_id s in
      if negb (String.eqb (current_state s) "approval_pause") then ret []
      else if String.eqb decision "rejected" then
        let s := set_outcome (Some "rejected") (set_status "completed" s) in
        set_run run_id s ;;*
        ApiStore.save run_id tenant_id s ;;*
        on_db (Clients.suppress (
          Repository.append_next_event redact run_id tenant_id (inl EventType.RUN_COMPLETED)
            [("outcome", VStr "rejected"); ("executed", VBool false)] None None None false false ;;*
          Repository.update_run run_id tenant_id [Repository.F_status "completed"])) ;;*
        ret []
      else
        let* done := run_graph run_id tenant_id (set_status "running" (set_current_state "execute_approved" s)) in
        ret done.1
  end.

Definition decision_key (approval_id key : string) : string * string := (approval_id, key).
Definition decide_result (run_id approval_id : string) (body : DecideRequest.t) : dict :=
  [("approval_id", VStr approval_id); ("run_id", VStr run_id); ("decision", VStr (DecideRequest.decision body));
   ("approver", VStr (DecideRequest.approver body)); ("reason", opt_str (DecideRequest.reason body))].

(** The checks of the body and the headers *)
Definition check_decide (body : DecideRequest.t) (idempotency_key : option string) : result string :=
  guard? String.eqb (DecideRequest.schema_version body) "1.0"
    else http 400 "validation_error" "stale schema_version; expected 1.0" ;;
  guard? negb (String.eqb (PyStr.strip (DecideRequest.approver body)) "")
    else http 400 "validation_error" "approver is required" ;;
  guard? Repository.given idempotency_key
    else http 400 "validation_error" "Idempotency-Key header is required" ;;
  guard? mem (DecideRequest.decision body) ["approved"; "rejected"]
    else http 400 "validation_error" "decision must be approved|rejected" ;;
  Ok (default "" idempotency_key).

(** [repo.decide_approval] with its [except] clauses *)
Definition record_decision (approval_id tenant_id : string) (body : DecideRequest.t) : AM Approval.t :=
  try_catch (on_db (Repository.decide_approval approval_id tenant_id (DecideRequest.decision body)
                      (DecideRequest.approver body) (DecideRequest.reason body)))
    (fun e => if is_not_found e then raise not_found
              else if is_conflict e then
                raise (http 409 (if PyStr.contains "expir" (PyStr.lower (exn_str e)) then "approval_expired"
                                 else "conflict") (exn_str e))
              else raise e).

(** A repeated key replays the stored outcome. *)
Definition replayed (run_id : string) (cached : option dict) : option dict :=
  match cached with
  | Some d => if is_str (dget "run_id" d) run_id then Some d else None
  | None => None
  end.

Definition decide (run_id approval_id : string) (body : DecideRequest.t) (ident : Identity.t)
    (idempotency_key : option string) : AM (dict * list obs) :=
  require ident ["case.approve"] ;;*
  let tenant := Identity.tenant_id ident in
  let* key := lift_result (check_decide body idempotency_key) in
  let* cached := gets (fun x => decide_cache x !! decision_key approval_id key) in
  match replayed run_id cached with
  | Some d => ret (d, [])
  | None =>
      or_404 (on_db (Repository.get_run run_id tenant)) ;;*
      let* decided := record_decision approval_id tenant body in
      (if String.eqb (Approval.run_id decided) run_id then ret tt else raise not_found) ;;*
      best_effort (on_db (Repository.append_next_event redact run_id tenant (inl EventType.APPROVAL_RECEIVED)
        [("approval_id", VStr approval_id); ("decision", VStr (DecideRequest.decision body));
         ("approver", VStr (DecideRequest.approver body))] None None None false false)) ;;*
      let result := decide_result run_id approval_id body in
      modify (fun x => mkApp (db x) (run_states x) (cancel_flags x)
                         (<[decision_key approval_id key := result]> (decide_cache x)) (a2a_cancelled x)) ;;*
      let* calls := maybe_resume run_id tenant (DecideRequest.decision body) in
      ret (result, calls)
  end.

(** ** The worker

    [apps/worker/worker.py]: [propagate_cancel] and [run_repository_job], with
    the state that it makes for a run nobody cached. *)

Definition propagate_cancel (run_id : string) : AM bool := request_cancel run_id ;;* ret true.

Record RunJob := mkJob {
  job_run_id : string; job_tenant_id : string; job_objective : string; job_context : dict;
  job_limits : RunState.BudgetLimits; job_trace_id : option string; job_correlation_id : option string }.
Definition job_state (j : RunJob) (started_at : PyTime.time) : RunState :=
  mkRunState (job_run_id j) (job_tenant_id j) (job_objective j) (job_context j) "created" "classify" []
    (job_limits j) no_usage started_at (job_trace_id j) (job_correlation_id j) [] [] [] [] None false [] [] [] [] []
    None None None false 0 false None None.
(** Its answer or its exception, and the calls of the graph. *)
Definition run_repository_job (j : RunJob) : AM (result RunState * list obs) :=
  let* cached := gets (fun x => run_states x !! job_run_id j) in
  let* s := match cached with
            | Some s => ret s
            | None => let* t := on_db now in
                      set_run (job_run_id j) (job_state j t) ;;* ret (job_state j t)
            end in
  let* done := run_graph (job_run_id j) (job_tenant_id j) s in
  match done.2 with
  | Exn e => ret (Exn e, done.1)
  | Ok _ =>
      let* out := gets (fun x => default s (run_states x !! job_run_id j)) in
      on_db (Clients.suppress (Repository.update_run (job_run_id j) (job_tenant_id j)
        [Repository.F_status (status out); Repository.F_current_state (current_state out)])) ;;*
      ret (Ok out, done.1)
  end.
End Routes.
End Api.
