(* ===== verification/ApiLemmas.v ===== *)
(** * Invariants of the API process

    What every request keeps: the tables change only as the abstract store
    allows one tenant, a stored approval is approved only with an approver and
    a time and whatever else a [License] asks, and a cached run believes only in
    approvals that are stored. *)

From stdpp Require Import base gmap sets list strings relations.
From Stdlib Require Import ZArith Lia Ascii.
From S2P Require Import Prelude.
From S2P Require Import PyFloat.
From S2P Require Import PyValue.
From S2P Require Import PyTime.
From S2P Require Import Contracts.
From S2P Require Import ContractsRun.
From S2P Require Import ContractsOps.
From S2P Require Import Security.
From S2P Require Import Tables.
From S2P Require Import Repository.
From S2P Require Import RepositorySpecs.
From S2P Require Import RepositoryStore.
From S2P Require Import RepositoryProps.
From S2P Require Import RepositoryEvents.
From S2P Require Import RepositoryClients.
From S2P Require Import RunState.
From S2P Require Import GraphTools.
From S2P Require Import Graph.
From S2P Require Import GraphSteps.
From S2P Require Import GraphLemmas.
From S2P Require Import GraphGate.
From S2P Require Import GraphWorld.
From S2P Require Import ApiStore.
From S2P Require Import Api.
Import GraphTools Graph Steps Clients ApiStore.

Local Open Scope py_scope.

(** ** Stored approvals *)

(** The identifier the graph gives the approval of an action. *)
Definition approval_name (run id : string) : string := run +:+ "-" +:+ id +:+ "-appr".

(** An approval of the run with that identifier is stored as approved. *)
Definition granted_in (t : Tables) (run name : string) : Prop :=
  exists row, row ∈ Tables.approvals t /\ ApprovalRow.run_id row = run
    /\ ApprovalRow.approval_id row = name /\ ApprovalRow.decision row = "approved".

(** What a user of these lemmas wants to know of every approved row, and what
    it takes for a decision to keep it. *)
Class License := licensed : ApprovalRow.t -> Prop.

Definition may_grant {L : License} (id T decision approver : string) (reason : option string) : Prop :=
  forall row at_, ApprovalRow.approval_id row = id -> ApprovalRow.tenant_id row = T ->
    Repository.expired at_ row = false -> decision = "approved" ->
    licensed (Repository.decide decision approver reason at_ row).

(** A row that is read back as an approval with its identifiers *)
Definition readable (row : ApprovalRow.t) : Prop :=
  Field.trim (ApprovalRow.approval_id row) = ApprovalRow.approval_id row
  /\ Field.trim (ApprovalRow.run_id row) = ApprovalRow.run_id row
  /\ is_ok (Repository.row_to_approval row) = true.
Definition row_ok {L : License} (row : ApprovalRow.t) : Prop :=
  readable row
  /\ (ApprovalRow.decision row = "approved" ->
      is_Some (ApprovalRow.approver row) /\ is_Some (ApprovalRow.decided_at row) /\ licensed row).
Definition rows_ok {L : License} (t : Tables) : Prop := Forall row_ok (Tables.approvals t).

(** What a cached run believes. *)
Definition believes (t : Tables) (run : string) (ap : dict) : Prop :=
  exists id d, dget "action_id" ap = Some id
    /\ dget "approval_id" ap = Some (VStr (approval_name run (py_str id)))
    /\ dget "decision" ap = Some (VStr d)
    /\ (d = "approved" -> granted_in t run (approval_name run (py_str id))).
Definition state_ok (t : Tables) (run : string) (s : RunState) : Prop :=
  run_id s = run /\ forall ap, ap ∈ approvals s -> believes t run ap.

(** Decided rows stay. *)
Definition decided_stay (t t' : Tables) : Prop :=
  forall a, a ∈ Tables.approvals t -> ApprovalRow.decision a <> "pending" -> a ∈ Tables.approvals t'.
Lemma changes_decided redact T t t' : rtc (change redact T) t t' -> decided_stay t t'.
Proof.
  induction 1 as [|t1 t2 t3 H12 _ IH]; [by intros a|]. intros a Ha Hd. apply IH; [|done].
  by eapply change_final.
Qed.
Lemma granted_mono t t' run name : decided_stay t t' -> granted_in t run name -> granted_in t' run name.
Proof.
  intros Hs (row & Hin & Hr & Hn & Hd). exists row. split_and!; [|done..]. apply Hs; [done|by rewrite Hd].
Qed.
Lemma state_ok_mono t t' run s : decided_stay t t' -> state_ok t run s -> state_ok t' run s.
Proof.
  intros Hs [Hr Ha]. split; [done|]. intros ap Hin. destruct (Ha ap Hin) as (id & d & ? & ? & ? & ?).
  exists id, d. split_and!; [done..|]. eauto using granted_mono.
Qed.
Lemma state_ok_gate t run s s' : gate_of s' = gate_of s -> state_ok t run s -> state_ok t run s'.
Proof. unfold gate_of, state_ok. by intros [= -> ->]. Qed.

Lemma decision_parse_value s d : ApprovalDecision.parse s = Some d -> ApprovalDecision.value d = s.
Proof.
  unfold ApprovalDecision.parse. intros H. apply find_some in H as [_ H]. by apply String.eqb_eq in H.
Qed.

(** ** Calls of the repository *)

Lemma Forall_update_first {A} (x : A) (P : A -> Prop) p f l :
  first p l = Some x -> (P x -> P (f x)) -> Forall P l -> Forall P (update_first p f l).
Proof.
  intros (l1 & l2 & -> & -> & _)%(update_first_split p f) Hf. rewrite !Forall_app, !Forall_cons.
  intros (? & ? & ?). auto.
Qed.

Section Calls.
Context {W : Type} `{EngineLaws W} {L : License} (redact : dict -> dict) (T : string).

Definition kept (w w' : W) : Prop :=
  for_tenant redact T w w'
  /\ (constraints (committed w) -> rows_ok (committed w) -> rows_ok (committed w')).
#[global] Instance kept_order : PreOrder kept.
Proof.
  split; [by intros w; split|]. intros w1 w2 w3 [F12 K12] [F23 K23]. split; [by etrans|].
  intros Hc Hr. apply K23; [by apply F12|by apply K12].
Qed.

Lemma kept_call A (m : M W A) Q E :
  tenant_call redact T A m -> (forall w, RepositorySpecs.outcome m (Q w) (E w) w) ->
  (forall w a t', Q w a t' -> rows_ok (committed w) -> rows_ok t') -> steps kept m.
Proof.
  intros Hm Hs HQ w. split; [by apply call_for_tenant|]. intros _ Hr. specialize (Hs w).
  unfold RepositorySpecs.outcome, wp in Hs. destruct (m w) as [w' [a|e]]; simpl; [by eapply HQ|by destruct Hs as [-> _]].
Qed.
Lemma kept_observes A (m : M W A) : observes m -> steps kept m.
Proof.
  intros Ho w. destruct (Ho w) as (w' & a & -> & E & _). simpl. split; unfold for_tenant; rewrite E; [|done].
  intros Hc. by split.
Qed.
Lemma kept_suppress A (m : M W A) : steps kept m -> steps kept (suppress m).
Proof.
  intros Hm. unfold suppress. apply (steps_try kept); [|intros e; apply (steps_ret kept)].
  apply (steps_bind kept); [done|]. intros _. apply (steps_ret kept).
Qed.

Lemma kept_now : steps kept now.
Proof. apply kept_observes, now_law. Qed.
Lemma kept_new_id prefix : steps kept (new_id prefix).
Proof. apply kept_observes, new_id_observes. Qed.
Lemma kept_update_run id fields : steps kept (Repository.update_run id T fields).
Proof.
  eapply kept_call; [apply c_update_run|intros w; apply update_run_wp|].
  simpl. by intros w a t' (_ & _ & r0 & up & _ & _ & _ & ->).
Qed.
Lemma kept_append id ty data eid tr co se sa :
  steps kept (Repository.append_next_event redact id T ty data eid tr co se sa).
Proof.
  eapply kept_call; [apply c_append_next_event|intros w; apply append_next_event_wp|].
  simpl. intros w a t' (_ & _ & e & _ & [(d & _ & _ & ->)|(_ & _ & at_ & _ & ->)]); done.
Qed.
Lemma kept_get_run id : steps kept (Repository.get_run id T).
Proof.
  eapply kept_call; [apply c_get_run|intros w; apply get_run_wp|]. simpl. by intros w a t' (-> & _).
Qed.
Lemma kept_list_events id after limit : steps kept (Repository.list_events id T after limit).
Proof.
  eapply kept_call; [apply c_list_events|intros w; apply list_events_wp|]. simpl. by intros w a t' (-> & _).
Qed.
Lemma kept_list_approvals id : steps kept (Repository.list_approvals id T).
Proof.
  eapply kept_call; [apply c_list_approvals|intros w; apply list_approvals_wp|]. simpl. by intros w a t' (-> & _).
Qed.
Lemma kept_create_run id by_ obj bud cur tr co key :
  steps kept (Repository.create_run id T by_ obj bud cur tr co key).
Proof.
  eapply kept_call; [apply c_create_run|intros w; apply create_run_wp|]. simpl.
  intros w a t' (t1 & Ht1 & Ht'). assert (rows_ok t1 = rows_ok (committed w)) as <-
    by (by destruct Ht1 as [[_ ->]|(_ & _ & c & ->)]).
  by destruct Ht' as [[_ ->]|(_ & _ & _ & -> & _)].
Qed.
(** A decision names who made it and when. *)
Lemma kept_decide id d who why :
  may_grant id T d who why -> steps kept (Repository.decide_approval id T d who why).
Proof.
  intros Hgrant. eapply kept_call; [apply c_decide_approval|intros w; apply decide_approval_wp|]. simpl.
  intros w a t' (_ & _ & row & at_ & Hrow & HT & _ & He & Ha & ->) Hr. unfold rows_ok. simpl.
  apply (Forall_update_first row); [done| |done]. intros [(? & ? & _) _].
  apply first_some in Hrow as [_ Hid%String.eqb_eq].
  split; [split_and!; [by destruct row..|by rewrite Ha]|]. intros Hd. split_and!; [by destruct row; eexists..|].
  apply Hgrant; [done..|by destruct row].
Qed.
End Calls.

#[export] Hint Resolve kept_suppress kept_now kept_new_id kept_update_run kept_append kept_get_run
  kept_list_events kept_list_approvals kept_create_run kept_decide : steps.

(** ** The store of the graph *)

Section Saving.
Context {W : Type} `{EngineLaws W} {L : License} (redact : dict -> dict) (run T : string) (s : RunState).

(** What writing the approvals of a state keeps, when the state is right. *)
Definition saved (w w' : W) : Prop :=
  for_tenant redact T w w'
  /\ (constraints (committed w) -> state_ok (committed w) run s -> rows_ok (committed w) -> rows_ok (committed w')).
#[global] Instance saved_order : PreOrder saved.
Proof.
  split; [by intros w; split|]. intros w1 w2 w3 [F12 K12] [F23 K23]. split; [by etrans|].
  intros Hc Hs Hr. destruct (F12 Hc) as [Hch Hc2].
  apply K23; [done|eapply state_ok_mono; [by eapply changes_decided|done]|by apply K12].
Qed.
Lemma saved_kept w w' : kept redact T w w' -> saved w w'.
Proof. intros [F K]. split; [done|]. intros Hc _. by apply K. Qed.
Lemma steps_saved {A} (m : M W A) : steps (kept redact T) m -> steps saved m.
Proof. intros Hm w. apply saved_kept, Hm. Qed.

Lemma row_of_valid x a : validate x = Ok a -> Repository.row_to_approval (Repository.approval_row a) = Ok a.
Proof.
  intros Hv. assert (validate a = Ok a) as Ha.
  { apply validate_ok in Hv as (-> & Hf & Hr). apply validate_ok. by rewrite strip_idem. }
  unfold Repository.row_to_approval, Repository.enum, rbind.
  assert (ApprovalDecision.parse (ApprovalRow.decision (Repository.approval_row a)) = Some (Approval.decision a))
    as -> by (simpl; by destruct (Approval.decision a)).
  rewrite <- Ha. by destruct a.
Qed.
Lemma approval_of_ok ap at_ a :
  approval_of run T ap s at_ = Ok a ->
  Approval.tenant_id a = Field.trim T
  /\ Approval.approval_id a = Field.trim (get_str "approval_id" "" ap)
  /\ Approval.decision a = coerce_decision (get_or "decision" (VStr "pending") ap)
  /\ readable (Repository.approval_row a).
Proof.
  unfold approval_of, rbind. destruct (match parse_dt _ with Some t => _ | None => _ end) as [ex|]; [|done].
  destruct (opt_text "approver" ap) as [who|]; [|done]. destruct (opt_text "reason" ap) as [why|]; [|done].
  intros Hv. pose proof Hv as (E & _)%validate_ok. split_and!; [by rewrite E..|]. split_and!.
  - rewrite E. apply Field.trim_idem.
  - rewrite E. apply Field.trim_idem.
  - by rewrite (row_of_valid _ _ Hv).
Qed.

(** An approval that the state holds for granted is stored already. *)
Lemma believed_stored t ap :
  rows_ok t -> believes t run ap ->
  ApprovalDecision.value (coerce_decision (get_or "decision" (VStr "pending") ap)) = "approved" ->
  is_Some (Repository.by_approval_id (Field.trim (get_str "approval_id" "" ap)) t).
Proof.
  intros Hr (id & d & _ & Hn & Hd & Hg). unfold get_str, get_or. rewrite Hn, Hd. simpl. intros Hv.
  assert (d = "approved") as ->.
  { unfold coerce_decision in Hv. simpl in Hv. destruct (ApprovalDecision.parse d) eqn:E; [|done].
    apply decision_parse_value in E. simpl in Hv. congruence. }
  destruct Hg as (row & Hin & _ & Hname & _); [done|].
  assert (row_ok row) as [(Ht & _) _] by (by eapply (proj1 (Forall_forall _ _) Hr)). rewrite Hname in Ht.
  unfold Repository.by_approval_id. rewrite Ht. destruct (first _ _) eqn:E; [done|].
  apply (first_none _ _ E) in Hin. rewrite Hname, String.eqb_refl in Hin. done.
Qed.

Lemma saved_create ap at_ a :
  Field.trim T = T -> ap ∈ approvals s -> approval_of run T ap s at_ = Ok a ->
  steps saved (Repository.create_approval a).
Proof.
  intros HT Hin Ha. apply approval_of_ok in Ha as (Ht & Hid & Hd & Hok). intros w. split.
  { apply call_for_tenant, c_create_approval. congruence. }
  intros Hc Hs Hr. pose proof (create_approval_wp a w) as Hw. unfold RepositorySpecs.outcome, wp in Hw.
  destruct (Repository.create_approval a w) as [w' [r|e]]; simpl in *; [|by destruct Hw as [-> _]].
  destruct Hw as (_ & _ & Hn & -> & _). unfold rows_ok. simpl. apply Forall_add; [done|].
  split; [done|]. simpl. intros Hv.
  destruct (believed_stored _ ap Hr) as [y Hy]; [by apply Hs|by rewrite <- Hd|]. rewrite <- Hid in Hy. congruence.
Qed.
Lemma saved_upsert ap :
  Field.trim T = T -> ap ∈ approvals s -> steps saved (suppress (upsert_approval run T ap s)).
Proof.
  intros HT Hin. unfold suppress, upsert_approval.
  steps_walk ltac:(first [by eapply saved_create | apply steps_saved, kept_now]).
Qed.
End Saving.

(** ** The process *)

Section Process.
Context {W : Type} `{EngineLaws W} {L : License} (redact : dict -> dict) (T : string) (HT : Field.trim T = T).
Context (read_monotonic : M W float) (Hmono : observes read_monotonic).
Implicit Types (x : App W) (s : RunState).

Definition stored_ok x : Prop := constraints (committed (db x)) /\ rows_ok (committed (db x)).
Definition cached_ok x (P : string -> Prop) : Prop :=
  forall r s, run_states x !! r = Some s -> P r -> state_ok (committed (db x)) r s.
Definition sound x : Prop := stored_ok x /\ cached_ok x (fun _ => True).
(** The same while the graph works on the state of a run. *)
Definition working r x s : Prop :=
  stored_ok x /\ cached_ok x (fun r' => r' <> r) /\ state_ok (committed (db x)) r s.

Definition good x x' : Prop := for_tenant redact T (db x) (db x') /\ (sound x -> sound x').
#[export] Instance good_order : PreOrder good.
Proof.
  split; [by intros x; split|]. intros x1 x2 x3 [F12 K12] [F23 K23]. split; [by etrans|auto].
Qed.

Lemma cached_mono x x' P :
  decided_stay (committed (db x)) (committed (db x')) -> run_states x' = run_states x ->
  cached_ok x P -> cached_ok x' P.
Proof. intros Hd E Hc r s. rewrite E. intros Hr HP. eapply state_ok_mono; [done|by apply Hc]. Qed.

Lemma for_tenant_decided w w' :
  for_tenant redact T w w' -> constraints (committed w) -> decided_stay (committed w) (committed w').
Proof. intros Hf Hc. eapply changes_decided, Hf, Hc. Qed.

Lemma good_db {A} (m : M W A) : steps (kept redact T) m -> steps good (on_db m).
Proof.
  intros Hm x. unfold on_db. destruct (Hm (db x)) as [Hf Hk]. destruct (m (db x)) as [w r]. simpl in *.
  split; [done|]. intros [[Hc Hr] Hs]. split; [split; [by apply Hf|by apply Hk]|].
  by eapply (cached_mono x); [apply for_tenant_decided| |].
Qed.
(** Changes of the caches that no approval of a run depends on. *)
Lemma good_modify f :
  (forall x, db (f x) = db x /\ forall r s', run_states (f x) !! r = Some s' ->
     exists s, run_states x !! r = Some s /\ gate_of s' = gate_of s) -> steps good (modify f).
Proof.
  intros Hf x. simpl. destruct (Hf x) as [E Hs]. split; [by rewrite E|]. intros [Hx Hc].
  unfold sound, stored_ok, cached_ok. rewrite E. split; [done|]. intros r s' Hr _.
  destruct (Hs r s' Hr) as (s & Hr' & Hg). eapply state_ok_gate; [done|by apply Hc].
Qed.
Lemma good_set_run r s x :
  (sound x -> state_ok (committed (db x)) r s) -> good x (set_run r s x).1.
Proof.
  intros Hs. simpl. split; [done|]. intros Hx. split; [apply Hx|]. intros r' s'. simpl.
  rewrite lookup_insert_Some. intros [[<- <-]|[_ Hr]] _; [by apply Hs|by apply Hx].
Qed.

(** *** The graph *)

Section Run.
Variable run : string.

Definition works (g g' : G (App W)) : Prop :=
  for_tenant redact T (db (world g)) (db (world g'))
  /\ (working run (world g) (st g) -> working run (world g') (st g')).
#[export] Instance works_order : PreOrder works.
Proof.
  split; [by intros g; split|]. intros g1 g2 g3 [F12 K12] [F23 K23]. split; [by etrans|auto].
Qed.

Lemma works_world x x' s :
  for_tenant redact T (db x) (db x') ->
  (constraints (committed (db x)) -> state_ok (committed (db x)) run s -> rows_ok (committed (db x)) ->
   rows_ok (committed (db x'))) ->
  (forall r, r <> run -> run_states x' !! r = run_states x !! r) ->
  working run x s -> working run x' s.
Proof.
  intros Hf Hk E ([Hc Hr] & Ho & Hs). pose proof (for_tenant_decided _ _ Hf Hc) as Hd.
  split_and!; [split; [by apply Hf|by apply Hk]| |by eapply state_ok_mono].
  intros r s'. intros Hr' Hne. rewrite (E _ Hne) in Hr'. eapply state_ok_mono; [done|by apply Ho].
Qed.
(** A call that leaves the cached runs alone. *)
Definition apart x x' : Prop := kept redact T (db x) (db x') /\ run_states x' = run_states x.
#[export] Instance apart_order : PreOrder apart.
Proof. split; [by intros x; split|]. intros x1 x2 x3 [? E1] [? E2]. split; [by etrans|congruence]. Qed.
Lemma apart_db {A} (m : M W A) : steps (kept redact T) m -> steps apart (on_db m).
Proof. intros Hm x. unfold on_db. specialize (Hm (db x)). by destruct (m (db x)). Qed.
Lemma works_call {A} o (m : M (App W) A) : steps apart m -> steps works (call o m).
Proof.
  intros Hm g. unfold call. destruct (Hm (world g)) as [[Hf Hk] E].
  destruct (m (world g)) as [x' r]. split; [done|].
  apply works_world; [done|auto|]. simpl in *. intros r' _. by rewrite E.
Qed.
Lemma works_lift {A} o (r : result A) : steps works (call o (lift_result r)).
Proof. intros g. by split. Qed.

Lemma saves_each s x : saved redact run T s (db x) (db (ApiStore.save run T s x).1)
  /\ run_states (ApiStore.save run T s x).1 = <[run := s]> (run_states x).
Proof.
  unfold ApiStore.save. set (R := fun x x' : App W => saved redact run T s (db x) (db x') /\ run_states x' = run_states x).
  assert (PreOrder R) as HR.
  { split; [by intros y; split|]. intros x1 x2 x3 [? E1] [? E2]. split; [by etrans|congruence]. }
  assert (forall A (m : M W A), steps (saved redact run T s) m -> steps R (on_db m)) as Hdb.
  { intros A m Hm y. unfold on_db. specialize (Hm (db y)). by destruct (m (db y)). }
  unfold bind at 1. simpl.
  set (y := mkApp (db x) (<[run := s]> (run_states x)) (cancel_flags x) (decide_cache x) (a2a_cancelled x)).
  enough (forall y, R y ((on_db (suppress (Repository.update_run run T
    [Repository.F_status (status s); Repository.F_current_state (current_state s);
     Repository.F_budget_json (ledger s)])) ;;*
    for_each (approvals s) (fun ap => on_db (suppress (upsert_approval run T ap s)))) y).1) as HE
    by exact (HE y).
  clear y. intros y. revert y.
  apply (steps_bind R); [apply Hdb, (steps_saved _ _ _ _), kept_suppress, kept_update_run|]. intros _.
  apply (steps_for_each R). intros ap Hin. apply Hdb. by apply saved_upsert.
Qed.
Lemma works_save o g : works g (call o (ApiStore.save run T (st g)) g).1.
Proof.
  unfold call. destruct (saves_each (st g) (world g)) as [[Hf Hk] E].
  destruct (ApiStore.save run T (st g) (world g)) as [x' r]. split; [done|].
  apply works_world; [done|done|]. simpl in *. intros r' Hne. rewrite E. by apply lookup_insert_ne.
Qed.

Lemma deps_respect :
  respects (Deps0 := ApiStore.deps redact run T read_monotonic) works.
Proof.
  constructor; intros; try apply works_lift.
  - intros g. destruct (H1 g) as [Ew Eg]. unfold works. simpl. rewrite Ew. split; [done|].
    intros (? & ? & ?). split_and!; [done|done|by eapply state_ok_gate].
  - split; [done|]. intros (Hx & Ho & [Hr Ha]). split_and!; [done|done|]. split; [done|].
    simpl. intros ap. rewrite elem_of_app, list_elem_of_singleton. intros [Hin| ->]; [by apply Ha|].
    unfold approval_row, rbind in H1. destruct (dict_item _ _) as [id|] eqn:Ei; [|done]. injection H1 as <-.
    exists id, "pending". rewrite <- Hr, H2. by split_and!.
  - simpl in *. simplify_eq. intros g. by split.
  - intros g. unfold Graph.save, get_st. rewrite bind_gets. by apply works_save.
  - apply works_call. simpl. unfold ApiStore.append.
    apply (steps_bind_lift apart). intros d _. apply apart_db, kept_suppress, kept_append.
  - apply works_call, apart_db, kept_now.
  - apply works_call, apart_db, kept_now.
  - apply works_call, apart_db, kept_observes, Hmono.
Qed.

(** A run of the graph on a state that is right. *)
Lemma run_graph_good s x :
  (sound x -> state_ok (committed (db x)) run s) ->
  good x (Api.run_graph redact read_monotonic run T s x).1.
Proof.
  intros Hs. unfold Api.run_graph.
  pose proof (walk_run (Deps0 := ApiStore.deps redact run T read_monotonic) works deps_respect Steps.run_fuel
    (mkG s (CircuitBreaker.init CircuitBreaker.THRESHOLD) x [])) as [Hf Hk].
  destruct (Steps.run _ _) as [g r]. simpl in *. split; [done|]. intros Hx.
  destruct Hk as (Hst & Ho & Hr).
  { split_and!; [apply Hx|intros r' s' Hr' _; by apply Hx|by apply Hs]. }
  split; [done|]. intros r' s'. simpl. rewrite lookup_insert_Some.
  intros [[<- <-]|[Hne Hr']] _; [done|by apply Ho].
Qed.

(** Its write calls are those of approved actions. *)
Lemma run_graph_calls s x x' calls r :
  Api.run_graph redact read_monotonic run T s x = (x', Ok (calls, r)) ->
  write_calls calls `sublist_of` approved_calls s.
Proof.
  unfold Api.run_graph.
  destruct (run_writes (Deps0 := ApiStore.deps redact run T read_monotonic) Steps.run_fuel
    (mkG s (CircuitBreaker.init CircuitBreaker.THRESHOLD) x [])) as (ext & Et & Hw).
  destruct (Steps.run _ _) as [g r']. simpl in *. intros [= _ <- _]. by rewrite Et.
Qed.
End Run.

(** *** The routes *)

Lemma altered (f : RunState -> RunState) run (m : gmap string RunState) r s' :
  (forall s, gate_of (f s) = gate_of s) -> alter f run m !! r = Some s' ->
  exists s, m !! r = Some s /\ gate_of s' = gate_of s.
Proof.
  intros Hf. destruct (decide (r = run)) as [->|Hne]; [|rewrite lookup_alter_ne by done; eauto].
  rewrite lookup_alter_eq. intros (s & Hs & ->)%fmap_Some. eauto.
Qed.
Ltac good_leaf :=
  first [ apply good_db; solve [eauto 2 with steps | apply kept_suppress; eauto 2 with steps | by eapply kept_observes]
        | apply good_modify; intros ?; split; [done|]; intros ? ?; simpl; first [by apply altered | eauto] ].
Ltac good_walk := unfold Api.or_404, Api.best_effort, Api.require; steps_walk good_leaf.

Lemma good_request_cancel run : steps good (request_cancel run).
Proof. apply good_modify. intros x. split; [done|]. intros r s'. by apply altered. Qed.
Hint Resolve good_request_cancel : steps.

Lemma good_new_state run body at_ : steps good (set_run run (Api.new_state run T body at_)).
Proof. intros x. apply good_set_run. intros _. split; [done|]. by intros ap ?%not_elem_of_nil. Qed.
Hint Resolve good_new_state : steps.

Lemma good_create body ident key :
  Identity.tenant_id ident = T -> steps good (Api.create_run redact read_monotonic body ident key).
Proof. intros E. unfold Api.create_run. rewrite E. good_walk. Qed.
Lemma good_detail run : steps good (Api.run_detail run T).
Proof. unfold Api.run_detail, Api.findings_from_events. good_walk. Qed.
Lemma good_list run ident : Identity.tenant_id ident = T -> steps good (Api.list_approvals run ident).
Proof. intros E. unfold Api.list_approvals. rewrite E. good_walk. Qed.
Lemma good_events run after ident last accept :
  Identity.tenant_id ident = T -> steps good (Api.run_events run after ident last accept).
Proof. intros E. unfold Api.run_events, Api.effective_after, Api.sequence_for_event_id. rewrite E. good_walk. Qed.
Lemma good_cancel run ident :
  Identity.tenant_id ident = T -> steps good (Api.cancel_run redact run ident).
Proof.
  intros E. unfold Api.cancel_run. rewrite E. good_walk. Qed.
Hint Resolve good_create good_detail good_list good_events good_cancel : steps.

Lemma good_execute run : steps good (Api.execute_run redact read_monotonic run T).
Proof.
  intros x. unfold Api.execute_run. rewrite bind_gets. simpl.
  destruct (run_states x !! run) as [s|] eqn:E; [|simpl; reflexivity].
  apply (steps_bind_at good); [|intros; apply (steps_ret good)]. apply run_graph_good. intros [_ Hc].
  specialize (Hc run s E I). by case_bool_decide; [eapply state_ok_gate|].
Qed.

(** What the worker does once it has the state. *)
Definition job_rest (j : Api.RunJob) (s : RunState) : M (App W) (result RunState * list obs) :=
  let* done := Api.run_graph redact read_monotonic (Api.job_run_id j) (Api.job_tenant_id j) s in
  match done.2 with
  | Exn e => ret (Exn e, done.1)
  | Ok _ =>
      let* out := gets (fun x => default s (run_states x !! Api.job_run_id j)) in
      on_db (Clients.suppress (Repository.update_run (Api.job_run_id j) (Api.job_tenant_id j)
        [Repository.F_status (status out); Repository.F_current_state (current_state out)])) ;;*
      ret (Ok out, done.1)
  end.
Lemma good_job_rest j s x :
  Api.job_tenant_id j = T -> (sound x -> state_ok (committed (db x)) (Api.job_run_id j) s) ->
  good x (job_rest j s x).1.
Proof.
  intros E Hs. unfold job_rest. rewrite E. apply (steps_bind_at good); [by apply run_graph_good|].
  intros [calls [u|e]] x' _; simpl; [|reflexivity]. revert x'.
  enough (steps good (let* out := gets (fun x : App W => default s (run_states x !! Api.job_run_id j)) in
    on_db (Clients.suppress (Repository.update_run (Api.job_run_id j) T
      [Repository.F_status (status out); Repository.F_current_state (current_state out)])) ;;*
    ret (Ok out, calls))) as Hg by exact Hg. good_walk.
Qed.
Lemma new_job_ok t j at_ : state_ok t (Api.job_run_id j) (Api.job_state j at_).
Proof. split; [done|]. by intros ap ?%not_elem_of_nil. Qed.
Lemma good_job j : Api.job_tenant_id j = T -> steps good (Api.run_repository_job redact read_monotonic j).
Proof.
  intros E x. unfold Api.run_repository_job. rewrite bind_gets.
  destruct (run_states x !! Api.job_run_id j) as [s|] eqn:Es; apply (steps_bind_at good).
  - apply (steps_ret good).
  - intros s' x' [= <- <-]. apply (good_job_rest j s); [done|]. intros [_ Hc]. by apply Hc.
  - revert x Es. intros x _. revert x.
    enough (steps good (let* t := on_db now in
      set_run (Api.job_run_id j) (Api.job_state j t) ;;* ret (Api.job_state j t))) as Hg by exact Hg.
    steps_walk ltac:(first [apply good_db, kept_now | intros x; apply good_set_run; intros _; apply new_job_ok]).
  - intros s x' Hm. apply good_job_rest; [done|]. intros _. unfold bind, on_db in Hm.
    destruct (now (db x)) as [w [t|e]]; [|done]. injection Hm as <- <-. apply new_job_ok.
Qed.

(** *** Decisions *)

Lemma row_of_approval row a :
  Repository.row_to_approval row = Ok a ->
  Approval.approval_id a = Field.trim (ApprovalRow.approval_id row)
  /\ ApprovalDecision.value (Approval.decision a) = ApprovalRow.decision row.
Proof.
  unfold Repository.row_to_approval, Repository.enum, rbind.
  destruct (ApprovalDecision.parse _) as [d|] eqn:Ed; [|done]. intros (-> & _)%validate_ok.
  split; [done|]. by apply decision_parse_value in Ed.
Qed.

(** An approval that takes the stored decision is believed. *)
Lemma sync_believes t run rows ap :
  rows_ok t ->
  (forall a, a ∈ rows -> exists row, row ∈ Tables.approvals t /\ ApprovalRow.run_id row = run
     /\ Repository.row_to_approval row = Ok a) ->
  believes t run ap -> believes t run (Api.sync_approval rows ap).
Proof.
  intros Hok Hrows (id & d & Hi & Hn & Hd & Hg). unfold Api.sync_approval, get_or. rewrite Hn. simpl.
  destruct (find _ (reverse rows)) as [a|] eqn:Ef; [|by exists id, d].
  apply find_some in Ef as [Ha Heq]. apply String.eqb_eq in Heq.
  rewrite <- list_elem_of_In, elem_of_reverse in Ha.
  destruct (Hrows a Ha) as (row & Hin & Hr & Hto). apply row_of_approval in Hto as [Hid Hv].
  exists id, (ApprovalDecision.value (Approval.decision a)).
  rewrite !dget_dset_ne, dget_dset_eq by done. split_and!; [done..|]. intros Happ.
  exists row. split_and!; [done..| |congruence].
  rewrite <- Heq, Hid. symmetry. by apply (proj1 (Forall_forall _ _) Hok row Hin).
Qed.

(** The state after the stored decisions were read: it makes no other proposal. *)
Definition gate_same s s' : Prop :=
  proposed_actions s' = proposed_actions s /\ current_state s' = current_state s
  /\ status s' = status s /\ cancelled s' = cancelled s.
Lemma synced_spec run s x :
  run_states x !! run = Some s ->
  exists x' s', Api.synced run T s x = (x', Ok s') /\ gate_same s s' /\ good x x'
    /\ run_states x' !! run = Some s'.
Proof.
  intros Hs. pose proof (good_db (Repository.list_approvals run T)
    ltac:(apply kept_list_approvals) x) as Hg.
  pose proof (list_approvals_wp run T (db x)) as Hw. unfold RepositorySpecs.outcome, wp in Hw.
  unfold Api.synced, try_catch, bind, on_db in *.
  destruct (Repository.list_approvals run T (db x)) as [w [rows|e]] eqn:El; simpl in *.
  - destruct Hw as (Ec & _ & Hm). set (s' := set_approvals _ s).
    set (x1 := mkApp w _ _ _ _) in Hg. assert (sound x1 -> state_ok (committed w) run s') as Hok.
    { intros [[Hc Hr] Hca]. simpl in Hr. unfold cached_ok in Hca. simpl in Hca. rewrite Ec in *. destruct (Hca run s Hs I) as [Hrun Ha]. split; [done|].
      simpl. intros ap (ap0 & -> & Hin)%list_elem_of_fmap. apply sync_believes; [done| |by apply Ha].
      intros a Hin'. apply map_result_forall2 in Hm.
      destruct (Forall2_elem_of_r _ _ _ _ Hm Hin') as (row & Hrow & Hto). exists row.
      rewrite order_by_perm in Hrow. apply list_elem_of_In, filter_In in Hrow as [Hrow Hr'].
      apply String.eqb_eq in Hr'. by rewrite <- list_elem_of_In in Hrow. }
    eexists _, s'. split; [done|]. split; [by split_and!|]. split; [|apply lookup_insert_eq].
    etransitivity; [exact Hg|]. by apply (good_set_run run s' x1).
  - by eexists _, s.
Qed.

Lemma upserts_return run s l y :
  (for_each l (fun ap => on_db (suppress (upsert_approval (W:=W) run T ap s))) y).2 = Ok tt.
Proof.
  revert y. induction l as [|ap l IH]; intros y; simpl; [done|]. unfold bind, on_db.
  destruct (suppress_returns (upsert_approval run T ap s) (db y)) as [w ->]. apply IH.
Qed.
Lemma good_save run s x :
  (sound x -> state_ok (committed (db x)) run s) ->
  exists x', ApiStore.save run T s x = (x', Ok tt) /\ good x x'.
Proof.
  intros Hs. destruct (saves_each run s x) as [[Hf Hk] E].
  assert ((ApiStore.save run T s x).2 = Ok tt) as Hr.
  { unfold ApiStore.save. unfold bind at 1. simpl. unfold bind, on_db at 1.
    match goal with |- context [suppress ?m ?w] => destruct (suppress_returns m w) as [w' ->] end.
    apply upserts_return. }
  destruct (ApiStore.save run T s x) as [x' r]. simpl in *. exists x'. split; [by rewrite Hr|]. split; [done|].
  intros Hx. pose proof Hx as [[Hc Hro] Hca]. pose proof (for_tenant_decided _ _ Hf Hc) as Hd.
  split; [split; [by apply Hf|by apply Hk; [| apply Hs|]]|].
  intros r' s'. rewrite E, lookup_insert_Some. intros [[<- <-]|[_ Hr']] _; (eapply state_ok_mono; [done|]).
  - by apply Hs.
  - by apply Hca.
Qed.

(** The calls of a resumption are those that the synced approvals allow. *)
Definition resumed run x x' (calls : list obs) : Prop :=
  write_calls calls = []
  \/ exists s s', run_states x !! run = Some s /\ gate_same s s'
       /\ (sound x -> state_ok (committed (db x')) run s')
       /\ write_calls calls `sublist_of` approved_calls s'.
Lemma resume_spec run decision x :
  exists x' calls, Api.maybe_resume redact read_monotonic run T decision x = (x', Ok calls)
    /\ good x x' /\ resumed run x x' calls.
Proof.
  unfold Api.maybe_resume, resumed. rewrite bind_gets.
  destruct (run_states x !! run) as [s|] eqn:Es; [|by exists x, []; split_and!; [|reflexivity|left]].
  destruct (synced_spec run s x Es) as (x1 & s1 & E1 & Hsame & Hg1 & Hs1). unfold bind at 1. rewrite E1.
  assert (sound x1 -> state_ok (committed (db x1)) run s1) as Hok by (intros [_ Hc]; by apply Hc).
  destruct (String.eqb (current_state s1) "approval_pause"); cbn [negb]; [|by exists x1, []; split_and!; [| |left]].
  destruct (String.eqb decision "rejected").
  - set (s2 := set_outcome _ _). unfold bind at 1. 
    assert (good x1 (set_run run s2 x1).1) as Hg2.
    { apply good_set_run. intros Hx1. by eapply state_ok_gate, Hok. }
    destruct (set_run run s2 x1) as [x2 r2] eqn:E2. injection E2 as E2 <-. simpl in Hg2.
    destruct (good_save run s2 x2) as (x3 & E3 & Hg3).
    { intros [_ Hc]. apply Hc; [|done]. rewrite <- E2. simpl. apply lookup_insert_eq. }
    unfold bind at 1. rewrite E3. unfold bind at 1.
    match goal with |- context [on_db (suppress ?m) x3] =>
      pose proof (good_db (suppress m) ltac:(apply kept_suppress; apply (steps_bind (kept redact T));
        [apply kept_append|intros ?; apply kept_update_run]) x3) as Hg4;
      destruct (suppress_returns m (db x3)) as [w4 E4]; unfold on_db in *; rewrite E4 in Hg4 |- * end.
    eexists _, []. split_and!; [done| |by left]. by do 3 (etransitivity; [eassumption|]).
  - set (s2 := set_status "running" _).
    assert (good x1 (Api.run_graph redact read_monotonic run T s2 x1).1) as Hg2.
    { apply run_graph_good. intros Hx1. by eapply state_ok_gate, Hok. }
    pose proof (run_graph_calls run s2 x1) as Hw. unfold bind.
    destruct (Api.run_graph _ _ _ _ _ _) as [x2 [[calls r]|e]] eqn:E2.
    2:{ unfold Api.run_graph in E2. by destruct (Steps.run _ _) in E2. }
    exists x2, calls. simpl in *. split_and!; [done|by etransitivity|right]. exists s, s1.
    split_and!; [done|done| |by apply Hw in E2 || eapply (Hw _ _ _ eq_refl)].
    intros Hx. destruct Hg1 as [_ Hg1], Hg2 as [Hf2 _]. destruct (Hg1 Hx) as [[Hc _] _].
    eapply state_ok_mono; [by eapply for_tenant_decided|]. by apply Hok, Hg1.
Qed.
Lemma good_resume run decision : steps good (Api.maybe_resume redact read_monotonic run T decision).
Proof. intros x. by destruct (resume_spec run decision x) as (x' & calls & -> & Hg & _). Qed.
Hint Resolve good_resume : steps.

(** The decision of a body may be stored. *)
Definition grants (T id : string) (body : Api.DecideRequest.t) : Prop :=
  may_grant id T (Api.DecideRequest.decision body) (Api.DecideRequest.approver body) (Api.DecideRequest.reason body).
Hint Unfold grants : steps.
Lemma good_decide run id body ident key :
  Identity.tenant_id ident = T -> grants T id body -> steps good (Api.decide redact read_monotonic run id body ident key).
Proof. intros E Hg. unfold Api.decide, Api.record_decision. rewrite E. good_walk. Qed.

(** Until it resumes the run, a decision leaves the cached runs alone. *)
Definition aside x x' : Prop := good x x' /\ run_states x' = run_states x.
#[export] Instance aside_order : PreOrder aside.
Proof. split; [by intros x; split|]. intros x1 x2 x3 [? E1] [? E2]. split; [by etrans|congruence]. Qed.
Lemma aside_db {A} (m : M W A) : steps (kept redact T) m -> steps aside (on_db m).
Proof. intros Hm x. split; [by apply good_db|]. unfold on_db. by destruct (m (db x)). Qed.
Lemma wp_aside {A} (m : M (App W) A) Q x :
  steps aside m -> (forall a x', aside x x' -> Q a x') -> wp m Q (fun _ _ => True) x.
Proof. intros Hm HQ. specialize (Hm x). unfold wp. destruct (m x) as [x' [a|e]]; [by apply HQ|done]. Qed.

Ltac aside_walk := unfold Api.or_404, Api.best_effort, Api.require, Api.record_decision;
  steps_walk ltac:(apply aside_db; solve [eauto 2 with steps]).
(** A decision answers from the cache, or ends in a resumption. *)
Lemma decide_resumes run id body ident key x :
  Identity.tenant_id ident = T -> grants T id body ->
  wp (Api.decide redact read_monotonic run id body ident key)
    (fun r x' => r.2 = [] \/ exists y, aside x y
       /\ Api.maybe_resume redact read_monotonic run T (Api.DecideRequest.decision body) y = (x', Ok r.2))
    (fun _ _ => True) x.
Proof.
  intros E Hgrant. unfold Api.decide. rewrite E. cbv zeta.
  apply wp_bind, wp_aside; [aside_walk|]. intros _ x1 H1. apply wp_bind, wp_aside; [aside_walk|]. intros k x2 H2.
  apply wp_bind, wp_gets. destruct (Api.replayed _ _); [apply wp_ret; by left|].
  apply wp_bind, wp_aside; [aside_walk|]. intros r x3 H3. apply wp_bind, wp_aside; [aside_walk|]. intros d x4 H4.
  apply wp_bind, wp_aside; [aside_walk|]. intros _ x5 H5. apply wp_bind, wp_aside; [aside_walk|]. intros _ x6 H6.
  apply wp_bind, wp_modify, wp_bind. set (x7 := mkApp _ _ _ _ _).
  assert (aside x x6) as H16 by by repeat (etransitivity; [eassumption|]).
  destruct (resume_spec run (Api.DecideRequest.decision body) x7) as (x' & calls & Er & _).
  unfold wp. rewrite Er. simpl. right. by exists x7.
Qed.
Lemma decide_calls run id body ident key x :
  Identity.tenant_id ident = T -> grants T id body ->
  wp (Api.decide redact read_monotonic run id body ident key) (fun r x' => resumed run x x' r.2)
    (fun _ _ => True) x.
Proof.
  intros E Hgrant. eapply wp_mono; [by apply decide_resumes| |done]. intros r x' [E0|(y & [[_ Hg] Erun] & Er)].
  { left. by rewrite E0. }
  destruct (resume_spec run (Api.DecideRequest.decision body) y) as (x2 & calls & Er' & _ & Hr).
  rewrite Er in Er'. injection Er' as <- <-. destruct Hr as [?|(s & s' & Hs & Hsame & Hok & Hw)]; [by left|right].
  exists s, s'. split_and!; [by rewrite <- Erun|done| |done]. intros Hx. apply Hok, Hg, Hx.
Qed.
End Process.

Lemma sound_weaken {W} `{EngineLaws W} (L L' : License) (x : App W) :
  (forall row, L row -> L' row) -> sound (L := L) x -> sound (L := L') x.
Proof.
  intros HL [[Hc Hr] Hs]. split; [|done]. split; [done|]. eapply Forall_impl; [exact Hr|].
  intros row [Ht Ha]. split; [done|]. intros Hd. destruct (Ha Hd) as (? & ? & Hl). split_and!; [done..|by apply HL].
Qed.
