(* ===== verification/ApiProps.v ===== *)
(** * What the API guarantees

    The requests of a tenant as one inductive family, and what holds of every
    one of them and of every history of them: no write without a stored
    approval, isolation of tenants, scopes, idempotent creation and decisions
    that are final. *)

From stdpp Require Import base gmap sets list strings pretty relations.
From Stdlib Require Import ZArith Lia Ascii.
From S2P Require Import Prelude.
From S2P Require Import PyFloat.
From S2P Require Import PyValue.
From S2P Require Import PyTime.
From S2P Require Import Contracts.
From S2P Require Import ContractsRun.
From S2P Require Import ContractsOps.
From S2P Require Import Security.
From S2P Require Import Tables.
From S2P Require Import Repository.
From S2P Require Import RepositorySpecs.
From S2P Require Import RepositoryStore.
From S2P Require Import RepositoryProps.
From S2P Require Import RepositoryEvents.
From S2P Require Import RepositoryClients.
From S2P Require Import RepositoryTheorems.
From S2P Require Import MemoryEngine.
From S2P Require Import RunState.
From S2P Require Import GraphTools.
From S2P Require Import Graph.
From S2P Require Import GraphSteps.
From S2P Require Import GraphLemmas.
From S2P Require Import GraphGate.
From S2P Require Import GraphOutcome.
From S2P Require Import GraphWorld.
From S2P Require Import ApiStore.
From S2P Require Import Api.
From S2P Require Import ApiLemmas.
Import GraphTools Graph Steps Clients ApiStore.

Local Open Scope py_scope.

(** ** Requests and histories *)

(** Nothing more is asked of an approved row here. *)
#[local] Instance unlicensed : License := fun _ => True.
Lemma any_grant T id body : grants T id body.
Proof. by intros row at_. Qed.
#[local] Hint Resolve any_grant : core.

Section Requests.
Context {W : Type} `{EngineLaws W} (redact : dict -> dict) (read_monotonic : M W float).

(** Whatever the gateway and the worker do for one tenant, with the calls that
    the graph makes meanwhile. *)
Inductive request (T : string) : M (App W) (list obs) -> Prop :=
  | q_create body ident key : Identity.tenant_id ident = T ->
      request T (Api.create_run redact read_monotonic body ident key ;;* ret [])
  | q_execute run : request T (Api.execute_run redact read_monotonic run T)
  | q_get run ident : Identity.tenant_id ident = T -> request T (Api.get_run run ident ;;* ret [])
  | q_cancel run ident : Identity.tenant_id ident = T -> request T (Api.cancel_run redact run ident ;;* ret [])
  | q_events run after ident last accept : Identity.tenant_id ident = T ->
      request T (Api.run_events run after ident last accept ;;* ret [])
  | q_list run ident : Identity.tenant_id ident = T -> request T (Api.list_approvals run ident ;;* ret [])
  | q_decide run id body ident key : Identity.tenant_id ident = T ->
      request T (let* r := Api.decide redact read_monotonic run id body ident key in ret r.2)
  | q_propagate run : request T (Api.propagate_cancel run ;;* ret [])
  | q_job j : Api.job_tenant_id j = T ->
      request T (let* r := Api.run_repository_job redact read_monotonic j in ret r.2).

(** The processes that requests by any tenants lead to from a fresh one. *)
Inductive history : App W -> Prop :=
  | h_fresh x : run_states x = ∅ -> stored_ok x -> history x
  | h_request T m x : history x -> Field.trim T = T -> request T m -> history (m x).1.

Context (Hmono : observes read_monotonic).

Lemma good_request T m : Field.trim T = T -> request T m -> steps (good redact T) m.
Proof.
  intros HT Hm.
  assert (forall A (m : M (App W) A) (f : A -> list obs),
    steps (good redact T) m -> steps (good redact T) (let* a := m in ret (f a))) as Hret.
  { intros A m' f Hm'. apply (steps_bind (good redact T)); [done|]. intros a. apply (steps_ret (good redact T)). }
  destruct Hm; try (apply (Hret _ _ (fun _ => []))); try apply (Hret _ _ snd);
    eauto using good_create, good_execute, good_cancel, good_events, good_list, good_decide, good_job.
  - unfold Api.get_run. apply (steps_bind (good redact T)); [apply (steps_lift (good redact T))|intros _].
    rewrite H1. by apply good_detail.
  - unfold Api.propagate_cancel. apply (steps_bind (good redact T)); [by apply good_request_cancel|].
    intros _. apply (steps_ret (good redact T)).
Qed.

Lemma history_sound x : history x -> sound x.
Proof.
  induction 1 as [x Hr Hs|T m x Hh IH HT Hm]; [|by apply (good_request T m HT Hm x)].
  split; [done|]. intros r s. by rewrite Hr, lookup_empty.
Qed.

(** A call that is that of a proposed action of a cached run, whose approval
    is stored as approved, in a row with a given property. *)
Definition authorized_by (P : ApprovalRow.t -> Prop) (x x' : App W) (tool : string) (args : dict) : Prop :=
  exists run s action id tv row,
    run_states x !! run = Some s /\ action ∈ proposed_actions s
    /\ str_item "action_id" action = Ok id /\ dict_item "tool_name" action = Ok tv /\ tool = py_str tv
    /\ action_input action = Ok args
    /\ row ∈ Tables.approvals (committed (db x')) /\ ApprovalRow.run_id row = run
    /\ ApprovalRow.approval_id row = approval_name run id /\ ApprovalRow.decision row = "approved" /\ P row.
(** Somebody approved it, at some time. *)
Definition authorized : App W -> App W -> string -> dict -> Prop :=
  authorized_by (fun row => is_Some (ApprovalRow.approver row) /\ is_Some (ApprovalRow.decided_at row)).

Lemma approved_id s l id t run :
  state_ok t run s -> approved_ids s = Ok l -> existsb (String.eqb id) l = true ->
  granted_in t run (approval_name run id).
Proof.
  intros [_ Ha] Hl Hid. apply existsb_exists in Hid as (id' & Hin & <-%String.eqb_eq).
  apply map_result_forall2 in Hl. apply list_elem_of_In in Hin.
  destruct (Forall2_elem_of_r _ _ _ _ Hl Hin) as (ap & Hap & Hitem).
  apply list_elem_of_filter in Hap as [Happ Hap].
  destruct (Ha ap Hap) as (v & d & Hi & _ & Hd & Hg).
  unfold str_item, dict_item, rbind in Hitem. rewrite Hi in Hitem. destruct v; simplify_eq.
  apply Hg. unfold is_approved, is_str in Happ. rewrite Hd in Happ. by apply String.eqb_eq in Happ.
Qed.

Lemma approved_authorized (L : License) run s s' x x' calls tool args :
  run_states x !! run = Some s -> proposed_actions s' = proposed_actions s -> sound (L := L) x' ->
  state_ok (committed (db x')) run s' ->
  write_calls calls `sublist_of` approved_calls s' -> (tool, args) ∈ write_calls calls ->
  authorized_by (fun row => is_Some (ApprovalRow.approver row) /\ is_Some (ApprovalRow.decided_at row) /\ L row)
    x x' tool args.
Proof.
  intros Hs Hp [[_ Hr] _] Hok Hsub Hin. assert ((tool, args) ∈ approved_calls s') as Hc.
  { eapply elem_of_sublist; eassumption. }
  unfold approved_calls in Hc. destruct (approved_ids s') as [l|e] eqn:El; [|by apply not_elem_of_nil in Hc].
  apply list_elem_of_In, in_flat_map in Hc as (action & Hact & Hc).
  unfold action_call in Hc. destruct (str_item "action_id" action) as [id|] eqn:Eid; [|done].
  destruct (dict_item "tool_name" action) as [tv|] eqn:Et; [|done].
  destruct (action_input action) as [input|] eqn:Ei; [|done].
  destruct (existsb _ l) eqn:Ex; [|done]. destruct Hc as [[= <- <-]|[]].
  destruct (approved_id _ _ _ _ _ Hok El Ex) as (row & Hrow & Hrun & Hname & Hd).
  exists run, s, action, id, tv, row. split_and!; try done.
  1: rewrite <- Hp; by apply list_elem_of_In.
  all: by apply (proj1 (Forall_forall _ _) Hr row Hrow).
Qed.
Lemma authorized_mono (P P' : ApprovalRow.t -> Prop) x x' tool args :
  (forall row, P row -> P' row) -> authorized_by P x x' tool args -> authorized_by P' x x' tool args.
Proof.
  intros HP (run & s & action & id & tv & row & ? & ? & ? & ? & ? & ? & ? & ? & ? & ? & Hrow).
  exists run, s, action, id, tv, row. split_and!; [done..|by apply HP].
Qed.
(** The calls of a request come from one run of the graph, on the cached state
    or on the state with the stored decisions. *)
Definition granted_run (x x' : App W) (calls : list obs) : Prop :=
  write_calls calls = []
  \/ exists run s s', run_states x !! run = Some s /\ proposed_actions s' = proposed_actions s
       /\ (sound x -> state_ok (committed (db x')) run s')
       /\ write_calls calls `sublist_of` approved_calls s'.

Lemma granted_authorized (L : License) x x' calls tool args :
  sound (L := L) x -> sound (L := L) x' -> granted_run x x' calls -> (tool, args) ∈ write_calls calls ->
  authorized_by (fun row => is_Some (ApprovalRow.approver row) /\ is_Some (ApprovalRow.decided_at row) /\ L row)
    x x' tool args.
Proof.
  intros Hx Hx' [E|(run & s & s' & Hs & Hp & Hok & Hw)] Hin; [rewrite E in Hin; by apply not_elem_of_nil in Hin|].
  eapply approved_authorized; eauto. apply Hok. by eapply sound_weaken.
Qed.

Lemma state_stays T x x' run s :
  good redact T x x' -> sound x -> state_ok (committed (db x)) run s -> state_ok (committed (db x')) run s.
Proof.
  intros [Hf _] [[Hc _] _]. apply state_ok_mono. by eapply for_tenant_decided.
Qed.

Lemma execute_calls T run x x' calls :
  Field.trim T = T -> Api.execute_run redact read_monotonic run T x = (x', Ok calls) -> granted_run x x' calls.
Proof.
  intros HT. pose proof (good_execute redact T HT read_monotonic Hmono run x) as Hg. intros E. rewrite E in Hg.
  revert E. unfold Api.execute_run. rewrite bind_gets. simpl.
  destruct (run_states x !! run) as [s|] eqn:Es; [|intros [= _ <-]; by left].
  set (s' := if bool_decide _ then _ else s).
  assert (gate_of s' = gate_of s /\ proposed_actions s' = proposed_actions s) as [Hgate Hp]
    by (unfold s'; by case_bool_decide).
  unfold bind. destruct (Api.run_graph _ _ _ _ _ _) as [x1 [[l r]|e]] eqn:E; [|done].
  intros [= -> <-]. right. exists run, s, s'. split_and!; [done|done| |by eapply run_graph_calls].
  intros Hx. eapply state_stays; [exact Hg|done|]. eapply state_ok_gate; [done|]. by apply Hx.
Qed.

Lemma job_calls T j x x' r :
  Field.trim T = T -> Api.job_tenant_id j = T ->
  Api.run_repository_job redact read_monotonic j x = (x', Ok r) -> granted_run x x' r.2.
Proof.
  intros HT ET. pose proof (good_job redact T HT read_monotonic Hmono j ET x) as Hg. intros E. rewrite E in Hg.
  revert E. unfold Api.run_repository_job. rewrite bind_gets.
  assert (forall s y, job_rest redact read_monotonic j s y = (x', Ok r) ->
    write_calls r.2 `sublist_of` approved_calls s) as Hrest.
  { intros s y. unfold job_rest, bind. destruct (Api.run_graph _ _ _ _ _ _) as [x1 [[l o]|e]] eqn:E; [|done].
    apply run_graph_calls in E. destruct o; simpl; [|by intros [= <- <-]].
    unfold on_db. match goal with |- context [suppress ?m ?w] => destruct (suppress_returns m w) as [w' ->] end.
    by intros [= <- <-]. }
  destruct (run_states x !! Api.job_run_id j) as [s|] eqn:Es.
  - intros E%Hrest. right. exists (Api.job_run_id j), s, s. split_and!; [done|done| |done].
    intros Hx. eapply state_stays; [exact Hg|done|]. by apply Hx.
  - unfold bind at 1 2, on_db. destruct (now (db x)) as [w [t|e]]; [|done]. simpl.
    intros E%Hrest. left. by apply sublist_nil_r in E.
Qed.

Lemma no_calls {A} (m : M (App W) A) x x' (calls : list obs) :
  (m ;;* ret []) x = (x', Ok calls) -> calls = [].
Proof. unfold bind. destruct (m x) as [y [a|e]]; [|done]. by intros [= _ <-]. Qed.
Lemma request_calls T m x x' calls :
  Field.trim T = T -> request T m -> m x = (x', Ok calls) -> granted_run x x' calls.
Proof.
  intros HT Hm E.
  destruct Hm; try (left; by rewrite (no_calls _ _ _ _ E)).
  - by eapply (execute_calls T).
  - unfold bind in E. pose proof (decide_calls redact T HT read_monotonic Hmono run0 id body ident key x H1
      (any_grant _ _ _)) as Hw.
    unfold wp in Hw. destruct (Api.decide _ _ _ _ _ _ _ _) as [x1 [r|e]]; [|done]. injection E as <- <-.
    destruct Hw as [?|(s & s' & Hs & (Hp & _) & Hok & Hw)]; [by left|]. right. by exists run0, s, s'.
  - unfold bind in E. destruct (Api.run_repository_job _ _ _ _) as [x1 [r|e]] eqn:Ej; [|done].
    injection E as <- <-. by eapply (job_calls T).
Qed.
End Requests.

(** C2. No write without a stored approval: whatever requests any tenants have
    made since a fresh start, a request makes no other write call than those of
    actions that a cached run proposed and whose approval is stored in the
    database for that run and that action, as approved, with an approver and a
    time. *)
Theorem no_write_without_approval {W} `{EngineLaws W} redact read_monotonic T m (x x' : App W) calls tool args :
  observes read_monotonic -> history redact read_monotonic x -> Field.trim T = T ->
  request redact read_monotonic T m -> m x = (x', Ok calls) -> (tool, args) ∈ write_calls calls ->
  authorized x x' tool args.
Proof.
  intros Hmono Hh HT Hm E Hin. pose proof (history_sound _ _ Hmono x Hh) as Hx.
  assert (sound x') as Hx'.
  { destruct (good_request _ _ Hmono T m HT Hm x) as [_ Hg]. rewrite E in Hg. by apply Hg. }
  eapply authorized_mono, granted_authorized; [|exact Hx|done|by eapply request_calls|done]. by intros row (? & ? & _).
Qed.

(** C10. The gateway isolates tenants: a request of one tenant changes no row of
    another tenant in any table, whatever run or approval it names, and keeps
    every constraint; this covers the runs of the graph it starts or resumes. *)
Theorem requests_are_isolated {W} `{EngineLaws W} redact read_monotonic T T' m (x : App W) :
  observes read_monotonic -> Field.trim T = T -> request redact read_monotonic T m ->
  constraints (committed (db x)) -> T' <> T ->
  same_rows T' (committed (db x)) (committed (db (m x).1)) /\ constraints (committed (db (m x).1)).
Proof.
  intros Hmono HT Hm Hc Hne. destruct (good_request _ _ Hmono T m HT Hm x) as [Hf _].
  split; [by eapply for_tenant_isolated|by apply Hf].
Qed.

(** ** Scopes *)

Lemma require_refused {S A} (k : unit -> M S A) ident scopes e x :
  Authz.require_scopes ident scopes = Exn e -> (lift_result (Authz.require_scopes ident scopes) ;;* k tt) x = (x, Exn e).
Proof. by intros ->. Qed.

(** Every route asks for its scope first: without it the request raises the
    403 of [require_scopes] and changes nothing, in the store or in the caches,
    whatever else the request holds. *)
Theorem routes_require_scopes {W} `{Engine W} redact read_monotonic ident body dbody run id after last accept key
    (x : App W) :
  (forall e, Authz.require_scopes ident ["case.write"] = Exn e ->
     Api.create_run redact read_monotonic body ident key x = (x, Exn e)
     /\ Api.cancel_run redact run ident x = (x, Exn e))
  /\ (forall e, Authz.require_scopes ident ["case.read"] = Exn e ->
     Api.get_run run ident x = (x, Exn e) /\ Api.list_approvals run ident x = (x, Exn e)
     /\ Api.run_events run after ident last accept x = (x, Exn e))
  /\ (forall e, Authz.require_scopes ident ["case.approve"] = Exn e ->
     Api.decide redact read_monotonic run id dbody ident key x = (x, Exn e))
  /\ (forall scopes e, Authz.require_scopes ident scopes = Exn e ->
     Api.handle_error e = Some (403%Z, Api.envelope "forbidden" (exn_str e) false)).
Proof.
  split_and!.
  - intros e E. unfold Api.create_run, Api.cancel_run, Api.require. by rewrite E.
  - intros e E. unfold Api.get_run, Api.list_approvals, Api.run_events, Api.require. by rewrite E.
  - intros e E. unfold Api.decide, Api.require. by rewrite E.
  - intros scopes e. unfold Authz.require_scopes. destruct (Authz.missing_scopes _ _); [done|]. by intros [= <-].
Qed.

(** ** Idempotent creation *)

Section Replay.
Context {W : Type} `{EngineLaws W} (redact : dict -> dict) (read_monotonic : M W float).
Context (Hmono : observes read_monotonic).

(** Nothing of the process but the clocks differs. *)
Definition unchanged (x x' : App W) : Prop :=
  committed (db x') = committed (db x) /\ run_states x' = run_states x
  /\ cancel_flags x' = cancel_flags x /\ decide_cache x' = decide_cache x.
#[export] Instance unchanged_order : PreOrder unchanged.
Proof.
  split; [by intros x; split_and!|]. intros x1 x2 x3 (?&?&?&?) (?&?&?&?). unfold unchanged. split_and!; congruence.
Qed.
Lemma wp_app_db {A} (m : M W A) Q E x :
  wp m (fun a w => Q a (mkApp w (run_states x) (cancel_flags x) (decide_cache x) (a2a_cancelled x)))
       (fun e w => E e (mkApp w (run_states x) (cancel_flags x) (decide_cache x) (a2a_cancelled x))) (db x) ->
  wp (on_db m) Q E x.
Proof. unfold wp, on_db. by destruct (m (db x)) as [w [a|e]]. Qed.
Lemma wp_reads {A} (m : M W A) Q E x :
  observes m -> (forall a x', unchanged x x' -> Q a x') -> wp (on_db m) Q E x.
Proof.
  intros Ho HQ. apply wp_app_db. apply wp_observes; [done|]. intros a w Hc _ _. by apply HQ.
Qed.
Lemma unchanged_pure {A} (r : result A) Q E x :
  (forall a, Q a x) -> (forall e, E e x) -> wp (lift_result (S:=App W) r) Q E x.
Proof. intros HQ HE. apply wp_lift. by destruct r. Qed.

Lemma create_replay_wp body ident key r x :
  Repository.run_with_key (Identity.tenant_id ident) key (committed (db x)) = Some r ->
  is_Some (Repository.get_tenant (Identity.tenant_id ident) (committed (db x))) ->
  (new_id "run" (db x)).2 <> Ok (Run.id r) ->
  wp (Api.create_run redact read_monotonic body ident key)
    (fun p x' => p = (Api.accepted (Run.id r) (Run.status r), None) /\ unchanged x x')
    (fun _ x' => unchanged x x') x.
Proof.
  intros Hk Ht Hfresh. unfold Api.create_run, Api.require.
  apply wp_bind, unchanged_pure; [intros _|done]. apply wp_bind. case_match; [apply wp_ret|by apply wp_raise].
  apply wp_bind, wp_app_db. destruct (new_id_observes "run" (db x)) as (w & id & Eid & Hc & _).
  unfold wp at 1. rewrite Eid. set (x1 := mkApp w _ _ _ _).
  assert (unchanged x x1) as Hx1 by done.
  assert (id <> Run.id r) as Hne by (intros ->; apply Hfresh; by rewrite Eid).
  apply wp_bind, unchanged_pure; [intros request|done].
  apply wp_bind, wp_reads; [done|]. intros start x2 Hx2. assert (unchanged x x2) as Hx12 by by etransitivity.
  apply wp_bind, unchanged_pure; [intros tracker|done].
  apply wp_bind, wp_reads; [done|]. intros at_ x3 Hx3. assert (unchanged x x3) as Hx13 by by etransitivity.
  apply wp_bind. cbv zeta. case_match; [by apply wp_raise|apply wp_ret].
  apply wp_bind, wp_app_db. assert (committed (db x3) = committed (db x)) as E3 by apply Hx13.
  eapply wp_mono; [apply (create_run_again _ key r); by rewrite E3| |]; simpl.
  - intros r' w' [-> Hc']. rewrite String.eqb_sym. apply String.eqb_neq in Hne as ->. simpl. apply wp_ret.
    split; [done|]. etransitivity; [exact Hx13|]. by split_and!.
  - intros e w' [Hc' _]. etransitivity; [exact Hx13|]. by split_and!.
Qed.
End Replay.

(** C25. Creating a run again under the idempotency key of an earlier run of the
    tenant answers with that run and its present status, dispatches nothing,
    and leaves the store and the caches as they were, even when it fails. *)
Theorem create_run_replays {W} `{EngineLaws W} redact read_monotonic body ident key r (x : App W) :
  observes read_monotonic ->
  Repository.run_with_key (Identity.tenant_id ident) key (committed (db x)) = Some r ->
  is_Some (Repository.get_tenant (Identity.tenant_id ident) (committed (db x))) ->
  (new_id "run" (db x)).2 <> Ok (Run.id r) ->
  wp (Api.create_run redact read_monotonic body ident key)
    (fun p x' => p = (Api.accepted (Run.id r) (Run.status r), None) /\ unchanged x x')
    (fun _ x' => unchanged x x') x.
Proof. intros Hmono. by apply create_replay_wp. Qed.

Lemma wp_any {S A} (m : M S A) (Q : A -> S -> Prop) (E : exn -> S -> Prop) s :
  (forall a s', Q a s') -> (forall e s', E e s') -> wp m Q E s.
Proof. intros HQ HE. unfold wp. by destruct (m s) as [s' [a|e]]. Qed.

(** ** Decisions *)

Section Decided.
Context {W : Type} `{EngineLaws W} (redact : dict -> dict) (read_monotonic : M W float).

(** A transaction whose body raises before it writes. *)
Lemma transaction_raises {A} (body : M W A) e w :
  (forall w1, pending w1 = committed w -> body w1 = (w1, Exn e)) ->
  exists w', transaction body w = (w', Exn e) /\ committed w' = committed w.
Proof.
  intros Hb. unfold transaction, bind at 1. destruct (begin_law w) as (w1 & -> & Hc1 & Hp1 & _).
  unfold try_finally, try_catch, bind. rewrite (Hb w1 Hp1).
  destruct (rollback_law w1) as (w2 & -> & Hc2 & _). simpl.
  destruct (close_law w2) as (w3 & -> & Hc3). exists w3. split; [done|congruence].
Qed.
Lemma session_reads {A} (body : M W A) (P : result A -> Prop) w :
  (forall w1, pending w1 = committed w -> exists r, body w1 = (w1, r) /\ P r) ->
  exists w' r, session body w = (w', r) /\ P r /\ committed w' = committed w.
Proof.
  intros Hb. unfold session, bind at 1. destruct (begin_law w) as (w1 & -> & Hc1 & Hp1 & _).
  unfold try_finally. destruct (Hb w1 Hp1) as (r & -> & Hr).
  destruct (close_law w1) as (w2 & -> & Hc2). exists w2, r. split_and!; [done|done|congruence].
Qed.

Lemma decided_conflict id T d who why row w :
  Repository.by_approval_id id (committed w) = Some row -> ApprovalRow.tenant_id row = T ->
  ApprovalRow.decision row <> "pending" -> d = "approved" \/ d = "rejected" ->
  exists w', Repository.decide_approval id T d who why w
    = (w', Exn (ConflictError ("approval " +:+ id +:+ " already decided"))) /\ committed w' = committed w.
Proof.
  intros Hrow HT Hd Hok. unfold Repository.decide_approval.
  assert (negb (String.eqb d "approved" || String.eqb d "rejected") = false) as -> by by destruct Hok as [-> | ->].
  apply transaction_raises. intros w1 Hp. unfold Repository.get_approval_row, bind, rows, gets. rewrite Hp, Hrow.
  rewrite HT, String.eqb_refl. simpl. apply String.eqb_neq in Hd. by rewrite Hd.
Qed.
Lemma get_run_owned run T w :
  Repository.owned run T (committed w) = true ->
  exists w' r, Repository.get_run run T w = (w', Ok r) /\ committed w' = committed w.
Proof.
  intros (r & Hr & HT)%owned_row. destruct (session_reads (Repository.get_run_row run T) (fun a => a = Ok r) w)
    as (w' & r' & E & -> & Hc); [|by exists w', r].
  intros w1 Hp. exists (Ok r). split; [|done]. unfold Repository.get_run_row, bind, rows, gets.
  by rewrite Hp, Hr, HT, String.eqb_refl.
Qed.

Lemma check_decide_decision body key k :
  Api.check_decide body key = Ok k ->
  Api.DecideRequest.decision body = "approved" \/ Api.DecideRequest.decision body = "rejected".
Proof.
  unfold Api.check_decide. repeat (case_match; [|done]). intros _.
  match goal with H : mem _ _ = true |- _ => revert H end. unfold mem. simpl.
  destruct (String.eqb_spec (Api.DecideRequest.decision body) "approved"); [by left|].
  destruct (String.eqb_spec (Api.DecideRequest.decision body) "rejected"); [by right|done].
Qed.
End Decided.

(** Decisions are final: when an approval of the tenant is decided already,
    another decision on it, with a key that replays nothing, is refused with
    409 and the message of the repository, whatever it decides, and changes
    nothing in the store or in the caches; in particular it resumes nothing. *)
Theorem decisions_are_final {W} `{EngineLaws W} redact read_monotonic run id body ident key k row (x : App W) :
  Authz.require_scopes ident ["case.approve"] = Ok tt -> Api.check_decide body key = Ok k ->
  Api.replayed run (decide_cache x !! (id, k)) = None ->
  Repository.owned run (Identity.tenant_id ident) (committed (db x)) = true ->
  Repository.by_approval_id id (committed (db x)) = Some row ->
  ApprovalRow.tenant_id row = Identity.tenant_id ident -> ApprovalRow.decision row <> "pending" ->
  exists x' code, Api.decide redact read_monotonic run id body ident key x
      = (x', Exn (Api.http 409 code ("approval " +:+ id +:+ " already decided")))
    /\ unchanged x x'.
Proof.
  intros Hs Hk Hc Ho Hrow HT Hd. unfold Api.decide, Api.require. rewrite Hs, Hk. cbv zeta.
  unfold bind at 1 2 3. simpl. unfold Api.decision_key. rewrite Hc.
  destruct (get_run_owned run _ _ Ho) as (w1 & r & E1 & Hc1).
  unfold bind at 1, Api.or_404, try_catch at 1, on_db at 1. rewrite E1.
  destruct (decided_conflict id (Identity.tenant_id ident) (Api.DecideRequest.decision body)
    (Api.DecideRequest.approver body) (Api.DecideRequest.reason body) row w1) as (w2 & E2 & Hc2);
    [by rewrite Hc1|done|done|by eapply check_decide_decision|].
  unfold bind at 1, Api.record_decision, try_catch, on_db. simpl. rewrite E2. simpl.
  eexists _, _. split; [done|]. unfold unchanged. simpl. split_and!; [congruence|done..].
Qed.

(** ** A run of the process on the in-memory engine *)

Module ApiDemo.
Definition tick : M Memory.db float := ret PyFloat.zero.
Definition alice : Identity.t :=
  Identity.mk "alice" "acme" ["case.read"; "case.write"; "case.approve"] "oidc" None.
Definition eve : Identity.t := Identity.mk "eve" "globex" ["case.read"] "oidc" None.
Definition body : Api.CreateRunRequest.t :=
  Api.CreateRunRequest.mk "Investigate the elevated checkout errors" [("service", VStr "checkout")] 20 10
    (PyFloat.of_Z 2) "1.0".
Definition approve : Api.DecideRequest.t := Api.DecideRequest.mk "approved" "alice" (Some "ok") "1.0".
Definition hook : dict -> dict := Repository.default_hook.
Definition approval_id : string := "run_id0-run_id0-ticket-create-44b770-appr".

Definition fresh : App Memory.db := mkApp Memory.empty ∅ ∅ ∅ [].
Definition create : M (App Memory.db) (list obs) := Api.create_run hook tick body alice (Some "key-1") ;;* ret [].
Definition created : App Memory.db := (create fresh).1.
Definition execute : M (App Memory.db) (list obs) := Api.execute_run hook tick "run_id0" "acme".
(** The run waits for its approval. *)
Definition paused : App Memory.db := (execute created).1.
Definition decide_it : M (App Memory.db) (list obs) :=
  let* r := Api.decide hook tick "run_id0" approval_id approve alice (Some "key-2") in ret r.2.
Definition decided : App Memory.db := (decide_it paused).1.
Definition cancelled : App Memory.db := (Api.cancel_run hook "run_id0" alice paused).1.
(** The call that the approval allows. *)
Definition ticket : list (string * dict) :=
  [("ticket.create", [("title", VStr "Investigate checkout"); ("severity", VStr "high")])].
End ApiDemo.

Lemma demo_tick : observes ApiDemo.tick.
Proof. intros w. by eexists _, _. Qed.
Lemma demo_paused : history ApiDemo.hook ApiDemo.tick ApiDemo.paused.
Proof.
  eapply (h_request _ _ "acme" ApiDemo.execute); [|done|apply q_execute].
  eapply (h_request _ _ "acme" ApiDemo.create); [|done|by apply q_create].
  apply h_fresh; [done|]. split; [apply no_rows_constraints|constructor].
Qed.
Lemma demo_paused_constraints : constraints (committed (db ApiDemo.paused)).
Proof. apply check_constraints_spec. vm_compute. reflexivity. Qed.

Lemma no_write_without_approval_witness :
  match (ApiDemo.decide_it ApiDemo.paused).2 with Ok calls => write_calls calls | Exn _ => [] end = ApiDemo.ticket
  /\ authorized ApiDemo.paused ApiDemo.decided "ticket.create"
       [("title", VStr "Investigate checkout"); ("severity", VStr "high")].
Proof.
  split; [vm_compute; reflexivity|].
  assert (exists calls, (ApiDemo.decide_it ApiDemo.paused).2 = Ok calls /\ write_calls calls = ApiDemo.ticket)
    as (calls & E & Hw) by (eexists; split; vm_compute; reflexivity).
  refine (no_write_without_approval ApiDemo.hook ApiDemo.tick "acme" ApiDemo.decide_it ApiDemo.paused
    ApiDemo.decided calls _ _ demo_tick demo_paused eq_refl _ _ _).
  - apply q_decide. reflexivity.
  - rewrite <- E. apply surjective_pairing.
  - rewrite Hw. left.
Defined.

Lemma requests_are_isolated_witness :
  same_rows "globex" (committed (db ApiDemo.paused)) (committed (db ApiDemo.decided))
  /\ length (Tables.run_events (committed (db ApiDemo.decided))) = 27.
Proof.
  split; [|vm_compute; reflexivity].
  refine (proj1 (requests_are_isolated ApiDemo.hook ApiDemo.tick "acme" "globex" ApiDemo.decide_it ApiDemo.paused
    demo_tick eq_refl _ demo_paused_constraints _)).
  - apply q_decide. reflexivity.
  - discriminate.
Defined.

Lemma routes_require_scopes_witness :
  exists e, Authz.require_scopes ApiDemo.eve ["case.approve"] = Exn e
    /\ Api.decide ApiDemo.hook ApiDemo.tick "run_id0" ApiDemo.approval_id ApiDemo.approve ApiDemo.eve (Some "k")
         ApiDemo.paused = (ApiDemo.paused, Exn e).
Proof.
  eexists. split; [reflexivity|].
  apply (routes_require_scopes ApiDemo.hook ApiDemo.tick ApiDemo.eve ApiDemo.body ApiDemo.approve "run_id0"
    ApiDemo.approval_id 0 None "" (Some "k") ApiDemo.paused). reflexivity.
Defined.

Lemma create_run_replays_witness :
  option_map (fun r => (Run.id r, Run.status r))
    (Repository.run_with_key "acme" (Some "key-1") (committed (db ApiDemo.paused)))
  = Some ("run_id0", "waiting_for_approval")
  /\ forall r, Repository.run_with_key "acme" (Some "key-1") (committed (db ApiDemo.paused)) = Some r ->
       wp (Api.create_run ApiDemo.hook ApiDemo.tick ApiDemo.body ApiDemo.alice (Some "key-1"))
         (fun p x' => p = (Api.accepted (Run.id r) (Run.status r), None) /\ unchanged ApiDemo.paused x')
         (fun _ x' => unchanged ApiDemo.paused x') ApiDemo.paused.
Proof.
  assert (option_map Run.id (Repository.run_with_key "acme" (Some "key-1") (committed (db ApiDemo.paused)))
    = Some "run_id0") as E by (vm_compute; reflexivity).
  split; [vm_compute; reflexivity|]. intros r Hr. rewrite Hr in E. injection E as E.
  apply (create_run_replays ApiDemo.hook ApiDemo.tick ApiDemo.body ApiDemo.alice (Some "key-1") r ApiDemo.paused
    demo_tick Hr).
  - vm_compute. eexists. reflexivity.
  - rewrite E. vm_compute. discriminate.
Defined.

Lemma decisions_are_final_witness :
  exists x' code, Api.decide ApiDemo.hook ApiDemo.tick "run_id0" ApiDemo.approval_id ApiDemo.approve ApiDemo.alice
      (Some "key-3") ApiDemo.decided
    = (x', Exn (Api.http 409 code ("approval " +:+ ApiDemo.approval_id +:+ " already decided")))
  /\ unchanged ApiDemo.decided x'.
Proof.
  refine (decisions_are_final ApiDemo.hook ApiDemo.tick "run_id0" ApiDemo.approval_id ApiDemo.approve ApiDemo.alice
    (Some "key-3") "key-3" _ ApiDemo.decided _ _ _ _ _ _ _);
    [reflexivity|reflexivity|vm_compute; reflexivity|vm_compute; reflexivity|vm_compute; reflexivity
    |vm_compute; reflexivity|vm_compute; discriminate].
Defined.

(** ** Where the routes do other than they say *)

Definition answer (r : result (dict * list obs)) : option dict :=
  match r with Ok (d, _) => Some d | Exn _ => None end.

(** The replay of a decision is served before the tenant is looked at: another
    tenant that repeats the key reads who decided, how and why. *)
Example replay_crosses_tenants :
  let mallory := Identity.mk "mallory" "globex" ["case.approve"] "oidc" None in
  answer (Api.decide ApiDemo.hook ApiDemo.tick "run_id0" ApiDemo.approval_id ApiDemo.approve mallory (Some "key-2")
            ApiDemo.decided).2
  = Some (Api.decide_result "run_id0" ApiDemo.approval_id ApiDemo.approve).
Proof. vm_compute. reflexivity. Qed.

(** A decision addressed to another run of the tenant is answered 404, after it
    was stored. *)
Example misdirected_decision_is_stored :
  let x := (Api.create_run ApiDemo.hook ApiDemo.tick ApiDemo.body ApiDemo.alice (Some "key-9") ApiDemo.paused).1 in
  let other := match map Run.id (Tables.runs (committed (db x))) with [_; id] => id | _ => "" end in
  let '(x', r) := Api.decide ApiDemo.hook ApiDemo.tick other ApiDemo.approval_id ApiDemo.approve ApiDemo.alice
                    (Some "key-2") x in
  r = Exn Api.not_found
  /\ map ApprovalRow.decision (Tables.approvals (committed (db x'))) = ["approved"]
  /\ (status <$> run_states x' !! "run_id0") = Some "waiting_for_approval".
Proof. vm_compute. done. Qed.

(** A run that is complete can be cancelled, and is reported so. *)
Example completed_run_is_cancelled :
  let x := (Api.cancel_run ApiDemo.hook "run_id0" ApiDemo.alice ApiDemo.decided).1 in
  map Run.status (Tables.runs (committed (db ApiDemo.decided))) = ["completed"]
  /\ map Run.status (Tables.runs (committed (db x))) = ["cancelled"].
Proof. vm_compute. done. Qed.

(** A run starts twice on record: the route and the graph both say so. *)
Example run_started_twice :
  take 2 (map (fun e => (RunEvent.sequence e, RunEvent.type e)) (Tables.run_events (committed (db ApiDemo.paused))))
  = [(0%Z, "run.started"); (1%Z, "run.started")].
Proof. vm_compute. reflexivity. Qed.
