(* ===== verification/ApiCancel.v ===== *)
(** * Cancellation over the life of the API process

    [cancel_run] of [apps/api/routes/runs.py] marks the cached run; this file
    follows the mark through every later request of any tenant: nothing clears
    it, and no background task, decision or job makes the graph work on the run
    again. *)

From stdpp Require Import base gmap sets list strings pretty relations.
From Stdlib Require Import ZArith Lia Ascii.
From S2P Require Import Prelude.
From S2P Require Import PyFloat.
From S2P Require Import PyValue.
From S2P Require Import PyTime.
From S2P Require Import Contracts.
From S2P Require Import ContractsRun.
From S2P Require Import ContractsOps.
From S2P Require Import Security.
From S2P Require Import Tables.
From S2P Require Import Repository.
From S2P Require Import RepositorySpecs.
From S2P Require Import RepositoryProps.
From S2P Require Import RepositoryClients.
From S2P Require Import MemoryEngine.
From S2P Require Import RunState.
From S2P Require Import GraphTools.
From S2P Require Import Graph.
From S2P Require Import GraphSteps.
From S2P Require Import GraphLemmas.
From S2P Require Import GraphFlow.
From S2P Require Import GraphOutcome.
From S2P Require Import GraphWorld.
From S2P Require Import ApiStore.
From S2P Require Import Api.
From S2P Require Import ApiLemmas.
From S2P Require Import ApiProps.
Import GraphTools Graph Steps Clients ApiStore.

Local Open Scope py_scope.

(** ** The graph on a cancelled run *)

Section Graph.
Context {W : Type} `{!Deps W}.

Lemma on_cancel_keeps (g : G W) : cancelled (st (on_cancel g).1) = cancelled (st g).
Proof.
  assert (steps (keeps (W:=W) cancelled) on_cancel) as Hk; [|exact (Hk g)].
  unfold on_cancel. steps_walk ltac:(first
    [apply keeps_call | by apply keeps_emit | apply keeps_save | apply keeps_upd; by intros []]).
Qed.
(** It stays marked. *)
Lemma run_stays_cancelled n (g : G W) :
  cancelled (st g) = true -> status (st g) <> "created" -> cancelled (st (run (S n) g).1) = true.
Proof.
  intros Hc Hs%String.eqb_neq. unfold run, start, get_st. unfold bind at 1. rewrite bind_gets, Hs. unfold ret at 1.
  unfold try_catch. simpl. unfold step at 1, bind at 1 2, check_cancel, get_st, bind, modify, gets.
  destruct (cancel_signal (world g)); simpl; rewrite ?Hc; simpl;
    match goal with |- context [on_cancel ?y] => pose proof (on_cancel_keeps y) as E; destruct (on_cancel y) as [g2 []] end;
    simpl in *; congruence.
Qed.
End Graph.

(** ** The mark *)

(** The run is cached, marked, and past its creation. *)
Definition stopped {W} (run : string) (x : App W) : Prop :=
  run ∈ cancel_flags x
  /\ exists s, run_states x !! run = Some s /\ cancelled s = true /\ status s <> "created".
(** The cached run has ended as cancelled, and is still marked. *)
Definition ended {W} (run : string) (x : App W) : Prop :=
  exists s, run_states x !! run = Some s /\ cancelled s = true /\ cancelled_state s.

(** Nothing clears it. *)
Definition holds {W} (run : string) (x x' : App W) : Prop := stopped run x -> stopped run x'.
#[export] Instance holds_order {W} run : PreOrder (@holds W run).
Proof. split; [intros x Hx; exact Hx|]. intros x1 x2 x3 H12 H23 Hs. auto. Qed.

(** Changes that leave the run's own entry and every mark alone. *)
Definition beside {W} (run : string) (x x' : App W) : Prop :=
  cancel_flags x ⊆ cancel_flags x' /\ run_states x' !! run = run_states x !! run.
#[export] Instance beside_order {W} run : PreOrder (@beside W run).
Proof. split; [by intros x; split|]. intros x1 x2 x3 [F12 E12] [F23 E23]. split; [set_solver|congruence]. Qed.
Lemma beside_holds {W} run (x x' : App W) : beside run x x' -> holds run x x'.
Proof. intros [Hf E] [Hin Hs]. split; [set_solver|]. by rewrite E. Qed.
(** The marks only grow. *)
Definition marks {W} (x x' : App W) : Prop := cancel_flags x ⊆ cancel_flags x'.
#[export] Instance marks_order {W} : PreOrder (@marks W).
Proof. unfold marks. split; [intros x; done|]. intros x1 x2 x3. set_solver. Qed.

Section Process.
Context {W : Type} `{EngineLaws W} (redact : dict -> dict) (read_monotonic : M W float).
Context (Hmono : observes read_monotonic) (run : string).
Implicit Types (x : App W).

Lemma beside_db {A} (m : M W A) : steps (beside run) (on_db m).
Proof. intros x. unfold on_db. by destruct (m (db x)). Qed.
Lemma beside_set r s : r <> run -> steps (beside (W:=W) run) (set_run r s).
Proof. intros Hne x. split; [done|]. simpl. by rewrite lookup_insert_ne. Qed.
Lemma marks_db {A} (m : M W A) : steps marks (on_db m).
Proof. intros x. unfold on_db, marks. by destruct (m (db x)). Qed.
Lemma marks_set r s : steps (marks (W:=W)) (set_run r s).
Proof. intros x. unfold marks. done. Qed.

Ltac mark_leaf :=
  first [apply beside_db | by apply beside_set | apply marks_db | apply marks_set].

(** A graph touches the cached state of its own run only. *)
Lemma deps_beside r T (Hr : r <> run) :
  respected (Deps0 := ApiStore.deps redact r T read_monotonic) (beside run).
Proof.
  constructor; intros; simpl in *; simplify_eq; unfold ApiStore.save, ApiStore.append; steps_walk mark_leaf; try done.
Qed.
Lemma deps_marks r T : respected (Deps0 := ApiStore.deps redact r T read_monotonic) marks.
Proof.
  constructor; intros; simpl in *; simplify_eq; unfold ApiStore.save, ApiStore.append; steps_walk mark_leaf; try done.
Qed.

(** The graph on a marked run stops at once. *)
Lemma marked_graph T s x :
  run ∈ cancel_flags x -> cancelled s = true -> status s <> "created" ->
  exists x' calls r, Api.run_graph redact read_monotonic run T s x = (x', Ok (calls, r))
    /\ Forall cancel_only calls /\ run ∈ cancel_flags x' /\ ended run x'.
Proof.
  intros Hf Hc Hs. unfold Api.run_graph. set (g0 := mkG s _ x []).
  pose proof (cancelled_stops (Deps0 := ApiStore.deps redact run T read_monotonic) 13 g0 Hc Hs)
    as [Hst (ext & Et & HF)].
  pose proof (run_stays_cancelled (Deps0 := ApiStore.deps redact run T read_monotonic) 13 g0 Hc Hs) as Hk.
  pose proof (world_run (Deps0 := ApiStore.deps redact run T read_monotonic) marks 14 (deps_marks run T) g0) as Hm.
  change Steps.run_fuel with 14. destruct (Steps.run 14 g0) as [g r]. simpl in *.
  eexists _, _, _. split; [done|]. split; [by rewrite Et|]. split; [by apply Hm|].
  exists (st g). split; [apply lookup_insert_eq|done].
Qed.
Lemma ended_stopped x : run ∈ cancel_flags x -> ended run x -> stopped run x.
Proof. intros Hf (s & Hs & Hc & Hst & _). split; [done|]. exists s. by rewrite Hst. Qed.
Lemma graph_holds r T s x :
  (r = run -> stopped run x -> cancelled s = true /\ status s <> "created") ->
  holds run x (Api.run_graph redact read_monotonic r T s x).1.
Proof.
  destruct (decide (r = run)) as [->|Hne]; intros Hs.
  - intros Hx. destruct (Hs eq_refl Hx) as [Hc Hst]. destruct Hx as [Hf _].
    destruct (marked_graph T s x Hf Hc Hst) as (x' & calls & r & -> & _ & Hf' & He). by apply ended_stopped.
  - apply beside_holds. unfold Api.run_graph. set (g0 := mkG s _ x []).
    pose proof (world_run (Deps0 := ApiStore.deps redact r T read_monotonic) (beside run) 14 (deps_beside r T Hne) g0)
      as [Hf E].
    change Steps.run_fuel with 14. destruct (Steps.run 14 g0) as [g o]. simpl in *. split; [done|].
    simpl. by rewrite lookup_insert_ne.
Qed.

(** *** The requests *)

Lemma holds_db {A} (m : M W A) : steps (holds run) (on_db m).
Proof. intros x. apply beside_holds, beside_db. Qed.
Lemma holds_set r s : r <> run -> steps (holds (W:=W) run) (set_run r s).
Proof. intros Hne x. by apply beside_holds, beside_set. Qed.
Lemma holds_request_cancel r : steps (holds (W:=W) run) (request_cancel r).
Proof.
  intros x [Hf (s & Hs & Hc & Hst)]. split; simpl; [clear -Hf; set_solver|].
  destruct (decide (r = run)) as [->|Hne]; [|rewrite lookup_alter_ne by done; eauto].
  rewrite lookup_alter_eq, Hs. by exists (set_cancelled true s).
Qed.
Lemma holds_status r f : (forall s, cancelled (f s) = cancelled s /\ (status s <> "created" -> status (f s) <> "created")) ->
  steps (holds (W:=W) run) (modify (fun x => mkApp (db x) (alter f r (run_states x)) (cancel_flags x)
                                       (decide_cache x) (a2a_cancelled x))).
Proof.
  intros Hk x [Hf (s & Hs & Hc & Hst)]. split; simpl; [done|].
  destruct (decide (r = run)) as [->|Hne]; [|rewrite lookup_alter_ne by done; eauto].
  rewrite lookup_alter_eq, Hs. exists (f s). destruct (Hk s) as [E Hst']. rewrite E. auto.
Qed.
Lemma holds_cache f : steps (holds (W:=W) run)
  (modify (fun x => mkApp (db x) (run_states x) (cancel_flags x) (f x) (a2a_cancelled x))).
Proof. intros x Hx. exact Hx. Qed.

Ltac holds_walk := unfold Api.or_404, Api.best_effort, Api.require, Api.record_decision;
  steps_walk ltac:(first [apply holds_db | by apply holds_set | apply holds_request_cancel
    | by apply holds_status | apply holds_cache]).

Lemma holds_execute r T : steps (holds run) (Api.execute_run redact read_monotonic r T).
Proof.
  intros x. unfold Api.execute_run. rewrite bind_gets. simpl.
  destruct (run_states x !! r) as [s|] eqn:E; [|simpl; reflexivity].
  apply (steps_bind_at (holds run)); [|intros; apply (steps_ret (holds run))]. apply graph_holds.
  intros -> [_ (s0 & Hs & Hc & Hst)]. rewrite E in Hs. injection Hs as <-. by case_bool_decide.
Qed.
Lemma holds_detail r T : steps (holds run) (Api.run_detail r T).
Proof. unfold Api.run_detail, Api.findings_from_events. holds_walk. Qed.
Lemma holds_cancel r ident : steps (holds run) (Api.cancel_run redact r ident).
Proof. unfold Api.cancel_run. holds_walk. Qed.
Lemma holds_events r after ident last accept : steps (holds run) (Api.run_events r after ident last accept).
Proof. unfold Api.run_events, Api.effective_after, Api.sequence_for_event_id. holds_walk. Qed.
Lemma holds_list r ident : steps (holds run) (Api.list_approvals r ident).
Proof. unfold Api.list_approvals. holds_walk. Qed.

(** A fresh run takes another identifier. *)
Definition draws_other x : Prop := forall r, (new_id "run" (db x)).2 = Ok r -> r <> run.
Lemma holds_create body ident key x :
  draws_other x -> holds run x (Api.create_run redact read_monotonic body ident key x).1.
Proof.
  intros Hd. unfold Api.create_run, Api.require. unfold bind at 1.
  destruct (Authz.require_scopes _ _) as [[]|e]; simpl; [|reflexivity].
  unfold bind at 1. destruct (String.eqb _ _); simpl; [|reflexivity]. cbv zeta.
  apply (steps_bind_at (holds run)); [apply holds_db|]. intros id x1 Ei.
  assert (id <> run) as Hid.
  { apply Hd. unfold on_db in Ei. destruct (new_id "run" (db x)) as [w r]. injection Ei as _ ->. done. }
  match goal with |- holds run x1 (?m x1).1 => enough (steps (holds run) m) as Hm by exact (Hm x1) end.
  holds_walk. apply negb_false_iff, String.eqb_eq in Heqb. apply holds_set. congruence.
Qed.

(** What a decision resumes. *)
Context (T : string) (HT : Field.trim T = T).
Lemma holds_resume_other r decision : r <> run -> steps (holds run) (Api.maybe_resume redact read_monotonic r T decision).
Proof.
  intros Hr. unfold Api.maybe_resume, Api.synced, ApiStore.save.
  steps_walk ltac:(first [apply holds_db | by apply holds_set | intros ?; by apply graph_holds]).
Qed.
Lemma save_stopped s x :
  run ∈ cancel_flags x -> cancelled s = true -> status s <> "created" -> stopped run (ApiStore.save run T s x).1.
Proof.
  intros Hf Hc Hs. pose proof (saves_each (L := fun _ => True) redact T HT run s x) as [_ E]. split.
  - assert (steps marks (ApiStore.save run T s)) as Hm; [|by apply (Hm x)].
    unfold ApiStore.save. steps_walk ltac:(first [apply marks_db | apply marks_set]).
  - exists s. by rewrite E, lookup_insert_eq.
Qed.
Lemma resume_stopped decision x :
  stopped run x -> exists x' calls, Api.maybe_resume redact read_monotonic run T decision x = (x', Ok calls)
    /\ Forall cancel_only calls /\ stopped run x'.
Proof.
  intros [Hf (s & Hs & Hc & Hst)].
  destruct (synced_spec (L := fun _ => True) redact T run s x Hs) as (x1 & s1 & E1 & (_ & _ & Es & Ec) & _ & Hs1).
  assert (run ∈ cancel_flags x1) as Hf1.
  { assert (steps marks (Api.synced run T s)) as Hm by (unfold Api.synced; holds_walk; first [apply marks_db|apply marks_set]).
    specialize (Hm x). rewrite E1 in Hm. by apply Hm. }
  unfold Api.maybe_resume. rewrite bind_gets, Hs. unfold bind at 1. rewrite E1.
  destruct (negb _); [eexists _, _; split_and!; [done|done|]; split; [done|]; exists s1; rewrite Ec, Es; done|].
  destruct (String.eqb decision "rejected").
  - set (s2 := set_outcome _ _). unfold bind at 1, set_run, modify at 1. set (x2 := mkApp _ _ _ _ _).
    pose proof (save_stopped s2 x2 Hf1 (eq_trans Ec Hc) ltac:(done)) as Hsv.
    destruct (good_save (L := fun _ => True) redact T HT run s2 x2) as (x3 & E3 & _).
    + intros [_ Hca]. apply Hca; [|done]. apply lookup_insert_eq.
    + rewrite E3 in Hsv. unfold bind at 1. rewrite E3. unfold bind at 1.
      match goal with |- context [on_db ?m x3] => pose proof (holds_db m x3 Hsv) as Hdb end.
      unfold on_db in *. match goal with |- context [suppress ?m ?w] => destruct (suppress_returns m w) as [w' Ew] end.
      rewrite Ew in Hdb |- *. by eexists _, [].
  - destruct (marked_graph T (set_status "running" (set_current_state "execute_approved" s1)) x1)
      as (x2 & l & r & Er & HF & Hf2 & He); [done|simpl; congruence|done|].
    unfold bind. rewrite Er. eexists _, _. split_and!; [done|done|by apply ended_stopped].
Qed.
Lemma holds_resume r decision : steps (holds run) (Api.maybe_resume redact read_monotonic r T decision).
Proof.
  destruct (decide (r = run)) as [->|Hne]; [|by apply holds_resume_other].
  intros x Hx. by destruct (resume_stopped decision x Hx) as (x' & calls & -> & _ & ?).
Qed.
Lemma holds_decide r id body ident key :
  Identity.tenant_id ident = T -> steps (holds run) (Api.decide redact read_monotonic r id body ident key).
Proof.
  intros E. unfold Api.decide. rewrite E. cbv zeta. holds_walk; try apply holds_cache. apply holds_resume.
Qed.

(** A job of the worker on the marked run *)
Lemma stopped_job j x :
  Api.job_run_id j = run -> stopped run x ->
  wp (Api.run_repository_job redact read_monotonic j)
    (fun r x' => Forall cancel_only r.2 /\ stopped run x' /\ ended run x') (fun _ x' => stopped run x') x.
Proof.
  intros Ej [Hf (s & Hs & Hc & Hst)]. unfold Api.run_repository_job. rewrite Ej.
  apply wp_bind, wp_gets. rewrite Hs. apply wp_bind, wp_ret, wp_bind.
  destruct (marked_graph (Api.job_tenant_id j) s x Hf Hc Hst) as (x1 & calls & r & Er & HF & Hf1 & He).
  unfold wp at 1. rewrite Er. simpl. pose proof (ended_stopped x1 Hf1 He) as Hs1.
  destruct r as [u|e]; [|by apply wp_ret]. apply wp_bind, wp_gets, wp_bind.
  assert (forall A (m : M W A) Q E, (forall a x', stopped run x' -> ended run x' -> Q a x') ->
    (forall e x', stopped run x' -> E e x') -> wp (on_db m) Q E x1) as Hdb.
  { intros A m Q E HQ HE. pose proof (beside_db m x1) as Hb. unfold wp.
    destruct (on_db m x1) as [x' [a|e]]; simpl in Hb; pose proof (beside_holds _ _ _ Hb Hs1);
      [apply HQ|apply HE]; try done. destruct Hb as [_ E1]. unfold ended. by rewrite E1. }
  apply Hdb; [|done]. intros _ x2 Hs2 He2. by apply wp_ret.
Qed.
Lemma holds_job j : steps (holds run) (Api.run_repository_job redact read_monotonic j).
Proof.
  intros x Hx. destruct (decide (Api.job_run_id j = run)) as [E|Hne].
  - pose proof (stopped_job j x E Hx) as Hw. unfold wp in Hw.
    destruct (Api.run_repository_job _ _ _ _) as [x' [r|e]]; [apply Hw|exact Hw].
  - revert x Hx. change (steps (holds (W:=W) run) (Api.run_repository_job redact read_monotonic j)).
    unfold Api.run_repository_job.
    steps_walk ltac:(first [apply holds_db | by apply holds_set | intros ?; by apply graph_holds]).
Qed.

(** A request of any tenant, while fresh runs take other identifiers. *)
Definition requested x x' : Prop :=
  exists T m, Field.trim T = T /\ request redact read_monotonic T m /\ draws_other x /\ x' = (m x).1.
End Process.

Lemma request_holds {W} `{EngineLaws W} redact read_monotonic run T m (x : App W) :
  observes read_monotonic -> Field.trim T = T -> request redact read_monotonic T m -> draws_other run x ->
  holds run x (m x).1.
Proof.
  intros Hmono HT Hm Hd.
  assert (forall A (m : M (App W) A) (f : A -> list obs),
    holds run x (m x).1 -> holds run x ((let* a := m in ret (f a)) x).1) as Hret.
  { intros A m' f Hm'. apply (steps_bind_at (holds run)); [done|]. intros a x' _. apply (steps_ret (holds run)). }
  destruct Hm; try (apply (Hret _ _ (fun _ => []))); try apply (Hret _ _ snd);
    [by apply holds_create|..];
    match goal with |- holds run x (?m x).1 => enough (steps (holds run) m) as Hs by exact (Hs x) end.
  - by apply holds_execute.
  - unfold Api.get_run, Api.require. apply (steps_bind (holds run)); [apply (steps_lift (holds run))|].
    intros _. apply holds_detail.
  - apply holds_cancel.
  - apply holds_events.
  - apply holds_list.
  - by eapply holds_decide.
  - unfold Api.propagate_cancel. apply (steps_bind (holds run)); [apply holds_request_cancel|].
    intros _. apply (steps_ret (holds run)).
  - by apply holds_job.
Qed.
Lemma requested_holds {W} `{EngineLaws W} redact read_monotonic run (x x' : App W) :
  observes read_monotonic -> rtc (requested redact read_monotonic run) x x' -> holds run x x'.
Proof.
  intros Hmono. induction 1 as [x|x1 x2 x3 (T & m & HT & Hm & Hd & ->) _ IH]; [reflexivity|].
  etrans; [by eapply request_holds|done].
Qed.

Lemma wp_beside {W A} run (m : M (App W) A) Q x :
  steps (beside run) m -> (forall a x', beside run x x' -> Q a x') -> wp m Q (fun _ _ => True) x.
Proof. intros Hm HQ. specialize (Hm x). unfold wp. destruct (m x) as [x' [a|e]]; [by apply HQ|done]. Qed.
Lemma cancel_run_stops {W} `{Engine W} redact run ident d (x x1 : App W) :
  is_Some (run_states x !! run) -> Api.cancel_run redact run ident x = (x1, Ok d) -> stopped run x1.
Proof.
  intros [s Hs] E. assert (wp (Api.cancel_run redact run ident) (fun _ x' => stopped run x') (fun _ _ => True) x) as Hw;
    [|by unfold wp in Hw; rewrite E in Hw].
  unfold Api.cancel_run, Api.require, Api.or_404, Api.best_effort.
  do 3 (apply wp_bind, (wp_beside run); [steps_walk ltac:(apply beside_db)|intros ? ? []]).
  unfold request_cancel. apply wp_bind, wp_modify, wp_bind, wp_modify, wp_bind, wp_modify, wp_ret.
  split; simpl; [set_solver|]. rewrite !lookup_alter_eq.
  match goal with |- context [run_states ?y !! run] => assert (run_states y !! run = Some s) as -> by congruence end.
  by eexists.
Qed.

(** A decision answers from the cache, or ends in a resumption. *)
Lemma decide_resumes_stopped {W} `{Engine W} redact read_monotonic run id body ident key (x : App W) :
  wp (Api.decide redact read_monotonic run id body ident key)
    (fun r x' => r.2 = [] \/ exists y, beside run x y
       /\ Api.maybe_resume redact read_monotonic run (Identity.tenant_id ident) (Api.DecideRequest.decision body) y
          = (x', Ok r.2))
    (fun _ _ => True) x.
Proof.
  unfold Api.decide, Api.require, Api.or_404, Api.best_effort, Api.record_decision. cbv zeta.
  apply wp_bind, (wp_beside run); [steps_walk ltac:(apply beside_db)|intros _ x1 H1].
  apply wp_bind, (wp_beside run); [steps_walk ltac:(apply beside_db)|intros k x2 H2].
  apply wp_bind, wp_gets. destruct (Api.replayed _ _); [apply wp_ret; by left|].
  do 4 (apply wp_bind, (wp_beside run); [steps_walk ltac:(apply beside_db)|intros ? ? ?]).
  apply wp_bind, wp_modify, wp_bind. set (y := mkApp _ _ _ _ _).
  assert (beside run x y) as Hy by (etrans; [eassumption|]; by repeat (etrans; [eassumption|])).
  unfold wp. destruct (Api.maybe_resume _ _ _ _ _ _) as [z [calls|e]] eqn:Em; [|done]. simpl. right. by exists y.
Qed.

(** C11. Cancellation holds: once [cancel_run] has answered for a run that the
    process has cached, and whatever requests any tenants make then, as long as
    no fresh run draws the identifier again, the cached run keeps its mark, and
    no background task of the run, no decision on its approvals and no job of
    the worker for it makes a tool, specialist, model or policy call; a task and
    a job leave it cancelled, with the outcome [cancelled].  A task or a decision
    runs to its end before the next request; a rejecting decision on a run that
    was cancelled at the pause still sets its cached status to [completed]. *)
Theorem cancellation_holds {W} `{EngineLaws W} redact read_monotonic run ident d (x x1 x2 : App W) T :
  observes read_monotonic -> is_Some (run_states x !! run) ->
  Api.cancel_run redact run ident x = (x1, Ok d) ->
  rtc (requested redact read_monotonic run) x1 x2 -> Field.trim T = T ->
  stopped run x2
  /\ (exists x3 calls, Api.execute_run redact read_monotonic run T x2 = (x3, Ok calls)
      /\ Forall cancel_only calls /\ ended run x3)
  /\ (forall id body ident' key x3 r, Identity.tenant_id ident' = T ->
      Api.decide redact read_monotonic run id body ident' key x2 = (x3, Ok r) ->
      Forall cancel_only r.2 /\ stopped run x3)
  /\ (forall j x3 r, Api.job_run_id j = run ->
      Api.run_repository_job redact read_monotonic j x2 = (x3, Ok r) ->
      Forall cancel_only r.2 /\ ended run x3).
Proof.
  intros Hmono Hc E%cancel_run_stops Hr HT; [|done].
  assert (stopped run x2) as Hx by (by eapply requested_holds). split; [done|]. split_and!.
  - unfold Api.execute_run. rewrite bind_gets. simpl. destruct Hx as [Hf (s & -> & Hcs & Hst)].
    rewrite bool_decide_eq_true_2 by done.
    destruct (marked_graph redact read_monotonic run T (set_cancelled true s) x2)
      as (x3 & calls & r & Er & HF & _ & He); [done..|]. exists x3, calls. unfold bind. by rewrite Er.
  - intros id body ident' key x3 r Et Ed.
    pose proof (holds_decide redact read_monotonic run T HT run id body ident' key Et x2 Hx) as Hx3.
    rewrite Ed in Hx3. split; [|done].
    pose proof (decide_resumes_stopped redact read_monotonic run id body ident' key x2) as Hd.
    unfold wp in Hd. rewrite Ed, Et in Hd. destruct Hd as [->|(y & Hy & Em)]; [done|].
    destruct (resume_stopped redact read_monotonic run T HT (Api.DecideRequest.decision body) y)
      as (y' & calls & Em' & HF & _); [by eapply beside_holds|congruence].
  - intros j x3 r Ej Er. pose proof (stopped_job redact read_monotonic run j x2 Ej Hx) as Hw.
    unfold wp in Hw. rewrite Er in Hw. by destruct Hw as (? & _ & ?).
Qed.

(** A run that is cancelled at the approval pause, whose approval is then given. *)
Module CancelDemo.
Definition later : App Memory.db := (ApiDemo.decide_it ApiDemo.cancelled).1.
End CancelDemo.

Lemma cancellation_holds_witness :
  is_ok (Api.cancel_run ApiDemo.hook "run_id0" ApiDemo.alice ApiDemo.paused).2 = true
  /\ is_ok (ApiDemo.decide_it ApiDemo.cancelled).2 = true
  /\ stopped "run_id0" CancelDemo.later
  /\ exists x3 calls, Api.execute_run ApiDemo.hook ApiDemo.tick "run_id0" "acme" CancelDemo.later = (x3, Ok calls)
       /\ Forall cancel_only calls /\ ended "run_id0" x3.
Proof.
  split; [vm_compute; reflexivity|]. split; [vm_compute; reflexivity|].
  assert (exists d, (Api.cancel_run ApiDemo.hook "run_id0" ApiDemo.alice ApiDemo.paused).2 = Ok d) as [d E]
    by (eexists; vm_compute; reflexivity).
  assert (draws_other "run_id0" ApiDemo.cancelled) as Hd.
  { assert ((new_id "run" (db ApiDemo.cancelled)).2 <> Ok "run_id0") as Hn by (vm_compute; discriminate).
    intros r Hr ->. exact (Hn Hr). }
  assert (is_Some (run_states ApiDemo.paused !! "run_id0")) as Hc by (vm_compute; eexists; reflexivity).
  destruct (cancellation_holds ApiDemo.hook ApiDemo.tick "run_id0" ApiDemo.alice d ApiDemo.paused ApiDemo.cancelled
    CancelDemo.later "acme" demo_tick Hc) as (Hs & He & _).
  - rewrite <- E. apply surjective_pairing.
  - apply rtc_once. exists "acme", ApiDemo.decide_it.
    split; [reflexivity|]. split; [apply q_decide; reflexivity|]. split; [exact Hd|reflexivity].
  - reflexivity.
  - split; [exact Hs|exact He].
Defined.

(** ** Where a cancellation is forgotten *)

(** A rejection of the approval of a run that was cancelled at its pause makes
    the run a completed one, in the cache and in the store. *)
Definition reject : Api.DecideRequest.t := Api.DecideRequest.mk "rejected" "alice" None "1.0".
Example rejection_overwrites_cancellation :
  let x := (Api.decide ApiDemo.hook ApiDemo.tick "run_id0" ApiDemo.approval_id reject ApiDemo.alice (Some "key-2")
              ApiDemo.cancelled).1 in
  map Run.status (Tables.runs (committed (db ApiDemo.cancelled))) = ["cancelled"]
  /\ map Run.status (Tables.runs (committed (db x))) = ["completed"]
  /\ (status <$> run_states x !! "run_id0") = Some "completed".
Proof. vm_compute. split_and!; reflexivity. Qed.

(** A job of the worker for a run that is cancelled in the store and flagged, but
    not cached, runs it from its start. *)
Example uncached_job_ignores_cancellation :
  let lost := mkApp (db ApiDemo.cancelled) ∅ ({["run_id0"]} : gset string) ∅ [] in
  let job := Api.mkJob "run_id0" "acme" "Investigate the elevated checkout errors" [("service", VStr "checkout")]
               default_limits None None in
  match (Api.run_repository_job ApiDemo.hook ApiDemo.tick job lost).2 with
  | Ok (Ok s, calls) => Some (status s, bool_decide (calls = []))
  | _ => None
  end = Some ("waiting_for_approval", false).
Proof. vm_compute. reflexivity. Qed.
