(* ===== verification/ApiExact.v ===== *)
(** * What a decision brings about

    An approved action of a paused run is executed: the decision reaches the
    cached run through the stored row, and the resumed graph makes the call,
    unless the run does not end completed. *)

From stdpp Require Import base gmap sets list strings.
From Stdlib Require Import ZArith Lia Ascii.
From S2P Require Import Prelude.
From S2P Require Import PyFloat.
From S2P Require Import PyValue.
From S2P Require Import PyTime.
From S2P Require Import Contracts.
From S2P Require Import ContractsOps.
From S2P Require Import Security.
From S2P Require Import Tables.
From S2P Require Import Repository.
From S2P Require Import RepositorySpecs.
From S2P Require Import RepositoryStore.
From S2P Require Import RepositoryProps.
From S2P Require Import RepositoryEvents.
From S2P Require Import RepositoryClients.
From S2P Require Import MemoryEngine.
From S2P Require Import RunState.
From S2P Require Import GraphTools.
From S2P Require Import Graph.
From S2P Require Import GraphSteps.
From S2P Require Import GraphLemmas.
From S2P Require Import GraphGate.
From S2P Require Import GraphExact.
From S2P Require Import ApiStore.
From S2P Require Import Api.
From S2P Require Import ApiLemmas.
From S2P Require Import ApiProps.
Import GraphTools Graph Steps Clients ApiStore.

Local Open Scope py_scope.

Section Reading.
Context {W : Type} `{EngineLaws W}.

Lemma map_result_total {A B} (f : A -> result B) l :
  Forall (fun a => is_ok (f a) = true) l -> exists ys, map_result f l = Ok ys.
Proof.
  induction 1 as [|a l Ha _ [ys IH]]; [by exists []|]. simpl. unfold rbind. rewrite IH.
  destruct (f a) as [b|]; [|done]. by exists (b :: ys).
Qed.

(** The rows of a run, as [list_approvals] shows them *)
Definition shown_rows (run : string) (t : Tables) : list ApprovalRow.t :=
  order_by ApprovalRow.requested_at
    (List.filter (fun a => String.eqb (ApprovalRow.run_id a) run) (Tables.approvals t)).
Lemma shown_row run t row :
  row ∈ shown_rows run t <-> row ∈ Tables.approvals t /\ ApprovalRow.run_id row = run.
Proof.
  unfold shown_rows. rewrite order_by_perm, list_elem_of_In, filter_In, <- list_elem_of_In. by rewrite String.eqb_eq.
Qed.

Lemma list_approvals_total run T w :
  Repository.owned run T (committed w) = true -> Forall readable (Tables.approvals (committed w)) ->
  exists w' rows, Repository.list_approvals run T w = (w', Ok rows) /\ committed w' = committed w
    /\ map_result Repository.row_to_approval (shown_rows run (committed w)) = Ok rows.
Proof.
  intros Ho Hread.
  destruct (map_result_total Repository.row_to_approval (shown_rows run (committed w))) as [rows Hrows].
  { apply Forall_forall. intros row [Hin _]%shown_row.
    by apply (proj1 (Forall_forall _ _) Hread row Hin). }
  destruct (session_reads (Repository.check_run run T ;;*
    let* found := Tables.rows (fun t => shown_rows run t) in
    lift_result (map_result Repository.row_to_approval found)) (fun a => a = Ok rows) w)
    as (w' & r' & E & -> & Hc).
  { intros w1 Hp. exists (Ok rows). split; [|done].
    unfold Repository.check_run, bind, Tables.rows, gets. rewrite Hp, Ho. simpl. by rewrite Hp, Hrows. }
  exists w', rows. by split_and!.
Qed.

(** ** The decision reaches the run *)

Lemma sync_approved t run id rows row ap :
  constraints t -> Forall readable (Tables.approvals t) ->
  map_result Repository.row_to_approval (shown_rows run t) = Ok rows ->
  row ∈ Tables.approvals t -> ApprovalRow.run_id row = run -> ApprovalRow.approval_id row = id ->
  ApprovalRow.decision row = "approved" -> dget "approval_id" ap = Some (VStr id) ->
  is_approved (Api.sync_approval rows ap) = true
  /\ dget "action_id" (Api.sync_approval rows ap) = dget "action_id" ap.
Proof.
  intros Hc Hread Hrows Hin Hrun Hid Hd Hap. apply map_result_forall2 in Hrows.
  assert (forall r, r ∈ Tables.approvals t -> Field.trim (ApprovalRow.approval_id r) = ApprovalRow.approval_id r)
    as Htrim by (intros r Hr; by apply (proj1 (Forall_forall _ _) Hread r Hr)).
  unfold Api.sync_approval, get_or. rewrite Hap. simpl.
  destruct (find _ (reverse rows)) as [a|] eqn:Ef.
  - apply find_some in Ef as [Ha Heq%String.eqb_eq].
    rewrite <- list_elem_of_In, elem_of_reverse in Ha.
    destruct (Forall2_elem_of_r _ _ _ _ Hrows Ha) as (row' & [Hin' _]%shown_row & [Hid' Hv]%row_of_approval).
    assert (row' = row) as ->.
    { eapply (nodup_key ApprovalRow.approval_id); [apply Hc|done|done|]. rewrite <- (Htrim row') by done. congruence. }
    unfold is_approved. rewrite !dget_dset_ne, dget_dset_eq by done. split; [simpl; by rewrite Hv, Hd|].
    by rewrite !dget_dset_ne by done.
  - exfalso. assert (row ∈ shown_rows run t) as Hs by by apply shown_row.
    destruct (Forall2_elem_of_l _ _ _ _ Hrows Hs) as (a & Ha & [Hid' _]%row_of_approval).
    assert (In a (reverse rows)) as Ha' by by rewrite <- list_elem_of_In, elem_of_reverse.
    apply (find_none _ _ Ef) in Ha'. rewrite Hid', Htrim, Hid, String.eqb_refl in Ha' by done. done.
Qed.
End Reading.

Section Decision.
Context {W : Type} `{EngineLaws W} (redact : dict -> dict) (T : string) (HT : Field.trim T = T)
  (read_monotonic : M W float) (Hmono : observes read_monotonic).
Implicit Types (x : App W) (s : RunState).
#[local] Instance any_license : License := ApiProps.unlicensed.

Abbreviation aside := (aside redact T).
Ltac aside_walk := unfold Api.or_404, Api.best_effort, Api.require;
  steps_walk ltac:(apply aside_db; solve [eauto 2 with steps]).
Lemma wp_aside_with {A} (m : M (App W) A) Q Q0 E0 x :
  steps aside m -> wp m Q0 E0 x -> (forall a x', aside x x' -> Q0 a x' -> Q a x') -> wp m Q (fun _ _ => True) x.
Proof. intros Hm H0' HQ. specialize (Hm x). unfold wp in *. destruct (m x) as [x' [a|e]]; [by apply HQ|done]. Qed.

(** Before it resumes the run, an approving decision has stored the approval. *)
Definition approved_in (run id : string) (t : Tables) : Prop :=
  Repository.owned run T t = true
  /\ exists row, row ∈ Tables.approvals t /\ ApprovalRow.run_id row = run /\ ApprovalRow.approval_id row = id
       /\ ApprovalRow.decision row = "approved".
Lemma approved_in_later run id x x' :
  aside x x' -> constraints (committed (db x)) ->
  approved_in run id (committed (db x)) -> approved_in run id (committed (db x')).
Proof.
  intros [[Hf _] _] Hc [Ho (row & Hin & Hr & Hi & Hd)]. split.
  - destruct (Hf Hc) as [Hch _]. clear -Hch Ho. induction Hch as [|t1 t2 t3 H12 _ IH]; [done|].
    apply IH. by eapply ext_owned, Ho; eapply change_extends.
  - exists row. split_and!; [|done..]. eapply for_tenant_decided; [done|done|done|by rewrite Hd].
Qed.

Lemma get_run_owns run x :
  wp (Api.or_404 (on_db (Repository.get_run run T)))
    (fun _ x' => Repository.owned run T (committed (db x')) = true) (fun _ _ => True) x.
Proof.
  unfold Api.or_404. rewrite wp_try. apply wp_app_db. eapply wp_mono; [apply get_run_wp| |].
  - intros r w' (Hc & Hr & Ht). simpl. apply owned_row. exists r. by rewrite Hc.
  - intros e w' _. by case_match.
Qed.
Lemma record_approves run id body x :
  Api.DecideRequest.decision body = "approved" -> stored_ok x -> Repository.owned run T (committed (db x)) = true ->
  wp (Api.record_decision id T body)
    (fun a x' => Approval.run_id a = run -> approved_in run id (committed (db x'))) (fun _ _ => True) x.
Proof.
  intros Hd [Hc Hrows] Ho. unfold Api.record_decision. rewrite wp_try, Hd. apply wp_app_db.
  eapply wp_mono; [apply decide_approval_wp| |].
  - simpl. intros a w' (_ & _ & row & at_ & Hrow & _ & _ & _ & Ha & ->) Hrun. split; [done|].
    pose proof Hrow as [Hin Hid%String.eqb_eq]%first_some.
    destruct (update_first_split _ (Repository.decide "approved" (Api.DecideRequest.approver body)
      (Api.DecideRequest.reason body) at_) _ _ Hrow) as (l1 & l2 & _ & E & _).
    eexists. simpl. rewrite E. split; [apply elem_of_app; right; apply elem_of_cons; by left|].
    split_and!; [|by destruct row..].
    destruct (proj1 (Forall_forall _ _) Hrows row Hin) as [(_ & Htrim & _) _].
    rewrite <- Hrun. revert Ha. unfold Repository.row_to_approval, Repository.enum, rbind.
    case_match; [|done]. intros (-> & _)%validate_ok. destruct row; simpl in *. by rewrite Htrim.
  - intros e w' _. simpl. repeat case_match; done.
Qed.

Lemma decide_records run id body ident key x :
  Identity.tenant_id ident = T -> Api.DecideRequest.decision body = "approved" -> sound x ->
  (forall k, Api.check_decide body key = Ok k -> Api.replayed run (decide_cache x !! (id, k)) = None) ->
  wp (Api.decide redact read_monotonic run id body ident key)
    (fun r x' => exists y, sound y /\ run_states y = run_states x /\ approved_in run id (committed (db y))
       /\ Api.maybe_resume redact read_monotonic run T "approved" y = (x', Ok r.2))
    (fun _ _ => True) x.
Proof.
  intros E Hd Hx Hfresh. unfold Api.decide, Api.require. rewrite E, wp_bind, wp_lift. cbv zeta.
  destruct (Authz.require_scopes ident ["case.approve"]) as [[]|]; [|done]. rewrite wp_bind, wp_lift.
  destruct (Api.check_decide body key) as [k|] eqn:Ek; [|done]. rewrite wp_bind, wp_gets.
  unfold Api.decision_key. rewrite (Hfresh k eq_refl), wp_bind.
  eapply wp_aside_with; [aside_walk|apply get_run_owns|]. intros r1 x1 H1 Ho. simpl in Ho. rewrite wp_bind.
  assert (sound x1) as Hx1 by by apply H1.
  pose proof (any_grant T id body) as Hgrant. unfold grants in Hgrant.
  eapply wp_aside_with; [unfold Api.record_decision; aside_walk|by eapply record_approves; [|apply Hx1|]|].
  intros a x2 H2 Ha. simpl in Ha. rewrite wp_bind.
  destruct (String.eqb_spec (Approval.run_id a) run) as [Hrun|]; [rewrite wp_ret|by rewrite wp_raise].
  specialize (Ha Hrun). assert (sound x2) as Hx2 by by apply H2.
  rewrite wp_bind. eapply wp_aside_with; [aside_walk|by apply (wp_any _ (fun _ _ => True) (fun _ _ => True))|]. intros r3 x3 H3 _.
  rewrite wp_bind, wp_modify, wp_bind. set (x4 := mkApp _ _ _ _ _).
  destruct (resume_spec redact T HT read_monotonic Hmono run (Api.DecideRequest.decision body) x4)
    as (x' & calls & Er & _).
  unfold wp. rewrite Er. simpl. exists x4. rewrite Hd in Er. split_and!; [by apply H3| | |done].
  - simpl. destruct H1 as [_ ->%eq_sym], H2 as [_ ->%eq_sym], H3 as [_ ->%eq_sym]. done.
  - eapply (approved_in_later _ _ x2 x3); [done|apply Hx2|done].
Qed.

(** The resumed run calls what the synced approvals allow, if it ends completed. *)
Lemma resume_allows run id y x' calls s :
  sound y -> approved_in run id (committed (db y)) -> run_states y !! run = Some s ->
  current_state s = "approval_pause" ->
  Api.maybe_resume redact read_monotonic run T "approved" y = (x', Ok calls) ->
  exists rows, map_result Repository.row_to_approval (shown_rows run (committed (db y))) = Ok rows
    /\ forall s', run_states x' !! run = Some s' -> status s' = "completed" ->
         allows (set_status "running" (set_current_state "execute_approved"
                   (set_approvals (map (Api.sync_approval rows) (approvals s)) s))) (write_calls calls).
Proof.
  intros [[_ Hrows] _] [Ho _] Hs Hcur.
  destruct (list_approvals_total run T (db y) Ho) as (w & rows & El & _ & Hm).
  { eapply Forall_impl; [exact Hrows|]. by intros row [? _]. }
  unfold Api.maybe_resume. rewrite bind_gets, Hs. unfold bind at 1, Api.synced, try_catch, bind at 1, on_db.
  rewrite El. simpl. rewrite Hcur. simpl. set (s2 := set_status "running" _). unfold bind, Api.run_graph.
  set (g := mkG s2 _ _ _). intros E. exists rows. split; [done|]. revert E.
  destruct (run_executes_all (Deps0 := ApiStore.deps redact run T read_monotonic) 13 g) as (ext & Et & Hx); [done..|].
  change Steps.run_fuel with 14. destruct (Steps.run (Deps0 := _) 14 g) as [g' r]. cbn [fst snd] in *. intros [= <- <-] s'. simpl.
  rewrite lookup_insert_eq. intros [= <-] Hdone. rewrite Et. by apply Hx.
Qed.

Lemma allowed_call s calls aid ap action tv args :
  allows s calls -> ap ∈ approvals s -> is_approved ap = true -> dget "action_id" ap = Some (VStr aid) ->
  action ∈ proposed_actions s -> str_item "action_id" action = Ok aid -> dict_item "tool_name" action = Ok tv ->
  action_input action = Ok args -> is_read (py_str tv) = false -> (py_str tv, args) ∈ calls.
Proof.
  intros [Hok ->] Hap Happ Hid Hact Haid Htv Hargs Hread.
  unfold approved_calls. unfold approved_ids in *. destruct (map_result _ _) as [ids|] eqn:Ei; [|done].
  apply map_result_forall2 in Ei. assert (existsb (String.eqb aid) ids = true) as Hex.
  { destruct (Forall2_elem_of_l _ _ _ ap Ei) as (id & Hin & Hitem); [by apply list_elem_of_filter|].
    unfold str_item, dict_item, rbind in Hitem. rewrite Hid in Hitem. injection Hitem as <-.
    apply existsb_exists. exists aid. by rewrite <- list_elem_of_In, String.eqb_refl. }
  apply list_elem_of_In, filter_In. simpl. rewrite Hread. split; [|done].
  apply in_flat_map. exists action. split; [by apply list_elem_of_In|].
  unfold action_call. rewrite Haid, Htv, Hargs, Hex. by left.
Qed.
End Decision.

(** C4. An approved action is executed: in every process that requests lead to, a
    decision that approves and that replays nothing makes the call of the
    action, when the run is cached at its pause with the action among its
    proposals and the approval among its approvals, and ends completed; a run
    that is not completed is failed, cancelled or waits. *)
Theorem approved_action_is_executed {W} `{EngineLaws W} redact read_monotonic run id body ident key d calls
    (x x' : App W) s s' ap action aid tv args :
  observes read_monotonic -> history redact read_monotonic x ->
  Field.trim (Identity.tenant_id ident) = Identity.tenant_id ident ->
  Api.DecideRequest.decision body = "approved" ->
  (forall k, Api.check_decide body key = Ok k -> Api.replayed run (decide_cache x !! (id, k)) = None) ->
  run_states x !! run = Some s -> current_state s = "approval_pause" ->
  ap ∈ approvals s -> dget "approval_id" ap = Some (VStr id) -> dget "action_id" ap = Some (VStr aid) ->
  action ∈ proposed_actions s -> str_item "action_id" action = Ok aid -> dict_item "tool_name" action = Ok tv ->
  action_input action = Ok args -> is_read (py_str tv) = false ->
  Api.decide redact read_monotonic run id body ident key x = (x', Ok (d, calls)) ->
  run_states x' !! run = Some s' -> status s' = "completed" ->
  (py_str tv, args) ∈ write_calls calls.
Proof.
  intros Hmono Hh HT Hd Hfresh Hs Hcur Hap Hapid Haid Hact Hitem Htv Hargs Hread E Hs' Hdone.
  pose proof (history_sound _ _ Hmono x Hh) as Hx.
  pose proof (decide_records redact _ HT read_monotonic Hmono run id body ident key x eq_refl Hd Hx Hfresh) as Hw.
  unfold wp in Hw. rewrite E in Hw. destruct Hw as (y & Hy & Ey & Hin & Er). rewrite <- Ey in Hs.
  destruct (resume_allows redact _ read_monotonic run id y x' calls s Hy Hin Hs Hcur Er) as (rows & Hm & Hall).
  specialize (Hall s' Hs' Hdone). destruct Hin as [_ (row & Hrow & Hrun & Hid & Happ)].
  destruct Hy as [[Hc Hr] _]. assert (Forall readable (Tables.approvals (committed (db y)))) as Hreadable.
  { eapply Forall_impl; [exact Hr|]. by intros r [? _]. }
  destruct (sync_approved _ run id rows row ap Hc Hreadable Hm Hrow Hrun Hid Happ Hapid) as [Hok Hsame].
  eapply (allowed_call _ _ aid (Api.sync_approval rows ap)); [exact Hall| |done|by rewrite Hsame|done..].
  apply list_elem_of_fmap. by exists ap.
Qed.

(** What the demonstration's run holds at its pause, and after the decision *)
Definition at_pause (s : RunState) : Prop :=
  current_state s = "approval_pause" /\
  match approvals s, proposed_actions s with
  | ap :: _, action :: _ =>
      dget "approval_id" ap = Some (VStr ApiDemo.approval_id)
      /\ dget "action_id" ap = Some (VStr "run_id0-ticket-create-44b770")
      /\ str_item "action_id" action = Ok "run_id0-ticket-create-44b770"
      /\ dict_item "tool_name" action = Ok (VStr "ticket.create")
      /\ action_input action = Ok [("title", VStr "Investigate checkout"); ("severity", VStr "high")]
  | _, _ => False
  end.
Lemma cached_holds (x : App Memory.db) run (P : RunState -> Prop) :
  match run_states x !! run with Some s => P s | None => False end ->
  exists s, run_states x !! run = Some s /\ P s.
Proof. destruct (run_states x !! run) as [s|]; [by exists s|done]. Qed.
Lemma demo_pause : exists s, run_states ApiDemo.paused !! "run_id0" = Some s /\ at_pause s.
Proof. apply cached_holds. vm_compute. repeat split. Qed.
Lemma demo_done : exists s, run_states ApiDemo.decided !! "run_id0" = Some s /\ status s = "completed".
Proof. apply cached_holds. vm_compute. reflexivity. Qed.
Lemma demo_decision :
  exists d calls, Api.decide ApiDemo.hook ApiDemo.tick "run_id0" ApiDemo.approval_id ApiDemo.approve ApiDemo.alice
    (Some "key-2") ApiDemo.paused = (ApiDemo.decided, Ok (d, calls)).
Proof.
  assert (forall x, is_ok (Api.decide ApiDemo.hook ApiDemo.tick "run_id0" ApiDemo.approval_id ApiDemo.approve
      ApiDemo.alice (Some "key-2") x).2 = true ->
    exists d calls, Api.decide ApiDemo.hook ApiDemo.tick "run_id0" ApiDemo.approval_id ApiDemo.approve ApiDemo.alice
      (Some "key-2") x = ((ApiDemo.decide_it x).1, Ok (d, calls))) as H.
  { intros x. unfold ApiDemo.decide_it, bind. destruct (Api.decide _ _ _ _ _ _ _ x) as [x' [[d calls]|e]]; [|done].
    by exists d, calls. }
  unfold ApiDemo.decided. apply H. vm_compute. reflexivity.
Qed.

Lemma approved_action_is_executed_witness :
  exists d calls, Api.decide ApiDemo.hook ApiDemo.tick "run_id0" ApiDemo.approval_id ApiDemo.approve ApiDemo.alice
      (Some "key-2") ApiDemo.paused = (ApiDemo.decided, Ok (d, calls))
    /\ ("ticket.create", [("title", VStr "Investigate checkout"); ("severity", VStr "high")]) ∈ write_calls calls.
Proof.
  destruct demo_decision as (d & calls & E), demo_pause as (s & Hs & Hcur & Hp), demo_done as (s' & Hs' & Hdone).
  exists d, calls. split; [exact E|].
  destruct (approvals s) as [|ap aps] eqn:Ea; [destruct Hp|].
  destruct (proposed_actions s) as [|action acts] eqn:Ep; [destruct Hp|].
  destruct Hp as (Hid & Haid & Hitem & Htv & Hargs).
  refine (approved_action_is_executed ApiDemo.hook ApiDemo.tick "run_id0" ApiDemo.approval_id ApiDemo.approve
    ApiDemo.alice (Some "key-2") d calls ApiDemo.paused ApiDemo.decided s s' ap action _ (VStr "ticket.create") _
    demo_tick demo_paused eq_refl eq_refl _ Hs Hcur _ Hid Haid _ Hitem Htv Hargs eq_refl E Hs' Hdone).
  - intros k [= <-]. vm_compute. reflexivity.
  - rewrite Ea. left.
  - rewrite Ep. left.
Defined.
