(* ===== verification/Telemetry.v ===== *)
(** * Telemetry: conventions and metrics

    [packages/telemetry/conventions.py]: attribute names, redaction, the tenant
    hash, the gate for content and the GenAI attributes; and
    [packages/telemetry/metrics.py]: the in-process counters and histograms,
    and the instruments of the metrics SDK.  The SDK is outside the repository:
    its operations are those of a class over an abstract world, and may raise. *)

From stdpp Require Import base list strings pretty.
From Stdlib Require Import ZArith Lia Ascii SpecFloat.
From S2P Require Import Prelude.
From S2P Require Import PyFloat.
From S2P Require Import PyValue.
From S2P Require Import Regex.
From S2P Require Import Sha256.
From S2P Require Import Redaction.

Local Open Scope py_scope.

Module Conventions.
Import Regex.

Definition RUN_ID : string := "workbench.run_id".
Definition TENANT_HASH : string := "workbench.tenant_hash".
Definition TOOL_NAME : string := "workbench.tool.name".
Definition TOOL_VERSION : string := "workbench.tool.version".
Definition TOOL_SIDE_EFFECT : string := "workbench.tool.side_effect".
Definition TOOL_DRY_RUN : string := "workbench.tool.dry_run".
Definition AGENT_NAME : string := "workbench.agent.name".
Definition TASK_ID : string := "workbench.task.id".
Definition SKILL_ID : string := "workbench.task.skill_id".
Definition POLICY_DECISION : string := "workbench.policy.decision".
Definition POLICY_REASON : string := "workbench.policy.reason".
Definition BUDGET_CONSUMED : string := "workbench.budget.consumed_cost_usd".
Definition BUDGET_LIMIT : string := "workbench.budget.max_cost_usd".
Definition APPROVAL_ID : string := "workbench.approval.id".
Definition APPROVAL_DECISION : string := "workbench.approval.decision".
Definition APPROVAL_WAIT_S : string := "workbench.approval.wait_s".
Definition RUN_STATUS : string := "workbench.run.status".
Definition RUN_OUTCOME : string := "workbench.run.outcome".
Definition ERROR_CODE : string := "workbench.error.code".

(** ** Redaction *)

Definition SECRET_HINTS : list string :=
  ["secret"; "token"; "password"; "passwd"; "api_key"; "apikey"; "client_secret"; "bearer";
   "authorization"; "cookie"; "set-cookie"; "private_key"; "ssn"; "social_security"; "credit_card";
   "creditcard"; "card_number"; "cc_number"; "email"; "phone"].

(** [name\s*=\s*\S+], ignoring case *)
Definition assignment (name : string) : re :=
  seqs [ilit name; RStar space; lit "="; RStar space; plus nonspace].
Definition SECRET_VALUE_RE : re :=
  alts [ seqs [ilit "bearer"; plus space;
               plus (RClass (fun c => Redact.alnum c || Redact.one_of "._-~+/=" c))];
         assignment "api_key"; assignment "client_secret"; assignment "password" ].
(** The patterns for personal data are those of the gateway's redaction. *)
Definition SSN_RE : re := McpRedact.SSN_RE.
Definition CC_RE : re := McpRedact.CC_RE.
Definition EMAIL_RE : re := McpRedact.EMAIL_RE.
Definition PHONE_RE : re := McpRedact.PHONE_RE.
Definition PII_RE : re := alts [SSN_RE; CC_RE; EMAIL_RE; PHONE_RE].

Definition REDACTED : string := "[redacted]".

Definition is_secret_key (key : string) : bool :=
  let kl := PyStr.lower key in existsb (fun h => PyStr.contains h kl) SECRET_HINTS.

Definition redact_value (key : string) (value : pyval) : pyval :=
  if is_secret_key key then VStr REDACTED
  else match value with
       | VStr s => if search SECRET_VALUE_RE s then VStr (sub SECRET_VALUE_RE REDACTED s) else value
       | _ => value
       end.

(** [redact_mapping], on the dicts; an element of a list that is itself a list
    is not looked into. *)
Fixpoint redact_mapping (v : pyval) : pyval :=
  match v with
  | VDict d =>
      VDict (map (fun kv => (kv.1,
        if is_secret_key kv.1 then VStr REDACTED
        else match kv.2 with
             | VDict _ => redact_mapping kv.2
             | VList l => VList (map (fun i => match i with
                                               | VDict _ => redact_mapping i
                                               | _ => redact_value kv.1 i
                                               end) l)
             | _ => redact_value kv.1 kv.2
             end)) d)
  | _ => v
  end.
Definition redact_dict (d : dict) : dict :=
  match redact_mapping (VDict d) with VDict d' => d' | _ => [] end.

Definition scrub_message (msg : string) : string :=
  let out := sub SECRET_VALUE_RE REDACTED msg in
  let out := sub SSN_RE REDACTED out in
  let out := sub CC_RE REDACTED out in
  let out := sub EMAIL_RE REDACTED out in
  let out := sub PHONE_RE REDACTED out in
  PyStr.slice 2000 out.

(** [None] and the empty tenant have no hash. *)
Definition hash_tenant (tenant_id : option string) : option string :=
  match tenant_id with
  | Some t => if String.eqb t "" then None
              else Some ("sha256:" +:+ PyStr.slice 16 (Sha256.hexdigest t))
  | None => None
  end.

(** ** Content capture *)

Definition content_capture_enabled (getenv : string -> option string) : bool :=
  String.eqb (PyStr.lower (PyStr.strip (default "" (getenv "OTEL_CONTENT_CAPTURE")))) "dev-only".
Definition maybe_content (getenv : string -> option string) (text : option string) : option string :=
  match text with
  | Some t => if String.eqb t "" then None
              else if negb (content_capture_enabled getenv) then None
              else Some (PyStr.slice 2000 (scrub_message t))
  | None => None
  end.

(** ** GenAI attributes *)

(** [if v: attrs[k] = v] and [if v is not None: attrs[k] = v] *)
Definition when_text (k : string) (v : option string) : dict :=
  match v with Some s => if String.eqb s "" then [] else [(k, VStr s)] | None => [] end.
Definition when_some {A} (k : string) (f : A -> pyval) (v : option A) : dict :=
  match v with Some x => [(k, f x)] | None => [] end.
Definition genai_attrs (operation provider model tool_name : option string)
    (input_tokens output_tokens : option Z) (cost_usd : option float) : dict :=
  when_text "gen_ai.operation.name" operation ++ when_text "gen_ai.provider.name" provider
  ++ when_text "gen_ai.request.model" model ++ when_text "gen_ai.response.model" model
  ++ when_text "gen_ai.tool.name" tool_name
  ++ when_some "gen_ai.usage.input_tokens" VInt input_tokens
  ++ when_some "gen_ai.usage.output_tokens" VInt output_tokens
  ++ when_some "workbench.gen_ai.cost_usd" VFloat cost_usd.
End Conventions.

(** ** Metrics *)

(** A Python number, [int] or [float]. *)
Inductive num : Type :=
  | Int (z : Z)
  | Float (f : float).
Definition num_value (n : num) : pyval := match n with Int z => VInt z | Float f => VFloat f end.

(** The metrics SDK; [metrics_available] says whether it could be imported. *)
Class MetricsSdk (W : Type) := {
  Meter : Type; Instrument : Type; Reader : Type;
  metrics_available : bool;
  otlp_reader : string -> M W Reader;
  console_reader : M W Reader;
  set_provider : string -> list Reader -> M W unit;
  get_meter : string -> M W Meter;
  create_counter : Meter -> string -> string -> M W Instrument;
  create_histogram : Meter -> string -> string -> string -> M W Instrument;
  instrument_add : Instrument -> num -> list (string * string) -> M W unit;
  instrument_record : Instrument -> num -> list (string * string) -> M W unit;
}.

Module Metrics.

Section Metrics.
Context {W : Type} `{MetricsSdk W}.

(** The module's globals. *)
Record State := mkState {
  local_counts : list (string * float);
  local_hist_values : list (string * list num);
  instruments : list (string * Instrument);
  meter : option Meter;
  initialized : bool;
  sdk : W }.
Abbreviation MM := (M State).

Definition on_sdk {A} (m : M W A) : MM A := fun s =>
  let '(w, r) := m (sdk s) in
  (mkState (local_counts s) (local_hist_values s) (instruments s) (meter s) (initialized s) w, r).
Definition set_counts (f : list (string * float) -> list (string * float)) : MM unit :=
  modify (fun s => mkState (f (local_counts s)) (local_hist_values s) (instruments s) (meter s)
                     (initialized s) (sdk s)).
Definition set_hists (f : list (string * list num) -> list (string * list num)) : MM unit :=
  modify (fun s => mkState (local_counts s) (f (local_hist_values s)) (instruments s) (meter s)
                     (initialized s) (sdk s)).
Definition set_instrument (name : string) (i : Instrument) : MM unit :=
  modify (fun s => mkState (local_counts s) (local_hist_values s) (dset name i (instruments s))
                     (meter s) (initialized s) (sdk s)).
Definition set_meter (m : option Meter) (init : bool) : MM unit :=
  modify (fun s => mkState (local_counts s) (local_hist_values s) (instruments s) m init (sdk s)).
(** [with suppress(Exception)] *)
Definition suppress (m : MM unit) : MM unit := try_catch m (fun _ => ret tt).
(** [try: return m except Exception: return None] *)
Definition attempt {A} (m : MM A) : MM (option A) :=
  try_catch (let* a := m in ret (Some a)) (fun _ => ret None).

Definition truthy_env (getenv : string -> option string) (name : string) : bool :=
  existsb (String.eqb (PyStr.lower (default "" (getenv name)))) ["1"; "true"].

Definition init_metrics (getenv : string -> option string) (service_name : string) (console : bool)
    : MM (option Meter) :=
  if negb metrics_available then ret None
  else
    let* s := gets id in
    match initialized s, meter s with
    | true, Some m => ret (Some m)
    | _, _ =>
        let endpoint := default "" (getenv "OTEL_EXPORTER_OTLP_ENDPOINT") in
        let* otlp := (if String.eqb endpoint "" then ret None else attempt (on_sdk (otlp_reader endpoint))) in
        let readers := match otlp with Some r => [r] | None => [] end in
        let* readers := (if console || truthy_env getenv "OTEL_METRICS_CONSOLE"
                         then let* r := on_sdk console_reader in ret (readers ++ [r])
                         else ret readers) in
        (match readers with
         | [] => ret tt
         | _ => suppress (on_sdk (set_provider service_name readers))
         end) ;;*
        let* m := attempt (on_sdk (get_meter service_name)) in
        set_meter m true ;;* ret m
    end.

(** [_counter] and [_histogram]: one table for both *)
Definition instrument (name : string) (create : Meter -> M W Instrument) : MM (option Instrument) :=
  let* s := gets id in
  match meter s with
  | None => ret None
  | Some m =>
      if negb metrics_available then ret None
      else match dget name (instruments s) with
           | Some i => ret (Some i)
           | None =>
               let* made := attempt (on_sdk (create m)) in
               match made with
               | None => ret None
               | Some i => set_instrument name i ;;* ret (Some i)
               end
           end
  end.

Definition counter_key (name : string) (attrs : list (string * string)) : string :=
  name +:+ "|" +:+ PyStr.join "," (map (fun kv => kv.1 +:+ "=" +:+ kv.2) (sorted_items attrs)).

(** [x + value] for a float [x] *)
Definition add_num (x : float) (value : num) : result float :=
  let? v := py_float (num_value value) in Ok (PyFloat.add x v).

Definition add_counter (name : string) (value : num) (attrs : list (string * string))
    (description : string) : MM unit :=
  let key := counter_key name attrs in
  let* s := gets id in
  let* total := lift_result (add_num (default (PyFloat.of_Z 0) (dget key (local_counts s))) value) in
  set_counts (dset key total) ;;*
  let* inst := instrument name (fun m => create_counter m name description) in
  match inst with
  | Some i => suppress (on_sdk (instrument_add i value attrs))
  | None => ret tt
  end.

Definition record_hist (name : string) (value : num) (attrs : list (string * string))
    (description unit : string) : MM Datatypes.unit :=
  set_hists (fun h => dset name (default [] (dget name h) ++ [value]) h) ;;*
  let* inst := instrument name (fun m => create_histogram m name description unit) in
  match inst with
  | Some i => suppress (on_sdk (instrument_record i value attrs))
  | None => ret tt
  end.

(** *** Recorders *)

Definition record_run_started (run_id : string) : MM unit :=
  add_counter "workbench.runs.started" (Int 1) [("status", "started")] "Runs started".
Definition record_run_finished (status : string) : MM unit :=
  add_counter "workbench.runs.finished" (Int 1) [("status", status)] "Runs finished by status".
Definition record_run_duration (duration_s : num) (status : string) : MM unit :=
  record_hist "workbench.run.duration" duration_s [("status", status)] "Run wall-clock duration" "s".
Definition record_model_call (model : string) (input_tokens output_tokens : Z) (cost_usd : num) : MM unit :=
  add_counter "workbench.model.calls" (Int 1) [("model", model)] "Model calls" ;;*
  add_counter "workbench.model.tokens" (Int (input_tokens + output_tokens)) [("model", model)]
    "Model tokens" ;;*
  add_counter "workbench.model.cost_usd" cost_usd [("model", model)] "Model cost USD".
Definition record_tool_call (tool_name status : string) (latency_s : num) : MM unit :=
  add_counter "workbench.tool.calls" (Int 1) [("tool", tool_name); ("status", status)] "Tool calls" ;;*
  record_hist "workbench.tool.latency" latency_s [("tool", tool_name); ("status", status)]
    "Tool latency" "s".
Definition record_a2a_call (agent_name status : string) (latency_s : num) : MM unit :=
  add_counter "workbench.a2a.calls" (Int 1) [("agent", agent_name); ("status", status)] "A2A calls" ;;*
  record_hist "workbench.a2a.latency" latency_s [("agent", agent_name)] "A2A latency" "s".
Definition record_policy_decision (decision : string) : MM unit :=
  add_counter "workbench.policy.decisions" (Int 1) [("decision", decision)] "Policy decisions".
Definition record_approval_wait (wait_s : num) (decision : string) : MM unit :=
  record_hist "workbench.approval.wait" wait_s [("decision", decision)] "Approval wait time" "s".
Definition record_sse_reconnect (run_id : string) : MM unit :=
  add_counter "workbench.sse.reconnects" (Int 1) [] "SSE reconnects".
Definition record_budget_exhausted (budget : string) : MM unit :=
  add_counter "workbench.budget.exhausted" (Int 1) [("budget", budget)] "Budget exhaustion".

(** [snapshot] *)
Definition snapshot : MM (list (string * float) * list (string * list num)) :=
  gets (fun s => (local_counts s, local_hist_values s)).
Definition reset_for_tests : MM unit :=
  modify (fun s => mkState [] [] (instruments s) (meter s) (initialized s) (sdk s)).
End Metrics.
Arguments State W {H}.
End Metrics.
