(* ===== verification/Tracing.v ===== *)
(** * Telemetry: spans

    [packages/telemetry/tracing.py].  A context manager is
    a combinator: it takes the body of its [with] block, which gets the span,
    and runs it between the entry and the exit.  The tracing SDK is outside the
    repository: its operations are those of a class over the world and may
    raise.  Exceptions here are those [except Exception] catches. *)

From stdpp Require Import base list strings pretty.
From Stdlib Require Import ZArith Lia Ascii SpecFloat.
From S2P Require Import Prelude.
From S2P Require Import PyFloat.
From S2P Require Import PyValue.
From S2P Require Import Telemetry.

Local Open Scope py_scope.

(** The tracing SDK.  A [Manager] is what [start_as_current_span] returns; its
    [exit] is told the exception of the body and does not swallow it. *)
Class TracingSdk (W : Type) := {
  Provider : Type; Tracer : Type; Manager : Type; Span : Type; Processor : Type; Exporter : Type;
  otel_available : bool;
  get_tracer_provider : M W Provider;
  trace_get_tracer : string -> M W Tracer;
  new_provider : string -> M W Provider;
  in_memory_exporter : M W Exporter;
  simple_processor : Exporter -> M W Processor;
  otlp_processor : string -> M W Processor;
  console_processor : M W Processor;
  add_span_processor : Provider -> Processor -> M W unit;
  set_tracer_provider : Provider -> M W unit;
  provider_get_tracer : Provider -> string -> M W Tracer;
  start_as_current_span : Tracer -> string -> dict -> bool -> M W Manager;
  enter : Manager -> M W Span;
  exit : Manager -> option exn -> M W unit;
  span_set_attribute : Span -> string -> pyval -> M W unit;
  span_set_status : Span -> option string -> M W unit;
  propagate_inject : list (string * string) -> M W (list (string * string));
  current_trace : M W (option Z);
}.

Module Tracing.
Import Conventions.

Section Tracing.
Context {W : Type} `{MetricsSdk W} `{TracingSdk W}.
(** [time.monotonic] *)
Variable monotonic : M W float.
Variable getenv : string -> option string.

(** The globals of [tracing.py], in front of those of [metrics.py]. *)
Record State := mkState {
  initialized_for : option string; tracer : option Tracer; metrics : Metrics.State W }.
Abbreviation TM := (M State).

Definition on_metrics {A} (m : M (Metrics.State W) A) : TM A := fun s =>
  let '(x, r) := m (metrics s) in (mkState (initialized_for s) (tracer s) x, r).
Definition on_world {A} (m : M W A) : TM A := on_metrics (Metrics.on_sdk m).
Definition set_tracer (t : option Tracer) : TM unit :=
  modify (fun s => mkState (initialized_for s) t (metrics s)).
Definition set_initialized (name : string) : TM unit :=
  modify (fun s => mkState (Some name) (tracer s) (metrics s)).
Definition suppress (m : TM unit) : TM unit := try_catch m (fun _ => ret tt).
Definition attempt {A} (m : TM A) : TM (option A) :=
  try_catch (let* a := m in ret (Some a)) (fun _ => ret None).

(** ** Set-up *)

Definition init_tracing (service_name : string) (otlp_endpoint : option string)
    (enable_console in_memory : bool) : TM (option (Provider * option Exporter)) :=
  if negb otel_available then ret None
  else
    let endpoint := match otlp_endpoint with
                    | Some e => if String.eqb e "" then default "" (getenv "OTEL_EXPORTER_OTLP_ENDPOINT") else e
                    | None => default "" (getenv "OTEL_EXPORTER_OTLP_ENDPOINT")
                    end in
    let* existing := on_world get_tracer_provider in
    let* s := gets id in
    if bool_decide (initialized_for s = Some service_name) && negb in_memory then
      let* t := on_world (trace_get_tracer service_name) in
      set_tracer (Some t) ;;* ret (Some (existing, None))
    else
      let* provider := on_world (new_provider service_name) in
      let attach p := (let* x := p in on_world (add_span_processor provider x)) in
      let* exporter :=
        (if in_memory then
           let* e := on_world in_memory_exporter in
           attach (on_world (simple_processor e)) ;;* ret (Some e)
         else if negb (String.eqb endpoint "") then
           try_catch (attach (on_world (otlp_processor endpoint)))
             (fun _ => attach (on_world console_processor)) ;;* ret None
         else if enable_console || Metrics.truthy_env getenv "OTEL_TRACES_CONSOLE" then
           attach (on_world console_processor) ;;* ret None
         else ret None) in
      suppress (on_world (set_tracer_provider provider)) ;;*
      set_initialized service_name ;;*
      let* t := try_catch (on_world (provider_get_tracer provider service_name))
                  (fun _ => on_world (trace_get_tracer service_name)) in
      set_tracer (Some t) ;;* ret (Some (provider, exporter)).

(** [None] is the no-op tracer. *)
Definition get_tracer (name : string) : TM (option Tracer) :=
  if negb otel_available then ret None
  else
    let* s := gets id in
    match tracer s with
    | Some t => ret (Some t)
    | None =>
        let* found := attempt (on_world (trace_get_tracer name)) in
        match found with
        | Some t => set_tracer (Some t) ;;* ret (Some t)
        | None => ret None
        end
    end.

(** ** Propagation *)

Definition inject_headers (carrier : list (string * string)) : TM (list (string * string)) :=
  if negb otel_available then ret carrier
  else try_catch (on_world (propagate_inject carrier)) (fun _ => ret carrier).

(** [format(z, "032x")] *)
Fixpoint hex_go (fuel : nat) (z : Z) (acc : string) : string :=
  match fuel with
  | O => acc
  | S f => if (z =? 0)%Z then acc
           else hex_go f (z / 16) (String (PyStr.hex_digit (Z.to_nat (z mod 16))) acc)
  end.
Definition format_032x (z : Z) : string :=
  let digits := hex_go (S (Z.to_nat (Z.log2 z))) z "" in
  PyStr.of_chars (repeat "0"%char (32 - String.length digits)) +:+ digits.
Definition current_trace_id : TM (option string) :=
  if negb otel_available then ret None
  else
    try_catch
      (let* z := on_world current_trace in
       ret (match z with Some z => if (z =? 0)%Z then None else Some (format_032x z) | None => None end))
      (fun _ => ret None).

(** ** The span helper *)

(** [None] is the no-op span. *)
Definition set_attribute (s : option Span) (k : string) (v : pyval) : TM unit :=
  match s with Some s => on_world (span_set_attribute s k v) | None => ret tt end.
Definition set_status (s : option Span) (status : option string) : TM unit :=
  match s with Some s => on_world (span_set_status s status) | None => ret tt end.

(** The attributes a span starts with. *)
Definition span_attrs (run_id tenant_id : option string) (attributes : dict) : dict :=
  let base := match run_id with
              | Some r => if String.eqb r "" then [] else [(RUN_ID, VStr r)]
              | None => []
              end in
  let base := match hash_tenant tenant_id with
              | Some h => dset TENANT_HASH (VStr h) base
              | None => base
              end in
  fold_left (fun d kv => dset kv.1 (if is_secret_key kv.1 then VStr REDACTED else kv.2) d) attributes base.

(** [with cm as s: body(s)] *)
Definition managed {A} (cm : Manager) (body : Span -> TM A) : TM A :=
  let* s := on_world (enter cm) in
  fun x => match body s x with
           | (x', Ok a) => (on_world (exit cm None) ;;* ret a) x'
           | (x', Exn e) => (on_world (exit cm (Some e)) ;;* raise e) x'
           end.

(** Only the creation of the manager is guarded. *)
Definition span {A} (name : string) (run_id tenant_id : option string) (attributes : dict) (server : bool)
    (body : option Span -> TM A) : TM A :=
  let* t := get_tracer "workbench" in
  let attrs := span_attrs run_id tenant_id attributes in
  match t with
  | None => body None
  | Some t =>
      let* cm := attempt (on_world (start_as_current_span t name attrs server)) in
      match cm with
      | None => body None
      | Some cm => managed cm (fun s => body (Some s))
      end
  end.

Definition status_ok (s : option Span) : TM unit := suppress (set_status s None).
Definition status_error (s : option Span) (message : string) : TM unit :=
  suppress (set_status s (Some (scrub_message message))).

(** ** Spans of the domain *)

Section Domain.
Context {A : Type}.
Implicit Types (body : option Span -> TM A).

Definition run_span (run_id : string) (tenant_id status : option string) body : TM A :=
  span ("run " +:+ run_id) (Some run_id) tenant_id (when_text RUN_STATUS status) false body.
Definition workflow_span (state : string) (run_id : option string) body : TM A :=
  span ("workflow." +:+ state) run_id None [("workbench.workflow.state", VStr state)] false body.
Definition agent_span (agent_name : string) (run_id : option string) body : TM A :=
  span ("agent " +:+ agent_name) run_id None [(AGENT_NAME, VStr agent_name)] false body.
Definition model_span (run_id model provider : option string) (operation : string)
    (input_tokens output_tokens : option Z) (cost_usd : option float) body : TM A :=
  span "model.call" run_id None
    (genai_attrs (Some operation) provider model None input_tokens output_tokens cost_usd) false body.

(** The measured body of a tool or task span: status, then latency. *)
Definition measured (latency : string) (started : float) (s : option Span) body : TM A :=
  try_finally
    (try_catch (let* a := body s in status_ok s ;;* ret a)
       (fun e => status_error s (exn_str e) ;;* raise e))
    (suppress (let* t := on_world monotonic in
               set_attribute s latency (VFloat (PyFloat.round (PyFloat.sub t started) 4)))).

Definition mcp_tool_span (tool_name : string) (run_id side_effect : option string)
    (dry_run : option bool) (version : option string) body : TM A :=
  let attrs := [(TOOL_NAME, VStr tool_name)] ++ when_text TOOL_SIDE_EFFECT side_effect
               ++ when_some TOOL_DRY_RUN VBool dry_run ++ when_text TOOL_VERSION version in
  let* started := on_world monotonic in
  span ("mcp " +:+ tool_name) run_id None attrs false
    (fun s => measured "workbench.tool.latency_s" started s body).
Definition a2a_span (task_id : string) (run_id agent_name skill_id : option string) body : TM A :=
  let attrs := [(TASK_ID, VStr task_id)] ++ when_text AGENT_NAME agent_name
               ++ when_text SKILL_ID skill_id in
  let* started := on_world monotonic in
  span ("a2a " +:+ task_id) run_id None attrs false
    (fun s => measured "workbench.a2a.latency_s" started s body).
Definition policy_span (run_id tool_name decision reason : option string) body : TM A :=
  span "policy.decision" run_id None
    (when_text TOOL_NAME tool_name ++ when_text POLICY_DECISION decision
     ++ match reason with
        | Some r => if String.eqb r "" then []
                    else [(POLICY_REASON, VStr (PyStr.slice 500 (scrub_message r)))]
        | None => []
        end) false body.
Definition approval_wait_span (approval_id : string) (run_id : option string) body : TM A :=
  span "approval.wait" run_id None [(APPROVAL_ID, VStr approval_id)] false body.
Definition db_span (op : string) (run_id table : option string) body : TM A :=
  span ("db " +:+ op) run_id None ([("db.operation", VStr op)] ++ when_text "db.sql.table" table) false body.
Definition http_server_span (route : string) (run_id method : option string) body : TM A :=
  span route run_id None ([("http.route", VStr route)] ++ when_text "http.request.method" method) true body.
End Domain.
End Tracing.
Arguments State W {H H0}.
End Tracing.
