(* ===== verification/Instrument.v ===== *)
(** * Telemetry: instrumentation

    [packages/telemetry/instrument.py], as combinators around the spans and the
    recorders.  The redacted copy that [instrument_mcp_tool] makes of its
    arguments is thrown away there and left out here. *)

From stdpp Require Import base list strings pretty.
From Stdlib Require Import ZArith Lia Ascii SpecFloat.
From S2P Require Import Prelude.
From S2P Require Import PyFloat.
From S2P Require Import PyValue.
From S2P Require Import Telemetry.
From S2P Require Import Tracing.

Local Open Scope py_scope.

Module Instrument.
Import Tracing.

Section Instrument.
Context {W : Type} `{MetricsSdk W} `{TracingSdk W}.
Variable monotonic : M W float.
Variable getenv : string -> option string.
Abbreviation TM := (M (Tracing.State W)).

(** [time.monotonic() - started] *)
Definition elapsed (started : float) : TM float :=
  let* t := on_world monotonic in ret (PyFloat.sub t started).

(** ** API *)

(** [_TraceMiddleware.dispatch]: the answer with the headers it sets;
    [fresh] is [uuid4().hex]. *)
Definition trace_dispatch {R} (path method : string) (x_request_id : option string) (fresh : string)
    (run_id : option string) (call_next : TM R) : TM (R * list (string * string)) :=
  let req_id := match x_request_id with
                | Some r => if String.eqb r "" then "req_" +:+ PyStr.slice 12 fresh else r
                | None => "req_" +:+ PyStr.slice 12 fresh
                end in
  let* resp := http_server_span path run_id (Some method) (fun _ => call_next) in
  let* tid := current_trace_id in
  ret (resp, [("X-Request-ID", req_id)]
             ++ match tid with
                | Some t => if String.eqb t "" then [] else [("X-Trace-ID", t)]
                | None => []
                end).

Section Body.
Context {A : Type}.

(** ** Orchestrator *)

Definition instrument_run (run_id : string) (tenant_id : option string) (body : TM A) : TM A :=
  let* started := on_world monotonic in
  on_metrics (Metrics.record_run_started run_id) ;;*
  run_span run_id tenant_id None (fun _ =>
    try_finally
      (try_catch (let* a := body in on_metrics (Metrics.record_run_finished "completed") ;;* ret a)
         (fun e => on_metrics (Metrics.record_run_finished "failed") ;;* raise e))
      (suppress (let* d := elapsed started in
                 on_metrics (Metrics.record_run_duration (Float d) "run")))).

Definition instrument_workflow_step (state : string) (run_id : option string) (body : TM A) : TM A :=
  workflow_span state run_id (fun _ => body).
(** [instrumented_step]: the state's attribute, or [unknown]. *)
Definition instrumented_step (run_id current : option string) (body : TM A) : TM A :=
  instrument_workflow_step (default "unknown" current) run_id body.

(** ** Model calls *)

Definition instrument_model_call (run_id model provider : option string) (operation : string)
    (body : option Span -> TM A) : TM A :=
  let* started := on_world monotonic in
  let* done := model_span run_id model provider operation None None None
                 (fun s => let* a := body s in ret (s, a)) in
  let* d := elapsed started in
  suppress (set_attribute done.1 "workbench.model.latency_s" (VFloat (PyFloat.round d 4))) ;;*
  ret done.2.

(** ** Tools *)

Definition instrument_mcp_tool (tool_name : string) (run_id side_effect version : option string)
    (body : TM A) : TM A :=
  let* started := on_world monotonic in
  mcp_tool_span monotonic tool_name run_id side_effect None version (fun _ => fun s =>
    let '(s1, r) := body s in
    let status := match r with Ok _ => "succeeded" | Exn _ => "failed" end in
    match suppress (let* d := elapsed started in
                    on_metrics (Metrics.record_tool_call tool_name status (Float d))) s1 with
    | (s2, _) => (s2, r)
    end).
(** [trace_mcp_invoke], whose two wrappers differ in awaiting only *)
Definition trace_mcp_invoke (tool_name : string) (run_id : option string) (fn : TM A) : TM A :=
  instrument_mcp_tool tool_name run_id None None fn.

(** ** Delegation *)

Definition is_timeout (e : exn) : bool := match e with TimeoutError _ => true | _ => false end.
Definition instrument_a2a_task (task_id : string) (run_id agent_name skill_id : option string)
    (body : TM A) : TM A :=
  let* _ := inject_headers [] in
  let* started := on_world monotonic in
  a2a_span monotonic task_id run_id agent_name skill_id (fun _ => fun s =>
    let '(s1, r) := body s in
    let status := match r with
                  | Ok _ => "completed"
                  | Exn e => if is_timeout e then "timeout" else "failed"
                  end in
    let agent := match agent_name with Some a => if String.eqb a "" then "unknown" else a | None => "unknown" end in
    match suppress (let* d := elapsed started in
                    on_metrics (Metrics.record_a2a_call agent status (Float d))) s1 with
    | (s2, _) => (s2, r)
    end).

(** ** Policy, approvals and the database *)

Definition instrument_policy_check (tool_name : string) (run_id : option string)
    (body : option Span -> TM A) : TM A :=
  policy_span run_id (Some tool_name) None None body.
Definition instrument_approval_wait (approval_id : string) (run_id : option string) (body : TM A) : TM A :=
  let* started := on_world monotonic in
  let* a := approval_wait_span approval_id run_id (fun _ => body) in
  suppress (let* d := elapsed started in on_metrics (Metrics.record_approval_wait (Float d) "")) ;;*
  ret a.
Definition instrument_db (op table : string) (run_id : option string) (body : TM A) : TM A :=
  db_span op run_id (Some table) (fun _ => body).
End Body.

Definition record_model_usage (model : string) (input_tokens output_tokens : Z) (cost_usd : num) : TM unit :=
  on_metrics (Metrics.record_model_call model input_tokens output_tokens cost_usd).
Definition record_policy_outcome (allowed requires_approval : bool) : TM unit :=
  on_metrics (Metrics.record_policy_decision
    (if negb allowed then "deny" else if requires_approval then "approval" else "allow")).
End Instrument.
End Instrument.
