(* ===== verification/InstrumentProps.v ===== *)
(** * Properties of telemetry

    Instrumented bodies behave as they would alone; the in-process counters are
    the sums of what was recorded; secrets under their keys are masked; and
    what the span helper makes of token counts. *)

From stdpp Require Import base sets list strings pretty.
From Stdlib Require Import ZArith Lia Ascii SpecFloat.
From S2P Require Import Prelude.
From S2P Require Import PyFloat.
From S2P Require Import PyValue.
From S2P Require Import Regex.
From S2P Require Import Telemetry.
From S2P Require Import Tracing.
From S2P Require Import Instrument.

Import Tracing Instrument.
Local Open Scope py_scope.

(** ** Transparency *)

Section Transparent.
Context {W B : Type} `{MetricsSdk W} `{TracingSdk W} (view : W -> B) (monotonic : M W float)
  (getenv : string -> option string).
Abbreviation TM := (M (Tracing.State W)).

(** The application's part of the world stays. *)
Definition calm {A} (m : M W A) : Prop := forall w, view (m w).1 = view w.

(** What is asked of the SDKs and the clock: no operation touches the
    application; entering and leaving a span and reading the clock do not
    raise.  Everything else may fail in any way. *)
Record well_behaved : Prop := {
  wb_monotonic : calm monotonic /\ forall w, is_ok (monotonic w).2 = true;
  wb_enter : forall cm, calm (enter cm) /\ forall w, is_ok (enter cm w).2 = true;
  wb_exit : forall cm e, calm (exit cm e) /\ forall w, is_ok (exit cm e w).2 = true;
  wb_tracer : forall name, calm (trace_get_tracer name);
  wb_start : forall t name attrs server, calm (start_as_current_span t name attrs server);
  wb_attribute : forall s k v, calm (span_set_attribute s k v);
  wb_status : forall s st, calm (span_set_status s st);
  wb_inject : forall c, calm (propagate_inject c);
  wb_current : calm current_trace;
  wb_counter : forall m name d, calm (create_counter m name d);
  wb_histogram : forall m name d u, calm (create_histogram m name d u);
  wb_add : forall i v a, calm (instrument_add i v a);
  wb_record : forall i v a, calm (instrument_record i v a) }.
Context (Hsdk : well_behaved).

Definition app (s : Tracing.State W) : B := view (Metrics.sdk (metrics s)).
Definition mapp (s : Metrics.State W) : B := view (Metrics.sdk s).

(** [m'] does to the application what [m] does, and ends as [m] does. *)
Definition like {A} (m' m : TM A) : Prop :=
  forall s s', app s = app s' -> app (m' s).1 = app (m s').1 /\ (m' s).2 = (m s').2.
(** Telemetry: it does not touch the application, and, in [safe], returns. *)
Definition silent {A} (m : TM A) : Prop := forall s, app (m s).1 = app s.
Definition safe {A} (m : TM A) : Prop := forall s, app (m s).1 = app s /\ is_ok (m s).2 = true.
Definition msilent {A} (m : M (Metrics.State W) A) : Prop := forall s, mapp (m s).1 = mapp s.
Definition msafe {A} (m : M (Metrics.State W) A) : Prop := forall s, mapp (m s).1 = mapp s /\ is_ok (m s).2 = true.

Lemma silent_bind {A C} (m : TM A) (f : A -> TM C) :
  silent m -> (forall a, silent (f a)) -> silent (let* a := m in f a).
Proof.
  intros Hm Hf s. unfold bind. specialize (Hm s). destruct (m s) as [s1 [a|e]]; simpl in *; [|done].
  by rewrite Hf.
Qed.
Lemma safe_bind {A C} (m : TM A) (f : A -> TM C) :
  safe m -> (forall a, safe (f a)) -> safe (let* a := m in f a).
Proof.
  intros Hm Hf s. unfold bind. destruct (Hm s) as [Ha Ho]. destruct (m s) as [s1 [a|e]]; simpl in *; [|done].
  destruct (Hf a s1) as [Hb Hc]. split; [congruence|done].
Qed.
Lemma safe_ret {A} (a : A) : safe (ret a).
Proof. done. Qed.
Lemma silent_safe {A} (m : TM A) : safe m -> silent m.
Proof. intros Hm s. apply Hm. Qed.
Lemma safe_catch {A} (m : TM A) h : silent m -> (forall e, safe (h e)) -> safe (try_catch m h).
Proof.
  intros Hm Hh s. unfold try_catch. specialize (Hm s). destruct (m s) as [s1 [a|e]]; [done|].
  destruct (Hh e s1). split; [simpl in *; congruence|done].
Qed.
Lemma safe_suppress (m : TM unit) : silent m -> safe (suppress m).
Proof. intros. by apply safe_catch. Qed.
Lemma safe_attempt {A} (m : TM A) : silent m -> safe (attempt m).
Proof.
  intros. apply safe_catch; [|done]. apply silent_bind; [done|]. by intros a s.
Qed.
Lemma silent_world {A} (m : M W A) : calm m -> silent (on_world m).
Proof.
  intros Hm s. unfold on_world, on_metrics, Metrics.on_sdk, app. specialize (Hm (Metrics.sdk (metrics s))).
  by destruct (m (Metrics.sdk (metrics s))).
Qed.
Lemma safe_world {A} (m : M W A) : calm m -> (forall w, is_ok (m w).2 = true) -> safe (on_world m).
Proof.
  intros Hm Ho s. split; [by apply silent_world|]. unfold on_world, on_metrics, Metrics.on_sdk.
  specialize (Ho (Metrics.sdk (metrics s))). by destruct (m (Metrics.sdk (metrics s))).
Qed.
Lemma safe_monotonic : safe (on_world monotonic).
Proof. apply safe_world; apply (wb_monotonic Hsdk). Qed.
Lemma safe_gets {A} (f : Tracing.State W -> A) : safe (gets f).
Proof. done. Qed.
Lemma safe_metrics {A} (m : M (Metrics.State W) A) : msafe m -> safe (on_metrics m).
Proof. intros Hm s. unfold on_metrics, app. destruct (Hm (metrics s)). by destruct (m (metrics s)). Qed.

(** *** The recorders *)

Lemma msafe_bind {A C} (m : M (Metrics.State W) A) (f : A -> M (Metrics.State W) C) :
  msafe m -> (forall a, msafe (f a)) -> msafe (let* a := m in f a).
Proof.
  intros Hm Hf s. unfold bind. destruct (Hm s) as [Ha Ho]. destruct (m s) as [s1 [a|e]]; simpl in *; [|done].
  destruct (Hf a s1) as [Hb Hc]. split; [congruence|done].
Qed.
Lemma msafe_suppress (m : M W unit) : calm m -> msafe (Metrics.suppress (Metrics.on_sdk m)).
Proof.
  intros Hm s. unfold Metrics.suppress, try_catch, Metrics.on_sdk, mapp. specialize (Hm (Metrics.sdk s)).
  by destruct (m (Metrics.sdk s)) as [w [[]|e]].
Qed.
Lemma msafe_instrument name create : (forall m, calm (create m)) -> msafe (Metrics.instrument name create).
Proof.
  intros Hc. apply msafe_bind; [done|]. intros s. destruct (Metrics.meter s) as [m|]; [|done].
  destruct (negb _); [done|]. destruct (dget name _); [done|]. apply msafe_bind.
  - intros s'. unfold Metrics.attempt, try_catch, bind, Metrics.on_sdk, mapp. specialize (Hc m (Metrics.sdk s')).
    by destruct (create m (Metrics.sdk s')) as [w [i|e]].
  - intros [i|]; [|done]. by apply msafe_bind.
Qed.
Lemma msafe_hist name v attrs d u : msafe (Metrics.record_hist name v attrs d u).
Proof.
  apply msafe_bind; [done|]. intros _. apply msafe_bind.
  - apply msafe_instrument. intros m. apply (wb_histogram Hsdk).
  - intros [i|]; [|done]. apply msafe_suppress, (wb_record Hsdk).
Qed.
Lemma msafe_counter name v attrs d :
  is_ok (py_float (num_value v)) = true -> msafe (Metrics.add_counter name v attrs d).
Proof.
  intros Hv. apply msafe_bind; [done|]. intros s. apply msafe_bind.
  { intros s'. unfold lift_result, Metrics.add_num, rbind. by destruct (py_float (num_value v)). }
  intros total. apply msafe_bind; [done|]. intros _. apply msafe_bind.
  - apply msafe_instrument. intros m. apply (wb_counter Hsdk).
  - intros [i|]; [|done]. apply msafe_suppress, (wb_add Hsdk).
Qed.
Lemma msafe_tool n st f : msafe (Metrics.record_tool_call n st (Float f)).
Proof. apply msafe_bind; [by apply msafe_counter|intros _; apply msafe_hist]. Qed.
Lemma msafe_a2a n st f : msafe (Metrics.record_a2a_call n st (Float f)).
Proof. apply msafe_bind; [by apply msafe_counter|intros _; apply msafe_hist]. Qed.

Lemma safe_elapsed t : safe (elapsed monotonic t).
Proof. apply safe_bind; [apply safe_monotonic|done]. Qed.
Lemma safe_attribute_of s k v : silent (set_attribute (W:=W) s k v).
Proof. destruct s; [apply silent_world, (wb_attribute Hsdk)|done]. Qed.
Lemma safe_status_of s st : silent (set_status (W:=W) s st).
Proof. destruct s; [apply silent_world, (wb_status Hsdk)|done]. Qed.
Lemma safe_timed (f : float -> M (Metrics.State W) unit) t :
  (forall d, msafe (f d)) -> safe (suppress (let* d := elapsed monotonic t in on_metrics (f d))).
Proof.
  intros Hf. apply safe_suppress, silent_safe, safe_bind; [apply safe_elapsed|].
  intros d. apply safe_metrics, Hf.
Qed.

(** *** Rules for [like] *)

Lemma like_pre {A C} (q : TM C) (f : C -> TM A) m :
  safe q -> (forall a, like (f a) m) -> like (let* a := q in f a) m.
Proof.
  intros Hq Hf s s' E. unfold bind. destruct (Hq s) as [Ha Ho]. destruct (q s) as [s1 [a|e]]; [|done].
  apply Hf. simpl in *. congruence.
Qed.
Lemma like_finally {A} (m' m : TM A) q : like m' m -> safe q -> like (try_finally m' q) m.
Proof.
  intros Hm Hq s s' E. unfold try_finally. destruct (Hm s s' E) as [Ha Hr]. destruct (m' s) as [s1 r]. simpl in *.
  destruct (Hq s1) as [Hb Ho]. destruct (q s1) as [s2 [[]|e]]; simpl in *; [|done]. split; congruence.
Qed.
Lemma like_around {A} (m' m : TM A) (q : A -> TM unit) (h : exn -> TM unit) :
  like m' m -> (forall a, safe (q a)) -> (forall e, safe (h e)) ->
  like (try_catch (let* a := m' in q a ;;* ret a) (fun e => h e ;;* raise e)) m.
Proof.
  intros Hm Hq Hh s s' E. unfold try_catch, bind. destruct (Hm s s' E) as [Ha Hr].
  destruct (m' s) as [s1 [a|e]]; simpl in *.
  - destruct (Hq a s1) as [Hb Ho]. destruct (q a s1) as [s2 [[]|e]]; simpl in *; [|done]. split; congruence.
  - destruct (Hh e s1) as [Hb Ho]. destruct (h e s1) as [s2 [[]|e']]; simpl in *; [|done]. split; congruence.
Qed.
(** A body, then telemetry that is told how it ended. *)
Lemma like_report {A} (m' m : TM A) (q : result A -> TM unit) :
  like m' m -> (forall r, safe (q r)) ->
  like (fun s => let '(s1, r) := m' s in match q r s1 with (s2, _) => (s2, r) end) m.
Proof.
  intros Hm Hq s s' E. destruct (Hm s s' E) as [Ha Hr]. destruct (m' s) as [s1 r]. simpl in *.
  destruct (Hq r s1) as [Hb _]. destruct (q r s1) as [s2 r']. simpl in *. split; congruence.
Qed.
Lemma like_then {A} (m' m : TM A) (q : TM unit) : like m' m -> safe q -> like (let* a := m' in q ;;* ret a) m.
Proof.
  intros Hm Hq s s' E. unfold bind. destruct (Hm s s' E) as [Ha Hr]. destruct (m' s) as [s1 [a|e]]; simpl in *; [|done].
  destruct (Hq s1) as [Hb Ho]. destruct (q s1) as [s2 [[]|e]]; simpl in *; [|done]. split; congruence.
Qed.
Lemma like_managed {A} cm (body : Span -> TM A) m : (forall s, like (body s) m) -> like (managed cm body) m.
Proof.
  intros Hb. apply like_pre; [apply safe_world; apply (wb_enter Hsdk)|]. intros sp s s' E.
  assert (forall e, safe (on_world (W:=W) (exit cm e))) as Hx by (intros e; apply safe_world; apply (wb_exit Hsdk)).
  destruct (Hb sp s s' E) as [Ha Hr]. destruct (body sp s) as [s1 [a|e]]; simpl in *; unfold bind.
  - destruct (Hx None s1) as [Hc Ho]. destruct (on_world (exit cm None) s1) as [s2 [[]|e]]; simpl in *; [|done]. split; congruence.
  - destruct (Hx (Some e) s1) as [Hc Ho]. destruct (on_world (exit cm (Some e)) s1) as [s2 [[]|e']]; simpl in *; [|done].
    split; congruence.
Qed.
Lemma safe_get_tracer name : safe (get_tracer (W:=W) name).
Proof.
  unfold get_tracer. destruct (negb _); [done|]. apply safe_bind; [done|]. intros s.
  destruct (tracer s); [done|]. apply safe_bind; [apply safe_attempt, silent_world, (wb_tracer Hsdk)|].
  intros [t|]; [|done]. by apply safe_bind.
Qed.
Lemma like_span {A} name run tenant attrs server (body : option Span -> TM A) m :
  (forall s, like (body s) m) -> like (span name run tenant attrs server body) m.
Proof.
  intros Hb. apply like_pre; [apply safe_get_tracer|]. intros [t|]; [|apply Hb].
  apply like_pre; [apply safe_attempt, silent_world, (wb_start Hsdk)|].
  intros [cm|]; [|apply Hb]. by apply like_managed.
Qed.
Lemma like_measured {A} latency t sp (body : option Span -> TM A) m :
  (forall s, like (body s) m) -> like (measured monotonic latency t sp body) m.
Proof.
  intros Hb. apply like_finally; [apply (like_around (body sp) m); [apply Hb| |]|].
  - intros _. apply safe_suppress, safe_status_of.
  - intros e. apply safe_suppress, safe_status_of.
  - apply safe_suppress, silent_bind; [apply silent_safe, safe_monotonic|]. intros t'. apply safe_attribute_of.
Qed.
Lemma like_return {A C} (m' : TM (C * A)) (m : TM A) (q : C -> TM unit) :
  like (let* d := m' in ret d.2) m -> (forall c, safe (q c)) ->
  like (let* d := m' in q d.1 ;;* ret d.2) m.
Proof.
  intros Hm Hq s s' E. unfold bind in *. destruct (Hm s s' E) as [Ha Hr].
  destruct (m' s) as [s1 [[c a]|e]]; simpl in *; [|done].
  destruct (Hq c s1) as [Hb Ho]. destruct (q c s1) as [s2 [[]|e]]; simpl in *; [|done]. split; congruence.
Qed.
Lemma like_ext {A} (m1 m' m : TM A) : (forall s, m1 s = m' s) -> like m' m -> like m1 m.
Proof. intros He Hl s s' E. rewrite He. by apply Hl. Qed.
(** A span that also hands out itself is the span. *)
Lemma span_paired {A} name run tenant attrs server (body : option Span -> TM A) s :
  (let* d := span name run tenant attrs server (fun sp => let* a := body sp in ret (sp, a)) in ret d.2) s
  = span name run tenant attrs server body s.
Proof.
  unfold span, managed, bind. destruct (get_tracer (W:=W) "workbench" s) as [s1 [[t|]|e]]; [| |done].
  - destruct (attempt _ s1) as [s2 [[cm|]|e]]; [| |done].
    + destruct (on_world (enter cm) s2) as [s3 [sp|e]]; [|done].
      destruct (body (Some sp) s3) as [s4 [a|e]]; simpl.
      * by destruct (on_world (exit cm None) s4) as [s5 [[]|e]].
      * by destruct (on_world (exit cm (Some e)) s4) as [s5 [[]|e']].
    + by destruct (body None s2) as [s3 [a|e]].
  - by destruct (body None s1) as [s3 [a|e]].
Qed.
Lemma safe_trace_id : safe (current_trace_id (W:=W)).
Proof.
  unfold current_trace_id. destruct (negb _); [done|]. apply safe_catch; [|done].
  apply silent_bind; [apply silent_world, (wb_current Hsdk)|]. by intros a s.
Qed.
Lemma safe_inject c : safe (inject_headers (W:=W) c).
Proof.
  unfold inject_headers. destruct (negb _); [done|]. apply safe_catch; [|done].
  apply silent_world, (wb_inject Hsdk).
Qed.

Lemma like_tool {A} tool run effect version (m : TM A) :
  like m m -> like (instrument_mcp_tool monotonic tool run effect version m) m.
Proof.
  intros Hm. apply like_pre; [apply safe_monotonic|]. intros t. apply like_pre; [apply safe_monotonic|].
  intros t'. apply like_span. intros sp. apply like_measured. intros _. apply like_report; [done|].
  intros r. apply safe_timed. intros d. apply msafe_tool.
Qed.

(** C23. Instrumenting changes nothing: whatever way the recorders, the creation
    of spans and of instruments, or the setting of attributes fail, a run, a
    workflow step, a tool call, a delegated task, a model call, a policy check,
    an approval wait or a database operation in its wrapper leaves the
    application in the state the bare body leaves it in, and returns or raises
    what the bare body does; and a traced request gets the answer of the
    handler, under two more headers. *)
Theorem instrumentation_is_transparent {A} (m : TM A) (run tenant : option string) :
  like m m ->
  like (instrument_run monotonic (default "" run) tenant m) m
  /\ (forall state, like (instrument_workflow_step state run m) m)
  /\ (forall current, like (instrumented_step run current m) m)
  /\ (forall tool effect version, like (instrument_mcp_tool monotonic tool run effect version m) m)
  /\ (forall tool, like (trace_mcp_invoke monotonic tool run m) m)
  /\ (forall task agent skill, like (instrument_a2a_task monotonic task run agent skill m) m)
  /\ (forall model provider operation,
        like (instrument_model_call monotonic run model provider operation (fun _ => m)) m)
  /\ (forall tool, like (instrument_policy_check tool run (fun _ => m)) m)
  /\ (forall approval, like (instrument_approval_wait monotonic approval run m) m)
  /\ (forall op table, like (instrument_db op table run m) m)
  /\ (forall path method request fresh,
        like (let* answer := trace_dispatch path method request fresh run m in ret answer.1) m).
Proof.
  intros Hm.
  assert (forall name tenant attrs server, like (span name run tenant attrs server (fun _ => m)) m) as Hspan.
  { intros. by apply like_span. }
  split_and!.
  - apply like_pre; [apply safe_monotonic|]. intros t. apply like_pre; [by apply safe_metrics, msafe_counter|].
    intros _. apply like_span. intros _. apply like_finally.
    + by apply like_around; intros; try apply safe_metrics, msafe_counter.
    + apply safe_timed. intros d. apply msafe_hist.
  - intros. apply Hspan.
  - intros. apply Hspan.
  - intros. by apply like_tool.
  - intros. by apply like_tool.
  - intros. apply like_pre; [apply safe_inject|]. intros _. apply like_pre; [apply safe_monotonic|]. intros t.
    apply like_pre; [apply safe_monotonic|]. intros t'. apply like_span. intros sp. apply like_measured. intros _. apply like_report; [done|].
    intros r. apply safe_timed. intros d. apply msafe_a2a.
  - intros. apply like_pre; [apply safe_monotonic|]. intros t. 
    apply (like_ext _ (let* d := model_span run model provider operation None None None
                                  (fun s => let* a := m in ret (s, a)) in
                       (let* x := elapsed monotonic t in
                        suppress (set_attribute d.1 "workbench.model.latency_s" (VFloat (PyFloat.round x 4)))) ;;*
                       ret d.2)).
    { intros s. unfold bind. destruct (model_span _ _ _ _ _ _ _ _ s) as [s1 [d|e]]; [|done].
      by destruct (elapsed monotonic t s1) as [s2 [x|e]]. }
    apply (like_return _ _ (fun sp => let* x := elapsed monotonic t in suppress (set_attribute sp
        "workbench.model.latency_s" (VFloat (PyFloat.round x 4))))); [by eapply like_ext; [intros; apply span_paired|apply Hspan]|].
    intros sp. apply safe_bind; [apply safe_elapsed|]. intros x. apply safe_suppress, safe_attribute_of.
  - intros. apply Hspan.
  - intros. apply like_pre; [apply safe_monotonic|]. intros t. apply like_then; [apply Hspan|].
    apply safe_timed. intros d. apply msafe_hist.
  - intros. apply Hspan.
  - intros. eapply like_ext; [|apply (like_then (http_server_span path run (Some method) (fun _ => m)) _
      (let* _ := current_trace_id in ret tt)); [apply Hspan|]].
    + intros s. unfold trace_dispatch, bind.
      destruct (http_server_span _ _ _ _ s) as [s1 [a|e]]; [|done].
      by destruct (current_trace_id s1) as [s2 [x|e]].
    + apply safe_bind; [apply safe_trace_id|done].
Qed.
End Transparent.

(** ** Accounting *)

(** One call of [add_counter] or [record_hist]. *)
Inductive recording : Type :=
  | Count (name : string) (value : num) (attrs : list (string * string)) (description : string)
  | Hist (name : string) (value : num) (attrs : list (string * string)) (description unit : string).

Section Accounts.
Context {W : Type} `{MetricsSdk W}.
Abbreviation MM := (M (Metrics.State W)).

Definition perform (r : recording) : MM unit :=
  match r with
  | Count n v a d => Metrics.add_counter n v a d
  | Hist n v a d u => Metrics.record_hist n v a d u
  end.
(** Calls one after the other, from callers that each survive an exception. *)
Definition performed (rs : list recording) (s : Metrics.State W) : Metrics.State W :=
  fold_left (fun s r => (perform r s).1) rs s.

(** What a counter and a histogram should say, from the calls alone. *)
Definition counted (key : string) (total : option float) (r : recording) : option float :=
  match r with
  | Count n v a _ =>
      if String.eqb key (Metrics.counter_key n a) then
        match Metrics.add_num (default (PyFloat.of_Z 0) total) v with Ok x => Some x | Exn _ => total end
      else total
  | Hist _ _ _ _ _ => total
  end.
Definition observed (name : string) (r : recording) : list num :=
  match r with Hist n v _ _ _ => if String.eqb name n then [v] else [] | Count _ _ _ _ => [] end.

Definition local (s : Metrics.State W) := (Metrics.local_counts s, Metrics.local_hist_values s).
(** The parts that talk to the SDK leave the local tables alone and return. *)
Definition remote {A} (m : MM A) : Prop := forall s, local (m s).1 = local s /\ is_ok (m s).2 = true.

Lemma remote_bind {A C} (m : MM A) (f : A -> MM C) :
  remote m -> (forall a, remote (f a)) -> remote (let* a := m in f a).
Proof.
  intros Hm Hf s. unfold bind. destruct (Hm s) as [Ha Ho]. destruct (m s) as [s1 [a|e]]; simpl in *; [|done].
  destruct (Hf a s1) as [Hb Hc]. split; [congruence|done].
Qed.
Lemma remote_suppress (m : M W unit) : remote (Metrics.suppress (Metrics.on_sdk m)).
Proof.
  intros s. unfold Metrics.suppress, try_catch, Metrics.on_sdk.
  by destruct (m (Metrics.sdk s)) as [w [[]|e]].
Qed.
Lemma remote_instrument name create : remote (Metrics.instrument name create).
Proof.
  apply remote_bind; [done|]. intros s. destruct (Metrics.meter s) as [m|]; [|done].
  destruct (negb _); [done|]. destruct (dget name _); [done|]. apply remote_bind.
  - intros s'. unfold Metrics.attempt, try_catch, bind, Metrics.on_sdk.
    by destruct (create m (Metrics.sdk s')) as [w [i|e]].
  - intros [i|]; [|done]. by apply remote_bind.
Qed.
Lemma remote_sends name create (send : Instrument -> M W unit) :
  remote (let* inst := Metrics.instrument name create in
          match inst with Some i => Metrics.suppress (Metrics.on_sdk (send i)) | None => ret tt end).
Proof. apply remote_bind; [apply remote_instrument|]. intros [i|]; [apply remote_suppress|done]. Qed.

Lemma add_counter_local n v a d s :
  local (Metrics.add_counter n v a d s).1 =
  (match Metrics.add_num (default (PyFloat.of_Z 0) (dget (Metrics.counter_key n a) (Metrics.local_counts s))) v with
   | Ok x => dset (Metrics.counter_key n a) x (Metrics.local_counts s)
   | Exn _ => Metrics.local_counts s
   end, Metrics.local_hist_values s).
Proof.
  unfold Metrics.add_counter. unfold bind at 1. simpl. unfold bind at 1, lift_result.
  destruct (Metrics.add_num _ v) as [x|e]; [|done]. unfold bind at 1. simpl.
  by rewrite (proj1 (remote_sends n (fun m => create_counter m n d) (fun i => instrument_add i v a) _)).
Qed.
Lemma record_hist_local n v a d u s :
  local (Metrics.record_hist n v a d u s).1 =
  (Metrics.local_counts s,
   dset n (default [] (dget n (Metrics.local_hist_values s)) ++ [v]) (Metrics.local_hist_values s)).
Proof.
  unfold Metrics.record_hist. unfold bind at 1. simpl.
  by rewrite (proj1 (remote_sends n (fun m => create_histogram m n d u) (fun i => instrument_record i v a) _)).
Qed.
Lemma perform_spec r s key name :
  dget key (Metrics.local_counts (perform r s).1) = counted key (dget key (Metrics.local_counts s)) r /\
  default [] (dget name (Metrics.local_hist_values (perform r s).1))
  = default [] (dget name (Metrics.local_hist_values s)) ++ observed name r.
Proof.
  destruct r as [n v a d|n v a d u]; cbn [perform counted observed].
  - pose proof (add_counter_local n v a d s) as Hl. injection Hl as -> ->. rewrite app_nil_r. split; [|done].
    destruct (String.eqb_spec key (Metrics.counter_key n a)) as [->|Hne]; destruct (Metrics.add_num _ v); try done.
    + by rewrite dget_dset_eq.
    + by rewrite dget_dset_ne.
  - pose proof (record_hist_local n v a d u s) as Hl. injection Hl as -> ->. split; [done|].
    destruct (String.eqb_spec name n) as [->|Hne].
    + by rewrite dget_dset_eq.
    + by rewrite dget_dset_ne, app_nil_r.
Qed.

(** The snapshot accounts for every call: under each counter key it has the
    sum, from left to right, of the values counted under that key, and for each
    histogram the values recorded, in order, after what was there, whether the
    metrics SDK is absent, works, or raises at any of its operations. *)
Theorem snapshot_accounts (rs : list recording) (s : Metrics.State W) key name :
  exists counts hists, (Metrics.snapshot (performed rs s)).2 = Ok (counts, hists)
  /\ dget key counts = fold_left (counted key) rs (dget key (Metrics.local_counts s))
  /\ default [] (dget name hists)
     = default [] (dget name (Metrics.local_hist_values s)) ++ flat_map (observed name) rs.
Proof.
  eexists _, _. split; [reflexivity|]. revert s. induction rs as [|r rs IH]; intros s; simpl.
  { by rewrite app_nil_r. }
  destruct (perform_spec r s key name) as [Hc Hh]. destruct (IH (perform r s).1) as [Hc' Hh'].
  unfold performed in *. simpl. rewrite Hc', Hc, Hh', Hh, <- app_assoc. done.
Qed.
End Accounts.

(** ** Redaction of mappings *)

Section Masks.
Import Conventions.

(** No secret key keeps a value: in the dict, in dicts that are its values, and
    in dicts that are elements of lists that are its values. *)
Fixpoint masked (v : pyval) : bool :=
  match v with
  | VDict d =>
      forallb (fun kv =>
        if is_secret_key kv.1 then match kv.2 with VStr s => String.eqb s REDACTED | _ => false end
        else match kv.2 with
             | VDict _ => masked kv.2
             | VList l => forallb (fun i => match i with VDict _ => masked i | _ => true end) l
             | _ => true
             end) d
  | _ => true
  end.

Lemma redact_value_scalar k v :
  (forall d, v <> VDict d) -> (forall d, redact_value k v <> VDict d).
Proof.
  intros Hv d. unfold redact_value. destruct (is_secret_key k); [done|].
  destruct v; try done. by destruct (Regex.search _ _).
Qed.

Lemma redact_mapping_masks v : masked (redact_mapping v) = true.
Proof.
  cut (masked (redact_mapping v) = true /\
       match v with VList l => List.Forall (fun i => masked (redact_mapping i) = true) l | _ => True end);
    [by intros []|].
  induction v as [ | | | | |l IH|d IH| ] using pyval_induction; try done.
  - split; [done|]. induction IH as [|i l' [Hi _] _ IHl]; by constructor.
  - split; [|done]. simpl. rewrite forallb_forall. intros [k v] Hin.
    apply in_map_iff in Hin as ([k' v'] & [= <- <-] & Hin). rewrite List.Forall_forall in IH.
    specialize (IH _ Hin). simpl in *. destruct (is_secret_key k') eqn:Ek; [done|].
    destruct v' as [ | | | | |l|d'| ]; try (by unfold redact_value; rewrite Ek).
    + unfold redact_value. rewrite Ek. by destruct (Regex.search _ _).
    + destruct IH as [_ IH]. rewrite forallb_forall. intros i' Hi.
      apply in_map_iff in Hi as (i & <- & Hi). rewrite List.Forall_forall in IH. specialize (IH _ Hi).
      destruct i as [ | | | | |l'|d'| ]; try (by unfold redact_value; rewrite Ek).
      * unfold redact_value. rewrite Ek. by destruct (Regex.search _ _).
      * exact IH.
    + by destruct IH.
Qed.

(** A list inside a list is not looked into. *)
Example nested_lists_keep_secrets :
  redact_mapping (VDict [("rows", VList [VList [VDict [("password", VStr "hunter2")]]])])
  = VDict [("rows", VList [VList [VDict [("password", VStr "hunter2")]]])].
Proof. vm_compute. reflexivity. Qed.

(** The span of a model call starts with its token counts masked: their
    attribute names contain [token]. *)
Lemma model_span_masks_tokens run operation provider model cost i o :
  let attrs := Tracing.span_attrs run None (genai_attrs operation provider model None (Some i) (Some o) cost) in
  dget "gen_ai.usage.input_tokens" attrs = Some (VStr REDACTED)
  /\ dget "gen_ai.usage.output_tokens" attrs = Some (VStr REDACTED).
Proof.
  cbn zeta. unfold Tracing.span_attrs, genai_attrs. cbn [when_text when_some hash_tenant].
  rewrite !fold_left_app. cbn [fold_left fst snd].
  replace (is_secret_key "gen_ai.usage.input_tokens") with true by reflexivity.
  replace (is_secret_key "gen_ai.usage.output_tokens") with true by reflexivity.
  match goal with |- context [dset "gen_ai.usage.input_tokens" _ ?d] => generalize d; intros base end.
  destruct cost; cbn [when_some fold_left fst snd];
    rewrite ?(dget_dset_ne "workbench.gen_ai.cost_usd") by done;
    rewrite dget_dset_ne by done; by rewrite !dget_dset_eq.
Qed.
End Masks.

(** ** A tracer that works and everything else down *)

Module FaultySdk.

(** The application's counter and the log of spans entered and left. *)
Record world := mkWorld { served : nat; spans : list string }.
Definition down {A} : M world A := raise (RuntimeError "collector down").
Definition note (line : string) : M world unit :=
  fun w => (mkWorld (served w) (spans w ++ [line]), Ok tt).

#[local] Instance metrics_down : MetricsSdk world := {|
  Meter := unit; Telemetry.Instrument := unit; Reader := unit; metrics_available := true;
  otlp_reader := fun _ => down; console_reader := down; set_provider := fun _ _ => down;
  get_meter := fun _ => ret tt; create_counter := fun _ _ _ => ret tt; create_histogram := fun _ _ _ _ => down;
  instrument_add := fun _ _ _ => down; instrument_record := fun _ _ _ => down |}.
(** [enters] says whether a span can be entered. *)
Definition tracing_up (enters : bool) : TracingSdk world := {|
  Provider := unit; Tracer := unit; Manager := string; Span := string; Processor := unit; Exporter := unit;
  otel_available := true;
  get_tracer_provider := ret tt; trace_get_tracer := fun _ => ret tt; new_provider := fun _ => ret tt;
  in_memory_exporter := ret tt; simple_processor := fun _ => ret tt; otlp_processor := fun _ => down;
  console_processor := ret tt; add_span_processor := fun _ _ => ret tt; set_tracer_provider := fun _ => ret tt;
  provider_get_tracer := fun _ _ => ret tt;
  start_as_current_span := fun _ name _ _ => ret name;
  enter := fun name => if enters then note ("enter " +:+ name) ;;* ret name else down;
  exit := fun name _ => note ("exit " +:+ name);
  span_set_attribute := fun _ _ _ => down; span_set_status := fun _ _ => down;
  propagate_inject := fun _ => down; current_trace := down |}.
Definition clock : M world float := ret (PyFloat.of_Z 7).
Definition start (H : TracingSdk world) : Tracing.State world :=
  Tracing.mkState None None (Metrics.mkState [] [] [] (Some tt) true (mkWorld 0 [])).
(** A body that serves and then fails. *)
Definition body {H : TracingSdk world} : M (Tracing.State world) nat :=
  on_world (fun w => (mkWorld (S (served w)) (spans w), Exn (RuntimeError "busy"))).

Lemma sdk_well_behaved : @well_behaved world nat metrics_down (tracing_up true) served clock.
Proof. constructor; by repeat intro || split. Qed.
End FaultySdk.

Lemma instrumentation_is_transparent_witness :
  let sdk := FaultySdk.tracing_up true in
  let run := @instrument_run _ _ sdk FaultySdk.clock _ "run-1" (Some "acme") FaultySdk.body (FaultySdk.start sdk) in
  like FaultySdk.served FaultySdk.body FaultySdk.body
  /\ app FaultySdk.served run.1 = 1 /\ run.2 = Exn (RuntimeError "busy")
  /\ FaultySdk.spans (Metrics.sdk (metrics run.1)) = ["enter run run-1"; "exit run run-1"]
  /\ map fst (Metrics.local_counts (metrics run.1))
     = ["workbench.runs.started|status=started"; "workbench.runs.finished|status=failed"].
Proof.
  intros sdk run.
  assert (like FaultySdk.served (H0:=sdk) FaultySdk.body FaultySdk.body) as Hm.
  { intros s s' E. unfold app in *. cbn. rewrite E. by split. }
  destruct (instrumentation_is_transparent FaultySdk.served FaultySdk.clock FaultySdk.sdk_well_behaved
              FaultySdk.body (Some "run-1") (Some "acme") Hm) as [Hrun _].
  destruct (Hrun (FaultySdk.start sdk) (FaultySdk.start sdk) eq_refl) as [Ha Hr].
  split_and!; [exact Hm|exact Ha|exact Hr|vm_compute; reflexivity|vm_compute; reflexivity].
Defined.

(** The hypothesis on entering matters: [span] guards the making of its manager
    only, so with a tracer whose spans cannot be entered the body never runs. *)
Example refused_entry_skips_the_body :
  let sdk := FaultySdk.tracing_up false in
  let run := @instrument_workflow_step _ _ sdk _ "planning" None FaultySdk.body (FaultySdk.start sdk) in
  app FaultySdk.served run.1 = 0 /\ run.2 = Exn (RuntimeError "collector down").
Proof. split; vm_compute; reflexivity. Qed.

(** A comma in a label can make the counter keys of two calls one. *)
Example counter_keys_collide :
  Metrics.counter_key "workbench.tool.calls" [("status", "failed"); ("tool", "x")]
  = Metrics.counter_key "workbench.tool.calls" [("status", "failed,tool=x")].
Proof. reflexivity. Qed.
