(* ===== verification/ApiEvents.v ===== *)
(** * Event streams

    The events a client reads are the stored ones above its cursor, in order;
    an event stream that is resumed at any of its events continues with what
    followed it.  The first event of a run is below every cursor the route
    accepts. *)

From stdpp Require Import base gmap sets list strings pretty sorting.
From Stdlib Require Import ZArith Lia Ascii Sorted.
From S2P Require Import Prelude.
From S2P Require Import PyFloat.
From S2P Require Import PyValue.
From S2P Require Import PyTime.
From S2P Require Import Contracts.
From S2P Require Import ContractsRun.
From S2P Require Import ContractsOps.
From S2P Require Import Json.
From S2P Require Import Security.
From S2P Require Import Tables.
From S2P Require Import Repository.
From S2P Require Import RepositorySpecs.
From S2P Require Import RepositoryStore.
From S2P Require Import RepositoryProps.
From S2P Require Import RepositoryEvents.
From S2P Require Import MemoryEngine.
From S2P Require Import ApiStore.
From S2P Require Import Api.
From S2P Require Import ApiProps.
Import JsonLemmas ApiStore.

Local Open Scope py_scope.

(** ** [int(str(n))] *)

Lemma pretty_digits (n : N) :
  exists ds, PyStr.chars (pretty n) = ds /\ ds <> [] /\ Forall (fun c => PyStr.is_digit c = true) ds
    /\ PyStr.digits_value ds = Z.of_N n.
Proof.
  unfold pretty, pretty_N. destruct (decide (n = 0)%N) as [->|Hn].
  - exists ["0"%char]. by repeat constructor.
  - destruct (pretty_go_digits n "") as (ds & -> & Hf & Hv & Hh). rewrite app_nil_r.
    exists ds. split_and!; [done| |done|done]. destruct (Hh Hn) as (c & r & -> & _). done.
Qed.

Lemma digit_plain c : PyStr.is_digit c = true ->
  PyStr.is_space c = false /\ Ascii.eqb c "_"%char = false /\ Ascii.eqb c "-"%char = false /\ Ascii.eqb c "+"%char = false.
Proof.
  unfold PyStr.is_digit, PyStr.is_space, PyStr.code. intros [H1%Nat.leb_le H2%Nat.leb_le]%andb_prop.
  assert (forall d, Ascii.eqb c d = true -> nat_of_ascii c = nat_of_ascii d) as Hd by by intros d ->%Ascii.eqb_eq.
  split_and!.
  - cbv zeta. rewrite !orb_false_iff, !andb_false_iff, !Nat.leb_gt, !Nat.eqb_neq. lia.
  - destruct (Ascii.eqb c "_"%char) eqn:E; [|done]. apply Hd in E. change (nat_of_ascii "_"%char) with 95 in E. lia.
  - destruct (Ascii.eqb c "-"%char) eqn:E; [|done]. apply Hd in E. change (nat_of_ascii "-"%char) with 45 in E. lia.
  - destruct (Ascii.eqb c "+"%char) eqn:E; [|done]. apply Hd in E. change (nat_of_ascii "+"%char) with 43 in E. lia.
Qed.
Lemma strip_digits s : Forall (fun c => PyStr.is_digit c = true) (PyStr.chars s) -> PyStr.strip s = s.
Proof.
  intros Hs. unfold PyStr.strip, PyStr.lstrip_l.
  assert (forall l, Forall (fun c => PyStr.is_digit c = true) l -> PyStr.drop_while PyStr.is_space l = l) as Hd.
  { intros [|c l] Hl; [done|]. apply Forall_cons in Hl as [Hc _]. simpl. by destruct (digit_plain c Hc) as [-> _]. }
  rewrite (Hd (PyStr.chars s)) by done. rewrite Hd by by apply Forall_reverse.
  rewrite reverse_involutive. apply String.string_of_list_ascii_of_string.
Qed.
Lemma underscores_digits b l : Forall (fun c => PyStr.is_digit c = true) l -> PyStr.drop_underscores b l = Some l.
Proof.
  intros Hl. revert b. induction Hl as [|c l Hc _ IH]; intros b; simpl; [done|].
  destruct (digit_plain c Hc) as (_ & -> & _). by rewrite IH.
Qed.

Lemma parse_int_pretty (n : N) :
  (Z.of_nat (String.length (pretty n)) <= 4300)%Z -> parse_int (pretty n) = Ok (Z.of_N n).
Proof.
  intros Hlen. destruct (pretty_digits n) as (ds & Hds & Hne & Hf & Hv). unfold parse_int.
  rewrite strip_digits by by rewrite Hds. rewrite Hds. destruct ds as [|c ds]; [done|].
  pose proof Hf as [Hc _]%Forall_cons. unfold PyStr.parse_sign.
  destruct (digit_plain c Hc) as (_ & _ & -> & ->). rewrite underscores_digits by done.
  rewrite <- (app_nil_r (c :: ds)) at 1. rewrite take_digits_app by done.
  assert (length (c :: ds) = String.length (pretty n)) as ->.
  { rewrite <- Hds. clear. unfold PyStr.chars. induction (pretty n); simpl; congruence. }
  destruct (Z.ltb_spec 4300 (Z.of_nat (String.length (pretty n)))); [lia|]. by rewrite Hv.
Qed.

(** ** Pages *)

Lemma sorted_unique {A} (key : A -> Z) l k :
  StronglySorted (fun x y => (key x < key y)%Z) l -> StronglySorted (fun x y => (key x < key y)%Z) k ->
  (forall x, x ∈ l <-> x ∈ k) -> l = k.
Proof.
  intros Hl. revert k. induction Hl as [|x l Hl IH Hx]; intros k Hk He.
  { destruct k as [|y k]; [done|]. exfalso. apply (not_elem_of_nil y), He. left. }
  destruct Hk as [|y k Hk Hy]; [exfalso; apply (not_elem_of_nil x), He; left|].
  rewrite Forall_forall in Hx, Hy.
  assert (x = y) as ->.
  { pose proof (proj1 (He x) ltac:(left)) as H1. pose proof (proj2 (He y) ltac:(left)) as H2.
    apply elem_of_cons in H1 as [?|H1%Hy]; [done|]. apply elem_of_cons in H2 as [?|H2%Hx]; [done|]. lia. }
  f_equal. apply IH; [done|]. intros z. split; intros Hz.
  - pose proof (Hx z Hz). assert (z ∈ y :: k) as Hz' by (apply He; by right).
    apply elem_of_cons in Hz' as [->|?]; [lia|done].
  - pose proof (Hy z Hz). assert (z ∈ y :: l) as Hz' by (apply He; by right).
    apply elem_of_cons in Hz' as [->|?]; [lia|done].
Qed.

Section Streams.
Context {W : Type} `{EngineLaws W}.

(** The stored events of a run above a cursor, in order; and what one request
    shows of them. *)
Definition above (run : string) (n : Z) (t : Tables) : list RunEvent.t :=
  order_by (W:=W) RunEvent.sequence (Repository.events_after run n t).
Definition shows (accept : string) (n : Z) (rows : list RunEvent.t) (ev : Api.Events) : Prop :=
  exists es ds, map_result Repository.row_to_event (take 1000 rows) = Ok es
    /\ map_result AgentEvent.dump es = Ok ds
    /\ ev = if PyStr.contains "text/event-stream" accept then Api.Stream (Api.sse_response ds) else Api.Page n ds.

(** The rest of the events after one of them is what lies above its number. *)
Lemma above_rest run n t l1 r l2 :
  constraints t -> above run n t = l1 ++ r :: l2 -> above run (RunEvent.sequence r) t = l2.
Proof.
  intros Hc E. pose proof (ordered_events (W:=W) run n t Hc) as Hs. fold (above run n t) in Hs. rewrite E in Hs.
  apply (sorted_unique RunEvent.sequence); [by apply ordered_events| |].
  { apply StronglySorted_app in Hs as (_ & _ & Hs). by inversion Hs. }
  assert (forall k e, e ∈ above run k t <-> e ∈ run_events t /\ RunEvent.run_id e = run /\ (k < RunEvent.sequence e)%Z)
    as Hin by (intros k e; unfold above; rewrite order_by_perm; apply events_after_spec).
  assert (r ∈ above run n t) as (_ & _ & Hn)%Hin by (rewrite E; set_solver).
  intros e. rewrite Hin. split.
  - intros (H1 & H2 & H3). assert (e ∈ above run n t) as He by (apply Hin; split_and!; [done|done|lia]).
    rewrite E in He. apply elem_of_app in He as [He|He].
    + pose proof (sorted_app_lt _ l1 (r :: l2) e r Hs He ltac:(left)). simpl in *. lia.
    + apply elem_of_cons in He as [->|?]; [lia|done].
  - intros He. assert (e ∈ above run n t) as (H1 & H2 & _)%Hin by (rewrite E; set_solver).
    split_and!; [done|done|]. replace (l1 ++ r :: l2) with ((l1 ++ [r]) ++ l2) in Hs by by rewrite <- app_assoc.
    apply (sorted_app_lt _ (l1 ++ [r]) l2 r e Hs); [set_solver|done].
Qed.

Lemma run_events_wp run after ident last accept n x :
  (forall y, Api.effective_after run (Identity.tenant_id ident) after last y = (y, Ok n)) ->
  wp (Api.run_events (W:=W) run after ident last accept)
    (fun ev _ => shows accept n (above run n (committed (db x))) ev) (fun _ _ => True) x.
Proof.
  intros Hn. unfold Api.run_events, Api.require. cbv zeta. apply wp_bind, wp_lift. case_match; [|done].
  apply wp_bind, wp_try, wp_app_db. eapply wp_mono; [apply get_run_wp| |]; simpl.
  2:{ intros e w _. destruct (Api.is_not_found e); by apply wp_raise. }
  intros r w (Hc & _). apply wp_bind. unfold wp at 1. rewrite Hn.
  apply wp_bind, wp_try, wp_app_db. eapply wp_mono; [apply list_events_wp| |]; simpl.
  2:{ intros e w' _. destruct (Api.is_not_found e); by apply wp_raise. }
  intros es w' (_ & _ & _ & Hes). rewrite Hc in Hes. apply wp_bind, wp_lift.
  destruct (map_result AgentEvent.dump es) as [ds|] eqn:Hds; [|done]. apply wp_ret. exists es, ds.
  by split_and!.
Qed.
End Streams.

(** C17. An event stream resumes where it stopped: a request whose
    [after_sequence] is 0, the default, and whose Last-Event-ID is the id that an
    event was sent with shows exactly the stored events of the run that follow
    it, in order, up to the page size; none is repeated and none is skipped.
    With another [after_sequence] the header plays no part. *)
Theorem stream_resumes {W} `{EngineLaws W} run ident accept n l1 r l2 e d (x : App W) :
  constraints (committed (db x)) -> above run n (committed (db x)) = l1 ++ r :: l2 ->
  Repository.row_to_event r = Ok e -> AgentEvent.dump e = Ok d -> (0 <= RunEvent.sequence r)%Z ->
  (Z.of_nat (String.length (pretty (RunEvent.sequence r))) <= 4300)%Z ->
  wp (Api.run_events (W:=W) run 0 ident (Some (py_str (get_or "sequence" (VInt 0) d))) accept)
    (fun ev _ => shows accept (RunEvent.sequence r) l2 ev) (fun _ _ => True) x
  /\ forall after last y, after <> 0%Z ->
       Api.run_events (W:=W) run after ident last accept y = Api.run_events run after ident None accept y.
Proof.
  intros Hc Hl He Hd Hpos Hlen. split.
  2:{ intros after [h|] y Ha%Z.eqb_neq; [|done]. unfold Api.run_events, Api.effective_after. by rewrite Ha. }
  apply row_to_event_sequence in He.
  assert (py_str (get_or "sequence" (VInt 0) d) = pretty (RunEvent.sequence r)) as ->.
  { unfold AgentEvent.dump, rbind in Hd. destruct (dump_dict _); [|done]. injection Hd as <-.
    unfold get_or. simpl. by rewrite He. }
  rewrite <- (above_rest run n (committed (db x)) l1 r l2) by done. apply run_events_wp. intros y.
  assert (pretty (RunEvent.sequence r) = pretty (Z.to_N (RunEvent.sequence r))) as E by by destruct (RunEvent.sequence r).
  rewrite E in Hlen |- *. pose proof (parse_int_pretty _ Hlen) as Hp. unfold Api.effective_after. cbn [Z.eqb andb].
  assert (String.eqb (pretty (Z.to_N (RunEvent.sequence r))) "" = false) as ->.
  { apply String.eqb_neq. destruct (pretty_digits (Z.to_N (RunEvent.sequence r))) as (ds & Hds & Hne & _).
    intros E'. rewrite E' in Hds. by subst ds. }
  simpl. rewrite Hp, Z2N.id by done. done.
Qed.

(** Without a Last-Event-ID no request shows the first event of a run: the
    route accepts only cursors from 0 and events are numbered from 0, so every
    event of a page has a number above 0. *)
Theorem first_event_is_not_served {W} `{EngineLaws W} run after ident accept (x : App W) :
  (0 <= after)%Z ->
  wp (Api.run_events (W:=W) run after ident None accept)
    (fun ev _ => forall k ds, ev = Api.Page k ds ->
       k = after /\ forall d, d ∈ ds -> exists s, dget "sequence" d = Some (VInt s) /\ (0 < s)%Z)
    (fun _ _ => True) x.
Proof.
  intros Ha. eapply wp_mono; [by apply (run_events_wp _ _ _ _ _ after)| |done]. cbv beta.
  intros ev _ (es & ds & Hes & Hds & ->) k ds'. destruct (PyStr.contains _ _); [done|]. intros [= <- <-].
  split; [done|]. intros d Hin. apply map_result_forall2 in Hes, Hds.
  destruct (Forall2_elem_of_r _ _ _ _ Hds Hin) as (e & He & Hd).
  destruct (Forall2_elem_of_r _ _ _ _ Hes He) as (row & Hrow & Hto). apply list_elem_of_take in Hrow.
  unfold above in Hrow. rewrite order_by_perm in Hrow. apply events_after_spec in Hrow as (_ & _ & Hlt).
  unfold AgentEvent.dump, rbind in Hd. destruct (dump_dict _); [|done]. injection Hd as <-.
  exists (AgentEvent.sequence e). split; [done|]. rewrite (row_to_event_sequence _ _ Hto). lia.
Qed.

(** The first event that [ApiDemo.paused] stored. *)
Definition demo_first : option (RunEvent.t * list RunEvent.t) :=
  match above (W:=Memory.db) "run_id0" (-1) (committed (db ApiDemo.paused)) with r :: l => Some (r, l) | [] => None end.
Definition demo_event (r : RunEvent.t) : option dict :=
  match Repository.row_to_event r with
  | Ok e => match AgentEvent.dump e with Ok d => Some d | Exn _ => None end
  | Exn _ => None
  end.

Lemma demo_event_inv r d :
  demo_event r = Some d -> exists e, Repository.row_to_event r = Ok e /\ AgentEvent.dump e = Ok d.
Proof. unfold demo_event. repeat case_match; naive_solver. Qed.
Lemma demo_first_inv r l :
  demo_first = Some (r, l) -> above (W:=Memory.db) "run_id0" (-1) (committed (db ApiDemo.paused)) = [] ++ r :: l.
Proof. unfold demo_first. generalize (above (W:=Memory.db) "run_id0" (-1) (committed (db ApiDemo.paused))). intros [|r' l']; [done|]. by intros [= -> ->]. Qed.

Lemma stream_resumes_witness :
  exists r l d, demo_first = Some (r, l) /\ demo_event r = Some d /\ length l = 19
    /\ wp (Api.run_events (W:=Memory.db) "run_id0" 0 ApiDemo.alice (Some (py_str (get_or "sequence" (VInt 0) d))) "")
         (fun ev _ => shows "" (RunEvent.sequence r) l ev) (fun _ _ => True) ApiDemo.paused.
Proof.
  assert (option_map (fun p => (RunEvent.sequence p.1, length p.2, bool_decide (is_Some (demo_event p.1)))) demo_first
    = Some (0%Z, 19, true)) as E by (vm_compute; reflexivity).
  destruct demo_first as [[r l]|] eqn:Ef; [|discriminate]. simpl in E. injection E as Es El Ed.
  destruct (demo_event r) as [d|] eqn:Edd; [|discriminate].
  exists r, l, d. split; [reflexivity|]. split; [exact Edd|]. split; [exact El|].
  destruct (demo_event_inv r d Edd) as (e & Ee & Ede). pose proof (demo_first_inv r l Ef) as Ea.
  refine (proj1 (stream_resumes "run_id0" ApiDemo.alice "" (-1) [] r l e d ApiDemo.paused demo_paused_constraints Ea Ee Ede _ _)).
  - rewrite Es. discriminate.
  - rewrite Es. vm_compute. discriminate.
Defined.

Lemma first_event_is_not_served_witness :
  (0 <= 0)%Z /\ wp (Api.run_events (W:=Memory.db) "run_id0" 0 ApiDemo.alice None "")
    (fun ev _ => forall k ds, ev = Api.Page k ds ->
       k = 0%Z /\ forall d, d ∈ ds -> exists s, dget "sequence" d = Some (VInt s) /\ (0 < s)%Z)
    (fun _ _ => True) ApiDemo.paused.
Proof. split; [lia|]. apply (first_event_is_not_served "run_id0" 0 ApiDemo.alice "" ApiDemo.paused). lia. Defined.
