(* ===== verification/ApiServer.v ===== *)
(** * The gateway process

    [create_app] of [apps/api/main.py]: the middleware in the order they run,
    the table of routes, the handlers of exceptions and the background task of a
    created run.  [OIDCAuthMiddleware] is added last and is the outermost; an
    exception that no handler takes passes both middleware and becomes the plain
    500 of the server.  FastAPI matches the paths and parses bodies, queries and
    headers: a request is a route with its parsed parameters.  The rows of the
    database outlive the process, its caches and its queued tasks do not. *)

From stdpp Require Import base gmap sets list strings pretty.
From Stdlib Require Import ZArith Lia Ascii.
From S2P Require Import Prelude.
From S2P Require Import PyFloat.
From S2P Require Import PyValue.
From S2P Require Import PyTime.
From S2P Require Import ContractsOps.
From S2P Require Import Security.
From S2P Require Import Bearer.
From S2P Require Import Tables.
From S2P Require Import Repository.
From S2P Require Import RunState.
From S2P Require Import Graph.
From S2P Require Import ApiStore.
From S2P Require Import Api.

Local Open Scope py_scope.

Module ApiServer.
Import ApiStore.

Definition APP_VERSION : string := "0.1.0".
(** [root] *)
Definition root (getenv : string -> option string) : dict :=
  [("service", VStr "agent-api"); ("version", VStr APP_VERSION);
   ("env", VStr (default "local" (getenv "APP_ENV")))].

(** ** Requests and answers *)

Inductive Route : Type :=
  | Root
  | Health
  | Ready
  | CreateRun (body : CreateRunRequest.t) (idempotency_key : option string)
  | GetRun (run_id : string)
  | CancelRun (run_id : string)
  | RunEvents (run_id : string) (after_sequence : Z) (last_event_id : option string) (accept : string)
  | ListApprovals (run_id : string)
  | Decide (run_id approval_id : string) (body : DecideRequest.t) (idempotency_key : option string).

(** Where the routers are mounted *)
Definition path (r : Route) : string :=
  match r with
  | Root => "/"
  | Health => "/health"
  | Ready => "/ready"
  | CreateRun _ _ => "/v1/runs"
  | GetRun id => "/v1/runs/" +:+ id
  | CancelRun id => "/v1/runs/" +:+ id +:+ "/cancel"
  | RunEvents id _ _ _ => "/v1/runs/" +:+ id +:+ "/events"
  | ListApprovals id => "/v1/runs/" +:+ id +:+ "/approvals"
  | Decide id approval _ _ => "/v1/runs/" +:+ id +:+ "/approvals/" +:+ approval +:+ "/decide"
  end.

(** The [authorization] header is empty when absent; [clock] is [time.time()]. *)
Record Request := mkRequest { route : Route; authorization : string; clock : float }.

Inductive Content : Type :=
  | Json (body : dict)
  | EventStream (chunks : list string)
  | ServerError.
Record Response := mkResponse { status : Z; content : Content; headers : list (string * string) }.

(** The headers are those that this code sets; an endpoint and a handler set none. *)
Definition answer (status : Z) (content : Content) : Response := mkResponse status content [].

(** What a request leaves behind: its answer, the task it queued and, for the
    theorems, the calls of the graph. *)
Definition Served : Type := Response * option (string * string) * list obs.
Definition served (status : Z) (content : Content) : Served := (answer status content, None, []).

Section Process.
Context {W : Type} `{Engine W}.
Variable redact : dict -> dict.
Variable read_monotonic : M W float.
Variable getenv : string -> option string.
(** The parameters of [packages/security/identity.py] *)
Variable urlopen : string -> result (list Z).
Variable injected : option (string -> dict -> result unit).
Variable pyjwt : option (dict -> string -> option string -> option string -> result unit).

(** The key set of [identity.py], the process of [store.py] and the background
    tasks that wait. *)
Record Server := mkServer { jwks : option dict; app : App W; tasks : list (string * string) }.

Definition on_app {A} (m : M (App W) A) : M Server A := fun sv =>
  let '(x, r) := m (app sv) in (mkServer (jwks sv) x (tasks sv), r).
Definition on_jwks {A} (m : M (option dict) A) : M Server A := fun sv =>
  let '(c, r) := m (jwks sv) in (mkServer c (app sv) (tasks sv), r).

(** ** The routes *)

Definition page (run_id : string) (e : Api.Events) : Content :=
  match e with
  | Api.Page after events =>
      Json [("run_id", VStr run_id); ("after_sequence", VInt after); ("events", VList (map VDict events))]
  | Api.Stream chunks => EventStream chunks
  end.
Definition endpoint (r : Route) (ident : Identity.t) : M (App W) Served :=
  match r with
  | Root => ret (served 200 (Json (root getenv)))
  | Health => ret (served 200 (Json Api.health))
  | Ready => ret (served 200 (Json (Api.ready getenv)))
  | CreateRun body key =>
      let* a := Api.create_run redact read_monotonic body ident key in
      ret (answer 202 (Json a.1), a.2, [])
  | GetRun id => let* d := Api.get_run id ident in ret (served 200 (Json d))
  | CancelRun id => let* d := Api.cancel_run redact id ident in ret (served 202 (Json d))
  | RunEvents id after last accept =>
      let* e := Api.run_events id after ident last accept in ret (served 200 (page id e))
  | ListApprovals id => let* d := Api.list_approvals id ident in ret (served 200 (Json d))
  | Decide id approval body key =>
      let* a := Api.decide redact read_monotonic id approval body ident key in
      ret (answer 200 (Json a.1), None, a.2)
  end.

(** The routers with the exception handlers of [create_app] *)
Definition routed (r : Route) (attached : option Identity.t) : M Server Served :=
  on_app (try_catch (endpoint r (Api.get_identity getenv attached))
    (fun e => match Api.handle_error e with
              | Some (status, body) => ret (served status (Json body))
              | None => raise e
              end)).

(** ** The middleware *)

(** [SecurityHeadersMiddleware] *)
Definition with_headers (r : Response) : Response :=
  mkResponse (status r) (content r) (Api.secured (default "" (getenv "APP_ENV")) (headers r)).
Definition security_headers (call_next : M Server Served) : M Server Served :=
  let* s := call_next in ret (with_headers s.1.1, s.1.2, s.2).

(** [OIDCAuthMiddleware] *)
Definition oidc_auth (q : Request) (call_next : option Identity.t -> M Server Served) : M Server Served :=
  let* v := on_jwks (Bearer.dispatch getenv (clock q) urlopen injected pyjwt (path (route q)) (authorization q)) in
  match v with
  | Bearer.Open => call_next None
  | Bearer.Attached ident => call_next (Some ident)
  | Bearer.Refused status body => ret (served status (Json body))
  end.

(** The answer when the application raises. *)
Definition or_500 (m : M Server Served) : M Server Served :=
  try_catch m (fun _ => ret (served 500 ServerError)).

(** [background.add_task]: the task waits once the request has been answered. *)
Definition queue (task : option (string * string)) : M Server unit :=
  modify (fun sv => mkServer (jwks sv) (app sv) (tasks sv ++ option_list task)).

Definition serve (q : Request) : M Server (Response * list obs) :=
  let* s := or_500 (oidc_auth q (fun attached => security_headers (routed (route q) attached))) in
  queue s.1.2 ;;* ret (s.1.1, s.2).

(** [_execute_run] of the [i]th waiting task *)
Definition run_task (i : nat) : M Server (list obs) :=
  let* sv := gets id in
  match tasks sv !! i with
  | None => ret []
  | Some (run_id, tenant_id) =>
      modify (fun sv => mkServer (jwks sv) (app sv) (delete i (tasks sv))) ;;*
      on_app (Api.execute_run redact read_monotonic run_id tenant_id)
  end.

(** ** Starting

    [create_app], with the caches of a new process over a database. *)
Definition boot (w : W) : Server := mkServer None (mkApp w ∅ ∅ ∅ []) [].
Definition create_app (w : W) : result Server :=
  let? _ := Bearer.validate_auth_config getenv in Ok (boot w).
End Process.
Arguments Server W : clear implicits.
End ApiServer.
