(* ===== verification/ApiServerProps.v ===== *)
(** * What the gateway process guarantees

    The middleware in front of the routes, and the provenance of writes: over
    every history of requests, background tasks and restarts, a write call goes
    back to a decision that a verified token authorized. *)

From stdpp Require Import base gmap sets list strings relations.
From Stdlib Require Import ZArith Lia Ascii.
From S2P Require Import Prelude.
From S2P Require Import PyFloat.
From S2P Require Import PyValue.
From S2P Require Import PyTime.
From S2P Require Import Contracts.
From S2P Require Import ContractsOps.
From S2P Require Import Security.
From S2P Require Import Bearer.
From S2P Require Import BearerProps.
From S2P Require Import Tables.
From S2P Require Import Repository.
From S2P Require Import RepositorySpecs.
From S2P Require Import RepositoryStore.
From S2P Require Import RepositoryProps.
From S2P Require Import RepositoryClients.
From S2P Require Import RepositoryTheorems.
From S2P Require Import MemoryEngine.
From S2P Require Import RunState.
From S2P Require Import GraphTools.
From S2P Require Import Graph.
From S2P Require Import GraphSteps.
From S2P Require Import GraphLemmas.
From S2P Require Import GraphGate.
From S2P Require Import ApiStore.
From S2P Require Import Api.
From S2P Require Import ApiLemmas.
From S2P Require Import ApiProps.
From S2P Require Import ApiServer.
Import GraphTools Graph Steps Clients ApiStore ApiServer.

Local Open Scope py_scope.

Definition public (r : Route) : bool := match r with Root | Health | Ready => true | _ => false end.
Lemma open_paths r : open_path (path r) = public r.
Proof. by destruct r. Qed.

Section Process.
Context {W : Type} `{EngineLaws W} (redact : dict -> dict) (read_monotonic : M W float)
  (getenv : string -> option string) (urlopen : string -> result (list Z))
  (injected : option (string -> dict -> result unit))
  (pyjwt : option (dict -> string -> option string -> option string -> result unit)).
Implicit Types (sv : Server W) (q : Request) (id : Identity.t).

Abbreviation endpoint := (ApiServer.endpoint redact read_monotonic getenv).
Abbreviation serve := (ApiServer.serve redact read_monotonic getenv urlopen injected pyjwt).
Abbreviation run_task := (ApiServer.run_task redact read_monotonic).
Abbreviation dispatch sv q :=
  (Bearer.dispatch getenv (clock q) urlopen injected pyjwt (path (route q)) (authorization q) (jwks sv)).

(** ** The middleware *)

(** The request carries a token for the identity, whose signature verifies
    under the key set in force and whose claims hold at the time. *)
Definition speaks sv q id : Prop :=
  authorization q <> "" /\ PyStr.startswith "Bearer " (authorization q) = true
  /\ PyStr.startswith "local:" (bearer_of (authorization q)) = false
  /\ verified getenv urlopen injected pyjwt (bearer_of (authorization q)) (jwks sv)
  /\ exists payload, payload_of (bearer_of (authorization q)) payload /\ claims_hold getenv (clock q) payload id.

Definition failed (e : exn) : Response :=
  match Api.handle_error e with
  | Some (status, body) => with_headers getenv (answer status (Json body))
  | None => answer 500 ServerError
  end.
(** The request is the call of its endpoint with an identity. *)
Definition served_as id sv q : Prop :=
  let sv' := (serve q sv).1 in
  match endpoint (route q) id (app sv) with
  | (x, Ok s) => app sv' = x /\ tasks sv' = tasks sv ++ option_list s.1.2
                 /\ (serve q sv).2 = Ok (with_headers getenv s.1.1, s.2)
  | (x, Exn e) => app sv' = x /\ tasks sv' = tasks sv /\ (serve q sv).2 = Ok (failed e, [])
  end.
(** The request reaches no endpoint. *)
Definition turned_away sv q : Prop :=
  app (serve q sv).1 = app sv /\ tasks (serve q sv).1 = tasks sv
  /\ exists r, (serve q sv).2 = Ok (r, []) /\ headers r = []
       /\ (authorization q = "" -> status r = 401%Z
           /\ content r = Json (Api.envelope "unauthorized" "missing bearer token" false)).

Lemma serve_attached sv q id : (dispatch sv q).2 = Ok (Bearer.Attached id) -> served_as id sv q.
Proof.
  intros E. unfold served_as, ApiServer.serve, or_500, oidc_auth, on_jwks, try_catch, bind.
  destruct (dispatch sv q) as [c v]. simpl in E. subst v.
  unfold security_headers, routed, on_app, try_catch, bind. simpl.
  destruct (endpoint (route q) id (app sv)) as [x [s|e]]; simpl; [done|].
  unfold failed. destruct (Api.handle_error e) as [[st body]|]; simpl; by rewrite app_nil_r.
Qed.
Lemma serve_refused sv q r :
  (dispatch sv q).2 = r -> (forall id, r <> Ok (Bearer.Attached id)) -> r <> Ok Bearer.Open ->
  app (serve q sv).1 = app sv /\ tasks (serve q sv).1 = tasks sv
  /\ (serve q sv).2 = Ok (match r with Ok (Bearer.Refused st body) => answer st (Json body)
                                     | _ => answer 500 ServerError end, []).
Proof.
  intros E Ha Ho. unfold ApiServer.serve, or_500, oidc_auth, on_jwks, try_catch, bind.
  destruct (dispatch sv q) as [c v]. simpl in E. subst v.
  destruct r as [[|id|st body]|e]; [done|by destruct (Ha id)| |]; simpl; by rewrite app_nil_r.
Qed.
Lemma serve_public sv q : public (route q) = true -> exists r, serve q sv = (sv, Ok (r, [])).
Proof.
  intros Hp. unfold ApiServer.serve, or_500, oidc_auth, on_jwks, try_catch, bind.
  unfold Bearer.dispatch. fold (open_path (path (route q))). rewrite open_paths, Hp. simpl.
  destruct sv as [c x l], (route q); try done; simpl; rewrite app_nil_r; by eexists.
Qed.

Section Oidc.
Context (m : string) (Hget : getenv "AUTH_MODE" = Some m) (Hm : PyStr.lower (PyStr.strip m) = "oidc").

Lemma dispatch_speaks sv q id :
  public (route q) = false -> (dispatch sv q).2 = Ok (Bearer.Attached id) <-> speaks sv q id.
Proof.
  intros Hp. rewrite dispatch_attached, (resolve_oidc _ _ _ _ _ m) by done. rewrite open_paths, Hp.
  rewrite parse_oidc by (unfold Bearer.auth_mode, Bearer.env; by rewrite Hget). unfold speaks. tauto.
Qed.
Lemma no_token sv q :
  public (route q) = false -> authorization q = "" ->
  (dispatch sv q).2 = Ok (Bearer.Refused 401 (Api.envelope "unauthorized" "missing bearer token" false)).
Proof.
  intros Hp E. unfold Bearer.dispatch. fold (open_path (path (route q))). rewrite open_paths, Hp, E.
  unfold Bearer.resolve_identity, try_catch, bind. cbn [String.eqb negb].
  by rewrite (local_dev_needs_mock getenv m).
Qed.
Lemma not_open sv q : public (route q) = false -> (dispatch sv q).2 <> Ok Bearer.Open.
Proof.
  intros Hp. unfold Bearer.dispatch. fold (open_path (path (route q))). rewrite open_paths, Hp.
  unfold try_catch, bind. destruct (Bearer.resolve_identity _ _ _ _ _ _ _) as [c [id|e]]; [done|].
  destruct e; try done. simpl. by case_match.
Qed.

(** In [AUTH_MODE=oidc] a request to any route but the probes is the call of its
    endpoint with the identity of a verified token, answered with the security
    headers, or is turned away before it changes anything but the key set: with
    401 when it has no token.  The identity that [get_identity] falls back to,
    with every scope, is never used. *)
Lemma served_or_turned_away sv q :
  public (route q) = false ->
  (exists id, speaks sv q id /\ served_as id sv q) \/ (forall id, ~ speaks sv q id) /\ turned_away sv q.
Proof.
  intros Hp. destruct (dispatch sv q).2 as [[|id|st body]|e] eqn:E; [by apply not_open in E| |right..].
  { left. exists id. split; [by apply dispatch_speaks|by apply serve_attached]. }
  all: split; [intros id Hs%dispatch_speaks; [congruence|done]|].
  all: destruct (serve_refused sv q _ E) as (? & ? & Er); [done..|split_and!; [done..|]].
  all: eexists; split_and!; [exact Er|done|]; intros Ha; rewrite (no_token sv q Hp Ha) in E; naive_solver.
Qed.

(** ** Histories *)

(** The requests served so far, each with the process that it met. *)
Definition Log : Type := list (Server W * Request).

(** An approved row goes back to a request to decide its approval, made with a
    verified token of its tenant that has the scope, before it expired. *)
Definition decided_in (log : Log) : License := fun row =>
  exists sv q id run body key at_, (sv, q) ∈ log /\ speaks sv q id
    /\ route q = Decide run (ApprovalRow.approval_id row) body key
    /\ Identity.tenant_id id = ApprovalRow.tenant_id row
    /\ Authz.require_scopes id ["case.approve"] = Ok tt
    /\ DecideRequest.decision body = "approved"
    /\ ApprovalRow.approver row = Some (DecideRequest.approver body)
    /\ ApprovalRow.decided_at row = Some at_ /\ Repository.expired at_ row = false.

(** Approved rows that this process does not account for: those that the database
    held at the start, and those that other processes wrote. *)
Context (others : ApprovalRow.t -> Prop).
Definition accounted (log : Log) : License := fun row => others row \/ decided_in log row.
(** A database whose approved rows are all of this kind, or of a given one *)
Definition vouched (known : ApprovalRow.t -> Prop) (t : Tables) : Prop :=
  Forall (fun row => readable row /\ (ApprovalRow.decision row = "approved" ->
    known row \/ (is_Some (ApprovalRow.approver row) /\ is_Some (ApprovalRow.decided_at row) /\ others row)))
    (Tables.approvals t).

Definition on_tables sv (w : W) : Server W :=
  mkServer (jwks sv) (mkApp w (run_states (app sv)) (cancel_flags (app sv)) (decide_cache (app sv))
    (a2a_cancelled (app sv))) (tasks sv).

(** A request, the run of a waiting task, what other processes write for a
    tenant (any changes of the abstract store; the approved rows that it brings
    are among [others]), or a restart on the same tables.  The identity provider
    names tenants without surrounding blanks. *)
Inductive move (log : Log) sv : Log -> Server W -> list obs -> Prop :=
  | m_serve q r calls sv' :
      (forall id, speaks sv q id -> Field.trim (Identity.tenant_id id) = Identity.tenant_id id) ->
      serve q sv = (sv', Ok (r, calls)) -> move log sv ((sv, q) :: log) sv' calls
  | m_task i calls sv' : run_task i sv = (sv', Ok calls) -> move log sv log sv' calls
  | m_elsewhere T w :
      for_tenant redact T (db (app sv)) w ->
      vouched (fun row => row ∈ Tables.approvals (committed (db (app sv)))) (committed w) ->
      move log sv log (on_tables sv w) []
  | m_restart w : committed w = committed (db (app sv)) -> move log sv log (boot w) [].
(** From any database; its approved rows are among [others]. *)
Inductive reached : Log -> Server W -> Prop :=
  | r_boot w : constraints (committed w) ->
      vouched (fun _ => False) (committed w) -> reached [] (boot w)
  | r_move log sv log' sv' calls : reached log sv -> move log sv log' sv' calls -> reached log' sv'.

Definition kept_by (log : Log) sv : Prop :=
  sound (L := accounted log) (app sv) /\ Forall (fun t => Field.trim t.2 = t.2) (tasks sv).

Lemma decided_in_mono log e row : decided_in log row -> decided_in (e :: log) row.
Proof.
  intros (sv & q & id & run & body & key & at_ & Hin & Hrest). exists sv, q, id, run, body, key, at_.
  split; [by right|done].
Qed.

Lemma move_log log sv log' sv' calls row :
  move log sv log' sv' calls -> accounted log row -> accounted log' row.
Proof.
  intros [q r c s Htrim E|i c s E|T w Hf Ha|w Hw]; [|done..].
  intros [?|?]; [by left|right; by apply decided_in_mono].
Qed.

Context (Hmono : observes read_monotonic).

Lemma endpoint_decides log sv q id run approval body key :
  route q = Decide run approval body key -> speaks sv q id ->
  Authz.require_scopes id ["case.approve"] = Ok tt ->
  grants (L := accounted ((sv, q) :: log)) (Identity.tenant_id id) approval body.
Proof.
  intros Hq Hs Ha row at_ <- HT He Hd. right.
  exists sv, q, id, run, body, key, at_. split_and!; [by left|done|by destruct row..].
Qed.

(** What an endpoint keeps. *)
Lemma endpoint_good log sv q id :
  Field.trim (Identity.tenant_id id) = Identity.tenant_id id -> speaks sv q id ->
  good (L := accounted ((sv, q) :: log)) redact (Identity.tenant_id id) (app sv)
    (endpoint (route q) id (app sv)).1.
Proof.
  intros HT Hs. set (L := accounted _). set (T := Identity.tenant_id id).
  assert (forall A (m : M (App W) A) (f : A -> Served) x,
    good (L := L) redact T x (m x).1 -> good (L := L) redact T x ((let* a := m in ret (f a)) x).1) as Hret.
  { intros A m' f x Hx. apply (steps_bind_at (good (L := L) redact T)); [done|]. intros a y _. simpl. reflexivity. }
  destruct (route q) as [| | |body key|run|run|run after last accept|run|run approval body key] eqn:Eq; simpl;
    try reflexivity; apply Hret.
  - by apply good_create.
  - unfold Api.get_run, Api.require. apply (steps_bind_at (good (L := L) redact T)); [simpl; reflexivity|].
    intros _ y _. by apply good_detail.
  - by apply good_cancel.
  - by apply good_events.
  - by apply good_list.
  - destruct (Authz.require_scopes id ["case.approve"]) as [[]|e] eqn:Ea.
    + apply good_decide; [done..|]. by eapply endpoint_decides.
    + unfold Api.decide, Api.require. rewrite Ea. simpl. reflexivity.
Qed.

(** A queued task is of the tenant of the request. *)
Lemma endpoint_task r id x x' s t :
  endpoint r id x = (x', Ok s) -> s.1.2 = Some t -> t.2 = Identity.tenant_id id.
Proof.
  enough (wp (endpoint r id) (fun s _ => forall t, s.1.2 = Some t -> t.2 = Identity.tenant_id id)
    (fun _ _ => True) x) as Hw.
  { intros E. unfold wp in Hw. rewrite E in Hw. apply Hw. }
  destruct r; simpl; try (by apply wp_ret); try (apply wp_bind, wp_any; [intros a y; by apply wp_ret|done]).
  apply wp_bind. unfold Api.create_run. cbv zeta.
  do 9 (rewrite wp_bind; apply wp_any; [intros ? ?|done]). case_match; [by intros ? [=]|].
  do 3 (rewrite wp_bind; apply wp_any; [intros ? ?|done]). by intros t' [= <-].
Qed.

Lemma boot_sound (L : License) w :
  constraints (committed w) -> rows_ok (L := L) (committed w) -> sound (L := L) (app (boot w)).
Proof. by split; [|intros r s; simpl; rewrite lookup_empty]. Qed.

Lemma vouched_ok (L : License) known t :
  (forall row, others row -> L row) -> (forall row, known row -> row_ok (L := L) row) -> vouched known t -> rows_ok (L := L) t.
Proof.
  intros HL Hk Ht. eapply Forall_impl; [exact Ht|]. intros row [Hr Ha]. split; [done|]. intros Hd.
  destruct (Ha Hd) as [Hrow|(? & ? & Ho)]; [by apply (Hk row Hrow)|]. split_and!; [done..|by apply HL].
Qed.

Lemma serve_kept log sv q :
  (forall id, speaks sv q id -> Field.trim (Identity.tenant_id id) = Identity.tenant_id id) ->
  kept_by log sv -> kept_by ((sv, q) :: log) (serve q sv).1.
Proof.
  intros Htrim [Hx Ht]. assert (sound (L := accounted ((sv, q) :: log)) (app sv)) as Hx'.
  { eapply sound_weaken, Hx. intros row [?|?]; [by left|right; by apply decided_in_mono]. }
  destruct (public (route q)) eqn:Hp; [by destruct (serve_public sv q Hp) as [r ->]|].
  destruct (served_or_turned_away sv q Hp) as [(id & Hs & Has)|(_ & Ea & Et & _)].
  2:{ by split; [rewrite Ea|rewrite Et]. }
  destruct (endpoint_good log sv q id (Htrim id Hs) Hs) as [_ Hg]. specialize (Hg Hx').
  unfold served_as in Has. destruct (endpoint (route q) id (app sv)) as [x [s|e]] eqn:Ee;
    destruct Has as (Ea & Et & _); split; rewrite ?Ea, ?Et; try done.
  apply Forall_app. split; [done|]. destruct (s.1.2) as [t|] eqn:Es; [|constructor].
  constructor; [|constructor]. rewrite (endpoint_task _ _ _ _ _ _ Ee Es). by apply Htrim.
Qed.
Lemma task_good (L : License) sv i :
  Forall (fun t => Field.trim t.2 = t.2) (tasks sv) ->
  (sound (L := L) (app sv) -> sound (L := L) (app (run_task i sv).1))
  /\ Forall (fun t => Field.trim t.2 = t.2) (tasks (run_task i sv).1).
Proof.
  intros Ht. unfold ApiServer.run_task. rewrite bind_gets. simpl.
  destruct (tasks sv !! i) as [[run T]|] eqn:Ei; [|done]. unfold bind, on_app. simpl.
  pose proof (proj1 (Forall_lookup _ _) Ht i _ Ei) as HT. simpl in HT.
  destruct (good_execute (L := L) redact T HT read_monotonic Hmono run (app sv)) as [_ Hg].
  destruct (Api.execute_run _ _ _ _ _) as [x r]. split; [done|]. simpl. by apply Forall_delete.
Qed.

Lemma move_kept log sv log' sv' calls : move log sv log' sv' calls -> kept_by log sv -> kept_by log' sv'.
Proof.
  intros [q r c s Htrim E|i c s E|T w Hf Ha|w Hw] Hk.
  - pose proof (serve_kept log sv q Htrim Hk) as Hk'. by rewrite E in Hk'.
  - destruct Hk as [Hx Ht]. destruct (task_good (accounted log) sv i Ht) as [Hg Ht']. rewrite E in Hg, Ht'.
    by split; [apply Hg|].
  - destruct Hk as [[[Hc Hr] Hs] Ht]. split; [|done]. split; [split; [by apply Hf|]|].
    + simpl. eapply vouched_ok, Ha; [by left|]. intros row Hin. by apply (proj1 (Forall_forall _ _) Hr).
    + by eapply (cached_mono (app sv)); [by eapply for_tenant_decided| |].
  - split; [|constructor]. destruct Hk as [[[Hc Hr] _] _]. apply boot_sound; by rewrite Hw.
Qed.
Lemma reached_kept log sv : reached log sv -> kept_by log sv.
Proof.
  induction 1 as [w Hc Hr|]; [|by eapply move_kept]. split; [|constructor]. apply boot_sound; [done|].
  eapply vouched_ok, Hr; [by left|done].
Qed.

(** ** Calls *)

Lemma endpoint_calls r id x x' s :
  Field.trim (Identity.tenant_id id) = Identity.tenant_id id ->
  endpoint r id x = (x', Ok s) -> granted_run x x' s.2.
Proof.
  intros HT E.
  assert (forall A (m : M (App W) A) (f : A -> Response * option (string * string)) y,
    (let* a := m in ret (f a, [])) x = (y, Ok s) -> s.2 = []) as Hnone.
  { intros A m' f y. unfold bind. destruct (m' x) as [y' [a|e]]; [|done]. by intros [= _ <-]. }
  destruct r as [| | |body key|run|run|run after last accept|run|run approval body key]; simpl in E;
    try (left; by erewrite Hnone by exact E); try (left; by injection E as _ <-).
  apply (request_calls redact read_monotonic Hmono (Identity.tenant_id id)
    (let* a := Api.decide redact read_monotonic run approval body id key in ret a.2)); [done|by apply q_decide|].
  revert E. unfold bind. destruct (Api.decide _ _ _ _ _ _ _ _) as [y [a|e]]; [|done]. by intros [= <- <-].
Qed.
Lemma move_calls log sv log' sv' calls :
  move log sv log' sv' calls -> kept_by log sv -> granted_run (app sv) (app sv') calls.
Proof.
  intros [q r c s Htrim E|i c s E|T w Hf Ha|w Hw] [_ Ht]; [..|by left|by left].
  - destruct (public (route q)) eqn:Hp.
    { destruct (serve_public sv q Hp) as [r' E']. rewrite E' in E. injection E as _ _ <-. by left. }
    destruct (served_or_turned_away sv q Hp) as [(id & Hs & Has)|(_ & _ & _ & r' & Er & _)].
    2:{ rewrite E in Er. injection Er as _ ->. by left. }
    unfold served_as in Has. rewrite E in Has. simpl in Has.
    destruct (endpoint (route q) id (app sv)) as [x [a|e]] eqn:Ee;
      [destruct Has as (-> & _ & [= _ ->])|destruct Has as (_ & _ & [= _ ->]); by left].
    eapply endpoint_calls, Ee. by apply Htrim.
  - revert E. unfold ApiServer.run_task. rewrite bind_gets. simpl.
    destruct (tasks sv !! i) as [[run T]|] eqn:Ei; [|intros [= _ <-]; by left].
    pose proof (proj1 (Forall_lookup _ _) Ht i _ Ei) as HT. unfold bind, on_app. simpl.
    destruct (Api.execute_run _ _ _ _ _) as [x [l|e]] eqn:Ee; [|done]. intros [= <- <-].
    exact (execute_calls redact read_monotonic Hmono T run (app sv) x l HT Ee).
Qed.
End Oidc.
End Process.

(** C6. Nobody but the bearer of a verified token reaches an endpoint: in
    [AUTH_MODE=oidc] a request to the probes changes nothing, and any other one
    is either the call of its endpoint with the identity of a token whose
    signature and claims were verified, or carries no such token and is turned
    away before it changes the store, the caches or the queue of tasks, with 401
    when it has no token at all.  The identity with every scope that
    [get_identity] falls back to is never used. *)
Theorem requests_need_tokens {W} `{EngineLaws W} redact read_monotonic getenv urlopen injected pyjwt m
    (sv : Server W) q :
  getenv "AUTH_MODE" = Some m -> PyStr.lower (PyStr.strip m) = "oidc" ->
  if public (route q)
  then exists r, ApiServer.serve redact read_monotonic getenv urlopen injected pyjwt q sv = (sv, Ok (r, []))
  else (exists id, speaks getenv urlopen injected pyjwt sv q id
          /\ served_as redact read_monotonic getenv urlopen injected pyjwt id sv q)
       \/ (forall id, ~ speaks getenv urlopen injected pyjwt sv q id)
          /\ turned_away redact read_monotonic getenv urlopen injected pyjwt sv q.
Proof.
  intros Hget Hm. destruct (public (route q)) eqn:Hp; [by apply serve_public|].
  by eapply served_or_turned_away.
Qed.

(** C1. Writes trace back to tokens: in [AUTH_MODE=oidc], over every history of
    requests by anybody, runs of background tasks, writes of other processes and
    restarts, a write call that the graph makes is that of an action which a
    cached run proposed and whose approval is stored as approved.  Unless that
    approval was approved in the database at the start of the history, or by a
    write of another process, the history holds the request that approved it: a
    decision on that approval with a verified token of its tenant that has the
    scope [case.approve], made before the approval expired, naming the stored
    approver. *)
Theorem writes_trace_to_tokens {W} `{EngineLaws W} redact read_monotonic getenv urlopen injected pyjwt others m
    log (sv : Server W) log' sv' calls tool args :
  getenv "AUTH_MODE" = Some m -> PyStr.lower (PyStr.strip m) = "oidc" -> observes read_monotonic ->
  reached redact read_monotonic getenv urlopen injected pyjwt others log sv ->
  move redact read_monotonic getenv urlopen injected pyjwt others log sv log' sv' calls ->
  (tool, args) ∈ write_calls calls ->
  authorized_by (fun row => others row \/ decided_in getenv urlopen injected pyjwt log' row)
    (app sv) (app sv') tool args.
Proof.
  intros Hget Hm Hmono Hr Hmove Hin.
  pose proof (reached_kept _ _ _ _ _ _ m Hget Hm others Hmono log sv Hr) as Hk.
  pose proof (move_kept _ _ _ _ _ _ m Hget Hm others Hmono log sv log' sv' calls Hmove Hk) as [Hx' _].
  eapply authorized_mono, (granted_authorized (accounted getenv urlopen injected pyjwt others log'));
    [|eapply sound_weaken, Hk; intros row; exact (move_log _ _ _ _ _ _ others _ _ _ _ _ row Hmove)|exact Hx'|by eapply move_calls|done].
  by intros row (_ & _ & ?).
Qed.

(** ** A run of the process on the in-memory engine *)

Module ServerDemo.
Definition getenv : string -> option string := BearerDemo.oidc.
Definition request (r : Route) : Request := mkRequest r ("Bearer " +:+ BearerDemo.token) BearerDemo.now.
Definition create : Request := request (CreateRun ApiDemo.body (Some "key-1")).
Definition decide : Request := request (Decide "run_id0" ApiDemo.approval_id ApiDemo.approve (Some "key-2")).
Definition tokenless : Request := mkRequest (GetRun "run_id0") "" BearerDemo.now.
Definition serve : Request -> M (Server Memory.db) (Response * list obs) :=
  ApiServer.serve ApiDemo.hook ApiDemo.tick getenv BearerDemo.keys None (Some BearerDemo.verifier).
Definition run_task : nat -> M (Server Memory.db) (list obs) := ApiServer.run_task ApiDemo.hook ApiDemo.tick.

Definition fresh : Server Memory.db := boot Memory.empty.
Definition created : Server Memory.db := (serve create fresh).1.
Definition paused : Server Memory.db := (run_task 0 created).1.
Definition decided : Server Memory.db := (serve decide paused).1.
Definition log : Log := [(fresh, create)].

Definition moves : Log -> Server Memory.db -> Log -> Server Memory.db -> list obs -> Prop :=
  move ApiDemo.hook ApiDemo.tick getenv BearerDemo.keys None (Some BearerDemo.verifier) (fun _ => False).
Definition calls {A} (r : result (A * list obs)) : list obs := match r with Ok a => a.2 | Exn _ => [] end.
End ServerDemo.

Lemma demo_moves log sv q :
  public (route q) = false ->
  (Bearer.dispatch ServerDemo.getenv (clock q) BearerDemo.keys None (Some BearerDemo.verifier) (path (route q))
     (authorization q) (jwks sv)).2 = Ok (Bearer.Attached BearerDemo.identity) ->
  is_ok (ServerDemo.serve q sv).2 = true ->
  ServerDemo.moves log sv ((sv, q) :: log) (ServerDemo.serve q sv).1 (ServerDemo.calls (ServerDemo.serve q sv).2).
Proof.
  intros Hp Hd Hok. destruct (ServerDemo.serve q sv) as [sv' [[r calls]|e]] eqn:E; [|done].
  eapply (m_serve _ _ _ _ _ _ _ _ _ q r); [|exact E].
  intros id Hs. apply (dispatch_speaks ServerDemo.getenv BearerDemo.keys None (Some BearerDemo.verifier) " OIDC"
    eq_refl eq_refl sv q id Hp) in Hs. rewrite Hd in Hs. by injection Hs as <-.
Qed.
Lemma demo_task log sv i :
  is_ok (ServerDemo.run_task i sv).2 = true ->
  ServerDemo.moves log sv log (ServerDemo.run_task i sv).1
    match (ServerDemo.run_task i sv).2 with Ok calls => calls | Exn _ => [] end.
Proof.
  intros Hok. destruct (ServerDemo.run_task i sv) as [sv' [calls|e]] eqn:E; [|done]. by eapply (m_task _ _ _ _ _ _ _ _ _ i).
Qed.
Lemma demo_reached :
  reached ApiDemo.hook ApiDemo.tick ServerDemo.getenv BearerDemo.keys None (Some BearerDemo.verifier) (fun _ => False)
    ServerDemo.log ServerDemo.paused.
Proof.
  eapply (r_move _ _ _ _ _ _ _ ServerDemo.log ServerDemo.created _ ServerDemo.paused).
  - eapply r_move; [apply (r_boot _ _ _ _ _ _ _ Memory.empty)|].
    + apply no_rows_constraints.
    + constructor.
    + apply (demo_moves [] ServerDemo.fresh ServerDemo.create); [reflexivity|vm_compute; reflexivity..].
  - apply demo_task. vm_compute. reflexivity.
Qed.

Lemma requests_need_tokens_witness :
  content <$> match (ServerDemo.serve ServerDemo.tokenless ServerDemo.paused).2 with
              | Ok (r, _) => Some r | Exn _ => None end
  = Some (Json (Api.envelope "unauthorized" "missing bearer token" false))
  /\ (exists id, speaks ServerDemo.getenv BearerDemo.keys None (Some BearerDemo.verifier) ServerDemo.paused
          ServerDemo.decide id
        /\ served_as ApiDemo.hook ApiDemo.tick ServerDemo.getenv BearerDemo.keys None (Some BearerDemo.verifier) id
          ServerDemo.paused ServerDemo.decide).
Proof.
  split; [vm_compute; reflexivity|].
  destruct (requests_need_tokens ApiDemo.hook ApiDemo.tick ServerDemo.getenv BearerDemo.keys None
    (Some BearerDemo.verifier) " OIDC" ServerDemo.paused ServerDemo.decide eq_refl eq_refl) as [Hs|[_ (_ & _ & Hs)]];
    [exact Hs|exfalso]. destruct Hs as (r & Hr & Hh & _). revert Hh. 
  assert ((ServerDemo.serve ServerDemo.decide ServerDemo.paused).2 = Ok (r, [])) as Hr' by exact Hr.
  revert Hr'. vm_compute. discriminate.
Defined.

Lemma writes_trace_to_tokens_witness :
  authorized_by (fun row => False \/ decided_in ServerDemo.getenv BearerDemo.keys None (Some BearerDemo.verifier)
      ((ServerDemo.paused, ServerDemo.decide) :: ServerDemo.log) row)
    (app ServerDemo.paused) (app ServerDemo.decided) "ticket.create"
    [("title", VStr "Investigate checkout"); ("severity", VStr "high")].
Proof.
  refine (writes_trace_to_tokens ApiDemo.hook ApiDemo.tick ServerDemo.getenv BearerDemo.keys None
    (Some BearerDemo.verifier) (fun _ => False) " OIDC" ServerDemo.log ServerDemo.paused _ ServerDemo.decided
    (ServerDemo.calls (ServerDemo.serve ServerDemo.decide ServerDemo.paused).2) _ _ eq_refl eq_refl demo_tick
    demo_reached _ _).
  - apply (demo_moves ServerDemo.log ServerDemo.paused ServerDemo.decide); [reflexivity|vm_compute; reflexivity..].
  - assert (write_calls (ServerDemo.calls (ServerDemo.serve ServerDemo.decide ServerDemo.paused).2) = ApiDemo.ticket)
      as -> by (vm_compute; reflexivity). left.
Defined.

(** ** Where the process does other than it says *)

(** The stored approver is the one that the body names, not the bearer of the
    token. *)
Example approver_is_not_the_caller :
  map ApprovalRow.approver (Tables.approvals (committed (db (app ServerDemo.decided)))) = [Some "alice"]
  /\ Identity.user_id BearerDemo.identity = "mallory".
Proof. vm_compute. done. Qed.

(** A refusal has none of the security headers, an answer of a route all. *)
Definition header_count (r : result (Response * list obs)) : nat :=
  match r with Ok (a, _) => length (headers a) | Exn _ => 0 end.
Example refusals_lack_headers :
  header_count (ServerDemo.serve ServerDemo.tokenless ServerDemo.paused).2 = 0
  /\ header_count (ServerDemo.serve ServerDemo.decide ServerDemo.paused).2 = 7.
Proof. vm_compute. done. Qed.

(** After a restart the decision of a paused run is stored, and the run is never
    resumed. *)
Example restart_strands_runs :
  let '(sv, r) := ServerDemo.serve ServerDemo.decide (boot (db (app ServerDemo.paused))) in
  is_ok r = true /\ write_calls (ServerDemo.calls r) = []
  /\ map ApprovalRow.decision (Tables.approvals (committed (db (app sv)))) = ["approved"]
  /\ map Run.status (Tables.runs (committed (db (app sv)))) = ["waiting_for_approval"]
  /\ tasks sv = [].
Proof. vm_compute. done. Qed.
