(* ===== verification/Worker.v ===== *)
(** * The worker's queue

    [InMemoryRunQueue] of [apps/worker/worker.py] with [make_graph] and
    [process_one_run], and the start of [main].  The jobs over the repository
    are in [Api].  A run state is an object that the queue's table and the
    graph share; here the table holds its value, written back after a run.
    [main] polls nothing: after its configuration check it sleeps until it is
    interrupted. *)

From stdpp Require Import base gmap sets list strings pretty.
From Stdlib Require Import ZArith Lia Ascii.
From S2P Require Import Prelude.
From S2P Require Import PyFloat.
From S2P Require Import PyValue.
From S2P Require Import PyTime.
From S2P Require Import Contracts.
From S2P Require Import ContractsOps.
From S2P Require Import Bearer.
From S2P Require Import RunState.
From S2P Require Import GraphTools.
From S2P Require Import Graph.
From S2P Require Import GraphSteps.
From S2P Require Import GraphFakes.
From S2P Require Import GraphLemmas.
From S2P Require Import GraphFlow.
From S2P Require Import GraphGate.
From S2P Require Import GraphOutcome.
From S2P Require Import GraphWorld.
From S2P Require Import Api.

Local Open Scope py_scope.

Module Worker.
Import Graph Api.

Record Queue := mkQueue {
  pending_jobs : list RunJob; states : gmap string RunState; store : Fakes.Persistence }.
Definition new_queue : Queue := mkQueue [] ∅ (Fakes.mkPersistence [] []).

(** The keyword arguments of [make_graph]: the fakes, as the tests configure
    them. *)
Record Overrides := mkOverrides {
  fail_tools : list (string * string); health_status : string; a2a_mode : string; confidence : float;
  policy_mode : string }.
Definition no_overrides : Overrides := mkOverrides [] "degraded" "ok" (PyFloat.ratio 8 10) "approve_all".

Section Queue.
(** The clock. *)
Variable now : PyTime.time.

Definition with_state (id : string) (s : RunState) : M Queue unit :=
  modify (fun q => mkQueue (pending_jobs q) (<[id := s]> (states q)) (store q)).

Definition enqueue (job : RunJob) : M Queue unit :=
  with_state (job_run_id job) (job_state job now) ;;*
  modify (fun q => mkQueue (pending_jobs q ++ [job]) (states q) (store q)).

Definition request_cancel (run_id : string) : M Queue bool :=
  let* found := gets (fun q => states q !! run_id) in
  match found with
  | None => ret false
  | Some s => with_state run_id (set_cancelled true s) ;;* ret true
  end.

(** A graph from [make_graph]: its fakes over the queue's store, a fresh
    breaker. *)
Definition make_graph (o : Overrides) (s : RunState) (q : Queue) : G Fakes.World :=
  mkG s (CircuitBreaker.init CircuitBreaker.THRESHOLD)
    (Fakes.mkWorld (fail_tools o) (health_status o) [] (a2a_mode o) (confidence o) [] [] (policy_mode o)
       (store q) now false) [].

(** A method of such a graph on the run's state; its calls are returned. *)
Definition on_graph {A} (o : Overrides) (run_id : string) (s : RunState) (m : M (G Fakes.World) A)
    : M Queue (RunState * list obs * result A) := fun q =>
  let '(g, r) := m (make_graph o s q) in
  (mkQueue (pending_jobs q) (<[run_id := st g]> (states q)) (Fakes.store (world g)), Ok (st g, trace g, r)).

Definition decide_approval (run_id decision approver : string) (reason : option string)
    : M Queue (RunState * list obs * result unit) :=
  let* found := gets (fun q => states q !! run_id) in
  match found with
  | None => raise (KeyError (PyStr.repr ("unknown run " +:+ run_id)))
  | Some s =>
      let* done := on_graph no_overrides run_id s
                     (Steps.resume_after_approval Steps.run_fuel decision approver reason) in
      ret (done.1, match done.2 with Ok _ => Ok tt | Exn e => Exn e end)
  end.

(** [state.limits = job.limits] *)
Definition set_limits (v : BudgetLimits) (s : RunState) : RunState :=
  mkRunState (run_id s) (tenant_id s) (objective s) (context s) (status s) (current_state s)
    (budget s) v (usage s) (started_at s) (trace_id s) (correlation_id s)
    (classification s) (plan s) (resources s) (mcp_evidence s) (a2a_result s) (a2a_fallback s)
    (findings s) (proposed_actions s) (policy_decisions s) (approvals s) (unresolved s)
    (outcome s) (error s) (conflict s) (retried_reads s) (event_sequence s) (cancelled s)
    (correlation_note s) (run_result s).

(** [get_nowait]; the state of the job, with its limits; the run. *)
Definition process_one (o : Overrides) : M Queue (option (RunState * list obs * result unit)) :=
  let* jobs := gets pending_jobs in
  match jobs with
  | [] => ret None
  | job :: rest =>
      modify (fun q => mkQueue rest (states q) (store q)) ;;*
      let* found := gets (fun q => states q !! job_run_id job) in
      match found with
      | None => raise (KeyError (PyStr.repr (job_run_id job)))
      | Some s =>
          let* done := on_graph o (job_run_id job) (set_limits (job_limits job) s)
                         (Steps.run Steps.run_fuel) in
          ret (Some (done.1, match done.2 with Ok _ => Ok tt | Exn e => Exn e end))
      end
  end.
Definition process_one_run : Overrides -> M Queue (option (RunState * list obs * result unit)) := process_one.

Definition pending : M Queue nat := gets (fun q => length (pending_jobs q)).

(** [main] up to its idle loop *)
Definition main (getenv : string -> option string) : result unit := Bearer.validate_auth_config getenv.
End Queue.
End Worker.

(** ** What the queue promises *)

Import GraphTools Graph Steps Api Worker.

(** The store only grows. *)
Definition extends_store (p p' : Fakes.Persistence) : Prop :=
  (exists l, Fakes.saves p' = Fakes.saves p ++ l) /\ (exists l, Fakes.events p' = Fakes.events p ++ l).
#[global] Instance extends_store_order : PreOrder extends_store.
Proof.
  split.
  - intros p. split; exists []; by rewrite app_nil_r.
  - intros p1 p2 p3 [[l1 E1] [l2 E2]] [[l3 E3] [l4 E4]].
    split; eexists; [by rewrite E3, E1, <- app_assoc|by rewrite E4, E2, <- app_assoc].
Qed.

Definition grows (w w' : Fakes.World) : Prop := extends_store (Fakes.store w) (Fakes.store w').
#[global] Instance grows_order : PreOrder grows.
Proof. split; [intros w; unfold grows; reflexivity|intros x y z; unfold grows; apply transitivity]. Qed.

Lemma fakes_respect : respected (W:=Fakes.World) grows.
Proof.
  assert (forall f : Fakes.World -> Fakes.World, (forall w, Fakes.store (f w) = Fakes.store w) ->
            steps grows (modify f)) as Hq.
  { intros f Hf w. unfold grows. simpl. rewrite Hf. reflexivity. }
  assert (forall n t a, steps grows (Fakes.fake_invoke n t a)) as Hi.
  { intros n t a. unfold Fakes.fake_invoke. steps_walk ltac:(by apply Hq). }
  assert (forall r t, steps grows (Fakes.fake_delegate r t)) as Hd.
  { intros r t. unfold Fakes.fake_delegate. steps_walk ltac:(by apply Hq). }
  constructor; simpl; intros; auto with steps.
  all: try match goal with E : Some _ = Some _ |- _ => injection E as <-; by apply Hq end.
  - steps_walk ltac:(by apply Hq).
  - intros w. unfold grows. simpl. split; eexists; simpl; [done|by rewrite app_nil_r].
  - intros w. unfold grows. simpl. split; eexists; simpl; [by rewrite app_nil_r|done].
  - apply steps_ret; tc_solve.
  - apply steps_ret; tc_solve.
  - apply steps_gets; tc_solve.
  - apply steps_gets; tc_solve.
  - apply steps_ret; tc_solve.
Qed.

(** A cancelled run, wherever it stands, is only recorded. *)
Lemma cancelled_calls {W} `{!Deps W} n (g : G W) :
  cancelled (st g) = true -> emits cancel_only g (run (S n) g).1.
Proof.
  intros Hc. unfold run, bind.
  assert (steps (emits cancel_only) (start (W:=W))) as He.
  { unfold start. apply steps_bind; [tc_solve|apply steps_gets; tc_solve|intros s].
    destruct (String.eqb _ _); [|apply steps_ret; tc_solve].
    apply steps_bind; [tc_solve|apply emits_upd|intros _]. by apply records_transition. }
  assert (steps (keeps cancelled) (start (W:=W))) as Hk.
  { unfold start. apply steps_bind; [tc_solve|apply steps_gets; tc_solve|intros s].
    destruct (String.eqb _ _); [|apply steps_ret; tc_solve].
    apply steps_bind; [tc_solve|by apply keeps_upd|intros _]. unfold transition.
    apply steps_bind; [tc_solve|by apply keeps_upd|intros _].
    apply steps_bind; [tc_solve|by apply keeps_emit|intros _]. apply keeps_save. }
  specialize (He g). specialize (Hk g). destruct (start g) as [g1 [[]|e]]; [|done]. simpl in He, Hk.
  etransitivity; [exact He|]. unfold try_catch. simpl. unfold step at 1, bind at 1 2.
  pose proof (wp_check_cancel g1) as Hw. unfold wp in Hw. unfold keeps in Hk.
  destruct (check_cancel g1) as [g2 [[]|e]]; [destruct Hw; congruence|].
  destruct Hw as [-> Et]. cbn [handle]. unfold bind.
  pose proof (on_cancel_calls g2) as Ho. destruct (on_cancel g2) as [g3 r3]. simpl in Ho.
  assert (emits cancel_only g1 g3) as H13 by (destruct Ho as (l & El & HF); exists l; by rewrite El, Et).
  by destruct r3.
Qed.

Section Promises.
Variable now : PyTime.time.

(** All jobs in turn. *)
Fixpoint drain (o : Overrides) (n : nat) : M Queue (list (RunState * list obs * result unit)) :=
  match n with
  | O => ret []
  | S n' =>
      let* done := process_one now o in
      let* rest := drain o n' in
      ret (match done with Some x => x :: rest | None => rest end)
  end.

(** A run of a fresh graph on a state: what it returns, and the queue after it. *)
Definition outcome_of (o : Overrides) (s : RunState) (q : Queue) : RunState * list obs * result unit :=
  let '(g, r) := run run_fuel (make_graph now o s q) in
  (st g, trace g, match r with Ok _ => Ok tt | Exn e => Exn e end).

Lemma process_one_spec o job rest s q :
  pending_jobs q = job :: rest -> states q !! job_run_id job = Some s ->
  let x := outcome_of o (set_limits (job_limits job) s) (mkQueue rest (states q) (store q)) in
  exists p, process_one now o q = (mkQueue rest (<[job_run_id job := x.1.1]> (states q)) p, Ok (Some x))
    /\ extends_store (store q) p.
Proof.
  intros Hj Hs. unfold process_one. rewrite bind_gets, Hj. unfold bind at 1, modify. rewrite bind_gets. cbn [states].
  rewrite Hs. unfold bind, on_graph, outcome_of. set (s1 := set_limits _ _). set (q1 := mkQueue rest _ _).
  pose proof (world_run (W:=Fakes.World) grows run_fuel fakes_respect (make_graph now o s1 q1)) as Hw.
  destruct (run run_fuel _) as [g r]. eexists. split; [done|]. exact Hw.
Qed.

Lemma enqueue_all_spec js q :
  exists st', for_each js (enqueue now) q = (mkQueue (pending_jobs q ++ js) st' (store q), Ok tt)
    /\ (forall id, id ∉ map job_run_id js -> st' !! id = states q !! id)
    /\ (NoDup (map job_run_id js) -> Forall (fun j => st' !! job_run_id j = Some (job_state j now)) js).
Proof.
  revert q. induction js as [|j js IH]; intros q.
  { exists (states q). simpl. rewrite app_nil_r. destruct q. split_and!; [done|done|by constructor]. }
  simpl. unfold bind at 1. simpl. set (q1 := mkQueue _ _ _). destruct (IH q1) as (st' & E & Hother & Hnew).
  exists st'. unfold for_each in E |- *. rewrite E. subst q1. simpl in *. split_and!.
  - by rewrite <- app_assoc.
  - intros id Hid. apply not_elem_of_cons in Hid as [Hne Hid]. rewrite Hother by done. by apply lookup_insert_ne.
  - intros [Hj Hnd]%NoDup_cons. constructor; [|by apply Hnew]. rewrite Hother by done. apply lookup_insert_eq.
Qed.

(** What one job of a drained queue got. *)
Definition served (j : RunJob) (x : RunState * list obs * result unit) : Prop :=
  (exists o q, x = outcome_of o (job_state j now) q)
  /\ write_calls x.1.2 = [] /\ (x.2 = Ok tt -> settled x.1.1).

Lemma served_outcome o j q : served j (outcome_of o (job_state j now) q).
Proof.
  split; [by exists o, q|]. unfold outcome_of. set (g := make_graph now o (job_state j now) q).
  pose proof (run_reads run_fuel g (or_introl eq_refl)) as Hr.
  pose proof (settled_run run_fuel g (or_introl eq_refl)) as Hst.
  pose proof (proj1 (run_returns 0 g)) as Hret. change (run_fuel + 0) with run_fuel in Hret.
  destruct (run run_fuel g) as [g' r]. simpl in *. split.
  - destruct Hr as (ext & -> & HF). simpl. by apply read_only_writes.
  - destruct r as [[[]|]|]; [by intros _|done|done].
Qed.

Lemma drain_spec o js q :
  pending_jobs q = js -> NoDup (map job_run_id js) ->
  Forall (fun j => states q !! job_run_id j = Some (job_state j now)) js ->
  exists q' out, drain o (length js) q = (q', Ok out) /\ pending_jobs q' = []
    /\ Forall2 served js out
    /\ Forall2 (fun j x => states q' !! job_run_id j = Some x.1.1) js out
    /\ (forall id, id ∉ map job_run_id js -> states q' !! id = states q !! id)
    /\ extends_store (store q) (store q').
Proof.
  revert q. induction js as [|j js IH]; intros q Hj Hnd Hst.
  { exists q, []. split_and!; try done; constructor. }
  apply NoDup_cons in Hnd as [Hin Hnd]. apply Forall_cons in Hst as [Hs Hst].
  destruct (process_one_spec o j js _ q Hj Hs) as (p & E & Hp). cbn zeta in E.
  set (x := outcome_of _ _ _) in E.
  destruct (IH (mkQueue js (<[job_run_id j := x.1.1]> (states q)) p)) as (q' & out & E' & Hj' & Hsv & Hfin & Hother & Hp');
    [done|done| |].
  { rewrite Forall_forall in Hst |- *. intros j' Hj'. simpl. rewrite lookup_insert_ne by (intros Heq; apply Hin;
      rewrite Heq; apply list_elem_of_fmap; eauto). by apply Hst. }
  exists q', (x :: out). cbn [length drain]. unfold bind. rewrite E. fold (drain o). rewrite E'. simpl in Hother, Hp'.
  split_and!; [done|done| | | |by etransitivity].
  - constructor; [apply served_outcome|done].
  - constructor; [|done]. rewrite Hother by done. apply lookup_insert_eq.
  - intros id Hid. apply not_elem_of_cons in Hid as [Hne Hid]. rewrite Hother by done. by apply lookup_insert_ne.
Qed.
End Promises.

(** The queue serves in order and keeps runs apart: after any jobs with
    distinct runs have been put into an empty queue, processing as many times
    empties it; the k-th processing runs the k-th job on a fresh graph, from its
    own new state and with its own limits, makes no write call, and leaves the
    run settled unless recording failed; the table then holds each run's result,
    other runs are as they were, and the store has only grown. *)
Theorem queue_serves_in_order now o js q :
  pending_jobs q = [] -> NoDup (map job_run_id js) ->
  exists q' out, (for_each js (enqueue now) ;;* drain now o (length js)) q = (q', Ok out)
    /\ pending_jobs q' = [] /\ (process_one now o q').2 = Ok None
    /\ Forall2 (served now) js out
    /\ Forall2 (fun j x => states q' !! job_run_id j = Some x.1.1) js out
    /\ (forall id, id ∉ map job_run_id js -> states q' !! id = states q !! id)
    /\ extends_store (store q) (store q').
Proof.
  intros Hq Hnd. destruct (enqueue_all_spec now js q) as (st' & E & Hother & Hnew).
  unfold bind. rewrite E, Hq. destruct (drain_spec now o js (mkQueue js st' (store q)) eq_refl Hnd (Hnew Hnd))
    as (q' & out & E' & Hj & Hsv & Hfin & Hother' & Hp).
  exists q', out. simpl in *. split_and!; try done.
  - unfold process_one. by rewrite bind_gets, Hj.
  - intros id Hid. by rewrite Hother', Hother by done.
Qed.

(** A run that was cancelled before its job came up is only recorded: the
    graph makes no tool, specialist, model or policy call for it. *)
Theorem cancelled_job_makes_no_call now o job rest s q q1 b q2 x :
  pending_jobs q = job :: rest -> states q !! job_run_id job = Some s ->
  request_cancel (job_run_id job) q = (q1, Ok b) -> process_one now o q1 = (q2, Ok (Some x)) ->
  b = true /\ Forall cancel_only x.1.2 /\ pending_jobs q2 = rest.
Proof.
  intros Hj Hs E1 E2. unfold request_cancel in E1. rewrite bind_gets, Hs in E1. injection E1 as <- <-.
  destruct (process_one_spec now o job rest (set_cancelled true s)
    (mkQueue (pending_jobs q) (<[job_run_id job := set_cancelled true s]> (states q)) (store q)) Hj
    ltac:(apply lookup_insert_eq)) as (p & E & _).
  rewrite E in E2. injection E2 as <- <-. split_and!; [done| |done].
  unfold outcome_of. set (g := make_graph now o _ _).
  destruct (cancelled_calls 13 g eq_refl) as (ext & Et & HF). change run_fuel with 14.
  destruct (run 14 g) as [g' r]. simpl in *. by rewrite Et.
Qed.

(** ** Witnesses *)

Module WorkerDemo.
Definition job (id : string) : RunJob :=
  mkJob id "acme" "Investigate checkout error rate" [("service", VStr "checkout-api")]
    RunState.default_limits None None.
Definition now : PyTime.time := 1789128000000000.
Definition submitted : Queue := (for_each [job "run_1"; job "run_2"] (enqueue now) new_queue).1.
End WorkerDemo.

Lemma queue_serves_in_order_witness :
  NoDup (map job_run_id [WorkerDemo.job "run_1"; WorkerDemo.job "run_2"])
  /\ exists q' out, (for_each [WorkerDemo.job "run_1"; WorkerDemo.job "run_2"] (enqueue WorkerDemo.now) ;;*
       drain WorkerDemo.now no_overrides 2) new_queue = (q', Ok out)
     /\ Forall2 (served WorkerDemo.now) [WorkerDemo.job "run_1"; WorkerDemo.job "run_2"] out.
Proof.
  assert (NoDup (map job_run_id [WorkerDemo.job "run_1"; WorkerDemo.job "run_2"])) as Hnd
    by (apply (bool_decide_unpack _); vm_compute; exact I).
  split; [exact Hnd|].
  destruct (queue_serves_in_order WorkerDemo.now no_overrides [WorkerDemo.job "run_1"; WorkerDemo.job "run_2"]
    new_queue eq_refl Hnd) as (q' & out & E & _ & _ & Hs & _). exists q', out. split; [exact E|exact Hs].
Defined.

Lemma cancelled_job_makes_no_call_witness :
  let q1 := (request_cancel "run_1" WorkerDemo.submitted).1 in
  match (process_one WorkerDemo.now no_overrides q1).2 with
  | Ok (Some x) => Forall cancel_only x.1.2 /\ status x.1.1 = "cancelled"
  | _ => False
  end.
Proof.
  cbv zeta. set (q1 := (request_cancel "run_1" WorkerDemo.submitted).1).
  assert (match (process_one WorkerDemo.now no_overrides q1).2 with
          | Ok (Some x) => status x.1.1 = "cancelled" | _ => False end) as Hr by (vm_compute; reflexivity).
  assert (is_Some (states WorkerDemo.submitted !! "run_1")) as [s Es] by (vm_compute; eauto).
  assert (request_cancel "run_1" WorkerDemo.submitted = (q1, Ok true)) as E1.
  { subst q1. unfold request_cancel. by rewrite bind_gets, Es. }
  destruct (process_one WorkerDemo.now no_overrides q1) as [q2 [[x|]|]] eqn:E2; [|destruct Hr..].
  split; [|exact Hr].
  apply (cancelled_job_makes_no_call WorkerDemo.now no_overrides (WorkerDemo.job "run_1")
    [WorkerDemo.job "run_2"] s WorkerDemo.submitted q1 true q2 x); [reflexivity|exact Es|exact E1|exact E2].
Defined.

(** A run that is put into the queue twice is executed twice on one state: the
    second processing asks for its approvals again. *)
Example duplicate_job_asks_twice :
  let q := (for_each [WorkerDemo.job "run_1"; WorkerDemo.job "run_1"] (enqueue WorkerDemo.now) new_queue).1 in
  match (drain WorkerDemo.now no_overrides 2 q).2 with
  | Ok [a; b] => (length (approvals b.1.1) = 2 * length (approvals a.1.1))%nat /\ approvals a.1.1 <> []
  | _ => False
  end.
Proof. vm_compute. split; [reflexivity|discriminate]. Qed.
