(* ===== verification/FileSystem.v ===== *)
(** * Files

    What the development scripts use of [pathlib], [tempfile] and [print]: a tree
    of directories and texts under a root that always exists, and the lines
    printed.  A text is its UTF-8 encoding, byte by byte; a [Blob] is a file that
    is none.  The disk neither fills up nor refuses permission. *)

From stdpp Require Import base gmap sets list strings.
From Stdlib Require Import ZArith Lia Ascii.
From S2P Require Import Prelude.
From S2P Require Import PyValue.

Local Open Scope py_scope.

Inductive entry : Type :=
  | Dir
  | Text (s : string)
  | Blob.

(** The names from the root on. *)
Abbreviation path := (list string).

Record Host := mkHost { entries : gmap path entry; printed : list string }.

Module Files.

Definition at_path (p : path) (h : Host) : option entry :=
  match p with [] => Some Dir | _ => entries h !! p end.
Definition set_entry (p : path) (e : entry) : M Host unit :=
  modify (fun h => mkHost (<[p := e]> (entries h)) (printed h)).
Definition print (line : string) : M Host unit :=
  modify (fun h => mkHost (entries h) (printed h ++ [line])).
Definition os_error (cls : string) (p : path) : exn := OtherError cls (PyStr.join "/" p).

(** [path.exists()] *)
Definition exists_ (p : path) : M Host bool :=
  gets (fun h => match at_path p h with Some _ => true | None => false end).

(** [path.mkdir(parents=True, exist_ok=True)], from the root down *)
Fixpoint mkdirs (above rest : path) : M Host unit :=
  match rest with
  | [] => ret tt
  | name :: rest' =>
      let p := above ++ [name] in
      let* found := gets (at_path p) in
      match found with
      | Some Dir => mkdirs p rest'
      | Some _ => raise (os_error (match rest' with [] => "FileExistsError" | _ => "NotADirectoryError" end) p)
      | None => set_entry p Dir ;;* mkdirs p rest'
      end
  end.
Definition mkdir (p : path) : M Host unit := mkdirs [] p.

(** [path.parent] *)
Definition parent (p : path) : path := removelast p.

(** [path.write_text(s, encoding="utf-8")] *)
Definition write_text (p : path) (s : string) : M Host unit :=
  let* above := gets (at_path (parent p)) in
  let* here := gets (at_path p) in
  match above, here with
  | None, _ => raise (os_error "FileNotFoundError" p)
  | Some Dir, Some Dir => raise (os_error "IsADirectoryError" p)
  | Some Dir, _ => set_entry p (Text s)
  | Some _, _ => raise (os_error "NotADirectoryError" p)
  end.

(** The newline translation of text mode. *)
Fixpoint universal (s : string) : string :=
  match s with
  | EmptyString => EmptyString
  | String c s' =>
      if Ascii.eqb c "013" then
        match s' with
        | String "010" _ => universal s'
        | _ => String "010" (universal s')
        end
      else String c (universal s')
  end.
(** [path.read_text(encoding="utf-8")] *)
Definition read_text (p : path) : M Host string :=
  let* found := gets (at_path p) in
  match found with
  | Some (Text s) => ret (universal s)
  | Some Blob => raise (OtherError "UnicodeDecodeError" "invalid UTF-8")
  | Some Dir => raise (os_error "IsADirectoryError" p)
  | None => raise (os_error "FileNotFoundError" p)
  end.

(** [with tempfile.TemporaryDirectory() as tmp: body], where [tmp] is the name
    that was chosen; the directory goes with all that is in it. *)
Definition below (d p : path) : bool := bool_decide (d `prefix_of` p).
Definition rmtree (d : path) : M Host unit :=
  modify (fun h => mkHost (filter (fun kv => below d kv.1 = false) (entries h)) (printed h)).
Definition temporary {A} (tmp : path) (body : M Host A) : M Host A :=
  set_entry tmp Dir ;;*
  try_finally body (rmtree tmp).
End Files.
