(* ===== verification/SkillPackProps.v ===== *)
(** * Generated files agree with their sources

    What the two scripts write passes their own checks, which change nothing and
    notice every file that differs. *)

From stdpp Require Import base gmap sets list strings pretty.
From Stdlib Require Import ZArith Lia Ascii.
From S2P Require Import Prelude.
From S2P Require Import PyValue.
From S2P Require Import Json.
From S2P Require Import Catalog.
From S2P Require Import FileSystem.
From S2P Require Import SkillPack.

Import Files.
Local Open Scope py_scope.

(** ** Files *)

(** [m] returns, with [Q]. *)
Abbreviation returns m Q h := (wp m Q (fun _ _ => False) h).

Lemma returns_bind {A B} (m : M Host A) (f : A -> M Host B) (Q : A -> Host -> Prop) (R : B -> Host -> Prop) h :
  returns m Q h -> (forall a h', Q a h' -> returns (f a) R h') -> returns (bind m f) R h.
Proof. intros Hm Hf. apply wp_bind. unfold wp in *. destruct (m h) as [h' [a|e]]; [by apply Hf|done]. Qed.
Lemma returns_wand {A} (m : M Host A) (Q R : A -> Host -> Prop) h :
  returns m Q h -> (forall a h', Q a h' -> R a h') -> returns m R h.
Proof. unfold wp. destruct (m h) as [h' [a|e]]; auto. Qed.

Lemma at_path_cons p h : p <> [] -> at_path p h = entries h !! p.
Proof. by destruct p. Qed.

(** A place where a directory is or can be made, and where a text can go. *)
Definition open_at (h : Host) (p : path) : Prop :=
  p = [] \/ entries h !! p = None \/ entries h !! p = Some Dir.
Definition ready (h : Host) (p : path) : Prop :=
  p <> [] /\ (forall q, q `prefix_of` p -> q <> p -> open_at h q) /\ entries h !! p <> Some Dir.

Lemma prefix_snoc (q l : path) x : q `prefix_of` l ++ [x] -> q <> l ++ [x] -> q `prefix_of` l.
Proof.
  intros [k Hk] Hne. destruct k as [|y k _] using rev_ind; [by rewrite app_nil_r in Hk|].
  rewrite app_assoc in Hk. apply app_inj_tail in Hk as [-> _]. by exists k.
Qed.
Lemma snoc_not_nil {A} (l : list A) x : l ++ [x] <> [].
Proof. by destruct l. Qed.

(** Making a directory opens the places above it and no other. *)
Lemma mkdirs_returns rest : forall above h,
  (forall q, q `prefix_of` rest -> open_at h (above ++ q)) ->
  returns (mkdirs above rest) (fun _ h' =>
    printed h' = printed h
    /\ (forall q, q `prefix_of` rest -> q <> [] -> entries h' !! (above ++ q) = Some Dir)
    /\ (forall p, (forall q, q `prefix_of` rest -> q <> [] -> p <> above ++ q) -> entries h' !! p = entries h !! p)) h.
Proof.
  induction rest as [|x rest IH]; intros above h Ho; simpl.
  { split_and!; [done| |done]. intros q Hq Hne. by apply prefix_nil_inv in Hq. }
  set (p := above ++ [x]). assert (p <> []) as Hp by apply snoc_not_nil.
  apply wp_bind, wp_gets. rewrite at_path_cons by done.
  assert (forall (q : path), above ++ x :: q = p ++ q) as Eq by (intros q; unfold p; by rewrite <- app_assoc).
  assert (forall h1, entries h1 !! p = Some Dir ->
    (forall q, p <> q -> entries h1 !! q = entries h !! q) -> printed h1 = printed h ->
    returns (mkdirs p rest) (fun _ h' => printed h' = printed h
      /\ (forall q, q `prefix_of` x :: rest -> q <> [] -> entries h' !! (above ++ q) = Some Dir)
      /\ (forall p', (forall q, q `prefix_of` x :: rest -> q <> [] -> p' <> above ++ q) ->
            entries h' !! p' = entries h !! p')) h1) as Hgo.
  { intros h1 Hp1 Hsame Hpr. eapply returns_wand; [apply IH|].
    - intros q Hq. destruct (decide (q = [])) as [->|Hne]; [rewrite app_nil_r; by right; right|].
      assert (p ++ q <> p) as Hpq by (intros E; apply Hne; apply (app_inv_head p); by rewrite app_nil_r).
      destruct (Ho (x :: q)) as [E|Hq']; [by apply prefix_cons|by destruct above|].
      right. by rewrite Hsame, <- Eq by congruence.
    - intros [] h' (Hpr' & Hd & Ho'). split_and!; [congruence| |].
      + intros [|y q] Hq Hne; [done|]. assert (y = x) as -> by (by apply prefix_cons_inv_1 in Hq).
        apply prefix_cons_inv_2 in Hq. rewrite Eq. destruct (decide (q = [])) as [->|Hq0]; [|by apply Hd].
        rewrite app_nil_r. rewrite Ho'; [done|]. intros q' _ Hq' E. apply Hq'.
        apply (app_inv_head p). by rewrite app_nil_r.
      + intros p' Hp'. rewrite Ho', Hsame; [done| |].
        * intros <-. apply (Hp' [x]); [by apply prefix_cons, prefix_nil|done|done].
        * intros q Hq Hq0 ->. apply (Hp' (x :: q)); [by apply prefix_cons|done|by rewrite Eq]. }
  destruct (Ho [x]) as [E|[E|E]]; [by apply prefix_cons, prefix_nil|done| |].
  - fold p in E. rewrite E. apply wp_bind. simpl. apply Hgo; simpl; [apply lookup_insert_eq| |done].
    intros q Hq. by apply lookup_insert_ne.
  - fold p in E. rewrite E. by apply Hgo.
Qed.

Lemma write_text_returns p s h :
  p <> [] -> at_path (parent p) h = Some Dir -> entries h !! p <> Some Dir ->
  write_text p s h = (mkHost (<[p := Text s]> (entries h)) (printed h), Ok tt).
Proof.
  intros Hp Hd Hne. unfold write_text. rewrite !bind_gets, Hd, at_path_cons by done.
  by destruct (entries h !! p) as [[]|].
Qed.

Lemma parent_snoc l x : parent (l ++ [x]) = l.
Proof. apply removelast_last. Qed.

(** What writing a file leaves: the file, directories above it, the rest. *)
Definition wrote (p : path) (s : string) (h h' : Host) : Prop :=
  entries h' !! p = Some (Text s)
  /\ (forall q, q `prefix_of` p -> q <> p -> q <> [] -> entries h' !! q = Some Dir)
  /\ (forall q, ~ q `prefix_of` p -> entries h' !! q = entries h !! q).

Lemma put_returns p s h : ready h p ->
  returns (mkdir (parent p) ;;* write_text p s) (fun _ h' => printed h' = printed h /\ wrote p s h h') h.
Proof.
  intros (Hne & Ho & Hp). destruct p as [|x l _] using rev_ind; [done|]. rewrite parent_snoc.
  assert (forall q, q `prefix_of` l -> q `prefix_of` l ++ [x] /\ q <> l ++ [x]) as Hin.
  { intros q Hq. split; [by apply prefix_app_r|]. intros ->. by apply prefix_snoc_not in Hq. }
  eapply returns_bind.
  { apply mkdirs_returns. intros q Hq. apply Ho; by apply Hin. }
  intros [] h' (Hpr & Hd & Hsame). unfold wp. rewrite write_text_returns.
  - split; [done|]. split_and!; simpl.
    + apply lookup_insert_eq.
    + intros q Hq Hqp Hq0. rewrite lookup_insert_ne by done. apply Hd; [by apply (prefix_snoc q l x)|done].
    + intros q Hq. rewrite lookup_insert_ne by (intros <-; apply Hq; done).
      apply Hsame. intros r Hr _ ->. apply Hq. by apply Hin.
  - done.
  - rewrite parent_snoc. destruct l as [|y l]; [done|]. rewrite at_path_cons by done. by apply Hd.
  - rewrite Hsame; [done|]. intros q Hq _ E. destruct (Hin q Hq) as [_ Hx]. by apply Hx.
Qed.

(** No path of the list lies at or below another. *)
Definition antichain (ps : list path) : Prop :=
  NoDup ps /\ Forall (fun p => Forall (fun q => p `prefix_of` q -> p = q) ps) ps.
Lemma antichain_spec ps :
  antichain ps <-> NoDup ps /\ forall p q, p ∈ ps -> q ∈ ps -> p `prefix_of` q -> p = q.
Proof. unfold antichain. rewrite Forall_forall. setoid_rewrite Forall_forall. naive_solver. Qed.

Definition apart (p q : path) : Prop := ~ p `prefix_of` q /\ ~ q `prefix_of` p.

(** What happened between two moments touched no more than the given places:
    directories stay, other entries stay, places apart stay ready. *)
Definition extends (ps : list path) (h h' : Host) : Prop :=
  (forall q, q <> [] -> entries h !! q = Some Dir -> entries h' !! q = Some Dir)
  /\ (forall q, Forall (fun p => ~ q `prefix_of` p) ps -> entries h' !! q = entries h !! q)
  /\ (forall p', ready h p' -> Forall (apart p') ps -> ready h' p').

Lemma extends_nil h : extends [] h h.
Proof. by split_and!. Qed.
Lemma extends_both ps qs h h1 h2 : extends ps h h1 -> extends qs h1 h2 -> extends (ps ++ qs) h h2.
Proof.
  intros (A1 & A2 & A3) (B1 & B2 & B3). split_and!; [auto| |].
  - intros q [Hp Hq]%Forall_app. by rewrite B2, A2.
  - intros p' Hr [Hp Hq]%Forall_app. auto.
Qed.
Lemma wrote_extends p s h h' : ready h p -> wrote p s h h' -> extends [p] h h'.
Proof.
  intros (_ & _ & Hnd) (Hp & Hd & Hsame). split_and!.
  - intros q Hq0 Hq. destruct (decide (q `prefix_of` p)) as [Hqp|Hqp]; [|by rewrite Hsame].
    apply Hd; [done| |done]. by intros ->.
  - intros q [Hq _]%Forall_cons. by apply Hsame.
  - intros p' (Hne & Ho & Hnd') [[Hp1 Hp2] _]%Forall_cons. split_and!; [done| |by rewrite Hsame].
    intros q Hq Hqp. destruct (decide (q = [])) as [->|Hq0]; [by left|].
    destruct (decide (q `prefix_of` p)) as [Hqp'|Hqp'].
    + right; right. apply Hd; [done| |done]. by intros ->.
    + unfold open_at. rewrite Hsame by done. by apply Ho.
Qed.

(** Writing files of an antichain, one after the other, under an invariant. *)
Lemma puts_return {A} (I : Host -> Prop) (place : A -> path) (text : A -> string) (put : A -> M Host unit) fs :
  forall h,
  (forall f h, f ∈ fs -> I h -> ready h (place f) ->
     returns (put f) (fun _ h' => I h' /\ wrote (place f) (text f) h h') h) ->
  antichain (map place fs) -> I h -> Forall (fun f => ready h (place f)) fs ->
  returns (for_each fs put) (fun _ h' =>
    Forall (fun f => entries h' !! place f = Some (Text (text f))) fs /\ extends (map place fs) h h') h.
Proof.
  induction fs as [|f fs IH]; intros h Hput [Hnd Hanti]%antichain_spec Hi Hr; simpl.
  { split; [constructor|apply extends_nil]. }
  apply Forall_cons in Hr as [Hf Hr]. apply NoDup_cons in Hnd as [Hnew Hnd].
  assert (forall g, g ∈ fs -> apart (place g) (place f)) as Hapart.
  { intros g Hg. assert (place g ∈ map place fs) as Hin by (apply list_elem_of_fmap; eauto).
    split; intros Hpre; apply Hnew; [rewrite <- (Hanti (place g) (place f))|rewrite (Hanti (place f) (place g))];
      simpl; set_solver. }
  eapply returns_bind; [apply Hput; [by left|done|done]|]. intros [] h1 [Hi1 Hw]. simpl in Hw.
  pose proof (wrote_extends _ _ _ _ Hf Hw) as Hx.
  eapply returns_wand; [apply IH; [|apply antichain_spec; split; [done|]| |]|].
  - intros g h' Hg. apply Hput. by right.
  - intros p q Hp Hq. apply Hanti; simpl; set_solver.
  - done.
  - rewrite Forall_forall in Hr |- *. intros g Hg. apply Hx; [by apply Hr|]. repeat constructor; by apply Hapart.
  - intros [] h2 [Htexts He]. split; [|by apply (extends_both [place f]) with h1].
    constructor; [|done]. destruct He as (_ & Hs & _). rewrite Hs; [apply Hw|].
    apply Forall_forall. intros p (g & -> & Hg)%list_elem_of_fmap. by apply Hapart.
Qed.

Lemma mkdir_returns d h : (forall q, q `prefix_of` d -> open_at h q) ->
  returns (mkdir d) (fun _ h' =>
    printed h' = printed h
    /\ (forall q, q `prefix_of` d -> q <> [] -> entries h' !! q = Some Dir)
    /\ (forall q, ~ q `prefix_of` d -> entries h' !! q = entries h !! q)
    /\ (forall p', ready h p' -> ~ p' `prefix_of` d -> ready h' p')) h.
Proof.
  intros Ho. eapply returns_wand; [by apply mkdirs_returns|]. intros [] h' (Hpr & Hd & Hsame).
  assert (forall q, ~ q `prefix_of` d -> entries h' !! q = entries h !! q) as Hout.
  { intros q Hq. apply Hsame. intros r Hr _ ->. by apply Hq. }
  split_and!; [done|done|done|]. intros p' (Hne & Hop & Hnd) Hp'. split_and!; [done| |by rewrite Hout].
  intros q Hq Hqp. destruct (decide (q = [])) as [->|Hq0]; [by left|].
  destruct (decide (q `prefix_of` d)); [right; right; by apply Hd|].
  unfold open_at. rewrite Hout by done. by apply Hop.
Qed.

(** ** Schemas *)

Section Schemas.
Context (schemas : string -> dict) (Hjson : forall n, ExportSchemas.serializable (VDict (schemas n)) = true).

(** What [export_schemas] writes, under the names in its directory. *)
Definition schema_files : list (string * dict) :=
  map (fun n => (ExportSchemas.schema_name n, schemas n)) ExportSchemas.sorted_models
  ++ [("manifest.json", ExportSchemas.manifest)].
Definition schema_place (out : path) (f : string * dict) : path := out ++ [f.1].
Definition schema_text (f : string * dict) : string := ExportSchemas.dumps_indent 0 (VDict f.2) +:+ newline.

Lemma export_unfold out h :
  ExportSchemas.export_schemas schemas out h
  = (mkdir out ;;* for_each schema_files (fun f => ExportSchemas.write_json (schema_place out f) f.2) ;;*
     ret (map (schema_place out) schema_files)) h.
Proof.
  unfold ExportSchemas.export_schemas. unfold bind at 1 4. destruct (mkdir out h) as [h1 [[]|e]]; [|done].
  unfold bind. unfold schema_files. rewrite for_each_app. unfold bind. rewrite for_each_map.
  destruct (for_each _ _ h1) as [h2 [[]|e]]; [|done]. cbn [for_each]. unfold bind.
  destruct (ExportSchemas.write_json _ _ h2) as [h3 [[]|e]]; [|done].
  unfold ret. by rewrite List.map_app, List.map_map.
Qed.

Lemma schema_files_serializable f : f ∈ schema_files -> ExportSchemas.serializable (VDict f.2) = true.
Proof.
  unfold schema_files. rewrite elem_of_app. intros [(n & -> & _)%list_elem_of_fmap|Hf]; [apply Hjson|].
  by apply list_elem_of_singleton in Hf as ->.
Qed.
Lemma schema_names_distinct : NoDup (map fst schema_files).
Proof.
  unfold schema_files. rewrite List.map_app, List.map_map. apply (bool_decide_unpack _). vm_compute. exact I.
Qed.
Lemma schema_places_antichain out : antichain (map (schema_place out) schema_files).
Proof.
  apply antichain_spec. split.
  - unfold schema_place. rewrite <- (List.map_map fst (fun n => out ++ [n])).
    apply NoDup_fmap_2; [|apply schema_names_distinct].
    intros x y E. by apply app_inj_tail in E as [_ ->].
  - intros p q (f & -> & _)%list_elem_of_fmap (g & -> & _)%list_elem_of_fmap Hp.
    unfold schema_place in *. apply prefix_app_inv in Hp. destruct Hp as [k Hk]. simpl in Hk. by injection Hk as ->.
Qed.

Definition dirs_to (out : path) (h : Host) : Prop :=
  forall q, q `prefix_of` out -> q <> [] -> entries h !! q = Some Dir.

Lemma write_json_returns out f h : f ∈ schema_files -> dirs_to out h -> ready h (schema_place out f) ->
  returns (ExportSchemas.write_json (schema_place out f) f.2) (fun _ h' =>
    dirs_to out h' /\ wrote (schema_place out f) (schema_text f) h h') h.
Proof.
  intros Hf Hd (Hne & _ & Hnd). unfold ExportSchemas.write_json, ExportSchemas.json_dumps_2, wp, bind, lift_result.
  rewrite schema_files_serializable by done. rewrite write_text_returns; [|done| |done].
  - assert (forall q, q `prefix_of` out -> schema_place out f <> q) as Hout.
    { intros q Hq <-. by apply prefix_snoc_not in Hq. }
    split; [|split_and!]; cbn [entries].
    + intros q Hq Hq0. cbn [entries]. rewrite lookup_insert_ne by by apply Hout. by apply Hd.
    + apply lookup_insert_eq.
    + intros q Hq Hqp Hq0. rewrite lookup_insert_ne by done. apply Hd; [by apply (prefix_snoc q out f.1)|done].
    + intros q Hq. apply lookup_insert_ne. by intros <-.
  - unfold schema_place. rewrite parent_snoc. destruct out as [|x out]; [done|].
    rewrite at_path_cons by done. by apply Hd.
Qed.

Definition installed (out : path) (h : Host) : Prop :=
  Forall (fun f => entries h !! schema_place out f = Some (Text (schema_text f))) schema_files.

Lemma export_returns out h : Forall (fun f => ready h (schema_place out f)) schema_files ->
  returns (ExportSchemas.export_schemas schemas out) (fun written h' =>
    written = map (schema_place out) schema_files /\ installed out h'
    /\ extends (map (schema_place out) schema_files) h h') h.
Proof.
  intros Hr. unfold wp. rewrite export_unfold. fold (wp (mkdir out ;;* for_each schema_files
    (fun f => ExportSchemas.write_json (schema_place out f) f.2) ;;* ret (map (schema_place out) schema_files))
    (fun written h' => written = map (schema_place out) schema_files /\ installed out h'
       /\ extends (map (schema_place out) schema_files) h h') (fun _ _ => False) h).
  assert (("manifest.json", ExportSchemas.manifest) ∈ schema_files) as Hm
    by (apply elem_of_app; right; by left).
  assert (forall q, q `prefix_of` out -> q `prefix_of` schema_place out ("manifest.json", ExportSchemas.manifest)
                    /\ q <> schema_place out ("manifest.json", ExportSchemas.manifest)) as Hin.
  { intros q Hq. split; [by apply prefix_app_r|]. intros ->. by apply prefix_snoc_not in Hq. }
  eapply returns_bind.
  { apply mkdir_returns. intros q Hq. rewrite Forall_forall in Hr. apply (Hr _ Hm); by apply Hin. }
  intros [] h1 (_ & Hd & Hsame & Hkeep). eapply returns_bind.
  { apply (puts_return (dirs_to out) (schema_place out) schema_text); [|apply schema_places_antichain|done|].
    - intros f h2 Hf. by apply write_json_returns.
    - rewrite Forall_forall in Hr |- *. intros f Hf. apply Hkeep; [by apply Hr|]. apply prefix_snoc_not. }
  intros [] h2 [Htexts (B1 & B2 & B3)]. apply wp_ret. split_and!; [done|done|]. rewrite Forall_forall in Hr.
  assert (forall q, Forall (fun p => ~ q `prefix_of` p) (map (schema_place out) schema_files) -> ~ q `prefix_of` out) as Hno.
  { intros q Hq Hqo. rewrite Forall_forall in Hq. apply (Hq (schema_place out ("manifest.json", ExportSchemas.manifest)));
      [apply list_elem_of_fmap; eauto|by apply Hin]. }
  split_and!.
  - intros q Hq0 Hq. apply B1; [done|]. destruct (decide (q `prefix_of` out)); [by apply Hd|by rewrite Hsame].
  - intros q Hq. rewrite B2 by done. by apply Hsame, Hno.
  - intros p' Hp' Ha. apply B3; [|done]. apply Hkeep; [done|]. apply Hno.
    eapply Forall_impl; [exact Ha|]. by intros p [].
Qed.
(** *** The check *)

(** A place that holds a text or nothing. *)
Definition legible (h : Host) (p : path) : Prop :=
  entries h !! p = None \/ exists s, entries h !! p = Some (Text s).
(** Whether the file differs from what would be written, line ends apart. *)
Definition stale (out : path) (h : Host) (f : string * dict) : bool :=
  match entries h !! schema_place out f with
  | Some (Text s) => negb (String.eqb (universal s) (universal (schema_text f)))
  | _ => true
  end.
Definition same_tree (h h' : Host) : Prop := forall q, at_path q h' = at_path q h.

Lemma read_text_of p s h : p <> [] -> entries h !! p = Some (Text s) -> read_text p h = (h, Ok (universal s)).
Proof. intros Hp E. unfold read_text. by rewrite bind_gets, at_path_cons, E. Qed.

Lemma first_stale_spec out tmp h fs :
  Forall (fun f => entries h !! schema_place tmp f = Some (Text (schema_text f))) fs ->
  Forall (fun f => legible h (schema_place out f)) fs ->
  ExportSchemas.first_stale out (map (schema_place tmp) fs) h
  = (h, Ok (option_map (schema_place out) (List.find (stale out h) fs))).
Proof.
  induction fs as [|f fs IH]; intros Ht Hl; [done|]. cbn [map ExportSchemas.first_stale List.find].
  apply Forall_cons in Ht as [Ht Hts]. apply Forall_cons in Hl as [Hl Hls].
  assert (ExportSchemas.name_of (schema_place tmp f) = f.1) as ->.
  { unfold ExportSchemas.name_of, schema_place. by rewrite last_snoc. }
  change (out ++ [f.1]) with (schema_place out f). unfold exists_. rewrite bind_gets.
  assert (forall d, schema_place d f <> []) as Hne by (intros d; apply snoc_not_nil).
  rewrite at_path_cons by done. unfold stale at 1. destruct Hl as [E|[s E]].
  - by rewrite E.
  - rewrite E. unfold bind at 1 2. rewrite (read_text_of _ s) by done. unfold bind at 1.
    rewrite (read_text_of _ _ _ (Hne tmp) Ht). simpl. destruct (String.eqb _ _); [by apply IH|done].
Qed.

(** A name that [tempfile] may choose. *)
Definition fresh_tmp (tmp : path) (h : Host) : Prop :=
  tmp <> [] /\ (forall q, q `prefix_of` tmp -> q <> tmp -> q <> [] -> entries h !! q = Some Dir)
  /\ (forall q, tmp `prefix_of` q -> entries h !! q = None).

Lemma fresh_tmp_ready tmp h f : fresh_tmp tmp h ->
  ready (mkHost (<[tmp := Dir]> (entries h)) (printed h)) (schema_place tmp f).
Proof.
  intros (Hne & Hd & Hf). split_and!; [apply snoc_not_nil| |]; cbn [entries].
  - intros q Hq Hqp. apply prefix_snoc in Hq; [|done]. unfold open_at. cbn [entries].
    destruct (decide (q = [])) as [->|Hq0]; [by left|].
    destruct (decide (q = tmp)) as [->|Hqt]; [right; right; apply lookup_insert_eq|].
    right; right. rewrite lookup_insert_ne by done. by apply Hd.
  - rewrite lookup_insert_ne; [by rewrite Hf; [|apply prefix_app_r]|].
    intros E. apply (prefix_snoc_not tmp f.1). exists []. by rewrite app_nil_r.
Qed.

Lemma prefix_place q tmp : Exists (fun p => q `prefix_of` p) (map (schema_place tmp) schema_files) ->
  q `prefix_of` tmp \/ tmp `prefix_of` q.
Proof.
  intros (p & (f & -> & _)%list_elem_of_fmap & Hq)%Exists_exists.
  destruct (decide (q = schema_place tmp f)) as [->|Hne]; [right; by apply prefix_app_r|].
  left. by apply (prefix_snoc q tmp f.1).
Qed.

Lemma temporary_tree tmp h h2 : fresh_tmp tmp h ->
  extends (map (schema_place tmp) schema_files) (mkHost (<[tmp := Dir]> (entries h)) (printed h)) h2 ->
  (forall q, q <> [] -> ~ tmp `prefix_of` q -> entries h2 !! q = entries h !! q)
  /\ same_tree h (rmtree tmp h2).1.
Proof.
  intros (Hne & Hd & Hf) (E1 & E2 & _).
  assert (forall q, q <> [] -> ~ tmp `prefix_of` q -> entries h2 !! q = entries h !! q) as Hout.
  { intros q Hq0 Hq. assert (tmp <> q) as Hqt by (intros <-; by apply Hq).
    destruct (decide (Forall (fun p => ~ q `prefix_of` p) (map (schema_place tmp) schema_files))) as [Hall|Hall].
    - rewrite E2 by done. by apply lookup_insert_ne.
    - apply not_Forall_Exists in Hall; [|apply _]. assert (q `prefix_of` tmp) as Hqp.
      { destruct (prefix_place q tmp); [|done|done]. eapply Exists_impl; [exact Hall|].
        intros p Hp. by apply dec_stable in Hp. }
      rewrite Hd by done. apply E1; [done|]. simpl. rewrite lookup_insert_ne by done. by apply Hd. }
  split; [done|]. intros q. destruct (decide (q = [])) as [->|Hq0]; [done|].
  rewrite !at_path_cons by done. simpl. destruct (decide (tmp `prefix_of` q)) as [Hq|Hq].
  - rewrite Hf by done. apply map_lookup_filter_None. right. intros x _. unfold below.
    by rewrite bool_decide_eq_true_2.
  - rewrite <- Hout by done. apply option_eq. intros x. rewrite map_lookup_filter_Some. unfold below.
    rewrite bool_decide_eq_false_2 by done. naive_solver.
Qed.

Lemma export_check out tmp h : fresh_tmp tmp h ->
  Forall (fun f => legible h (schema_place out f) /\ ~ tmp `prefix_of` schema_place out f) schema_files ->
  exists h', ExportSchemas.main schemas true out tmp h
             = (h', Ok (if existsb (stale out h) schema_files then 1%Z else 0%Z)) /\ same_tree h h'.
Proof.
  intros Hf Hl. set (h1 := mkHost (<[tmp := Dir]> (entries h)) (printed h)).
  pose proof (export_returns tmp h1) as Hx. unfold ExportSchemas.main, temporary, try_finally.
  unfold bind at 1. change (set_entry tmp Dir h) with (h1, Ok tt). cbv beta iota. unfold bind at 1. unfold wp in Hx.
  destruct (ExportSchemas.export_schemas schemas tmp h1) as [h2 [fresh|e]]; last first.
  { destruct Hx. apply Forall_forall. intros f _. by apply fresh_tmp_ready. }
  destruct Hx as (-> & Hin & He); [apply Forall_forall; intros f _; by apply fresh_tmp_ready|].
  destruct (temporary_tree tmp h h2 Hf He) as [Hsame Htree]. rewrite Forall_forall in Hl.
  assert (forall f, f ∈ schema_files -> entries h2 !! schema_place out f = entries h !! schema_place out f) as Hcur.
  { intros f Hff. apply Hsame; [apply snoc_not_nil|by apply Hl]. }
  unfold bind at 1. rewrite first_stale_spec; [|done|].
  - assert (forall fs, fs ⊆ schema_files -> List.find (stale out h2) fs = List.find (stale out h) fs) as Hfind.
    { induction fs as [|f fs IH]; intros Hs; [done|]. simpl. rewrite IH by set_solver.
      unfold stale at 1. rewrite Hcur by set_solver. done. }
    rewrite Hfind by done. destruct (List.find (stale out h) schema_files) as [f|] eqn:Ef.
    + apply List.find_some in Ef as [Hff Hst]. rewrite (proj2 (existsb_exists _ _)) by eauto.
      eexists. split; [reflexivity|exact Htree].
    + destruct (existsb (stale out h) schema_files) eqn:Ex.
      { apply existsb_exists in Ex as (f & Hff & Hst). by rewrite (List.find_none _ _ Ef f Hff) in Hst. }
      eexists. split; [reflexivity|exact Htree].
  - apply Forall_forall. intros f Hff. unfold legible. rewrite Hcur by done. by apply Hl.
Qed.
End Schemas.

(** ** The skill pack *)

(** The manifest's models, and the pack generated from them. *)
Definition models : dict :=
  match SkillPack.models_of (VDict ExportSchemas.manifest) with Ok d => d | Exn _ => [] end.
Definition pack : list (string * string) :=
  match SkillPack.render_all models with Ok l => l | Exn _ => [] end.
Definition pack_place (root : path) (f : string * string) : path := SkillPack.path_of root f.1.
Definition schemas_dir (root : path) : path := root ++ ["packages"; "contracts"; "schemas"].

Lemma manifest_loads :
  Json.loads (universal (ExportSchemas.dumps_indent 0 (VDict ExportSchemas.manifest) +:+ newline))
  = Ok (VDict ExportSchemas.manifest).
Proof. vm_compute. reflexivity. Qed.
Lemma pack_rendered : SkillPack.render_all models = Ok pack.
Proof. vm_compute. reflexivity. Qed.
Lemma pack_plain : Forall (fun f => universal f.2 = f.2) pack.
Proof. apply (bool_decide_unpack _). vm_compute. exact I. Qed.
Lemma pack_antichain : antichain (map (pack_place []) pack).
Proof. apply (bool_decide_unpack _). vm_compute. exact I. Qed.
Lemma pack_outside : Forall (fun f => head (pack_place [] f) <> Some "packages" /\ pack_place [] f <> []) pack.
Proof. apply (bool_decide_unpack _). vm_compute. exact I. Qed.

Lemma antichain_under root ps : antichain ps -> antichain (map (app root) ps).
Proof.
  intros [Hnd Ha]%antichain_spec. apply antichain_spec. split.
  - apply NoDup_fmap_2; [|done]. intros x y. apply app_inv_head.
  - intros p q (p' & -> & Hp)%list_elem_of_fmap (q' & -> & Hq)%list_elem_of_fmap Hpre.
    apply prefix_app_inv in Hpre. by rewrite (Ha p' q').
Qed.
Lemma pack_places_antichain root : antichain (map (pack_place root) pack).
Proof.
  pose proof (antichain_under root _ pack_antichain) as H. rewrite List.map_map in H. exact H.
Qed.
Lemma pack_apart root (f : string * string) (g : string * dict) :
  f ∈ pack -> apart (pack_place root f) (schema_place (schemas_dir root) g).
Proof.
  intros Hf. pose proof pack_outside as Ho. rewrite Forall_forall in Ho. destruct (Ho f Hf) as [Hh Hne].
  change (pack_place root f) with (root ++ pack_place [] f).
  unfold schema_place, schemas_dir. rewrite <- app_assoc. destruct (pack_place [] f) as [|x l]; [done|].
  split; intros Hp%prefix_app_inv; apply prefix_cons_inv_1 in Hp; by subst.
Qed.

Definition drifts (root : path) (h : Host) (f : string * string) : bool :=
  match entries h !! pack_place root f with
  | Some (Text s) => negb (String.eqb (universal s) f.2)
  | _ => true
  end.

Lemma check_files_spec root fs : forall b h,
  Forall (fun f => pack_place root f <> [] /\ legible h (pack_place root f)) fs ->
  exists h', SkillPack.check_files root fs b h = (h', Ok (b || existsb (drifts root h) fs))
    /\ entries h' = entries h
    /\ printed h' = printed h ++ map (fun f => "DRIFT: " +:+ f.1) (List.filter (drifts root h) fs).
Proof.
  induction fs as [|f fs IH]; intros b h Hl.
  { exists h. rewrite orb_false_r. simpl. by rewrite app_nil_r. }
  apply Forall_cons in Hl as [[Hne Hl] Hls]. cbn [SkillPack.check_files].
  assert (exists h1, SkillPack.check_file root f h = (h1, Ok (drifts root h f)) /\ entries h1 = entries h
    /\ printed h1 = printed h ++ (if drifts root h f then ["DRIFT: " +:+ f.1] else [])) as (h1 & E & He & Hp).
  { unfold SkillPack.check_file, exists_. rewrite bind_gets. fold (pack_place root f).
    rewrite at_path_cons by done. unfold drifts. destruct Hl as [E|[s E]]; rewrite E.
    - by eexists.
    - unfold bind at 1 2. rewrite (read_text_of _ s) by done. simpl.
      destruct (String.eqb _ _); eexists; split_and!; try done. simpl. by rewrite app_nil_r. }
  unfold bind at 1. rewrite E. destruct (IH (b || drifts root h f) h1) as (h2 & E2 & He2 & Hp2).
  { unfold legible in *. by rewrite He. }
  assert (drifts root h1 = drifts root h) as Hdr by (unfold drifts; by rewrite He).
  exists h2. rewrite E2, Hdr. cbn [existsb]. rewrite orb_assoc. split_and!; [done|congruence|].
  rewrite Hp2, Hp, Hdr. simpl. destruct (drifts root h f); simpl; by rewrite <- app_assoc.
Qed.

Definition manifest_place (root : path) : path := schemas_dir root ++ ["manifest.json"].
Definition manifest_text : string := ExportSchemas.dumps_indent 0 (VDict ExportSchemas.manifest) +:+ newline.

Lemma load_manifest_of root h : entries h !! manifest_place root = Some (Text manifest_text) ->
  SkillPack.load_manifest root h = (h, Ok models).
Proof.
  intros E. unfold SkillPack.load_manifest.
  assert (root ++ ["packages"; "contracts"; "schemas"; "manifest.json"] = manifest_place root) as ->
    by (unfold manifest_place, schemas_dir; by rewrite <- app_assoc).
  unfold bind at 1. rewrite (read_text_of _ manifest_text) by (done || apply snoc_not_nil).
  unfold bind, lift_result, manifest_text. by rewrite manifest_loads.
Qed.

Lemma put_file_returns root f h : ready h (pack_place root f) ->
  returns (SkillPack.put_file root f) (fun _ h' => True /\ wrote (pack_place root f) f.2 h h') h.
Proof.
  intros Hr. pose proof (put_returns (pack_place root f) f.2 h Hr) as Hp. unfold SkillPack.put_file.
  fold (pack_place root f). unfold wp, bind in *. destruct (mkdir _ h) as [h1 [[]|e]]; [|done].
  destruct (write_text _ _ h1) as [h2 [[]|e]]; [|done]. simpl. by destruct Hp.
Qed.

Lemma generate_returns root h : entries h !! manifest_place root = Some (Text manifest_text) ->
  Forall (fun f => ready h (pack_place root f)) pack ->
  exists h', SkillPack.main root false h = (h', Ok 0%Z)
    /\ Forall (fun f => entries h' !! pack_place root f = Some (Text f.2)) pack
    /\ extends (map (pack_place root) pack) h h'.
Proof.
  intros Hm Hr. pose proof (puts_return (fun _ => True) (pack_place root) (fun f => f.2) (SkillPack.put_file root) pack h
    ltac:(intros; by apply put_file_returns) (pack_places_antichain root) I Hr) as Hp.
  unfold SkillPack.main. unfold bind at 1. change (lift_result SkillPack.check_pins h) with (h, Ok (A:=unit) tt).
  cbv beta iota. unfold bind at 1. rewrite load_manifest_of by done. unfold bind at 1, lift_result. rewrite pack_rendered.
  unfold bind, wp in *. destruct (for_each pack _ h) as [h' [[]|e]]; [|done]. by exists h'.
Qed.
Lemma check_returns root h : entries h !! manifest_place root = Some (Text manifest_text) ->
  Forall (fun f => legible h (pack_place root f)) pack ->
  exists h', SkillPack.main root true h
             = (h', Ok (if existsb (drifts root h) pack then 1%Z else 0%Z))
    /\ entries h' = entries h
    /\ printed h' = printed h ++ map (fun f => "DRIFT: " +:+ f.1) (List.filter (drifts root h) pack).
Proof.
  intros Hm Hl. destruct (check_files_spec root pack false h) as (h' & E & He & Hp).
  { rewrite Forall_forall in Hl |- *. intros f Hf. split; [|by apply Hl]. pose proof pack_outside as Ho.
    rewrite Forall_forall in Ho. destruct (Ho f Hf) as [_ Hne]. change (root ++ pack_place [] f <> []).
    by intros [_ ?]%app_nil. }
  exists h'. split; [|done]. unfold SkillPack.main. unfold bind at 1.
  change (lift_result SkillPack.check_pins h) with (h, Ok (A:=unit) tt). cbv beta iota.
  unfold bind at 1. rewrite load_manifest_of by done. unfold bind at 1, lift_result. rewrite pack_rendered.
  unfold bind. by rewrite E.
Qed.

Lemma pack_texts_in root h h' : (forall p, p <> [] -> entries h' !! p = entries h !! p) ->
  Forall (fun f => entries h !! pack_place root f = Some (Text f.2)) pack ->
  Forall (fun f => entries h' !! pack_place root f = Some (Text f.2)) pack.
Proof.
  intros Heq Ht. pose proof pack_outside as Ho. rewrite Forall_forall in Ho. rewrite Forall_forall in Ht |- *. intros f Hf.
  rewrite Heq; [by apply Ht|]. change (root ++ pack_place [] f <> []). intros [_ ?]%app_nil. by apply (Ho f Hf).
Qed.
Lemma not_drifted root h :
  Forall (fun f => entries h !! pack_place root f = Some (Text f.2)) pack -> existsb (drifts root h) pack = false.
Proof.
  intros Ht. apply not_true_iff_false. intros (f & Hf & Hd)%existsb_exists. apply list_elem_of_In in Hf.
  pose proof pack_plain as Hp. rewrite Forall_forall in Ht. rewrite Forall_forall in Hp. unfold drifts in Hd.
  by rewrite Ht, Hp, String.eqb_refl in Hd.
Qed.
Lemma not_stale schemas out h h' : (forall p, p <> [] -> entries h' !! p = entries h !! p) ->
  installed schemas out h -> existsb (stale out h') (schema_files schemas) = false.
Proof.
  intros Heq Hin. apply not_true_iff_false. intros (f & Hf & Hd)%existsb_exists. apply list_elem_of_In in Hf.
  unfold installed in Hin. rewrite Forall_forall in Hin. unfold stale in Hd.
  by rewrite Heq, Hin, String.eqb_refl in Hd by (done || apply snoc_not_nil).
Qed.
Lemma fresh_tmp_later ps tmp h h2 h3 : (forall p, p <> [] -> entries h3 !! p = entries h2 !! p) ->
  extends ps h h2 -> Forall (fun p => ~ tmp `prefix_of` p) ps -> fresh_tmp tmp h -> fresh_tmp tmp h3.
Proof.
  intros Heq (E1 & E2 & _) Hout (Hne & Hd & Hf). split_and!; [done| |].
  - intros q Hq Hqt Hq0. rewrite Heq by done. apply E1; [done|]. by apply Hd.
  - intros q Hq. assert (q <> []) as Hq0 by (intros ->; by apply prefix_nil_inv in Hq).
    rewrite Heq, E2 by (done || (eapply Forall_impl; [exact Hout|]; intros p Hp Hqp; apply Hp; by etransitivity)).
    by apply Hf.
Qed.

(** C40. Generated files agree with their sources.  Where nothing is in the way,
    exporting the schemas and then generating the skill pack succeeds; the tree
    they leave passes both checks, which leave it as it is; and on any tree with
    the exported manifest, the pack's check answers 1 exactly when a file of the
    pack is missing or has another text, line ends apart, names exactly those,
    and writes nothing. *)
Theorem generated_files_agree schemas root tmp h :
  (forall n, ExportSchemas.serializable (VDict (schemas n)) = true) ->
  Forall (fun f => ready h (schema_place (schemas_dir root) f)) (schema_files schemas) ->
  Forall (fun f => ready h (pack_place root f)) pack ->
  fresh_tmp tmp h -> Forall (fun p => ~ tmp `prefix_of` p)
    (map (schema_place (schemas_dir root)) (schema_files schemas) ++ map (pack_place root) pack) ->
  exists h1 h2,
    ExportSchemas.main schemas false (schemas_dir root) tmp h = (h1, Ok 0%Z)
    /\ SkillPack.main root false h1 = (h2, Ok 0%Z)
    /\ (forall h3, same_tree h2 h3 ->
         (exists h4, ExportSchemas.main schemas true (schemas_dir root) tmp h3 = (h4, Ok 0%Z) /\ same_tree h3 h4)
         /\ (exists h4, SkillPack.main root true h3 = (h4, Ok 0%Z) /\ same_tree h3 h4))
    /\ (forall h3, entries h3 !! manifest_place root = entries h2 !! manifest_place root ->
         Forall (fun f => legible h3 (pack_place root f)) pack ->
         exists h4, SkillPack.main root true h3 = (h4, Ok (if existsb (drifts root h3) pack then 1%Z else 0%Z))
           /\ entries h4 = entries h3
           /\ printed h4 = printed h3 ++ map (fun f => "DRIFT: " +:+ f.1) (List.filter (drifts root h3) pack)).
Proof.
  intros Hj Hs Hp Htmp Hout. set (out := schemas_dir root) in *.
  pose proof (export_returns schemas Hj out h Hs) as Hx. unfold wp in Hx.
  destruct (ExportSchemas.export_schemas schemas out h) as [h0 [written|e]] eqn:Ex; [|done].
  destruct Hx as (-> & Hin & He). set (ps := map (schema_place out) (schema_files schemas)) in *.
  eassert (ExportSchemas.main schemas false out tmp h = (_, Ok 0%Z)) as E1
    by (unfold ExportSchemas.main, bind; rewrite Ex; reflexivity).
  match type of E1 with _ = (?x, _) => set (h1 := x) in * end.
  destruct (generate_returns root h1) as (h2 & E2 & Htexts & He2).
  { unfold installed in Hin. rewrite Forall_forall in Hin. apply (Hin ("manifest.json", ExportSchemas.manifest)).
    apply elem_of_app. right. by left. }
  { rewrite Forall_forall in Hp |- *. intros f Hf. change (ready h0 (pack_place root f)). apply He; [by apply Hp|].
    apply Forall_forall. intros p (g & -> & _)%list_elem_of_fmap. by apply pack_apart. }
  exists h1, h2. split; [done|]. split; [done|].
  assert (extends (ps ++ map (pack_place root) pack) h h2) as Hall by (by apply (extends_both ps) with h1).
  assert (installed schemas out h2) as Hin2.
  { unfold installed in *. rewrite Forall_forall in Hin |- *. intros f Hf. rewrite <- (Hin f Hf).
    apply He2. apply Forall_forall. intros p (g & -> & Hg)%list_elem_of_fmap. by apply (pack_apart root g f). }
  assert (entries h2 !! manifest_place root = Some (Text manifest_text)) as Hm.
  { unfold installed in Hin2. rewrite Forall_forall in Hin2. apply (Hin2 ("manifest.json", ExportSchemas.manifest)).
    apply elem_of_app. right. by left. }
  split; [|intros h3 Hm3 Hl; apply check_returns; congruence].
  intros h3 Htree.
  assert (forall p, p <> [] -> entries h3 !! p = entries h2 !! p) as Heq.
  { intros p Hne. specialize (Htree p). by rewrite !at_path_cons in Htree. }
  assert (forall (d : string * dict), schema_place out d <> []) as Hne by (intros d; apply snoc_not_nil).
  split.
  - destruct (export_check schemas Hj out tmp h3) as (h4 & E & Ht).
    + by apply (fresh_tmp_later (ps ++ map (pack_place root) pack) tmp h h2).
    + unfold installed in Hin2. rewrite Forall_forall in Hin2. rewrite Forall_forall in Hout.
      apply Forall_forall. intros f Hf. split.
      * right. exists (schema_text f). rewrite Heq by done. by apply Hin2.
      * apply Hout, elem_of_app. left. apply list_elem_of_fmap; eauto.
    + exists h4. rewrite E. split; [|done]. by rewrite (not_stale schemas out h2 h3).
  - destruct (check_returns root h3) as (h4 & E & He4 & _).
    + rewrite Heq; [done|apply snoc_not_nil].
    + eapply Forall_impl; [exact (pack_texts_in root h2 h3 Heq Htexts)|]. intros f Hf. right. by exists f.2.
    + exists h4. rewrite E. split; [|intros [|x q]; simpl; by rewrite ?He4].
      by rewrite (not_drifted root h3) by by apply (pack_texts_in root h2 h3).
Qed.

(** ** A checkout with nothing generated yet *)

Module PackDemo.
Definition root : path := ["repo"].
Definition tmp : path := ["tmp"; "t1"].
Definition disk : Host := mkHost {[ ["tmp"] := Dir ]} [].
Definition schemas (model : string) : dict := [("title", VStr model); ("required", VList [VStr "id"])].

Lemma ready_under p : p <> [] -> head p <> Some "tmp" -> ready disk p.
Proof.
  intros Hne Hh. split_and!; [done| |].
  - intros [|x q] Hq Hqp; [by left|]. right; left. unfold disk; cbn [entries]. apply lookup_singleton_ne.
    intros [= <- <-]. by destruct Hq as [k ->].
  - unfold disk; cbn [entries]. rewrite lookup_singleton_ne; [done|]. by intros <-.
Qed.
Lemma places_ready :
  Forall (fun f => ready disk (schema_place (schemas_dir root) f)) (schema_files schemas)
  /\ Forall (fun f => ready disk (pack_place root f)) pack.
Proof. split; apply Forall_forall; intros f _; by apply ready_under. Qed.
Lemma tmp_fresh : fresh_tmp tmp disk.
Proof.
  split_and!; [done| |].
  - intros q Hq Hqt Hq0. apply (prefix_snoc q ["tmp"] "t1") in Hq; [|done]. destruct q as [|x q]; [done|].
    assert (x = "tmp") as -> by by apply prefix_cons_inv_1 in Hq.
    apply prefix_cons_inv_2, prefix_nil_inv in Hq as ->. apply lookup_singleton_eq.
  - intros q [k ->]. by apply lookup_singleton_ne.
Qed.
(** The host after both scripts, and one on which a file was edited. *)
Definition generated : Host :=
  (SkillPack.main root false (ExportSchemas.main schemas false (schemas_dir root) tmp disk).1).1.
Definition edited (text : string) : Host :=
  mkHost (<[ ["repo"; "AGENTS.md"] := Text text ]> (entries generated)) [].
End PackDemo.

Lemma generated_files_agree_witness :
  fresh_tmp PackDemo.tmp PackDemo.disk
  /\ exists h1 h2,
    ExportSchemas.main PackDemo.schemas false (schemas_dir PackDemo.root) PackDemo.tmp PackDemo.disk = (h1, Ok 0%Z)
    /\ SkillPack.main PackDemo.root false h1 = (h2, Ok 0%Z)
    /\ (exists h4, ExportSchemas.main PackDemo.schemas true (schemas_dir PackDemo.root) PackDemo.tmp h2 = (h4, Ok 0%Z)
         /\ same_tree h2 h4)
    /\ exists h4, SkillPack.main PackDemo.root true h2 = (h4, Ok 0%Z) /\ same_tree h2 h4.
Proof.
  split; [exact PackDemo.tmp_fresh|].
  destruct (generated_files_agree PackDemo.schemas PackDemo.root PackDemo.tmp PackDemo.disk) as (h1 & h2 & E1 & E2 & Hc & _).
  - intros n. reflexivity.
  - apply PackDemo.places_ready.
  - apply PackDemo.places_ready.
  - exact PackDemo.tmp_fresh.
  - apply (bool_decide_unpack _). vm_compute. exact I.
  - exists h1, h2. destruct (Hc h2 (fun q => eq_refl)) as [Ha Hb].
    split; [exact E1|]. split; [exact E2|]. split; [exact Ha|exact Hb].
Defined.

(** An edited file is reported, a file with other line ends is not. *)
Example edits_are_drift :
  let check h := let r := SkillPack.main PackDemo.root true h in (r.2, printed r.1) in
  check (PackDemo.edited "edited") = (Ok 1%Z, ["DRIFT: AGENTS.md"])
  /\ match dget "AGENTS.md" pack with
     | Some text => check (PackDemo.edited (PyStr.replace newline (String "013" newline) text)) = (Ok 0%Z, [])
     | None => False
     end.
Proof. vm_compute. split; reflexivity. Qed.
